(* ===== verification/_CoqProject ===== *)
-Q . S2P
Prelude.v
CInt.v
ListHead.v
Circular.v
Memory.v
Errno.v
Console.v
LibC.v
Random.v
Ticks.v
Pacman.v
PathSearch.v
Render.v
User.v
Build.v
Paging.v
Hardware.v
Descriptors.v
Kernel.v
Mm.v
Space.v
Words.v
Sched.v
Boot.v
Interrupt.v
System.v
UserIO.v
Process.v
Shm.v
Fork.v
Exit.v
Fault.v
Types.v
Entries.v
Population.v
Steps.v
CodeWrites.v
Births.v
Life.v
Bootsect.v
Isolation.v
Keyboard.v
Input.v
Gate.v
Stacks.v
Turns.v
Registers.v
Calls.v
Twice.v
