(* ===== verification/Prelude.v ===== *)
(** * ZeOS and its game: a verification library

    ** The program

    [src/zeos] is ZeOS, a small 32-bit kernel, with the game it runs in user
    mode.  The boot sector loads the kernel image; [main] (system.c) sets up the
    screen, the descriptor tables, the interrupts, the memory and the scheduler,
    copies the user program into the pages of the first process and jumps to
    it.  From then on the kernel is entered by the clock (which ends the
    quantum of the running process), by the keyboard (which fills a ring buffer),
    by page faults and by system calls.  The user program forks: one process
    reads the keyboard and writes a page shared with the other, which plays.

    ** The files

    State is explicit.  A computation of C code is a term of the monad [M S A]
    of this file: it reads and changes a state of type [S], answers an [A], and
    has no result ([None]) at a machine fault: an access through an unmapped
    address, outside an array, a division by zero.  [wp m Q s] is total
    correctness: [m] runs without a fault from [s] and ends in [Q].  [gives P m R] is
    the preservation of an invariant [P] by the runs of [m] that do not fault.  The width
    of an integer is written out at each operation that can wrap (CInt.v).

    - Prelude.v: the monad, its proof rules, loops, C arrays ([znth], [zset]);
      CInt.v: 8-, 16- and 32-bit integers; Errno.v: the error numbers.
    - ListHead.v: list.c, include/list.h.  A store of anchors ([links]) with the
      aliasing of the C lists; [ring h hd xs] is the representation of a
      sequence, [rings] the one of several disjoint lists.
    - Circular.v: circular.c, the ring buffer of the keyboard.
    - Memory.v: the copies of utils.c over [ByteMem], the interface of a byte
      memory with address translation; the instances are plain memory ([FlatMem])
      and the paged memory of Kernel.v ([PagedMem]).
    - Console.v: io.c, devices.c and the screen calls of sys.c, on the text
      video memory; the terminal is its abstract specification.
    - LibC.v, Random.v: libc.c (strings, numbers, time, errors) and the full period
      of its generator; Ticks.v: do_div and get_ticks of utils.c.
    - Paging.v: of mm.c, the reference counts of the frames ([Frames]), the bit
      fields of a page table entry ([PTE]), directories and tables
      ([PageTable]).  Hardware.v: hardware.c, the processor and its control
      registers.  Descriptors.v: GDT, IDT, TSS and their registers.
    - Kernel.v: the state of the kernel: the PCBs and stacks of the task unions,
      the anchors of the queues and of the family, tables, frames, physical
      memory, the processor ([esp], [cr0], [cr3], the MSRs) and the globals, with
      the address translation.  The addresses the linker chooses are the class
      [Layout], what the code needs of them the class [LayoutOk], and
      [example_layout] is an instance of both.
    - Mm.v, Space.v: the memory management of a process (mm.c, sched.c) and the
      address space it sees; Words.v: the words and bytes a process loads and
      stores in it.
    - Sched.v: sched.c and the stack switch of kernel_misc.S; [sched_inv] is the
      invariant of the scheduler, kept by every operation on processes; Boot.v:
      the initialisation of the scheduler; System.v: system.c.
    - Interrupt.v: interrupt.c; UserIO.v, Process.v, Shm.v: the system calls of
      sys.c on user buffers, on processes and on shared pages; Fork.v and
      Exit.v: what fork and exit do, stage by stage.  [fams] is the family: the
      list of sons of each process.  Fault.v: what the page-fault routine does.
    - Entries.v: the dispatch of entry.S over the table of sys_call_table.S, which
      composes the interrupts and the system calls into runs of the kernel
      ([handle_entries]); Types.v: the ranges of the values in the state
      ([typed]) and why each operation keeps them.
    - Population.v: the processes, their families and their memory, and that they
      are [alive] in a state; Steps.v: the entries that leave the population as
      it is; Births.v: the population after fork and after exit; Life.v: runs.
      CodeWrites.v: the page faults that make a code page writable.
      Isolation.v: what an entry does to the memory of the processes.
    - Gate.v: the handlers of entry.S with the registers they save and restore on
      the kernel stack, and [ret_from_fork]; Stacks.v: what the routines do
      to those stacks; Turns.v: what the processes that wait have on theirs
      ([resting]) and who has the processor after a routine; Registers.v: the
      registers of every process through an entry.
    - Calls.v: the wrappers of user_misc.S, from the call in user mode to its
      return; Twice.v: fork seen from user mode, and [main] of user.c.
    - Keyboard.v: the way of a key to the memory of a process; Input.v: the process
      of user.c that forwards the keys to the shared page.
    - Pacman.v, PathSearch.v, Render.v: the rules of the game, the searches of the
      ghosts and the pictures (pacman.c); User.v: the process of user.c
      that plays.
    - Build.v: build.c, the program of the host that makes the disk image.
      Bootsect.v: bootsect.S, from the disk to [main]; the BIOS is the class [Bios] with
      its law [BiosOk], which [example_bios] satisfies.

    ** The theorems

    - Scheduling.  From the invariant, [round_robin_fair]: every ready process
      runs after the ones before it; [schedule_policy]: when the processor is
      taken away and who gets it; [task_switch_resumes]: a switched process
      resumes with the stack, the directory and the registers it left;
      [quantum_respected]: ticks of the clock; block, unblock, fork and exit
      ([sys_block_correct], [sys_unblock_correct], [sys_fork_correct],
      [sys_exit_correct]) keep the invariant and do what they promise on each
      branch; [exit_after_son_faults]: a father cannot exit after its son.
    - Runs.  [no_process_is_lost]: from the start on, interrupts and system calls,
      fork, exit and the shared pages included, in any order neither fault nor
      lose a process or its memory.  The conditions of [enabled] are what the code
      does not check: a buffer ends in the user area, an address of a shared page
      is in the table, fork finds twenty frames and pages, a process exits before
      its sons do, [sys_block] finds a process to run, the first process does not
      count its brothers; page faults are included.  [registers_survive]: each
      entry keeps the registers of the processes that wait and gives the one that
      gets the processor its own, but for the answer of its call.  [call_returns]: a call of the
      library enters the kernel with its parameters and comes back to its
      caller, over the address its wrapper pushed, with the answer or with -1 and
      errno.  [fork_returns_twice]: the
      father and the child come back from the same call.
      [processes_are_isolated]: no entry and no store of a
      process touches the memory of another.  [kernel_stays_typed]: from the loaded image on and
      whatever is called, every value stays in the range of its type.
    - Memory.  [init_mm_correct], [set_user_pages_correct], [alloc_free_correct]:
      tables and frames; [page_mapping_round_trip], [shared_page_round_trip]:
      mapping and unmapping; [page_fault_correct]: every branch of the page-fault
      routine; [copy_data_is_bytewise]: the copies by words against the copy byte
      by byte.
      [boot_correct] composes all of it: from the loaded image, whose first two
      words are the sizes that [main] reads, to user mode.
    - Input and output.  [access_ok_protects_kernel], [sys_write_correct],
      [sys_read_correct]: the system calls on user buffers, error paths
      included; [write_console_refines_terminal]: the screen;
      [circular_fifo_refinement]: the buffer of the keyboard;
      [keys_reach_the_game] composes it with the keyboard interrupt, [sys_read],
      the shared page and the loop of user.c, up to what the process that plays
      sees.
    - Data structures.  [list_ops_refine_sequences], [circular_fifo_refinement]:
      refinement of sequences and queues.
    - The library.  [itodeca_correct]; [do_div_correct]: the 64-bit division by
      32-bit steps; as lemmas the full period of [rand], the round trips of the
      descriptors, the hexadecimal numerals and the string functions.
    - The game.  [game_is_safe]: no access leaves the arrays and nobody enters a
      wall; [pacman_step_correct], against the rules written out ([enters],
      [collides]); [ghosts_turn_ends], against the turns of the ghosts ([turn]);
      [bfs_correct]: shortest ways; [renderMap_shows_map] and
      [game_frame_correct]: the picture and a frame of the loop; as lemmas the name of the player, the
      timers and the priority queue.
    - The image.  [build_correct]: where the disk image has the boot sector, the
      kernel, the user program and their sizes, which [main] reads at the start.
      [files_reach_user_mode] composes it with the boot sector and [main]: from the
      files to the first instruction of the user program.  As lemmas, what the boot
      sector leaves in the interrupt controllers and the descriptor tables.

    ** Fuel and bounds

    A C loop that is not counted is [while] or a [Fixpoint] with fuel, and
    running out of fuel is a fault (in the ghosts' loop, and in the frame around it,
    an answer of its own: [None] without a fault), so that a [wp] of such a loop is also its
    termination.  The fuel is a bound of the code: the size of the
    block for the copies, 11 and 9 digits for the numbers, 1024 passes for
    the loader, 385 for the search
    of a frame (the candidates 256, 258, ... below 1024), one more than the number
    of anchors for a walk along a list.  Where no bound exists the theorem gives
    a fuel that is enough, or says that there is none: the loop of the ghosts
    ([ghosts_turn_ends], [game_frame_correct]), [sleep] and the loop that waits
    for a frame, which depend on the clock.  PIDs, ticks and quanta keep their 32 bits; their wrap-around
    is excluded only where a theorem says so.

    ** Not modelled

    - Of bootsect.S, the messages on the screen, the motor of the disk drive, the
      handshakes with the keyboard controller and the jump that switches the mode:
      they lead to the state in which [main] starts ([loaded_image]).
    - libzeos.a and libauxjp.a have no source: [set_handlers] is a parameter that
      [boot_correct] uses through its documented effect ([fills_gates]).
    - Of entry.S, [sus_call_handler], to which no gate of the IDT leads, and the
      end-of-interrupt commands, which change nothing in the state.
    - The loop of [cpu_idle] and the endless loops of the error paths: their
      addresses, or the point where they begin, are the end of a run.
    - The two instructions of [main] between [enable_int] and the jump to user mode,
      where an interrupt may already arrive: [boot_correct] is about the run
      without one.
    - Interrupts arrive between the operations of the model, as they do in the
      code, which runs with interrupts off inside the kernel. *)

From Stdlib Require Export ZArith Lia.
From stdpp Require Export base numbers option gmap sets list.

#[export] Set Default Goal Selector "!".

(** ** Scope and notations of the development *)

Declare Scope zeos_scope.
Delimit Scope zeos_scope with zeos.

(** [p .[ x ]]: the C reading of a truth value as an [int]. *)
Definition b2z (b : bool) : Z := if b then 1 else 0.

Notation "'⟦' b '⟧'" := (b2z b) (format "⟦ b ⟧") : zeos_scope.

Open Scope zeos_scope.
Open Scope Z_scope.

(** ** The error-state monad of the kernel code

    [M S A] is a computation of C code that reads and changes a state of type
    [S] and returns an [A]; [None] is a machine fault (an access through a null
    or an unmapped pointer), after which the code has no defined result. *)

Definition M (S A : Type) : Type := S → option (A * S).

#[export] Instance M_ret S : MRet (M S) := λ A a s, Some (a, s).
#[export] Instance M_bind S : MBind (M S) := λ A B f m s,
  match m s with Some (a, s') => f a s' | None => None end.

(** [gets f] reads the state, [modify f] replaces it, [lift f] runs a partial
    function of the state, [ask f] reads through a partial function. *)
Definition gets {S A} (f : S → A) : M S A := λ s, Some (f s, s).
Definition modify {S} (f : S → S) : M S unit := λ s, Some (tt, f s).
Definition ask {S A} (f : S → option A) : M S A := λ s, a ← f s; Some (a, s).
Definition lift {S} (f : S → option S) : M S unit := λ s, s' ← f s; Some (tt, s').
Definition fault {S A} : M S A := λ _, None.

(** A computation on a part of the state. *)
Definition zoom {S T A} (get : S → T) (put : T → S → S) (m : M T A) : M S A := λ s,
  match m (get s) with Some (a, t) => Some (a, put t s) | None => None end.

(** Total correctness: [wp m Q s] says that [m] runs without a fault from [s]
    and ends with a result and a state that satisfy [Q]. *)
Definition wp {S A} (m : M S A) (Q : A → S → Prop) (s : S) : Prop :=
  match m s with Some (a, s') => Q a s' | None => False end.

(** ** Loops *)

(** [for (i = lo; n iterations; i++) body], the state threaded through. *)
Fixpoint for_up {S} (n : nat) (i : Z) (body : Z → M S unit) : M S unit :=
  match n with
  | O => mret tt
  | Datatypes.S n' => body i ;; for_up n' (i + 1) body
  end.

(** [while (cond) body] with fuel: [None] also when the fuel runs out. *)
Fixpoint while {S} (fuel : nat) (cond : S → bool) (body : S → option S) (s : S) : option S :=
  match fuel with
  | O => None
  | Datatypes.S f => if cond s then s' ← body s; while f cond body s' else Some s
  end.

Create HintDb zeos.
Create Rewrite HintDb zeos.

Section wp.
Context {S : Type}.

Lemma wp_mono {A} (m : M S A) (Q Q' : A → S → Prop) s :
  wp m Q s → (∀ a s', Q a s' → Q' a s') → wp m Q' s.
Proof. unfold wp. destruct (m s) as [[a s']|]; auto. Qed.

(** Two facts on the same run. *)
Lemma wp_and {A} (m : M S A) (Q Q' : A → S → Prop) s :
  wp m Q s → wp m Q' s → wp m (λ a s', Q a s' ∧ Q' a s') s.
Proof. unfold wp. destruct (m s) as [[a s']|]; auto. Qed.

Lemma wp_bind {A B} (m : M S A) (f : A → M S B) Q s :
  wp m (λ a, wp (f a) Q) s → wp (m ≫= f) Q s.
Proof.
  unfold wp, mbind, M_bind. destruct (m s) as [[a s']|]; auto.
Qed.

Lemma wp_ret {A} (a : A) Q s : Q a s → wp (mret a : M S A) Q s.
Proof. auto. Qed.

Lemma wp_gets {A} (f : S → A) Q (s : S) : Q (f s) s → wp (gets f) Q s.
Proof. auto. Qed.

Lemma wp_modify (f : S → S) Q s : Q tt (f s) → wp (modify f) Q s.
Proof. auto. Qed.

Lemma wp_ask {A} (f : S → option A) a Q s :
  f s = Some a → Q a s → wp (ask f) Q s.
Proof. unfold wp, ask. intros ->. auto. Qed.

Lemma wp_zoom {T A} (get : S → T) put (m : M T A) (Q : A → S → Prop) s :
  wp m (λ a x, Q a (put x s)) (get s) → wp (zoom get put m) Q s.
Proof. unfold wp, zoom. by destruct (m (get s)) as [[]|]. Qed.

Lemma wp_lift (f : S → option S) s' Q s :
  f s = Some s' → Q tt s' → wp (lift f) Q s.
Proof. unfold wp, lift. intros ->. auto. Qed.

(** A total-correctness triple is an equation: [m] has exactly one run. *)
Lemma wp_run {A} (m : M S A) Q s :
  wp m Q s ↔ ∃ a s', m s = Some (a, s') ∧ Q a s'.
Proof.
  unfold wp. split.
  - destruct (m s) as [[a s']|]; [eauto|done].
  - by intros (a & s' & -> & HQ).
Qed.

(** The rule of counted loops. *)
Lemma wp_for_up (I : Z → S → Prop) (body : Z → M S unit) n i s :
  I i s →
  (∀ j s', i ≤ j < i + Z.of_nat n → I j s' → wp (body j) (λ _, I (j + 1)) s') →
  wp (for_up n i body) (λ _, I (i + Z.of_nat n)) s.
Proof.
  revert i s. induction n as [|n IH]; intros i s HI Hstep.
  - apply wp_ret. by replace (i + Z.of_nat 0) with i by lia.
  - cbn [for_up]. apply wp_bind.
    apply wp_mono with (λ _, I (i + 1)); [apply Hstep; [lia|done]|].
    intros [] s' HI'.
    replace (i + Z.of_nat (Datatypes.S n)) with (i + 1 + Z.of_nat n) by lia.
    apply IH; [done|]. intros j s'' Hj. apply Hstep. lia.
Qed.

(** Runs that fault. *)
Lemma bind_fault {A B} (m : M S A) (f : A → M S B) s :
  wp m (λ a s', f a s' = None) s → (m ≫= f) s = None.
Proof. unfold wp, mbind, M_bind. by destruct (m s) as [[a s']|]. Qed.

Lemma bind_first_fault {A B} (m : M S A) (f : A → M S B) s : m s = None → (m ≫= f) s = None.
Proof. unfold mbind, M_bind. by intros ->. Qed.

Lemma for_up_fault (n m : nat) (body : Z → M S unit) i s :
  wp (for_up n i body) (λ _ s', body (i + Z.of_nat n) s' = None) s → for_up (n + Datatypes.S m) i body s = None.
Proof.
  revert i s. induction n as [|n IH]; intros i s Hw; cbn [Nat.add for_up].
  - apply bind_first_fault. unfold wp in Hw. cbn in Hw. by rewrite Z.add_0_r in Hw.
  - unfold wp in Hw. cbn [for_up] in Hw. unfold mbind, M_bind in Hw. apply bind_fault. unfold wp.
    destruct (body i s) as [[[] s']|]; [|done]. apply IH. unfold wp.
    by replace (i + 1 + Z.of_nat n) with (i + Z.of_nat (Datatypes.S n)) by lia.
Qed.

Lemma while_S (cond : S → bool) body f s :
  while (Datatypes.S f) cond body s =
  if cond s then s' ← body s; while f cond body s' else Some s.
Proof. done. Qed.

(** The rule of [while]: an invariant and a measure bounded by the fuel. *)
Lemma while_total (I : S → Prop) (m : S → nat) cond body fuel s :
  I s → (m s < fuel)%nat →
  (∀ s, I s → cond s = true → ∃ s', body s = Some s' ∧ I s' ∧ (m s' < m s)%nat) →
  ∃ s', while fuel cond body s = Some s' ∧ I s' ∧ cond s' = false.
Proof.
  intros HI Hf Hstep. revert s HI Hf. induction fuel as [|f IH]; intros s HI Hf; [lia|].
  cbn [while]. destruct (cond s) eqn:Hc; [|eauto].
  destruct (Hstep s HI Hc) as (s' & -> & HI' & Hm). cbn. apply IH; [done|lia].
Qed.

(** What a loop preserves, when it ends. *)
Lemma while_inv (I : S → Prop) cond body fuel s s' :
  (∀ s s', I s → body s = Some s' → I s') → while fuel cond body s = Some s' → I s → I s'.
Proof.
  intros Hb. revert s. induction fuel as [|f IH]; intros s; cbn [while]; [done|].
  destruct (cond s); [|by intros [= ->]]. destruct (body s) as [s1|] eqn:E; [|done]. cbn.
  intros Hw HI. eapply IH; [exact Hw|]. by eapply Hb.
Qed.
End wp.

#[export] Hint Resolve wp_ret wp_gets wp_modify : zeos.

(** ** Partial correctness under an invariant

    From a state with [P], a run of [m] that does not fault ends in a state with
    [P] and a result with [R]. *)

Definition gives {S A} (P : S → Prop) (m : M S A) (R : A → Prop) : Prop :=
  ∀ s a s', m s = Some (a, s') → P s → P s' ∧ R a.

Section gives.
Context {S : Type} (P : S → Prop).

Lemma gives_bind {A B} (m : M S A) (f : A → M S B) (R : A → Prop) R' :
  gives P m R → (∀ a, R a → gives P (f a) R') → gives P (m ≫= f) R'.
Proof.
  intros Hm Hf s b s2. unfold mbind, M_bind. destruct (m s) as [[a s1]|] eqn:E; [|done].
  intros E' HP. destruct (Hm _ _ _ E HP) as [HP1 Ha]. by apply (Hf a Ha s1).
Qed.

Lemma gives_weaken {A} (m : M S A) (R R' : A → Prop) : (∀ a, R a → R' a) → gives P m R → gives P m R'.
Proof. intros HR Hm s a s' E HP. destruct (Hm _ _ _ E HP). auto. Qed.

Lemma gives_ret {A} (a : A) (R : A → Prop) : R a → gives P (mret a : M S A) R.
Proof. intros HR s b s' E HP. injection E as <- <-. auto. Qed.

Lemma gives_gets {A} (f : S → A) (R : A → Prop) : (∀ s, P s → R (f s)) → gives P (gets f) R.
Proof. intros HR s b s' E HP. injection E as <- <-. auto. Qed.

Lemma gives_ask {A} (f : S → option A) (R : A → Prop) : (∀ s a, P s → f s = Some a → R a) → gives P (ask f) R.
Proof.
  intros HR s b s' E HP. unfold ask in E. destruct (f s) as [a|] eqn:Ef; [|done]. cbn in E. injection E as <- <-. eauto.
Qed.

Lemma gives_lift (f : S → option S) (R : unit → Prop) : R tt → (∀ s s', P s → f s = Some s' → P s') → gives P (lift f) R.
Proof.
  intros HR Hf s b s' E HP. unfold lift in E. destruct (f s) as [s1|] eqn:Ef; [|done]. cbn in E. injection E as <- <-. eauto.
Qed.

Lemma gives_modify (f : S → S) (R : unit → Prop) : R tt → (∀ s, P s → P (f s)) → gives P (modify f) R.
Proof. intros HR Hf s b s' E HP. injection E as <- <-. auto. Qed.

Lemma gives_fault {A} (R : A → Prop) : gives P fault R.
Proof. done. Qed.

Lemma gives_for_up n (body : Z → M S unit) i : (∀ j, gives P (body j) (λ _, True)) → gives P (for_up n i body) (λ _, True).
Proof.
  intros Hb. revert i. induction n as [|n IH]; intros i; cbn [for_up]; [by apply gives_ret|].
  apply (gives_bind _ _ (λ _, True)); [apply Hb|]. intros [] _. apply IH.
Qed.

Lemma gives_if {A} (b : bool) (m m' : M S A) R : gives P m R → gives P m' R → gives P (if b then m else m') R.
Proof. by destruct b. Qed.
End gives.

(** ** Tactics *)

(** One step of symbolic execution of a monadic computation. *)
Ltac wp_step :=
  lazymatch goal with
  | |- wp (_ ≫= _) _ _ => apply wp_bind
  | |- wp (mret _) _ _ => apply wp_ret
  | |- wp (gets _) _ _ => apply wp_gets
  | |- wp (modify _) _ _ => apply wp_modify
  | |- wp (ask _) _ _ => eapply wp_ask
  | |- wp (lift _) _ _ => eapply wp_lift
  end; cbn beta.

(** Case analysis on the boolean test of the C code in the goal. *)
Ltac case_test :=
  match goal with
  | |- context [if ?b then _ else _] => let E := fresh "Htest" in destruct b eqn:E
  end.

(** Splits a boolean hypothesis into the order facts it stands for. *)
Ltac bool_to_prop :=
  repeat match goal with
  | H : andb _ _ = true |- _ => apply andb_true_iff in H; destruct H
  | H : orb _ _ = false |- _ => apply orb_false_iff in H; destruct H
  | H : negb _ = true |- _ => apply negb_true_iff in H
  | H : negb _ = false |- _ => apply negb_false_iff in H
  | H : (_ =? _) = true |- _ => apply Z.eqb_eq in H
  | H : (_ =? _) = false |- _ => apply Z.eqb_neq in H
  | H : (_ <? _) = true |- _ => apply Z.ltb_lt in H
  | H : (_ <? _) = false |- _ => apply Z.ltb_ge in H
  | H : (_ <=? _) = true |- _ => apply Z.leb_le in H
  | H : (_ <=? _) = false |- _ => apply Z.leb_gt in H
  end.

(** ** Lists as C arrays *)

(** [a[i]] with a C index: out of bounds it has no value. *)
Definition znth {A} (l : list A) (i : Z) : option A :=
  if i <? 0 then None else l !! Z.to_nat i.

(** [a[i] = x]: a fault out of bounds. *)
Definition zset {A} (l : list A) (i : Z) (x : A) : option (list A) :=
  if (0 <=? i) && (i <? Z.of_nat (length l)) then Some (<[Z.to_nat i := x]> l) else None.

(** An element of a literal list is at one of its places. *)
Lemma lookup_cons_cases {A} (x y : A) l n : (x :: l) !! n = Some y → (n = 0%nat ∧ x = y) ∨ ∃ m, n = S m ∧ l !! m = Some y.
Proof. destruct n as [|n]; [intros [= ->]; by left|]. intros Hl. right. by exists n. Qed.

Section arrays.
Context {A : Type}.
Implicit Types l : list A.

Lemma znth_of_nat l (n : nat) : znth l (Z.of_nat n) = l !! n.
Proof. unfold znth. case_test; bool_to_prop; [lia|]. by rewrite Nat2Z.id. Qed.

Lemma znth_Some_range l i x : znth l i = Some x → 0 ≤ i < Z.of_nat (length l).
Proof.
  unfold znth. case_test; bool_to_prop; [done|].
  intros H%lookup_lt_Some. lia.
Qed.

Lemma znth_in_range l i : 0 ≤ i < Z.of_nat (length l) → ∃ x, znth l i = Some x.
Proof.
  intros Hi. unfold znth. case_test; bool_to_prop; [lia|].
  apply lookup_lt_is_Some_2. lia.
Qed.

Lemma zset_Some l i x :
  0 ≤ i < Z.of_nat (length l) → zset l i x = Some (<[Z.to_nat i := x]> l).
Proof. intros Hi. unfold zset. case_test; [done|]. apply andb_false_iff in Htest. lia. Qed.

Lemma zset_inv l i x l' :
  zset l i x = Some l' →
  0 ≤ i < Z.of_nat (length l) ∧ l' = <[Z.to_nat i := x]> l ∧ length l' = length l.
Proof.
  unfold zset. case_test; [|done]. intros [= <-]. bool_to_prop.
  rewrite length_insert. repeat split; lia.
Qed.

Lemma znth_insert l i j x :
  0 ≤ i < Z.of_nat (length l) →
  znth (<[Z.to_nat i := x]> l) j = if i =? j then Some x else znth l j.
Proof.
  intros Hi. unfold znth. destruct (Z.ltb_spec j 0); destruct (Z.eqb_spec i j); try lia; [done| |].
  - subst. apply list_lookup_insert_eq. lia.
  - apply list_lookup_insert_ne. lia.
Qed.

Lemma znth_ext l l' :
  length l = length l' →
  (∀ i, 0 ≤ i < Z.of_nat (length l) → znth l i = znth l' i) → l = l'.
Proof.
  intros Hlen H. apply list_eq. intros n.
  destruct (decide (n < length l)%nat) as [Hn|Hn].
  - rewrite <- !znth_of_nat. apply H. lia.
  - rewrite !lookup_ge_None_2 by lia. done.
Qed.
End arrays.

Lemma filter_ext_in {A} (P Q : A → Prop) `{∀ x, Decision (P x)} `{∀ x, Decision (Q x)} (l : list A) :
  (∀ x, x ∈ l → P x ↔ Q x) → filter P l = filter Q l.
Proof.
  induction l as [|x l IH]; intros HPQ; [done|]. rewrite !filter_cons, IH by (intros y Hy; apply HPQ; by right).
  pose proof (HPQ x ltac:(by left)). do 2 case_decide; tauto.
Qed.

Lemma filter_all_in {A} (P : A → Prop) `{∀ x, Decision (P x)} (l : list A) : (∀ x, x ∈ l → P x) → filter P l = l.
Proof.
  induction l as [|x l IH]; intros HP; [done|]. rewrite filter_cons_True by (apply HP; by left). f_equal.
  apply IH. intros y Hy. apply HP. by right.
Qed.

Lemma some_pair_inj {A B} (a c : A) (b d : B) : Some (a, b) = Some (c, d) → a = c ∧ b = d.
Proof. by intros [= -> ->]. Qed.

(** An injection of an initial segment of the naturals into itself is onto. *)
Lemma injection_onto (N : nat) (f : nat → nat) :
  (∀ i, (i < N)%nat → (f i < N)%nat) →
  (∀ i j, (i < N)%nat → (j < N)%nat → f i = f j → i = j) →
  ∀ y, (y < N)%nat → ∃ i, (i < N)%nat ∧ f i = y.
Proof.
  intros Hr Hinj y Hy.
  assert (NoDup (f <$> seq 0 N)) as Hnd.
  { apply NoDup_alt. intros i j z Hi Hj. rewrite list_lookup_fmap in Hi, Hj.
    apply fmap_Some in Hi as (i' & Hi & ->), Hj as (j' & Hj & E).
    apply lookup_seq in Hi as [-> ?], Hj as [-> ?]. by apply Hinj. }
  assert (y ∈ f <$> seq 0 N) as Hin.
  { apply list_elem_of_In, (NoDup_length_incl (l := f <$> seq 0 N) (l' := seq 0 N)); [by apply NoDup_ListNoDup|..].
    - by rewrite length_fmap.
    - intros z. rewrite <- !list_elem_of_In. intros (i & -> & Hi%elem_of_seq)%list_elem_of_fmap.
      apply elem_of_seq. pose proof (Hr i). lia.
    - apply list_elem_of_In, elem_of_seq. lia. }
  apply list_elem_of_fmap in Hin as (i & -> & Hi%elem_of_seq). exists i. split; [lia|done].
Qed.
