(* ===== verification/CInt.v ===== *)
(** * Machine integers of the i386 target

    The kernel is compiled with [-m32]: [int] and pointers have 32 bits,
    [Word] 16 and [Byte] 8.  A value is a [Z] in the range of its type and
    every operation that can leave the range wraps explicitly. *)

From S2P Require Import Prelude.

Definition u8 (x : Z) : Z := x mod 2 ^ 8.
Definition u16 (x : Z) : Z := x mod 2 ^ 16.
Definition u32 (x : Z) : Z := x mod 2 ^ 32.
Definition s8 (x : Z) : Z := let y := u8 x in if y <? 2 ^ 7 then y else y - 2 ^ 8.
Definition s32 (x : Z) : Z := let y := u32 x in if y <? 2 ^ 31 then y else y - 2 ^ 32.

(** Ranges as decidable predicates. *)
Definition is_u8 (x : Z) : Prop := 0 ≤ x < 2 ^ 8.
Definition is_u32 (x : Z) : Prop := 0 ≤ x < 2 ^ 32.
Definition is_s32 (x : Z) : Prop := - 2 ^ 31 ≤ x < 2 ^ 31.

(** The solver of the wrap-around side conditions: unfolds the wrappers and
    lets [lia] reason on quotients and remainders. *)
Ltac wrap_lia :=
  unfold s8, s32 in *; cbv zeta in *;
  unfold u8, u16, u32, is_u8, is_u32, is_s32 in *;
  change (2 ^ 7) with 128 in *; change (2 ^ 8) with 256 in *; change (2 ^ 16) with 65536 in *;
  change (2 ^ 31) with 2147483648 in *; change (2 ^ 32) with 4294967296 in *;
  repeat match goal with
  | |- context [if ?a <? ?b then _ else _] => destruct (Z.ltb_spec a b)
  | H : context [if ?a <? ?b then _ else _] |- _ => destruct (Z.ltb_spec a b)
  end;
  Z.div_mod_to_equations; lia.

Lemma u8_range x : is_u8 (u8 x).
Proof. wrap_lia. Qed.

Lemma u32_range x : is_u32 (u32 x).
Proof. wrap_lia. Qed.

Lemma s32_range x : is_s32 (s32 x).
Proof. wrap_lia. Qed.

Lemma u8_small x : is_u8 x → u8 x = x.
Proof. wrap_lia. Qed.

Lemma u32_small x : is_u32 x → u32 x = x.
Proof. wrap_lia. Qed.

Lemma s32_small x : is_s32 x → s32 x = x.
Proof. wrap_lia. Qed.

Lemma s32_u32 x : s32 (u32 x) = s32 x.
Proof. wrap_lia. Qed.

Lemma u32_s32 x : u32 (s32 x) = u32 x.
Proof. wrap_lia. Qed.

Lemma u32_u32 x : u32 (u32 x) = u32 x.
Proof. wrap_lia. Qed.

Lemma u32_opp x : u32 (- u32 x) = u32 (- x).
Proof. wrap_lia. Qed.

Lemma u32_add_l x y : u32 (u32 x + y) = u32 (x + y).
Proof. wrap_lia. Qed.

#[export] Hint Resolve u8_range u32_range s32_range : zeos.
#[export] Hint Rewrite s32_u32 u32_s32 u32_u32 u32_add_l : zeos.

(** Masking the low bits of an address is division by the power of two. *)
Lemma land_page_mask a : is_u32 a → Z.land a 0xfffff000 = a / 4096 * 4096.
Proof.
  intros Ha.
  transitivity (Z.ldiff a (Z.ones 12)).
  - apply Z.bits_inj'. intros n Hn. rewrite Z.land_spec, Z.ldiff_spec.
    destruct (Z.lt_ge_cases n 32) as [Hlt|Hge].
    + f_equal. change 0xfffff000 with (Z.ldiff (Z.ones 32) (Z.ones 12)).
      rewrite Z.ldiff_spec, Z.ones_spec_low by lia. done.
    + rewrite <- (u32_small a Ha). unfold u32. by rewrite Z.mod_pow2_bits_high by lia.
  - rewrite Z.ldiff_ones_r by lia. rewrite Z.shiftr_div_pow2, Z.shiftl_mul_pow2 by lia. done.
Qed.

(** Joining a low field of [n] bits with a field shifted above it. *)
Lemma lor_shiftl_add a b n : 0 ≤ n → 0 ≤ a < 2 ^ n → Z.lor a (Z.shiftl b n) = a + b * 2 ^ n.
Proof.
  intros Hn Ha. rewrite <- Z.shiftl_mul_pow2 by done. symmetry. apply Z.add_nocarry_lor.
  apply Z.bits_inj'. intros m Hm. rewrite Z.land_spec, Z.bits_0.
  destruct (Z.lt_ge_cases m n).
  - by rewrite Z.shiftl_spec_low, andb_false_r.
  - by rewrite <- (Z.mod_small a (2 ^ n)), Z.mod_pow2_bits_high by lia.
Qed.

Lemma land_ones_mod a n : 0 ≤ n → Z.land a (Z.ones n) = a mod 2 ^ n.
Proof. apply Z.land_ones. Qed.
