(* ===== verification/ListHead.v ===== *)
(** * Intrusive doubly linked lists (list.c, include/list.h)

    A [struct list_head] lives at an address of the kernel; the store of all
    anchors is a finite map from addresses to their two links.  An access to
    an address that holds no anchor (the null pointer above all) is a fault.
    [ring h hd xs] is the representation invariant: the circular list headed
    by [hd] threads exactly the anchors [xs], in this order, both ways. *)

From S2P Require Import Prelude.

Record list_head := mk_list_head { lh_next : Z; lh_prev : Z }.

Abbreviation links := (gmap Z list_head).

Definition NULL : Z := 0.

(** [p->next], [p->prev], [p->next = v], [p->prev = v]. *)
Definition load_next (h : links) (p : Z) : option Z := lh_next <$> h !! p.
Definition load_prev (h : links) (p : Z) : option Z := lh_prev <$> h !! p.
Definition store_next (p v : Z) (h : links) : option links :=
  e ← h !! p; Some (<[p := mk_list_head v (lh_prev e)]> h).
Definition store_prev (p v : Z) (h : links) : option links :=
  e ← h !! p; Some (<[p := mk_list_head (lh_next e) v]> h).

(** ** The operations of list.c *)

Definition INIT_LIST_HEAD (list : Z) (h : links) : option links :=
  h ← store_next list list h;
  store_prev list list h.

Definition __list_add (new prev next : Z) (h : links) : option links :=
  h ← store_prev next new h;
  h ← store_next new next h;
  h ← store_prev new prev h;
  store_next prev new h.

Definition list_add (new head : Z) (h : links) : option links :=
  n ← load_next h head;
  __list_add new head n h.

Definition list_add_tail (new head : Z) (h : links) : option links :=
  p ← load_prev h head;
  __list_add new p head h.

Definition __list_del (prev next : Z) (h : links) : option links :=
  h ← store_prev next prev h;
  store_next prev next h.

Definition list_del (entry : Z) (h : links) : option links :=
  p ← load_prev h entry;
  n ← load_next h entry;
  h ← __list_del p n h;
  h ← store_next entry NULL h;
  store_prev entry NULL h.

Definition list_is_last (list head : Z) (h : links) : option bool :=
  n ← load_next h list; Some (n =? head).

Definition list_empty (head : Z) (h : links) : option bool :=
  n ← load_next h head; Some (n =? head).

Definition list_first (head : Z) (h : links) : option Z := load_next h head.

(** [for (pos = head->next; pos != head; pos = pos->next) count++] *)
Fixpoint list_size_loop (fuel : nat) (h : links) (head pos count : Z) : option Z :=
  match fuel with
  | O => None
  | S f =>
      if pos =? head then Some count
      else n ← load_next h pos; list_size_loop f h head n (count + 1)
  end.

Definition list_size (head : Z) (h : links) : option Z :=
  if head =? NULL then Some 0
  else
    b ← list_empty head h;
    if (b : bool) then Some 0
    else n ← load_next h head; list_size_loop (S (size h)) h head n 0.

(** ** The representation invariant *)

(** [lseg h p xs e]: from [p] the anchors [xs] follow one another up to [e]. *)
Fixpoint lseg (h : links) (p : Z) (xs : list Z) (e : Z) : Prop :=
  match xs with
  | [] => load_next h p = Some e ∧ load_prev h e = Some p
  | x :: xs => load_next h p = Some x ∧ load_prev h x = Some p ∧ lseg h x xs e
  end.

Definition ring (h : links) (hd : Z) (xs : list Z) : Prop :=
  NoDup (hd :: xs) ∧ lseg h hd xs hd.

(** What an operation leaves alone: the anchors outside [D]. *)
Definition agree_out (D : list Z) (h h' : links) : Prop :=
  dom h' = dom h ∧ ∀ a, a ∉ D → h' !! a = h !! a.

(** ** Loads and stores *)

Section store.
Implicit Types h : links.

Lemma load_next_dom h p v : load_next h p = Some v → p ∈ dom h.
Proof. unfold load_next. intros (e & He & _)%fmap_Some. apply elem_of_dom. eauto. Qed.

Lemma load_prev_dom h p v : load_prev h p = Some v → p ∈ dom h.
Proof. unfold load_prev. intros (e & He & _)%fmap_Some. apply elem_of_dom. eauto. Qed.

Lemma store_next_spec p v h :
  p ∈ dom h → ∃ h', store_next p v h = Some h' ∧ dom h' = dom h ∧
    (∀ a, load_next h' a = if decide (a = p) then Some v else load_next h a) ∧
    (∀ a, load_prev h' a = load_prev h a) ∧
    (∀ a, a ≠ p → h' !! a = h !! a).
Proof.
  intros [e He]%elem_of_dom. unfold store_next, load_next, load_prev. rewrite He.
  eexists. split; [done|]. repeat split; intros.
  - apply dom_insert_lookup_L. eauto.
  - rewrite lookup_insert. repeat case_decide; congruence || done.
  - rewrite lookup_insert. case_decide; subst; [by rewrite He|done].
  - by apply lookup_insert_ne.
Qed.

Lemma store_prev_spec p v h :
  p ∈ dom h → ∃ h', store_prev p v h = Some h' ∧ dom h' = dom h ∧
    (∀ a, load_prev h' a = if decide (a = p) then Some v else load_prev h a) ∧
    (∀ a, load_next h' a = load_next h a) ∧
    (∀ a, a ≠ p → h' !! a = h !! a).
Proof.
  intros [e He]%elem_of_dom. unfold store_prev, load_next, load_prev. rewrite He.
  eexists. split; [done|]. repeat split; intros.
  - apply dom_insert_lookup_L. eauto.
  - rewrite lookup_insert. repeat case_decide; congruence || done.
  - rewrite lookup_insert. case_decide; subst; [by rewrite He|done].
  - by apply lookup_insert_ne.
Qed.
End store.

(** [run_store] executes the store at the head of a chain of stores. *)
Ltac in_dom :=
  repeat match goal with H : dom ?x = _ |- _ ∈ dom ?x => rewrite H end; done.
Ltac run_store :=
  match goal with
  | |- context [store_next ?p ?v ?h] =>
      let Hd := fresh "Hdom" in let Hn := fresh "Hn" in
      let Hp := fresh "Hp" in let Ho := fresh "Hout" in
      destruct (store_next_spec p v h) as (? & -> & Hd & Hn & Hp & Ho); [in_dom|cbn]
  | |- context [store_prev ?p ?v ?h] =>
      let Hd := fresh "Hdom" in let Hn := fresh "Hn" in
      let Hp := fresh "Hp" in let Ho := fresh "Hout" in
      destruct (store_prev_spec p v h) as (? & -> & Hd & Hp & Hn & Ho); [in_dom|cbn]
  end.

(** The operations neither make nor remove anchors. *)
Lemma store_next_dom p v h h' : store_next p v h = Some h' → dom h' = dom h.
Proof. unfold store_next. destruct (h !! p) eqn:E; [|done]. intros [= <-]. apply dom_insert_lookup_L. eauto. Qed.
Lemma store_prev_dom p v h h' : store_prev p v h = Some h' → dom h' = dom h.
Proof. unfold store_prev. destruct (h !! p) eqn:E; [|done]. intros [= <-]. apply dom_insert_lookup_L. eauto. Qed.

Ltac links_dom :=
  repeat match goal with
  | H : (_ ≫= _) = Some _ |- _ => let x := fresh "x" in let E := fresh "E" in apply bind_Some in H as (x & E & H)
  | H : store_next _ _ _ = Some _ |- _ => apply store_next_dom in H
  | H : store_prev _ _ _ = Some _ |- _ => apply store_prev_dom in H
  end; congruence.

Lemma list_add_tail_dom new head h h' : list_add_tail new head h = Some h' → dom h' = dom h.
Proof. unfold list_add_tail, __list_add. intros E. links_dom. Qed.
Lemma list_del_dom entry h h' : list_del entry h = Some h' → dom h' = dom h.
Proof. unfold list_del, __list_del. intros E. links_dom. Qed.

(** Evaluates a chain of pointwise updates of the links. *)
Ltac links_eq :=
  repeat match goal with
  | H : ∀ a, load_next ?h a = _ |- context [load_next ?h _] => rewrite H
  | H : ∀ a, load_prev ?h a = _ |- context [load_prev ?h _] => rewrite H
  end; repeat case_decide; congruence || done.

Ltac links_out :=
  repeat match goal with
  | H : ∀ a, a ≠ _ → ?h !! a = _ |- ?h !! _ = _ => rewrite H by set_solver
  end; done.

(** ** Effects of the operations on the links *)

Section effects.
Implicit Types h : links.

Lemma INIT_LIST_HEAD_effect l h :
  l ∈ dom h → ∃ h', INIT_LIST_HEAD l h = Some h' ∧ agree_out [l] h h' ∧
    load_next h' l = Some l ∧ load_prev h' l = Some l.
Proof.
  intros Hl. unfold INIT_LIST_HEAD. run_store. run_store.
  eexists. split; [done|]. unfold agree_out. repeat split; [congruence|..].
  - intros a Ha. links_out.
  - links_eq.
  - links_eq.
Qed.

Lemma __list_add_effect new p n h :
  new ∈ dom h → p ∈ dom h → n ∈ dom h →
  ∃ h', __list_add new p n h = Some h' ∧ agree_out [new; p; n] h h' ∧
    (∀ a, load_next h' a = if decide (a = p) then Some new
                           else if decide (a = new) then Some n else load_next h a) ∧
    (∀ a, load_prev h' a = if decide (a = new) then Some p
                           else if decide (a = n) then Some new else load_prev h a).
Proof.
  intros Hnew Hp Hn. unfold __list_add. do 4 run_store.
  eexists. split; [done|]. unfold agree_out. repeat split; [congruence|..].
  - intros a Ha. links_out.
  - intros a. links_eq.
  - intros a. links_eq.
Qed.

Lemma list_del_effect x p n h :
  load_prev h x = Some p → load_next h x = Some n →
  x ∈ dom h → p ∈ dom h → n ∈ dom h →
  ∃ h', list_del x h = Some h' ∧ agree_out [x; p; n] h h' ∧
    h' !! x = Some (mk_list_head NULL NULL) ∧
    (∀ a, a ≠ x → load_next h' a = if decide (a = p) then Some n else load_next h a) ∧
    (∀ a, a ≠ x → load_prev h' a = if decide (a = n) then Some p else load_prev h a).
Proof.
  intros Hxp Hxn Hx Hp Hn. unfold list_del, __list_del. rewrite Hxp, Hxn. cbn.
  do 4 run_store.
  eexists. split; [done|]. unfold agree_out.
  assert (Hlast : ∀ h : links, load_next h x = Some NULL → load_prev h x = Some NULL →
            h !! x = Some (mk_list_head NULL NULL)).
  { intros g. unfold load_next, load_prev. destruct (g !! x) as [[]|]; naive_solver. }
  repeat split; [congruence|..].
  - intros a Ha. links_out.
  - apply Hlast; links_eq.
  - intros a Ha. links_eq.
  - intros a Ha. links_eq.
Qed.
End effects.

(** ** Segments and rings *)

Section rings.
Implicit Types (h : links) (xs ys : list Z).

Lemma lseg_app h p xs y ys e :
  lseg h p (xs ++ y :: ys) e ↔ lseg h p xs y ∧ lseg h y ys e.
Proof. revert p. induction xs as [|x xs IH]; intros p; cbn; [|rewrite IH]; tauto. Qed.

(** A segment only depends on the links it threads. *)
Lemma lseg_ext h h' p xs e :
  (∀ a, a ∈ p :: xs → load_next h' a = load_next h a) →
  (∀ a, a ∈ xs ++ [e] → load_prev h' a = load_prev h a) →
  lseg h p xs e → lseg h' p xs e.
Proof.
  revert p. induction xs as [|x xs IH]; intros p Hn Hp; cbn.
  - intros [? ?]. rewrite Hn, Hp by set_solver. done.
  - intros (? & ? & ?). rewrite Hn, Hp by set_solver. split_and!; [done..|].
    apply IH; [| |done]; intros a Ha; [apply Hn|apply Hp]; set_solver.
Qed.

Lemma lseg_dom h p xs e a : lseg h p xs e → a ∈ p :: xs ++ [e] → a ∈ dom h.
Proof.
  revert p. induction xs as [|x xs IH]; intros p; cbn.
  - intros [?%load_next_dom ?%load_prev_dom]. set_solver.
  - intros (?%load_next_dom & _ & ?) [->|Ha]%elem_of_cons; eauto.
Qed.

Lemma lseg_first h p xs e : lseg h p xs e → load_next h p = Some (hd e xs).
Proof. destruct xs; cbn; tauto. Qed.

Lemma lseg_last h p xs e : lseg h p xs e → load_prev h e = Some (List.last xs p).
Proof.
  revert p. induction xs as [|x xs IH]; intros p; cbn; [tauto|].
  intros (_ & _ & H%IH). rewrite H. destruct xs; [done|]. f_equal.
  clear. revert z. induction xs; intros; [done|]. cbn in *. destruct xs; auto.
Qed.

Lemma ring_ext h h' hd xs :
  (∀ a, a ∈ hd :: xs → h' !! a = h !! a) → ring h hd xs → ring h' hd xs.
Proof.
  intros Heq [Hnd Hl]. split; [done|]. revert Hl. apply lseg_ext; intros a Ha;
    unfold load_next, load_prev; rewrite Heq; set_solver.
Qed.

(** Frame rule: an operation that only touches [D] keeps the other rings. *)
Lemma ring_frame D h h' hd xs :
  agree_out D h h' → (∀ a, a ∈ hd :: xs → a ∉ D) → ring h hd xs → ring h' hd xs.
Proof. intros [_ Hout] HD. apply ring_ext. auto. Qed.

Lemma ring_dom h hd xs a : ring h hd xs → a ∈ hd :: xs → a ∈ dom h.
Proof. intros [_ Hl] Ha. eapply lseg_dom; [done|]. set_solver. Qed.

(** A ring can be read from any of its anchors. *)
Lemma ring_rotate h hd xs x ys :
  ring h hd (xs ++ x :: ys) → ring h x (ys ++ hd :: xs).
Proof.
  intros [Hnd Hl]. split.
  - revert Hnd. apply NoDup_Permutation_proper. solve_Permutation.
  - apply lseg_app in Hl as [? ?]. by apply lseg_app.
Qed.

Lemma agree_out_trans D h1 h2 h3 :
  agree_out D h1 h2 → agree_out D h2 h3 → agree_out D h1 h3.
Proof. intros [? H1] [? H2]. split; [congruence|]. intros a Ha. by rewrite H2, H1. Qed.

Lemma agree_out_sub D D' h h' : agree_out D h h' → D ⊆ D' → agree_out D' h h'.
Proof. intros [? H1] HD. split; [done|]. intros a Ha. apply H1. set_solver. Qed.
End rings.

#[export] Hint Resolve ring_dom : zeos.

Section ring_ops.
Implicit Types (h : links) (xs ys : list Z).

(** [INIT_LIST_HEAD] makes an empty list of any anchor, whatever it held. *)
Lemma INIT_LIST_HEAD_ring l h :
  l ∈ dom h → ∃ h', INIT_LIST_HEAD l h = Some h' ∧ agree_out [l] h h' ∧ ring h' l [].
Proof.
  intros (h' & ? & ? & ? & ?)%INIT_LIST_HEAD_effect. exists h'. split_and!; [done..|].
  split; [apply NoDup_singleton|done].
Qed.

Lemma last_elem_of (xs : list Z) d : List.last xs d ∈ d :: xs.
Proof. induction xs as [|? ? _] using rev_ind; [|rewrite List.last_last]; set_solver. Qed.

Lemma hd_elem_of (xs : list Z) d : List.hd d xs ∈ d :: xs.
Proof. destruct xs; set_solver. Qed.

(** Redirecting the end of a segment from [e] to [n]. *)
Lemma lseg_retarget h h' q xs e n :
  lseg h q xs e → NoDup (q :: xs) →
  (∀ a, a ∈ q :: xs → load_next h' a = if decide (a = List.last xs q) then Some n
                                       else load_next h a) →
  (∀ a, a ∈ xs → load_prev h' a = load_prev h a) →
  load_prev h' n = Some (List.last xs q) →
  lseg h' q xs n.
Proof.
  destruct xs as [|z zs _] using rev_ind; intros Hl Hnd Hn Hp Hpn.
  - cbn in *. rewrite Hn by set_solver. by case_decide.
  - rewrite List.last_last in *.
    apply lseg_app in Hl as [Hl _]. apply lseg_app.
    assert (z ∉ q :: zs).
    { rewrite app_comm_cons in Hnd. apply NoDup_app in Hnd. set_solver. }
    split; [|cbn; rewrite Hn by set_solver; by case_decide].
    revert Hl. apply lseg_ext; intros a Ha; [rewrite Hn by set_solver|apply Hp; set_solver].
    case_decide; set_solver.
Qed.

(** Inserting between two consecutive anchors of a ring. *)
Lemma __list_add_ring new h hd xs ys :
  ring h hd (xs ++ ys) → new ∈ dom h → new ∉ hd :: xs ++ ys →
  ∃ h', __list_add new (List.last xs hd) (List.hd hd ys) h = Some h' ∧
    agree_out (new :: hd :: xs ++ ys) h h' ∧ ring h' hd (xs ++ new :: ys).
Proof.
  intros Hr Hnew Hnot. pose proof (last_elem_of xs hd) as Hlast.
  pose proof (hd_elem_of ys hd) as Hfirst.
  destruct (__list_add_effect new (List.last xs hd) (List.hd hd ys) h) as (h' & -> & Hag & Hn & Hp).
  { done. }
  { eapply ring_dom; [done|]. set_solver. }
  { eapply ring_dom; [done|]. set_solver. }
  exists h'. split; [done|]. split; [eapply agree_out_sub; [done|set_solver]|].
  destruct Hr as [Hnd Hl]. split.
  { assert (hd :: xs ++ new :: ys ≡ₚ new :: hd :: xs ++ ys) as -> by solve_Permutation.
    by constructor. }
  assert (Hl' : lseg h hd xs (List.hd hd ys)) by (destruct ys; [by rewrite app_nil_r in Hl|]; by apply lseg_app in Hl as [??]).
  assert (NoDup (hd :: xs)) by (rewrite app_comm_cons in Hnd; by apply NoDup_app in Hnd as (?&?&?)).
  assert (List.hd hd ys ∉ xs) as Hfx.
  { apply NoDup_cons in Hnd as [? (? & ? & ?)%NoDup_app]. destruct ys; set_solver. }
  assert (new ≠ List.last xs hd ∧ new ∉ hd :: xs ∧ new ∉ hd :: ys) as (? & ? & ?) by set_solver.
  assert (lseg h' hd (xs ++ [new]) (List.hd hd ys)) as Hfst.
  { apply lseg_app. split.
    - eapply lseg_retarget; [done|done|intros a ?; rewrite Hn|intros a ?; rewrite Hp|rewrite Hp];
        repeat case_decide; congruence || set_solver.
    - cbn. rewrite Hn, Hp. repeat case_decide; congruence || set_solver. }
  destruct ys as [|y ys]; [done|].
  replace (xs ++ new :: y :: ys) with ((xs ++ [new]) ++ y :: ys) by (by rewrite <- app_assoc).
  apply lseg_app. split; [done|]. apply lseg_app in Hl as [_ Hl2].
  rewrite app_comm_cons in Hnd. apply NoDup_app in Hnd as (? & Hdisj & [Hyys ?]%NoDup_cons).
  assert (y ≠ hd) as Hyh by (intros ->; destruct (Hdisj hd); by left).
  assert (∀ a, a ∈ y :: ys ∨ a = hd → a ≠ new) as Han by (clear - Hnot; set_solver).
  clear - Hl2 Hn Hp Hlast Hdisj Hyh Han Hyys.
  revert Hl2. apply lseg_ext; intros a Ha; [rewrite Hn|rewrite Hp].
  - destruct (decide (a = new)); [by destruct (Han a); [left|]|].
    case_decide; [subst a|done]. by destruct (Hdisj _ Hlast).
  - assert (a ≠ new ∧ a ≠ y) as [? ?].
    { apply elem_of_app in Ha as [Ha| ->%list_elem_of_singleton].
      - split; [apply Han; left; by right|by intros ->].
      - split; [apply Han; by right|done]. }
    by rewrite !decide_False.
Qed.

Lemma list_add_ring new h hd xs :
  ring h hd xs → new ∈ dom h → new ∉ hd :: xs →
  ∃ h', list_add new hd h = Some h' ∧ agree_out (new :: hd :: xs) h h' ∧
    ring h' hd (new :: xs).
Proof.
  intros Hr Hnew Hnot. unfold list_add. rewrite (lseg_first _ _ _ _ (proj2 Hr)).
  exact (__list_add_ring new h hd [] xs Hr Hnew Hnot).
Qed.

Lemma list_add_tail_ring new h hd xs :
  ring h hd xs → new ∈ dom h → new ∉ hd :: xs →
  ∃ h', list_add_tail new hd h = Some h' ∧ agree_out (new :: hd :: xs) h h' ∧
    ring h' hd (xs ++ [new]).
Proof.
  intros Hr Hnew Hnot. unfold list_add_tail. rewrite (lseg_last _ _ _ _ (proj2 Hr)). cbn.
  destruct (__list_add_ring new h hd xs []) as (h' & ? & Hag & ?);
    rewrite ?app_nil_r in *; eauto.
Qed.

(** Removing an anchor: its ring closes over it and its links are cleared. *)
Lemma list_del_ring x h hd xs ys :
  ring h hd (xs ++ x :: ys) →
  ∃ h', list_del x h = Some h' ∧ agree_out (x :: hd :: xs ++ ys) h h' ∧
    ring h' hd (xs ++ ys) ∧ h' !! x = Some (mk_list_head NULL NULL).
Proof.
  intros Hr. pose proof (last_elem_of xs hd) as Hlast. pose proof (hd_elem_of ys hd) as Hfirst.
  pose proof Hr as [Hnd Hl].
  pose proof Hl as [Hl1 Hl2]%lseg_app.
  destruct (list_del_effect x (List.last xs hd) (List.hd hd ys) h) as (h' & -> & Hag & Hx & Hn & Hp).
  { by eapply lseg_last. }
  { by eapply lseg_first. }
  { eapply ring_dom; [done|]. set_solver. }
  { eapply ring_dom; [done|]. set_solver. }
  { eapply ring_dom; [done|]. set_solver. }
  exists h'. split; [done|]. split; [eapply agree_out_sub; [done|set_solver]|].
  split; [|done].
  assert (hd :: xs ++ x :: ys ≡ₚ x :: hd :: xs ++ ys) as Hperm by solve_Permutation.
  rewrite Hperm in Hnd. apply NoDup_cons in Hnd as [Hnotx Hnd]. split; [done|].
  rewrite app_comm_cons in Hnd. apply NoDup_app in Hnd as (Hnd1 & Hdisj & Hnd2).
  assert (lseg h' hd xs (List.hd hd ys)) as Hfst.
  { assert (List.hd hd ys ∉ xs ∧ List.hd hd ys ≠ x) as [? ?].
    { pose proof Hnd1 as [? _]%NoDup_cons. clear - Hdisj H Hnotx.
      destruct ys as [|y ys]; cbn; set_solver. }
    eapply lseg_retarget; [done|done|intros a Ha; rewrite Hn by set_solver; done| |].
    - intros a Ha. rewrite Hp by set_solver. case_decide; [congruence|done].
    - rewrite Hp by done. by case_decide. }
  destruct ys as [|y ys]; [by rewrite app_nil_r|].
  apply lseg_app. split; [done|]. cbn in Hl2. destruct Hl2 as (_ & _ & Hl2).
  assert (y ≠ hd) as Hyh by (intros ->; destruct (Hdisj hd); by left).
  apply NoDup_cons in Hnd2 as [Hy _].
  assert (∀ a, a ∈ hd :: xs ++ y :: ys → a ≠ x) as Hax by (by intros a ? ->).
  clear - Hl2 Hn Hp Hlast Hdisj Hyh Hy Hax.
  revert Hl2. apply lseg_ext; intros a Ha.
  - rewrite Hn by (apply Hax; right; apply elem_of_app; by right).
    case_decide; [subst a|done]. by destruct (Hdisj _ Hlast).
  - apply elem_of_app in Ha as [Ha| ->%list_elem_of_singleton].
    + rewrite Hp by (apply Hax; right; apply elem_of_app; right; by right).
      cbn. case_decide; congruence || done.
    + rewrite Hp by (apply Hax; by left). cbn. case_decide; congruence || done.
Qed.

Lemma list_size_loop_ring h hd p xs n fuel :
  lseg h p xs hd → hd ∉ xs → (length xs < fuel)%nat →
  load_next h p = Some (List.hd hd xs) →
  list_size_loop fuel h hd (List.hd hd xs) n = Some (n + Z.of_nat (length xs)).
Proof.
  revert p n fuel. induction xs as [|x xs IH]; intros p n [|fuel] Hl Hhd Hf Hp; try lia.
  - cbn. rewrite Z.eqb_refl. f_equal. lia.
  - cbn. apply not_elem_of_cons in Hhd as [Hne Hhd].
    destruct (Z.eqb_spec x hd); [congruence|].
    destruct Hl as (_ & _ & Hl). pose proof (lseg_first _ _ _ _ Hl) as Hx. rewrite Hx. cbn.
    rewrite (IH x) by (done || cbn in Hf; lia). f_equal. lia.
Qed.

Lemma ring_length h hd xs : ring h hd xs → (length xs ≤ size h)%nat.
Proof.
  intros Hr. pose proof Hr as [Hnd _]. apply NoDup_cons in Hnd as [_ Hnd].
  rewrite <- size_dom, <- (size_list_to_set xs (C := gset Z)) by done.
  apply subseteq_size. intros a Ha%elem_of_list_to_set. eapply ring_dom; [done|by right].
Qed.

(** The fuel of [list_size], the number of anchors, is always enough. *)
Lemma list_size_ring h hd xs :
  ring h hd xs → hd ≠ NULL → list_size hd h = Some (Z.of_nat (length xs)).
Proof.
  intros Hr Hnull. pose proof Hr as [Hnd Hl]. apply NoDup_cons in Hnd as [Hhd Hnd].
  pose proof (ring_length _ _ _ Hr) as Hfuel.
  unfold list_size, list_empty. destruct (Z.eqb_spec hd NULL); [done|].
  rewrite (lseg_first _ _ _ _ Hl). cbn -[list_size_loop]. case_test; bool_to_prop.
  - destruct xs as [|x xs]; [done|]. cbn in Htest. subst. set_solver.
  - rewrite (list_size_loop_ring h hd hd xs 0) by (done || lia || by eapply lseg_first). done.
Qed.

Lemma list_empty_ring h hd xs :
  ring h hd xs → list_empty hd h = Some (bool_decide (xs = [])).
Proof.
  intros [Hnd Hl]. unfold list_empty. rewrite (lseg_first _ _ _ _ Hl). cbn. f_equal.
  apply NoDup_cons in Hnd as [Hhd _].
  destruct xs as [|x xs]; cbn; [by rewrite Z.eqb_refl|].
  destruct (Z.eqb_spec x hd); [subst; set_solver|done].
Qed.

Lemma list_first_ring h hd xs : ring h hd xs → list_first hd h = Some (List.hd hd xs).
Proof. intros [_ Hl]. by apply (lseg_first _ _ _ _ Hl). Qed.
End ring_ops.

(** ** Families of disjoint rings

    The kernel keeps many lists in the same store of links.  [rings h L] says
    that every [(head, members)] of [L] is a list and that no anchor is in two
    of them; an operation on one of them is then an operation on [L]. *)

Definition anchors (L : list (Z * list Z)) : list Z := L ≫= λ r, r.1 :: r.2.

Definition rings (h : links) (L : list (Z * list Z)) : Prop :=
  NoDup (anchors L) ∧ Forall (λ r, ring h r.1 r.2) L.

Section rings_ops.
Implicit Types (h : links) (xs ys : list Z) (L : list (Z * list Z)).

Lemma anchors_cons hd xs L : anchors ((hd, xs) :: L) = hd :: xs ++ anchors L.
Proof. done. Qed.

#[export] Instance anchors_perm : Proper ((≡ₚ) ==> (≡ₚ)) anchors.
Proof. intros L L' HL. unfold anchors. by rewrite HL. Qed.

#[export] Instance rings_perm h : Proper ((≡ₚ) ==> iff) (rings h).
Proof. intros L L' HL. unfold rings. by rewrite HL. Qed.

Lemma rings_ring h L hd xs : rings h L → (hd, xs) ∈ L → ring h hd xs.
Proof. intros [_ Hf] Hin. exact (proj1 (Forall_forall _ _) Hf _ Hin). Qed.

Lemma rings_dom h L a : rings h L → a ∈ anchors L → a ∈ dom h.
Proof.
  intros [_ Hf] ([hd xs] & Ha & Hin)%list_elem_of_bind.
  eapply ring_dom; [exact (proj1 (Forall_forall _ _) Hf _ Hin)|done].
Qed.

(** Replacing the head ring, the operation having touched only it and [new]. *)
Lemma rings_step h h' hd xs hd' ys L D :
  rings h ((hd, xs) :: L) → agree_out D h h' → ring h' hd' ys →
  (∀ a, a ∈ D → a ∉ anchors L) → (∀ a, a ∈ hd' :: ys → a ∉ anchors L) →
  rings h' ((hd', ys) :: L).
Proof.
  intros [Hnd Hf] Hag Hr HD Hys. apply Forall_cons in Hf as [_ Hf].
  rewrite anchors_cons, app_comm_cons in Hnd. apply NoDup_app in Hnd as (_ & _ & Hnd).
  split.
  - rewrite anchors_cons, app_comm_cons. apply NoDup_app. split_and!; [apply Hr|done|done].
  - constructor; [done|]. apply Forall_forall. intros r Hin.
    pose proof (proj1 (Forall_forall _ _) Hf _ Hin) as Hr0. cbn in *.
    eapply ring_frame; [done| |done]. intros a Ha HaD. apply (HD a HaD).
    apply list_elem_of_bind. eauto.
Qed.

(** No anchor of the head ring is in the others. *)
Lemma rings_apart h hd xs L a : rings h ((hd, xs) :: L) → a ∈ hd :: xs → a ∉ anchors L.
Proof.
  intros [Hnd _]. rewrite anchors_cons, app_comm_cons in Hnd.
  apply NoDup_app in Hnd as (_ & Hd & _). apply Hd.
Qed.

Lemma rings_tail h r L : rings h (r :: L) → rings h L.
Proof.
  destruct r as [hd xs]. intros [Hnd Hf]. apply Forall_cons in Hf as [_ Hf].
  rewrite anchors_cons, app_comm_cons in Hnd. apply NoDup_app in Hnd as (_ & _ & Hnd). done.
Qed.

Lemma rings_head h hd xs L : rings h ((hd, xs) :: L) → ring h hd xs.
Proof. intros [_ Hf]. by apply Forall_cons in Hf as [? _]. Qed.

(** Only the anchors of the rings matter. *)
Lemma rings_ext h h' L : (∀ a, a ∈ anchors L → h' !! a = h !! a) → rings h L → rings h' L.
Proof.
  intros Heq [Hnd Hf]. split; [done|]. apply Forall_forall. intros [hd xs] Hin.
  apply (ring_ext h); [|exact (proj1 (Forall_forall _ _) Hf _ Hin)].
  intros a Ha. apply Heq, list_elem_of_bind. by exists (hd, xs).
Qed.

Lemma rings_init h l L :
  rings h L → l ∈ dom h → l ∉ anchors L →
  ∃ h', INIT_LIST_HEAD l h = Some h' ∧ agree_out [l] h h' ∧ rings h' ((l, []) :: L).
Proof.
  intros HL Hl Hnot. destruct (INIT_LIST_HEAD_ring l h Hl) as (h' & ? & Hag & Hr).
  exists h'. split_and!; [done..|]. destruct HL as [Hnd Hf]. split.
  - rewrite anchors_cons. cbn. by apply NoDup_cons.
  - constructor; [done|]. apply Forall_forall. intros r Hin.
    pose proof (proj1 (Forall_forall _ _) Hf _ Hin) as Hr0. cbn in *.
    eapply ring_frame; [done| |done]. intros a Ha ->%list_elem_of_singleton. apply Hnot.
    apply list_elem_of_bind. eauto.
Qed.

Lemma rings_add_tail h hd xs L new :
  rings h ((hd, xs) :: L) → new ∈ dom h → new ∉ anchors ((hd, xs) :: L) →
  ∃ h', list_add_tail new hd h = Some h' ∧ agree_out (new :: hd :: xs) h h' ∧
    rings h' ((hd, xs ++ [new]) :: L).
Proof.
  intros HL Hnew Hnot. rewrite anchors_cons, app_comm_cons in Hnot.
  destruct (list_add_tail_ring new h hd xs (rings_head _ _ _ _ HL) Hnew) as (h' & ? & Hag & Hr).
  { clear - Hnot. set_solver. }
  exists h'. split_and!; [done..|].
  assert (∀ a, a ∈ new :: hd :: xs → a ∉ anchors L) as HD.
  { intros a [->|Ha]%elem_of_cons; [clear - Hnot; set_solver|by eapply rings_apart]. }
  eapply rings_step; [done..|]. intros a Ha. apply HD. clear - Ha. set_solver.
Qed.

Lemma rings_add h hd xs L new :
  rings h ((hd, xs) :: L) → new ∈ dom h → new ∉ anchors ((hd, xs) :: L) →
  ∃ h', list_add new hd h = Some h' ∧ agree_out (new :: hd :: xs) h h' ∧
    rings h' ((hd, new :: xs) :: L).
Proof.
  intros HL Hnew Hnot. rewrite anchors_cons, app_comm_cons in Hnot.
  destruct (list_add_ring new h hd xs (rings_head _ _ _ _ HL) Hnew) as (h' & ? & Hag & Hr).
  { clear - Hnot. set_solver. }
  exists h'. split_and!; [done..|].
  assert (∀ a, a ∈ new :: hd :: xs → a ∉ anchors L) as HD.
  { intros a [->|Ha]%elem_of_cons; [clear - Hnot; set_solver|by eapply rings_apart]. }
  eapply rings_step; [done..|]. intros a Ha. apply HD. clear - Ha. set_solver.
Qed.

Lemma rings_del h hd xs x ys L :
  rings h ((hd, xs ++ x :: ys) :: L) →
  ∃ h', list_del x h = Some h' ∧ agree_out (hd :: xs ++ x :: ys) h h' ∧
    rings h' ((hd, xs ++ ys) :: L) ∧ h' !! x = Some (mk_list_head NULL NULL) ∧
    x ∉ anchors ((hd, xs ++ ys) :: L).
Proof.
  intros HL.
  destruct (list_del_ring x h hd xs ys (rings_head _ _ _ _ HL)) as (h' & ? & Hag & Hr & Hx).
  exists h'. split; [done|].
  assert (agree_out (hd :: xs ++ x :: ys) h h') as Hag'.
  { eapply agree_out_sub; [done|]. clear. set_solver. }
  split; [done|]. assert (∀ a, a ∈ hd :: xs ++ x :: ys → a ∉ anchors L) as HD.
  { intros a Ha. by eapply rings_apart. }
  assert (∀ a, a ∈ hd :: xs ++ ys → a ∈ hd :: xs ++ x :: ys) as Hsub by (clear; set_solver).
  assert (x ∉ anchors L) as HxL by (apply HD; clear; set_solver).
  split_and!; [|done|].
  - eapply rings_step; [done..|]. intros a Ha. auto.
  - pose proof (rings_head _ _ _ _ HL) as [Hnd _].
    assert (hd :: xs ++ x :: ys ≡ₚ x :: hd :: xs ++ ys) as Hp by solve_Permutation.
    rewrite Hp in Hnd. apply NoDup_cons in Hnd as [Hx' _].
    rewrite anchors_cons, app_comm_cons, elem_of_app. tauto.
Qed.

(** The links of a member of a list are not null. *)
Lemma lseg_next h p xs e a : lseg h p xs e → a ∈ p :: xs → ∃ n, load_next h a = Some n ∧ n ∈ xs ++ [e].
Proof.
  revert p. induction xs as [|x xs IH]; intros p Hs Ha.
  - apply elem_of_cons in Ha as [->|?%elem_of_nil]; [|done]. exists e. split; [exact (lseg_first _ _ _ _ Hs)|by left].
  - apply elem_of_cons in Ha as [->|Ha].
    + exists x. split; [exact (lseg_first _ _ _ _ Hs)|by left].
    + destruct Hs as (_ & _ & Hs). destruct (IH x Hs Ha) as (n & Hn & Hin). exists n. split; [done|by right].
Qed.

Lemma rings_linked h L a : rings h L → NULL ∉ dom h → h !! a = Some (mk_list_head NULL NULL) → a ∉ anchors L.
Proof.
  intros Hl Hnull Ha ([hd xs] & Hin & Hr)%list_elem_of_bind. pose proof (rings_ring _ _ _ _ Hl Hr) as Hring.
  pose proof Hring as [_ Hs]. cbn in Hin. destruct (lseg_next _ _ _ _ _ Hs Hin) as (n & Hn & Hne).
  unfold load_next in Hn. rewrite Ha in Hn. injection Hn as <-. apply Hnull.
  apply (ring_dom _ _ _ _ Hring). clear - Hne. rewrite elem_of_app, list_elem_of_singleton in Hne. rewrite elem_of_cons. tauto.
Qed.

Lemma rings_empty h hd xs L :
  rings h ((hd, xs) :: L) → list_empty hd h = Some (bool_decide (xs = [])).
Proof. intros HL. eapply list_empty_ring, rings_head, HL. Qed.

Lemma rings_first h hd xs L :
  rings h ((hd, xs) :: L) → list_first hd h = Some (List.hd hd xs).
Proof. intros HL. eapply list_first_ring, rings_head, HL. Qed.
End rings_ops.

(** ** The list operations implement sequences *)

(** The operations on the head of a list, and their meaning on sequences. *)
Inductive list_op :=
  | OpAdd (x : Z) | OpAddTail (x : Z) | OpDel (x : Z).

Definition run_op (hd : Z) (o : list_op) : links → option links :=
  match o with
  | OpAdd x => list_add x hd
  | OpAddTail x => list_add_tail x hd
  | OpDel x => list_del x
  end.

Definition seq_op (o : list_op) (xs : list Z) : list Z :=
  match o with
  | OpAdd x => x :: xs
  | OpAddTail x => xs ++ [x]
  | OpDel x => filter (λ y, y ≠ x) xs
  end.

(** What a caller must respect: an anchor is added when it is in no list and
    deleted from the list it is in. *)
Definition op_ok (D : gset Z) (L : list (Z * list Z)) (hd : Z) (xs : list Z) (o : list_op) : Prop :=
  match o with
  | OpAdd x | OpAddTail x => x ∈ D ∧ x ∉ anchors ((hd, xs) :: L)
  | OpDel x => x ∈ xs
  end.

Lemma filter_id (P : Z → Prop) `{!∀ y, Decision (P y)} (xs : list Z) :
  (∀ y, y ∈ xs → P y) → filter P xs = xs.
Proof.
  induction xs as [|x xs IH]; intros HP; [done|].
  rewrite filter_cons_True by (apply HP; by left). f_equal. apply IH. intros y Hy. apply HP. by right.
Qed.

Lemma filter_del (x : Z) xs ys : NoDup (xs ++ x :: ys) → filter (λ y, y ≠ x) (xs ++ x :: ys) = xs ++ ys.
Proof.
  intros Hnd. rewrite filter_app, filter_cons_False by (by intros []).
  assert (x ∉ xs ++ ys) as Hx.
  { assert (xs ++ x :: ys ≡ₚ x :: xs ++ ys) as Hp by solve_Permutation.
    rewrite Hp in Hnd. by apply NoDup_cons in Hnd as [? _]. }
  rewrite <- filter_app. apply filter_id. intros y Hy ->. done.
Qed.

Lemma run_op_seq h hd xs L o :
  rings h ((hd, xs) :: L) → op_ok (dom h) L hd xs o →
  ∃ h', run_op hd o h = Some h' ∧ dom h' = dom h ∧ rings h' ((hd, seq_op o xs) :: L).
Proof.
  destruct o as [x|x|x]; cbn -[rings anchors]; intros HL Hok.
  - destruct (rings_add h hd xs L x HL) as (h' & ? & [? _] & ?); [tauto..|]. eauto.
  - destruct (rings_add_tail h hd xs L x HL) as (h' & ? & [? _] & ?); [tauto..|]. eauto.
  - apply list_elem_of_split in Hok as (ys & zs & ->).
    pose proof (rings_head _ _ _ _ HL) as [Hnd _]. apply NoDup_cons in Hnd as [_ Hnd].
    destruct (rings_del h hd ys x zs L HL) as (h' & ? & [? _] & ? & _).
    exists h'. by rewrite filter_del.
Qed.

(** Any program of list operations. *)
Fixpoint run_ops (hd : Z) (os : list list_op) (h : links) : option links :=
  match os with
  | [] => Some h
  | o :: os => h ← run_op hd o h; run_ops hd os h
  end.

Fixpoint ops_ok (D : gset Z) (L : list (Z * list Z)) (hd : Z) (xs : list Z) (os : list list_op) : Prop :=
  match os with
  | [] => True
  | o :: os =>
      op_ok D L hd xs o ∧ ops_ok D L hd (seq_op o xs) os
  end.

(** C23: the intrusive lists of list.c implement sequences: from disjoint lists,
    any sequence of [list_add], [list_add_tail] and [list_del] that adds
    anchors out of every list and deletes anchors of the list runs without a
    bad access, leaves the other lists [L] alone, and gives the list the
    sequence that results, of which [list_empty], [list_first] and
    [list_size] give the emptiness, the first anchor and the length. *)
Theorem list_ops_refine_sequences (h : links) (hd : Z) (xs : list Z) (L : list (Z * list Z)) (os : list list_op) :
  rings h ((hd, xs) :: L) → hd ≠ NULL → ops_ok (dom h) L hd xs os →
  ∃ h', run_ops hd os h = Some h' ∧
    let ys := foldl (λ s o, seq_op o s) xs os in
    rings h' ((hd, ys) :: L) ∧
    list_empty hd h' = Some (bool_decide (ys = [])) ∧
    list_first hd h' = Some (List.hd hd ys) ∧
    list_size hd h' = Some (Z.of_nat (length ys)).
Proof.
  intros HL Hnull. revert h xs HL. induction os as [|o os IH]; intros h xs HL Hok.
  - exists h. split; [done|]. cbn -[list_size rings].
    pose proof (rings_head _ _ _ _ HL) as Hr.
    split_and!; [done|by apply list_empty_ring|by apply list_first_ring|by apply list_size_ring].
  - destruct Hok as [Ho Hok].
    destruct (run_op_seq h hd xs L o HL) as (h1 & Hrun & Hdom & HL1); [done|].
    cbn [run_ops foldl]. rewrite Hrun. cbn [mbind option_bind].
    apply IH; [done|by rewrite Hdom].
Qed.

Lemma list_ops_refine_sequences_witness :
  let h := <[8 := mk_list_head 8 8]> (<[16 := mk_list_head 0 0]> (<[24 := mk_list_head 0 0]> ∅)) in
  ∃ h', run_ops 8 [OpAddTail 16; OpAdd 24; OpDel 16] h = Some h' ∧
    let ys := [24] in
    rings h' [(8, ys)] ∧ list_empty 8 h' = Some false ∧ list_first 8 h' = Some 24 ∧
    list_size 8 h' = Some 1.
Proof.
  intros h. apply (list_ops_refine_sequences h 8 [] [] [OpAddTail 16; OpAdd 24; OpDel 16]).
  - split; [|constructor; [split; [|by vm_compute]|constructor]]; apply NoDup_singleton.
  - done.
  - split_and!; first [by apply elem_of_dom; eexists | by apply elem_of_list_singleton | idtac].
    all: cbn; try (apply list_elem_of_singleton || set_solver).
    all: apply elem_of_dom; by eexists.
Defined.
