(* ===== verification/Circular.v ===== *)
(** * The keyboard ring buffer (circular.c, include/circular.h)

    A buffer of [MAX_BUFF_SIZE] characters with a write and a read index.  The
    buffer is empty when the indices agree and full when the write index is
    one behind the read index, so that it holds at most [MAX_BUFF_SIZE - 1]
    characters.  [contents] reads the pending characters in order; [fifo_step]
    is the abstract bounded queue the operations implement. *)

From S2P Require Import Prelude CInt.

Module Circ.

Definition MAX_BUFF_SIZE : Z := 32.

Record circular_buffer := mk_circular_buffer {
  keys : list Z;       (** [char keys[MAX_BUFF_SIZE]] *)
  write_idx : Z;
  read_idx : Z;
  size : Z;
}.

(** ** The operations *)

Definition init (b : circular_buffer) : circular_buffer :=
  mk_circular_buffer (keys b) 0 0 0.

Definition is_full (b : circular_buffer) : bool :=
  Z.rem (s32 (write_idx b + 1)) MAX_BUFF_SIZE =? read_idx b.

Definition is_empty (b : circular_buffer) : bool := read_idx b =? write_idx b.

Definition size_of (b : circular_buffer) : Z := size b.

(** [put]: the status, and the buffer after the call. *)
Definition put (item : Z) : M circular_buffer Z := λ b,
  if is_full b then Some (0, b)
  else
    ks ← zset (keys b) (write_idx b) item;
    Some (1, mk_circular_buffer ks (Z.rem (s32 (write_idx b + 1)) MAX_BUFF_SIZE) (read_idx b) (size b)).

(** [get]: the status and the character stored through [ret_value], which
    keeps [old] when the buffer is empty. *)
Definition get (old : Z) : M circular_buffer (Z * Z) := λ b,
  if is_empty b then Some ((0, old), b)
  else
    c ← znth (keys b) (read_idx b);
    Some ((1, c), mk_circular_buffer (keys b) (write_idx b)
                    (Z.rem (s32 (read_idx b + 1)) MAX_BUFF_SIZE) (size b)).

(** ** Abstraction *)

Record wf (b : circular_buffer) : Prop := {
  wf_keys : Z.of_nat (length (keys b)) = MAX_BUFF_SIZE;
  wf_write : 0 ≤ write_idx b < MAX_BUFF_SIZE;
  wf_read : 0 ≤ read_idx b < MAX_BUFF_SIZE;
}.

Definition count (b : circular_buffer) : nat :=
  Z.to_nat ((write_idx b - read_idx b) mod MAX_BUFF_SIZE).

(** The character at distance [i] from the read index. *)
Definition slot (b : circular_buffer) (i : nat) : Z :=
  default 0 (znth (keys b) ((read_idx b + Z.of_nat i) mod MAX_BUFF_SIZE)).

Definition contents (b : circular_buffer) : list Z := slot b <$> seq 0 (count b).

(** The operations of the buffer as data, and the queue they implement. *)
Inductive op := Put (c : Z) | Get.

(** What a call returns: the status of [put], or the status of [get] with the
    character it stored. *)
Inductive ret := RPut (ok : Z) | RGet (ok : Z) (c : option Z).

Definition fifo_step (o : op) (q : list Z) : ret * list Z :=
  match o, q with
  | Put c, _ => if Z.of_nat (length q) =? MAX_BUFF_SIZE - 1 then (RPut 0, q) else (RPut 1, q ++ [c])
  | Get, [] => (RGet 0 None, [])
  | Get, c :: q' => (RGet 1 (Some c), q')
  end.

Definition step (o : op) : M circular_buffer ret :=
  match o with
  | Put c => r ← put c; mret (RPut r)
  | Get => r ← get 0; mret (RGet r.1 (if r.1 =? 1 then Some r.2 else None))
  end.

Fixpoint fifo_run (os : list op) (q : list Z) : list ret * list Z :=
  match os with
  | [] => ([], q)
  | o :: os => let '(r, q) := fifo_step o q in let '(rs, q) := fifo_run os q in (r :: rs, q)
  end.

Fixpoint run (os : list op) : M circular_buffer (list ret) :=
  match os with
  | [] => mret []
  | o :: os => r ← step o; rs ← run os; mret (r :: rs)
  end.

(** ** Facts *)

Section facts.
Implicit Types b : circular_buffer.

Lemma next_idx i : 0 ≤ i < MAX_BUFF_SIZE → Z.rem (s32 (i + 1)) MAX_BUFF_SIZE = (i + 1) mod MAX_BUFF_SIZE.
Proof.
  unfold MAX_BUFF_SIZE. intros Hi. rewrite s32_small by (unfold is_s32; lia).
  by rewrite Z.rem_mod_nonneg by lia.
Qed.

Lemma count_lt b : (count b < 32)%nat.
Proof. unfold count, MAX_BUFF_SIZE. Z.div_mod_to_equations. lia. Qed.

Lemma length_contents b : length (contents b) = count b.
Proof. unfold contents. by rewrite length_fmap, length_seq. Qed.

Lemma is_full_count b : wf b → is_full b = (Z.of_nat (length (contents b)) =? MAX_BUFF_SIZE - 1).
Proof.
  intros [_ Hw Hr]. rewrite length_contents. unfold is_full, count. rewrite next_idx by done.
  unfold MAX_BUFF_SIZE in *. apply eq_bool_prop_intro. rewrite !Is_true_true, !Z.eqb_eq.
  Z.div_mod_to_equations. lia.
Qed.

Lemma is_empty_contents b : wf b → is_empty b = bool_decide (contents b = []).
Proof.
  intros [_ Hw Hr]. unfold is_empty. apply eq_bool_prop_intro.
  rewrite Is_true_true, bool_decide_spec, Z.eqb_eq, <- length_zero_iff_nil, length_contents.
  unfold count, MAX_BUFF_SIZE in *. Z.div_mod_to_equations. lia.
Qed.

Lemma init_contents b : Z.of_nat (length (keys b)) = MAX_BUFF_SIZE → wf (init b) ∧ contents (init b) = [].
Proof. intros Hl. split; [|done]. split; cbn; unfold MAX_BUFF_SIZE in *; lia. Qed.

Lemma put_room b c :
  wf b → (length (contents b) < 31)%nat →
  ∃ b', put c b = Some (1, b') ∧ wf b' ∧ contents b' = contents b ++ [c] ∧ size b' = size b.
Proof.
  intros Hwf Hlen. unfold put. rewrite is_full_count by done.
  case_test; bool_to_prop; [unfold MAX_BUFF_SIZE in *; lia|].
  destruct Hwf as [Hk Hw Hr]. rewrite next_idx by done. rewrite zset_Some by lia. cbn.
  eexists. split; [done|]. rewrite length_contents in *. split_and!; [|unfold contents|done].
  - split; cbn; [by rewrite length_insert|..|done]. apply Z.mod_pos_bound. done.
  - assert (Hc : ∀ ks sz, count (mk_circular_buffer ks ((write_idx b + 1) mod MAX_BUFF_SIZE) (read_idx b) sz) = S (count b)).
    { intros. unfold count, MAX_BUFF_SIZE in *. cbn. Z.div_mod_to_equations. lia. }
    rewrite Hc, seq_S, fmap_app. f_equal.
    + apply list_fmap_ext. intros i j [-> Hi]%lookup_seq. unfold slot. cbn.
      rewrite znth_insert by lia. case_test; [|done]. bool_to_prop. exfalso.
      unfold count, MAX_BUFF_SIZE in *. Z.div_mod_to_equations. lia.
    + cbn. f_equal. unfold slot. cbn. rewrite znth_insert by lia.
      case_test; [done|]. bool_to_prop. destruct Htest0. 
      unfold count, MAX_BUFF_SIZE in *. Z.div_mod_to_equations. lia.
Qed.

Lemma get_cons b old c q :
  wf b → contents b = c :: q →
  ∃ b', get old b = Some ((1, c), b') ∧ wf b' ∧ contents b' = q ∧ size b' = size b.
Proof.
  intros Hwf Hq. unfold get. rewrite is_empty_contents, Hq by done. cbn.
  destruct Hwf as [Hk Hw Hr]. rewrite next_idx by done.
  destruct (znth_in_range (keys b) (read_idx b)) as [x Hx]; [lia|]. rewrite Hx. cbn.
  assert (Hn : count b = S (length q)) by (by rewrite <- length_contents, Hq).
  unfold contents in Hq. rewrite Hn in Hq. cbn in Hq. injection Hq as Hc Hq.
  unfold slot in Hc. rewrite Z.add_0_r, Z.mod_small, Hx in Hc by lia. cbn in Hc. subst x.
  eexists. split; [done|]. split_and!; [|unfold contents|done].
  - split; cbn; [done..|]. apply Z.mod_pos_bound. done.
  - rewrite <- Hq.
    assert (Hc : ∀ sz, count (mk_circular_buffer (keys b) (write_idx b) ((read_idx b + 1) mod MAX_BUFF_SIZE) sz) = length q).
    { intros. unfold count, MAX_BUFF_SIZE in *. cbn. Z.div_mod_to_equations. lia. }
    rewrite Hc, <- (fmap_S_seq 0 (length q)), <- list_fmap_compose.
    apply list_fmap_ext. intros i j [-> Hi]%lookup_seq. unfold slot. cbn. do 2 f_equal.
    unfold MAX_BUFF_SIZE. Z.div_mod_to_equations. lia.
Qed.

Lemma put_full b c :
  wf b → length (contents b) = 31%nat → put c b = Some (0, b).
Proof.
  intros Hwf Hlen. unfold put. rewrite is_full_count by done. by rewrite Hlen.
Qed.

Lemma get_nil b old : wf b → contents b = [] → get old b = Some ((0, old), b).
Proof. intros Hwf Hq. unfold get. by rewrite is_empty_contents, Hq. Qed.

Lemma contents_lt b : (length (contents b) < 32)%nat.
Proof. rewrite length_contents. apply count_lt. Qed.

(** One call refines one step of the bounded queue. *)
Lemma step_refines o b :
  wf b → ∃ b', step o b = Some ((fifo_step o (contents b)).1, b') ∧ wf b' ∧
               contents b' = (fifo_step o (contents b)).2 ∧ size b' = size b.
Proof.
  intros Hwf. pose proof (contents_lt b). unfold step, mbind, M_bind. destruct o as [c|]; cbn.
  - case_test; bool_to_prop; unfold MAX_BUFF_SIZE in *.
    + rewrite put_full by (done || lia). by exists b.
    + destruct (put_room b c) as (b' & -> & ? & ? & ?); [done|lia|]. by exists b'.
  - destruct (contents b) as [|c q] eqn:Hq.
    + rewrite get_nil by done. by exists b.
    + destruct (get_cons b 0 c q) as (b' & -> & ? & ? & ?); [done..|]. by exists b'.
Qed.

Lemma run_refines os b :
  wf b → ∃ b', run os b = Some ((fifo_run os (contents b)).1, b') ∧ wf b' ∧
               contents b' = (fifo_run os (contents b)).2 ∧ size b' = size b.
Proof.
  revert b. induction os as [|o os IH]; intros b Hwf; cbn; [by exists b|].
  destruct (step_refines o b Hwf) as (b1 & Hs & Hwf1 & Hc1 & Hz1).
  destruct (fifo_step o (contents b)) as [r q]. cbn in *. subst q.
  destruct (IH b1 Hwf1) as (b2 & Hr & Hwf2 & Hc2 & Hz2).
  destruct (fifo_run os (contents b1)) as [rs q']. cbn in *.
  exists b2. unfold mbind, M_bind. rewrite Hs, Hr. split_and!; congruence || done.
Qed.
End facts.

#[export] Hint Resolve contents_lt : zeos.

(** A buffer with arbitrary characters in its cells, as the kernel finds it. *)
Definition blank : circular_buffer := mk_circular_buffer (replicate 32 7) 5 9 3.

(** ** Properties *)

(** C24: the ring buffer implements a bounded first-in first-out queue: after
    [init], whatever it held before, every sequence of [put] and [get] calls
    runs without a fault and returns exactly the statuses and the characters
    that a queue of capacity [MAX_BUFF_SIZE - 1] returns, in the same order,
    across any number of wrap-arounds of the two indices.  The field that [size]
    answers is not maintained: it is 0 also when characters are pending. *)
Theorem circular_fifo_refinement (b : circular_buffer) (os : list op) :
  Z.of_nat (length (keys b)) = MAX_BUFF_SIZE →
  ∃ b', run os (init b) = Some ((fifo_run os []).1, b') ∧ contents b' = (fifo_run os []).2 ∧ size_of b' = 0.
Proof.
  intros Hk. destruct (init_contents b Hk) as [Hwf Hc].
  destruct (run_refines os (init b) Hwf) as (b' & Hr & _ & Hq & Hz).
  rewrite Hc in *. eauto.
Qed.

Lemma circular_fifo_refinement_witness :
  Z.of_nat (length (keys blank)) = MAX_BUFF_SIZE ∧
  ∃ b', run [Put 97; Get; Get] (init blank) =
          Some ((fifo_run [Put 97; Get; Get] []).1, b') ∧
        contents b' = (fifo_run [Put 97; Get; Get] []).2 ∧ size_of b' = 0.
Proof.
  split; [reflexivity|]. apply (circular_fifo_refinement blank [Put 97; Get; Get]). reflexivity.
Defined.

End Circ.
