(* ===== verification/Memory.v ===== *)
(** * Byte memory and the copy routines of utils.c

    [ByteMem] is the interface between the routines that move bytes and the
    memory they run on: an address resolves to a physical byte or faults, and
    physical bytes are read and written.  Two addresses may resolve to the same
    byte (aliases of a page).  The routines are written, and their theorems
    proved, against this interface; [FlatMem] below is the instance for plain
    physical memory, and the kernel gives a second one that translates every
    address through the page tables of the running process. *)

From S2P Require Import Prelude CInt.

Class ByteMem (S : Type) := {
  resolve : S → Z → option Z;
  pread : S → Z → Z;
  pwrite : Z → Z → S → S;
}.

(** The laws: a write is read back truncated to a byte, it changes no other
    byte, and it does not change where addresses resolve to. *)
Class ByteMemLaws (S : Type) `{ByteMem S} : Prop := {
  pread_pwrite : ∀ s a v b, pread (pwrite a v s) b = if decide (a = b) then u8 v else pread s b;
  pread_is_u8 : ∀ s a, is_u8 (pread s a);
  resolve_pwrite : ∀ s a v b, resolve (pwrite a v s) b = resolve s b;
}.

Section access.
Context {S : Type} `{ByteMem S}.

Definition load8 (s : S) (a : Z) : option Z := p ← resolve s a; Some (pread s p).
Definition store8 (a v : Z) (s : S) : option S := p ← resolve s a; Some (pwrite p v s).

(** A [DWord]: four bytes, the lowest first. *)
Definition load32 (s : S) (a : Z) : option Z :=
  b0 ← load8 s a;
  b1 ← load8 s (u32 (a + 1));
  b2 ← load8 s (u32 (a + 2));
  b3 ← load8 s (u32 (a + 3));
  Some (b0 + b1 * 2 ^ 8 + b2 * 2 ^ 16 + b3 * 2 ^ 24).

Definition store32 (a w : Z) (s : S) : option S :=
  s ← store8 a (u8 w) s;
  s ← store8 (u32 (a + 1)) (u8 (w / 2 ^ 8)) s;
  s ← store8 (u32 (a + 2)) (u8 (w / 2 ^ 16)) s;
  store8 (u32 (a + 3)) (u8 (w / 2 ^ 24)) s.

(** The loop state of the copies: the two pointers, the bytes left, memory. *)
Record copying := mk_copying { cp : Z; cq : Z; left : Z; cmem : S }.

(** [*q++ = *p++; size -= 4] and [*q1++ = *p1++; size--] *)
Definition copy_word (c : copying) : option copying :=
  w ← load32 (cmem c) (cp c);
  s ← store32 (cq c) w (cmem c);
  Some (mk_copying (u32 (cp c + 4)) (u32 (cq c + 4)) (left c - 4) s).

Definition copy_byte (c : copying) : option copying :=
  w ← load8 (cmem c) (cp c);
  s ← store8 (cq c) w (cmem c);
  Some (mk_copying (u32 (cp c + 1)) (u32 (cq c + 1)) (left c - 1) s).

Definition copy_data (start dest size : Z) (s : S) : option S :=
  let fuel := Datatypes.S (Z.to_nat size) in
  c ← while fuel (λ c, 4 <? left c) copy_word (mk_copying start dest size s);
  c ← while fuel (λ c, 0 <? left c) copy_byte c;
  Some (cmem c).

(** The two routines between user and kernel space have the body of
    [copy_data] and always answer 0. *)
Definition copy_from_user (start dest size : Z) : M S Z := λ s,
  s ← copy_data start dest size s; Some (0, s).

Definition copy_to_user (start dest size : Z) : M S Z := λ s,
  s ← copy_data start dest size s; Some (0, s).

(** [*q++ = 0] *)
Definition zero_word (c : copying) : option copying :=
  s ← store32 (cq c) 0 (cmem c);
  Some (mk_copying (cp c) (u32 (cq c + 4)) (left c - 4) s).

Definition zero_byte (c : copying) : option copying :=
  s ← store8 (cq c) 0 (cmem c);
  Some (mk_copying (cp c) (u32 (cq c + 1)) (left c - 1) s).

Definition zero_out (dest size : Z) (s : S) : option S :=
  let fuel := Datatypes.S (Z.to_nat size) in
  c ← while fuel (λ c, 4 <? left c) zero_word (mk_copying 0 dest size s);
  c ← while fuel (λ c, 0 <? left c) zero_byte c;
  Some (cmem c).

(** ** Reference definitions: one byte at a time *)

Fixpoint copy_ref (n : nat) (p q : Z) (s : S) : option S :=
  match n with
  | O => Some s
  | Datatypes.S n =>
      v ← load8 s p;
      s ← store8 q v s;
      copy_ref n (u32 (p + 1)) (u32 (q + 1)) s
  end.

Fixpoint zero_ref (n : nat) (q : Z) (s : S) : option S :=
  match n with
  | O => Some s
  | Datatypes.S n => s ← store8 q 0 s; zero_ref n (u32 (q + 1)) s
  end.

(** No byte of the source is a byte of the destination. *)
Definition no_overlap (s : S) (p q n : Z) : Prop :=
  ∀ i j x y, 0 ≤ i < n → 0 ≤ j < n →
    resolve s (u32 (p + i)) = Some x → resolve s (u32 (q + j)) = Some y → x ≠ y.

(** The [n] addresses from [q] on resolve to [n] different bytes. *)
Definition distinct (s : S) (q n : Z) : Prop :=
  ∀ i j x, 0 ≤ i < n → 0 ≤ j < n →
    resolve s (u32 (q + i)) = Some x → resolve s (u32 (q + j)) = Some x → i = j.

(** [z] is none of the bytes of the area [q .. q + n - 1]. *)
Definition outside (s : S) (q n z : Z) : Prop :=
  ∀ i, 0 ≤ i < n → resolve s (u32 (q + i)) ≠ Some z.

Definition mapped (s : S) (p n : Z) : Prop :=
  ∀ i, 0 ≤ i < n → is_Some (resolve s (u32 (p + i))).
End access.

Arguments copying S : clear implicits.

(** ** Flat physical memory *)

Definition flat : Type := gmap Z Z.

#[export] Instance FlatMem : ByteMem flat := {
  resolve m a := Some a;
  pread m a := u8 (default 0 ((m : gmap Z Z) !! a));
  pwrite a v m := <[a := v]> (m : gmap Z Z);
}.

#[export] Instance FlatMemLaws : ByteMemLaws flat.
Proof.
  split; cbn; auto with zeos. intros m a v b. rewrite lookup_insert. by case_decide.
Qed.

(** ** Facts *)

Section facts.
Context {S : Type} `{ByteMemLaws S}.
Implicit Types s : S.

Lemma load8_is_u8 s a v : load8 s a = Some v → is_u8 v.
Proof. unfold load8. destruct (resolve s a); [|done]. intros [= <-]. apply pread_is_u8. Qed.

Lemma store8_resolve a v s s' b : store8 a v s = Some s' → resolve s' b = resolve s b.
Proof. unfold store8. destruct (resolve s a); [|done]. intros [= <-]. apply resolve_pwrite. Qed.

Lemma copy_ref_resolve n p q s s' b : copy_ref n p q s = Some s' → resolve s' b = resolve s b.
Proof.
  revert p q s. induction n as [|n IH]; intros p q s; cbn; [by intros [= <-]|].
  destruct (load8 s p); [|done]. cbn. destruct (store8 q _ s) as [s1|] eqn:Hs; [|done]. cbn.
  intros ->%IH. by eapply store8_resolve.
Qed.

Lemma zero_ref_resolve n q s s' b : zero_ref n q s = Some s' → resolve s' b = resolve s b.
Proof.
  revert q s. induction n as [|n IH]; intros q s; cbn; [by intros [= <-]|].
  destruct (store8 q _ s) as [s1|] eqn:Hs; [|done]. cbn.
  intros ->%IH. by eapply store8_resolve.
Qed.

Lemma u32_add_add p a b : u32 (u32 (p + a) + b) = u32 (p + (a + b)).
Proof. rewrite u32_add_l. f_equal. lia. Qed.

Lemma copy_ref_add a b p q s :
  copy_ref (a + b) p q s =
  s' ← copy_ref a p q s; copy_ref b (if a then p else u32 (p + Z.of_nat a)) (if a then q else u32 (q + Z.of_nat a)) s'.
Proof.
  revert p q s. induction a as [|a IH]; intros p q s; cbn -[Z.of_nat]; [done|].
  destruct (load8 s p); [|done]. cbn -[Z.of_nat].
  destruct (store8 q _ s) as [s1|]; [|done]. cbn -[Z.of_nat]. rewrite IH.
  destruct (copy_ref a _ _ s1); [|done]. cbn -[Z.of_nat].
  destruct a; [done|]. rewrite !u32_add_add. repeat f_equal; lia.
Qed.

Lemma zero_ref_add a b q s :
  zero_ref (a + b) q s = s' ← zero_ref a q s; zero_ref b (if a then q else u32 (q + Z.of_nat a)) s'.
Proof.
  revert q s. induction a as [|a IH]; intros q s; cbn -[Z.of_nat]; [done|].
  destruct (store8 q _ s) as [s1|]; [|done]. cbn -[Z.of_nat]. rewrite IH.
  destruct (zero_ref a _ s1); [|done]. cbn -[Z.of_nat].
  destruct a; [done|]. rewrite !u32_add_add. repeat f_equal; lia.
Qed.

Lemma no_overlap_sub s p q n k m :
  no_overlap s p q n → 0 ≤ k → k + m ≤ n → no_overlap s (u32 (p + k)) (u32 (q + k)) m.
Proof.
  intros Hno Hk Hm i j x y Hi Hj. rewrite !u32_add_add. apply Hno; lia.
Qed.

Lemma no_overlap_step s s' p q n :
  (∀ b, resolve s' b = resolve s b) → no_overlap s p q n → no_overlap s' p q n.
Proof. intros Hr Hno i j x y Hi Hj. rewrite !Hr. by apply Hno. Qed.

Lemma bytes_of_word b0 b1 b2 b3 :
  is_u8 b0 → is_u8 b1 → is_u8 b2 → is_u8 b3 →
  let w := b0 + b1 * 2 ^ 8 + b2 * 2 ^ 16 + b3 * 2 ^ 24 in
  u8 w = b0 ∧ u8 (w / 2 ^ 8) = b1 ∧ u8 (w / 2 ^ 16) = b2 ∧ u8 (w / 2 ^ 24) = b3.
Proof.
  unfold is_u8, u8. change (2 ^ 24) with 16777216. change (2 ^ 16) with 65536.
  change (2 ^ 8) with 256. cbn zeta. intros. repeat split; Z.div_mod_to_equations; lia.
Qed.

Local Ltac resolve_one s := match goal with |- context [resolve s ?a] =>
  destruct (resolve s a) eqn:?; cbn; rewrite ?resolve_pwrite; cbn end.

(** A word copied at once is four bytes copied in a row, faults included. *)
Lemma copy_word_ref p q n s :
  is_u32 p → is_u32 q → no_overlap s p q 4 →
  copy_word (mk_copying p q n s) =
  s' ← copy_ref 4 p q s; Some (mk_copying (u32 (p + 4)) (u32 (q + 4)) (n - 4) s').
Proof.
  intros Hp Hq Hno. unfold copy_word, load32, store32. cbn. unfold load8, store8.
  rewrite !u32_add_add. change (1 + 1) with 2. change (1 + 2) with 3.
  assert (∀ i j x y, 0 ≤ i < 4 → 0 ≤ j < 4 → resolve s (u32 (p + i)) = Some x →
            resolve s (u32 (q + j)) = Some y → y ≠ x) as Hne.
  { intros i j x y ? ? ? ? ->. by apply (Hno i j x x). }
  assert (∀ j x y, 0 ≤ j < 3 → resolve s (u32 (p + (j + 1))) = Some x →
            resolve s q = Some y → y ≠ x) as Hne0.
  { intros j x y Hj Hx Hy. apply (Hne (j + 1) 0); [lia..|done|].
    by rewrite Z.add_0_r, u32_small. }
  do 8 (resolve_one s; [|solve [repeat (resolve_one s || done)]]).
  repeat (repeat match goal with H : resolve s _ = Some _ |- _ => rewrite H end;
          cbn; rewrite ?resolve_pwrite).
  pose proof (Hne0 0 _ _ ltac:(lia) ltac:(done) ltac:(done)) as H10.
  pose proof (Hne0 1 _ _ ltac:(lia) ltac:(done) ltac:(done)) as H20.
  pose proof (Hne0 2 _ _ ltac:(lia) ltac:(done) ltac:(done)) as H30.
  pose proof (Hne 2 1 _ _ ltac:(lia) ltac:(lia) ltac:(done) ltac:(done)) as H21.
  pose proof (Hne 3 1 _ _ ltac:(lia) ltac:(lia) ltac:(done) ltac:(done)) as H31.
  pose proof (Hne 3 2 _ _ ltac:(lia) ltac:(lia) ltac:(done) ltac:(done)) as H32.
  rewrite !pread_pwrite, !decide_False by done. clear Hne Hne0.
  pose proof (bytes_of_word _ _ _ _ (pread_is_u8 s z3) (pread_is_u8 s z2)
                (pread_is_u8 s z1) (pread_is_u8 s z0)) as (-> & -> & -> & ->).
  done.
Qed.

Lemma zero_word_ref p q n s :
  is_u32 q →
  zero_word (mk_copying p q n s) =
  s' ← zero_ref 4 q s; Some (mk_copying p (u32 (q + 4)) (n - 4) s').
Proof.
  intros Hq. unfold zero_word, store32. cbn. rewrite !u32_add_add.
  change (u8 0) with 0. change (u8 (0 / 2 ^ 8)) with 0. change (u8 (0 / 2 ^ 16)) with 0.
  change (u8 (0 / 2 ^ 24)) with 0.
  by repeat (destruct (store8 _ _ _); [cbn|done]).
Qed.

(** The byte loop, once four bytes or fewer are left. *)
Lemma copy_bytes_ref fuel n p q s :
  (n < fuel)%nat →
  (c ← while fuel (λ c, 0 <? left c) copy_byte (mk_copying p q (Z.of_nat n) s); Some (cmem c)) =
  copy_ref n p q s.
Proof.
  revert n p q s. induction fuel as [|f IH]; intros n p q s Hn; [lia|]. cbn [while left].
  destruct n as [|n]; [done|]. destruct (Z.ltb_spec 0 (Z.of_nat (Datatypes.S n))); [|lia].
  unfold copy_byte. cbn -[Z.of_nat]. destruct (load8 s p); [|done]. cbn -[Z.of_nat].
  destruct (store8 q _ s); [|done]. cbn -[Z.of_nat].
  replace (Z.of_nat (Datatypes.S n) - 1) with (Z.of_nat n) by lia. apply IH. lia.
Qed.

Lemma zero_bytes_ref fuel n p q s :
  (n < fuel)%nat →
  (c ← while fuel (λ c, 0 <? left c) zero_byte (mk_copying p q (Z.of_nat n) s); Some (cmem c)) =
  zero_ref n q s.
Proof.
  revert n p q s. induction fuel as [|f IH]; intros n p q s Hn; [lia|]. cbn [while left].
  destruct n as [|n]; [done|]. destruct (Z.ltb_spec 0 (Z.of_nat (Datatypes.S n))); [|lia].
  unfold zero_byte. cbn -[Z.of_nat].
  destruct (store8 q _ s); [|done]. cbn -[Z.of_nat].
  replace (Z.of_nat (Datatypes.S n) - 1) with (Z.of_nat n) by lia. apply IH. lia.
Qed.

(** Both loops from any point of the word loop. *)
Lemma copy_loops_ref f1 f2 n p q s :
  is_u32 p → is_u32 q → (n < f1)%nat → (n < f2)%nat → no_overlap s p q (Z.of_nat n) →
  (c ← while f1 (λ c, 4 <? left c) copy_word (mk_copying p q (Z.of_nat n) s);
   c ← while f2 (λ c, 0 <? left c) copy_byte c; Some (cmem c)) = copy_ref n p q s.
Proof.
  revert n p q s. induction f1 as [|f1 IH]; intros n p q s Hp Hq Hn1 Hn2 Hno; [lia|].
  cbn [while left]. destruct (Z.ltb_spec 4 (Z.of_nat n)) as [H4|H4].
  - rewrite copy_word_ref by (done || intros i j x y ??; apply Hno; lia).
    assert (copy_ref n p q s = copy_ref (4 + (n - 4)) p q s) as -> by (f_equal; lia).
    rewrite copy_ref_add.
    destruct (copy_ref 4 p q s) as [s1|] eqn:Hs; [|done]. cbn [mbind option_bind].
    replace (Z.of_nat n - 4) with (Z.of_nat (n - 4)) by lia.
    apply IH; try lia; auto with zeos.
    apply no_overlap_step with s; [intros b; by eapply copy_ref_resolve|].
    apply no_overlap_sub with (Z.of_nat n); [done|lia..].
  - cbn [mbind option_bind]. by apply copy_bytes_ref.
Qed.

Lemma zero_loops_ref f1 f2 n p q s :
  is_u32 q → (n < f1)%nat → (n < f2)%nat →
  (c ← while f1 (λ c, 4 <? left c) zero_word (mk_copying p q (Z.of_nat n) s);
   c ← while f2 (λ c, 0 <? left c) zero_byte c; Some (cmem c)) = zero_ref n q s.
Proof.
  revert n q s. induction f1 as [|f1 IH]; intros n q s Hq Hn1 Hn2; [lia|].
  cbn [while left]. destruct (Z.ltb_spec 4 (Z.of_nat n)) as [H4|H4].
  - rewrite zero_word_ref by done.
    assert (zero_ref n q s = zero_ref (4 + (n - 4)) q s) as -> by (f_equal; lia).
    rewrite zero_ref_add.
    destruct (zero_ref 4 q s) as [s1|] eqn:Hs; [|done]. cbn [mbind option_bind].
    replace (Z.of_nat n - 4) with (Z.of_nat (n - 4)) by lia.
    apply IH; try lia; auto with zeos.
  - cbn [mbind option_bind]. by apply zero_bytes_ref.
Qed.

Lemma copy_data_ref p q n s :
  is_u32 p → is_u32 q → no_overlap s p q n → copy_data p q n s = copy_ref (Z.to_nat n) p q s.
Proof.
  intros Hp Hq Hno. unfold copy_data. destruct (Z.le_gt_cases 0 n) as [Hn|Hn].
  - rewrite <- (Z2Nat.id n) at 2 by done. apply copy_loops_ref; try done; [lia..|].
    by rewrite Z2Nat.id.
  - replace (Z.to_nat n) with 0%nat by lia. cbn.
    destruct (Z.ltb_spec 4 n), (Z.ltb_spec 0 n); try lia. cbn.
    destruct (Z.ltb_spec 0 n); [lia|done].
Qed.

Lemma zero_out_ref q n s : is_u32 q → zero_out q n s = zero_ref (Z.to_nat n) q s.
Proof.
  intros Hq. unfold zero_out. destruct (Z.le_gt_cases 0 n) as [Hn|Hn].
  - rewrite <- (Z2Nat.id n) at 2 by done. apply zero_loops_ref; try done; lia.
  - replace (Z.to_nat n) with 0%nat by lia. cbn.
    destruct (Z.ltb_spec 4 n), (Z.ltb_spec 0 n); try lia. cbn.
    destruct (Z.ltb_spec 0 n); [lia|done].
Qed.

Lemma store8_spec s q v :
  mapped s q 1 → is_u32 q → is_u8 v →
  ∃ x s', resolve s q = Some x ∧ store8 q v s = Some s' ∧
    (∀ b, resolve s' b = resolve s b) ∧
    (∀ z, pread s' z = if decide (x = z) then v else pread s z).
Proof.
  intros Hm Hq Hv. destruct (Hm 0) as [x Hx]; [lia|]. rewrite Z.add_0_r, u32_small in Hx by done.
  exists x, (pwrite x v s). unfold store8. rewrite Hx. cbn.
  split_and!; [done..|intros; apply resolve_pwrite|].
  intros z. rewrite pread_pwrite. by rewrite u8_small.
Qed.

Lemma area_tail (P : Z → Prop) q n :
  (∀ i, 0 ≤ i < n + 1 → P (u32 (q + i))) → ∀ i, 0 ≤ i < n → P (u32 (u32 (q + 1) + i)).
Proof. intros HP i Hi. rewrite u32_add_add. apply HP. lia. Qed.

Lemma copy_ref_spec (n : nat) p q s :
  is_u32 p → is_u32 q → mapped s p (Z.of_nat n) → mapped s q (Z.of_nat n) →
  distinct s q (Z.of_nat n) → no_overlap s p q (Z.of_nat n) →
  ∃ s', copy_ref n p q s = Some s' ∧ (∀ b, resolve s' b = resolve s b) ∧
    (∀ i, 0 ≤ i < Z.of_nat n → load8 s' (u32 (q + i)) = load8 s (u32 (p + i))) ∧
    (∀ z, outside s q (Z.of_nat n) z → pread s' z = pread s z).
Proof.
  revert p q s. induction n as [|n IH]; intros p q s Hp Hq Hmp Hmq Hd Hno.
  { exists s. split_and!; [done..| |done]. intros i ?. lia. }
  cbn [copy_ref]. destruct (Hmp 0) as [x Hx]; [lia|].
  rewrite Z.add_0_r, u32_small in Hx by done.
  assert (load8 s p = Some (pread s x)) as Hld by (unfold load8; by rewrite Hx).
  rewrite Hld. cbn -[Z.of_nat].
  destruct (store8_spec s q (pread s x)) as (y & s1 & Hy & Hst & Hres & Hrd);
    [intros i ?; apply Hmq; lia|done|apply pread_is_u8|].
  rewrite Hst. cbn -[Z.of_nat].
  assert (Hy0 : resolve s (u32 (q + 0)) = Some y) by (by rewrite Z.add_0_r, u32_small).
  destruct (IH (u32 (p + 1)) (u32 (q + 1)) s1) as (s' & -> & Hres' & Hcp & Hout).
  { auto with zeos. } { auto with zeos. }
  { intros i Hi. rewrite Hres, u32_add_add. apply Hmp. lia. }
  { intros i Hi. rewrite Hres, u32_add_add. apply Hmq. lia. }
  { intros i j z Hi Hj. rewrite !Hres, !u32_add_add. intros H1 H2.
    assert (1 + i = 1 + j); [|lia]. apply (Hd _ _ z); try done; lia. }
  { apply no_overlap_step with s; [done|]. eapply no_overlap_sub; [done|lia..]. }
  assert (Hsrc : ∀ i, 0 ≤ i < Z.of_nat n → load8 s1 (u32 (p + (1 + i))) = load8 s (u32 (p + (1 + i)))).
  { intros i Hi. unfold load8. rewrite Hres. destruct (resolve s (u32 (p + (1 + i)))) as [z|] eqn:Hz; [|done].
    cbn. rewrite Hrd, decide_False; [done|]. intros ->. by apply (Hno (1 + i) 0 z z); try lia. }
  exists s'. split_and!; [done|by intros b; rewrite Hres', Hres|..].
  - intros i Hi. destruct (decide (i = 0)) as [->|Hi0].
    + rewrite !Z.add_0_r, !u32_small, Hld by done. unfold load8. rewrite Hres', Hres, Hy. cbn.
      f_equal. rewrite Hout, Hrd; [by rewrite decide_True|].
      intros i Hi' Heq. rewrite Hres, u32_add_add in Heq.
      assert (0 = 1 + i); [|lia]. apply (Hd _ _ y); try done; lia.
    + replace i with (1 + (i - 1)) by lia. rewrite <- Hsrc, <- !u32_add_add by lia. apply Hcp. lia.
  - intros z Hz. rewrite Hout, Hrd.
    + rewrite decide_False; [done|]. intros ->. apply (Hz 0); [lia|done].
    + intros i Hi. rewrite Hres, u32_add_add. apply Hz. lia.
Qed.

Lemma zero_ref_spec (n : nat) q s :
  is_u32 q → mapped s q (Z.of_nat n) →
  ∃ s', zero_ref n q s = Some s' ∧ (∀ b, resolve s' b = resolve s b) ∧
    (∀ i, 0 ≤ i < Z.of_nat n → load8 s' (u32 (q + i)) = Some 0) ∧
    (∀ z, pread s z = 0 → pread s' z = 0) ∧
    (∀ z, outside s q (Z.of_nat n) z → pread s' z = pread s z).
Proof.
  revert q s. induction n as [|n IH]; intros q s Hq Hmq.
  { exists s. split_and!; [done..| |done|done]. intros i ?. lia. }
  cbn [zero_ref].
  destruct (store8_spec s q 0) as (y & s1 & Hy & Hst & Hres & Hrd);
    [intros i ?; apply Hmq; lia|done|wrap_lia|].
  rewrite Hst. cbn -[Z.of_nat].
  assert (Hy0 : resolve s (u32 (q + 0)) = Some y) by (by rewrite Z.add_0_r, u32_small).
  destruct (IH (u32 (q + 1)) s1) as (s' & -> & Hres' & Hcp & Hmono & Hout).
  { auto with zeos. }
  { intros i Hi. rewrite Hres, u32_add_add. apply Hmq. lia. }
  exists s'. split_and!; [done|by intros b; rewrite Hres', Hres|..].
  - intros i Hi. destruct (decide (i = 0)) as [->|Hi0].
    + unfold load8. rewrite Hres', Hres, Hy0. cbn. f_equal. apply Hmono. rewrite Hrd.
      by case_decide.
    + replace i with (1 + (i - 1)) by lia. rewrite <- u32_add_add. apply Hcp. lia.
  - intros z Hz. apply Hmono. rewrite Hrd. by case_decide.
  - intros z Hz. rewrite Hout, Hrd.
    + rewrite decide_False; [done|]. intros ->. apply (Hz 0); [lia|done].
    + intros i Hi. rewrite Hres, u32_add_add. apply Hz. lia.
Qed.

(** The two area operations as the kernel uses them. *)
Lemma copy_data_spec p q n s :
  is_u32 p → is_u32 q → 0 ≤ n → mapped s p n → mapped s q n → distinct s q n → no_overlap s p q n →
  ∃ s', copy_data p q n s = Some s' ∧ (∀ b, resolve s' b = resolve s b) ∧
    (∀ i, 0 ≤ i < n → load8 s' (u32 (q + i)) = load8 s (u32 (p + i))) ∧
    (∀ z, outside s q n z → pread s' z = pread s z).
Proof.
  intros Hp Hq Hn ? ? ? ?. rewrite copy_data_ref by done.
  rewrite <- (Z2Nat.id n) in * by done. rewrite Nat2Z.id. by apply copy_ref_spec.
Qed.

Lemma zero_out_spec q n s :
  is_u32 q → 0 ≤ n → mapped s q n →
  ∃ s', zero_out q n s = Some s' ∧ (∀ b, resolve s' b = resolve s b) ∧
    (∀ i, 0 ≤ i < n → load8 s' (u32 (q + i)) = Some 0) ∧
    (∀ z, outside s q n z → pread s' z = pread s z).
Proof.
  intros Hq Hn Hm. rewrite zero_out_ref by done.
  rewrite <- (Z2Nat.id n) in * by done. rewrite Nat2Z.id.
  destruct (zero_ref_spec (Z.to_nat n) q s Hq Hm) as (s' & ? & ? & ? & _ & ?). by exists s'.
Qed.

(** What the writes preserve, the routines preserve. *)
Section preserve.
Context (I : S → Prop) (HI : ∀ s a v, I s → I (pwrite a v s)).

Lemma store8_inv a v s s' : store8 a v s = Some s' → I s → I s'.
Proof. unfold store8. destruct (resolve s a); [|done]. intros [= <-]. apply HI. Qed.

Lemma store32_inv a v s s' : store32 a v s = Some s' → I s → I s'.
Proof.
  unfold store32. destruct (store8 a _ s) as [s1|] eqn:E1; [|done]. cbn [mbind option_bind].
  destruct (store8 (u32 (a + 1)) _ s1) as [s2|] eqn:E2; [|done]. cbn [mbind option_bind].
  destruct (store8 (u32 (a + 2)) _ s2) as [s3|] eqn:E3; [|done]. cbn [mbind option_bind].
  intros E4 Hs. eauto using store8_inv.
Qed.

Lemma copy_data_inv p q n s s' : copy_data p q n s = Some s' → I s → I s'.
Proof.
  unfold copy_data. destruct (while _ _ copy_word _) as [c1|] eqn:E1; [|done]. cbn [mbind option_bind].
  destruct (while _ _ copy_byte c1) as [c2|] eqn:E2; [|done]. intros [= <-] Hs.
  eapply (while_inv (λ c, I (cmem c))) in E1; [| |exact Hs].
  - eapply (while_inv (λ c, I (cmem c))) in E2; [exact E2| |exact E1].
    intros c c' Hc. unfold copy_byte. destruct (load8 _ _) as [w|]; [|done]. cbn [mbind option_bind].
    destruct (store8 _ _ _) as [m|] eqn:E; [|done]. intros [= <-]. cbn. by eapply store8_inv.
  - intros c c' Hc. unfold copy_word. destruct (load32 _ _) as [w|]; [|done]. cbn [mbind option_bind].
    destruct (store32 _ _ _) as [m|] eqn:E; [|done]. intros [= <-]. cbn. by eapply store32_inv.
Qed.

Lemma zero_out_inv q n s s' : zero_out q n s = Some s' → I s → I s'.
Proof.
  unfold zero_out. destruct (while _ _ zero_word _) as [c1|] eqn:E1; [|done]. cbn [mbind option_bind].
  destruct (while _ _ zero_byte c1) as [c2|] eqn:E2; [|done]. intros [= <-] Hs.
  eapply (while_inv (λ c, I (cmem c))) in E1; [| |exact Hs].
  - eapply (while_inv (λ c, I (cmem c))) in E2; [exact E2| |exact E1].
    intros c c' Hc. unfold zero_byte.
    destruct (store8 _ _ _) as [m|] eqn:E; [|done]. intros [= <-]. cbn. by eapply store8_inv.
  - intros c c' Hc. unfold zero_word.
    destruct (store32 _ _ _) as [m|] eqn:E; [|done]. intros [= <-]. cbn. by eapply store32_inv.
Qed.
End preserve.
End facts.

(** A flat memory with the bytes 1, 2, 3, ... at addresses 100, 101, ... *)
Definition ramp : flat := list_to_map ((λ i, (100 + Z.of_nat i, 1 + Z.of_nat i)) <$> seq 0 11).

(** ** Properties *)

(** C29: [copy_data] (and [copy_from_user] and [copy_to_user], which share its
    body) moves [size] bytes by words and then by bytes: on every memory, also
    one where addresses alias or fault, it does exactly what a loop that copies
    one byte at a time does, as long as no source byte is a destination byte. *)
Theorem copy_data_is_bytewise {S} `{ByteMemLaws S} (s : S) (start dest size : Z) :
  is_u32 start → is_u32 dest → no_overlap s start dest size →
  copy_data start dest size s = copy_ref (Z.to_nat size) start dest s.
Proof. apply copy_data_ref. Qed.

Lemma copy_data_is_bytewise_witness :
  is_u32 100 ∧ is_u32 200 ∧ no_overlap ramp 100 200 11 ∧
  copy_data 100 200 11 ramp = copy_ref (Z.to_nat 11) 100 200 ramp.
Proof.
  assert (Ho : no_overlap ramp 100 200 11).
  { intros i j x y Hi Hj. cbn. intros [= <-] [= <-]. wrap_lia. }
  assert (H1 : is_u32 100) by wrap_lia. assert (H2 : is_u32 200) by wrap_lia.
  split; [exact H1|]. split; [exact H2|]. split; [exact Ho|].
  apply (copy_data_is_bytewise ramp 100 200 11 H1 H2 Ho).
Defined.

(** When both areas are mapped, the destination bytes are all different and
    the areas do not overlap, [copy_data] does not fault, every destination
    byte then holds the source byte at the same offset, and no byte outside
    the destination changes. *)
Lemma copy_data_correct {S} `{ByteMemLaws S} (s : S) (start dest size : Z) :
  is_u32 start → is_u32 dest → 0 ≤ size →
  mapped s start size → mapped s dest size →
  distinct s dest size → no_overlap s start dest size →
  ∃ s', copy_data start dest size s = Some s' ∧
    (∀ i, 0 ≤ i < size → load8 s' (u32 (dest + i)) = load8 s (u32 (start + i))) ∧
    (∀ z, outside s dest size z → pread s' z = pread s z).
Proof.
  intros. destruct (copy_data_spec start dest size s) as (s' & ? & _ & ? & ?); [done..|].
  by exists s'.
Qed.

Lemma copy_data_correct_witness :
  mapped ramp 100 11 ∧ mapped ramp 200 11 ∧ distinct ramp 200 11 ∧ no_overlap ramp 100 200 11 ∧
  ∃ s', copy_data 100 200 11 ramp = Some s' ∧
    (∀ i, 0 ≤ i < 11 → load8 s' (u32 (200 + i)) = load8 ramp (u32 (100 + i))) ∧
    (∀ z, outside ramp 200 11 z → pread s' z = pread ramp z).
Proof.
  assert (Hm1 : mapped ramp 100 11) by (intros i Hi; cbn; eauto).
  assert (Hm2 : mapped ramp 200 11) by (intros i Hi; cbn; eauto).
  assert (Hd : distinct ramp 200 11).
  { intros i j x Hi Hj. cbn. intros [= <-] [= Heq]. wrap_lia. }
  assert (Ho : no_overlap ramp 100 200 11).
  { intros i j x y Hi Hj. cbn. intros [= <-] [= <-]. wrap_lia. }
  split; [exact Hm1|]. split; [exact Hm2|]. split; [exact Hd|]. split; [exact Ho|].
  apply (copy_data_correct ramp 100 200 11); [wrap_lia|wrap_lia|lia|assumption..].
Defined.

(** [zero_out] clears exactly its area: it does not fault on mapped
    addresses, every byte of the area is 0 afterwards, and the bytes outside
    keep their values; addresses of the area may alias. *)
Lemma zero_out_correct {S} `{ByteMemLaws S} (s : S) (dest size : Z) :
  is_u32 dest → 0 ≤ size → mapped s dest size →
  ∃ s', zero_out dest size s = Some s' ∧
    (∀ i, 0 ≤ i < size → load8 s' (u32 (dest + i)) = Some 0) ∧
    (∀ z, outside s dest size z → pread s' z = pread s z).
Proof.
  intros. destruct (zero_out_spec dest size s) as (s' & ? & _ & ? & ?); [done..|]. by exists s'.
Qed.

Lemma zero_out_correct_witness :
  mapped ramp 100 11 ∧
  ∃ s', zero_out 100 11 ramp = Some s' ∧
    (∀ i, 0 ≤ i < 11 → load8 s' (u32 (100 + i)) = Some 0) ∧
    (∀ z, outside ramp 100 11 z → pread s' z = pread ramp z).
Proof.
  assert (Hm : mapped ramp 100 11) by (intros i Hi; cbn; eauto).
  split; [exact Hm|]. apply (zero_out_correct ramp 100 11); [wrap_lia|lia|exact Hm].
Defined.
