(* ===== verification/Errno.v ===== *)
(** * Error numbers of the system calls (include/errno.h) *)

From S2P Require Import Prelude.

Definition EBADF : Z := 9.
Definition ECHILD : Z := 10.
Definition ENOMEM : Z := 12.
Definition EACCES : Z := 13.
Definition EFAULT : Z := 14.
Definition EINVAL : Z := 22.
Definition ENOSYS : Z := 40.
Definition EOUTSCREEN : Z := 43.
Definition ENOCOLOR : Z := 44.
Definition ENOSHR : Z := 45.
