(* ===== verification/Console.v ===== *)
(** * The text screen (io.c, devices.c, the screen calls of sys.c, colors.h)

    The screen is the video memory at [0xb8000], a word per cell of 25 rows of
    80 columns; a word carries the character and its two colours.  The kernel
    keeps a cursor and the current colours; every byte printed is also sent to
    the debug port [0xe9]. *)

From S2P Require Import Prelude CInt Errno.

Definition SCREEN_ROWS : Z := 25.
Definition SCREEN_COLUMNS : Z := 80.

Definition BLACK : Z := 0x00.
Definition BLUE : Z := 0x01.
Definition GREEN : Z := 0x02.
Definition CYAN : Z := 0x03.
Definition RED : Z := 0x04.
Definition MAGENTA : Z := 0x05.
Definition LIGHT_GREEN : Z := 0x0A.
Definition LIGHT_CYAN : Z := 0x0B.
Definition LIGHT_RED : Z := 0x0C.
Definition LIGHT_MAGENTA : Z := 0x0D.
Definition WHITE : Z := 0x0F.

(** The globals of io.c and the devices they drive; [screen] maps the index of
    a cell (from [0xb8000], in words) to its word. *)
Record console := mk_console {
  x_screen : Z;
  y_screen : Z;
  fg_color : Z;
  bg_color : Z;
  screen : gmap Z Z;
  port_e9 : list Z;
}.

(** The values the globals are initialised with. *)
Definition console_init : console := mk_console 0 19 MAGENTA BLACK ∅ [].

Definition NEWLINE : Z := 10.

(** The word of a cell: [(Word)(c & 0x00FF) | (bg << 12) | (fg << 8)]. *)
Definition cell (c fg bg : Z) : Z :=
  u16 (Z.lor (Z.lor (u16 (Z.land c 0xFF)) (Z.shiftl bg 12)) (Z.shiftl fg 8)).

Definition printc (c : Z) (k : console) : console :=
  let port := port_e9 k ++ [c] in
  if c =? NEWLINE then
    mk_console 0 (u8 (Z.rem (y_screen k + 1) SCREEN_ROWS)) (fg_color k) (bg_color k) (screen k) port
  else
    let ch := cell c (fg_color k) (bg_color k) in
    let scr := <[y_screen k * SCREEN_COLUMNS + x_screen k := ch]> (screen k) in
    let x := u8 (x_screen k + 1) in
    if SCREEN_COLUMNS <=? x then
      mk_console 0 (u8 (Z.rem (y_screen k + 1) SCREEN_ROWS)) (fg_color k) (bg_color k) scr port
    else mk_console x (y_screen k) (fg_color k) (bg_color k) scr port.

Definition set_cursor (x y : Z) (k : console) : console :=
  mk_console x y (fg_color k) (bg_color k) (screen k) (port_e9 k).

Definition printc_xy (mx my c : Z) (k : console) : console :=
  set_cursor (x_screen k) (y_screen k) (printc c (set_cursor mx my k)).

(** [for (i = 0; string[i]; i++) printc(string[i])]: the string is an array of
    characters; reading past its end is a fault. *)
Fixpoint printk (string : list Z) (k : console) : option console :=
  match string with
  | [] => None
  | c :: string => if c =? 0 then Some k else printk string (printc c k)
  end.

(** [for (i = 0; i < size; i++) printc(buffer[i])] *)
Fixpoint write_loop (n : nat) (i : Z) (buffer : list Z) (k : console) : option console :=
  match n with
  | O => Some k
  | S n => c ← znth buffer i; write_loop n (i + 1) buffer (printc c k)
  end.

Definition sys_write_console (buffer : list Z) (size : Z) : M console Z := λ k,
  k ← write_loop (Z.to_nat size) 0 buffer k; Some (size, k).

Definition sys_gotoxy (x y : Z) : M console Z := λ k,
  if (SCREEN_COLUMNS <=? x) || (x <? 0) || (SCREEN_ROWS <=? y) || (y <? 0)
  then Some (- EOUTSCREEN, k)
  else Some (0, set_cursor (u8 x) (u8 y) k).

Definition set_colors (fg bg : Z) (k : console) : console :=
  mk_console (x_screen k) (y_screen k) fg bg (screen k) (port_e9 k).

Definition sys_set_color (fg bg : Z) : M console Z := λ k,
  if (WHITE <? fg) || (fg <? BLACK) || (WHITE <? bg) || (bg <? BLACK)
  then Some (- ENOCOLOR, k)
  else Some (0, set_colors (u8 fg) (u8 bg) k).

(** ** The view of the screen as a line of 2000 cells *)

Definition CELLS : Z := SCREEN_ROWS * SCREEN_COLUMNS.

Definition cursor (k : console) : Z := y_screen k * SCREEN_COLUMNS + x_screen k.

Record wf_console (k : console) : Prop := {
  wf_x : 0 ≤ x_screen k < SCREEN_COLUMNS;
  wf_y : 0 ≤ y_screen k < SCREEN_ROWS;
  wf_fg : BLACK ≤ fg_color k ≤ WHITE;
  wf_bg : BLACK ≤ bg_color k ≤ WHITE;
  wf_screen : ∀ i w, screen k !! i = Some w → 0 ≤ i < CELLS;
}.

(** Where the cursor goes after a character. *)
Definition advance (c p : Z) : Z :=
  if c =? NEWLINE then (p / SCREEN_COLUMNS + 1) mod SCREEN_ROWS * SCREEN_COLUMNS
  else (p + 1) mod CELLS.

(** The reference: a terminal that puts each character in the cell under the
    cursor and advances; nothing scrolls, the cursor wraps to the top. *)
Fixpoint terminal (fg bg : Z) (s : list Z) (p : Z) (scr : gmap Z Z) : Z * gmap Z Z :=
  match s with
  | [] => (p, scr)
  | c :: s =>
      terminal fg bg s (advance c p) (if c =? NEWLINE then scr else <[p := cell c fg bg]> scr)
  end.

(** [k'] is [k] after the terminal has shown [s] in the current colours. *)
Record prints (s : list Z) (k k' : console) : Prop := {
  pr_wf : wf_console k';
  pr_cells : (cursor k', screen k') = terminal (fg_color k) (bg_color k) s (cursor k) (screen k);
  pr_fg : fg_color k' = fg_color k;
  pr_bg : bg_color k' = bg_color k;
}.

(** What a cell shows. *)
Definition cell_char (w : Z) : Z := Z.land w 0xFF.
Definition cell_fg (w : Z) : Z := Z.land (Z.shiftr w 8) 0xF.
Definition cell_bg (w : Z) : Z := Z.shiftr w 12.

Section facts.
Implicit Types k : console.

Lemma cell_sum c fg bg :
  BLACK ≤ fg ≤ WHITE → BLACK ≤ bg ≤ WHITE → cell c fg bg = c mod 256 + fg * 256 + bg * 4096.
Proof.
  unfold BLACK, WHITE. intros Hfg Hbg. unfold cell.
  assert (Z.land c 0xFF = c mod 256) as -> by apply (land_ones_mod c 8 ltac:(lia)).
  assert (u16 (c mod 256) = c mod 256) as -> by wrap_lia.
  rewrite <- Z.lor_assoc, (Z.lor_comm (Z.shiftl bg 12)), Z.lor_assoc.
  rewrite (lor_shiftl_add (c mod 256) fg 8) by (change (2 ^ 8) with 256; lia || Z.div_mod_to_equations; lia).
  rewrite lor_shiftl_add by (change (2 ^ 8) with 256; change (2 ^ 12) with 4096; Z.div_mod_to_equations; lia).
  change (2 ^ 8) with 256; change (2 ^ 12) with 4096. wrap_lia.
Qed.

(** A cell shows the character and the colours it was written with. *)
Lemma cell_decode c fg bg :
  BLACK ≤ fg ≤ WHITE → BLACK ≤ bg ≤ WHITE →
  cell_char (cell c fg bg) = u8 c ∧ cell_fg (cell c fg bg) = fg ∧ cell_bg (cell c fg bg) = bg.
Proof.
  intros Hfg Hbg. unfold cell_char, cell_fg, cell_bg. rewrite !cell_sum by done.
  unfold BLACK, WHITE in *. rewrite (land_ones_mod _ 8 ltac:(lia)), (land_ones_mod _ 4 ltac:(lia)).
  rewrite !Z.shiftr_div_pow2 by lia. unfold u8.
  change (2 ^ 8) with 256; change (2 ^ 12) with 4096; change (2 ^ 4) with 16.
  repeat split; Z.div_mod_to_equations; lia.
Qed.

Lemma set_cursor_wf x y k :
  0 ≤ x < SCREEN_COLUMNS → 0 ≤ y < SCREEN_ROWS → wf_console k → wf_console (set_cursor x y k).
Proof. by intros ? ? [? ? ? ? ?]. Qed.

Lemma set_colors_wf fg bg k :
  BLACK ≤ fg ≤ WHITE → BLACK ≤ bg ≤ WHITE → wf_console k → wf_console (set_colors fg bg k).
Proof. by intros ? ? [? ? ? ? ?]. Qed.

Lemma cursor_range k : wf_console k → 0 ≤ cursor k < CELLS.
Proof. intros [? ? _ _ _]. unfold cursor, CELLS, SCREEN_ROWS, SCREEN_COLUMNS in *. lia. Qed.

(** One character moves the cursor of a sane console as the reference says
    and writes at most the cell under it. *)
Lemma printc_spec c k :
  wf_console k →
  wf_console (printc c k) ∧ cursor (printc c k) = advance c (cursor k) ∧
  screen (printc c k) = (if c =? NEWLINE then screen k
                         else <[cursor k := cell c (fg_color k) (bg_color k)]> (screen k)) ∧
  fg_color (printc c k) = fg_color k ∧ bg_color (printc c k) = bg_color k.
Proof.
  intros Hwf. pose proof (cursor_range k Hwf) as Hcur. destruct Hwf as [Hx Hy Hfg Hbg Hscr].
  unfold printc, cursor, advance, CELLS, SCREEN_ROWS, SCREEN_COLUMNS in *.
  rewrite Z.rem_mod_nonneg by lia.
  assert (Hbnd : ∀ i w, <[y_screen k * 80 + x_screen k := cell c (fg_color k) (bg_color k)]> (screen k) !! i = Some w →
            0 ≤ i < 25 * 80).
  { intros i w. rewrite lookup_insert. case_decide; [lia|apply Hscr]. }
  assert (u8 (x_screen k + 1) = x_screen k + 1) as -> by wrap_lia.
  assert (u8 ((y_screen k + 1) mod 25) = (y_screen k + 1) mod 25) as -> by wrap_lia.
  destruct (c =? NEWLINE); [|destruct (Z.leb_spec 80 (x_screen k + 1))]; cbn;
    split_and!; try done; try (split; cbn; unfold SCREEN_COLUMNS, SCREEN_ROWS; try done);
    try (clear - Hx Hy H; Z.div_mod_to_equations; lia); try (clear - Hx Hy; Z.div_mod_to_equations; lia).
Qed.

(** The cursor and the cells after a whole buffer: the reference terminal. *)
Lemma write_loop_terminal n i buffer k :
  wf_console k → 0 ≤ i → i + Z.of_nat n ≤ Z.of_nat (length buffer) →
  ∃ k', write_loop n i buffer k = Some k' ∧ wf_console k' ∧
    (cursor k', screen k') =
      terminal (fg_color k) (bg_color k) (take n (drop (Z.to_nat i) buffer)) (cursor k) (screen k) ∧
    fg_color k' = fg_color k ∧ bg_color k' = bg_color k.
Proof.
  revert i k. induction n as [|n IH]; intros i k Hwf Hi Hn.
  { exists k. rewrite take_0. by split_and!. }
  cbn [write_loop]. destruct (znth_in_range buffer i) as [c Hc]; [lia|]. rewrite Hc. cbn [mbind option_bind].
  destruct (printc_spec c k Hwf) as (Hwf1 & Hcur & Hscr & Hfg & Hbg).
  destruct (IH (i + 1) (printc c k) Hwf1) as (k' & -> & Hwf' & Heq & Hfg' & Hbg'); [lia..|].
  exists k'. split_and!; [done|done| |congruence..].
  rewrite Heq, Hfg, Hbg, Hcur, Hscr.
  unfold znth in Hc. destruct (Z.ltb_spec i 0); [lia|]. rewrite (drop_S _ _ _ Hc). cbn.
  by replace (Z.to_nat (i + 1)) with (S (Z.to_nat i)) by lia.
Qed.

Lemma terminal_app fg bg s s' p scr :
  terminal fg bg (s ++ s') p scr =
  terminal fg bg s' (terminal fg bg s p scr).1 (terminal fg bg s p scr).2.
Proof. revert p scr. induction s as [|c s IH]; intros p scr; [done|]. apply IH. Qed.

Lemma prints_nil k : wf_console k → prints [] k k.
Proof. by split. Qed.

Lemma prints_app s s' k k1 k2 : prints s k k1 → prints s' k1 k2 → prints (s ++ s') k k2.
Proof.
  intros [_ Hc Hf Hb] [Hw Hc' Hf' Hb']. split; [done| |congruence..].
  rewrite terminal_app, <- Hc, Hc', Hf, Hb. done.
Qed.

Lemma write_console_prints s k :
  wf_console k → ∃ k', sys_write_console s (Z.of_nat (length s)) k = Some (Z.of_nat (length s), k') ∧ prints s k k'.
Proof.
  intros Hwf. destruct (write_loop_terminal (length s) 0 s k Hwf) as (k' & Hk & ? & Hc & ? & ?); [lia..|].
  exists k'. unfold sys_write_console. rewrite Nat2Z.id, Hk. split; [done|]. split; [done| |done..].
  rewrite drop_0, firstn_all in Hc. done.
Qed.

(** Printing text without line breaks fills the cells after the cursor. *)
Lemma terminal_text fg bg s p scr :
  Forall (λ c, c ≠ NEWLINE) s → Z.of_nat (length s) ≤ CELLS → 0 ≤ p < CELLS →
  let r := terminal fg bg s p scr in
  r.1 = (p + Z.of_nat (length s)) mod CELLS ∧
  (∀ (i : nat) c, s !! i = Some c → r.2 !! ((p + Z.of_nat i) mod CELLS) = Some (cell c fg bg)) ∧
  (∀ j, (∀ i, 0 ≤ i < Z.of_nat (length s) → j ≠ (p + i) mod CELLS) → r.2 !! j = scr !! j).
Proof.
  change CELLS with 2000. revert p scr. induction s as [|c s IH]; intros p scr Hs Hlen Hp; cbn -[Z.of_nat].
  { split_and!; [|done|done]. rewrite Z.add_0_r, Z.mod_small by lia. done. }
  apply Forall_cons in Hs as [Hc Hs]. cbn -[Z.of_nat] in Hlen.
  unfold advance. change CELLS with 2000. destruct (Z.eqb_spec c NEWLINE); [done|].
  destruct (IH ((p + 1) mod 2000) (<[p:=cell c fg bg]> scr) Hs) as (H1 & H2 & H3);
    [lia|by apply Z.mod_pos_bound|]. split_and!.
  - rewrite H1. Z.div_mod_to_equations. lia.
  - intros [|i] d Hd; cbn -[Z.of_nat] in Hd.
    + injection Hd as <-. rewrite Z.add_0_r, Z.mod_small by lia.
      rewrite H3; [by rewrite lookup_insert_eq|]. intros i Hi. Z.div_mod_to_equations. lia.
    + rewrite <- (H2 i d Hd). f_equal. Z.div_mod_to_equations. lia.
  - intros j Hj. rewrite H3.
    + apply lookup_insert_ne. intros <-. apply (Hj 0); [lia|]. rewrite Z.mod_small; lia.
    + intros i Hi ->. apply (Hj (i + 1)); [lia|]. Z.div_mod_to_equations. lia.
Qed.
End facts.

(** A console with the cursor near the end of the screen. *)
Definition near_end : console := mk_console 78 24 WHITE BLACK ∅ [].

Lemma near_end_wf : wf_console near_end.
Proof. split; cbn; [done..|]. intros i w. by rewrite lookup_empty. Qed.

(** ** Properties *)

(** C37: [sys_write_console] behaves as the reference terminal: from a sane
    console (cursor on the screen, 4-bit colours) it writes the [size]
    characters of the buffer one after the other in the current colours, leaves
    the cursor where the terminal leaves it, keeps the console sane, so that no
    write ever leaves the 2000 cells of the video memory, and returns [size]. *)
Theorem write_console_refines_terminal (buffer : list Z) (size : Z) (k : console) :
  wf_console k → 0 ≤ size ≤ Z.of_nat (length buffer) →
  ∃ k', sys_write_console buffer size k = Some (size, k') ∧ wf_console k' ∧
    (cursor k', screen k') =
      terminal (fg_color k) (bg_color k) (take (Z.to_nat size) buffer) (cursor k) (screen k).
Proof.
  intros Hwf Hsize. destruct (write_loop_terminal (Z.to_nat size) 0 buffer k Hwf)
    as (k' & Hk & ? & ? & _); [lia..|].
  exists k'. unfold sys_write_console. by rewrite Hk.
Qed.

Lemma write_console_refines_terminal_witness :
  wf_console near_end ∧
  ∃ k', sys_write_console [72; 105; 10; 33] 4 near_end = Some (4, k') ∧ wf_console k' ∧
    (cursor k', screen k') =
      terminal WHITE BLACK (take (Z.to_nat 4) [72; 105; 10; 33]) (cursor near_end) ∅.
Proof.
  split; [exact near_end_wf|].
  apply (write_console_refines_terminal [72; 105; 10; 33] 4 near_end near_end_wf). cbn; lia.
Defined.

(** What a user sees: text without line breaks of at most a screenful,
    printed at cursor position [p] of a sane console, appears in the cells
    [p], [p + 1], ... (modulo the 2000 cells), each cell decoding to the
    character and to the current foreground and background colours; every other
    cell is unchanged and the cursor is after the text. *)
Lemma write_console_shows_text (buffer : list Z) (k : console) :
  wf_console k → Forall (λ c, c ≠ NEWLINE) buffer → Z.of_nat (length buffer) ≤ CELLS →
  ∃ k', sys_write_console buffer (Z.of_nat (length buffer)) k = Some (Z.of_nat (length buffer), k') ∧
    cursor k' = (cursor k + Z.of_nat (length buffer)) mod CELLS ∧
    (∀ (i : nat) c, buffer !! i = Some c →
       ∃ w, screen k' !! ((cursor k + Z.of_nat i) mod CELLS) = Some w ∧
         cell_char w = u8 c ∧ cell_fg w = fg_color k ∧ cell_bg w = bg_color k) ∧
    (∀ j, (∀ i, 0 ≤ i < Z.of_nat (length buffer) → j ≠ (cursor k + i) mod CELLS) →
       screen k' !! j = screen k !! j).
Proof.
  intros Hwf Htext Hlen.
  destruct (write_loop_terminal (length buffer) 0 buffer k Hwf) as (k' & Hk & Hwf' & Heq & _); [lia..|].
  rewrite drop_0, take_ge in Heq by lia.
  destruct (terminal_text (fg_color k) (bg_color k) buffer (cursor k) (screen k) Htext Hlen
              (cursor_range k Hwf)) as (H1 & H2 & H3).
  rewrite <- Heq in H1, H2, H3. cbn in *.
  exists k'. unfold sys_write_console. rewrite Nat2Z.id, Hk. split_and!; [done|done| |done].
  intros i c Hi. eexists. split; [by apply H2|]. apply cell_decode; apply Hwf.
Qed.

Lemma write_console_shows_text_witness :
  wf_console near_end ∧ Forall (λ c, c ≠ NEWLINE) [72; 105; 33] ∧
  ∃ k', sys_write_console [72; 105; 33] 3 near_end = Some (3, k') ∧
    cursor k' = (cursor near_end + 3) mod CELLS ∧
    (∀ (i : nat) c, [72; 105; 33] !! i = Some c →
       ∃ w, screen k' !! ((cursor near_end + Z.of_nat i) mod CELLS) = Some w ∧
         cell_char w = u8 c ∧ cell_fg w = WHITE ∧ cell_bg w = BLACK) ∧
    (∀ j, (∀ i, 0 ≤ i < 3 → j ≠ (cursor near_end + i) mod CELLS) →
       screen k' !! j = screen near_end !! j).
Proof.
  assert (Ht : Forall (λ c, c ≠ NEWLINE) [72; 105; 33]) by (repeat constructor; discriminate).
  split; [exact near_end_wf|]. split; [exact Ht|].
  apply (write_console_shows_text [72; 105; 33] near_end near_end_wf Ht). vm_compute; discriminate.
Defined.

(** [gotoxy] and [set_color] reject exactly the positions and colours outside
    the screen and the 4-bit scale, leaving the console as it was, and
    otherwise set them; either way a sane console stays sane. *)
Lemma screen_calls_guarded (x y fg bg : Z) (k : console) :
  wf_console k →
  (∃ k', sys_gotoxy x y k = Some (if bool_decide (0 ≤ x < 80 ∧ 0 ≤ y < 25) then 0 else - EOUTSCREEN, k') ∧
     wf_console k' ∧
     k' = if bool_decide (0 ≤ x < 80 ∧ 0 ≤ y < 25) then set_cursor x y k else k) ∧
  (∃ k', sys_set_color fg bg k = Some (if bool_decide (0 ≤ fg < 16 ∧ 0 ≤ bg < 16) then 0 else - ENOCOLOR, k') ∧
     wf_console k' ∧
     k' = if bool_decide (0 ≤ fg < 16 ∧ 0 ≤ bg < 16) then set_colors fg bg k else k).
Proof.
  intros Hwf. unfold sys_gotoxy, sys_set_color, SCREEN_COLUMNS, SCREEN_ROWS, WHITE, BLACK.
  split; case_bool_decide as Hd.
  - destruct (Z.leb_spec 80 x), (Z.ltb_spec x 0), (Z.leb_spec 25 y), (Z.ltb_spec y 0); cbn; try lia.
    rewrite !u8_small by wrap_lia. eexists. split; [done|]. split; [|done].
    apply set_cursor_wf; unfold SCREEN_COLUMNS, SCREEN_ROWS; done.
  - destruct (Z.leb_spec 80 x), (Z.ltb_spec x 0), (Z.leb_spec 25 y), (Z.ltb_spec y 0); cbn; eauto; lia.
  - destruct (Z.ltb_spec 15 fg), (Z.ltb_spec fg 0), (Z.ltb_spec 15 bg), (Z.ltb_spec bg 0); cbn; try lia.
    rewrite !u8_small by wrap_lia. eexists. split; [done|]. split; [|done].
    apply set_colors_wf; unfold WHITE, BLACK; lia || done.
  - destruct (Z.ltb_spec 15 fg), (Z.ltb_spec fg 0), (Z.ltb_spec 15 bg), (Z.ltb_spec bg 0); cbn; eauto; lia.
Qed.

Lemma screen_calls_guarded_witness :
  wf_console near_end ∧
  (∃ k', sys_gotoxy 79 24 near_end = Some (0, k') ∧ wf_console k' ∧ k' = set_cursor 79 24 near_end) ∧
  (∃ k', sys_set_color 16 0 near_end = Some (- ENOCOLOR, k') ∧ wf_console k' ∧ k' = near_end).
Proof.
  split; [exact near_end_wf|]. apply (screen_calls_guarded 79 24 16 0 near_end near_end_wf).
Defined.
