(* ===== verification/LibC.v ===== *)
(** * The user library (libc.c, include/libc.h)

    Characters are the values of a signed [char]; a C array is a list of them
    and an access outside its bounds is a fault, so that the theorems also say
    which arrays are large enough.  A pointer into an array is an offset. *)

From Stdlib Require Import Ascii String.
From S2P Require Import Prelude CInt Errno.

#[local] Notation length := Datatypes.length.

Definition chr (c : ascii) : Z := s8 (Z.of_N (N_of_ascii c)).

(** The characters of a literal, and the array a literal denotes in C. *)
Definition chars (s : string) : list Z := chr <$> list_ascii_of_string s.
Definition cstr (s : list Z) : list Z := s ++ [0].
Definition nl : list Z := [10].

(** ** Characters and strings *)

Definition lower (c : Z) : Z :=
  if (65 <=? c) && (c <=? 90) then s8 (c + (97 - 65)) else c.

(** [while (a[i] != 0) i++]; the fuel is the length of the array. *)
Fixpoint strlen_loop (fuel : nat) (a : list Z) (i : Z) : option Z :=
  match fuel with
  | O => None
  | S f => c ← znth a i; if c =? 0 then Some i else strlen_loop f a (i + 1)
  end.

Definition strlen (a : list Z) : option Z := strlen_loop (S (length a)) a 0.

(** [while ( *dest++ = *src++ )]: [d] and [s] are the two pointers. *)
Fixpoint copy_string (fuel : nat) (src : list Z) (d s : Z) (dest : list Z) : option (list Z) :=
  match fuel with
  | O => None
  | S f =>
      c ← znth src s;
      dest ← zset dest d c;
      if c =? 0 then Some dest else copy_string f src (d + 1) (s + 1) dest
  end.

Definition strcpy (src dest : list Z) : option (list Z) :=
  copy_string (S (length src)) src 0 0 dest.

Definition strcat (src dest : list Z) : option (list Z) :=
  n ← strlen dest;
  copy_string (S (length src)) src n 0 dest.

(** ** Numbers to text *)

(** The state of the digit loops: the number left, the index, the array. *)
Record digits := mk_digits { d_a : Z; d_i : Z; d_b : list Z }.

(** [b[i] = (a % 10) + '0'; a = a / 10; i++] *)
Definition dec_step (d : digits) : option digits :=
  b ← zset (d_b d) (d_i d) (s8 (Z.rem (d_a d) 10 + 48));
  Some (mk_digits (Z.quot (d_a d) 10) (d_i d + 1) b).

(** [r = a % 16; a = a / 16; b[i] = r < 10 ? '0' + r : 'A' + r - 10; ++i] *)
Definition hex_step (d : digits) : option digits :=
  let r := Z.rem (d_a d) 16 in
  b ← zset (d_b d) (d_i d) (if r <? 10 then s8 (48 + r) else s8 (65 + r - 10));
  Some (mk_digits (Z.quot (d_a d) 16) (d_i d + 1) b).

(** [for (i1 = 0; i1 < i / 2; i1++) { c = b[i1]; b[i1] = b[i-i1-1]; b[i-i1-1] = c; }] *)
Fixpoint reverse_loop (n : nat) (i1 i : Z) (b : list Z) : option (list Z) :=
  match n with
  | O => Some b
  | S n =>
      c ← znth b i1;
      e ← znth b (i - i1 - 1);
      b ← zset b i1 e;
      b ← zset b (i - i1 - 1) c;
      reverse_loop n (i1 + 1) i b
  end.

(** An [int] has at most ten decimal and eight hexadecimal digits: the fuel of
    the two digit loops. *)
Definition itodeca (a : Z) (b : list Z) : option (list Z) :=
  if a =? 0 then b ← zset b 0 48; zset b 1 0
  else
    d ← while 11 (λ d, 0 <? d_a d) dec_step (mk_digits a 0 b);
    b ← reverse_loop (Z.to_nat (Z.quot (d_i d) 2)) 0 (d_i d) (d_b d);
    zset b (d_i d) 0.

Definition itohexa (a : Z) (b : list Z) : option (list Z) :=
  if a =? 0 then b ← zset b 0 48; zset b 1 0
  else
    d ← while 9 (λ d, 0 <? d_a d) hex_step (mk_digits a 0 b);
    b ← reverse_loop (Z.to_nat (Z.quot (d_i d) 2)) 0 (d_i d) (d_b d);
    zset b (d_i d) 0.

(** ** Pseudo-random numbers *)

Definition MULTIPLIER : Z := 1103515245.
Definition INCREMENT : Z := 12345.
Definition MODULUS : Z := 2147483648.

(** [lcg_seed] is an [unsigned int]; the literal [MODULUS] does not fit an
    [int] and has type [long long], so the remainder is exact. *)
Definition srand (seed lcg_seed : Z) : Z := u32 seed.

Definition rand : M Z Z := λ lcg_seed,
  let lcg_seed := u32 (Z.rem (u32 (u32 (MULTIPLIER * lcg_seed) + INCREMENT)) MODULUS) in
  Some (lcg_seed, lcg_seed).

(** [min + (rand() % (max - min + 1))] in unsigned arithmetic; a division by
    zero is a fault. *)
Definition rand_range (min max : Z) : M Z Z :=
  r ← rand;
  let n := u32 (u32 (max - min) + 1) in
  if n =? 0 then fault else mret (u32 (min + r mod n)).

(** ** Time *)

Definition TICKS_PER_SECOND : Z := 400.
Definition TICKS_PER_MILISECOND : Z := Z.quot 1000 TICKS_PER_SECOND.

(** The functions below read the clock through the system call [gettime]; the
    argument is what the call returns. *)
Definition get_time_ms (gettime : Z) : Z := u32 (Z.quot gettime TICKS_PER_MILISECOND).
Definition get_time_s (gettime : Z) : Z := u32 (Z.quot gettime TICKS_PER_SECOND).

(** [sleep]: [clock n] is the result of the [n]-th call of [gettime]; the value
    is the number of calls made when the loop ends. *)
Fixpoint sleep_loop (fuel : nat) (clock : nat → Z) (end_time : Z) (n : nat) : option nat :=
  match fuel with
  | O => None
  | S f => if u32 (clock n) <? end_time then sleep_loop f clock end_time (S n) else Some (S n)
  end.

Definition sleep (fuel : nat) (clock : nat → Z) (ms : Z) : option nat :=
  let start_time := u32 (clock 0%nat) in
  let end_time := u32 (start_time + ms / TICKS_PER_MILISECOND) in
  sleep_loop fuel clock end_time 1.

Definition measure_time_ms (before after : Z) : Z :=
  u32 (u32 (u32 after - u32 before) * TICKS_PER_MILISECOND).

(** ** Error messages *)


(** The literal chosen by the [switch] of [perror]. *)
Definition perror_msg (errno : Z) : list Z :=
  if errno =? 0 then nl ++ chars "OK" ++ nl
  else if errno =? EBADF then nl ++ chars "EBADF: The file descriptor is not valid, are you dumb?" ++ nl
  else if errno =? EACCES then nl ++ chars "EACESS: You are not allowed to write this file you stupid" ++ nl
  else if errno =? EFAULT then nl ++ chars "EFAULT: Bad address accessed, quit playing" ++ nl
  else if errno =? EINVAL then nl ++ chars "EINVAL: invalid argument" ++ nl
  else if errno =? ENOSYS then nl ++ chars "ENOSYS: SuSCall not implemented (yet)" ++ nl
  else if errno =? ENOMEM then nl ++ chars "ENOMEM: Insufficient memory, download more ram" ++ nl
  else if errno =? ECHILD then nl ++ chars "ECHILD: We're childless" ++ nl
  else if errno =? ENOCOLOR then nl ++ chars "ENOCOLOR: Trying to set an invalid color! (4-bit color scale)" ++ nl
  else if errno =? EOUTSCREEN then nl ++ chars "EOUTSCREEN: Trying to set an invalid position! (80 columns and 25 rows)" ++ nl
  else if errno =? ENOSHR then nl ++ chars "ENOSHR: Invalid shared page argument!" ++ nl
  else nl ++ chars "Unknown error" ++ nl.


(** [perror]: the arguments of its call of [write]: file descriptor, buffer
    and size; [error_msg] is the local array of 256 characters. *)
Definition perror (errno : Z) (error_msg : list Z) : option (Z * list Z * Z) :=
  error_msg ← strcpy (cstr (perror_msg errno)) error_msg;
  n ← strlen error_msg;
  Some (1, error_msg, n).

(** ** References *)

(** A string value: characters without a terminator among them. *)
Definition is_text (s : list Z) : Prop := Forall (λ c, c ≠ 0) s.

(** The array [b] with [s] stored from offset [i] on. *)
Definition overwrite (b : list Z) (i : nat) (s : list Z) : list Z :=
  take i b ++ s ++ drop (i + length s) b.

(** The digits of [a] in a base, the least significant first. *)
Fixpoint lsd (fuel : nat) (base a : Z) : list Z :=
  match fuel with
  | O => []
  | S f => if 0 <? a then a mod base :: lsd f base (a / base) else []
  end.

(** The value of a list of digits, the most significant first. *)
Definition value (base : Z) (ds : list Z) : Z := foldl (λ v d, v * base + d) 0 ds.

Definition dec_char (d : Z) : Z := d + 48.
Definition hex_char (d : Z) : Z := if d <? 10 then 48 + d else 65 + d - 10.

(** Canonical numerals: [0], or digits with no leading zero. *)
Definition numeral (fuel : nat) (base a : Z) : list Z :=
  if a =? 0 then [0] else rev (lsd fuel base a).

Section facts.
Implicit Types (a : Z) (b s : list Z).

Lemma length_overwrite b i s : (i + length s ≤ length b)%nat → length (overwrite b i s) = length b.
Proof. intros. unfold overwrite. rewrite !length_app, length_take, length_drop. lia. Qed.

Lemma overwrite_nil b i : overwrite b i [] = b.
Proof. unfold overwrite. cbn. by rewrite Nat.add_0_r, take_drop. Qed.

(** Storing one more character. *)
Lemma overwrite_snoc b i s c b' :
  zset (overwrite b i s) (Z.of_nat (i + length s)) c = Some b' →
  (i + length s < length b)%nat → b' = overwrite b i (s ++ [c]).
Proof.
  intros (Hr & -> & _)%zset_inv Hlen. rewrite Nat2Z.id. unfold overwrite.
  rewrite insert_app_r_alt by (rewrite length_take; lia).
  rewrite length_take, Nat.min_l by lia. replace (i + length s - i)%nat with (length s) by lia.
  rewrite insert_app_r_alt by lia. rewrite Nat.sub_diag, <- app_assoc. do 2 f_equal.
  destruct (drop (i + length s) b) as [|x l] eqn:Hd.
  { apply (f_equal length) in Hd. rewrite length_drop in Hd. cbn in Hd. lia. }
  cbn. f_equal. rewrite length_app. cbn.
  replace (i + (length s + 1))%nat with (i + length s + 1)%nat by lia.
  by rewrite <- drop_drop, Hd.
Qed.

Lemma zset_overwrite b i s c :
  (i + length s < length b)%nat →
  zset (overwrite b i s) (Z.of_nat (i + length s)) c = Some (overwrite b i (s ++ [c])).
Proof.
  intros Hlen. rewrite zset_Some by (rewrite length_overwrite; lia). f_equal.
  apply overwrite_snoc; [|done]. rewrite zset_Some by (rewrite length_overwrite; lia). done.
Qed.

Lemma zset_overwrite_out b i s c :
  (i + length s = length b)%nat → zset (overwrite b i s) (Z.of_nat (i + length s)) c = None.
Proof.
  intros Hlen. unfold zset. rewrite length_overwrite by lia.
  case_test; [bool_to_prop; lia|done].
Qed.

(** [strlen] of an array that starts with a string. *)
Lemma strlen_loop_text s t rest fuel :
  is_text t → (length t < fuel)%nat →
  strlen_loop fuel (s ++ t ++ 0 :: rest) (Z.of_nat (length s)) = Some (Z.of_nat (length s + length t)).
Proof.
  revert s fuel. induction t as [|c t IH]; intros s fuel Ht Hf;
    (destruct fuel as [|fuel]; [lia|]); cbn [strlen_loop]; rewrite znth_of_nat, lookup_app_r by lia;
    rewrite Nat.sub_diag; cbn -[Z.of_nat].
  - f_equal. lia.
  - apply Forall_cons in Ht as [Hc Ht]. destruct (Z.eqb_spec c 0); [done|].
    specialize (IH (s ++ [c]) fuel Ht). rewrite length_app, <- app_assoc in IH. cbn -[Z.of_nat] in *.
    replace (Z.of_nat (length s) + 1) with (Z.of_nat (length s + 1)) by lia.
    rewrite IH by lia. f_equal. lia.
Qed.

Lemma strlen_text s rest : is_text s → strlen (s ++ 0 :: rest) = Some (Z.of_nat (length s)).
Proof.
  intros Hs. apply (strlen_loop_text [] s rest); [done|]. rewrite length_app. cbn. lia.
Qed.

(** Copying the rest [t] of a source text into an array that has room. *)
Lemma copy_string_text s t rest d b fuel :
  is_text t → (d + length (s ++ t) < length b)%nat → (length t < fuel)%nat →
  copy_string fuel (s ++ t ++ 0 :: rest) (Z.of_nat (d + length s)) (Z.of_nat (length s)) (overwrite b d s) =
  Some (overwrite b d (s ++ t ++ [0])).
Proof.
  revert s fuel. induction t as [|c t IH]; intros s fuel Ht Hlen Hf;
    (destruct fuel as [|fuel]; [lia|]); cbn [copy_string]; rewrite znth_of_nat, lookup_app_r by lia;
    rewrite Nat.sub_diag; cbn -[Z.of_nat]; rewrite length_app in Hlen; cbn in Hlen;
    rewrite zset_overwrite by lia; cbn -[Z.of_nat]; [done|].
  apply Forall_cons in Ht as [Hc Ht]. destruct (Z.eqb_spec c 0); [done|].
  specialize (IH (s ++ [c]) fuel Ht). rewrite !length_app, <- !app_assoc in IH. cbn -[Z.of_nat] in *.
  replace (Z.of_nat (d + length s) + 1) with (Z.of_nat (d + (length s + 1))) by lia.
  replace (Z.of_nat (length s) + 1) with (Z.of_nat (length s + 1)) by lia.
  apply IH; lia.
Qed.

(** Copying into an array that is too short runs past its end. *)
Lemma copy_string_fault s t rest d b fuel :
  is_text t → (d + length s ≤ length b ≤ d + length (s ++ t))%nat →
  copy_string fuel (s ++ t ++ 0 :: rest) (Z.of_nat (d + length s)) (Z.of_nat (length s)) (overwrite b d s) = None.
Proof.
  revert s fuel. induction t as [|c t IH]; intros s fuel Ht Hlen;
    (destruct fuel as [|fuel]; [done|]); cbn [copy_string]; rewrite znth_of_nat, lookup_app_r by lia;
    rewrite Nat.sub_diag; cbn -[Z.of_nat]; rewrite length_app in Hlen; cbn in Hlen.
  - rewrite zset_overwrite_out by lia. done.
  - apply Forall_cons in Ht as [Hc Ht].
    destruct (decide (d + length s = length b)%nat); [by rewrite zset_overwrite_out|].
    rewrite zset_overwrite by lia. cbn -[Z.of_nat]. destruct (Z.eqb_spec c 0); [done|].
    specialize (IH (s ++ [c]) fuel Ht). rewrite !length_app, <- !app_assoc in IH. cbn -[Z.of_nat] in *.
    replace (Z.of_nat (d + length s) + 1) with (Z.of_nat (d + (length s + 1))) by lia.
    replace (Z.of_nat (length s) + 1) with (Z.of_nat (length s + 1)) by lia.
    apply IH; lia.
Qed.

Lemma strcpy_text s rest b :
  is_text s → (length s < length b)%nat → strcpy (s ++ 0 :: rest) b = Some (overwrite b 0 (cstr s)).
Proof.
  intros Hs Hlen. unfold strcpy. rewrite <- (overwrite_nil b 0) at 1.
  apply (copy_string_text [] s rest 0 b); cbn; try done. rewrite length_app. cbn. lia.
Qed.

Lemma strcat_text s rest t rest' :
  is_text s → is_text t → (length t ≤ length rest)%nat →
  strcat (t ++ 0 :: rest') (s ++ 0 :: rest) = Some (overwrite (s ++ 0 :: rest) (length s) (cstr t)).
Proof.
  intros Hs Ht Hlen. unfold strcat. rewrite strlen_text by done. cbn [mbind option_bind].
  rewrite <- (overwrite_nil (s ++ 0 :: rest) (length s)) at 1.
  replace (Z.of_nat (length s)) with (Z.of_nat (length s + length (@nil Z))) by (cbn; lia).
  apply (copy_string_text [] t rest' (length s)); cbn; try done; rewrite length_app; cbn; lia.
Qed.

(** [strcat] past the end of the destination array. *)
Lemma strcat_overflow s rest t rest' :
  is_text s → is_text t → (length rest < length t)%nat →
  strcat (t ++ 0 :: rest') (s ++ 0 :: rest) = None.
Proof.
  intros Hs Ht Hlen. unfold strcat. rewrite strlen_text by done. cbn [mbind option_bind].
  rewrite <- (overwrite_nil (s ++ 0 :: rest) (length s)) at 1.
  replace (Z.of_nat (length s)) with (Z.of_nat (length s + length (@nil Z))) by (cbn; lia).
  apply (copy_string_fault [] t rest' (length s)); cbn; try done; rewrite length_app; cbn; lia.
Qed.

(** *** Digits *)

Lemma lsd_range fuel base a : 0 < base → Forall (λ d, 0 ≤ d < base) (lsd fuel base a).
Proof.
  intros Hb. revert a. induction fuel as [|f IH]; intros a; cbn; [constructor|].
  destruct (0 <? a); constructor; [by apply Z.mod_pos_bound|done].
Qed.

Lemma value_snoc base ds d : value base (ds ++ [d]) = value base ds * base + d.
Proof. unfold value. by rewrite foldl_app. Qed.

Lemma lsd_value fuel base a :
  1 < base → 0 ≤ a < base ^ Z.of_nat fuel → value base (rev (lsd fuel base a)) = a.
Proof.
  intros Hb. revert a. induction fuel as [|f IH]; intros a Ha; cbn [lsd].
  - cbn in *. lia.
  - destruct (Z.ltb_spec 0 a); [|cbn; lia].
    cbn [rev]. rewrite value_snoc, IH; [Z.div_mod_to_equations; lia|].
    rewrite Nat2Z.inj_succ, Z.pow_succ_r in Ha by lia.
    split; [apply Z.div_pos; lia|]. apply Z.div_lt_upper_bound; lia.
Qed.

Lemma lsd_length fuel base a : (length (lsd fuel base a) ≤ fuel)%nat.
Proof.
  revert a. induction fuel as [|f IH]; intros a; cbn; [lia|].
  destruct (0 <? a); cbn; [specialize (IH (a / base))|]; lia.
Qed.

(** The most significant digit is not zero. *)
Lemma lsd_last fuel base a d :
  1 < base → 0 < a < base ^ Z.of_nat fuel → last (lsd fuel base a) = Some d → d ≠ 0.
Proof.
  intros Hb. revert a. induction fuel as [|f IH]; intros a Ha; cbn -[Z.of_nat]; [done|].
  destruct (Z.ltb_spec 0 a); [|lia].
  rewrite Nat2Z.inj_succ, Z.pow_succ_r in Ha by lia.
  destruct (Z.eq_dec (a / base) 0) as [Hz|Hz].
  - rewrite Hz. replace (lsd f base 0) with (@nil Z) by (by destruct f). cbn.
    intros [= <-]. Z.div_mod_to_equations. lia.
  - assert (0 < a / base < base ^ Z.of_nat f) as Hr.
    { split; [assert (0 ≤ a / base) by (apply Z.div_pos; lia); lia|]. apply Z.div_lt_upper_bound; lia. }
    destruct (lsd f base (a / base)) as [|x l] eqn:Hl; [|rewrite last_cons_cons, <- Hl; by apply IH].
    destruct f; cbn in *; [lia|]. destruct (Z.ltb_spec 0 (a / base)); [done|lia].
Qed.

(** *** The two loops of [itodeca] and [itohexa] *)

Lemma znth_middle (p : list Z) x q : znth (p ++ x :: q) (Z.of_nat (length p)) = Some x.
Proof. rewrite znth_of_nat, lookup_app_r by lia. by rewrite Nat.sub_diag. Qed.

Lemma zset_middle (p : list Z) x q y : zset (p ++ x :: q) (Z.of_nat (length p)) y = Some (p ++ y :: q).
Proof.
  rewrite zset_Some by (rewrite length_app; cbn; lia). f_equal.
  rewrite Nat2Z.id, insert_app_r_alt by lia. by rewrite Nat.sub_diag.
Qed.

Lemma reverse_loop_middle n (p m q r : list Z) :
  n = (length m / 2)%nat → length p = length q →
  reverse_loop n (Z.of_nat (length p)) (Z.of_nat (length p + length m + length q)) (p ++ m ++ q ++ r) =
  Some (p ++ rev m ++ q ++ r).
Proof.
  revert p m q. induction n as [|n IH]; intros p m q Hn Hpq; cbn [reverse_loop].
  - destruct m as [|x [|y m]]; [done|done|]. cbn [length] in Hn.
    pose proof (Nat.div_le_mono 2 (S (S (length m))) 2). cbn in *. lia.
  - destruct m as [|c m]; [done|].
    destruct m as [|e m' _] using rev_ind; [done|].
    assert (length (c :: m' ++ [e]) = S (length m' + 1)) as Hlm by (cbn; by rewrite length_app).
    rewrite Hlm in *.
    assert (n = (length m' / 2)%nat) as Hn'.
    { replace (S (length m' + 1)) with (1 * 2 + length m')%nat in Hn by lia.
      rewrite Nat.div_add_l in Hn by lia. lia. }
    replace (p ++ (c :: m' ++ [e]) ++ q ++ r) with (p ++ c :: (m' ++ e :: q ++ r)) by (cbn; by rewrite <- app_assoc).
    rewrite znth_middle. cbn [mbind option_bind].
    assert (Hpos : Z.of_nat (length p + S (length m' + 1) + length q) - Z.of_nat (length p) - 1 =
                   Z.of_nat (length (p ++ c :: m'))) by (rewrite length_app; cbn; lia).
    assert (Hpos' : Z.of_nat (length p + S (length m' + 1) + length q) - Z.of_nat (length p) - 1 =
                   Z.of_nat (length (p ++ e :: m'))) by (rewrite length_app; cbn; lia).
    assert (Hassoc : ∀ x l, p ++ x :: m' ++ l = (p ++ x :: m') ++ l) by (intros; by rewrite <- app_assoc).
    rewrite Hpos. rewrite (Hassoc c) at 1. rewrite znth_middle. cbn [mbind option_bind].
    rewrite zset_middle. cbn [mbind option_bind].
    rewrite <- Hpos, Hpos', (Hassoc e), zset_middle. cbn [mbind option_bind].
    rewrite <- Hassoc.
    specialize (IH (p ++ [e]) m' (c :: q) Hn'). rewrite <- !app_assoc, !length_app in IH. cbn in *.
    replace (Z.of_nat (length p) + 1) with (Z.of_nat (length p + 1)) by lia.
    replace (length p + S (length m' + 1) + length q)%nat with (length p + 1 + length m' + S (length q))%nat by lia.
    rewrite IH by lia. f_equal. rewrite rev_app_distr. cbn. by rewrite <- !app_assoc.
Qed.

Definition digit_step (base : Z) (ch : Z → Z) (d : digits) : option digits :=
  b ← zset (d_b d) (d_i d) (ch (Z.rem (d_a d) base));
  Some (mk_digits (Z.quot (d_a d) base) (d_i d + 1) b).

Lemma digit_step_eq base ch a i b :
  digit_step base ch (mk_digits a i b) =
  b ← zset b i (ch (Z.rem a base)); Some (mk_digits (Z.quot a base) (i + 1) b).
Proof. done. Qed.

Lemma digit_loop base ch fuel a s b :
  1 < base → 0 ≤ a < base ^ Z.of_nat fuel →
  (length s + length (lsd fuel base a) ≤ length b)%nat →
  while (S fuel) (λ d, 0 <? d_a d) (digit_step base ch) (mk_digits a (Z.of_nat (length s)) (overwrite b 0 s)) =
  Some (mk_digits 0 (Z.of_nat (length s + length (lsd fuel base a))) (overwrite b 0 (s ++ (ch <$> lsd fuel base a)))).
Proof.
  intros Hb. revert a s. induction fuel as [|f IH]; intros a s Ha Hlen; rewrite while_S; cbn [d_a lsd].
  - cbn in Ha. destruct (Z.ltb_spec 0 a); [lia|]. cbn [length fmap list_fmap].
    rewrite app_nil_r, Nat.add_0_r. repeat (f_equal; try lia).
  - cbn [lsd] in Hlen. destruct (Z.ltb_spec 0 a).
    + cbn [length] in *. rewrite digit_step_eq.
      change (Z.of_nat (length s)) with (Z.of_nat (0 + length s)).
      rewrite zset_overwrite by lia. cbn [mbind option_bind Nat.add].
      rewrite Z.quot_div_nonneg, Z.rem_mod_nonneg by lia.
      rewrite Nat2Z.inj_succ, Z.pow_succ_r in Ha by lia.
      assert (0 ≤ a / base < base ^ Z.of_nat f) as Hr.
      { split; [apply Z.div_pos; lia|]. apply Z.div_lt_upper_bound; lia. }
      specialize (IH (a / base) (s ++ [ch (a mod base)]) Hr).
      rewrite length_app in IH. cbn [length] in IH.
      replace (Z.of_nat (length s) + 1) with (Z.of_nat (length s + 1)) by lia.
      rewrite IH by lia. rewrite <- app_assoc. cbn. repeat (f_equal; try lia).
    + cbn [length fmap list_fmap]. rewrite app_nil_r, Nat.add_0_r. repeat (f_equal; try lia).
Qed.

(** Writing a numeral: the common part of [itodeca] and [itohexa]. *)
Lemma digits_numeral base ch fuel a b :
  1 < base → 0 < a < base ^ Z.of_nat fuel → (length (lsd fuel base a) < length b)%nat →
  (d ← while (S fuel) (λ d, 0 <? d_a d) (digit_step base ch) (mk_digits a 0 b);
   b ← reverse_loop (Z.to_nat (Z.quot (d_i d) 2)) 0 (d_i d) (d_b d);
   zset b (d_i d) 0) = Some (overwrite b 0 (cstr (ch <$> rev (lsd fuel base a)))).
Proof.
  intros Hb Ha Hlen.
  pose proof (digit_loop base ch fuel a [] b Hb ltac:(lia) ltac:(cbn; lia)) as Hl.
  rewrite overwrite_nil in Hl. cbn [length] in Hl. change (Z.of_nat 0) with 0 in Hl. rewrite Hl.
  cbn [mbind option_bind d_i d_b app Nat.add].
  set (l := lsd fuel base a) in *.
  assert (Hrev : reverse_loop (Z.to_nat (Z.quot (Z.of_nat (length l)) 2)) 0 (Z.of_nat (length l))
                   (overwrite b 0 (ch <$> l)) = Some (overwrite b 0 (rev (ch <$> l)))).
  { unfold overwrite. cbn [take app Nat.add]. rewrite length_rev, length_fmap.
    pose proof (reverse_loop_middle (length (ch <$> l) / 2) [] (ch <$> l) [] (drop (length l) b)
                  eq_refl eq_refl) as Hr.
    cbn [app length Nat.add] in Hr. rewrite Nat.add_0_r, length_fmap in Hr.
    replace (Z.to_nat (Z.quot (Z.of_nat (length l)) 2)) with (length l / 2)%nat; [done|].
    rewrite Z.quot_div_nonneg by lia. change 2 with (Z.of_nat 2). by rewrite <- Nat2Z.inj_div, Nat2Z.id. }
  rewrite Hrev. cbn [mbind option_bind].
  pose proof (zset_overwrite b 0 (rev (ch <$> l)) 0) as Hz. rewrite length_rev, length_fmap in Hz.
  cbn [Nat.add] in Hz. rewrite Hz by lia. unfold cstr. do 3 f_equal. symmetry. apply map_rev.
Qed.

Lemma overwrite_zero b :
  (1 < length b)%nat → (b ← zset b 0 48; zset b 1 0) = Some (overwrite b 0 [48; 0]).
Proof.
  intros Hlen. rewrite <- (overwrite_nil b 0) at 1. change 0 with (Z.of_nat (0 + length (@nil Z))) at 2.
  rewrite zset_overwrite by (cbn; lia). cbn [mbind option_bind app].
  change 1 with (Z.of_nat (0 + length [48])). by rewrite zset_overwrite by (cbn; lia).
Qed.

Lemma numeral_pos fuel base a : 0 < a → numeral fuel base a = rev (lsd fuel base a).
Proof. intros Ha. unfold numeral. destruct (Z.eqb_spec a 0); [lia|done]. Qed.

Lemma fmap_digits base (f g : Z → Z) fuel a :
  0 < base → (∀ d, 0 ≤ d < base → f d = g d) →
  f <$> rev (lsd fuel base a) = g <$> rev (lsd fuel base a).
Proof.
  intros Hb Hfg. apply list_fmap_ext. intros i d Hd%list_elem_of_lookup_2. apply Hfg.
  rewrite list_elem_of_In, <- in_rev, <- list_elem_of_In in Hd.
  by apply (proj1 (Forall_forall _ _) (lsd_range fuel base a Hb)).
Qed.

Lemma itodeca_numeral a b :
  0 ≤ a < 2 ^ 31 → (length (numeral 10 10 a) < length b)%nat →
  itodeca a b = Some (overwrite b 0 (cstr (dec_char <$> numeral 10 10 a))).
Proof.
  intros Ha Hlen. unfold itodeca. destruct (Z.eqb_spec a 0) as [->|Hnz].
  - apply overwrite_zero. done.
  - rewrite numeral_pos, length_rev in Hlen by lia. rewrite numeral_pos by lia.
    rewrite (fmap_digits 10 dec_char (λ r, s8 (r + 48))); [|lia|unfold dec_char; intros; wrap_lia].
    apply (digits_numeral 10 (λ r, s8 (r + 48)) 10 a b); lia.
Qed.

Lemma itohexa_numeral a b :
  0 ≤ a < 2 ^ 31 → (length (numeral 8 16 a) < length b)%nat →
  itohexa a b = Some (overwrite b 0 (cstr (hex_char <$> numeral 8 16 a))).
Proof.
  intros Ha Hlen. unfold itohexa. destruct (Z.eqb_spec a 0) as [->|Hnz].
  - apply overwrite_zero. done.
  - rewrite numeral_pos, length_rev in Hlen by lia. rewrite numeral_pos by lia.
    rewrite (fmap_digits 16 hex_char (λ r, if r <? 10 then s8 (48 + r) else s8 (65 + r - 10))).
    + apply (digits_numeral 16 (λ r, if r <? 10 then s8 (48 + r) else s8 (65 + r - 10)) 8 a b); lia.
    + lia.
    + unfold hex_char. intros d Hd. destruct (d <? 10) eqn:Hc; bool_to_prop; wrap_lia.
Qed.

(** The loop ends at once. *)
Lemma itohexa_negative a b : a < 0 → (1 ≤ length b)%nat → itohexa a b = Some (overwrite b 0 (cstr [])).
Proof.
  intros Ha Hb. unfold itohexa. destruct (Z.eqb_spec a 0); [lia|]. rewrite while_S. cbn [d_a].
  destruct (Z.ltb_spec 0 a); [lia|]. cbn [mbind option_bind d_i d_b]. cbn.
  rewrite <- (overwrite_nil b 0) at 1. apply (zset_overwrite b 0 []). cbn. lia.
Qed.

Lemma numeral_length fuel base a : (0 < fuel)%nat → (length (numeral fuel base a) ≤ fuel)%nat.
Proof.
  intros Hf. unfold numeral. destruct (a =? 0); [cbn; lia|]. rewrite length_rev. apply lsd_length.
Qed.

Lemma numeral_value fuel base a :
  1 < base → 0 ≤ a < base ^ Z.of_nat fuel → value base (numeral fuel base a) = a.
Proof.
  intros Hb Ha. unfold numeral. destruct (Z.eqb_spec a 0) as [->|]; [done|]. by apply lsd_value.
Qed.

Lemma numeral_head fuel base a d :
  1 < base → 0 < a < base ^ Z.of_nat fuel → head (numeral fuel base a) = Some d → d ≠ 0.
Proof.
  intros Hb Ha. rewrite numeral_pos, rev_alt by lia. intros Hd. eapply lsd_last; [done..|].
  by rewrite <- head_reverse.
Qed.

(** *** The generator *)

Lemma rand_exact (x : Z) : is_u32 x → rand x = Some ((MULTIPLIER * x + INCREMENT) mod MODULUS,
                                              (MULTIPLIER * x + INCREMENT) mod MODULUS).
Proof.
  intros Hx. unfold rand. cbn zeta. unfold MULTIPLIER, INCREMENT, MODULUS in *.
  rewrite u32_add_l, Z.rem_mod_nonneg by (lia || apply u32_range).
  assert (u32 (u32 (1103515245 * x + 12345) mod 2147483648) = (1103515245 * x + 12345) mod 2147483648) as ->; [|done].
  wrap_lia.
Qed.
End facts.

(** The value a reader of the text gets back: [atoi] on decimal digits. *)
Definition parse_dec (s : list Z) : Z := value 10 ((λ c, c - 48) <$> s).

(** A fresh array of [n] characters of rubbish. *)
Definition rubbish (n : nat) : list Z := replicate n 99.

(** ** Properties *)

(** C38: [itodeca] is correct on every non-negative [int]: in any array of at least
    11 characters it stores, from the start, the decimal digits of the number
    followed by the terminator, and changes nothing else; there is at least one
    digit, the digits read back as the number, and only 0 begins with the digit 0,
    which is then the only one. *)
Theorem itodeca_correct (a : Z) (b : list Z) :
  0 ≤ a < 2 ^ 31 → (11 ≤ length b)%nat →
  ∃ s, itodeca a b = Some (overwrite b 0 (cstr s)) ∧
    parse_dec s = a ∧ Forall (λ c, 48 ≤ c ≤ 57) s ∧ s ≠ [] ∧
    (0 < a → head s ≠ Some 48) ∧ (a = 0 → s = [48]).
Proof.
  intros Ha Hlen. exists (dec_char <$> numeral 10 10 a).
  pose proof (numeral_length 10 10 a ltac:(lia)). split_and!.
  - apply itodeca_numeral; [done|lia].
  - unfold parse_dec. rewrite <- list_fmap_compose, (list_fmap_ext _ id), list_fmap_id.
    + apply numeral_value; lia.
    + intros ? d ?. unfold dec_char. cbn. lia.
  - apply Forall_fmap. unfold compose, dec_char. unfold numeral.
    case_test; [apply Forall_singleton; lia|].
    apply Forall_rev. eapply Forall_impl; [apply (lsd_range 10 10); lia|]. cbn. lia.
  - intros Hnil%fmap_nil_inv. destruct (Z.eq_dec a 0) as [->|Hne]; [done|].
    pose proof (numeral_value 10 10 a ltac:(lia) ltac:(lia)) as Hv. rewrite Hnil in Hv. cbn in Hv. lia.
  - intros Hpos. destruct (numeral 10 10 a) as [|d ds] eqn:Hn; [done|]. cbn. intros [= Hd].
    apply (numeral_head 10 10 a d); try lia; [by rewrite Hn|]. unfold dec_char in Hd. lia.
  - by intros ->.
Qed.

Lemma itodeca_correct_witness :
  0 ≤ 2024 < 2 ^ 31 ∧
  ∃ s, itodeca 2024 (rubbish 12) = Some (overwrite (rubbish 12) 0 (cstr s)) ∧
    parse_dec s = 2024 ∧ Forall (λ c, 48 ≤ c ≤ 57) s ∧ s ≠ [] ∧ (0 < 2024 → head s ≠ Some 48) ∧ (2024 = 0 → s = [48]).
Proof. split; [lia|]. apply (itodeca_correct 2024 (rubbish 12)); [lia|cbn; lia]. Defined.

(** [itohexa] stores the hexadecimal numeral of a positive or null [int] and
    its terminator in any array of at least 9 characters; on a negative [int]
    (an address in the upper half of memory) it stores the empty string. *)
Lemma itohexa_correct (a : Z) (b : list Z) :
  is_s32 a → (9 ≤ length b)%nat →
  if a <? 0 then itohexa a b = Some (overwrite b 0 (cstr []))
  else ∃ ds, itohexa a b = Some (overwrite b 0 (cstr (hex_char <$> ds))) ∧
         value 16 ds = a ∧ Forall (λ d, 0 ≤ d < 16) ds ∧ (0 < a → head ds ≠ Some 0).
Proof.
  unfold is_s32. intros Ha Hlen. destruct (Z.ltb_spec a 0).
  - apply itohexa_negative; lia.
  - exists (numeral 8 16 a). pose proof (numeral_length 8 16 a ltac:(lia)).
    change (2 ^ 31) with 2147483648 in Ha.
    split_and!.
    + apply itohexa_numeral; lia.
    + apply numeral_value; lia.
    + unfold numeral. case_test; [apply Forall_singleton; lia|]. apply Forall_rev, lsd_range. lia.
    + intros Hpos Hd. by apply (numeral_head 8 16 a 0); try lia.
Qed.

Lemma itohexa_correct_witness :
  is_s32 0x1A3F ∧
  ∃ ds, itohexa 0x1A3F (rubbish 16) = Some (overwrite (rubbish 16) 0 (cstr (hex_char <$> ds))) ∧
    value 16 ds = 0x1A3F ∧ Forall (λ d, 0 ≤ d < 16) ds ∧ (0 < 0x1A3F → head ds ≠ Some 0).
Proof.
  split; [wrap_lia|]. apply (itohexa_correct 0x1A3F (rubbish 16)); [wrap_lia|cbn; lia].
Defined.

(** The string functions on arrays: [strlen] of an array holding a text is
    the length of the text; [strcpy] stores the text and its terminator and
    leaves the rest of the destination alone; [strcat] stores it behind the
    text of the destination when the array has room for both, and runs past
    the end of the array when it has not. *)
Lemma string_functions_correct (s t rest rest' b : list Z) :
  is_text s → is_text t →
  strlen (s ++ 0 :: rest) = Some (Z.of_nat (length s)) ∧
  ((length t < length b)%nat → strcpy (t ++ 0 :: rest') b = Some (overwrite b 0 (cstr t))) ∧
  ((length t ≤ length rest)%nat →
     strcat (t ++ 0 :: rest') (s ++ 0 :: rest) = Some (s ++ t ++ 0 :: drop (length t) rest)) ∧
  ((length rest < length t)%nat → strcat (t ++ 0 :: rest') (s ++ 0 :: rest) = None).
Proof.
  intros Hs Ht. split_and!.
  - by apply strlen_text.
  - by apply strcpy_text.
  - intros Hlen. rewrite strcat_text by done. f_equal. unfold overwrite, cstr.
    rewrite take_app_length, length_app, <- app_assoc. cbn. do 3 f_equal.
    rewrite <- drop_drop, drop_app_length. by rewrite Nat.add_1_r.
  - by apply strcat_overflow.
Qed.

Lemma string_functions_correct_witness :
  is_text [80; 65] ∧ is_text [67] ∧
  strlen ([80; 65] ++ 0 :: [1; 1]) = Some (Z.of_nat 2) ∧
  ((1 < 3)%nat → strcpy ([67] ++ 0 :: []) (rubbish 3) = Some (overwrite (rubbish 3) 0 (cstr [67]))) ∧
  ((1 ≤ 2)%nat → strcat ([67] ++ 0 :: []) ([80; 65] ++ 0 :: [1; 1]) = Some [80; 65; 67; 0; 1]) ∧
  ((2 < 1)%nat → strcat ([67] ++ 0 :: []) ([80; 65] ++ 0 :: [1; 1]) = None).
Proof.
  assert (H1 : is_text [80; 65]) by (repeat constructor; discriminate).
  assert (H2 : is_text [67]) by (repeat constructor; discriminate).
  split; [exact H1|]. split; [exact H2|].
  apply (string_functions_correct [80; 65] [67] [1; 1] [] (rubbish 3) H1 H2).
Defined.

(** [rand_range min max] returns a number between its bounds, both included,
    for every [min <= max] except the full 32-bit range, where the code divides
    by zero. *)
Lemma rand_range_bounds (x min max : Z) :
  is_u32 x → 0 ≤ min ≤ max → max < 2 ^ 32 →
  if (min =? 0) && (max =? 2 ^ 32 - 1) then rand_range min max x = None
  else ∃ r x', rand_range min max x = Some (r, x') ∧ min ≤ r ≤ max ∧ 0 ≤ x' < MODULUS.
Proof.
  intros Hx Hmin Hmax. unfold rand_range, mbind, M_bind. rewrite rand_exact by done.
  unfold MODULUS. set (y := (_ + _) mod 2147483648).
  assert (0 ≤ y < 2147483648) by (by apply Z.mod_pos_bound).
  change (2 ^ 32) with 4294967296 in *.
  assert (u32 (max - min) = max - min) as -> by wrap_lia.
  destruct ((min =? 0) && _) eqn:Hfull.
  - bool_to_prop. subst. done.
  - assert (u32 (max - min + 1) = max - min + 1) as ->.
    { apply andb_false_iff in Hfull as [?|?]; bool_to_prop; wrap_lia. }
    destruct (Z.eqb_spec (max - min + 1) 0); [lia|].
    pose proof (Z.mod_pos_bound y (max - min + 1) ltac:(lia)).
    exists (min + y mod (max - min + 1)), y. split; [|lia].
    unfold mret, M_ret. rewrite u32_small; [done|]. unfold is_u32. change (2 ^ 32) with 4294967296. lia.
Qed.

Lemma rand_range_bounds_witness :
  is_u32 322321 ∧
  ∃ r x', rand_range 0 4 322321 = Some (r, x') ∧ 0 ≤ r ≤ 4 ∧ 0 ≤ x' < MODULUS.
Proof. split; [wrap_lia|]. apply (rand_range_bounds 322321 0 4); [wrap_lia|lia|lia]. Defined.

(** The loop of [sleep] with any fuel past the call that reads the deadline. *)
Lemma sleep_run (clock : nat → Z) (ms : Z) (n fuel : nat) :
  (∀ i, is_s32 (clock i) ∧ 0 ≤ clock i) → 0 ≤ ms → clock 0%nat + ms / 2 < 2 ^ 32 →
  (1 ≤ n < fuel)%nat → clock 0%nat + ms / 2 ≤ clock n →
  ∃ k, sleep fuel clock ms = Some (S k) ∧ (1 ≤ k ≤ n)%nat ∧
    clock 0%nat + ms / 2 ≤ clock k ∧
    (∀ i, (1 ≤ i < k)%nat → clock i < clock 0%nat + ms / 2).
Proof.
  intros Hclk Hms Hend Hn Hdead.
  assert (Hu : ∀ i, u32 (clock i) = clock i) by (intros i; pose proof (Hclk i); wrap_lia).
  assert (Hdiv : 0 ≤ ms / 2) by (apply Z.div_pos; lia).
  unfold sleep. change TICKS_PER_MILISECOND with 2. rewrite Hu.
  rewrite (u32_small (clock 0%nat + ms / 2)) by (pose proof (Hclk 0%nat); unfold is_u32; lia).
  set (e := clock 0%nat + ms / 2) in *.
  assert (Hloop : ∀ fu m, (1 ≤ m ≤ n)%nat → (n - m < fu)%nat →
            (∀ i, (1 ≤ i < m)%nat → clock i < e) →
            ∃ k, sleep_loop fu clock e m = Some (S k) ∧ (1 ≤ k ≤ n)%nat ∧ e ≤ clock k ∧
                 ∀ i, (1 ≤ i < k)%nat → clock i < e).
  { induction fu as [|f IH]; intros m Hm Hf Hbefore; [lia|]. cbn. rewrite Hu.
    destruct (Z.ltb_spec (clock m) e).
    - assert (m ≠ n) by (intros ->; lia). apply IH; [lia|lia|].
      intros i Hi. destruct (decide (i = m)) as [->|]; [done|]. apply Hbefore. lia.
    - exists m. split_and!; done || lia. }
  apply Hloop; [lia..|]. intros i Hi. lia.
Qed.

(** [sleep] ends and does not end early: if the clock is within [int] and
    never runs backwards, no wrap-around happens before the deadline and some
    later call reads at least [ms / 2] ticks more than the first one, then the
    loop ends within the calls up to that one, exactly at the first call that
    reads the deadline. *)
Lemma sleep_terminates (clock : nat → Z) (ms : Z) (n : nat) :
  (∀ i, is_s32 (clock i) ∧ 0 ≤ clock i) → 0 ≤ ms → clock 0%nat + ms / 2 < 2 ^ 32 →
  (1 ≤ n)%nat → clock 0%nat + ms / 2 ≤ clock n →
  ∃ k, sleep (S n) clock ms = Some (S k) ∧ (1 ≤ k ≤ n)%nat ∧
    clock 0%nat + ms / 2 ≤ clock k ∧
    (∀ i, (1 ≤ i < k)%nat → clock i < clock 0%nat + ms / 2).
Proof. intros Hclk Hms Hend Hn Hdead. apply sleep_run; done || lia. Qed.

Lemma sleep_terminates_witness :
  let clock (i : nat) := Z.min (1000 + Z.of_nat i) 1500 in
  ∃ k, sleep 51 clock 100 = Some (S k) ∧ (1 ≤ k ≤ 50)%nat ∧
    clock 0%nat + 100 / 2 ≤ clock k ∧
    (∀ i, (1 ≤ i < k)%nat → clock i < clock 0%nat + 100 / 2).
Proof.
  intros clock. apply (sleep_terminates clock 100 50); unfold clock.
  - intros i. unfold is_s32. change (2 ^ 31) with 2147483648. lia.
  - lia.
  - vm_compute. reflexivity.
  - lia.
  - vm_compute. discriminate.
Defined.

(** [perror] finds room for every message: whatever [errno] holds, copying
    the message into the local array of 256 characters stays inside it and
    [write] is asked for descriptor 1, the message and its exact length. *)
Lemma perror_writes_message (errno : Z) (error_msg : list Z) :
  length error_msg = 256%nat →
  ∃ buf, perror errno error_msg = Some (1, buf, Z.of_nat (length (perror_msg errno))) ∧
    take (length (perror_msg errno)) buf = perror_msg errno ∧
    length buf = 256%nat ∧ (0 < length (perror_msg errno) < 256)%nat.
Proof.
  intros Hlen.
  assert (Hmsg : is_text (perror_msg errno) ∧ (0 < length (perror_msg errno) < 256)%nat).
  { unfold perror_msg, is_text.
    repeat (case_test; [split; [by apply (bool_decide_unpack _); vm_compute|vm_compute; lia]|]).
    split; [by apply (bool_decide_unpack _); vm_compute|vm_compute; lia]. }
  destruct Hmsg as [Ht Hl]. unfold perror, cstr.
  rewrite strcpy_text by (done || lia). cbn [mbind option_bind].
  assert (Hov : overwrite error_msg 0 (cstr (perror_msg errno)) =
    perror_msg errno ++ 0 :: drop (length (perror_msg errno) + 1) error_msg).
  { unfold overwrite, cstr. cbn. by rewrite length_app, <- app_assoc. }
  rewrite Hov, strlen_text by done. cbn [mbind option_bind].
  eexists. split; [done|]. rewrite take_app_length. split; [done|]. split; [|done].
  rewrite length_app. cbn. rewrite length_drop. lia.
Qed.

Lemma perror_writes_message_witness :
  length (rubbish 256) = 256%nat ∧
  ∃ buf, perror ENOMEM (rubbish 256) = Some (1, buf, Z.of_nat (length (perror_msg ENOMEM))) ∧
    take (length (perror_msg ENOMEM)) buf = perror_msg ENOMEM ∧
    length buf = 256%nat ∧ (0 < length (perror_msg ENOMEM) < 256)%nat.
Proof. split; [reflexivity|]. apply (perror_writes_message ENOMEM (rubbish 256)). reflexivity. Defined.
