(* ===== verification/Random.v ===== *)
(** * The period of the random numbers (rand of libc.c)

    The linear congruential generator of the library has the longest period
    there is: a cycle of all its states.  Whatever the player sees is drawn
    from it ([random] of pacman.c), so this is what makes the loops of the game
    that draw until a draw fits end. *)

From Stdlib Require Import Znumtheory Zpow_facts.
From S2P Require Import Prelude CInt LibC.

(** ** Congruential sequences modulo a power of two *)

Section lcg.
Context (a c : Z) (a_one_mod_4 : a mod 4 = 1) (c_odd : Z.odd c = true).

(** [1 + a + ... + a^(n-1)] *)
Fixpoint geo (n : nat) : Z := match n with O => 0 | S n => a * geo n + 1 end.

(** The [n]-th state from [x], before the remainder is taken. *)
Fixpoint orbit (n : nat) (x : Z) : Z := match n with O => x | S n => a * orbit n x + c end.

Lemma orbit_closed n x : orbit n x = a ^ Z.of_nat n * x + c * geo n.
Proof.
  induction n as [|n IH]; [cbn; lia|]. cbn [orbit geo].
  rewrite IH, Nat2Z.inj_succ, Z.pow_succ_r by lia. ring.
Qed.

Lemma orbit_shift n x : orbit (S n) x = orbit n (a * x + c).
Proof. induction n as [|n IH]; [done|]. cbn [orbit] in *. by rewrite <- IH. Qed.

Lemma geo_add n m : geo (n + m) = geo n * a ^ Z.of_nat m + geo m.
Proof.
  revert n. induction m as [|m IH]; intros n; [rewrite Nat.add_0_r; cbn; lia|].
  rewrite Nat.add_succ_r. cbn [geo]. rewrite IH, Nat2Z.inj_succ, Z.pow_succ_r by lia. ring.
Qed.

Lemma geo_pow n : a ^ Z.of_nat n - 1 = (a - 1) * geo n.
Proof.
  induction n as [|n IH]; [cbn; lia|]. cbn [geo]. rewrite Nat2Z.inj_succ, Z.pow_succ_r by lia.
  replace (a * a ^ Z.of_nat n - 1) with (a * (a ^ Z.of_nat n - 1) + (a - 1)) by ring. rewrite IH. ring.
Qed.

Lemma pow_mod_4 n : (a ^ Z.of_nat n) mod 4 = 1.
Proof.
  induction n as [|n IH]; [done|]. rewrite Nat2Z.inj_succ, Z.pow_succ_r by lia.
  by rewrite Z.mul_mod, IH, a_one_mod_4 by lia.
Qed.

Lemma geo_odd n : Z.odd (geo n) = Nat.odd n.
Proof.
  assert (Z.odd a = true) as Ha.
  { rewrite Zodd_mod. rewrite <- (Z.mod_mod_divide a 4 2), a_one_mod_4 by (by exists 2). done. }
  induction n as [|n IH]; [done|]. cbn [geo]. rewrite Z.odd_add, Z.odd_mul, IH, Ha, Nat.odd_succ, <- Nat.negb_odd.
  by destruct (Nat.odd n).
Qed.

Lemma odd_coprime_pow2 k o : 0 ≤ k → Z.odd o = true → rel_prime (2 ^ k) o.
Proof.
  intros Hk Ho. apply rel_prime_sym, rel_prime_Zpower_r; [done|].
  apply rel_prime_sym, prime_rel_prime; [apply prime_2|].
  intros [q Hq]. rewrite Hq, Z.odd_mul, andb_false_r in Ho. done.
Qed.

Lemma pow2_divide_odd k o x : 0 ≤ k → Z.odd o = true → (2 ^ k | o * x) → (2 ^ k | x).
Proof. intros Hk Ho Hd. eapply Gauss; [exact Hd|]. by apply odd_coprime_pow2. Qed.

(** The sum of [n] powers has exactly the factors 2 of [n]. *)
Lemma geo_divide (k n : nat) : (2 ^ Z.of_nat k | geo n) → (2 ^ Z.of_nat k | Z.of_nat n).
Proof.
  revert n. induction k as [|k IH]; intros n Hd; [apply Z.divide_1_l|].
  rewrite Nat2Z.inj_succ, Z.pow_succ_r in * by lia.
  assert (Nat.odd n = false) as Hn.
  { rewrite <- geo_odd. destruct Hd as [q ->]. rewrite !Z.odd_mul. cbn. by rewrite andb_false_r. }
  destruct (Nat.even_spec n) as [Heven _]. destruct Heven as [m ->]; [by rewrite <- Nat.negb_odd, Hn|].
  replace (2 * m)%nat with (m + m)%nat in * by lia. rewrite geo_add in Hd.
  assert (∃ o, a ^ Z.of_nat m + 1 = 2 * o ∧ Z.odd o = true) as (o & Ho & Hodd).
  { pose proof (pow_mod_4 m) as Hp. exists (2 * (a ^ Z.of_nat m / 4) + 1).
    split; [Z.div_mod_to_equations; lia|]. rewrite Z.odd_add, Z.odd_mul. done. }
  replace (geo m * a ^ Z.of_nat m + geo m) with (2 * (o * geo m)) in Hd
    by (transitivity (geo m * (a ^ Z.of_nat m + 1)); [rewrite Ho; ring|ring]).
  apply Z.mul_divide_cancel_l in Hd; [|lia].
  apply pow2_divide_odd in Hd; [|lia|done]. rewrite Nat2Z.inj_add.
  replace (Z.of_nat m + Z.of_nat m) with (2 * Z.of_nat m) by lia. by apply Z.mul_divide_mono_l, IH.
Qed.

Lemma orbit_inj (k i j : nat) x :
  Z.of_nat i ≤ Z.of_nat j < 2 ^ Z.of_nat k →
  orbit i x mod 2 ^ Z.of_nat k = orbit j x mod 2 ^ Z.of_nat k → i = j.
Proof.
  intros Hij Heq. assert (∃ d, j = d + i)%nat as [d ->] by (exists (j - i)%nat; lia).
  assert (Z.odd a = true) as Ha.
  { rewrite Zodd_mod, <- (Z.mod_mod_divide a 4 2), a_one_mod_4 by (by exists 2). done. }
  assert (2 ^ Z.of_nat k | a ^ Z.of_nat i * (((a - 1) * x + c) * geo d)) as Hd.
  { assert (a ^ Z.of_nat i * (((a - 1) * x + c) * geo d) = orbit (d + i) x - orbit i x) as ->.
    { rewrite !orbit_closed, geo_add, Nat2Z.inj_add, Z.pow_add_r by lia.
      pose proof (geo_pow d) as Hg. assert (a ^ Z.of_nat d = (a - 1) * geo d + 1) as -> by lia. ring. }
    apply Z.mod_divide; [lia|]. rewrite Zminus_mod, Heq, Z.sub_diag. by apply Z.mod_0_l; lia. }
  apply pow2_divide_odd in Hd; [|lia|].
  2: { rewrite Zodd_mod, <- (Z.mod_mod_divide _ 4 2), pow_mod_4 by (by exists 2). done. }
  apply pow2_divide_odd in Hd; [|lia|].
  2: { rewrite Z.odd_add, Z.odd_mul, Z.odd_sub, Ha, c_odd. done. }
  apply geo_divide in Hd.
  destruct (decide (d = 0)%nat) as [->|Hne]; [done|].
  destruct Hd as [q Hq]. assert (0 < q) by nia. nia.
Qed.
End lcg.

(** ** The generator *)

(** The state after [n] calls of [rand]: the last number it returned. *)
Fixpoint nth_rand (n : nat) (lcg_seed : Z) : option Z :=
  match n with
  | O => Some lcg_seed
  | S n => s ← nth_rand n lcg_seed; r ← rand s; Some (r.1)
  end.

Definition rand_orbit : nat → Z → Z := orbit MULTIPLIER INCREMENT.

Lemma modulus_pow : MODULUS = 2 ^ Z.of_nat 31.
Proof. done. Qed.

Lemma nth_rand_orbit n x : is_u32 x → nth_rand (S n) x = Some (rand_orbit (S n) x mod MODULUS).
Proof.
  intros Hx. induction n as [|n IH]; cbn [nth_rand] in *.
  - cbn [mbind option_bind]. rewrite rand_exact by done. done.
  - rewrite IH. cbn [mbind option_bind]. rewrite rand_exact.
    + cbn [mbind option_bind fst]. f_equal. unfold rand_orbit. cbn [orbit].
      by rewrite <- Zplus_mod_idemp_l, Z.mul_mod_idemp_r, Zplus_mod_idemp_l by done.
    + pose proof (Z.mod_pos_bound (rand_orbit (S n) x) MODULUS eq_refl). unfold MODULUS in *. wrap_lia.
Qed.

(** The generator has the full period: from any seed, every number below
    [MODULUS] is the result of exactly one of the next [MODULUS] calls of
    [rand]. *)
Lemma rand_full_period (x y : Z) :
  is_u32 x → 0 ≤ y < MODULUS →
  ∃ n, Z.of_nat n < MODULUS ∧ nth_rand (S n) x = Some y ∧
    ∀ m, Z.of_nat m < MODULUS → nth_rand (S m) x = Some y → m = n.
Proof.
  intros Hx Hy. set (f n := Z.to_nat (rand_orbit (S n) x mod MODULUS)).
  assert (Hr : ∀ n, 0 ≤ rand_orbit (S n) x mod MODULUS < MODULUS) by (intros n; by apply Z.mod_pos_bound).
  assert (Hinj : ∀ i j, Z.of_nat i < MODULUS → Z.of_nat j < MODULUS →
    rand_orbit (S i) x mod MODULUS = rand_orbit (S j) x mod MODULUS → i = j).
  { unfold rand_orbit, MODULUS in *. intros i j Hi Hj E. rewrite !orbit_shift in E.
    change 2147483648 with (2 ^ Z.of_nat 31) in *.
    destruct (Z.le_ge_cases (Z.of_nat i) (Z.of_nat j)).
    - eapply (orbit_inj MULTIPLIER INCREMENT eq_refl eq_refl 31); [|exact E]; lia.
    - symmetry. eapply (orbit_inj MULTIPLIER INCREMENT eq_refl eq_refl 31); [|exact (eq_sym E)]; lia. }
  destruct (injection_onto (Z.to_nat MODULUS) f) with (y := Z.to_nat y) as (n & Hn & Hf); [| |lia|].
  - intros i _. unfold f. specialize (Hr i). lia.
  - intros i j Hi Hj E. apply Hinj; [lia|lia|]. unfold f in E.
    pose proof (Hr i). pose proof (Hr j). lia.
  - exists n. split; [lia|]. rewrite nth_rand_orbit by done. unfold f in Hf. specialize (Hr n).
    assert (rand_orbit (S n) x mod MODULUS = y) as Ey by lia. split; [by rewrite Ey|].
    intros m Hm. rewrite nth_rand_orbit by done. intros [= E]. apply Hinj; [done|lia|]. etransitivity; [exact E|exact (eq_sym Ey)].
Qed.
