(* ===== verification/Ticks.v ===== *)
(** * The time stamp counter (get_ticks and do_div of utils.c)

    [do_div] divides a 64-bit number with the 32-bit instructions of the
    processor: [divl] divides [edx:eax] and raises an error when the quotient
    does not fit in 32 bits. *)

From S2P Require Import Prelude CInt.

Definition CYCLESPERTICK : Z := 109000.

(** [divl]: the quotient and the remainder, or the divide error. *)
Definition divl (edx eax base : Z) : option (Z * Z) :=
  let n := edx * 2 ^ 32 + eax in
  if (base =? 0) || (2 ^ 32 <=? n / base) then None else Some (n / base, n mod base).

(** [do_div(n, base)]: the new value of [n] and the remainder. *)
Definition do_div (n base : Z) : option (Z * Z) :=
  let __base := u32 base in
  let __low := n mod 2 ^ 32 in
  let __high := n / 2 ^ 32 in
  let '(__upper, __high) :=
    if negb (__high =? 0) then (__high mod __base, __high / __base) else (__high, __high) in
  r ← divl __upper __low __base;
  let '(__low, __mod) := r in
  Some (__high * 2 ^ 32 + __low, __mod).

(** [tsc] is the counter [rdtsc] reads: its low and its high half. *)
Definition get_ticks (tsc : Z * Z) : option Z :=
  let '(eax, edx) := tsc in
  let ticks := (Z.shiftl edx 32 + eax) mod 2 ^ 64 in
  r ← do_div ticks CYCLESPERTICK;
  Some (u32 r.1).

(** Two steps of a long division by [b], in base [B]. *)
Lemma long_division B b h l : 0 < b → 0 < B → 0 ≤ l < B →
  (h * B + l) / b = h / b * B + (h mod b * B + l) / b ∧ (h * B + l) mod b = (h mod b * B + l) mod b ∧
  0 ≤ (h mod b * B + l) / b < B.
Proof.
  intros Hb HB Hl. pose proof (Z.mod_pos_bound h b Hb) as Hm.
  assert (h * B + l = h / b * B * b + (h mod b * B + l)) as E by (rewrite (Z.div_mod h b) at 1 by lia; ring).
  rewrite E, Z.div_add_l by lia. split; [done|]. split; [rewrite Z.add_comm, Z.mod_add by lia; done|].
  split; [apply Z.div_pos; [nia|lia]|]. apply Z.div_lt_upper_bound; [done|]. nia.
Qed.

Lemma do_div_exact n base : 0 ≤ n < 2 ^ 64 → 0 < base < 2 ^ 32 → do_div n base = Some (n / base, n mod base).
Proof.
  intros Hn Hb. unfold do_div. rewrite u32_small by (unfold is_u32; lia).
  pose proof (Z.mod_pos_bound n (2 ^ 32) ltac:(lia)) as Hl. pose proof (Z.div_mod n (2 ^ 32) ltac:(lia)) as En.
  assert (0 ≤ n / 2 ^ 32 < 2 ^ 32) as Hh.
  { split; [apply Z.div_pos; lia|]. apply Z.div_lt_upper_bound; [lia|]. change (2 ^ 32 * 2 ^ 32) with (2 ^ 64). lia. }
  set (h := n / 2 ^ 32) in *. set (l := n mod 2 ^ 32) in *. clearbody h l. subst n.
  rewrite (Z.mul_comm (2 ^ 32) h). destruct (long_division (2 ^ 32) base h l) as (Ed & Em & Hq1 & Hq2); [lia..|].
  assert (Hdiv : ∀ u, u = h mod base → divl u l base = Some ((h mod base * 2 ^ 32 + l) / base, (h mod base * 2 ^ 32 + l) mod base)).
  { intros u ->. unfold divl. destruct (Z.eqb_spec base 0); [lia|]. destruct (Z.leb_spec (2 ^ 32) ((h mod base * 2 ^ 32 + l) / base)); [lia|done]. }
  rewrite Ed, Em. destruct (Z.eqb_spec h 0) as [->|Hne]; cbn [negb].
  - rewrite Hdiv by (by rewrite Z.mod_0_l by lia). cbn [mbind option_bind]. by rewrite Z.div_0_l by lia.
  - rewrite Hdiv by done. done.
Qed.

(** C40: the division of the time stamp counter.  For every 64-bit dividend and
    every 32-bit divisor but 0, [do_div] leaves the quotient of the 64-bit
    division in the dividend and returns its remainder, without a divide error;
    [get_ticks] is the number of ticks of [CYCLESPERTICK] cycles in the whole
    counter, modulo [2^32]. *)
Theorem do_div_correct n base eax edx :
  0 ≤ n < 2 ^ 64 → 0 < base < 2 ^ 32 → is_u32 eax → is_u32 edx →
  do_div n base = Some (n / base, n mod base) ∧
  get_ticks (eax, edx) = Some (u32 ((edx * 2 ^ 32 + eax) / CYCLESPERTICK)).
Proof.
  intros Hn Hb Ha Hd. split; [by apply do_div_exact|]. unfold get_ticks, is_u32 in *. rewrite Z.shiftl_mul_pow2 by lia.
  assert (0 ≤ edx * 2 ^ 32 + eax < 2 ^ 64) as Hr by (change (2 ^ 64) with (2 ^ 32 * 2 ^ 32); nia).
  rewrite Z.mod_small by done. rewrite do_div_exact by (done || by vm_compute). done.
Qed.

Lemma do_div_correct_witness :
  do_div (2 ^ 64 - 1) 10 = Some (1844674407370955161, 5) ∧ get_ticks (5, 3) = Some (u32 (12884901893 / CYCLESPERTICK)).
Proof. apply (do_div_correct (2 ^ 64 - 1) 10 5 3); by vm_compute. Defined.
