(* ===== verification/Pacman.v ===== *)
(** * The game: its state and its rules (pacman.c, include/pacman.h)

    The state of a round, its initialisation, the movements of pacman and of
    the ghosts, the collisions and the timers.  An [unsigned] coordinate wraps
    around and an access outside the map is a fault; the numbers a ghost draws
    come from the generator of the library, whose seed is the state of the
    computations that draw. *)

From Stdlib Require Import Ascii String.
From S2P Require Import Prelude CInt Console LibC Random.

#[local] Notation length := Datatypes.length.

Definition MAX_NAME_LENGTH : Z := 10.
Definition MAX_LEADERBOARD_ENTRIES : Z := 2.
Definition NUM_LIVES : Z := 1.
Definition MAP_HEIGHT : Z := 24.
Definition MAP_WIDTH : Z := 80.
Definition NUM_GHOSTS : Z := 4.
Definition PELLET_POINTS : Z := 10.
Definition BOOSTER_POINTS : Z := 50.
Definition GHOST_POINTS : Z := 200.
Definition BOOSTED_TIME : Z := 5000.
Definition RESPAWN_TIME : Z := 3000.

(** ** Data *)

Record Point := mk_Point { px : Z; py : Z }.

Inductive Algorithm := RANDOM | BFS | DFS | DIJKSTRA.
Inductive Direction := UP | DOWN | RIGHT | LEFT | NONE.
Inductive Behaviour := CHASE | RUN_AWAY | STILL.

#[export] Instance Point_eq_dec : EqDecision Point.
Proof. solve_decision. Defined.
#[export] Instance Direction_eq_dec : EqDecision Direction.
Proof. solve_decision. Defined.
#[export] Instance Behaviour_eq_dec : EqDecision Behaviour.
Proof. solve_decision. Defined.

Record Ghost := mk_Ghost {
  g_spawnPoint : Point;
  g_position : Point;
  g_direction : Direction;
  g_skin : Z;
  g_tile : Z;
  g_fg_color : Z;
  g_bg_color : Z;
  g_isAlive : Z;
  g_deadTimer : Z;
  g_algorithm : Algorithm;
  g_behaviour : Behaviour;
}.

Record Pacman := mk_Pacman {
  p_position : Point;
  p_spawnPoint : Point;
  p_direction : Direction;
  p_fg_color : Z;
  p_bg_color : Z;
  p_skin : Z;
  p_isBoosted : Z;
  p_boostedTimer : Z;
  p_isAlive : Z;
  p_respawnTimer : Z;
}.

Record LeaderboardEntry := mk_LeaderboardEntry { name : list Z; entry_score : Z }.

Record GameState := mk_GameState {
  pacman : Pacman;
  ghosts : list Ghost;
  score : Z;
  lives : Z;
  pelletsRemaining : Z;
  level : Z;
  map : list (list Z);
  leaderboard : list LeaderboardEntry;
  leaderboardSize : Z;
  currentPlayer : list Z;
}.

(** Assignments to the fields. *)
Definition set_pacman (v : Pacman) (g : GameState) : GameState :=
  mk_GameState v (ghosts g) (score g) (lives g) (pelletsRemaining g) (level g) (map g) (leaderboard g) (leaderboardSize g) (currentPlayer g).
Definition set_ghosts (v : list Ghost) (g : GameState) : GameState :=
  mk_GameState (pacman g) v (score g) (lives g) (pelletsRemaining g) (level g) (map g) (leaderboard g) (leaderboardSize g) (currentPlayer g).
Definition set_score (v : Z) (g : GameState) : GameState :=
  mk_GameState (pacman g) (ghosts g) v (lives g) (pelletsRemaining g) (level g) (map g) (leaderboard g) (leaderboardSize g) (currentPlayer g).
Definition set_lives (v : Z) (g : GameState) : GameState :=
  mk_GameState (pacman g) (ghosts g) (score g) v (pelletsRemaining g) (level g) (map g) (leaderboard g) (leaderboardSize g) (currentPlayer g).
Definition set_round (s l p lv : Z) (g : GameState) : GameState :=
  mk_GameState (pacman g) (ghosts g) s l p lv (map g) (leaderboard g) (leaderboardSize g) (currentPlayer g).
Definition set_map (v : list (list Z)) (g : GameState) : GameState :=
  mk_GameState (pacman g) (ghosts g) (score g) (lives g) (pelletsRemaining g) (level g) v (leaderboard g) (leaderboardSize g) (currentPlayer g).
Definition set_leaderboard (v : list LeaderboardEntry) (n : Z) (g : GameState) : GameState :=
  mk_GameState (pacman g) (ghosts g) (score g) (lives g) (pelletsRemaining g) (level g) (map g) v n (currentPlayer g).
Definition set_currentPlayer (v : list Z) (g : GameState) : GameState :=
  mk_GameState (pacman g) (ghosts g) (score g) (lives g) (pelletsRemaining g) (level g) (map g) (leaderboard g) (leaderboardSize g) v.

Definition with_position (v : Point) (p : Pacman) : Pacman :=
  mk_Pacman v (p_spawnPoint p) (p_direction p) (p_fg_color p) (p_bg_color p) (p_skin p) (p_isBoosted p) (p_boostedTimer p) (p_isAlive p) (p_respawnTimer p).
Definition with_direction (v : Direction) (p : Pacman) : Pacman :=
  mk_Pacman (p_position p) (p_spawnPoint p) v (p_fg_color p) (p_bg_color p) (p_skin p) (p_isBoosted p) (p_boostedTimer p) (p_isAlive p) (p_respawnTimer p).
Definition with_boost (b t : Z) (p : Pacman) : Pacman :=
  mk_Pacman (p_position p) (p_spawnPoint p) (p_direction p) (p_fg_color p) (p_bg_color p) (p_skin p) b t (p_isAlive p) (p_respawnTimer p).
Definition with_life (a t : Z) (p : Pacman) : Pacman :=
  mk_Pacman (p_position p) (p_spawnPoint p) (p_direction p) (p_fg_color p) (p_bg_color p) (p_skin p) (p_isBoosted p) (p_boostedTimer p) a t.

Definition with_g_position (v : Point) (g : Ghost) : Ghost :=
  mk_Ghost (g_spawnPoint g) v (g_direction g) (g_skin g) (g_tile g) (g_fg_color g) (g_bg_color g) (g_isAlive g) (g_deadTimer g) (g_algorithm g) (g_behaviour g).
Definition with_g_direction (v : Direction) (g : Ghost) : Ghost :=
  mk_Ghost (g_spawnPoint g) (g_position g) v (g_skin g) (g_tile g) (g_fg_color g) (g_bg_color g) (g_isAlive g) (g_deadTimer g) (g_algorithm g) (g_behaviour g).
Definition with_g_tile (v : Z) (g : Ghost) : Ghost :=
  mk_Ghost (g_spawnPoint g) (g_position g) (g_direction g) (g_skin g) v (g_fg_color g) (g_bg_color g) (g_isAlive g) (g_deadTimer g) (g_algorithm g) (g_behaviour g).
Definition with_g_life (a t : Z) (g : Ghost) : Ghost :=
  mk_Ghost (g_spawnPoint g) (g_position g) (g_direction g) (g_skin g) (g_tile g) (g_fg_color g) (g_bg_color g) a t (g_algorithm g) (g_behaviour g).
Definition with_g_behaviour (b : Behaviour) (c : Z) (g : Ghost) : Ghost :=
  mk_Ghost (g_spawnPoint g) (g_position g) (g_direction g) (g_skin g) (g_tile g) c (g_bg_color g) (g_isAlive g) (g_deadTimer g) (g_algorithm g) b.

(** ** The maps *)

Definition map_0 : list string := [
  "################################################################################";
  "#*...................................#####....................................*#";
  "#.###.###.###.###.###.###.###.###.##.#####.##.###.###.###.###.###.###.###.####.#";
  "#.###.###.###.###.###.###.###.###.##.#####.##.###.###.###.###.###.###.###.####.#";
  "#.###.###.###.###.###*###.###.###.##.#####.##.###.###.###*###.###.###.###.####.#";
  "#.............###.###.###.###.###.##.#####.##.###.###.###.###.###..............#";
  "#.###.###.###.###.###.###.###.###.##.#####.##.###.###.###.###.###.###.###.####.#";
  "#.###.###.###.###.###.###..............*..............###.###.###.###.###.####.#";
  "#.###.###.###.###.###.###.#######.###########.#######.###.###.###.###.###.####.#";
  "#*........................#######.#.........#.#######.........................*#";
  "#################.###.###.........#.........#.........###.###.##################";
  "#################*###.###.#########.........#########.###*###.##################";
  "#################.###.###..............*..............###.###.##################";
  "#################.###.###.#########.........#########.###.###.##################";
  "#*................................#.........#.................................*#";
  "#.###.###.###.###.###.###.#######.#.........#.#######.###.###.###.###.###.####.#";
  "#.###.###.###.###.###.###.#######.#.........#.#######.###.###.###.###.###.####.#";
  "#.###.###.###.###.###.###.#######.###########.#######.###.###.###.###.###.####.#";
  "#.............###.###.###..............*..............###.###.###..............#";
  "#.###.###.###.###.###*###.###.###.##.#####.##.###.###.###*###.###.###.###.####.#";
  "#.###.###.###.###.###.###.###.###.##.#####.##.###.###.###.###.###.###.###.####.#";
  "#.###.###.###.###.###.###.###.###.##.#####.##.###.###.###.###.###.###.###.####.#";
  "#*...................................#####....................................*#";
  "################################################################################"
]%string.

Definition map_1 : list string := [
  "################################################################################";
  "#.................*..........................................................*.#";
  "#..............................................................................#";
  "#...######...############...####...############...#######...####...#########...#";
  "#...######...############...####...############...#######...####...#########...#";
  "#..........*....................................*..............................#";
  "#...######...####...############...#######...#######...############.*.#######..#";
  "#...######...####...############.*.#######...#######...############...#######..#";
  "#..............................................................................#";
  "#..*######...################...########...#######...########...###########....#";
  "#...######...################...########...#######...########...###########*...#";
  "#..............................................................................#";
  "#...####...*..###############....########...*..#################...*...####....#";
  "#...####......###############....########......#################.......####....#";
  "#..............................................................................#";
  "#...######...##########...#######.......###############...#######...########...#";
  "#...######...##########...#######.......###############...#######...########...#";
  "#..............................................................................#";
  "#...######...################...#######...#######...################...#####...#";
  "#...######.*.################...#######...#######.*.################.*.#####...#";
  "#...######...################...#######...#######...################...#####...#";
  "#..............................................................................#";
  "#.*...........................*................................................#";
  "################################################################################"
]%string.

Definition predefinedMaps : list (list (list Z)) :=
  [(λ s, cstr (chars s)) <$> map_0; (λ s, cstr (chars s)) <$> map_1].

(** [game->map[p.y][p.x]] and its assignment. *)
Definition load_map (p : Point) (g : GameState) : option Z :=
  row ← znth (map g) (py p); znth row (px p).
Definition store_map (p : Point) (c : Z) (g : GameState) : option GameState :=
  row ← znth (map g) (py p);
  row ← zset row (px p) c;
  m ← zset (map g) (py p) row;
  Some (set_map m g).

(** Characters. *)
Definition WALL : Z := 35.
Definition BOOSTER : Z := 42.
Definition PELLET : Z := 46.
Definition SPACE : Z := 32.
Definition char_C : Z := 67.
Definition char_0 : Z := 48.

(** ** Input *)

Definition processInput (input : Z) (g : GameState) : GameState :=
  let input := lower input in
  let d := if input =? 119 then UP else if input =? 115 then DOWN
    else if input =? 97 then LEFT else if input =? 100 then RIGHT else NONE in
  set_pacman (with_direction d (pacman g)) g.

(** ** Initialisation *)

Fixpoint copy_rows (n : nat) (i : Z) (g : GameState) : option GameState :=
  match n with
  | O => Some g
  | S n =>
      rows ← znth predefinedMaps (level g);
      src ← znth rows i;
      dest ← znth (map g) i;
      row ← strcpy src dest;
      m ← zset (map g) i row;
      copy_rows n (i + 1) (set_map m g)
  end.

Definition initializeMap (g : GameState) : option GameState := copy_rows (Z.to_nat MAP_HEIGHT) 0 g.

Definition ghost_alg (i : Z) : Algorithm :=
  if i =? 0 then RANDOM else if i =? 1 then BFS else if i =? 2 then DFS else DIJKSTRA.
Definition ghost_color (i : Z) : Z :=
  if i =? 0 then LIGHT_CYAN else if i =? 1 then LIGHT_MAGENTA else if i =? 2 then LIGHT_GREEN else RED.

(** The [i]-th turn of the loop of [initializeGhosts]. *)
Definition initial_ghost (i : Z) (spawn : Point) : Ghost :=
  mk_Ghost spawn spawn NONE char_0 PELLET (ghost_color i) BLACK 1 0 (ghost_alg i) CHASE.

Fixpoint ghosts_init (n : nat) (i : Z) (spawn : list Point) (l : list Ghost) : option (list Ghost) :=
  match n with
  | O => Some l
  | S n => s ← znth spawn i; l ← zset l i (initial_ghost i s); ghosts_init n (i + 1) spawn l
  end.

Definition initializeGhosts (spawn : list Point) (g : GameState) : option GameState :=
  l ← ghosts_init (Z.to_nat NUM_GHOSTS) 0 spawn (ghosts g); Some (set_ghosts l g).

Definition initializePacman (spawn : Point) (g : GameState) : option GameState :=
  store_map spawn char_C (set_pacman (mk_Pacman spawn spawn NONE WHITE BLACK char_C 0 0 1 0) g).

Fixpoint entries_init (n : nat) (i : Z) (l : list LeaderboardEntry) : option (list LeaderboardEntry) :=
  match n with
  | O => Some l
  | S n =>
      e ← znth l i;
      nm ← strcpy (cstr (chars "sus")) (name e);
      l ← zset l i (mk_LeaderboardEntry nm 0);
      entries_init n (i + 1) l
  end.

Definition initializeLeaderboard (g : GameState) : option GameState :=
  l ← entries_init (Z.to_nat MAX_LEADERBOARD_ENTRIES) 0 (leaderboard g); Some (set_leaderboard l 0 g).

Definition pacman_spawn (lv : Z) : Point := if lv =? 0 then mk_Point 36 1 else mk_Point 42 10.
Definition ghost_spawns (lv : Z) : list Point :=
  if lv =? 0 then [mk_Point 38 11; mk_Point 40 11; mk_Point 38 13; mk_Point 40 13]
  else [mk_Point 78 1; mk_Point 1 22; mk_Point 1 1; mk_Point 78 22].
Definition pellets (lv : Z) : Z := if lv =? 0 then 736 else 1013.

Definition initializeRound (lv lvs sc : Z) (player : list Z) (g : GameState) : option GameState :=
  let g := set_round sc lvs (pelletsRemaining g) lv g in
  nm ← strcpy player (currentPlayer g);
  let g := set_currentPlayer nm g in
  let g := set_round (score g) (lives g) (pellets (level g)) (level g) g in
  g ← initializeMap g;
  g ← initializePacman (pacman_spawn (level g)) g;
  initializeGhosts (ghost_spawns (level g)) g.

(** ** Tests on the map *)

Definition is_char (c : Z) (g : GameState) (p : Point) : option bool := v ← load_map p g; Some (v =? c).

Definition isPellet : GameState → Point → option bool := is_char PELLET.
Definition isWall : GameState → Point → option bool := is_char WALL.
Definition isBooster : GameState → Point → option bool := is_char BOOSTER.
Definition isEmpty : GameState → Point → option bool := is_char SPACE.

Definition removeItem (g : GameState) (p : Point) : option GameState := store_map p SPACE g.

Definition equalPoints (a b : Point) : bool := (px a =? px b) && (py a =? py b).

Definition isGhost (g : GameState) (p : Point) : bool := existsb (λ gh, equalPoints (g_position gh) p) (ghosts g).

Definition isValidMove (g : GameState) (p : Point) : option bool :=
  if (px p <? MAP_WIDTH) && (py p <? MAP_HEIGHT) then w ← isWall g p; Some (negb w) else Some false.

Definition determineDirection (start next : Point) : Direction :=
  if px start <? px next then RIGHT
  else if px next <? px start then LEFT
  else if py start <? py next then DOWN
  else if py next <? py start then UP
  else NONE.

(** [random]: the state is the seed of the generator. *)
Definition random : M Z Direction :=
  r ← rand_range 0 4;
  mret (if r =? 0 then UP else if r =? 1 then DOWN else if r =? 2 then LEFT else if r =? 3 then RIGHT else NONE).

(** The step of a ghost. *)
Definition getNextPoint (p : Point) (d : Direction) : Point :=
  match d with
  | UP => mk_Point (px p) (u32 (py p + 1))
  | DOWN => mk_Point (px p) (u32 (py p - 1))
  | RIGHT => mk_Point (u32 (px p + 1)) (py p)
  | LEFT => mk_Point (u32 (px p - 1)) (py p)
  | NONE => p
  end.

(** ** Rules *)

Definition strcpy_entry (nm : list Z) (sc : Z) (e : LeaderboardEntry) : option LeaderboardEntry :=
  n ← strcpy nm (name e); Some (mk_LeaderboardEntry n sc).

Definition updateLeaderboard (g : GameState) (nm : list Z) (sc : Z) : option GameState :=
  if leaderboardSize g <? MAX_LEADERBOARD_ENTRIES then
    e ← znth (leaderboard g) (leaderboardSize g);
    e ← strcpy_entry nm (u32 sc) e;
    l ← zset (leaderboard g) (leaderboardSize g) e;
    Some (set_leaderboard l (leaderboardSize g + 1) g)
  else Some g.

Definition ghost_mood (bh : Behaviour) (i : nat) (gh : Ghost) : Ghost :=
  with_g_behaviour bh (match bh with RUN_AWAY => CYAN | CHASE | STILL => ghost_color (Z.of_nat i) end) gh.

Definition changeGhostsBehaviour (bh : Behaviour) (g : GameState) : GameState :=
  set_ghosts (imap (ghost_mood bh) (ghosts g)) g.

(** The step of pacman. *)
Definition pacman_next (p : Point) (d : Direction) : Point :=
  match d with
  | UP => mk_Point (px p) (u32 (py p - 1))
  | DOWN => mk_Point (px p) (u32 (py p + 1))
  | LEFT => mk_Point (u32 (px p - 1)) (py p)
  | RIGHT => mk_Point (u32 (px p + 1)) (py p)
  | NONE => p
  end.

(** The body of [if (!isWall(game, nextPosition))]. *)
Definition pacman_moves (next : Point) (g : GameState) : option GameState :=
  g ← store_map (p_position (pacman g)) SPACE g;
  let g := set_pacman (with_position next (pacman g)) g in
  pe ← isPellet g next;
  g ← (if (pe : bool) then removeItem (set_score (u32 (score g + PELLET_POINTS)) g) next
       else
         bo ← isBooster g next;
         if (bo : bool) then
           g ← removeItem (set_score (u32 (score g + BOOSTER_POINTS)) g) next;
           let g := set_pacman (with_boost 1 BOOSTED_TIME (pacman g)) g in
           Some (changeGhostsBehaviour RUN_AWAY g)
         else Some g);
  store_map (p_position (pacman g)) char_C g.

(** The ghost [i] is eaten. *)
Definition eat_ghost (i : Z) (gh : Ghost) (g : GameState) : option GameState :=
  l ← zset (ghosts g) i (with_g_life 0 RESPAWN_TIME (with_g_position (g_spawnPoint gh) gh));
  Some (set_score (u32 (score g + GHOST_POINTS)) (set_ghosts l g)).

(** A ghost eats pacman. *)
Definition lose_life (g : GameState) : GameState :=
  let g := set_lives (u32 (lives g - 1)) g in
  let g := set_pacman (with_position (p_spawnPoint (pacman g)) (pacman g)) g in
  let g := set_pacman (with_life 0 RESPAWN_TIME (pacman g)) g in
  changeGhostsBehaviour STILL g.

(** The loop over the ghosts, with its [break]. *)
Fixpoint collide (n : nat) (i : Z) (next : Point) (g : GameState) : option GameState :=
  match n with
  | O => Some g
  | S n =>
      gh ← znth (ghosts g) i;
      let hit := equalPoints (g_position gh) next && negb (g_isAlive gh =? 0) in
      if negb (p_isBoosted (pacman g) =? 0) then
        g ← (if hit then eat_ghost i gh g else Some g);
        collide n (i + 1) next g
      else if hit then Some (lose_life g)
      else collide n (i + 1) next g
  end.

Definition updatePacmanPosition (g : GameState) : option GameState :=
  let next := pacman_next (p_position (pacman g)) (p_direction (pacman g)) in
  w ← isWall g next;
  g ← (if negb w then pacman_moves next g else Some g);
  if isGhost g next then collide (Z.to_nat NUM_GHOSTS) 0 next g else Some g.

(** The timers are unsigned: they end when they are exactly 0. *)
Definition update_boost (elapsedTime : Z) (g : GameState) : GameState :=
  if negb (p_isBoosted (pacman g) =? 0) then
    let t := u32 (p_boostedTimer (pacman g) - elapsedTime) in
    let g := set_pacman (with_boost (p_isBoosted (pacman g)) t (pacman g)) g in
    if t <=? 0 then changeGhostsBehaviour CHASE (set_pacman (with_boost 0 t (pacman g)) g) else g
  else g.

Definition update_respawn (elapsedTime : Z) (g : GameState) : GameState :=
  if p_isAlive (pacman g) =? 0 then
    let t := u32 (p_respawnTimer (pacman g) - elapsedTime) in
    let g := set_pacman (with_life (p_isAlive (pacman g)) t (pacman g)) g in
    if t <=? 0 then changeGhostsBehaviour CHASE (set_pacman (with_life 1 t (pacman g)) g) else g
  else g.

Definition update_dead (elapsedTime : Z) (gh : Ghost) : Ghost :=
  if g_isAlive gh =? 0 then
    let t := u32 (g_deadTimer gh - elapsedTime) in
    with_g_life (if t <=? 0 then 1 else g_isAlive gh) t gh
  else gh.

Definition updateTimerState (elapsedTime : Z) (g : GameState) : GameState :=
  let g := update_respawn elapsedTime (update_boost elapsedTime g) in
  set_ghosts (update_dead elapsedTime <$> ghosts g) g.

(** ** The ghosts *)

(** Every algorithm draws: the calls of the searches are commented out. *)
Definition choose (a : Algorithm) : M Z Direction :=
  match a with RANDOM | DFS | BFS | DIJKSTRA => random end.

(** [while (isWall || isGhost) nextPosition = getNextPoint(initialPosition, random())]:
    no value when the fuel runs out. *)
Fixpoint find_next (fuel : nat) (g : GameState) (initial next : Point) : M Z (option Point) :=
  match fuel with
  | O => mret None
  | S f =>
      w ← ask (λ _, isWall g next);
      if (w : bool) || isGhost g next then d ← random; find_next f g initial (getNextPoint initial d)
      else mret (Some next)
  end.

Definition ghost_char (i : Z) : Z := if i =? 0 then 48 else if i =? 1 then 49 else if i =? 2 then 50 else 51.

(** The body of [if (isValidMove(game, nextPosition))]. *)
Definition place_ghost (i : Z) (gh : Ghost) (next : Point) (g : GameState) : option GameState :=
  g ← store_map (g_position gh) (g_tile gh) g;
  t ← load_map next g;
  e ← isEmpty g next;
  b ← isBooster g next;
  p ← isPellet g next;
  let t := if negb e && negb b && negb p then SPACE else t in
  let gh := with_g_position next (with_g_tile t gh) in
  g ← store_map next (ghost_char i) g;
  let gh := with_g_direction (determineDirection (g_position gh) next) gh in
  l ← zset (ghosts g) i gh;
  Some (set_ghosts l g).

(** The turn of a ghost that is alive and does not stand still; the result has
    no value when the fuel of its loop runs out. *)
Definition move_ghost (fuel : nat) (i : Z) (gh : Ghost) (g : GameState) : M Z (option GameState) :=
  let initial := g_position gh in
  d ← choose (g_algorithm gh);
  next ← find_next fuel g initial (getNextPoint initial d);
  match next with
  | None => mret None
  | Some next =>
      v ← ask (λ _, isValidMove g next);
      if (v : bool) then g ← ask (λ _, place_ghost i gh next g); mret (Some g) else mret (Some g)
  end.

Fixpoint ghosts_loop (fuel n : nat) (i : Z) (g : GameState) : M Z (option GameState) :=
  match n with
  | O => mret (Some g)
  | S n =>
      gh ← ask (λ _, znth (ghosts g) i);
      if g_isAlive gh =? 0 then ghosts_loop fuel n (i + 1) g
      else match g_behaviour gh with
      | STILL => mret (Some g)
      | CHASE | RUN_AWAY =>
          r ← move_ghost fuel i gh g;
          match r with None => mret None | Some g => ghosts_loop fuel n (i + 1) g end
      end
  end.

Definition updateGhostsPositions (fuel : nat) (g : GameState) : M Z (option GameState) :=
  ghosts_loop fuel (Z.to_nat NUM_GHOSTS) 0 g.

Definition isRoundOver (g : GameState) : bool := pelletsRemaining g <=? 0.
Definition playerHasNoLife (g : GameState) : bool := lives g <=? 0.

(** [elapsedTime] is not used: the timers get 100 in every frame. *)
Definition updateGameState (fuel : nat) (elapsedTime : Z) (g : GameState) : M Z (option GameState) :=
  g ← ask (λ _, updatePacmanPosition g);
  r ← updateGhostsPositions fuel g;
  mret (updateTimerState 100 <$> r).

(** ** The invariant of a round

    [W] says where the walls of the map are. *)

Definition in_map (p : Point) : Prop := 0 ≤ px p < MAP_WIDTH ∧ 0 ≤ py p < MAP_HEIGHT.

Definition on_border (p : Point) : Prop :=
  px p = 0 ∨ px p = MAP_WIDTH - 1 ∨ py p = 0 ∨ py p = MAP_HEIGHT - 1.

(** The walls close the map. *)
Definition framed (W : Point → bool) : Prop := ∀ p, in_map p → on_border p → W p = true.

Definition open (W : Point → bool) (p : Point) : Prop := in_map p ∧ W p = false.

(** A row is a string of 80 characters and its terminator. *)
Record map_ok (W : Point → bool) (g : GameState) : Prop := {
  mo_rows : Z.of_nat (length (map g)) = MAP_HEIGHT;
  mo_row : ∀ y row, znth (map g) y = Some row → Z.of_nat (length row) = MAP_WIDTH + 1;
  mo_walls : ∀ p c, in_map p → load_map p g = Some c → (c = WALL ↔ W p = true);
}.

Definition ghost_ok (W : Point → bool) (gh : Ghost) : Prop :=
  open W (g_position gh) ∧ open W (g_spawnPoint gh) ∧ g_tile gh ≠ WALL.

Record game_ok (W : Point → bool) (g : GameState) : Prop := {
  ok_map : map_ok W g;
  ok_framed : framed W;
  ok_ghosts : Z.of_nat (length (ghosts g)) = NUM_GHOSTS ∧ Forall (ghost_ok W) (ghosts g);
  ok_pacman : open W (p_position (pacman g)) ∧ open W (p_spawnPoint (pacman g));
}.

Section map.
Implicit Types (W : Point → bool) (g : GameState) (p q : Point).

Lemma load_in_map W g p : map_ok W g → in_map p → is_Some (load_map p g).
Proof.
  intros [Hr Hrow _] [Hx Hy]. unfold load_map, MAP_WIDTH, MAP_HEIGHT in *.
  destruct (znth_in_range (map g) (py p)) as [row E]; [lia|]. specialize (Hrow _ _ E). rewrite E. cbn.
  destruct (znth_in_range row (px p)) as [c Ec]; [lia|]. eauto.
Qed.

Lemma is_wall W g p : map_ok W g → in_map p → isWall g p = Some (W p).
Proof.
  intros Hm Hp. destruct (load_in_map W g p Hm Hp) as [c Hc]. unfold isWall, is_char. rewrite Hc. cbn.
  pose proof (mo_walls _ _ Hm p c Hp Hc) as Hw. f_equal.
  destruct (Z.eqb_spec c WALL), (W p); try done; [by apply Hw in e|]. by destruct n; apply Hw.
Qed.

(** A cell that is no wall takes any character but a wall. *)
Lemma store_ok W g p c :
  map_ok W g → open W p → c ≠ WALL →
  ∃ m, store_map p c g = Some (set_map m g) ∧ map_ok W (set_map m g) ∧
    ∀ q, in_map q → load_map q (set_map m g) = if bool_decide (q = p) then Some c else load_map q g.
Proof.
  intros [Hr Hrow Hw] [[Hx Hy] Hop] Hc. unfold store_map, MAP_WIDTH, MAP_HEIGHT in *.
  destruct (znth_in_range (map g) (py p)) as [row E]; [lia|]. pose proof (Hrow _ _ E) as Hl. rewrite E.
  cbn [mbind option_bind]. rewrite zset_Some by lia. cbn [mbind option_bind]. rewrite zset_Some by lia. cbn [mbind option_bind].
  set (m := <[Z.to_nat (py p) := _]> (map g)). exists m. split; [done|].
  assert (Hload : ∀ q, in_map q → load_map q (set_map m g) = if bool_decide (q = p) then Some c else load_map q g).
  { intros q [Hqx Hqy]. unfold load_map, m. cbn [map set_map]. rewrite znth_insert by lia.
    destruct (Z.eqb_spec (py p) (py q)) as [Ey|Ey].
    - rewrite <- Ey, E. cbn [mbind option_bind]. rewrite znth_insert by lia.
      destruct (Z.eqb_spec (px p) (px q)) as [Ex|Ex].
      + rewrite bool_decide_true; [done|]. destruct p, q; cbn in *; congruence.
      + rewrite bool_decide_false; [done|]. intros ->; done.
    - rewrite bool_decide_false; [done|]. intros ->; done. }
  split; [|exact Hload]. split.
  - unfold m. cbn. by rewrite length_insert.
  - intros y r. unfold m. cbn [map set_map]. rewrite znth_insert by lia. case_match; [|apply Hrow].
    intros [= <-]. by rewrite length_insert.
  - intros q v Hq. rewrite Hload by done. case_bool_decide as Eq; [|by apply Hw].
    intros [= <-]. subst. by rewrite Hop.
Qed.

Lemma map_ok_same W g g' : map g' = map g → map_ok W g → map_ok W g'.
Proof.
  intros E [Hr Hrow Hw]. split; unfold load_map in *; by rewrite ?E.
Qed.

(** Steps from an open cell stay on the map. *)
Lemma open_inner W p : framed W → open W p → 1 ≤ px p < MAP_WIDTH - 1 ∧ 1 ≤ py p < MAP_HEIGHT - 1.
Proof.
  intros Hf [Hin Hop]. pose proof Hin as [Hx Hy]. assert (¬ on_border p) as Hb by (intros Hb; rewrite Hf in Hop; done).
  unfold on_border in Hb. lia.
Qed.

Lemma next_in_map W p d : framed W → open W p → in_map (getNextPoint p d) ∧ in_map (pacman_next p d).
Proof.
  intros Hf Hp. destruct (open_inner W p Hf Hp) as [Hx Hy]. unfold in_map, MAP_WIDTH, MAP_HEIGHT in *.
  destruct d; cbn; split; split; wrap_lia.
Qed.
End map.

Section rules.
Context (W : Point → bool) (HF : framed W).
Implicit Types (g : GameState) (gh : Ghost) (p next : Point).

(** What the parts of a step keep. *)
Lemma ok_ghosts_update g l :
  game_ok W g → Z.of_nat (length l) = NUM_GHOSTS → Forall (ghost_ok W) l → game_ok W (set_ghosts l g).
Proof. intros [Hm _ _ Hp] Hl Hall. split; [by apply (map_ok_same W g)|done|done|done]. Qed.

Lemma ok_pacman_update g v :
  game_ok W g → open W (p_position v) → open W (p_spawnPoint v) → game_ok W (set_pacman v g).
Proof. intros [Hm _ Hg _] H1 H2. split; [by apply (map_ok_same W g)|done|done|done]. Qed.

Lemma ok_score g v : game_ok W g → game_ok W (set_score v g).
Proof. intros [Hm _ Hg Hp]. split; [by apply (map_ok_same W g)|done|done|done]. Qed.

Lemma ok_lives g v : game_ok W g → game_ok W (set_lives v g).
Proof. intros [Hm _ Hg Hp]. split; [by apply (map_ok_same W g)|done|done|done]. Qed.

Lemma ok_store g p c :
  game_ok W g → open W p → c ≠ WALL →
  ∃ m, store_map p c g = Some (set_map m g) ∧ game_ok W (set_map m g) ∧
    ∀ q, in_map q → load_map q (set_map m g) = if bool_decide (q = p) then Some c else load_map q g.
Proof.
  intros [Hm _ Hg Hp] Ho Hc. destruct (store_ok W g p c Hm Ho Hc) as (m & Hs & Hm' & Hl).
  exists m. split_and!; [done| |done]. by split.
Qed.

Lemma ok_behaviour g bh : game_ok W g → game_ok W (changeGhostsBehaviour bh g).
Proof.
  intros Hok. pose proof (ok_ghosts _ _ Hok) as [Hl Hall]. apply ok_ghosts_update; [done| |].
  - by rewrite length_imap.
  - apply Forall_lookup. intros i gh. rewrite list_lookup_imap. intros (gh' & Hgh & ->)%fmap_Some.
    rewrite Forall_lookup in Hall. exact (Hall _ _ Hgh).
Qed.

Lemma ghost_lookup g i gh : game_ok W g → znth (ghosts g) i = Some gh → ghost_ok W gh.
Proof.
  intros Hok Hz. pose proof (ok_ghosts _ _ Hok) as [_ Hall]. pose proof (znth_Some_range _ _ _ Hz).
  rewrite Forall_lookup in Hall. apply (Hall (Z.to_nat i)). by rewrite <- znth_of_nat, Z2Nat.id by lia.
Qed.

Lemma ok_ghost_set g i gh : game_ok W g → 0 ≤ i < NUM_GHOSTS → ghost_ok W gh →
  zset (ghosts g) i gh = Some (<[Z.to_nat i := gh]> (ghosts g)) ∧
  game_ok W (set_ghosts (<[Z.to_nat i := gh]> (ghosts g)) g).
Proof.
  intros Hok Hi Hgh. pose proof (ok_ghosts _ _ Hok) as [Hl Hall].
  split; [apply zset_Some; lia|]. apply ok_ghosts_update; [done|by rewrite length_insert|by apply Forall_insert].
Qed.

Lemma pacman_moves_ok next g :
  game_ok W g → open W next → ∃ g', pacman_moves next g = Some g' ∧ game_ok W g'.
Proof.
  intros Hok Hn. unfold pacman_moves.
  destruct (ok_store g (p_position (pacman g)) SPACE Hok) as (m1 & -> & Hok1 & _); [apply Hok|done|].
  cbn [mbind option_bind]. set (g2 := set_pacman _ _).
  assert (game_ok W g2 ∧ p_position (pacman g2) = next) as [Hok2 Hpos].
  { split; [|done]. apply ok_pacman_update; [done|done|]. apply Hok1. }
  clearbody g2. destruct (load_in_map W g2 next (ok_map _ _ Hok2) (proj1 Hn)) as [c Hc].
  unfold isPellet, isBooster, is_char. rewrite Hc. cbn [mbind option_bind].
  assert (Hfin : ∀ g3, game_ok W g3 → p_position (pacman g3) = next →
    ∃ g', store_map (p_position (pacman g3)) char_C g3 = Some g' ∧ game_ok W g').
  { intros g3 Hok3 ->. destruct (ok_store g3 next char_C Hok3) as (m & -> & Hm & _); eauto. }
  destruct (c =? PELLET); [|destruct (c =? BOOSTER)]; cbn [mbind option_bind]; unfold removeItem.
  - destruct (ok_store (set_score (u32 (score g2 + PELLET_POINTS)) g2) next SPACE) as (m & -> & Hm & _);
      [by apply ok_score|done|done|]. cbn [mbind option_bind]. by apply Hfin.
  - destruct (ok_store (set_score (u32 (score g2 + BOOSTER_POINTS)) g2) next SPACE) as (m & -> & Hm & _);
      [by apply ok_score|done|done|]. cbn [mbind option_bind]. apply Hfin; [|done].
    apply ok_behaviour, ok_pacman_update; [done|by rewrite <- Hpos in Hn|]. apply Hok2.
  - by apply Hfin.
Qed.

Lemma lose_life_ok g : game_ok W g → game_ok W (lose_life g).
Proof.
  intros Hok. pose proof (ok_pacman _ _ Hok) as [_ Hs]. unfold lose_life. apply ok_behaviour.
  apply ok_pacman_update; [|done|done]. apply ok_pacman_update; [|done|done]. by apply ok_lives.
Qed.

Lemma collide_ok n i next g :
  game_ok W g → 0 ≤ i → i + Z.of_nat n ≤ NUM_GHOSTS → ∃ g', collide n i next g = Some g' ∧ game_ok W g'.
Proof.
  revert i g. induction n as [|n IH]; intros i g Hok Hi Hn; cbn [collide]; [by exists g|].
  pose proof (ok_ghosts _ _ Hok) as [Hl _]. destruct (znth_in_range (ghosts g) i) as [gh Hgh]; [lia|]. rewrite Hgh.
  cbn [mbind option_bind]. pose proof (ghost_lookup g i gh Hok Hgh) as (Ho & Hs & Ht).
  destruct (negb (p_isBoosted (pacman g) =? 0)).
  - destruct (_ && _); cbn [mbind option_bind]; [|apply IH; [done|lia..]].
    unfold eat_ghost.
    destruct (ok_ghost_set g i (with_g_life 0 RESPAWN_TIME (with_g_position (g_spawnPoint gh) gh)))
      as [-> Hok']; [done|lia|done|]. cbn [mbind option_bind]. apply IH; [by apply ok_score|lia..].
  - destruct (_ && _); [|apply IH; [done|lia..]]. exists (lose_life g). split; [done|]. by apply lose_life_ok.
Qed.

Lemma updatePacmanPosition_ok g :
  game_ok W g → ∃ g', updatePacmanPosition g = Some g' ∧ game_ok W g'.
Proof.
  intros Hok. unfold updatePacmanPosition. set (next := pacman_next _ _).
  destruct (next_in_map W (p_position (pacman g)) (p_direction (pacman g)) HF) as [_ Hin]; [apply Hok|]. fold next in Hin.
  rewrite (is_wall W) by (done || apply Hok). cbn [mbind option_bind].
  assert (∃ g1, (if negb (W next) then pacman_moves next g else Some g) = Some g1 ∧ game_ok W g1) as (g1 & -> & Hok1).
  { destruct (W next) eqn:E; cbn [negb]; [by exists g|]. by apply pacman_moves_ok. }
  cbn [mbind option_bind]. destruct (isGhost g1 next); [|by exists g1].
  apply collide_ok; [done|lia|]. unfold NUM_GHOSTS. lia.
Qed.

Lemma updateTimerState_ok e g : game_ok W g → game_ok W (updateTimerState e g).
Proof.
  intros Hok. unfold updateTimerState.
  assert (Hb : game_ok W (update_boost e g)).
  { unfold update_boost. destruct (negb _); [|done]. destruct (_ <=? 0); try apply ok_behaviour;
      repeat apply ok_pacman_update; try done; apply Hok. }
  assert (Hr : game_ok W (update_respawn e (update_boost e g))).
  { unfold update_respawn. destruct (_ =? 0); [|done]. destruct (_ <=? 0); try apply ok_behaviour;
      repeat apply ok_pacman_update; try done; apply Hb. }
  pose proof (ok_ghosts _ _ Hr) as [Hl Hall]. apply ok_ghosts_update; [done|by rewrite length_fmap|].
  apply Forall_fmap. eapply Forall_impl; [exact Hall|]. intros gh Hgh. cbn. unfold update_dead.
  by destruct (g_isAlive gh =? 0).
Qed.
End rules.

(** ** The draws of the ghosts *)

(** The direction a number of the generator stands for. *)
Definition draw (y : Z) : Direction :=
  let r := y mod 5 in
  if r =? 0 then UP else if r =? 1 then DOWN else if r =? 2 then LEFT else if r =? 3 then RIGHT else NONE.

Definition number (d : Direction) : Z :=
  match d with UP => 0 | DOWN => 1 | LEFT => 2 | RIGHT => 3 | NONE => 4 end.

(** A cell where a ghost may go. *)
Definition free (W : Point → bool) (g : GameState) (p : Point) : bool := negb (W p) && negb (isGhost g p).

Section draws.
Context (W : Point → bool) (HF : framed W).
Implicit Types (g : GameState) (p next initial : Point) (seed : Z).

Lemma random_run seed :
  is_u32 seed → ∃ y, rand seed = Some (y, y) ∧ is_u32 y ∧ random seed = Some (draw y, y).
Proof.
  intros Hs. eexists. rewrite (rand_exact seed Hs). set (y := (_ + _) mod MODULUS).
  assert (0 ≤ y < MODULUS) as Hy by (by apply Z.mod_pos_bound). unfold MODULUS in Hy.
  split; [done|]. split; [wrap_lia|]. unfold random, rand_range, mbind, M_bind. rewrite (rand_exact seed Hs). fold y.
  change (u32 (u32 (4 - 0) + 1)) with 5. cbn [Z.eqb mret M_ret].
  assert (u32 (0 + y mod 5) = y mod 5) as Hu by wrap_lia. unfold mret, M_ret, draw. by rewrite Hu.
Qed.

Lemma find_next_S f g initial next seed :
  game_ok W g → in_map next →
  find_next (S f) g initial next seed =
  if free W g next then Some (Some next, seed)
  else '(d, s) ← random seed; find_next f g initial (getNextPoint initial d) s.
Proof.
  intros Hok Hn. cbn [find_next]. unfold mbind at 1, M_bind, ask. rewrite (is_wall W) by (done || apply Hok).
  cbn [mbind option_bind]. unfold free. destruct (W next), (isGhost g next); cbn [orb andb negb]; try done;
    unfold mbind, M_bind, option_bind; by destruct (random seed) as [[]|].
Qed.

Lemma find_next_spec f g initial next seed :
  game_ok W g → open W initial → in_map next → is_u32 seed →
  wp (find_next f g initial next) (λ r s', is_u32 s' ∧
    match r with Some p => in_map p ∧ free W g p = true ∧ (p = next ∨ ∃ d, p = getNextPoint initial d) | None => True end) seed.
Proof.
  intros Hok Ho. revert next seed. induction f as [|f IH]; intros next seed Hn Hs; [done|].
  unfold wp. rewrite find_next_S by done. destruct (free W g next) eqn:E; [cbn; auto|].
  destruct (random_run seed Hs) as (y & _ & Hy & ->). cbn [mbind option_bind].
  eapply wp_mono; [apply IH; [by apply (next_in_map W)|done]|].
  intros [p|] s' [Hs' Hp]; [|done]. split; [done|]. destruct Hp as (? & ? & [->|?]); eauto.
Qed.

Lemma find_next_mono f f' g initial next seed p s :
  (f ≤ f')%nat → find_next f g initial next seed = Some (Some p, s) → find_next f' g initial next seed = Some (Some p, s).
Proof.
  revert f' next seed. induction f as [|f IH]; intros f' next seed Hf; [done|]. destruct f' as [|f']; [lia|].
  cbn [find_next]. unfold mbind at 1 3, M_bind, ask. destruct (isWall g next) as [w|]; [|done]. cbn [mbind option_bind].
  destruct (w || isGhost g next); [|done]. unfold mbind, M_bind. destruct (random seed) as [[d s1]|]; [|done].
  apply IH. lia.
Qed.

Lemma nth_rand_shift n seed : nth_rand (S n) seed = r ← rand seed; nth_rand n (r.1).
Proof.
  induction n as [|n IH]; [cbn; by destruct (rand seed)|].
  change (nth_rand (S (S n)) seed) with (s ← nth_rand (S n) seed; r ← rand s; Some (r.1)). rewrite IH.
  by destruct (rand seed).
Qed.

(** The loop ends if the ghost can go somewhere: the generator draws the way sooner or later. *)
Lemma find_next_ends g initial d next seed :
  game_ok W g → open W initial → in_map next → is_u32 seed → free W g (getNextPoint initial d) = true →
  ∃ f p s, find_next f g initial next seed = Some (Some p, s).
Proof.
  intros Hok Ho Hn Hs Hd.
  assert (∃ n, nth_rand (S n) seed = Some (number d)) as [n Hdraw].
  { destruct (rand_full_period seed (number d)) as (n & _ & Hnd & _); [done|by destruct d|by exists n]. }
  revert next seed Hn Hs Hdraw. induction n as [|n IH]; intros next seed Hn Hs Hdraw.
  - destruct (free W g next) eqn:E; [exists 1%nat, next, seed; by rewrite find_next_S, E|].
    destruct (random_run seed Hs) as (y & Hy & Hyu & Hr). rewrite nth_rand_shift, Hy in Hdraw. injection Hdraw as ->.
    assert (draw (number d) = d) as Hdd by (by destruct d). rewrite Hdd in Hr.
    exists 2%nat, (getNextPoint initial d), (number d). rewrite find_next_S, E, Hr by done. cbn [mbind option_bind].
    rewrite find_next_S by (done || by apply (next_in_map W)). by rewrite Hd.
  - destruct (free W g next) eqn:E; [exists 1%nat, next, seed; by rewrite find_next_S, E|].
    destruct (random_run seed Hs) as (y & Hy & Hyu & Hr). rewrite nth_rand_shift, Hy in Hdraw. cbn [mbind option_bind fst] in Hdraw.
    destruct (IH (getNextPoint initial (draw y)) y) as (f & p & s & Hf); [by apply (next_in_map W)|done|done|].
    exists (S f), p, s. rewrite find_next_S, E, Hr by done. done.
Qed.

(** And it does not if the ghost can go nowhere. *)
Lemma find_next_hangs f g initial d seed :
  game_ok W g → open W initial → is_u32 seed → (∀ d, free W g (getNextPoint initial d) = false) →
  ∃ s, find_next f g initial (getNextPoint initial d) seed = Some (None, s).
Proof.
  intros Hok Ho Hs Hall. revert d seed Hs. induction f as [|f IH]; intros d seed Hs; [by exists seed|].
  rewrite find_next_S by (done || by apply (next_in_map W)). rewrite Hall.
  destruct (random_run seed Hs) as (y & _ & Hy & ->). by apply IH.
Qed.
End draws.

(** ** The turn of the ghosts *)

(** Two cells that share a side. *)
Definition next_to (p q : Point) : Prop := Z.abs (px p - px q) + Z.abs (py p - py q) = 1.

(** The ghost [i] has no cell to go to. *)
Definition trapped (W : Point → bool) (g : GameState) (i : Z) : Prop :=
  ∃ gh, znth (ghosts g) i = Some gh ∧ g_isAlive gh ≠ 0 ∧ g_behaviour gh ≠ STILL ∧
    ∀ q, next_to (g_position gh) q → free W g q = false.

(** The ghost [i] goes one step to a cell without wall or ghost; the others stay. *)
Definition goes (W : Point → bool) (i : Z) (g g1 : GameState) : Prop :=
  ∃ gh q, znth (ghosts g) i = Some gh ∧ next_to (g_position gh) q ∧ free W g q = true ∧
    g_position <$> ghosts g1 = <[Z.to_nat i := q]> (g_position <$> ghosts g).

(** The turn of [n] ghosts from the [i]-th on: the dead ones are passed over, one
    that stands still ends the turn of all. *)
Inductive turn (W : Point → bool) : nat → Z → GameState → GameState → Prop :=
  | turn_end i g : turn W 0 i g g
  | turn_dead n i g g' gh : znth (ghosts g) i = Some gh → g_isAlive gh = 0 → turn W n (i + 1) g g' → turn W (S n) i g g'
  | turn_still n i g gh : znth (ghosts g) i = Some gh → g_isAlive gh ≠ 0 → g_behaviour gh = STILL → turn W (S n) i g g
  | turn_goes n i g g1 g' gh : znth (ghosts g) i = Some gh → g_isAlive gh ≠ 0 → g_behaviour gh ≠ STILL →
      goes W i g g1 → turn W n (i + 1) g1 g' → turn W (S n) i g g'.

Section turn.
Context (W : Point → bool) (HF : framed W).
Implicit Types (g : GameState) (p next initial : Point) (seed : Z) (gh : Ghost).

Lemma place_ghost_ok g i gh next :
  game_ok W g → znth (ghosts g) i = Some gh → open W next →
  ∃ g', place_ghost i gh next g = Some g' ∧ game_ok W g'.
Proof.
  intros Hok Hi Hn. pose proof (ghost_lookup W g i gh Hok Hi) as (Ho & Hsp & Ht). unfold place_ghost.
  destruct (ok_store W HF g (g_position gh) (g_tile gh) Hok Ho Ht) as (m1 & -> & Hok1 & _). cbn [mbind option_bind].
  destruct (load_in_map W _ next (ok_map _ _ Hok1) (proj1 Hn)) as [c Hc]. rewrite Hc.
  unfold isEmpty, isBooster, isPellet, is_char. rewrite Hc. cbn [mbind option_bind].
  assert (Hcw : c ≠ WALL).
  { intros ->. destruct Hn as [Hin HW]. pose proof (proj1 (mo_walls _ _ (ok_map _ _ Hok1) next WALL Hin Hc) eq_refl). congruence. }
  destruct (ok_store W HF _ next (ghost_char i) Hok1 Hn) as (m2 & -> & Hok2 & _).
  { unfold ghost_char, WALL. repeat case_match; lia. }
  cbn [mbind option_bind]. set (gh' := with_g_direction _ _).
  pose proof (znth_Some_range _ _ _ Hi). pose proof (ok_ghosts _ _ Hok) as [Hlen _].
  destruct (ok_ghost_set W HF _ i gh' Hok2) as [-> Hok3]; [lia| |eauto].
  split; [done|]. split; [done|]. cbn. unfold WALL, SPACE in *. by destruct (negb _ && _ && _).
Qed.

Lemma place_ghost_goes g i gh next g' : znth (ghosts g) i = Some gh → place_ghost i gh next g = Some g' →
  g_position <$> ghosts g' = <[Z.to_nat i := next]> (g_position <$> ghosts g).
Proof.
  intros Hi. assert (Hg : ∀ p c g1 g2, store_map p c g1 = Some g2 → ghosts g2 = ghosts g1).
  { intros p c g1 g2 E. unfold store_map in E. destruct (znth (map g1) (py p)) as [row|]; [|done]. cbn [mbind option_bind] in E.
    destruct (zset row (px p) c) as [row'|]; [|done]. cbn [mbind option_bind] in E. destruct (zset (map g1) (py p) row'); [|done]. by injection E as <-. }
  unfold place_ghost. destruct (store_map (g_position gh) (g_tile gh) g) as [g1|] eqn:E1; [|done]. cbn [mbind option_bind].
  destruct (load_map next g1) as [c|]; [|done]. cbn [mbind option_bind]. destruct (isEmpty g1 next); [|done]. cbn [mbind option_bind].
  destruct (isBooster g1 next); [|done]. cbn [mbind option_bind]. destruct (isPellet g1 next); [|done]. cbn [mbind option_bind].
  destruct (store_map next (ghost_char i) g1) as [g2|] eqn:E2; [|done]. cbn [mbind option_bind].
  rewrite (Hg _ _ _ _ E2), (Hg _ _ _ _ E1). rewrite zset_Some by (by eapply znth_Some_range). cbn [mbind option_bind]. intros [= <-].
  cbn [ghosts set_ghosts]. rewrite list_fmap_insert. done.
Qed.

Lemma valid_move g p : game_ok W g → in_map p → isValidMove g p = Some (negb (W p)).
Proof.
  intros Hok Hp. unfold isValidMove. rewrite (is_wall W) by (done || apply Hok). destruct Hp as [[_ Hx] [_ Hy]].
  apply Z.ltb_lt in Hx, Hy. by rewrite Hx, Hy.
Qed.

(** The turn of one ghost, once its loop has ended. *)
Lemma move_ghost_found fuel i gh g d s p s' seed :
  game_ok W g → znth (ghosts g) i = Some gh → random seed = Some (d, s) →
  find_next fuel g (g_position gh) (getNextPoint (g_position gh) d) s = Some (Some p, s') →
  in_map p → free W g p = true →
  ∃ g', place_ghost i gh p g = Some g' ∧ move_ghost fuel i gh g seed = Some (Some g', s') ∧ game_ok W g'.
Proof.
  intros Hok Hi Hr Hf Hin Hfree. apply andb_true_iff in Hfree as [HW _]. apply negb_true_iff in HW.
  destruct (place_ghost_ok g i gh p Hok Hi (conj Hin HW)) as (g' & Hg' & Hok'). exists g'. split; [done|]. split; [|done].
  unfold move_ghost, choose. unfold mbind, M_bind, ask in *.
  assert (Hc : match g_algorithm gh with RANDOM | _ => random end = random) by (by destruct (g_algorithm gh)).
  rewrite Hc, Hr, Hf, valid_move, HW by done. cbn [mbind option_bind negb]. by rewrite Hg'.
Qed.

Lemma move_ghost_none fuel i gh g d s s' seed :
  random seed = Some (d, s) →
  find_next fuel g (g_position gh) (getNextPoint (g_position gh) d) s = Some (None, s') →
  move_ghost fuel i gh g seed = Some (None, s').
Proof.
  intros Hr Hf. unfold move_ghost, choose, mbind, M_bind.
  assert (Hc : match g_algorithm gh with RANDOM | _ => random end = random) by (by destruct (g_algorithm gh)).
  by rewrite Hc, Hr, Hf.
Qed.

Lemma move_ghost_ok fuel i gh g seed :
  game_ok W g → znth (ghosts g) i = Some gh → is_u32 seed →
  wp (move_ghost fuel i gh g) (λ r s, is_u32 s ∧ match r with Some g' => game_ok W g' | None => True end) seed.
Proof.
  intros Hok Hi Hs. pose proof (ghost_lookup W g i gh Hok Hi) as (Ho & _).
  destruct (random_run seed Hs) as (y & _ & Hy & Hr).
  pose proof (find_next_spec W HF fuel g (g_position gh) (getNextPoint (g_position gh) (draw y)) y Hok Ho) as Hf.
  destruct (proj1 (wp_run _ _ _) (Hf (proj1 (next_in_map W _ _ HF Ho)) Hy)) as (r & s' & Hrun & Hs' & Hp).
  unfold wp. destruct r as [p|].
  - destruct Hp as (Hin & Hfree & _). destruct (move_ghost_found _ _ _ _ _ _ _ _ _ Hok Hi Hr Hrun Hin Hfree) as (g' & _ & -> & ?). done.
  - by rewrite (move_ghost_none _ _ _ _ _ _ _ _ Hr Hrun).
Qed.

(** The cells next to one are those that the directions lead to. *)
Lemma next_to_drawn p q : framed W → open W p → next_to p q → ∃ d, q = getNextPoint p d.
Proof.
  intros Hf Hp Hq. destruct (open_inner W p Hf Hp) as [Hx Hy]. unfold next_to, MAP_WIDTH, MAP_HEIGHT in *. destruct p as [x y], q as [x' y']; cbn in *.
  assert ((x' = x ∧ y' = y + 1) ∨ (x' = x ∧ y' = y - 1) ∨ (x' = x + 1 ∧ y' = y) ∨ (x' = x - 1 ∧ y' = y))
    as [[-> ->]|[[-> ->]|[[-> ->]|[-> ->]]]] by lia; [exists UP|exists DOWN|exists RIGHT|exists LEFT]; cbn; f_equal; symmetry; apply u32_small; wrap_lia.
Qed.

Lemma next_to_draws g i gh d : game_ok W g → znth (ghosts g) i = Some gh → free W g (getNextPoint (g_position gh) d) = true →
  next_to (g_position gh) (getNextPoint (g_position gh) d).
Proof.
  intros Hok Hi Hfree. pose proof (ghost_lookup W g i gh Hok Hi) as (Ho & _). destruct (open_inner W _ HF Ho) as [Hx Hy].
  unfold next_to, MAP_WIDTH, MAP_HEIGHT in *. destruct d; cbn [getNextPoint px py] in *; rewrite ?u32_small by wrap_lia; try lia.
  apply andb_true_iff in Hfree as [_ Hg%negb_true_iff]. apply not_true_iff_false in Hg. exfalso. apply Hg, existsb_exists.
  exists gh. split; [apply list_elem_of_In; unfold znth in Hi; destruct (i <? 0); [done|by eapply list_elem_of_lookup_2]|].
  unfold equalPoints. by rewrite !Z.eqb_refl.
Qed.

(** One ghost: its turn ends with enough fuel, or it is trapped and never does. *)
Lemma move_ghost_total i gh g seed :
  game_ok W g → znth (ghosts g) i = Some gh → is_u32 seed → g_isAlive gh ≠ 0 →
  (∃ f0 g' s, is_u32 s ∧ game_ok W g' ∧ goes W i g g' ∧
    ∀ f, move_ghost f i gh g seed = Some (Some g', s) ∨ (f < f0)%nat ∧ ∃ s', move_ghost f i gh g seed = Some (None, s')) ∨
  ((∀ q, next_to (g_position gh) q → free W g q = false) ∧ ∀ f, ∃ s, move_ghost f i gh g seed = Some (None, s)).
Proof.
  intros Hok Hi Hs Ha. pose proof (ghost_lookup W g i gh Hok Hi) as (Ho & _).
  destruct (random_run seed Hs) as (y & _ & Hy & Hr).
  destruct (existsb (λ d, free W g (getNextPoint (g_position gh) d)) [UP; DOWN; RIGHT; LEFT; NONE]) eqn:Hex.
  - apply existsb_exists in Hex as (d & _ & Hd). left. destruct (find_next_ends W HF g (g_position gh) d (getNextPoint (g_position gh) (draw y)) y) as (f0 & p & s & Hf);
      [done|done|by apply (next_in_map W)|done|done|].
    pose proof (find_next_spec W HF f0 g (g_position gh) (getNextPoint (g_position gh) (draw y)) y Hok Ho) as Hspec.
    specialize (Hspec (proj1 (next_in_map W _ _ HF Ho)) Hy). unfold wp in Hspec. rewrite Hf in Hspec.
    destruct Hspec as (Hs' & Hin & Hfree & Hway).
    destruct (move_ghost_found _ _ _ _ _ _ _ _ _ Hok Hi Hr Hf Hin Hfree) as (g' & Hg' & _ & Hok').
    exists f0, g', s. split_and!; [done|done| |].
    { assert (∃ d', p = getNextPoint (g_position gh) d') as [d' ->] by (destruct Hway as [->|?]; eauto).
      exists gh, (getNextPoint (g_position gh) d'). split; [done|]. split; [by apply (next_to_draws g i)|]. split; [done|]. by apply (place_ghost_goes g i gh). }
    intros f. assert (Hg : ∀ f, find_next f g (g_position gh) (getNextPoint (g_position gh) (draw y)) y = Some (Some p, s) →
      move_ghost f i gh g seed = Some (Some g', s)).
    { intros f' Hf'. destruct (move_ghost_found _ _ _ _ _ _ _ _ _ Hok Hi Hr Hf' Hin Hfree) as (g'' & Hg'' & Hmv & _). congruence. }
    destruct (decide (f0 ≤ f)%nat) as [Hle|Hlt]; [left; by eapply Hg, find_next_mono|].
    pose proof (find_next_spec W HF f g (g_position gh) (getNextPoint (g_position gh) (draw y)) y Hok Ho) as Hspec.
    destruct (proj1 (wp_run _ _ _) (Hspec (proj1 (next_in_map W _ _ HF Ho)) Hy)) as (r & s' & Hrun & _).
    destruct r as [p'|]; [left|right; split; [lia|]; exists s'; by eapply move_ghost_none].
    pose proof (find_next_mono f f0 _ _ _ _ _ _ ltac:(lia) Hrun) as E. rewrite Hf in E. injection E as <- <-. by apply Hg.
  - right.
    assert (∀ d, free W g (getNextPoint (g_position gh) d) = false) as Hall.
    { intros d. apply not_true_is_false. intros Hd. apply not_true_iff_false in Hex. apply Hex, existsb_exists.
      exists d. split; [destruct d; cbn; tauto|done]. }
    split; [intros q [d ->]%next_to_drawn; [apply Hall|done|done]|]. intros f.
    destruct (find_next_hangs W HF f g (g_position gh) (draw y) y Hok Ho Hy Hall) as [s Hf].
    exists s. by eapply move_ghost_none.
Qed.

Lemma ghosts_loop_ok fuel n i g seed :
  game_ok W g → 0 ≤ i → i + Z.of_nat n ≤ NUM_GHOSTS → is_u32 seed →
  wp (ghosts_loop fuel n i g) (λ r s, is_u32 s ∧ match r with Some g' => game_ok W g' | None => True end) seed.
Proof.
  revert i g seed. induction n as [|n IH]; intros i g seed Hok Hi Hn Hs; cbn [ghosts_loop]; [done|].
  pose proof (ok_ghosts _ _ Hok) as [Hlen _]. destruct (znth_in_range (ghosts g) i) as [gh Hgh]; [lia|].
  apply wp_bind. eapply wp_ask; [exact Hgh|]. destruct (g_isAlive gh =? 0); [apply IH; [done|lia|lia|done]|].
  assert (Hmove : wp (r ← move_ghost fuel i gh g; match r with None => mret None | Some g => ghosts_loop fuel n (i + 1) g end)
    (λ r s, is_u32 s ∧ match r with Some g' => game_ok W g' | None => True end) seed).
  { apply wp_bind. eapply wp_mono; [by apply move_ghost_ok|]. intros [g'|] s [Hs' Hok']; [|done].
    apply IH; [done|lia|lia|done]. }
  by destruct (g_behaviour gh).
Qed.

(** The head of the loop. *)
Lemma ghosts_loop_S f n i g gh seed : znth (ghosts g) i = Some gh → ghosts_loop f (S n) i g seed =
    if g_isAlive gh =? 0 then ghosts_loop f n (i + 1) g seed
    else if bool_decide (g_behaviour gh = STILL) then Some (Some g, seed)
    else match move_ghost f i gh g seed with
         | Some (Some g', s) => ghosts_loop f n (i + 1) g' s | Some (None, s) => Some (None, s) | None => None
         end.
Proof.
  intros Hgh. cbn [ghosts_loop]. unfold mbind, M_bind, ask. rewrite Hgh. cbn [mbind option_bind].
  destruct (g_isAlive gh =? 0); [done|]. by destruct (g_behaviour gh), (move_ghost f i gh g seed) as [[[]]|].
Qed.

(** A turn of the ghosts ends, or the turn comes to a ghost that is trapped, and it
    never does. *)
Lemma ghosts_loop_total n i g seed :
  game_ok W g → 0 ≤ i → i + Z.of_nat n ≤ NUM_GHOSTS → is_u32 seed →
  (∃ f0 g' s, game_ok W g' ∧ turn W n i g g' ∧ ∀ f, (f0 ≤ f)%nat → ghosts_loop f n i g seed = Some (Some g', s)) ∨
  (∃ f0 (j : nat) g' s, (j < n)%nat ∧ game_ok W g' ∧ trapped W g' (i + Z.of_nat j) ∧ turn W j i g g' ∧
     (∀ f, (f0 ≤ f)%nat → ghosts_loop f j i g seed = Some (Some g', s)) ∧ ∀ f, ∃ s, ghosts_loop f n i g seed = Some (None, s)).
Proof.
  revert i g seed. induction n as [|n IH]; intros i g seed Hok Hi Hn Hs.
  { left. exists 0%nat, g, seed. split; [done|]. split; [constructor|done]. }
  pose proof (ok_ghosts _ _ Hok) as [Hlen _]. destruct (znth_in_range (ghosts g) i) as [gh Hgh]; [lia|].
  assert (Hstep : ∀ f n, _) by (intros f n'; exact (ghosts_loop_S f n' i g gh seed Hgh)).
  destruct (Z.eqb_spec (g_isAlive gh) 0) as [Ha|Ha].
  { destruct (IH (i + 1) g seed) as [(f0 & g' & s & ? & Ht & Hf)|(f0 & j & g' & s & ? & ? & Htr & Ht & Hj & Hf)]; [done|lia|lia|done|left|right].
    - exists f0, g', s. split; [done|]. split; [by apply (turn_dead W n i g g' gh)|]. intros f Hle. rewrite Hstep. by apply Hf.
    - exists f0, (S j), g', s. split; [lia|]. split; [done|]. split; [by replace (i + Z.of_nat (S j)) with (i + 1 + Z.of_nat j) by lia|].
      split; [by apply (turn_dead W j i g g' gh)|]. split; [intros f Hle; rewrite Hstep; by apply Hj|]. intros f. rewrite Hstep. apply Hf. }
  destruct (decide (g_behaviour gh = STILL)) as [Hb|Hb].
  { left. exists 0%nat, g, seed. split; [done|]. split; [by apply (turn_still W n i g gh)|]. intros f _. by rewrite Hstep, bool_decide_true. }
  assert (bool_decide (g_behaviour gh = STILL) = false) as Hbd by by apply bool_decide_false. rewrite Hbd in Hstep.
  destruct (move_ghost_total i gh g seed Hok Hgh Hs Ha) as [(f1 & g1 & s1 & Hs1 & Hok1 & Hgo & Hf1)|[Hall Hf]].
  - destruct (IH (i + 1) g1 s1) as [(f0 & g' & s & ? & Ht & Hf)|(f0 & j & g' & s & ? & ? & Htr & Ht & Hj & Hf)]; [done|lia|lia|done|left|right].
    + exists (f0 `max` f1)%nat, g', s. split; [done|]. split; [by apply (turn_goes W n i g g1 g' gh)|]. intros f Hle. rewrite Hstep.
      destruct (Hf1 f) as [->|[? _]]; [|lia]. apply Hf. lia.
    + exists (f0 `max` f1)%nat, (S j), g', s. split; [lia|]. split; [done|]. split; [by replace (i + Z.of_nat (S j)) with (i + 1 + Z.of_nat j) by lia|].
      split; [by apply (turn_goes W j i g g1 g' gh)|]. split.
      * intros f Hle. rewrite Hstep. destruct (Hf1 f) as [->|[? _]]; [|lia]. apply Hj. lia.
      * intros f. rewrite Hstep. destruct (Hf1 f) as [->|(_ & s' & ->)]; [apply Hf|by exists s'].
  - right. exists 0%nat, 0%nat, g, seed. split; [lia|]. split; [done|]. split; [rewrite Z.add_0_r; by exists gh|]. split; [constructor|]. split; [done|].
    intros f. rewrite Hstep. destruct (Hf f) as [s ->]. by exists s.
Qed.
End turn.

(** ** The rounds *)

(** Where the walls of a level are. *)
Definition level_walls (lv : Z) (p : Point) : bool :=
  match (rows ← znth predefinedMaps lv; row ← znth rows (py p); znth row (px p)) with
  | Some c => c =? WALL
  | None => true
  end.

(** The arrays of a [GameState], whatever they hold. *)
Record game_shape (g : GameState) : Prop := {
  sh_map : length (map g) = 24%nat;
  sh_rows : Forall (λ row, length row = 81%nat) (map g);
  sh_ghosts : length (ghosts g) = 4%nat;
  sh_player : length (currentPlayer g) = 11%nat;
}.

Section round.
Implicit Types (g : GameState) (rows : list (list Z)).

Lemma strcpy_full t b : is_text t → length b = S (length t) → strcpy (cstr t) b = Some (cstr t).
Proof.
  intros Ht Hl. unfold cstr at 1. rewrite strcpy_text by (done || lia). f_equal. unfold overwrite. cbn [take app].
  rewrite drop_ge, app_nil_r; [done|]. unfold cstr. rewrite length_app. cbn. lia.
Qed.

Lemma copy_rows_run lv rows n g :
  znth predefinedMaps lv = Some rows → length rows = 24%nat →
  Forall (λ r, ∃ t, r = cstr t ∧ is_text t ∧ length t = 80%nat) rows →
  level g = lv → length (map g) = 24%nat → Forall (λ row, length row = 81%nat) (map g) → (n ≤ 24)%nat →
  take (24 - n) (map g) = take (24 - n) rows →
  copy_rows n (Z.of_nat (24 - n)) g = Some (set_map rows g).
Proof.
  intros Hlv Hr Hrows. revert g. induction n as [|n IH]; intros g Hg Hm Hml Hn Hpre; cbn [copy_rows].
  { rewrite !take_ge in Hpre by lia. f_equal. destruct g. cbn in *. unfold set_map. cbn. by rewrite Hpre. }
  rewrite Hg, Hlv. cbn [mbind option_bind]. rewrite !znth_of_nat.
  destruct (lookup_lt_is_Some_2 rows (24 - S n)) as [r Hrr]; [lia|].
  destruct (lookup_lt_is_Some_2 (map g) (24 - S n)) as [d Hd]; [lia|]. rewrite Hrr, Hd. cbn [mbind option_bind].
  destruct (proj1 (Forall_lookup _ _) Hrows _ _ Hrr) as (t & -> & Ht & Htl).
  rewrite strcpy_full; [|done|].
  2: { rewrite Htl. by apply (proj1 (Forall_lookup _ _) Hml _ _ Hd). }
  cbn [mbind option_bind]. rewrite zset_Some by lia. rewrite Nat2Z.id. cbn [mbind option_bind].
  assert (E : S (24 - S n) = (24 - n)%nat) by lia.
  assert (Hcl : length (cstr t) = 81%nat) by (unfold cstr; rewrite length_app, Htl; done).
  assert (Htake : take (24 - n) (<[(24 - S n)%nat := cstr t]> (map g)) = take (24 - n) rows).
  { rewrite <- E. rewrite (take_S_r _ _ (cstr t)) by (rewrite list_lookup_insert_eq by lia; done).
    rewrite take_insert_ge, Hpre by lia. symmetry. by apply take_S_r. }
  specialize (IH (set_map (<[(24 - S n)%nat := cstr t]> (map g)) g)).
  replace (Z.of_nat (24 - S n) + 1) with (Z.of_nat (24 - n)) by lia. rewrite IH.
  - done.
  - done.
  - cbn. by rewrite length_insert.
  - cbn. by apply Forall_insert.
  - lia.
  - exact Htake.
Qed.

Definition map_points : list Point :=
  seqZ 0 MAP_HEIGHT ≫= λ y, (λ x, mk_Point x y) <$> seqZ 0 MAP_WIDTH.

Lemma in_map_points p : in_map p → p ∈ map_points.
Proof.
  intros [Hx Hy]. apply list_elem_of_bind. exists (py p). split; [|by apply elem_of_seqZ].
  apply list_elem_of_fmap. exists (px p). split; [by destruct p|by apply elem_of_seqZ].
Qed.

Lemma level_framed lv : lv = 0 ∨ lv = 1 → framed (level_walls lv).
Proof.
  intros Hlv p Hp Hb. apply in_map_points in Hp.
  assert (Hall : forallb (λ p, negb ((px p =? 0) || (px p =? 79) || (py p =? 0) || (py p =? 23)) || level_walls lv p) map_points = true)
    by (destruct Hlv as [->| ->]; vm_compute; reflexivity).
  rewrite forallb_forall in Hall. apply list_elem_of_In in Hp. specialize (Hall p Hp).
  apply orb_true_iff in Hall as [Hn|]; [|done]. unfold on_border, MAP_WIDTH, MAP_HEIGHT in Hb. bool_to_prop. lia.
Qed.

Lemma level_rows lv : lv = 0 ∨ lv = 1 → ∃ rows, znth predefinedMaps lv = Some rows ∧ length rows = 24%nat ∧
  Forall (λ r, ∃ t, r = cstr t ∧ is_text t ∧ length t = 80%nat) rows.
Proof.
  assert (Hm : ∀ ss, length ss = 24%nat → forallb (λ s, forallb (λ c, negb (c =? 0)) (chars s) && (length (chars s) =? 80)%nat) ss = true →
    length ((λ s, cstr (chars s)) <$> ss) = 24%nat ∧
    Forall (λ r, ∃ t, r = cstr t ∧ is_text t ∧ length t = 80%nat) ((λ s, cstr (chars s)) <$> ss)).
  { intros ss Hl Hall. split; [by rewrite length_fmap|]. apply Forall_fmap, Forall_forall. intros s Hs%list_elem_of_In.
    rewrite forallb_forall in Hall. specialize (Hall s Hs). apply andb_true_iff in Hall as [Ht Hlen].
    exists (chars s). split; [done|]. split; [|by apply Nat.eqb_eq]. apply Forall_forall. intros c Hc%list_elem_of_In.
    rewrite forallb_forall in Ht. specialize (Ht c Hc). apply negb_true_iff, Z.eqb_neq in Ht. done. }
  intros [->| ->].
  - exists ((λ s, cstr (chars s)) <$> map_0). split; [done|]. by apply Hm; vm_compute.
  - exists ((λ s, cstr (chars s)) <$> map_1). split; [done|]. by apply Hm; vm_compute.
Qed.

Lemma level_open lv : lv = 0 ∨ lv = 1 →
  open (level_walls lv) (pacman_spawn lv) ∧ Forall (open (level_walls lv)) (ghost_spawns lv).
Proof.
  assert (Hb : ∀ W p, (0 <=? px p) && (px p <? 80) && (0 <=? py p) && (py p <? 24) && negb (W p) = true → open W p).
  { intros W p Hp. apply andb_true_iff in Hp as [Hp HW]. apply negb_true_iff in HW. split; [|done].
    unfold in_map, MAP_WIDTH, MAP_HEIGHT. bool_to_prop. lia. }
  intros [->| ->]; (split; [apply Hb; by vm_compute|]); repeat (apply Forall_cons; split; [apply Hb; by vm_compute|]); apply Forall_nil_2.
Qed.

(** A round starts in the invariant. *)
Lemma initializeRound_ok lv lvs sc player t g :
  game_shape g → lv = 0 ∨ lv = 1 → player = cstr t → is_text t → (length t ≤ 10)%nat →
  ∃ g', initializeRound lv lvs sc player g = Some g' ∧ game_ok (level_walls lv) g' ∧
    score g' = sc ∧ lives g' = lvs ∧ level g' = lv ∧ pelletsRemaining g' = pellets lv.
Proof.
  intros [Hm Hrows Hg Hpl] Hlv -> Ht Htl. destruct (level_rows lv Hlv) as (rows & Hz & Hl & Hr).
  destruct (level_open lv Hlv) as [Hps Hgs]. unfold initializeRound. cbv zeta.
  set (g0 := set_round sc lvs _ lv g). unfold cstr at 1. rewrite strcpy_text by (done || (cbn; lia)). cbn [mbind option_bind].
  set (g1 := set_round _ _ _ _ _). unfold initializeMap.
  assert (copy_rows (Z.to_nat MAP_HEIGHT) 0 g1 = Some (set_map rows g1)) as ->.
  { change 0 with (Z.of_nat (24 - 24)). by apply (copy_rows_run lv rows 24 g1). }
  cbn [mbind option_bind]. unfold initializePacman. change (level (set_map rows g1)) with lv.
  assert (map_ok (level_walls lv) (set_map rows g1)) as Hmo.
  { split.
    - cbn. by rewrite Hl.
    - intros y row Hrow. cbn in Hrow. pose proof (znth_Some_range _ _ _ Hrow).
      rewrite <- (Z2Nat.id y), znth_of_nat in Hrow by lia.
      destruct (proj1 (Forall_lookup _ _) Hr _ _ Hrow) as (t' & -> & _ & Hl'). unfold cstr. rewrite length_app, Hl'. done.
    - intros p c _ Hc. unfold level_walls. unfold load_map in Hc. cbn [map set_map] in Hc. rewrite Hz. cbn [mbind option_bind].
      unfold mbind in *. rewrite Hc. by rewrite Z.eqb_eq. }
  set (g2 := set_pacman _ (set_map rows g1)).
  destruct (store_ok (level_walls lv) g2 (pacman_spawn lv) char_C) as (m & -> & Hm3 & _);
    [by apply (map_ok_same (level_walls lv) (set_map rows g1))|done|done|]. cbn [mbind option_bind].
  unfold initializeGhosts. change (ghosts (set_map m g2)) with (ghosts g). change (level (set_map m g2)) with lv.
  destruct (ghosts g) as [|a [|b [|c [|d [|]]]]]; try discriminate.
  assert (∃ s0 s1 s2 s3, ghost_spawns lv = [s0; s1; s2; s3]) as (s0 & s1 & s2 & s3 & Es)
    by (destruct Hlv as [->| ->]; cbn; eauto 10).
  rewrite Es in Hgs |- *. cbn [ghosts_init Z.to_nat NUM_GHOSTS Pos.to_nat Pos.iter_op]. cbn.
  eexists. split; [done|]. split; [|done]. split.
  - by apply (map_ok_same (level_walls lv) (set_map m g2)).
  - by apply level_framed.
  - split; [done|]. rewrite !Forall_cons in Hgs. destruct Hgs as (H0 & H1 & H2 & H3 & _).
    repeat (apply Forall_cons; split); [done..|]. by apply Forall_nil.
  - done.
Qed.
End round.

(** ** The theorems *)

(** C30: the rules are safe.  From any state with walls all around, pacman and
    the ghosts in open cells (the invariant), one update of the game never
    leaves the map, whatever the direction asked for and the numbers drawn:
    every access is inside the arrays, walls are neither made nor eaten, and
    pacman and the ghosts are in open cells again.  Every round starts in such a
    state, with the walls of its level. *)
Theorem game_is_safe :
  (∀ W g seed fuel elapsedTime, game_ok W g → is_u32 seed →
     wp (updateGameState fuel elapsedTime g) (λ r s, is_u32 s ∧ match r with Some g' => game_ok W g' | None => True end) seed) ∧
  (∀ lv lvs sc t g, game_shape g → lv = 0 ∨ lv = 1 → is_text t → (length t ≤ 10)%nat →
     ∃ g', initializeRound lv lvs sc (cstr t) g = Some g' ∧ game_ok (level_walls lv) g').
Proof.
  split.
  - intros W g seed fuel e Hok Hs. pose proof (ok_framed _ _ Hok) as HF. unfold updateGameState.
    destruct (updatePacmanPosition_ok W HF g Hok) as (g1 & Hg1 & Hok1).
    apply wp_bind. eapply wp_ask; [exact Hg1|]. apply wp_bind.
    eapply wp_mono; [apply (ghosts_loop_ok W HF); [done|lia|unfold NUM_GHOSTS; lia|done]|].
    intros [g2|] s [Hs2 Hok2]; apply wp_ret; (split; [done|]); [|done]. by apply updateTimerState_ok.
  - intros lv lvs sc t g Hsh Hlv Ht Hl.
    destruct (initializeRound_ok lv lvs sc (cstr t) t g Hsh Hlv eq_refl Ht Hl) as (g' & Hg' & Hok & _). eauto.
Qed.

(** The turn of the ghosts comes to the ghost [i], which is trapped: those before it
    have had their turns, which lead from [g] to [g']. *)
Definition stuck (W : Point → bool) (g : GameState) (seed i : Z) (g' : GameState) : Prop :=
  0 ≤ i < NUM_GHOSTS ∧ game_ok W g' ∧ trapped W g' i ∧ turn W (Z.to_nat i) 0 g g' ∧
  ∃ fuel s, ∀ f, (fuel ≤ f)%nat → ghosts_loop f (Z.to_nat i) 0 g seed = Some (Some g', s).

(** The turn ends, or a ghost is stuck. *)
Lemma ghosts_turn_run (W : Point → bool) (g : GameState) (seed : Z) :
  game_ok W g → is_u32 seed →
  (∃ fuel g' s, game_ok W g' ∧ turn W (Z.to_nat NUM_GHOSTS) 0 g g' ∧
     ∀ f, (fuel ≤ f)%nat → updateGhostsPositions f g seed = Some (Some g', s)) ∨
  (∃ i g', stuck W g seed i g' ∧ ∀ fuel, ∃ s, updateGhostsPositions fuel g seed = Some (None, s)).
Proof.
  intros Hok Hs. destruct (ghosts_loop_total W (ok_framed _ _ Hok) 4 0 g seed Hok ltac:(lia) ltac:(done) Hs)
    as [(f & g' & s & Hok' & Ht & Hf)|(f0 & j & g' & s & Hj & Hok' & Htr & Ht & Hpre & Hf)]; [left|right].
  - exists f, g', s. split; [done|]. split; [exact Ht|exact Hf].
  - exists (Z.of_nat j), g'. split; [|exact Hf]. unfold stuck. rewrite Nat2Z.id. split; [unfold NUM_GHOSTS; lia|]. split; [done|].
    split; [exact Htr|]. split; [exact Ht|]. by exists f0, s.
Qed.

(** C32: the ghosts' turn.  Each living ghost, up to the first that stands still, at
    which the code returns, draws until its draw leads to a cell without wall or
    ghost, and goes there.  From a state in the invariant the turn ends, whatever the seed, with all the steps and the result
    the same for every fuel that is enough: the generator draws every direction.
    The one exception is that the turn comes, after the steps of the ghosts before
    it, to a ghost with walls or ghosts on all four sides, as between two ghosts in
    a corridor; then the loop never ends, whatever it draws. *)
Theorem ghosts_turn_ends (W : Point → bool) (g : GameState) (seed : Z) :
  game_ok W g → is_u32 seed →
  (∃ fuel g' s, game_ok W g' ∧ turn W (Z.to_nat NUM_GHOSTS) 0 g g' ∧
     ∀ f, (fuel ≤ f)%nat → updateGhostsPositions f g seed = Some (Some g', s)) ∨
  (∃ i g', stuck W g seed i g' ∧ ∀ fuel, ∃ s, updateGhostsPositions fuel g seed = Some (None, s)).
Proof. apply ghosts_turn_run. Qed.

(** ** Pacman's step *)

Definition hits (next : Point) (gh : Ghost) : bool := equalPoints (g_position gh) next && negb (g_isAlive gh =? 0).

Definition eaten (gh : Ghost) : Ghost := with_g_life 0 RESPAWN_TIME (with_g_position (g_spawnPoint gh) gh).

(** *** The reference *)

(** One cell in a direction. *)
Definition neighbour (p : Point) (d : Direction) : Point :=
  match d with
  | UP => mk_Point (px p) (py p - 1) | DOWN => mk_Point (px p) (py p + 1)
  | LEFT => mk_Point (px p - 1) (py p) | RIGHT => mk_Point (px p + 1) (py p)
  | NONE => p
  end.

(** What is worth points: a pellet [.], a booster [*]. *)
Definition worth (c : Z) : Z := if c =? 46 then 10 else if c =? 42 then 50 else 0.

(** Two ghosts that differ at most in mood and colour. *)
Record same_ghost (gh gh' : Ghost) : Prop := {
  sg_places : g_position gh' = g_position gh ∧ g_spawnPoint gh' = g_spawnPoint gh ∧ g_direction gh' = g_direction gh;
  sg_looks : g_skin gh' = g_skin gh ∧ g_tile gh' = g_tile gh ∧ g_bg_color gh' = g_bg_color gh;
  sg_life : g_isAlive gh' = g_isAlive gh ∧ g_deadTimer gh' = g_deadTimer gh ∧ g_algorithm gh' = g_algorithm gh;
}.

(** The ghosts [l] become [l'], which differ in the mood [b] and in the colours [cs]. *)
Definition become (b : Behaviour) (cs : list Z) (l l' : list Ghost) : Prop :=
  length l' = length l ∧ ∀ i gh c, l !! i = Some gh → cs !! i = Some c →
    ∃ gh', l' !! i = Some gh' ∧ same_ghost gh gh' ∧ g_behaviour gh' = b ∧ g_fg_color gh' = c.

Definition own_colors : list Z := [LIGHT_CYAN; LIGHT_MAGENTA; LIGHT_GREEN; RED].

(** The parts of the game that a step of pacman leaves alone. *)
Definition same_table (g g' : GameState) : Prop :=
  pelletsRemaining g' = pelletsRemaining g ∧ level g' = level g ∧ leaderboard g' = leaderboard g ∧
  leaderboardSize g' = leaderboardSize g ∧ currentPlayer g' = currentPlayer g.

Definition same_looks (p p' : Pacman) : Prop :=
  p_spawnPoint p' = p_spawnPoint p ∧ p_direction p' = p_direction p ∧ p_fg_color p' = p_fg_color p ∧
  p_bg_color p' = p_bg_color p ∧ p_skin p' = p_skin p.

(** Pacman enters the cell [next], in which it finds [c]. *)
Record enters (next : Point) (c : Z) (g g1 : GameState) : Prop := {
  en_pacman : same_looks (pacman g) (pacman g1) ∧ p_position (pacman g1) = next ∧
    p_isAlive (pacman g1) = p_isAlive (pacman g) ∧ p_respawnTimer (pacman g1) = p_respawnTimer (pacman g);
  en_boost : if c =? 42 then p_isBoosted (pacman g1) = 1 ∧ p_boostedTimer (pacman g1) = BOOSTED_TIME
    else p_isBoosted (pacman g1) = p_isBoosted (pacman g) ∧ p_boostedTimer (pacman g1) = p_boostedTimer (pacman g);
  en_ghosts : if c =? 42 then become RUN_AWAY [CYAN; CYAN; CYAN; CYAN] (ghosts g) (ghosts g1) else ghosts g1 = ghosts g;
  en_score : score g1 = u32 (score g + worth c) ∧ lives g1 = lives g ∧ same_table g g1;
  en_map : ∀ q, in_map q → load_map q g1 =
    if bool_decide (q = next) then Some 67 else if bool_decide (q = p_position (pacman g)) then Some 32 else load_map q g;
}.

(** A ghost eats pacman: a life less, pacman at its spawn point and dead until the timer
    ends, and the ghosts stand still in their own colours. *)
Record life_lost (g g' : GameState) : Prop := {
  ll_lives : lives g' = u32 (lives g - 1) ∧ score g' = score g ∧ same_table g g' ∧ map g' = map g;
  ll_pacman : same_looks (pacman g) (pacman g') ∧ p_position (pacman g') = p_spawnPoint (pacman g) ∧
    p_isAlive (pacman g') = 0 ∧ p_respawnTimer (pacman g') = RESPAWN_TIME ∧
    p_isBoosted (pacman g') = p_isBoosted (pacman g) ∧ p_boostedTimer (pacman g') = p_boostedTimer (pacman g);
  ll_ghosts : become STILL own_colors (ghosts g) (ghosts g');
}.

(** A ghost that is eaten: at its spawn point and dead until the timer ends. *)
Record ghost_lost (gh gh' : Ghost) : Prop := {
  gl_place : g_position gh' = g_spawnPoint gh ∧ g_spawnPoint gh' = g_spawnPoint gh ∧ g_direction gh' = g_direction gh;
  gl_life : g_isAlive gh' = 0 ∧ g_deadTimer gh' = RESPAWN_TIME ∧ g_algorithm gh' = g_algorithm gh ∧ g_behaviour gh' = g_behaviour gh;
  gl_looks : g_skin gh' = g_skin gh ∧ g_tile gh' = g_tile gh ∧ g_bg_color gh' = g_bg_color gh ∧ g_fg_color gh' = g_fg_color gh;
}.

(** Pacman with its boost eats the living ghosts in its cell, each for [GHOST_POINTS]. *)
Record feast (next : Point) (g g' : GameState) : Prop := {
  fe_ghosts : Forall2 (λ gh gh', if hits next gh then ghost_lost gh gh' else gh' = gh) (ghosts g) (ghosts g');
  fe_score : score g' = u32 (score g + GHOST_POINTS * Z.of_nat (length (filter (λ gh, hits next gh = true) (ghosts g))));
  fe_rest : pacman g' = pacman g ∧ lives g' = lives g ∧ same_table g g' ∧ map g' = map g;
}.

(** The collisions in the cell [next]. *)
Definition collides (next : Point) (g g' : GameState) : Prop :=
  if existsb (hits next) (ghosts g) then if p_isBoosted (pacman g) =? 0 then life_lost g g' else feast next g g' else g' = g.

Section step.
Context (W : Point → bool) (HF : framed W).
Implicit Types (g : GameState) (p q next : Point).

(** What a store leaves alone. *)
Lemma pacman_moves_spec next g c :
  game_ok W g → open W next → is_u32 (score g) →
  (if bool_decide (next = p_position (pacman g)) then Some SPACE else load_map next g) = Some c →
  ∃ g', pacman_moves next g = Some g' ∧
    pacman g' = (let p := with_position next (pacman g) in if c =? BOOSTER then with_boost 1 BOOSTED_TIME p else p) ∧
    score g' = u32 (score g + worth c) ∧ lives g' = lives g ∧ same_table g g' ∧
    ghosts g' = (if c =? BOOSTER then imap (ghost_mood RUN_AWAY) (ghosts g) else ghosts g) ∧
    ∀ q, in_map q → load_map q g' =
      if bool_decide (q = next) then Some char_C else if bool_decide (q = p_position (pacman g)) then Some SPACE else load_map q g.
Proof.
  intros Hok Hn Hsc Hc. unfold pacman_moves.
  destruct (ok_store W HF g (p_position (pacman g)) SPACE Hok) as (m1 & -> & Hok1 & Hl1); [apply Hok|done|].
  cbn [mbind option_bind]. set (g2 := set_pacman _ _).
  assert (game_ok W g2) as Hok2 by (apply ok_pacman_update; [done|done|done|]; apply Hok1).
  assert (Hl2 : ∀ q, in_map q → load_map q g2 = if bool_decide (q = p_position (pacman g)) then Some SPACE else load_map q g) by exact Hl1.
  pose proof (Hl2 next (proj1 Hn)) as Hc2. rewrite Hc in Hc2. clear Hc.
  unfold isPellet, isBooster, is_char. rewrite Hc2. cbn [mbind option_bind].
  assert (Hpc : p_position (pacman g2) = next) by done. unfold worth. change 46 with PELLET. change 42 with BOOSTER.
  destruct (Z.eqb_spec c PELLET) as [->|Hp].
  - unfold removeItem.
    destruct (ok_store W HF (set_score (u32 (score g2 + PELLET_POINTS)) g2) next SPACE) as (m & -> & Hok3 & Hl3);
      [by apply ok_score|done|done|]. cbn [mbind option_bind].
    destruct (ok_store W HF _ next char_C Hok3) as (m' & Hs4 & _ & Hl4); [done|done|].
    eexists. split; [exact Hs4|]. split_and!; [done..|]. intros q Hq. rewrite Hl4, Hl3 by done. case_bool_decide; [done|]. by apply Hl2.
  - destruct (Z.eqb_spec c BOOSTER) as [->|Hb]; cbn [mbind option_bind].
    + unfold removeItem.
      destruct (ok_store W HF (set_score (u32 (score g2 + BOOSTER_POINTS)) g2) next SPACE) as (m & -> & Hok3 & Hl3);
        [by apply ok_score|done|done|]. cbn [mbind option_bind]. set (g4 := changeGhostsBehaviour _ _).
      assert (game_ok W g4) as Hok4.
      { apply ok_behaviour; [done|]. apply ok_pacman_update; [done|done|exact (proj1 (ok_pacman _ _ Hok3))|apply Hok3]. }
      destruct (ok_store W HF g4 next char_C Hok4) as (m' & Hs4 & _ & Hl4); [done|done|].
      eexists. split; [exact Hs4|]. split_and!; [done..|]. intros q Hq. rewrite Hl4 by done. case_bool_decide; [done|].
      etransitivity; [exact (Hl3 q Hq)|]. rewrite bool_decide_false by done. by apply Hl2.
    + destruct (ok_store W HF g2 next char_C Hok2) as (m' & Hs4 & _ & Hl4); [done|done|].
      eexists. split; [exact Hs4|]. split_and!; [done| |done|done|done|].
      * cbn. rewrite Z.add_0_r. symmetry. by apply u32_small.
      * intros q Hq. rewrite Hl4 by done. case_bool_decide; [done|]. by apply Hl2.
Qed.

(** No ghost is on a wall. *)
Lemma wall_no_ghost g p : game_ok W g → W p = true → isGhost g p = false.
Proof.
  intros Hok Hp. apply not_true_is_false. intros (gh & Hin & E)%existsb_exists.
  pose proof (ok_ghosts _ _ Hok) as [_ Hall]. apply list_elem_of_In in Hin. rewrite Forall_forall in Hall.
  destruct (Hall gh Hin) as ([_ Ho] & _). apply andb_true_iff in E as [Ex Ey]. bool_to_prop.
  assert (g_position gh = p) as E by (destruct (g_position gh), p; cbn in *; congruence). congruence.
Qed.
End step.

(** The loop over the ghosts against the list. *)
Lemma collide_boosted n i next g :
  p_isBoosted (pacman g) ≠ 0 → (i + n = length (ghosts g))%nat → is_u32 (score g) →
  collide n (Z.of_nat i) next g =
  Some (set_score (u32 (score g + GHOST_POINTS * Z.of_nat (length (filter (λ gh, hits next gh = true) (drop i (ghosts g))))))
    (set_ghosts (take i (ghosts g) ++ ((λ gh, if hits next gh then eaten gh else gh) <$> drop i (ghosts g))) g)).
Proof.
  revert i g. induction n as [|n IH]; intros i g Hb Hn Hsc; cbn [collide].
  { rewrite drop_ge, take_ge by lia. cbn. rewrite app_nil_r, Z.add_0_r, u32_small by done. by destruct g. }
  destruct (lookup_lt_is_Some_2 (ghosts g) i) as [gh Hgh]; [lia|]. rewrite znth_of_nat, Hgh. cbn [mbind option_bind].
  assert (negb (p_isBoosted (pacman g) =? 0) = true) as Hbt by (apply negb_true_iff; lia). rewrite Hbt. fold (hits next gh).
  rewrite (drop_S _ _ _ Hgh). replace (Z.of_nat i + 1) with (Z.of_nat (S i)) by lia.
  destruct (hits next gh) eqn:Eh; cbn [mbind option_bind].
  - unfold eat_ghost. rewrite zset_Some by lia. rewrite Nat2Z.id. cbn [mbind option_bind]. rewrite IH; [|done|by cbn; rewrite length_insert; lia|].
    2: { cbn. apply u32_range. }
    f_equal. cbn [ghosts set_ghosts set_score score]. rewrite filter_cons, fmap_cons, Eh. rewrite decide_True by done.
    rewrite drop_insert_lt by lia. rewrite (take_S_r _ _ (eaten gh)) by (by rewrite list_lookup_insert_eq by (apply lookup_lt_Some in Hgh; lia)).
    rewrite take_insert_ge by lia. rewrite <- app_assoc. cbn [app length].
    unfold set_score, set_ghosts. cbn. f_equal. rewrite u32_add_l. f_equal. lia.
  - rewrite IH by (done || lia). rewrite filter_cons, fmap_cons, Eh. rewrite decide_False by done.
    rewrite (take_S_r _ _ gh) by done. by rewrite <- app_assoc.
Qed.

Lemma collide_mortal n i next g :
  p_isBoosted (pacman g) = 0 → (i + n = length (ghosts g))%nat →
  collide n (Z.of_nat i) next g = Some (if existsb (hits next) (drop i (ghosts g)) then lose_life g else g).
Proof.
  intros Hb. revert i. induction n as [|n IH]; intros i Hn; cbn [collide]; [by rewrite drop_ge by lia|].
  destruct (lookup_lt_is_Some_2 (ghosts g) i) as [gh Hgh]; [lia|]. rewrite znth_of_nat, Hgh. cbn [mbind option_bind].
  rewrite Hb. cbn [Z.eqb negb]. fold (hits next gh). rewrite (drop_S _ _ _ Hgh). cbn [existsb].
  destruct (hits next gh); [done|]. replace (Z.of_nat i + 1) with (Z.of_nat (S i)) by lia. apply IH. lia.
Qed.

(** The collisions in closed form: a boosted pacman eats every living ghost
    in its cell, which wakes at its spawn point after [RESPAWN_TIME]; without
    the boost a living ghost costs a life. *)
Definition after_collision (next : Point) (g : GameState) : GameState :=
  if p_isBoosted (pacman g) =? 0 then if existsb (hits next) (ghosts g) then lose_life g else g
  else
    set_score (u32 (score g + GHOST_POINTS * Z.of_nat (length (filter (λ gh, hits next gh = true) (ghosts g)))))
      (set_ghosts ((λ gh, if hits next gh then eaten gh else gh) <$> ghosts g) g).

Lemma after_collision_run next g :
  Z.of_nat (length (ghosts g)) = NUM_GHOSTS → is_u32 (score g) →
  (if isGhost g next then collide (Z.to_nat NUM_GHOSTS) 0 next g else Some g) = Some (after_collision next g).
Proof.
  intros Hl Hs. assert (length (ghosts g) = 4%nat) as Hl' by (unfold NUM_GHOSTS in Hl; lia).
  assert (Hrun : collide (Z.to_nat NUM_GHOSTS) 0 next g = Some (after_collision next g)).
  { unfold after_collision. change 0 with (Z.of_nat 0) at 1. destruct (Z.eqb_spec (p_isBoosted (pacman g)) 0).
    - by rewrite collide_mortal.
    - by rewrite collide_boosted. }
  destruct (isGhost g next) eqn:Eg; [exact Hrun|].
  assert (Hno : ∀ gh, gh ∈ ghosts g → hits next gh = false).
  { intros gh Hin. apply not_true_is_false. intros Hh. apply not_true_iff_false in Eg. apply Eg, existsb_exists.
    exists gh. split; [by apply list_elem_of_In|]. by apply andb_true_iff in Hh as [? _]. }
  unfold after_collision. destruct (_ =? 0).
  - assert (existsb (hits next) (ghosts g) = false) as ->; [|done]. apply not_true_is_false.
    intros (gh & Hin & Hh)%existsb_exists. rewrite Hno in Hh; [done|by apply list_elem_of_In].
  - assert (filter (λ gh, hits next gh = true) (ghosts g) = []) as ->.
    { destruct (filter _ _) as [|gh l] eqn:Ef; [done|].
      assert (gh ∈ filter (λ gh, hits next gh = true) (ghosts g)) as Hin by (rewrite Ef; by left).
      apply list_elem_of_filter in Hin as [Hh Hin]. by rewrite Hno in Hh. }
    assert ((λ gh, if hits next gh then eaten gh else gh) <$> ghosts g = ghosts g) as ->.
    { rewrite <- list_fmap_id. apply list_fmap_ext. intros i gh Hgh. by rewrite Hno by (by eapply list_elem_of_lookup_2). }
    cbn. rewrite Z.add_0_r, u32_small by done. by destruct g.
Qed.

(** The model of the rules against the reference. *)
Lemma pacman_next_neighbour W p d : framed W → open W p → pacman_next p d = neighbour p d.
Proof.
  intros HF [Hin HW]. assert (¬ on_border p) as Hb by (intros Hb; rewrite (HF p Hin Hb) in HW; done). destruct Hin as [Hx Hy].
  unfold on_border, MAP_WIDTH, MAP_HEIGHT in *. destruct d; cbn; try done; f_equal; apply u32_small; unfold is_u32; change (2 ^ 32) with 4294967296; lia.
Qed.

Lemma become_mood b cs l : (∀ i c, (i < length l)%nat → cs !! i = Some c → match b with RUN_AWAY => CYAN | CHASE | STILL => ghost_color (Z.of_nat i) end = c) →
  become b cs l (imap (ghost_mood b) l).
Proof.
  intros Hc. split; [apply length_imap|]. intros i gh c Hi Hci. exists (ghost_mood b i gh). rewrite list_lookup_imap, Hi.
  split; [done|]. split; [by repeat split|]. split; [done|]. apply Hc; [by eapply lookup_lt_Some|done].
Qed.

Lemma lose_life_lost g : life_lost g (lose_life g).
Proof.
  split; [by repeat split|by repeat split|]. apply (become_mood STILL own_colors (ghosts g)). intros i c _ Hc.
  do 4 (destruct i as [|i]; [by injection Hc as <-|]). done.
Qed.

Lemma after_collision_collides next g : is_u32 (score g) → collides next g (after_collision next g).
Proof.
  intros Hs. unfold collides, after_collision. destruct (existsb (hits next) (ghosts g)) eqn:E; destruct (p_isBoosted (pacman g) =? 0).
  - apply lose_life_lost.
  - split; [|done|by repeat split]. apply Forall2_fmap_r, Forall_Forall2_diag, Forall_forall. intros gh _. destruct (hits next gh) eqn:Eh; cbn; rewrite Eh; [by repeat split|done].
  - done.
  - assert (Hno : ∀ gh, gh ∈ ghosts g → hits next gh = false).
    { intros gh Hin. apply not_true_is_false. intros Hh. apply not_true_iff_false in E. apply E, existsb_exists. exists gh. by rewrite <- list_elem_of_In. }
    assert (filter (λ gh, hits next gh = true) (ghosts g) = []) as ->.
    { apply elem_of_nil_inv. intros gh [Hh Hin]%list_elem_of_filter. by rewrite Hno in Hh. }
    assert ((λ gh, if hits next gh then eaten gh else gh) <$> ghosts g = ghosts g) as ->.
    { rewrite <- list_fmap_id. apply list_fmap_ext. intros i gh Hgh. by rewrite Hno by (by eapply list_elem_of_lookup_2). }
    cbn. rewrite Z.add_0_r, u32_small by done. by destruct g.
Qed.

(** C31: the step of pacman.  Against a wall nothing changes.  Otherwise pacman goes
    to the next cell in its direction, leaves a space behind and is drawn there, and
    gets 10 points for a pellet, 50 for a booster and nothing else; the booster
    starts the timer and makes every ghost run away; nothing else of the game
    changes.  Then, if living ghosts are in the cell: without the boost pacman
    loses a life, goes to its spawn point and is dead for [RESPAWN_TIME], and the
    ghosts stand still; with it those ghosts go to their spawn points and are dead
    for [RESPAWN_TIME], and pacman gets [GHOST_POINTS] for each; nothing else
    changes. *)
Theorem pacman_step_correct (W : Point → bool) (g : GameState) :
  game_ok W g → is_u32 (score g) →
  let pos := p_position (pacman g) in
  let next := neighbour pos (p_direction (pacman g)) in
  ∃ g', updatePacmanPosition g = Some g' ∧
    if W next then g' = g
    else ∃ c g1, (if bool_decide (next = pos) then Some 32 else load_map next g) = Some c ∧ enters next c g g1 ∧ collides next g1 g'.
Proof.
  intros Hok Hs pos next. pose proof (ok_framed _ _ Hok) as HF. unfold updatePacmanPosition. fold pos.
  rewrite (pacman_next_neighbour W) by (done || apply Hok). fold next.
  destruct (next_in_map W pos (p_direction (pacman g)) HF) as [_ Hin]; [apply Hok|].
  rewrite (pacman_next_neighbour W) in Hin by (done || apply Hok). fold next in Hin.
  rewrite (is_wall W) by (done || apply Hok). cbn [mbind option_bind]. destruct (W next) eqn:HW; cbn [negb mbind option_bind].
  - exists g. rewrite (wall_no_ghost W g next Hok HW). done.
  - assert (is_Some (if bool_decide (next = pos) then Some SPACE else load_map next g)) as [c Hc].
    { case_bool_decide; [done|]. by apply (load_in_map W), Hin; apply Hok. }
    destruct (pacman_moves_spec W HF next g c Hok (conj Hin HW) Hs Hc) as (g1 & Hg1 & Hp & Hsc & Hlv & Htab & Hgh & Hmap).
    rewrite Hg1. cbn [mbind option_bind]. exists (after_collision next g1). split.
    + apply after_collision_run; [|rewrite Hsc; apply u32_range]. rewrite Hgh. case_match; rewrite ?length_imap; apply Hok.
    + exists c, g1. split; [exact Hc|]. split; [|apply after_collision_collides; rewrite Hsc; apply u32_range].
      change (c =? BOOSTER) with (c =? 42) in *. split; [rewrite Hp|rewrite Hp|rewrite Hgh|done|exact Hmap].
      * destruct (c =? 42); by repeat split.
      * by destruct (c =? 42).
      * destruct (c =? 42); [|done]. apply become_mood. intros i x _ Hx. do 4 (destruct i as [|i]; [by injection Hx as <-|]). done.
Qed.

(** ** Timers *)

Section timers.
Implicit Types (g : GameState) (gh : Ghost) (e t : Z).

(** The timers of pacman and of a ghost after one update. *)
Lemma tick_boost e g : p_isBoosted (pacman g) ≠ 0 →
  let t := u32 (p_boostedTimer (pacman g) - e) in
  p_boostedTimer (pacman (updateTimerState e g)) = t ∧
  p_isBoosted (pacman (updateTimerState e g)) = if t =? 0 then 0 else p_isBoosted (pacman g).
Proof.
  intros Hb t. unfold updateTimerState, update_respawn, update_boost. fold t.
  assert (negb (p_isBoosted (pacman g) =? 0) = true) as -> by (apply negb_true_iff; lia).
  pose proof (u32_range (p_boostedTimer (pacman g) - e)) as Hr. fold t in Hr. unfold is_u32 in Hr.
  assert ((t <=? 0) = (t =? 0)) as -> by (destruct (Z.leb_spec t 0), (Z.eqb_spec t 0); lia || done).
  destruct (t =? 0); cbn; repeat (case_match; cbn); done.
Qed.

Lemma tick_respawn e g : p_isAlive (pacman g) = 0 →
  let t := u32 (p_respawnTimer (pacman g) - e) in
  p_respawnTimer (pacman (updateTimerState e g)) = t ∧
  p_isAlive (pacman (updateTimerState e g)) = if t =? 0 then 1 else 0.
Proof.
  intros Hb t. unfold updateTimerState, update_respawn.
  assert (Hp : p_isAlive (pacman (update_boost e g)) = 0 ∧ p_respawnTimer (pacman (update_boost e g)) = p_respawnTimer (pacman g)).
  { unfold update_boost. repeat (case_match; cbn); done. }
  destruct Hp as [-> ->]. cbn [Z.eqb]. fold t.
  pose proof (u32_range (p_respawnTimer (pacman g) - e)) as Hr. fold t in Hr. unfold is_u32 in Hr.
  assert ((t <=? 0) = (t =? 0)) as -> by (destruct (Z.leb_spec t 0), (Z.eqb_spec t 0); lia || done).
  by destruct (t =? 0).
Qed.

Lemma tick_ghost e g i gh : ghosts g !! i = Some gh → g_isAlive gh = 0 →
  let t := u32 (g_deadTimer gh - e) in
  ∃ gh', ghosts (updateTimerState e g) !! i = Some gh' ∧ g_deadTimer gh' = t ∧ g_isAlive gh' = if t =? 0 then 1 else 0.
Proof.
  intros Hi Ha t.
  assert (Hmood : ∃ gh1, ghosts (update_respawn e (update_boost e g)) !! i = Some gh1 ∧
    g_isAlive gh1 = 0 ∧ g_deadTimer gh1 = g_deadTimer gh).
  { assert (Hm : ∀ l bh, (∃ gh1, l !! i = Some gh1 ∧ g_isAlive gh1 = 0 ∧ g_deadTimer gh1 = g_deadTimer gh) →
      ∃ gh1, imap (ghost_mood bh) l !! i = Some gh1 ∧ g_isAlive gh1 = 0 ∧ g_deadTimer gh1 = g_deadTimer gh).
    { intros l bh (gh1 & Hl & ?). exists (ghost_mood bh i gh1). by rewrite list_lookup_imap, Hl. }
    unfold update_respawn, update_boost. repeat (case_match; cbn); repeat apply Hm; by exists gh. }
  destruct Hmood as (gh1 & H1 & H2 & H3). exists (update_dead e gh1). unfold updateTimerState. cbn [ghosts set_ghosts].
  rewrite list_lookup_fmap, H1. split; [done|]. unfold update_dead. rewrite H2. cbn [Z.eqb]. rewrite H3. fold t.
  pose proof (u32_range (g_deadTimer gh - e)) as Hr. fold t in Hr. unfold is_u32 in Hr.
  assert ((t <=? 0) = (t =? 0)) as -> by (destruct (Z.leb_spec t 0), (Z.eqb_spec t 0); lia || done).
  split; [done|]. by destruct (t =? 0).
Qed.
End timers.

(** The countdown of a 32-bit timer [t] by [e] is at 0 after [n] updates. *)
Definition rings_at (e t : Z) (n : nat) : bool := u32 (t - Z.of_nat n * e) =? 0.

(** A flag and a timer that count down together: [on] holds while it runs. *)
Lemma countdown {A} (step : A → A) (flag timer : A → Z) (on off e : Z) (s : A) (n : nat) :
  (∀ s, flag s = on → timer (step s) = u32 (timer s - e) ∧ flag (step s) = if u32 (timer s - e) =? 0 then off else on) →
  flag s = on → (∀ m, (0 < m < n)%nat → rings_at e (timer s) m = false) →
  flag (Nat.iter n step s) = if (0 <? n)%nat && rings_at e (timer s) n then off else on.
Proof.
  intros Hstep Hon Hno. destruct n as [|n]; [done|].
  assert (Hrun : timer (Nat.iter (S n) step s) = u32 (timer s - Z.of_nat (S n) * e) ∧
    flag (Nat.iter (S n) step s) = if rings_at e (timer s) (S n) then off else on); [|exact (proj2 Hrun)].
  induction n as [|n IH].
  - destruct (Hstep s Hon) as [H1 H2]. unfold rings_at. replace (timer s - Z.of_nat 1 * e) with (timer s - e) by lia. done.
  - destruct IH as [It If]; [intros m Hm; apply Hno; lia|]. rewrite Hno in If by lia.
    destruct (Hstep _ If) as [H1 H2].
    assert (E : u32 (timer (Nat.iter (S n) step s) - e) = u32 (timer s - Z.of_nat (S (S n)) * e)).
    { rewrite It. replace (timer s - Z.of_nat (S (S n)) * e) with (timer s - Z.of_nat (S n) * e + - e) by lia.
      by rewrite <- (u32_add_l (timer s - Z.of_nat (S n) * e)). }
    change (Nat.iter (S (S n)) step s) with (step (Nat.iter (S n) step s)). unfold rings_at. rewrite <- E. done.
Qed.

(** The timers.  A timer of [t] runs out at the first update [n] with
    [n * e = t] modulo [2^32], and not before: then the boost is over, pacman
    lives again, the ghost comes back.  With the 100 of every frame that is the 50th
    update for the boost and the 30th for the two respawns; with a step that
    does not divide the time the unsigned timer jumps over 0 and the boost
    goes on. *)
Lemma timers_run_out (g : GameState) (e : Z) (n : nat) :
  let g' := Nat.iter n (updateTimerState e) g in
  (p_isBoosted (pacman g) ≠ 0 → (∀ m, (0 < m < n)%nat → rings_at e (p_boostedTimer (pacman g)) m = false) →
   p_isBoosted (pacman g') = if (0 <? n)%nat && rings_at e (p_boostedTimer (pacman g)) n then 0 else p_isBoosted (pacman g)) ∧
  (p_isAlive (pacman g) = 0 → (∀ m, (0 < m < n)%nat → rings_at e (p_respawnTimer (pacman g)) m = false) →
   p_isAlive (pacman g') = if (0 <? n)%nat && rings_at e (p_respawnTimer (pacman g)) n then 1 else 0) ∧
  (∀ i gh, ghosts g !! i = Some gh → g_isAlive gh = 0 → (∀ m, (0 < m < n)%nat → rings_at e (g_deadTimer gh) m = false) →
   ∃ gh', ghosts g' !! i = Some gh' ∧ g_isAlive gh' = if (0 <? n)%nat && rings_at e (g_deadTimer gh) n then 1 else 0) ∧
  rings_at 100 BOOSTED_TIME 50 = true ∧ rings_at 100 RESPAWN_TIME 30 = true.
Proof.
  intros g'. split_and!; [| | |done|done].
  - intros Hb Hno. apply (countdown (updateTimerState e) (λ g, p_isBoosted (pacman g)) (λ g, p_boostedTimer (pacman g))
      (p_isBoosted (pacman g)) 0 e g n); [|done|done].
    intros s Hs. rewrite <- Hs. apply tick_boost. by rewrite Hs.
  - intros Ha Hno. apply (countdown (updateTimerState e) (λ g, p_isAlive (pacman g)) (λ g, p_respawnTimer (pacman g))
      0 1 e g n); [|done|done]. intros s Hs. by apply tick_respawn.
  - intros i gh Hi Ha Hno.
    pose proof (countdown (updateTimerState e) (λ g, from_option g_isAlive 2 (ghosts g !! i))
      (λ g, from_option g_deadTimer 0 (ghosts g !! i)) 0 1 e g n) as Hc. cbn beta in Hc. rewrite Hi in Hc.
    cbn [from_option] in Hc.
    assert (Hf : from_option g_isAlive 2 (ghosts g' !! i) = if (0 <? n)%nat && rings_at e (g_deadTimer gh) n then 1 else 0).
    { apply Hc; [|done|done]. intros s Hs. destruct (ghosts s !! i) as [gh1|] eqn:E; [|done]. cbn in Hs.
      destruct (tick_ghost e s i gh1 E Hs) as (gh2 & -> & ? & ?). done. }
    destruct (ghosts g' !! i) as [gh'|] eqn:E; [|by destruct (_ && _)]. by exists gh'.
Qed.

(** ** Concrete rounds *)

Definition blank_ghost : Ghost := initial_ghost 0 (mk_Point 0 0).
Definition blank_game : GameState :=
  mk_GameState (mk_Pacman (mk_Point 0 0) (mk_Point 0 0) NONE 0 0 0 0 0 0 0) (replicate 4 blank_ghost) 0 0 0 0
    (replicate 24 (replicate 81 0)) (replicate 2 (mk_LeaderboardEntry (replicate 11 0) 0)) 0 (replicate 11 0).

Lemma blank_shape : game_shape blank_game.
Proof. split; [done| |done|done]. by apply Forall_replicate. Qed.

Lemma example_round : ∃ g, initializeRound 0 1 0 (cstr [112; 97; 99]) blank_game = Some g ∧ game_ok (level_walls 0) g ∧ score g = 0.
Proof.
  destruct (initializeRound_ok 0 1 0 (cstr [112; 97; 99]) [112; 97; 99] blank_game blank_shape) as (g & Hg & Hok & Hs & _);
    [by left|done|by repeat constructor|cbn; lia|]. eauto.
Qed.

Lemma game_is_safe_witness : ∃ g, game_ok (level_walls 0) g ∧
  wp (updateGameState 9 0 g) (λ r s, is_u32 s ∧ match r with Some g' => game_ok (level_walls 0) g' | None => True end) 322321.
Proof.
  destruct (proj2 game_is_safe 0 1 0 [112] blank_game blank_shape) as (g & _ & Hok);
    [by left|by repeat constructor|cbn; lia|].
  exists g. split; [exact Hok|]. apply (proj1 game_is_safe); [exact Hok|wrap_lia].
Defined.

Lemma timers_run_out_witness :
  p_isBoosted (pacman (Nat.iter 50 (updateTimerState 100) (set_pacman (with_boost 1 BOOSTED_TIME (pacman blank_game)) blank_game))) = 0.
Proof.
  destruct (timers_run_out (set_pacman (with_boost 1 BOOSTED_TIME (pacman blank_game)) blank_game) 100 50) as [Hb _].
  etransitivity; [apply Hb; [done|]|done].
  intros m Hm. cbn [pacman set_pacman with_boost p_boostedTimer]. unfold rings_at, BOOSTED_TIME. apply Z.eqb_neq. wrap_lia.
Defined.

Lemma ghosts_turn_ends_witness : ∃ g, game_ok (level_walls 0) g ∧
  ((∃ fuel g' s, turn (level_walls 0) 4 0 g g' ∧ ∀ f, (fuel ≤ f)%nat → updateGhostsPositions f g 322321 = Some (Some g', s)) ∨
   (∃ i g', stuck (level_walls 0) g 322321 i g')).
Proof.
  destruct example_round as (g & _ & Hok & _). exists g. split; [exact Hok|].
  destruct (ghosts_turn_ends (level_walls 0) g 322321 Hok) as [(fuel & g' & s & _ & Ht & Hf)|(i & g' & Hst & _)]; [wrap_lia|left|right].
  - exists fuel, g', s. split; [exact Ht|exact Hf].
  - exists i, g'. exact Hst.
Defined.

Lemma pacman_step_correct_witness : ∃ g g', game_ok (level_walls 0) g ∧ updatePacmanPosition g = Some g'.
Proof.
  destruct example_round as (g & _ & Hok & Hs).
  destruct (pacman_step_correct (level_walls 0) g Hok) as (g' & Hg' & _); [rewrite Hs; wrap_lia|].
  exists g, g'. exact (conj Hok Hg').
Defined.

(** A ghost between two ghosts, in the corridor at the left of the first level. *)
Definition corridor : GameState :=
  set_map (default [] (znth predefinedMaps 0))
    (set_ghosts [initial_ghost 0 (mk_Point 1 3); initial_ghost 1 (mk_Point 1 2); initial_ghost 2 (mk_Point 1 4);
                 initial_ghost 3 (mk_Point 1 7)] blank_game).

Example corridor_trapped : trapped (level_walls 0) corridor 0.
Proof.
  exists (initial_ghost 0 (mk_Point 1 3)). split; [done|]. split; [done|]. split; [done|]. intros [x y] Hq. unfold next_to in Hq. cbn in Hq.
  assert ((x = 1 ∧ y = 4) ∨ (x = 1 ∧ y = 2) ∨ (x = 2 ∧ y = 3) ∨ (x = 0 ∧ y = 3)) as [[-> ->]|[[-> ->]|[[-> ->]|[-> ->]]]] by lia; by vm_compute.
Qed.
