(* ===== verification/PathSearch.v ===== *)
(** * The path searches of the ghosts (pacman.c)

    Breadth-first, depth-first and Dijkstra searches over the map, with the
    priority queue of the last one.  The game calls none of them at present
    (the calls are commented out); they are modelled with the arrays they use.
    [visited] and [distances] are initialised; [previous] and the queues are
    not, and hold anything at first ([junk]). *)

From S2P Require Import Prelude CInt LibC Pacman.

#[local] Notation length := Datatypes.length.

(** The index of [a[p.y][p.x]] in an array of [MAP_HEIGHT] rows of [MAP_WIDTH]. *)
Definition cell_of (p : Point) : option Z :=
  if (0 <=? px p) && (px p <? MAP_WIDTH) && (0 <=? py p) && (py p <? MAP_HEIGHT)
  then Some (py p * MAP_WIDTH + px p) else None.

(** [visited[p.x][p.y]], the coordinates swapped: an element of the object
    while the flat index is inside it. *)
Definition swapped_cell (p : Point) : option Z :=
  let i := px p * MAP_WIDTH + py p in
  if (0 <=? i) && (i <? MAP_HEIGHT * MAP_WIDTH) then Some i else None.

Definition CAPACITY : Z := MAP_HEIGHT * MAP_WIDTH.
Definition INFINITY : Z := 2147483647.

(** The four cells next to one. *)
Definition moves (p : Point) : list Point :=
  [mk_Point (u32 (px p - 1)) (py p); mk_Point (u32 (px p + 1)) (py p);
   mk_Point (px p) (u32 (py p - 1)); mk_Point (px p) (u32 (py p + 1))].

(** The arrays of a search: the cells with [visited] set, the cells with
    [previous] assigned, and the cells stored in the queue or the stack. *)
Record search := mk_search { visited : gset Z; previous : gmap Z Point; cells : list Point }.

Definition load_previous (junk : Z → Point) (s : search) (p : Point) : option Point :=
  i ← cell_of p; Some (default (junk i) (previous s !! i)).

(** [while (previous[pos.y][pos.x] != start) pos = previous[pos.y][pos.x]] *)
Fixpoint backtrack (junk : Z → Point) (fuel : nat) (s : search) (start pos : Point) : option Point :=
  match fuel with
  | O => None
  | S f =>
      q ← load_previous junk s pos;
      if negb (px q =? px start) || negb (py q =? py start) then backtrack junk f s start q else Some pos
  end.

(** ** Breadth first *)

(** The body of the loop over [moves]. *)
Definition bfs_visit (g : GameState) (current : Point) (s : search) (next : Point) : option search :=
  v ← isValidMove g next;
  if (v : bool) then
    i ← cell_of next;
    if bool_decide (i ∈ visited s) then Some s
    else if Z.of_nat (length (cells s)) <? CAPACITY then
      Some (mk_search ({[i]} ∪ visited s) (<[i := current]> (previous s)) (cells s ++ [next]))
    else None
  else Some s.

Fixpoint visit_all (visit : search → Point → option search) (ps : list Point) (s : search) : option search :=
  match ps with
  | [] => Some s
  | p :: ps => s ← visit s p; visit_all visit ps s
  end.

Fixpoint bfs_loop (junk : Z → Point) (fuel : nat) (g : GameState) (start target : Point) (front : nat) (s : search) : option (Direction * search) :=
  match fuel with
  | O => None
  | S f =>
      if (front <? length (cells s))%nat then
        current ← cells s !! front;
        if equalPoints current target then
          pos ← backtrack junk (Z.to_nat CAPACITY) s start current;
          Some (determineDirection pos target, s)
        else
          s ← visit_all (bfs_visit g current) (moves current) s;
          bfs_loop junk f g start target (S front) s
      else Some (NONE, s)
  end.

(** The answer, and the arrays at the end. *)
Definition bfs (junk : Z → Point) (g : GameState) (start target : Point) : option (Direction * search) :=
  i ← cell_of start;
  bfs_loop junk (S (Z.to_nat CAPACITY)) g start target 0 (mk_search {[i]} ∅ [start]).

(** ** Depth first: the cells are a stack, its top last *)

Definition dfs_visit (g : GameState) (current : Point) (s : search) (next : Point) : option search :=
  v ← isValidMove g next;
  if (v : bool) then
    i ← swapped_cell next;
    if bool_decide (i ∈ visited s) then Some s
    else
      j ← cell_of next;
      if Z.of_nat (length (cells s)) <? CAPACITY then
        Some (mk_search ({[j]} ∪ visited s) (<[j := current]> (previous s)) (cells s ++ [next]))
      else None
  else Some s.

Fixpoint dfs_loop (junk : Z → Point) (fuel : nat) (g : GameState) (start target : Point) (s : search) : option Direction :=
  match fuel with
  | O => None
  | S f =>
      match rev (cells s) with
      | [] => Some NONE
      | current :: rest =>
          let s := mk_search (visited s) (previous s) (rev rest) in
          if equalPoints current target then
            pos ← backtrack junk (Z.to_nat CAPACITY) s start current;
            Some (determineDirection pos target)
          else
            s ← visit_all (dfs_visit g current) (moves current) s;
            dfs_loop junk f g start target s
      end
  end.

Definition dfs (junk : Z → Point) (fuel : nat) (g : GameState) (start target : Point) : option Direction :=
  i ← cell_of start; dfs_loop junk fuel g start target (mk_search {[i]} ∅ [start]).

(** ** Dijkstra *)

Record PriorityNode := mk_PriorityNode { n_position : Point; n_priority : Z }.

(** The queue is an array of [CAPACITY] nodes. *)
Definition enqueue (queue : list PriorityNode) (rear : Z) (position : Point) (priority : Z) : option (list PriorityNode * Z) :=
  q ← zset queue rear (mk_PriorityNode position priority); Some (q, rear + 1).

(** The loop that looks for the smallest priority, over [i .. rear - 1]. *)
Fixpoint min_index (n : nat) (queue : list PriorityNode) (i minIndex : Z) : option Z :=
  match n with
  | O => Some minIndex
  | S n =>
      a ← znth queue i;
      b ← znth queue minIndex;
      min_index n queue (i + 1) (if n_priority a <? n_priority b then i else minIndex)
  end.

(** [queue[i] = queue[i + 1]], [n] times. *)
Fixpoint shift_left (n : nat) (i : Z) (queue : list PriorityNode) : option (list PriorityNode) :=
  match n with
  | O => Some queue
  | S n => x ← znth queue (i + 1); q ← zset queue i x; shift_left n (i + 1) q
  end.

Definition dequeue (queue : list PriorityNode) (front rear : Z) : option (PriorityNode * list PriorityNode * Z) :=
  minIndex ← min_index (Z.to_nat (rear - (front + 1))) queue (front + 1) front;
  node ← znth queue minIndex;
  q ← shift_left (Z.to_nat (rear - 1 - minIndex)) minIndex queue;
  Some (node, q, front + 1).

Record dijkstra_state := mk_dijkstra_state {
  distances : gmap Z Z;
  d_previous : gmap Z Point;
  queue : list PriorityNode;
  front : Z;
  rear : Z;
}.

(** Every element of [distances] is [INFINITY] and every element of [previous]
    is [(-1, -1)] at first. *)
Definition load_distance (s : dijkstra_state) (p : Point) : option Z :=
  i ← cell_of p; Some (default INFINITY (distances s !! i)).
Definition load_d_previous (s : dijkstra_state) (p : Point) : option Point :=
  i ← cell_of p; Some (default (mk_Point (u32 (-1)) (u32 (-1))) (d_previous s !! i)).

Fixpoint d_backtrack (fuel : nat) (s : dijkstra_state) (start pos : Point) : option Point :=
  match fuel with
  | O => None
  | S f => q ← load_d_previous s pos; if equalPoints q start then Some pos else d_backtrack f s start q
  end.

Definition dijkstra_visit (g : GameState) (pos : Point) (s : dijkstra_state) (next : Point) : option dijkstra_state :=
  v ← isValidMove g next;
  if (v : bool) then
    dn ← load_distance s next;
    dp ← load_distance s pos;
    if s32 (dp + 1) <? dn then
      i ← cell_of next;
      r ← enqueue (queue s) (rear s) next (s32 (dp + 1));
      Some (mk_dijkstra_state (<[i := s32 (dp + 1)]> (distances s)) (<[i := pos]> (d_previous s)) r.1 (front s) r.2)
    else Some s
  else Some s.

Fixpoint dijkstra_visit_all (g : GameState) (pos : Point) (ps : list Point) (s : dijkstra_state) : option dijkstra_state :=
  match ps with
  | [] => Some s
  | p :: ps => s ← dijkstra_visit g pos s p; dijkstra_visit_all g pos ps s
  end.

Fixpoint dijkstra_loop (fuel : nat) (g : GameState) (start target : Point) (s : dijkstra_state) : option Direction :=
  match fuel with
  | O => None
  | S f =>
      if front s <? rear s then
        r ← dequeue (queue s) (front s) (rear s);
        let '(node, q, fr) := r in
        let s := mk_dijkstra_state (distances s) (d_previous s) q fr (rear s) in
        let pos := n_position node in
        if equalPoints pos target then
          pos ← d_backtrack (Z.to_nat CAPACITY) s start pos;
          Some (determineDirection start pos)
        else
          s ← dijkstra_visit_all g pos (moves pos) s;
          dijkstra_loop f g start target s
      else Some NONE
  end.

Definition dijkstra (junk : list PriorityNode) (fuel : nat) (g : GameState) (start target : Point) : option Direction :=
  i ← cell_of start;
  r ← enqueue junk 0 start 0;
  dijkstra_loop fuel g start target (mk_dijkstra_state {[i := 0]} ∅ r.1 0 r.2).

(** ** Breadth-first search is correct *)

(** The steps to an open cell one row or one column away. *)
Definition adj (W : Point → bool) (p q : Point) : Prop := next_to p q ∧ open W q.

Section bfs.
Context (W : Point → bool) (g : GameState) (Hok : map_ok W g) (HF : framed W).
Context (junk : Z → Point) (start target : Point).
Implicit Types (s : search) (p q pos next : Point) (n m : nat).

Lemma cell_of_in p : in_map p → cell_of p = Some (py p * MAP_WIDTH + px p).
Proof. intros [Hx Hy]. unfold cell_of, MAP_WIDTH, MAP_HEIGHT in *. case_match; [done|]. bool_to_prop. lia. Qed.

Lemma cell_of_inj p q : in_map p → in_map q → cell_of p = cell_of q → p = q.
Proof.
  intros Hp Hq. rewrite !cell_of_in by done. intros [= E]. destruct Hp as [??], Hq as [??], p, q.
  unfold MAP_WIDTH, MAP_HEIGHT in *. cbn in *. f_equal; lia.
Qed.

Lemma move_in_map p q : open W p → q ∈ moves p → in_map q.
Proof.
  intros Hp Hq. destruct (open_inner W p HF Hp) as [Hx Hy]. unfold moves in Hq. rewrite !elem_of_cons, elem_of_nil in Hq.
  unfold in_map, MAP_WIDTH, MAP_HEIGHT in *. destruct Hq as [->|[->|[->|[->|[]]]]]; cbn; split; wrap_lia.
Qed.

Lemma adj_moves p q : open W p → adj W p q ↔ q ∈ moves p ∧ open W q.
Proof.
  intros Hp. destruct (open_inner W p HF Hp) as [Hx Hy]. unfold adj, next_to, moves. rewrite !elem_of_cons, elem_of_nil.
  unfold MAP_WIDTH, MAP_HEIGHT in *. rewrite !u32_small by (unfold is_u32; change (2 ^ 32) with 4294967296; lia).
  destruct p as [x y], q as [x' y']; cbn in *. split; intros [Hd Ho]; (split; [|exact Ho]).
  - assert ((x' = x - 1 ∧ y' = y) ∨ (x' = x + 1 ∧ y' = y) ∨ (x' = x ∧ y' = y - 1) ∨ (x' = x ∧ y' = y + 1))
      as [[-> ->]|[[-> ->]|[[-> ->]|[-> ->]]]] by lia; tauto.
  - destruct Hd as [[= -> ->]|[[= -> ->]|[[= -> ->]|[[= -> ->]|[]]]]]; lia.
Qed.

(** The invariant of the queue, with the number of steps [ds] that lead from the
    start to each of its cells. *)
Record queue_ok (ds : list nat) (s : search) : Prop := {
  q_nodup : NoDup (cells s);
  q_open : ∀ p, p ∈ cells s → open W p;
  q_visited : ∀ p i, in_map p → cell_of p = Some i → (i ∈ visited s ↔ p ∈ cells s);
  q_head : cells s !! 0%nat = Some start;
  q_zero : ds !! 0%nat = Some 0%nat;
  q_length : length ds = length (cells s);
  q_sorted : ∀ i j d e, (i ≤ j)%nat → ds !! i = Some d → ds !! j = Some e → (d ≤ e)%nat;
  q_previous : ∀ n p, cells s !! S n = Some p →
    ∃ m q i d, (m ≤ n)%nat ∧ cells s !! m = Some q ∧ adj W q p ∧ cell_of p = Some i ∧ previous s !! i = Some q ∧
      ds !! m = Some d ∧ ds !! S n = Some (S d);
}.

(** The steps of the queue differ by one at most from [d]. *)
Definition within (d : nat) (ds : list nat) : Prop := ∀ i e, ds !! i = Some e → (e ≤ S d)%nat.

(** The first [front] cells have been expanded. *)
Definition expanded (front : nat) (ds : list nat) (s : search) : Prop :=
  ∀ n p q d, (n < front)%nat → cells s !! n = Some p → ds !! n = Some d → adj W p q →
    ∃ m e, cells s !! m = Some q ∧ ds !! m = Some e ∧ (e ≤ S d)%nat.

Lemma queue_bound ds s : queue_ok ds s → (length (cells s) ≤ 1920)%nat.
Proof.
  intros Hs. assert (length map_points = 1920%nat) as <- by reflexivity.
  apply submseteq_length, NoDup_submseteq; [apply Hs|]. intros p Hp. apply in_map_points, (q_open ds s Hs p Hp).
Qed.

(** A cell at the end of the queue, one step farther than the cell [n]. *)
Lemma queue_add ds s n d current next i :
  queue_ok ds s → cells s !! n = Some current → ds !! n = Some d → within d ds →
  adj W current next → cell_of next = Some i → next ∉ cells s →
  queue_ok (ds ++ [S d]) (mk_search ({[i]} ∪ visited s) (<[i := current]> (previous s)) (cells s ++ [next])).
Proof.
  intros Hs Hn Hd Hw Ha Hci Hnot. pose proof (q_length _ _ Hs) as Hlen. pose proof (lookup_lt_Some _ _ _ Hn) as Hlt.
  assert (Hin : in_map next) by apply Ha. split; cbn [visited previous cells].
  - apply NoDup_app. split; [apply Hs|]. split; [|apply NoDup_singleton].
    intros p Hp ->%list_elem_of_singleton. done.
  - intros p [Hp| ->%list_elem_of_singleton]%elem_of_app; [by apply Hs|apply Ha].
  - intros p j Hp Hj. rewrite elem_of_union, elem_of_singleton, elem_of_app, list_elem_of_singleton, (q_visited _ _ Hs p j Hp Hj).
    split; [intros [->|?]; [right; by apply cell_of_inj; [..|congruence]|by left]|intros [?| ->]; [by right|left; congruence]].
  - rewrite lookup_app_l by lia. apply Hs.
  - rewrite lookup_app_l by lia. apply Hs.
  - rewrite !length_app. cbn. lia.
  - intros a b x y Hab Hx Hy. rewrite lookup_snoc_Some in Hx, Hy.
    destruct Hx as [[Hxl Hx]|[-> <-]], Hy as [[Hyl Hy]|[-> <-]]; [by apply (q_sorted _ _ Hs a b)|by apply (Hw a)|lia|lia].
  - intros k p [[Hk Hp]|[Hk ->]]%lookup_snoc_Some.
    + destruct (q_previous _ _ Hs k p Hp) as (m & q & j & e & Hm & Hq & Haq & Hj & Hpq & He & HSe).
      exists m, q, j, e. rewrite !lookup_app_l by lia. split_and!; try done.
      rewrite lookup_insert_ne; [done|]. intros ->. apply Hnot.
      replace next with p; [by eapply list_elem_of_lookup_2|]. apply cell_of_inj; [|done|congruence].
      apply (q_open _ _ Hs). by eapply list_elem_of_lookup_2.
    + exists n, current, i, d. rewrite !lookup_app_l by lia. rewrite lookup_insert_eq.
      split_and!; [lia|done|done|done|done|done|]. rewrite lookup_app_r by lia.
      by replace (S k - length ds)%nat with 0%nat by lia.
Qed.

(** Expanding a cell towards one neighbour. *)
Lemma bfs_visit_ok ds s n d current next :
  queue_ok ds s → cells s !! n = Some current → ds !! n = Some d → within d ds → next ∈ moves current →
  ∃ s' ds', bfs_visit g current s next = Some s' ∧ queue_ok ds' s' ∧ within d ds' ∧
    (∃ l, cells s' = cells s ++ l) ∧ (∃ k, ds' = ds ++ k) ∧ (W next = false → next ∈ cells s').
Proof.
  intros Hs Hn Hd Hw Hmv. assert (Hop : open W current) by (apply (q_open _ _ Hs); by eapply list_elem_of_lookup_2).
  pose proof (move_in_map current next Hop Hmv) as Hin. unfold bfs_visit, isValidMove.
  rewrite (is_wall W) by done. pose proof Hin as [[_ Hx] [_ Hy]]. apply Z.ltb_lt in Hx, Hy. rewrite Hx, Hy.
  cbn [andb mbind option_bind].
  assert (Hsame : ∃ l k, cells s = cells s ++ l ∧ ds = ds ++ k) by (exists [], []; by rewrite !app_nil_r).
  destruct Hsame as (l0 & k0 & Hl0 & Hk0). destruct (W next) eqn:HW; cbn [negb].
  { exists s, ds. split_and!; [done|done|done|by exists l0|by exists k0|done]. }
  rewrite cell_of_in by done. cbn [mbind option_bind]. set (i := py next * MAP_WIDTH + px next).
  assert (Hci : cell_of next = Some i) by by apply cell_of_in.
  case_bool_decide as Hvis.
  { exists s, ds. split_and!; [done|done|done|by exists l0|by exists k0|]. intros _. by eapply (q_visited _ _ Hs). }
  assert (Hnot : next ∉ cells s) by (rewrite <- (q_visited _ _ Hs next i Hin Hci); done).
  assert (Ha : adj W current next) by (apply adj_moves; [done|by split]).
  pose proof (queue_add ds s n d current next i Hs Hn Hd Hw Ha Hci Hnot) as Hs'.
  pose proof (queue_bound _ _ Hs') as Hb. cbn [cells] in Hb. rewrite length_app in Hb. cbn in Hb.
  assert (Z.of_nat (length (cells s)) <? CAPACITY = true) as -> by (unfold CAPACITY, MAP_HEIGHT, MAP_WIDTH; lia).
  eexists _, (ds ++ [S d]). split; [done|]. split; [exact Hs'|]. split.
  { intros j e [[_ He]|[_ <-]]%lookup_snoc_Some; [by apply (Hw j)|lia]. }
  split; [by exists [next]|]. split; [by exists [S d]|]. intros _. cbn [cells]. apply elem_of_app. right. by left.
Qed.

Lemma visit_all_ok ds s n d current ps :
  queue_ok ds s → cells s !! n = Some current → ds !! n = Some d → within d ds → (∀ p, p ∈ ps → p ∈ moves current) →
  ∃ s' ds', visit_all (bfs_visit g current) ps s = Some s' ∧ queue_ok ds' s' ∧ within d ds' ∧
    (∃ l, cells s' = cells s ++ l) ∧ (∃ k, ds' = ds ++ k) ∧ (∀ p, p ∈ ps → W p = false → p ∈ cells s').
Proof.
  revert ds s. induction ps as [|p ps IH]; intros ds s Hs Hn Hd Hw Hps; cbn [visit_all].
  { exists s, ds. split_and!; [done|done|done|exists []; by rewrite app_nil_r|exists []; by rewrite app_nil_r|]. by intros p ?%elem_of_nil. }
  destruct (bfs_visit_ok ds s n d current p Hs Hn Hd Hw) as (s1 & ds1 & -> & Hs1 & Hw1 & [l1 Hl1] & [k1 Hk1] & Hp); [apply Hps; by left|].
  cbn [mbind option_bind]. destruct (IH ds1 s1) as (s' & ds' & -> & Hs' & Hw' & [l2 Hl2] & [k2 Hk2] & Hall); [done| | |done| |].
  - rewrite Hl1. by apply lookup_app_l_Some.
  - rewrite Hk1. by apply lookup_app_l_Some.
  - intros q Hq. apply Hps. by right.
  - exists s', ds'. split_and!; [done|done|done| | |].
    + exists (l1 ++ l2). by rewrite Hl2, Hl1, app_assoc.
    + exists (k1 ++ k2). by rewrite Hk2, Hk1, app_assoc.
    + intros q [->|Hq]%elem_of_cons HWq; [|by apply Hall]. rewrite Hl2. apply elem_of_app. left. by apply Hp.
Qed.

(** The way back ends at the cell after the start, on a way of as many steps as
    the queue says. *)
Lemma backtrack_ok ds s n d pos fuel :
  queue_ok ds s → cells s !! S n = Some pos → ds !! S n = Some (S d) → (n < fuel)%nat →
  ∃ first, backtrack junk fuel s start pos = Some first ∧ adj W start first ∧ nsteps (adj W) d first pos.
Proof.
  intros Hs. revert pos d fuel. induction n as [n IH] using lt_wf_ind; intros pos d fuel Hpos Hd Hf.
  destruct fuel as [|fuel]; [lia|]. cbn [backtrack]. unfold load_previous.
  destruct (q_previous _ _ Hs n pos Hpos) as (m & q & i & d' & Hm & Hq & Ha & -> & Hp & Hdm & HdS).
  cbn [mbind option_bind]. rewrite Hp. cbn [default from_option]. unfold id.
  rewrite Hd in HdS. injection HdS as <-. pose proof (q_head _ _ Hs) as Hh. pose proof (q_zero _ _ Hs) as Hz.
  destruct (decide (q = start)) as [->|Hne].
  - assert (m = 0%nat) as -> by (by apply (NoDup_lookup _ _ _ _ (q_nodup _ _ Hs) Hq)).
    rewrite Hz in Hdm. injection Hdm as <-. rewrite !Z.eqb_refl. cbn [negb orb]. exists pos. split_and!; [done|done|constructor].
  - assert (negb (px q =? px start) || negb (py q =? py start) = true) as ->.
    { apply orb_true_iff. rewrite !negb_true_iff, !Z.eqb_neq. destruct (decide (px q = px start)) as [Ex|]; [|by left].
      right. intros Ey. apply Hne. destruct q, start; cbn in *; congruence. }
    destruct m as [|m]; [rewrite Hh in Hq; congruence|].
    destruct (q_previous _ _ Hs m q Hq) as (_ & _ & _ & e & _ & _ & _ & _ & _ & _ & He).
    rewrite Hdm in He. injection He as ->.
    destruct (IH m ltac:(lia) q e fuel Hq Hdm ltac:(lia)) as (first & -> & Hadj & Hr). exists first.
    split_and!; [done|done|]. by eapply nsteps_r.
Qed.

(** A cell [k] steps away is in the queue, at [k] steps at most, as soon as the cells
    closer than that have been expanded. *)
Lemma queue_shortest ds s front p k :
  queue_ok ds s → expanded front ds s → (front = length (cells s) ∨ ∃ d, ds !! front = Some d ∧ (k ≤ d)%nat) →
  nsteps (adj W) k start p → ∃ j e, cells s !! j = Some p ∧ ds !! j = Some e ∧ (e ≤ k)%nat.
Proof.
  intros Hs He. revert p. induction k as [|k IH]; intros p Hk Hp.
  { inversion Hp; subst. exists 0%nat, 0%nat. split_and!; [apply (q_head _ _ Hs)|apply (q_zero _ _ Hs)|lia]. }
  apply nsteps_inv_r in Hp as (q & Hq & Ha). destruct (IH q) as (j & e & Hj & Hje & Hle); [|exact Hq|].
  { destruct Hk as [?|(d & ? & ?)]; [by left|right; exists d; split; [done|lia]]. }
  destruct (He j q p e) as (m & e' & ? & ? & ?); [|done|done|done|exists m, e'; split_and!; [done|done|lia]].
  destruct Hk as [->|(d & Hd & Hkd)]; [by eapply lookup_lt_Some|].
  apply Nat.nle_gt. intros Hle'. pose proof (q_sorted _ _ Hs front j d e Hle' Hd Hje). lia.
Qed.

(** What the search answers: [NONE] or a direction computed from the first cell of a
    way that is no longer than any other. *)
Definition answered (d : Direction) : Prop :=
  ((∀ k, ¬ nsteps (adj W) k start target) ∧ d = NONE) ∨
  (∃ first n, adj W start first ∧ nsteps (adj W) n first target ∧
     (∀ k, nsteps (adj W) k start target → (S n ≤ k)%nat) ∧ d = determineDirection first target).

Lemma bfs_loop_ok fuel front ds s :
  queue_ok ds s → expanded front ds s → (∀ d, ds !! front = Some d → within d ds) →
  target ∉ take front (cells s) → start ≠ target → (front ≤ length (cells s))%nat → (1920 < fuel + front)%nat →
  ∃ d s', bfs_loop junk fuel g start target front s = Some (d, s') ∧ NoDup (cells s') ∧ answered d.
Proof.
  revert front ds s. induction fuel as [|fuel IH]; intros front ds s Hs He Hw Ht Hne Hfr Hfuel.
  { pose proof (queue_bound _ _ Hs). lia. }
  pose proof (q_length _ _ Hs) as Hlen. cbn [bfs_loop]. destruct (Nat.ltb_spec front (length (cells s))) as [Hlt|Hge].
  - destruct (lookup_lt_is_Some_2 _ _ Hlt) as [current Hc]. rewrite Hc. cbn [mbind option_bind].
    destruct (lookup_lt_is_Some_2 ds front) as [d Hd]; [lia|].
    destruct (decide (current = target)) as [->|Hct].
    + assert (equalPoints target target = true) as -> by (unfold equalPoints; by rewrite !Z.eqb_refl).
      destruct front as [|front]; [rewrite (q_head _ _ Hs) in Hc; congruence|].
      destruct (q_previous _ _ Hs front target Hc) as (_ & _ & _ & n & _ & _ & _ & _ & _ & _ & HdS).
      rewrite Hd in HdS. injection HdS as ->.
      destruct (backtrack_ok ds s front n target (Z.to_nat CAPACITY) Hs Hc Hd) as (first & -> & Ha & Hr).
      { pose proof (queue_bound _ _ Hs). unfold CAPACITY, MAP_HEIGHT, MAP_WIDTH. lia. }
      cbn [mbind option_bind]. eexists _, s. split; [done|]. split; [apply Hs|]. right. exists first, n.
      split_and!; [done|done| |done]. intros k Hk. apply Nat.nlt_ge. intros Hlt'.
      destruct (queue_shortest ds s (S front) target k Hs He) as (j & e & Hj & Hje & Hle); [right; exists (S n); split; [done|lia]|done|].
      assert (j = S front) as -> by (by apply (NoDup_lookup _ _ _ _ (q_nodup _ _ Hs) Hj)). rewrite Hd in Hje. injection Hje as <-. lia.
    + assert (equalPoints current target = false) as ->.
      { apply not_true_is_false. intros E. apply andb_true_iff in E as [Ex Ey]. bool_to_prop. apply Hct.
        destruct current, target; cbn in *; congruence. }
      destruct (visit_all_ok ds s front d current (moves current) Hs Hc Hd (Hw d Hd)) as (s' & ds' & -> & Hs' & Hw' & [l Hl] & [k Hk] & Hall); [done|].
      cbn [mbind option_bind]. pose proof (q_length _ _ Hs') as Hlen'.
      assert (Hcur : open W current) by (apply (q_open _ _ Hs); by eapply list_elem_of_lookup_2).
      assert (Hd' : ds' !! front = Some d) by (rewrite Hk; by apply lookup_app_l_Some).
      apply (IH (S front) ds'); [done| | | |done| |lia].
      * intros n p q e Hn Hp Hne' Ha. rewrite Hl, lookup_app_l in Hp by lia. rewrite Hk, lookup_app_l in Hne' by lia.
        destruct (decide (n = front)) as [->|Hnf].
        -- rewrite Hc in Hp. injection Hp as <-. rewrite Hd in Hne'. injection Hne' as <-.
           apply adj_moves in Ha as [Hmv [_ HW]]; [|done]. specialize (Hall q Hmv HW).
           apply list_elem_of_lookup in Hall as [m Hm]. pose proof (lookup_lt_Some _ _ _ Hm).
           destruct (lookup_lt_is_Some_2 ds' m) as [e He']; [lia|]. exists m, e. split_and!; [done|done|by apply (Hw' m)].
        -- destruct (He n p q e) as (m & e' & Hm & Hme & ?); [lia|done|done|done|]. exists m, e'. rewrite Hl, Hk.
           split_and!; [by apply lookup_app_l_Some|by apply lookup_app_l_Some|done].
      * intros e He' i x Hi. specialize (Hw' i x Hi). pose proof (q_sorted _ _ Hs' front (S front) d e ltac:(lia) Hd' He'). lia.
      * rewrite Hl, take_app_le, (take_S_r _ _ _ Hc) by lia. rewrite elem_of_app, list_elem_of_singleton.
        intros [?|?]; [done|congruence].
      * rewrite Hl, length_app. lia.
  - exists NONE, s. split; [done|]. split; [apply Hs|]. left. split; [|done]. intros k Hk.
    destruct (queue_shortest ds s front target k Hs He) as (j & e & Hj & _ & _); [left; lia|done|].
    apply Ht. rewrite take_ge by lia. by eapply list_elem_of_lookup_2.
Qed.
End bfs.

(** C33: the breadth-first search.  Between two different open cells it ends
    without leaving its arrays, whatever the uninitialised ones hold, and each cell
    enters the queue at most once.  It answers [NONE] if no way leads to the
    target; otherwise it takes the first cell of a shortest way, but returns the
    direction from that cell to the target, not the one from the start to the cell. *)
Theorem bfs_correct (W : Point → bool) (g : GameState) (junk : Z → Point) (start target : Point) :
  map_ok W g → framed W → open W start → start ≠ target →
  ∃ d s, bfs junk g start target = Some (d, s) ∧ NoDup (cells s) ∧
    (((∀ k, ¬ nsteps (adj W) k start target) ∧ d = NONE) ∨
     (∃ first n, adj W start first ∧ nsteps (adj W) n first target ∧
        (∀ k, nsteps (adj W) k start target → (S n ≤ k)%nat) ∧ d = determineDirection first target)).
Proof.
  intros Hok HF Hst Hne. unfold bfs. pose proof (cell_of_in start (proj1 Hst)) as Hc. rewrite Hc. cbn [mbind option_bind].
  apply (bfs_loop_ok W g Hok HF junk start target _ 0 [0%nat]).
  - split; cbn [cells visited previous].
    + apply NoDup_singleton.
    + by intros p ->%list_elem_of_singleton.
    + intros p i Hp Hi. rewrite elem_of_singleton, list_elem_of_singleton. split; [|congruence].
      intros ->. apply cell_of_inj; [done|apply Hst|congruence].
    + done.
    + done.
    + done.
    + intros i j d e _ [-> <-]%list_lookup_singleton_Some [-> <-]%list_lookup_singleton_Some. done.
    + intros n p Hp. by rewrite lookup_ge_None_2 in Hp by (cbn; lia).
  - intros n p q d ?. lia.
  - intros d [_ <-]%list_lookup_singleton_Some i e [_ <-]%list_lookup_singleton_Some. lia.
  - rewrite take_0. apply not_elem_of_nil.
  - done.
  - cbn. lia.
  - unfold CAPACITY, MAP_HEIGHT, MAP_WIDTH. lia.
Qed.

Lemma bfs_correct_witness : ∃ g d s, map_ok (level_walls 0) g ∧
  bfs (λ _, mk_Point 0 0) g (mk_Point 1 1) (mk_Point 1 5) = Some (d, s) ∧ NoDup (cells s).
Proof.
  destruct example_round as (g & _ & Hok & _).
  destruct (bfs_correct (level_walls 0) g (λ _, mk_Point 0 0) (mk_Point 1 1) (mk_Point 1 5)) as (d & s & Hd & Hs & _).
  - apply Hok.
  - apply Hok.
  - split; [unfold in_map, MAP_WIDTH, MAP_HEIGHT; cbn; lia|by vm_compute].
  - done.
  - exists g, d, s. split; [apply Hok|]. split; [exact Hd|exact Hs].
Defined.

(** ** The priority queue *)

Section queue.
Implicit Types (q : list PriorityNode) (i m : Z).

(** The smallest priority of the positions [lo .. hi - 1]. *)
Definition least q lo hi m : Prop :=
  lo ≤ m < hi ∧ ∃ x, znth q m = Some x ∧ ∀ i y, lo ≤ i < hi → znth q i = Some y → n_priority x ≤ n_priority y.

Lemma min_index_spec n q i m lo :
  0 ≤ lo → lo ≤ m < i → i + Z.of_nat n ≤ Z.of_nat (length q) → least q lo i m →
  ∃ r, min_index n q i m = Some r ∧ least q lo (i + Z.of_nat n) r.
Proof.
  intros Hlo. revert i m. induction n as [|n IH]; intros i m Hm Hn Hl; cbn [min_index].
  { exists m. by rewrite Z.add_0_r. }
  destruct (znth_in_range q i) as [a Ha]; [lia|]. destruct Hl as (_ & b & Hb & Hmin). rewrite Ha, Hb. cbn [mbind option_bind].
  replace (i + Z.of_nat (S n)) with (i + 1 + Z.of_nat n) by lia. apply IH; [case_match; lia|lia|].
  assert (Hi : ∀ j, lo ≤ j < i + 1 → j = i ∨ lo ≤ j < i) by (intros; lia).
  destruct (Z.ltb_spec (n_priority a) (n_priority b)).
  - split; [lia|]. exists a. split; [done|]. intros j y Hj Hy. destruct (Hi j Hj) as [->|Hj']; [rewrite Ha in Hy; injection Hy as <-; lia|].
    specialize (Hmin j y Hj' Hy). lia.
  - split; [lia|]. exists b. split; [done|]. intros j y Hj Hy. destruct (Hi j Hj) as [->|Hj']; [rewrite Ha in Hy; injection Hy as <-; lia|].
    by apply (Hmin j).
Qed.

Lemma shift_left_spec n q i :
  0 ≤ i → i + Z.of_nat n < Z.of_nat (length q) →
  ∃ q', shift_left n i q = Some q' ∧ length q' = length q ∧
    ∀ j, znth q' j = if (i <=? j) && (j <? i + Z.of_nat n) then znth q (j + 1) else znth q j.
Proof.
  revert q i. induction n as [|n IH]; intros q i Hi Hn; cbn [shift_left].
  { exists q. split_and!; [done..|]. intros j. case_match; [bool_to_prop; lia|done]. }
  destruct (znth_in_range q (i + 1)) as [x Hx]; [lia|]. rewrite Hx. cbn [mbind option_bind]. rewrite zset_Some by lia.
  cbn [mbind option_bind]. destruct (IH (<[Z.to_nat i := x]> q) (i + 1)) as (q' & -> & Hl & Hq'); [lia|rewrite length_insert; lia|].
  exists q'. rewrite length_insert in Hl. split_and!; [done|done|]. intros j. rewrite Hq', !znth_insert by lia.
  destruct (Z.eqb_spec i j) as [->|].
  - destruct (Z.leb_spec (j + 1) j); [lia|]. cbn [andb]. destruct (Z.leb_spec j j); [|lia].
    destruct (Z.ltb_spec j (j + Z.of_nat (S n))); [|lia]. done.
  - destruct (Z.eqb_spec i (j + 1)); [|].
    + destruct (Z.leb_spec (i + 1) j); [lia|]. destruct (Z.leb_spec i j); [lia|done].
    + destruct (Z.leb_spec (i + 1) j), (Z.leb_spec i j); try lia; cbn [andb]; [|done].
      replace (i + 1 + Z.of_nat n) with (i + Z.of_nat (S n)) by lia. done.
Qed.
End queue.

(** The priority queue.  [dequeue] returns a node of least priority, but
    closes the gap on one side and moves the front on the other: of the nodes
    left, all those before the one taken stay except the first, which is lost,
    while the last one is there twice. *)
Lemma dequeue_takes_least (q : list PriorityNode) (front rear : Z) :
  0 ≤ front < rear → rear ≤ Z.of_nat (length q) →
  ∃ node q' m, dequeue q front rear = Some (node, q', front + 1) ∧
    znth q m = Some node ∧ least q front rear m ∧ length q' = length q ∧
    ∀ j, znth q' j = if (m <=? j) && (j <? rear - 1) then znth q (j + 1) else znth q j.
Proof.
  intros Hf Hr. unfold dequeue. destruct (znth_in_range q front) as [x Hx]; [lia|].
  destruct (min_index_spec (Z.to_nat (rear - (front + 1))) q (front + 1) front front) as (m & -> & Hl); [lia..| |].
  { split; [lia|]. exists x. split; [done|]. intros i y Hi Hy. assert (i = front) as -> by lia. rewrite Hx in Hy. injection Hy as <-. lia. }
  replace (front + 1 + Z.of_nat (Z.to_nat (rear - (front + 1)))) with rear in Hl by lia.
  pose proof Hl as (Hm & node & Hnode & _). cbn [mbind option_bind]. rewrite Hnode. cbn [mbind option_bind].
  destruct (shift_left_spec (Z.to_nat (rear - 1 - m)) q m) as (q' & -> & Hlen & Hq'); [lia..|]. cbn [mbind option_bind].
  exists node, q', m. split_and!; [done..|]. intros j. rewrite Hq'. by replace (m + Z.of_nat (Z.to_nat (rear - 1 - m))) with (rear - 1) by lia.
Qed.

(** Two nodes in the queue: the second is gone with the first. *)
Lemma dequeue_takes_least_witness :
  let q := [mk_PriorityNode (mk_Point 1 1) 0; mk_PriorityNode (mk_Point 2 1) 1; mk_PriorityNode (mk_Point 3 1) 2] in
  ∃ node q' m, dequeue q 0 3 = Some (node, q', 0 + 1) ∧ znth q m = Some node ∧ least q 0 3 m.
Proof.
  cbv zeta.
  destruct (dequeue_takes_least [mk_PriorityNode (mk_Point 1 1) 0; mk_PriorityNode (mk_Point 2 1) 1; mk_PriorityNode (mk_Point 3 1) 2] 0 3)
    as (node & q' & m & H1 & H2 & H3 & _); [lia|cbn; lia|].
  exists node, q', m. exact (conj H1 (conj H2 H3)).
Defined.

Example dequeue_loses_a_node :
  dequeue [mk_PriorityNode (mk_Point 1 1) 0; mk_PriorityNode (mk_Point 2 1) 1; mk_PriorityNode (mk_Point 3 1) 2] 0 3 =
  Some (mk_PriorityNode (mk_Point 1 1) 0,
    [mk_PriorityNode (mk_Point 2 1) 1; mk_PriorityNode (mk_Point 3 1) 2; mk_PriorityNode (mk_Point 3 1) 2], 1).
Proof. reflexivity. Qed.
