(* ===== verification/Render.v ===== *)
(** * What the game draws (the rendering functions of pacman.c, print of user.c)

    A rendering function is the sequence of the screen calls it makes: the
    state of its computation is the trace of the calls so far.  [run_calls] executes a
    trace on the screen of the kernel.  Local arrays that the code does not
    initialise hold anything: they are parameters ([junk]). *)

From Stdlib Require Import Ascii String.
From S2P Require Import Prelude CInt Console LibC Pacman.

#[local] Notation length := Datatypes.length.

(** The calls: [gotoxy], [set_color] and [print] of a string with its terminator. *)
Inductive call := Gotoxy (x y : Z) | SetColor (fg bg : Z) | Print (s : list Z).

Abbreviation R := (M (list call)).

Definition emit (c : call) : R unit := modify (λ t, t ++ [c]).
Definition gotoxy (x y : Z) : R unit := emit (Gotoxy x y).
Definition set_color (fg bg : Z) : R unit := emit (SetColor fg bg).
Definition print (s : list Z) : R unit := emit (Print s).
Definition print_lit (s : string) : R unit := print (cstr (chars s)).

(** [itodeca(a, buffer); print(buffer)] *)
Definition print_number (a : Z) (buffer : list Z) : R unit :=
  b ← ask (λ _, itodeca (s32 a) buffer); print b.

(** ** The calls on the screen *)

(** [print] of user.c: [write(1, xd, strlen(xd))]. *)
Definition run_call (c : call) : M console unit :=
  match c with
  | Gotoxy x y => _ ← Console.sys_gotoxy x y; mret tt
  | SetColor fg bg => _ ← Console.sys_set_color fg bg; mret tt
  | Print s => n ← ask (λ _, strlen s); _ ← sys_write_console s n; mret tt
  end.

Fixpoint run_calls (t : list call) : M console unit :=
  match t with
  | [] => mret tt
  | c :: t => run_call c ;; run_calls t
  end.

(** ** The rendering functions *)

Definition ghost_colors (g : GameState) (i : Z) : option (Z * Z) :=
  gh ← znth (ghosts g) i; Some (g_fg_color gh, g_bg_color gh).

Definition getMapColors (g : GameState) (c : Z) : option (Z * Z) :=
  if c =? WALL then Some (LIGHT_RED, BLACK)
  else if c =? BOOSTER then Some (LIGHT_GREEN, BLACK)
  else if c =? PELLET then Some (LIGHT_CYAN, BLACK)
  else if c =? SPACE then Some (BLACK, BLACK)
  else if c =? char_C then Some (p_fg_color (pacman g), p_bg_color (pacman g))
  else if c =? 48 then ghost_colors g 0
  else if c =? 49 then ghost_colors g 1
  else if c =? 50 then ghost_colors g 2
  else if c =? 51 then ghost_colors g 3
  else Some (WHITE, BLACK).

(** The characters of [clear_str] are not initialised. *)
Definition clear_line (junk : list Z) (row : Z) : R unit :=
  set_color BLACK BLACK ;;
  gotoxy 0 (s32 row) ;;
  clear_str ← ask (λ _, zset junk MAP_WIDTH 0);
  print clear_str.

Definition renderEntities (g : GameState) : R unit :=
  set_color (p_fg_color (pacman g)) (p_bg_color (pacman g)) ;;
  gotoxy (s32 (px (p_position (pacman g)))) (s32 (py (p_position (pacman g)))) ;;
  print [p_skin (pacman g); 0] ;;
  for_up (Z.to_nat NUM_GHOSTS) 0 (λ i,
    gh ← ask (λ _, znth (ghosts g) i);
    if g_isAlive gh =? 0 then mret tt
    else
      set_color (g_fg_color gh) (p_bg_color (pacman g)) ;;
      gotoxy (s32 (px (g_position gh))) (s32 (py (g_position gh))) ;;
      print [g_skin gh; 0]).

(** [junk] is the line of [clear_line], [buffer] the array of 64 characters. *)
Definition renderFooter (junk buffer : list Z) (g : GameState) (ticks : Z) : R unit :=
  clear_line junk MAP_HEIGHT ;;
  gotoxy 0 MAP_HEIGHT ;;
  set_color WHITE BLACK ;;
  print_lit "Lives: " ;;
  print_number (lives g) buffer ;;
  gotoxy 12 MAP_HEIGHT ;;
  set_color WHITE BLACK ;;
  let n := u32 (ticks + 1) in
  fps ← (if n =? 0 then fault else mret (s32 (TICKS_PER_SECOND / n)));
  let buf := chars "FPS:    " ++ [0; 0] in
  tail ← ask (λ _, itodeca fps (drop 5 buf));
  print (take 5 buf ++ tail) ;;
  print_lit "     " ;;
  print_lit "Score: " ;;
  print_number (score g) buffer ;;
  print_lit "                       " ;;
  print_lit "Player: " ;;
  print (currentPlayer g).

Definition renderMap (g : GameState) : R unit :=
  gotoxy 0 0 ;;
  for_up (Z.to_nat MAP_HEIGHT) 0 (λ i,
    for_up (Z.to_nat MAP_WIDTH) 0 (λ j,
      c ← ask (λ _, load_map (mk_Point j i) g);
      if c =? 0 then mret tt
      else
        col ← ask (λ _, getMapColors g c);
        set_color col.1 col.2 ;;
        print [c; 0])).

Definition renderGame (junk buffer : list Z) (g : GameState) (to_render_map ticks : Z) : R unit :=
  renderMap g ;; renderFooter junk buffer g ticks.

Definition clear_screen : R unit :=
  set_color BLACK BLACK ;;
  for_up (Z.to_nat MAP_HEIGHT) 0 (λ y,
    for_up (Z.to_nat MAP_WIDTH) 0 (λ x, gotoxy x y ;; print_lit " ")).

Definition renderIntroduceName : R unit :=
  clear_screen ;;
  let borderX := 10 in let borderY := 5 in
  let borderWidth := 30 in let borderHeight := 3 in
  set_color GREEN BLACK ;;
  gotoxy borderX borderY ;;
  for_up (Z.to_nat borderWidth) 0 (λ _, print_lit "#") ;;
  for_up (Z.to_nat (borderHeight - 1)) 1 (λ i,
    gotoxy borderX (borderY + i) ;;
    print_lit "#" ;;
    gotoxy (borderX + borderWidth - 1) (borderY + i) ;;
    print_lit "#") ;;
  gotoxy borderX (borderY + borderHeight) ;;
  for_up (Z.to_nat borderWidth) 0 (λ _, print_lit "#") ;;
  gotoxy (borderX + 2) (borderY + 1) ;;
  set_color WHITE BLACK ;;
  print_lit "Enter your name:" ;;
  gotoxy (borderX + 2) (borderY + 2).

(** [buff] is the array of 50 characters. *)
Definition renderLeaderboard (buff : list Z) (g : GameState) : R unit :=
  clear_screen ;;
  gotoxy 10 5 ;;
  set_color GREEN BLACK ;;
  print_lit "Leaderboard:" ;;
  set_color GREEN BLACK ;;
  for_up (Z.to_nat (leaderboardSize g)) 0 (λ i,
    gotoxy 10 (7 + i) ;;
    print_number i buff ;;
    print_lit ".   " ;;
    e ← ask (λ _, znth (leaderboard g) i);
    print (name e) ;;
    print_lit "  -  " ;;
    print_number (entry_score e) buff ;;
    print (nl ++ [0])) ;;
  gotoxy 10 (7 + leaderboardSize g + 2) ;;
  print_lit "Press any key to continue...".

(** [scoreMessage] is the array of 30 characters. *)
Definition renderGameOver (scoreMessage : list Z) (g : GameState) : R unit :=
  clear_screen ;;
  gotoxy 10 5 ;;
  set_color RED BLACK ;;
  print_lit "Game Over!!!" ;;
  gotoxy 10 7 ;;
  set_color WHITE BLACK ;;
  print_lit "Final Score: " ;;
  print_number (score g) scoreMessage ;;
  gotoxy 10 9 ;;
  print_lit "Wait 3 seconds until the next round begins...".

(** ** The map on the screen *)

(** The characters that take one cell of the screen. *)
Definition shown (c : Z) : Prop := c ≠ 0 ∧ c ≠ NEWLINE.

(** Every cell of the map holds a character that shows, in colours that exist. *)
Definition drawable (g : GameState) : Prop :=
  ∀ p, in_map p → ∃ c fg bg, load_map p g = Some c ∧ shown c ∧ getMapColors g c = Some (fg, bg) ∧
    BLACK ≤ fg ≤ WHITE ∧ BLACK ≤ bg ≤ WHITE.

(** The screen shows the cell [p] of the map. *)
Definition cell_shown (g : GameState) (k : console) (p : Point) : Prop :=
  ∃ c fg bg, load_map p g = Some c ∧ getMapColors g c = Some (fg, bg) ∧
    screen k !! (py p * SCREEN_COLUMNS + px p) = Some (cell c fg bg).

Section facts.
Implicit Types (g : GameState) (k : console) (t : list call).

Lemma run_calls_app t t' k : run_calls (t ++ t') k = '(_, k) ← run_calls t k; run_calls t' k.
Proof.
  revert k. induction t as [|c t IH]; intros k; [done|]. cbn [app run_calls]. unfold mbind at 1, M_bind.
  cbn [run_calls]. unfold mbind at 2, M_bind. destruct (run_call c k) as [[[] k1]|]; [|done]. apply IH.
Qed.

(** A character in its colours under the cursor. *)
Lemma print_char c fg bg k :
  wf_console k → shown c → BLACK ≤ fg ≤ WHITE → BLACK ≤ bg ≤ WHITE →
  ∃ k', run_calls [SetColor fg bg; Print [c; 0]] k = Some (tt, k') ∧ wf_console k' ∧
    cursor k' = (cursor k + 1) mod CELLS ∧ screen k' = <[cursor k := cell c fg bg]> (screen k).
Proof.
  intros Hwf [H0 Hn] Hfg Hbg. set (k1 := set_colors fg bg k).
  assert (wf_console k1) as Hwf1 by by apply set_colors_wf.
  destruct (printc_spec c k1 Hwf1) as (Hwf2 & Hc & Hs & _). exists (printc c k1).
  unfold advance in Hc. destruct (Z.eqb_spec c NEWLINE); [done|].
  split; [|by split_and!]. cbn [run_calls run_call]. unfold mbind, M_bind, Console.sys_set_color.
  unfold WHITE, BLACK in *.
  destruct (Z.ltb_spec 15 fg), (Z.ltb_spec fg 0), (Z.ltb_spec 15 bg), (Z.ltb_spec bg 0); try lia. cbn [orb].
  rewrite !u8_small by wrap_lia. fold k1. unfold ask, strlen. cbn [length strlen_loop].
  change (znth [c; 0] 0) with (Some c). cbn [mbind option_bind]. destruct (Z.eqb_spec c 0); [done|].
  change (znth [c; 0] (0 + 1)) with (Some 0). cbn. done.
Qed.

(** The trace of a row drawn up to the column [j], and of the rows above. *)
Definition drawn g k0 (n : Z) t : Prop :=
  ∃ k, run_calls t k0 = Some (tt, k) ∧ wf_console k ∧ cursor k = n mod CELLS ∧
    ∀ p, in_map p → py p * SCREEN_COLUMNS + px p < n → cell_shown g k p.

Lemma draw_cell g k0 i j t :
  drawable g → 0 ≤ i < MAP_HEIGHT → 0 ≤ j < MAP_WIDTH → drawn g k0 (i * SCREEN_COLUMNS + j) t →
  wp (c ← ask (λ _, load_map (mk_Point j i) g);
      if c =? 0 then mret tt
      else col ← ask (λ _, getMapColors g c); set_color col.1 col.2 ;; print [c; 0])
    (λ _, drawn g k0 (i * SCREEN_COLUMNS + j + 1)) t.
Proof.
  intros Hd Hi Hj (k & Hrun & Hwf & Hcur & Hcells). unfold MAP_HEIGHT, MAP_WIDTH, SCREEN_COLUMNS in *.
  assert (in_map (mk_Point j i)) as Hin by (unfold in_map, MAP_HEIGHT, MAP_WIDTH; cbn; lia).
  destruct (Hd _ Hin) as (c & fg & bg & Hl & Hsh & Hcol & Hfg & Hbg).
  apply wp_bind. eapply wp_ask; [exact Hl|]. destruct (Z.eqb_spec c 0); [by destruct Hsh|].
  apply wp_bind. eapply wp_ask; [exact Hcol|]. cbn [fst snd]. apply wp_bind, wp_modify, wp_modify.
  destruct (print_char c fg bg k Hwf Hsh Hfg Hbg) as (k' & Hrun' & Hwf' & Hcur' & Hscr).
  exists k'. rewrite <- app_assoc. cbn [app]. rewrite run_calls_app, Hrun. cbn [mbind option_bind].
  split; [exact Hrun'|]. split; [exact Hwf'|]. change CELLS with 2000 in *.
  assert (Hc : cursor k = i * 80 + j) by (rewrite Hcur; apply Z.mod_small; lia).
  split; [by rewrite Hcur', Hc|]. intros p Hp Hlt. unfold cell_shown, SCREEN_COLUMNS in *. rewrite Hscr, Hc, lookup_insert.
  case_decide as E.
  - exists c, fg, bg. split_and!; [|done|done]. replace p with (mk_Point j i); [done|].
    destruct p as [x y]. destruct Hp as [Hx Hy]. unfold MAP_HEIGHT, MAP_WIDTH in *. cbn in *. f_equal; lia.
  - apply Hcells; [done|lia].
Qed.
End facts.

(** C34: the picture.  On a sane screen, from any cursor and colours, the calls
    of [renderMap] show the whole map: cell [(x, y)] of the screen has the
    character [map[y][x]] in the colours of [getMapColors], for all 80 columns
    of the 24 rows, and the screen stays sane.  (The map has to hold characters
    that show and the colours have to exist, as at the start of every round.) *)
Theorem renderMap_shows_map (g : GameState) (k : console) :
  drawable g → wf_console k →
  wp (renderMap g) (λ _ t, ∃ k', run_calls t k = Some (tt, k') ∧ wf_console k' ∧
    ∀ p, in_map p → cell_shown g k' p) [].
Proof.
  intros Hd Hwf. unfold renderMap. apply wp_bind, wp_modify. cbn [app].
  assert (Hstart : drawn g k 0 [Gotoxy 0 0]).
  { exists (set_cursor 0 0 k). split; [done|]. split; [by apply set_cursor_wf|]. split; [done|].
    intros p [[??] [??]] Hp. unfold SCREEN_COLUMNS in Hp. lia. }
  eapply wp_mono; [apply (wp_for_up (λ i, drawn g k (i * SCREEN_COLUMNS))); [exact Hstart|]|].
  - intros i t Hi Ht.
    eapply wp_mono; [apply (wp_for_up (λ j, drawn g k (i * SCREEN_COLUMNS + j))); [by rewrite Z.add_0_r|]|].
    + intros j t' Hj Ht'. replace (i * SCREEN_COLUMNS + (j + 1)) with (i * SCREEN_COLUMNS + j + 1) by lia.
      apply draw_cell; [done| | |done]; unfold MAP_HEIGHT, MAP_WIDTH in *; lia.
    + intros [] t'. unfold MAP_WIDTH, SCREEN_COLUMNS. replace (i * 80 + (0 + Z.of_nat (Z.to_nat 80))) with ((i + 1) * 80) by lia. done.
  - intros [] t (k' & Hrun & Hwf' & _ & Hcells). exists k'. split_and!; [done|done|]. intros p Hp. apply Hcells; [done|].
    destruct Hp as [Hx Hy]. unfold MAP_HEIGHT, MAP_WIDTH, SCREEN_COLUMNS in *. lia.
Qed.

(** ** The first round *)

Definition in_colour (v : Z) : bool := (BLACK <=? v) && (v <=? WHITE).

Definition drawable_b (g : GameState) : bool :=
  forallb (λ p, match load_map p g with
                | Some c => negb (c =? 0) && negb (c =? NEWLINE) &&
                    match getMapColors g c with Some (fg, bg) => in_colour fg && in_colour bg | None => false end
                | None => false
                end) map_points.

Lemma drawable_b_correct g : drawable_b g = true → drawable g.
Proof.
  intros H p Hp. apply in_map_points in Hp. unfold drawable_b in H. rewrite forallb_forall in H.
  specialize (H p ltac:(by apply list_elem_of_In)). cbv beta in H.
  destruct (load_map p g) as [c|]; [|done]. apply andb_prop in H as [Hc H].
  destruct (getMapColors g c) as [[fg bg]|] eqn:Hcol; [|done]. unfold in_colour in H.
  apply andb_prop in Hc as [H0 Hn]. apply andb_prop in H as [Hf Hb].
  apply andb_prop in Hf as [??], Hb as [??]. rewrite ->Z.leb_le in *.
  apply negb_true_iff, Z.eqb_neq in H0. apply negb_true_iff, Z.eqb_neq in Hn.
  exists c, fg, bg. repeat split; assumption.
Qed.

Definition first_round (lv : Z) : option GameState := initializeRound lv 1 0 (cstr [112; 97; 99]) blank_game.

Lemma first_round_drawable : ∃ g, first_round 0 = Some g ∧ drawable g.
Proof.
  assert (H : match first_round 0 with Some g => drawable_b g | None => false end = true) by (vm_compute; reflexivity).
  destruct (first_round 0) as [g|]; [|done]. exists g. split; [done|]. by apply drawable_b_correct.
Qed.

Lemma renderMap_shows_map_witness : ∃ g, first_round 0 = Some g ∧
  wp (renderMap g) (λ _ t, ∃ k', run_calls t near_end = Some (tt, k') ∧ wf_console k' ∧
    ∀ p, in_map p → cell_shown g k' p) [].
Proof.
  destruct first_round_drawable as (g & Hg & Hd). exists g. split; [exact Hg|].
  exact (renderMap_shows_map g near_end Hd near_end_wf).
Defined.
