(* ===== verification/User.v ===== *)
(** * The user program (user.c)

    The process that plays; the other one, which forwards the keyboard to a shared
    page, is in Input.v, and [main] in Twice.v.  The clock and the shared page are the environment: what
    the n-th call of [gettime] returns and what the n-th read of the page finds. *)

From Stdlib Require Import Ascii String.
From S2P Require Import Prelude CInt Console LibC Pacman Render.

#[local] Notation length := Datatypes.length.

(** [clock n] is the result of the n-th call of [gettime], [key n] the byte the
    n-th read of [addr[0]] finds; the other fields are the contents of local
    arrays that the code does not initialise: [clear_str], [buffer],
    [buff] of the leaderboard, [scoreMessage] and [buff] of [gameloop]. *)
Class Environment := {
  clock : nat → Z;
  key : nat → Z;
  clear_str : list Z;
  digits_64 : list Z;
  digits_50 : list Z;
  digits_30 : list Z;
  digits_32 : list Z;
}.

(** The state of the process that plays: the locals of [gameloop], the seed of the
    generator and what has been asked of the environment. *)
Record world := mk_world {
  game : GameState;
  player : list Z;
  seed : Z;
  ticks_read : nat;
  keys_read : nat;
  shown : list call;
  n_frames : Z;
  currentTime : Z;
  prevTimer : Z;
}.

Definition set_game (g : GameState) (w : world) : world :=
  mk_world g (player w) (seed w) (ticks_read w) (keys_read w) (shown w) (n_frames w) (currentTime w) (prevTimer w).
Definition set_player (p : list Z) (w : world) : world :=
  mk_world (game w) p (seed w) (ticks_read w) (keys_read w) (shown w) (n_frames w) (currentTime w) (prevTimer w).
Definition set_seed (s : Z) (w : world) : world :=
  mk_world (game w) (player w) s (ticks_read w) (keys_read w) (shown w) (n_frames w) (currentTime w) (prevTimer w).
Definition set_ticks_read (n : nat) (w : world) : world :=
  mk_world (game w) (player w) (seed w) n (keys_read w) (shown w) (n_frames w) (currentTime w) (prevTimer w).
Definition set_keys_read (n : nat) (w : world) : world :=
  mk_world (game w) (player w) (seed w) (ticks_read w) n (shown w) (n_frames w) (currentTime w) (prevTimer w).
Definition set_shown (t : list call) (w : world) : world :=
  mk_world (game w) (player w) (seed w) (ticks_read w) (keys_read w) t (n_frames w) (currentTime w) (prevTimer w).
Definition set_n_frames (n : Z) (w : world) : world :=
  mk_world (game w) (player w) (seed w) (ticks_read w) (keys_read w) (shown w) n (currentTime w) (prevTimer w).
Definition set_times (c p : Z) (w : world) : world :=
  mk_world (game w) (player w) (seed w) (ticks_read w) (keys_read w) (shown w) (n_frames w) c p.

Abbreviation MU := (M world).

Section user.
Context `{Environment}.

(** ** The calls of the program *)

Definition gettime : MU Z :=
  t ← gets (λ w, clock (ticks_read w));
  modify (λ w, set_ticks_read (S (ticks_read w)) w) ;;
  mret t.

(** [*addr] *)
Definition read_key : MU Z :=
  c ← gets (λ w, key (keys_read w));
  modify (λ w, set_keys_read (S (keys_read w)) w) ;;
  mret c.

(** Not called: the loop of the game hands the byte to [processInput] itself. *)
Definition get_input (x : Z) : MU unit := modify (λ w, set_game (processInput x (game w)) w).

(** [sleep] of libc.c on the clock from now on. *)
Definition sleep (fuel : nat) (ms : Z) : MU unit :=
  n ← ask (λ w, LibC.sleep fuel (λ i, clock (ticks_read w + i)%nat) ms);
  modify (λ w, set_ticks_read (ticks_read w + n) w).

Definition draw (r : R unit) : MU unit :=
  lift (λ w, '(_, t) ← r (shown w); Some (set_shown t w)).

Definition on_game (f : GameState → option GameState) : MU unit :=
  lift (λ w, g ← f (game w); Some (set_game g w)).

(** [updateGameState] with the seed of the generator.  It answers [None] when the loop
    of a ghost has used up the fuel, which is not a fault: the code is still drawing. *)
Definition update (fuel : nat) (elapsedTime : Z) : MU (option unit) := λ w,
  match updateGameState fuel elapsedTime (game w) (seed w) with
  | Some (Some g, s) => Some (Some tt, set_game g (set_seed s w))
  | Some (None, s) => Some (None, set_seed s w)
  | None => None
  end.

(** ** The name of the player *)

Fixpoint name_loop (n fuel : nat) (numChars lastChar : Z) : MU unit :=
  match n with
  | O => fault
  | S n =>
      if numChars <? MAX_NAME_LENGTH then
        input ← read_key;
        if input =? 46 then mret tt
        else if negb (input =? 0) && negb (input =? lastChar) then
          lift (λ w, p ← zset (player w) numChars input; Some (set_player p w)) ;;
          sleep fuel 100 ;;
          name_loop n fuel (numChars + 1) input
        else
          sleep fuel 100 ;;
          name_loop n fuel numChars lastChar
      else mret tt
  end.

(** [n] bounds the number of reads, [fuel] the calls of [gettime] of a [sleep]. *)
Definition get_player_name (n fuel : nat) : MU unit :=
  lift (λ w, p ← zset (player w) MAX_NAME_LENGTH 0; Some (set_player p w)) ;;
  name_loop n fuel 0 0 ;;
  p ← gets player;
  draw (print p).

(** ** The rounds *)

Definition FPS : Z := 5.
Definition TICKS_PER_FRAME : Z := TICKS_PER_SECOND / FPS.

(** [while (gettime() - prevTimer < TICKS_PER_FRAME);] *)
Fixpoint wait_frame (fuel : nat) : MU unit :=
  match fuel with
  | O => fault
  | S f =>
      t ← gettime;
      p ← gets prevTimer;
      if u32 (t - p) <? TICKS_PER_FRAME then wait_frame f else mret tt
  end.

(** The end of a game: the score, then the table of the scores. *)
Definition end_game (fuel : nat) : MU unit :=
  on_game (λ g, updateLeaderboard g (currentPlayer g) (s32 (score g))) ;;
  g ← gets game;
  draw (renderGameOver digits_30 g) ;;
  sleep fuel 3000 ;;
  draw (renderLeaderboard digits_50 g) ;;
  sleep fuel 3000.

(** What [if (isRoundOver(&game))] does: whether the inner loop ends. *)
Definition round_over (fuel : nat) : MU bool :=
  g ← gets game;
  if isRoundOver g then
    if level g =? 0 then
      on_game (λ g, initializeRound 1 (lives g) (score g) (currentPlayer g) g) ;;
      sleep fuel 2000 ;;
      mret false
    else if 1 <=? level g then end_game fuel ;; mret true
    else mret false
  else mret false.

Definition render_frame (fuel : nat) : MU unit :=
  wait_frame fuel ;;
  t ← gettime;
  p ← gets prevTimer;
  g ← gets game;
  draw (renderGame clear_str digits_64 g 0 (u32 (t - p))) ;;
  t ← gettime;
  modify (λ w, set_times (currentTime w) (u32 t) w).

(** The body of the inner loop: [true] when it breaks out, no answer when the update
    is still running after its fuel. *)
Definition frame (fuel : nat) : MU (option bool) :=
  modify (λ w, set_n_frames (s32 (n_frames w + 1)) w) ;;
  k ← read_key;
  on_game (λ g, Some (processInput k g)) ;;
  lastTime ← gets currentTime;
  t ← gettime;
  modify (λ w, set_times (s32 (get_time_ms t)) (prevTimer w) w) ;;
  c ← gets currentTime;
  r ← update fuel (u32 (s32 (c - lastTime)));
  match r with
  | None => mret None
  | Some _ =>
      g ← gets game;
      if playerHasNoLife g then end_game fuel ;; mret (Some true)
      else
        b ← round_over fuel;
        if (b : bool) then mret (Some true) else render_frame fuel ;; mret (Some false)
  end.

Fixpoint frames (n fuel : nat) : MU unit :=
  match n with
  | O => fault
  | S n =>
      r ← frame fuel;
      match r with
      | Some true => mret tt
      | Some false => frames n fuel
      | None => fault
      end
  end.

(** The body of the outer loop, once there is room in the table. *)
Definition play (n fuel : nat) : MU unit :=
  draw renderIntroduceName ;;
  get_player_name n fuel ;;
  p ← gets player;
  on_game (initializeRound 0 NUM_LIVES 0 p) ;;
  _ ← gettime;
  t ← gettime;
  g ← gets game;
  draw (renderGame clear_str digits_64 g 1 (u32 t)) ;;
  t ← gettime;
  modify (λ w, set_times (currentTime w) (u32 t) w) ;;
  frames n fuel.

(** The outer loop: it returns where the code loops forever. *)
Fixpoint games (n fuel : nat) : MU unit :=
  match n with
  | O => fault
  | S n =>
      g ← gets game;
      if MAX_LEADERBOARD_ENTRIES <=? leaderboardSize g then draw (renderGameOver digits_30 g)
      else play (S n) fuel ;; games n fuel
  end.

(** [shmat] has mapped the page of the keys. *)
Definition gameloop (n fuel : nat) : MU unit :=
  modify (λ w, set_seed (srand 322321 (seed w)) w) ;;
  modify (λ w, set_n_frames 0 w) ;;
  lift (λ w, p ← zset (player w) MAX_NAME_LENGTH 0; Some (set_player p w)) ;;
  on_game initializeLeaderboard ;;
  g ← gets game;
  draw (print_number (leaderboardSize g) digits_32) ;;
  games n fuel.
End user.

(** ** The clock *)

(** The clock never runs backwards, advances at most [g] ticks between two calls,
    stays within [int], and reads [B] at the [N]-th call at the latest. *)
Record clock_ok `{Environment} (g B : Z) (N : nat) : Prop := {
  co_step : ∀ i, 0 ≤ clock i ≤ clock (S i) ∧ clock (S i) ≤ clock i + g;
  co_int : ∀ i, clock i < 2 ^ 31;
  co_end : B ≤ clock N;
}.

(** What the next call will answer. *)
Definition time `{Environment} (w : world) : Z := clock (ticks_read w).

(** The world after a wait: only the clock has moved, by [d] ticks and two calls
    at most. *)
Definition waited `{Environment} (g d : Z) (w w' : world) : Prop :=
  ∃ m, w' = set_ticks_read m w ∧ time w ≤ time w' ≤ time w + d + 2 * g.

Section time.
Context `{Environment} (g B : Z) (N : nat).
Hypothesis Hck : clock_ok g B N.
Implicit Types (w : world).

Lemma clock_mono i j : (i ≤ j)%nat → clock i ≤ clock j.
Proof. induction 1 as [|j Hle IH]; [lia|]. pose proof (co_step _ _ _ Hck j). lia. Qed.

Lemma clock_jump : 0 ≤ g.
Proof. pose proof (co_step _ _ _ Hck 0). lia. Qed.

Lemma clock_late i : B ≤ clock (i `max` N).
Proof. pose proof (co_end _ _ _ Hck). pose proof (clock_mono N (i `max` N) ltac:(lia)). lia. Qed.

Lemma wp_gettime (Q : Z → world → Prop) w :
  (∀ w', waited g 0 w w' → ticks_read w' = S (ticks_read w) → Q (time w) w') → wp gettime Q w.
Proof.
  intros HQ. unfold gettime. apply wp_bind, wp_gets, wp_bind, wp_modify, wp_ret. apply HQ; [|done].
  eexists. split; [done|]. pose proof (co_step _ _ _ Hck (ticks_read w)). unfold time; cbn [ticks_read set_ticks_read]. lia.
Qed.

Lemma wp_sleep fuel ms (Q : unit → world → Prop) w :
  0 ≤ ms → time w + ms / 2 ≤ B → (N + 1 < fuel)%nat →
  (∀ w', waited g (ms / 2) w w' → time w + ms / 2 ≤ time w' → Q tt w') → wp (sleep fuel ms) Q w.
Proof.
  intros Hms HB Hf HQ. unfold time in *. set (n := ticks_read w) in *.
  assert (Hpos : 0 ≤ ms / 2) by (apply Z.div_pos; lia).
  destruct (sleep_run (λ i, clock (n + i)%nat) ms (1 `max` (N - n)) fuel) as (k & Hk & Hkn & Hle & Hbefore).
  - intros i. pose proof (co_step _ _ _ Hck (n + i)). pose proof (co_int _ _ _ Hck (n + i)). unfold is_s32. lia.
  - done.
  - rewrite Nat.add_0_r. pose proof (co_int _ _ _ Hck N). pose proof (co_end _ _ _ Hck).
    change (2 ^ 31) with 2147483648 in *. change (2 ^ 32) with 4294967296.
    pose proof (clock_late n). pose proof (co_int _ _ _ Hck (n `max` N)). change (2 ^ 31) with 2147483648 in *. lia.
  - lia.
  - rewrite Nat.add_0_r. pose proof (co_end _ _ _ Hck). pose proof (clock_mono N (n + (1 `max` (N - n))) ltac:(lia)). lia.
  - rewrite Nat.add_0_r in *. apply wp_bind. eapply wp_ask; [exact Hk|]. apply wp_modify. apply HQ.
    + eexists. split; [done|]. unfold time; cbn [ticks_read set_ticks_read]. fold n. split; [apply clock_mono; lia|].
      replace (n + S k)%nat with (S (n + k)) by lia. pose proof (co_step _ _ _ Hck (n + k)) as [_ Hs].
      destruct k as [|[|k]]; [lia| |].
      * replace (n + 1)%nat with (S n) in * by lia. pose proof (co_step _ _ _ Hck n). lia.
      * pose proof (Hbefore (S k) ltac:(lia)). replace (n + S (S k))%nat with (S (n + S k)) in * by lia.
        pose proof (co_step _ _ _ Hck (n + S k)). lia.
    + unfold time; cbn [ticks_read set_ticks_read]. transitivity (clock (n + k)); [done|]. apply clock_mono. lia.
Qed.
End time.

(** ** The name *)

(** What the keys [ks] spell: zeros and repetitions of the last character are
    skipped, a point ends the name, [n] characters at most. *)
Fixpoint typed (n : nat) (last : Z) (ks : list Z) : list Z :=
  match ks with
  | [] => []
  | k :: ks =>
      match n with
      | O => []
      | S n' =>
          if k =? 46 then []
          else if negb (k =? 0) && negb (k =? last) then k :: typed n' k ks
          else typed (S n') last ks
      end
  end.

(** The entry ends exactly with the last of the keys [ks]. *)
Fixpoint complete (n : nat) (last : Z) (ks : list Z) : bool :=
  match ks with
  | [] => (n =? 0)%nat
  | k :: ks =>
      match n with
      | O => false
      | S n' =>
          if k =? 46 then bool_decide (ks = [])
          else if negb (k =? 0) && negb (k =? last) then complete n' k ks
          else complete (S n') last ks
      end
  end.

Lemma typed_length n last ks : (length (typed n last ks) ≤ n)%nat.
Proof.
  revert n last. induction ks as [|k ks IH]; intros n last; cbn [typed]; [cbn; lia|].
  destruct n as [|n]; [done|]. destruct (k =? 46); [cbn; lia|].
  destruct (_ && _); [cbn; specialize (IH n k); lia|apply IH].
Qed.

Section name.
Context `{Environment} (g B : Z) (N : nat).
Hypothesis Hck : clock_ok g B N.
Implicit Types (w : world) (ks : list Z).

(** The keys from now on. *)
Definition keys_are w ks : Prop := ∀ i k, ks !! i = Some k → key (keys_read w + i) = k.

(** Writing [s] over the characters from [c] on. *)
Definition written (c : Z) (s p : list Z) : list Z :=
  take (Z.to_nat c) p ++ s ++ drop (Z.to_nat c + length s) p.

Lemma written_cons c k s p p' : 0 ≤ c → zset p c k = Some p' → written (c + 1) s p' = written c (k :: s) p.
Proof.
  intros Hc Hz. apply zset_inv in Hz as (Hr & -> & _). unfold written. replace (Z.to_nat (c + 1)) with (S (Z.to_nat c)) by lia.
  set (n := Z.to_nat c). assert (n < length p)%nat as Hn by (subst n; lia).
  rewrite (take_S_r _ n k) by (by apply list_lookup_insert_eq). rewrite take_insert_ge by lia.
  rewrite drop_insert_lt by lia. rewrite <- app_assoc. cbn [app length Nat.add]. by rewrite Nat.add_succ_r.
Qed.

Lemma name_loop_run ks n fuel c (m : nat) last (Q : unit → world → Prop) w :
  keys_are w ks → complete m last ks = true → c + Z.of_nat m = MAX_NAME_LENGTH → 0 ≤ c → length (player w) = 11%nat →
  (length ks < n)%nat → (N + 1 < fuel)%nat → time w + Z.of_nat (length ks) * (50 + 2 * g) ≤ B →
  (∀ t, clock t ≤ time w + Z.of_nat (length ks) * (50 + 2 * g) →
     Q tt (set_player (written c (typed m last ks) (player w)) (set_keys_read (keys_read w + length ks) (set_ticks_read t w)))) →
  wp (name_loop n fuel c last) Q w.
Proof.
  revert n c m last w. induction ks as [|k ks IH]; intros n c m last w Hk Hcm Hm Hc Hp Hn Hf HB HQ.
  - cbn in Hcm. apply Nat.eqb_eq in Hcm as ->. destruct n as [|n]; [cbn in Hn; lia|]. cbn [name_loop].
    destruct (Z.ltb_spec c MAX_NAME_LENGTH); [lia|]. apply wp_ret. specialize (HQ (ticks_read w)).
    unfold time in *. cbn in HQ. rewrite Nat.add_0_r in HQ. unfold written in HQ. cbn [app length] in HQ.
    rewrite Nat.add_0_r, take_drop in HQ. destruct w. apply HQ. lia.
  - destruct n as [|n]; [cbn in Hn; lia|]. cbn [name_loop complete typed] in *.
    destruct m as [|m]; [done|]. destruct (Z.ltb_spec c MAX_NAME_LENGTH); [|lia].
    assert (Hg := clock_jump g B N Hck). cbn [length] in *.
    rewrite Nat2Z.inj_succ, Z.mul_succ_l in HB, HQ. assert (0 ≤ Z.of_nat (length ks) * (50 + 2 * g)) as Hpos by (apply Z.mul_nonneg_nonneg; lia).
    change (100 / 2) with 50 in *.
    unfold read_key at 1. apply wp_bind, wp_bind, wp_gets, wp_bind, wp_modify, wp_ret.
    assert (E : key (keys_read w) = k) by (rewrite <- (Hk 0%nat k eq_refl); by rewrite Nat.add_0_r). rewrite E.
    set (w1 := set_keys_read _ w). assert (Hk1 : keys_are w1 ks).
    { intros i x Hi. subst w1. cbn. rewrite <- (Hk (S i) x Hi). f_equal. lia. }
    destruct (k =? 46).
    { apply bool_decide_eq_true in Hcm as ->. apply wp_ret. specialize (HQ (ticks_read w)).
      unfold written in HQ. cbn [app length] in HQ. rewrite Nat.add_0_r, take_drop in HQ.
      replace (keys_read w + 1)%nat with (S (keys_read w)) in HQ by lia. subst w1. destruct w. apply HQ. unfold time in *. cbn [ticks_read] in *. lia. }
    destruct (negb (k =? 0) && negb (k =? last)).
    + destruct (zset (player w) c k) as [p'|] eqn:Hz; [|exfalso; rewrite zset_Some in Hz; [done|]; unfold MAX_NAME_LENGTH in *; lia].
      apply wp_bind. eapply wp_lift; [change (player w1) with (player w); rewrite Hz; done|].
      apply wp_bind, (wp_sleep g B N Hck); [lia|change (time _) with (time w); change (100 / 2) with 50; lia|done|].
      intros w2 (t & -> & Ht) _. unfold time in *. subst w1. cbn [ticks_read set_ticks_read set_player set_keys_read] in *. change (100 / 2) with 50 in *.
      apply (IH n (c + 1) m k); [exact Hk1|exact Hcm|lia|lia| |lia|done|cbn [ticks_read set_ticks_read set_player set_keys_read]; lia|].
      * apply zset_inv in Hz as (_ & _ & Hl). cbn. congruence.
      * intros t2 Ht2. cbn in Ht2 |- *. rewrite (written_cons c k _ (player w) p' Hc Hz).
        replace (S (keys_read w + length ks))%nat with (keys_read w + S (length ks))%nat by lia. apply HQ. lia.
    + apply wp_bind, (wp_sleep g B N Hck); [lia|change (time _) with (time w); change (100 / 2) with 50; lia|done|].
      intros w2 (t & -> & Ht) _. unfold time in *. subst w1. cbn [ticks_read set_ticks_read set_player set_keys_read] in *. change (100 / 2) with 50 in *.
      apply (IH n c (S m) last); [exact Hk1|exact Hcm|lia|lia|exact Hp|lia|done|cbn [ticks_read set_ticks_read set_player set_keys_read]; lia|].
      cbn.
      intros t2 Ht2. replace (S (keys_read w + length ks))%nat with (keys_read w + S (length ks))%nat by lia. apply HQ. lia.
Qed.
End name.

(** The name of the player.  On a clock that does not run backwards, the entry
    ends with the key that completes it (a point, or the tenth character), and
    the name is what the keys spell, the repetitions of the last character
    being one character; it is stored over the previous name, so that the
    characters of a longer previous name follow it when a point ends the entry.
    It is printed, and nothing else of the game changes. *)
Lemma get_player_name_correct `{Environment} g B N (w : world) (ks : list Z) (n fuel : nat) :
  clock_ok g B N → keys_are w ks → complete 10 0 ks = true → length (player w) = 11%nat →
  (length ks < n)%nat → (N + 1 < fuel)%nat → time w + Z.of_nat (length ks) * (50 + 2 * g) ≤ B →
  wp (get_player_name n fuel) (λ _ w',
    let nm := typed 10 0 ks in
    player w' = nm ++ drop (length nm) (take 10 (player w)) ++ [0] ∧
    shown w' = shown w ++ [Print (player w')] ∧
    keys_read w' = (keys_read w + length ks)%nat ∧ game w' = game w) w.
Proof.
  intros Hck Hk Hcm Hp Hn Hf HB. unfold get_player_name. apply wp_bind. eapply wp_lift.
  { rewrite zset_Some by (rewrite Hp; unfold MAX_NAME_LENGTH; lia). done. }
  apply wp_bind, (name_loop_run g B N Hck ks n fuel 0 10 0); try done.
  { cbn. by rewrite length_insert. }
  intros t _. apply wp_bind, wp_gets, wp_modify.
  pose proof (typed_length 10 0 ks) as Hl. cbn [player set_player set_shown shown keys_read game set_keys_read set_ticks_read].
  split; [|done]. unfold written. change (Z.to_nat 0) with 0%nat. change (Z.to_nat MAX_NAME_LENGTH) with 10%nat.
  rewrite take_0. cbn [app Nat.add]. apply (f_equal (app _)). set (l := length (typed 10 0 ks)) in *.
  assert (Hd : <[10%nat := 0]> (player w) = take 10 (player w) ++ [0]).
  { rewrite <- (take_drop 10 (player w)) at 1. rewrite insert_app_r_alt by (rewrite length_take; lia).
    f_equal. assert (length (drop 10 (player w)) = 1%nat) as Hl1 by (rewrite length_drop; lia).
    rewrite length_take. replace (10 - 10 `min` length (player w))%nat with 0%nat by lia.
    by destruct (drop 10 (player w)) as [|? [|]]. }
  rewrite Hd. apply drop_app_le. rewrite length_take. lia.
Qed.

Definition example_env : Environment := {|
  clock i := Z.min (Z.of_nat i) 1000000;
  key i := List.nth i [97; 0; 97; 98; 46] 0;
  clear_str := rubbish 81; digits_64 := rubbish 64; digits_50 := rubbish 50; digits_30 := rubbish 30; digits_32 := rubbish 32;
|}.

Lemma example_clock (N : nat) : Z.of_nat N ≤ 1000000 → clock_ok (H := example_env) 1 (Z.of_nat N) N.
Proof. intros HN. split; cbn; intros; unfold is_s32; change (2 ^ 31) with 2147483648; lia. Qed.

Definition example_world : world := mk_world blank_game (replicate 11 99) 322321 0 0 [] 0 0 0.

(** ** What an update of the game keeps *)

(** The round and the scores. *)
Definition round_data (g : GameState) : Z * Z * list LeaderboardEntry * Z * list Z :=
  (level g, pelletsRemaining g, leaderboard g, leaderboardSize g, currentPlayer g).

Section kept.
Implicit Types (g : GameState).

Lemma store_kept p c g g' : store_map p c g = Some g' → round_data g' = round_data g.
Proof.
  unfold store_map. destruct (znth (map g) (py p)) as [row|]; [|done]. cbn [mbind option_bind].
  destruct (zset row (px p) c) as [row'|]; [|done]. cbn [mbind option_bind].
  destruct (zset (map g) (py p) row') as [m|]; [|done]. by intros [= <-].
Qed.

Lemma pacman_moves_kept next g g' : pacman_moves next g = Some g' → round_data g' = round_data g.
Proof.
  unfold pacman_moves. destruct (store_map _ SPACE g) as [g1|] eqn:H1; [|done]. cbn [mbind option_bind].
  apply store_kept in H1. set (g2 := set_pacman _ g1).
  assert (round_data g2 = round_data g) as H2 by (rewrite <- H1; done). clearbody g2. clear H1 g1.
  destruct (isPellet g2 next) as [[]|]; [|destruct (isBooster g2 next) as [[]|]|]; cbn [mbind option_bind]; try done.
  - unfold removeItem. destruct (store_map next _ _) as [g3|] eqn:H3; [|done]. cbn [mbind option_bind].
    apply store_kept in H3. intros H4%store_kept. etransitivity; [exact H4|]. etransitivity; [exact H3|]. exact H2.
  - unfold removeItem. destruct (store_map next _ _) as [g3|] eqn:H3; [|done]. cbn [mbind option_bind].
    apply store_kept in H3. intros H4%store_kept. etransitivity; [exact H4|]. etransitivity; [exact H3|]. exact H2.
  - intros H4%store_kept. by rewrite H4.
Qed.

Lemma collide_kept n i next g g' : collide n i next g = Some g' → round_data g' = round_data g.
Proof.
  revert i g. induction n as [|n IH]; intros i g; cbn [collide]; [by intros [= ->]|].
  destruct (znth (ghosts g) i) as [gh|]; [|done]. cbn [mbind option_bind]. destruct (negb _).
  - destruct (_ && _); cbn [mbind option_bind]; [|apply IH]. unfold eat_ghost.
    destruct (zset (ghosts g) i _) as [l|]; [|done]. cbn [mbind option_bind]. intros ->%IH. done.
  - destruct (_ && _); [by intros [= <-]|apply IH].
Qed.

Lemma updatePacman_kept g g' : updatePacmanPosition g = Some g' → round_data g' = round_data g.
Proof.
  unfold updatePacmanPosition. set (next := pacman_next _ _). destruct (isWall g next) as [b|]; [|done]. cbn [mbind option_bind].
  destruct (negb b); cbn [mbind option_bind].
  - destruct (pacman_moves next g) as [g1|] eqn:H1; [|done]. cbn [mbind option_bind]. apply pacman_moves_kept in H1.
    destruct (isGhost g1 next); [intros ->%collide_kept; done|by intros [= <-]].
  - destruct (isGhost g next); [by intros ->%collide_kept|by intros [= <-]].
Qed.

Lemma place_ghost_kept i gh next g g' : place_ghost i gh next g = Some g' → round_data g' = round_data g.
Proof.
  unfold place_ghost. destruct (store_map _ _ g) as [g1|] eqn:H1; [|done]. cbn [mbind option_bind]. apply store_kept in H1.
  destruct (load_map next g1); [|done]. cbn [mbind option_bind]. destruct (isEmpty g1 next); [|done]. cbn [mbind option_bind].
  destruct (isBooster g1 next); [|done]. cbn [mbind option_bind]. destruct (isPellet g1 next); [|done]. cbn [mbind option_bind].
  destruct (store_map _ _ g1) as [g2|] eqn:H2; [|done]. cbn [mbind option_bind]. apply store_kept in H2.
  destruct (zset (ghosts g2) i _); [|done]. intros [= <-]. by rewrite <- H1, <- H2.
Qed.

Lemma move_ghost_kept fuel i gh g s r s' :
  move_ghost fuel i gh g s = Some (r, s') → match r with Some g' => round_data g' = round_data g | None => True end.
Proof.
  unfold move_ghost, mbind, M_bind. destruct (choose _ s) as [[d s1]|]; [|done].
  destruct (find_next _ _ _ _ s1) as [[[next|] s2]|]; [|by intros [= <- _]|done].
  unfold ask. destruct (isValidMove g next) as [[]|]; cbn [mbind option_bind]; [|by intros [= <- _]|done].
  destruct (place_ghost i gh next g) as [g'|] eqn:Hp; [|done]. intros [= <- _]. by eapply place_ghost_kept.
Qed.

Lemma ghosts_kept fuel n i g s g' s' : ghosts_loop fuel n i g s = Some (Some g', s') → round_data g' = round_data g.
Proof.
  revert i g s. induction n as [|n IH]; intros i g s; cbn [ghosts_loop]; [by intros [= ->]|].
  unfold mbind, M_bind, ask. destruct (znth (ghosts g) i) as [gh|]; [|done]. cbn [mbind option_bind].
  destruct (g_isAlive gh =? 0); [apply IH|].
  assert (Hmove : match move_ghost fuel i gh g s with
    | Some (None, s1) => Some (None, s1) | Some (Some g1, s1) => ghosts_loop fuel n (i + 1) g1 s1 | None => None end = Some (Some g', s') →
    round_data g' = round_data g).
  { destruct (move_ghost fuel i gh g s) as [[[g1|] s1]|] eqn:Hm; [|done|done]. intros ->%IH. exact (move_ghost_kept _ _ _ _ _ _ _ Hm). }
  destruct (g_behaviour gh); [| |by intros [= -> _]];
    (destruct (move_ghost fuel i gh g s) as [[[g1|] s1]|]; exact Hmove).
Qed.

Lemma timers_kept e g : round_data (updateTimerState e g) = round_data g.
Proof. unfold updateTimerState, update_respawn, update_boost. repeat case_match; done. Qed.

Lemma update_kept fuel e g s g' s' : updateGameState fuel e g s = Some (Some g', s') → round_data g' = round_data g.
Proof.
  unfold updateGameState, mbind, M_bind, ask. destruct (updatePacmanPosition g) as [g1|] eqn:H1; [|done]. cbn [mbind option_bind].
  apply updatePacman_kept in H1. unfold updateGhostsPositions.
  destruct (ghosts_loop fuel _ 0 g1 s) as [[[g2|] s2]|] eqn:H2; [|done|done]. intros [= <- _]. apply ghosts_kept in H2.
  rewrite timers_kept. congruence.
Qed.
End kept.

(** ** The pictures are drawn *)

(** [r] adds the same calls to every trace. *)
Definition draws (r : R unit) (pic : list call) : Prop := ∀ t, r t = Some (tt, t ++ pic).

Section draws.
Implicit Types (r : R unit) (g : GameState).

Lemma draws_ret : draws (mret tt) [].
Proof. intros t. by rewrite app_nil_r. Qed.

Lemma draws_emit c : draws (emit c) [c].
Proof. done. Qed.

Lemma draws_bind r r' : (∃ p, draws r p) → (∃ p, draws r' p) → ∃ p, draws (r ;; r') p.
Proof.
  intros [p Hp] [p' Hp']. exists (p ++ p'). intros t. unfold mbind, M_bind. by rewrite Hp, Hp', app_assoc.
Qed.

Lemma draws_ask {A} (o : option A) (f : A → R unit) a :
  o = Some a → (∃ p, draws (f a) p) → ∃ p, draws (x ← ask (λ _, o); f x) p.
Proof. intros -> [p Hp]. exists p. intros t. unfold mbind, M_bind, ask. cbn. apply Hp. Qed.

Lemma draws_for n i (body : Z → R unit) :
  (∀ j, i ≤ j < i + Z.of_nat n → ∃ p, draws (body j) p) → ∃ p, draws (for_up n i body) p.
Proof.
  revert i. induction n as [|n IH]; intros i Hb; cbn [for_up]; [by exists []; apply draws_ret|].
  apply draws_bind; [apply Hb; lia|]. apply IH. intros j Hj. apply Hb. lia.
Qed.

Lemma draws_number a b : (11 ≤ length b)%nat → ∃ p, draws (print_number a b) p.
Proof.
  intros Hb. assert (∃ b', itodeca (s32 a) b = Some b') as [b' E].
  { pose proof (s32_range a) as Hr. unfold is_s32 in Hr. destruct (Z.ltb_spec (s32 a) 0) as [Hneg|Hpos].
    - unfold itodeca. destruct (Z.eqb_spec (s32 a) 0); [lia|]. cbn [while d_a].
      destruct (Z.ltb_spec 0 (s32 a)); [lia|]. cbn [mbind option_bind d_i d_b]. change (Z.to_nat (Z.quot 0 2)) with 0%nat.
      cbn [reverse_loop mbind option_bind]. rewrite zset_Some by lia. eauto.
    - pose proof (numeral_length 10 10 (s32 a) ltac:(lia)). rewrite itodeca_numeral by lia. eauto. }
  apply (draws_ask _ _ b'); [exact E|]. exists [Print b']. apply draws_emit.
Qed.
End draws.

(** Proves that a rendering function draws, up to the numbers and the arrays. *)
Ltac draws_tac :=
  repeat (intros; lazymatch goal with
    | |- ∃ p, draws (for_up _ _ _) p => apply draws_for
    | |- ∃ p, draws (print_number _ _) p => apply draws_number; assumption
    | |- ∃ p, draws (mbind (λ _, ?r') ?r) p => apply (draws_bind r r')
    | |- ∃ p, draws (mret tt) p => exists []; exact draws_ret
    | |- ∃ p, draws (gotoxy _ _) p => eexists; apply draws_emit
    | |- ∃ p, draws (set_color _ _) p => eexists; apply draws_emit
    | |- ∃ p, draws (print _) p => eexists; apply draws_emit
    | |- ∃ p, draws (print_lit _) p => eexists; apply draws_emit
    end).

Section pictures.
Implicit Types (g : GameState) (W : Point → bool).

Lemma clear_screen_draws : ∃ p, draws clear_screen p.
Proof. unfold clear_screen. draws_tac. Qed.

Lemma introduce_draws : ∃ p, draws renderIntroduceName p.
Proof. unfold renderIntroduceName. apply draws_bind; [apply clear_screen_draws|]. cbv zeta. draws_tac. Qed.

Lemma game_over_draws b g : (11 ≤ length b)%nat → ∃ p, draws (renderGameOver b g) p.
Proof. intros Hb. unfold renderGameOver. apply draws_bind; [apply clear_screen_draws|]. draws_tac. Qed.

Lemma leaderboard_draws b g :
  (11 ≤ length b)%nat → leaderboardSize g ≤ Z.of_nat (length (leaderboard g)) → ∃ p, draws (renderLeaderboard b g) p.
Proof.
  intros Hb Hl. unfold renderLeaderboard. apply draws_bind; [apply clear_screen_draws|]. draws_tac.
  match goal with |- context [znth (leaderboard g) ?i] => destruct (znth_in_range (leaderboard g) i) as [e He]; [lia|] end.
  apply (draws_ask _ _ e He). draws_tac.
Qed.

Lemma colors_exist g c : length (ghosts g) = 4%nat → ∃ col, getMapColors g c = Some col.
Proof.
  intros Hl. unfold getMapColors, ghost_colors. destruct (ghosts g) as [|a [|b [|d [|e [|]]]]]; try discriminate.
  repeat case_match; cbn; eauto.
Qed.

Lemma map_draws W g : map_ok W g → length (ghosts g) = 4%nat → ∃ p, draws (renderMap g) p.
Proof.
  intros Hm Hl. unfold renderMap. apply draws_bind; [draws_tac|].
  apply draws_for. intros i Hi. apply draws_for. intros j Hj. destruct (load_in_map W g (mk_Point j i) Hm) as [c Hc].
  { unfold in_map, MAP_WIDTH, MAP_HEIGHT in *. cbn. lia. }
  apply (draws_ask _ _ c Hc). destruct (c =? 0); [draws_tac|].
  destruct (colors_exist g c Hl) as [col Hcol]. apply (draws_ask _ _ col Hcol). draws_tac.
Qed.

(** The rate of the frames has room in its text. *)
Lemma fps_fits n : 0 < n → ∃ b, itodeca (s32 (TICKS_PER_SECOND / n)) (drop 5 (chars "FPS:    " ++ [0; 0])) = Some b.
Proof.
  intros Hn. assert (0 ≤ TICKS_PER_SECOND / n ≤ 400) as Hq.
  { unfold TICKS_PER_SECOND. split; [apply Z.div_pos; lia|]. apply Z.div_le_upper_bound; nia. }
  set (q := TICKS_PER_SECOND / n) in *. clearbody q.
  assert (Hall : forallb (λ a, match itodeca (s32 a) (drop 5 (chars "FPS:    " ++ [0; 0])) with Some _ => true | None => false end)
    (seqZ 0 401) = true) by (vm_compute; reflexivity).
  rewrite forallb_forall in Hall. specialize (Hall q). rewrite <- list_elem_of_In, elem_of_seqZ in Hall.
  specialize (Hall ltac:(lia)). destruct (itodeca _ _); [eauto|done].
Qed.

Lemma game_draws W junk b g r ticks :
  map_ok W g → length (ghosts g) = 4%nat → (11 ≤ length b)%nat → (81 ≤ length junk)%nat → 0 ≤ ticks < 2 ^ 32 - 1 →
  ∃ p, draws (renderGame junk b g r ticks) p.
Proof.
  intros Hm Hl Hb Hj Ht. unfold renderGame. apply draws_bind; [by eapply map_draws|].
  unfold renderFooter. rewrite u32_small by (unfold is_u32; lia).
  apply draws_bind. { unfold clear_line. draws_tac. eapply draws_ask; [apply zset_Some; unfold MAP_WIDTH; lia|draws_tac]. }
  draws_tac. destruct (Z.eqb_spec (ticks + 1) 0); [lia|].
  destruct (fps_fits (ticks + 1)) as [tail Htail]; [lia|].
  assert (E : ∀ (f : Z → R unit) v, (x ← mret v; f x) = f v) by done. rewrite E.
  cbv zeta. apply (draws_ask _ _ tail Htail). draws_tac.
Qed.
End pictures.

(** ** A frame *)

(** The lengths of the arrays that the code does not initialise. *)
Record arrays_ok `{Environment} : Prop := {
  ao_clear : length clear_str = 81%nat;
  ao_64 : length digits_64 = 64%nat;
  ao_50 : length digits_50 = 50%nat;
  ao_30 : length digits_30 = 30%nat;
}.

(** The table of the scores and the name [t] of the player. *)
Record table_ok (t : list Z) (g : GameState) : Prop := {
  to_size : 0 ≤ leaderboardSize g ≤ MAX_LEADERBOARD_ENTRIES;
  to_entries : Z.of_nat (length (leaderboard g)) = MAX_LEADERBOARD_ENTRIES;
  to_names : Forall (λ e, length (name e) = 11%nat) (leaderboard g);
  to_player : ∃ rest, currentPlayer g = t ++ 0 :: rest;
  to_text : is_text t ∧ (length t ≤ 10)%nat;
}.

(** The process in the inner loop of [gameloop]. *)
Record playing `{Environment} (W : Point → bool) (t : list Z) (w : world) : Prop := {
  pl_game : game_ok W (game w);
  pl_table : table_ok t (game w);
  pl_seed : is_u32 (seed w);
  pl_pellets : 0 < pelletsRemaining (game w);
  pl_timer : 0 ≤ prevTimer w ≤ time w;
}.

(** The score of [t] has been added to the table of [g], if there was room. *)
Definition recorded (t : list Z) (g g' : GameState) : Prop :=
  if leaderboardSize g <? MAX_LEADERBOARD_ENTRIES then
    ∃ e, znth (leaderboard g) (leaderboardSize g) = Some e ∧
      g' = set_leaderboard
        (<[Z.to_nat (leaderboardSize g) := mk_LeaderboardEntry (overwrite (name e) 0 (cstr t)) (u32 (s32 (score g)))]> (leaderboard g))
        (leaderboardSize g + 1) g
  else g' = g.

Lemma table_same t g g' : round_data g' = round_data g → table_ok t g → table_ok t g'.
Proof. unfold round_data. intros [= _ _ El Es Ep] [H1 H2 H3 H4 H5]. split; rewrite ?El, ?Es, ?Ep; assumption. Qed.

Lemma record_run t g :
  table_ok t g → ∃ g', updateLeaderboard g (currentPlayer g) (s32 (score g)) = Some g' ∧ recorded t g g' ∧
    leaderboardSize g' ≤ Z.of_nat (length (leaderboard g')).
Proof.
  intros [[H1 H1'] H2 H3 (rest & H4) [H5 H5']]. unfold updateLeaderboard, recorded. rewrite H4.
  destruct (Z.ltb_spec (leaderboardSize g) MAX_LEADERBOARD_ENTRIES); [|eexists; split; [done|]; split; [done|lia]].
  destruct (znth_in_range (leaderboard g) (leaderboardSize g)) as [e He]; [lia|]. rewrite He. cbn [mbind option_bind].
  assert (length (name e) = 11%nat) as Hl.
  { rewrite <- (Z2Nat.id (leaderboardSize g)), znth_of_nat in He by lia. by apply (proj1 (Forall_lookup _ _) H3 _ _ He). }
  unfold strcpy_entry. rewrite strcpy_text by (done || lia). cbn [mbind option_bind]. rewrite zset_Some by lia. cbn [mbind option_bind].
  eexists. split; [done|]. split; [by exists e|]. cbn [leaderboardSize leaderboard set_leaderboard]. rewrite length_insert. lia.
Qed.

Section frame.
Context `{Environment} (g B : Z) (N : nat).
Hypothesis Hck : clock_ok g B N.
Hypothesis Har : arrays_ok.
Implicit Types (w : world) (W : Point → bool).

Lemma wp_draw r (Q : unit → world → Prop) w :
  (∃ p, draws r p) → (∀ p, draws r p → Q tt (set_shown (shown w ++ p) w)) → wp (draw r) Q w.
Proof. intros [p Hp] HQ. eapply wp_lift; [by rewrite Hp|]. by apply HQ. Qed.

Lemma wait_run fuel w (Q : unit → world → Prop) :
  0 ≤ prevTimer w ≤ time w → prevTimer w + TICKS_PER_FRAME ≤ B → (N - ticks_read w < fuel)%nat →
  (∀ m, prevTimer w + TICKS_PER_FRAME ≤ clock m → Q tt (set_ticks_read m w)) → wp (wait_frame fuel) Q w.
Proof.
  revert w. induction fuel as [|f IH]; intros w Hp HB Hf HQ; [lia|]. cbn [wait_frame].
  unfold gettime. apply wp_bind, wp_bind, wp_gets, wp_bind, wp_modify, wp_ret, wp_bind, wp_gets.
  cbn [prevTimer set_ticks_read]. unfold time in Hp. set (n := ticks_read w) in *.
  pose proof (co_int _ _ _ Hck n) as Hi. change (2 ^ 31) with 2147483648 in Hi.
  rewrite u32_small by (unfold is_u32; change (2 ^ 32) with 4294967296; lia).
  pose proof (co_step _ _ _ Hck n) as [Hs _]. destruct (Z.ltb_spec (clock n - prevTimer w) TICKS_PER_FRAME).
  - apply IH; cbn [prevTimer ticks_read set_ticks_read]; [unfold time; cbn; lia|done| |exact HQ].
    assert (n < N)%nat; [|lia]. apply Nat.nle_gt. intros Hle.
    pose proof (clock_mono g B N Hck N n Hle). pose proof (co_end _ _ _ Hck). lia.
  - apply wp_ret, (HQ (S n)). lia.
Qed.

Lemma end_run fuel t w (Q : unit → world → Prop) :
  table_ok t (game w) → time w + 3000 + 4 * g ≤ B → (N + 1 < fuel)%nat →
  (∀ g' m pic, recorded t (game w) g' → Q tt (set_shown (shown w ++ pic) (set_ticks_read m (set_game g' w)))) →
  wp (end_game fuel) Q w.
Proof.
  intros Ht HB Hf HQ. destruct (record_run t (game w) Ht) as (g' & Hg' & Hrec & Hl). assert (Hg := clock_jump g B N Hck).
  unfold end_game. apply wp_bind. eapply wp_lift; [by rewrite Hg'|]. apply wp_bind, wp_gets.
  apply wp_bind, wp_draw; [apply game_over_draws; rewrite (ao_30 Har); lia|]. intros p1 _.
  apply wp_bind, (wp_sleep g B N Hck); [lia|change (time _) with (time w); change (3000 / 2) with 1500; lia|done|].
  intros w2 (m2 & -> & Hm2) _. change (3000 / 2) with 1500 in *. change (time (set_shown _ _)) with (time w) in Hm2.
  apply wp_bind, wp_draw; [apply leaderboard_draws; [rewrite (ao_50 Har); lia|exact Hl]|]. intros p2 _.
  apply (wp_sleep g B N Hck); [lia|change (3000 / 2) with 1500|done|].
  { match type of Hm2 with _ ≤ ?x ≤ _ => match goal with |- ?y + _ ≤ _ => change y with x end end. lia. }
  intros w3 (m3 & -> & Hm3) _. cbn [shown set_shown set_ticks_read set_game].
  specialize (HQ g' m3 (p1 ++ p2) Hrec). rewrite app_assoc in HQ. exact HQ.
Qed.

Lemma render_run fuel W t w (Q : unit → world → Prop) :
  playing W t w → prevTimer w + TICKS_PER_FRAME ≤ B → (N + 1 < fuel)%nat →
  (∀ pic ticks w', draws (renderGame clear_str digits_64 (game w) 0 ticks) pic →
     game w' = game w → seed w' = seed w → shown w' = shown w ++ pic →
     prevTimer w + TICKS_PER_FRAME ≤ prevTimer w' ≤ time w' → Q tt w') → wp (render_frame fuel) Q w.
Proof.
  intros [Hok Ht Hsd Hp Htm] HB Hf HQ. unfold render_frame. apply wp_bind, wait_run; [done|done|lia|]. intros m Hm.
  unfold gettime at 1. apply wp_bind, wp_bind, wp_gets, wp_bind, wp_modify, wp_ret, wp_bind, wp_gets, wp_bind, wp_gets.
  cbn [prevTimer ticks_read set_ticks_read game].
  pose proof (co_int _ _ _ Hck m) as Hi. change (2 ^ 31) with 2147483648 in Hi. unfold TICKS_PER_FRAME, TICKS_PER_SECOND, FPS in *.
  change (400 / 5) with 80 in *. rewrite u32_small by (unfold is_u32; change (2 ^ 32) with 4294967296; lia).
  apply wp_bind, wp_draw.
  { apply (game_draws W); [apply Hok| |rewrite (ao_64 Har); lia|rewrite (ao_clear Har); lia|change (2 ^ 32) with 4294967296; lia].
    pose proof (proj1 (ok_ghosts _ _ Hok)). unfold NUM_GHOSTS in *. lia. }
  intros pic Hpic. unfold gettime. apply wp_bind, wp_bind, wp_gets, wp_bind, wp_modify, wp_ret, wp_modify.
  eapply HQ; [exact Hpic|done|done|done|]. cbn [prevTimer ticks_read set_ticks_read set_shown set_times]. unfold time. cbn [ticks_read set_times set_ticks_read].
  pose proof (co_int _ _ _ Hck (S m)) as Hi'. change (2 ^ 31) with 2147483648 in Hi'.
  pose proof (co_step _ _ _ Hck m). pose proof (co_step _ _ _ Hck (S m)).
  rewrite u32_small by (unfold is_u32; change (2 ^ 32) with 4294967296; lia). lia.
Qed.
End frame.

Section theorem.
Context `{Environment} (g B : Z) (N : nat).
Hypothesis Hck : clock_ok g B N.
Hypothesis Har : arrays_ok.
Implicit Types (w : world) (W : Point → bool).

Lemma input_ok W k gm : game_ok W gm → game_ok W (processInput k gm).
Proof. intros [H1 H2 H3 H4]. split; [by apply (map_ok_same W gm)|exact H2|exact H3|exact H4]. Qed.

(** An update ends, or a ghost is stuck and it never does. *)
Lemma update_total W gm s :
  game_ok W gm → is_u32 s →
  (∃ f0 G s', is_u32 s' ∧ game_ok W G ∧ round_data G = round_data gm ∧
     ∀ f e, (f0 ≤ f)%nat → updateGameState f e gm s = Some (Some G, s')) ∨
  (∃ g1 i g', updatePacmanPosition gm = Some g1 ∧ stuck W g1 s i g' ∧ ∀ f e, ∃ s', updateGameState f e gm s = Some (None, s')).
Proof.
  intros Hok Hs. pose proof (ok_framed _ _ Hok) as HF.
  destruct (updatePacmanPosition_ok W HF gm Hok) as (g1 & Hg1 & Hok1).
  assert (Hrun : ∀ f e, updateGameState f e gm s =
    match updateGhostsPositions f g1 s with Some (r, s') => Some (updateTimerState 100 <$> r, s') | None => None end).
  { intros f e. unfold updateGameState, mbind at 1, M_bind, ask. by rewrite Hg1. }
  destruct (ghosts_turn_run W g1 s Hok1 Hs) as [(f0 & g2 & s' & Hok2 & _ & Hf)|(i & g2 & Hst & Hf)].
  - left. exists f0, (updateTimerState 100 g2), s'.
    pose proof (ghosts_loop_ok W HF f0 4 0 g1 s Hok1 ltac:(lia) ltac:(done) Hs) as Hw. unfold wp in Hw.
    unfold updateGhostsPositions in Hf. change (Z.to_nat NUM_GHOSTS) with 4%nat in Hf. rewrite (Hf f0) in Hw by lia. destruct Hw as [Hs' _].
    split; [exact Hs'|]. split; [by apply updateTimerState_ok|]. split.
    + apply (update_kept f0 0 gm s _ s'). rewrite Hrun. unfold updateGhostsPositions. change (Z.to_nat NUM_GHOSTS) with 4%nat. by rewrite Hf.
    + intros f e Hle. rewrite Hrun. unfold updateGhostsPositions. change (Z.to_nat NUM_GHOSTS) with 4%nat. by rewrite Hf.
  - right. exists g1, i, g2. split; [done|]. split; [done|]. intros f e. rewrite Hrun. destruct (Hf f) as [s' ->]. by exists s'.
Qed.

(** The frame, up to the update. *)
Lemma frame_run fuel (Q : option bool → world → Prop) w gm :
  gm = processInput (key (keys_read w)) (game w) →
  (∀ e wi, game wi = gm → seed wi = seed w → shown wi = shown w → prevTimer wi = prevTimer w → ticks_read wi = S (ticks_read w) →
     keys_read wi = S (keys_read w) → player wi = player w →
     wp (r ← update fuel e;
         match r with
         | None => mret None
         | Some _ =>
             gm ← gets game;
             if playerHasNoLife gm then end_game fuel ;; mret (Some true)
             else b ← round_over fuel; if (b : bool) then mret (Some true) else render_frame fuel ;; mret (Some false)
         end) Q wi) →
  wp (frame fuel) Q w.
Proof.
  intros -> HQ. unfold frame. apply wp_bind, wp_modify. unfold read_key.
  apply wp_bind, wp_bind, wp_gets, wp_bind, wp_modify, wp_ret. apply wp_bind. eapply wp_lift; [done|].
  apply wp_bind, wp_gets. unfold gettime at 1. apply wp_bind, wp_bind, wp_gets, wp_bind, wp_modify, wp_ret.
  apply wp_bind, wp_modify, wp_bind, wp_gets. by apply HQ.
Qed.

Lemma frame_total W t w :
  playing W t w → time w + 3000 + 5 * g ≤ B →
  (∃ f0 G s, is_u32 s ∧ game_ok W G ∧ round_data G = round_data (game w) ∧
     (∀ f e, (f0 ≤ f)%nat → updateGameState f e (processInput (key (keys_read w)) (game w)) (seed w) = Some (Some G, s)) ∧
     ∀ fuel, (f0 ≤ fuel)%nat → wp (frame fuel) (λ b w', seed w' = s ∧
       if lives G <=? 0 then b = Some true ∧ recorded t G (game w')
       else b = Some false ∧ game w' = G ∧ playing W t w' ∧ prevTimer w + TICKS_PER_FRAME ≤ prevTimer w' ∧
         ∃ pic ticks, draws (renderGame clear_str digits_64 G 0 ticks) pic ∧ shown w' = shown w ++ pic) w) ∨
  (∃ g1 i g', updatePacmanPosition (processInput (key (keys_read w)) (game w)) = Some g1 ∧ stuck W g1 (seed w) i g' ∧
     ∀ fuel, ∃ w', frame fuel w = Some (None, w')).
Proof.
  intros [Hok Ht Hsd Hp Htm] HB. set (gm := processInput (key (keys_read w)) (game w)).
  assert (Hg := clock_jump g B N Hck).
  destruct (update_total W gm (seed w) (input_ok W _ _ Hok) Hsd) as [(f0 & G & s & Hs & HG & Hrd & Hf)|(g1 & i & g' & Hg1 & Hst & Hf)].
  2: { right. exists g1, i, g'. split; [exact Hg1|]. split; [exact Hst|]. intros fuel.
       unfold frame, read_key, on_game, gettime, update, mbind, M_bind, modify, gets, lift, mret, M_ret. cbn. fold gm.
       match goal with |- context [updateGameState fuel ?e gm ?s] => destruct (Hf fuel e) as [s' ->] end. by eexists. }
  change (round_data gm) with (round_data (game w)) in Hrd.
  left. exists (f0 `max` (N + 2))%nat, G, s. split; [done|]. split; [done|]. split; [exact Hrd|].
  split; [intros f e Hle; apply Hf; lia|]. intros fuel Hle.
  apply (frame_run fuel _ w gm eq_refl). intros e wi E1 E2 E3 E4 E5 E6 E7.
  apply wp_bind. unfold wp at 1, update. rewrite E1, E2, (Hf fuel e) by lia.
  apply wp_bind, wp_gets. cbn [game set_game set_seed].
  assert (Htw : table_ok t G) by (by apply (table_same t (game w))).
  assert (Htime : time w ≤ clock (S (ticks_read w)) ≤ time w + g).
  { pose proof (co_step _ _ _ Hck (ticks_read w)). unfold time. lia. }
  unfold playerHasNoLife. destruct (lives G <=? 0).
  - apply wp_bind, (end_run g B N Hck Har fuel t); cbn [game set_game set_seed]; [done|unfold time; cbn [ticks_read set_game set_seed]; rewrite E5; lia|lia|].
    intros G' m pic Hrec. by apply wp_ret.
  - unfold round_over. apply wp_bind, wp_bind, wp_gets. cbn [game set_game set_seed].
    assert (pelletsRemaining G = pelletsRemaining (game w)) as Hpel by (by injection Hrd).
    unfold isRoundOver. destruct (Z.leb_spec (pelletsRemaining G) 0); [lia|]. apply wp_ret.
    set (wu := set_game G _). assert (Hpl : playing W t wu).
    { split; cbn; [done|done|done|lia|]. rewrite E4. unfold time. cbn. rewrite E5. lia. }
    apply wp_bind, (render_run g B N Hck Har fuel W t wu); [exact Hpl| |lia|].
    { cbn. rewrite E4. unfold TICKS_PER_FRAME, TICKS_PER_SECOND, FPS. change (400 / 5) with 80. lia. }
    intros pic ticks w' Hpic Hgm Hsd' Hsh Htm'. apply wp_ret. cbn in Hgm, Hsd', Hsh, Htm'. rewrite E4 in Htm'. rewrite E3 in Hsh.
    split; [exact Hsd'|]. split; [done|]. split; [exact Hgm|]. split; [|split; [lia|eauto]].
    split; [by rewrite Hgm|by rewrite Hgm|by rewrite Hsd'|rewrite Hgm; lia|].
    unfold TICKS_PER_FRAME, TICKS_PER_SECOND, FPS in *. change (400 / 5) with 80 in *. lia.
Qed.
End theorem.

(** C35: a frame of the game.  While pellets remain, with the clock moving and 3000
    ticks before the end of its range, a frame reads one key and updates the
    game once, without a fault, whatever the ghosts draw.  The one exception: after
    the step of pacman and the turns of the ghosts before it, the turn comes to a
    living ghost with walls or ghosts on all sides, and then the update never ends,
    with any fuel.  A frame ends
    the game exactly when no life is left, and then the score is in the table
    under the name of the player if there was room.  Otherwise it waits until 80
    ticks have passed since the last picture, draws the new state, and the
    conditions it started from hold again.  An update keeps the number of
    pellets and the level, so that a round is never won: only the loss of the
    last life ends a game, and the second level is never reached. *)
Theorem game_frame_correct `{Environment} g B N W t (w : world) :
  clock_ok g B N → arrays_ok → playing W t w → time w + 3000 + 5 * g ≤ B →
  (∃ f0 G s, is_u32 s ∧ game_ok W G ∧ round_data G = round_data (game w) ∧
     (∀ f e, (f0 ≤ f)%nat → updateGameState f e (processInput (key (keys_read w)) (game w)) (seed w) = Some (Some G, s)) ∧
     ∀ fuel, (f0 ≤ fuel)%nat → wp (frame fuel) (λ b w', seed w' = s ∧
       if lives G <=? 0 then b = Some true ∧ recorded t G (game w')
       else b = Some false ∧ game w' = G ∧ playing W t w' ∧ prevTimer w + TICKS_PER_FRAME ≤ prevTimer w' ∧
         ∃ pic ticks, draws (renderGame clear_str digits_64 G 0 ticks) pic ∧ shown w' = shown w ++ pic) w) ∨
  (∃ g1 i g', updatePacmanPosition (processInput (key (keys_read w)) (game w)) = Some g1 ∧ stuck W g1 (seed w) i g' ∧
     ∀ fuel, ∃ w', frame fuel w = Some (None, w')).
Proof. intros Hck Har Hpl HB. exact (frame_total g B N Hck Har W t w Hpl HB). Qed.

#[export] Instance LeaderboardEntry_eq_dec : EqDecision LeaderboardEntry.
Proof. solve_decision. Defined.

Definition example_playing_b (g : GameState) : bool :=
  (leaderboardSize g =? 0) && bool_decide (leaderboard g = replicate 2 (mk_LeaderboardEntry (replicate 11 0) 0)) &&
  bool_decide (currentPlayer g = [112; 97; 99] ++ 0 :: replicate 7 0).

Lemma example_playing : ∃ g, playing (H := example_env) (level_walls 0) [112; 97; 99] (set_game g example_world).
Proof.
  destruct (initializeRound_ok 0 1 0 (cstr [112; 97; 99]) [112; 97; 99] blank_game blank_shape) as (g & Hg & Hok & _ & _ & _ & Hp);
    [by left|done|by repeat constructor|cbn; lia|].
  assert (H : match first_round 0 with Some g => example_playing_b g | None => false end = true) by (vm_compute; reflexivity).
  unfold first_round in H. rewrite Hg in H. unfold example_playing_b in H.
  apply andb_prop in H as [H H3]. apply andb_prop in H as [H1 H2].
  apply Z.eqb_eq in H1. apply bool_decide_eq_true in H2, H3. exists g. split.
  - exact Hok.
  - split; cbn [game set_game].
    + rewrite H1. unfold MAX_LEADERBOARD_ENTRIES. lia.
    + by rewrite H2.
    + rewrite H2. by apply Forall_replicate.
    + exists (replicate 7 0). exact H3.
    + split; [by repeat constructor|cbn; lia].
  - unfold is_u32, example_world. cbn. lia.
  - cbn. rewrite Hp. done.
  - unfold time. cbn. lia.
Qed.

Lemma game_frame_correct_witness : ∃ g,
  (∃ f0 G, game_ok (level_walls 0) G ∧
     ∀ fuel, (f0 ≤ fuel)%nat → wp (frame (H := example_env) fuel) (λ b w', lives G ≤ 0 ∨ game w' = G) (set_game g example_world)) ∨
  (∃ g1 i g', stuck (level_walls 0) g1 322321 i g' ∧ ∀ fuel, ∃ w', frame (H := example_env) fuel (set_game g example_world) = Some (None, w')).
Proof.
  destruct example_playing as [g Hpl]. exists g.
  destruct (game_frame_correct (H := example_env) 1 5000 5000 _ _ _ (example_clock 5000 ltac:(lia)) ltac:(split; reflexivity) Hpl)
    as [(f0 & G & s & _ & HG & _ & _ & Hf)|(g1 & i & g' & _ & Ht)]; [unfold time; cbn; lia| |right; exists g1, i, g'; exact Ht].
  left. exists f0, G. split; [exact HG|]. intros fuel Hle. eapply wp_mono; [exact (Hf fuel Hle)|].
  intros b w' [_ Hr]. destruct (Z.leb_spec (lives G) 0); [left; exact H|right; exact (proj1 (proj2 Hr))].
Defined.
