(* ===== verification/Build.v ===== *)
(** * The image builder (build.c)

    The program of the host that joins the boot sector, the kernel and the user
    program in a disk image.  Files are lists of bytes; the standard output is
    a regular file with a position, on which writes and seeks succeed, and a
    read of a file that is open answers the bytes there are.  [die] is an error
    value. *)

From S2P Require Import Prelude CInt.

#[local] Notation length := Datatypes.length.

(** The calls of [die]. *)
Inductive death :=
  | Usage | Unable_to_open | No_header | Non_minix | Illegal_data | Illegal_bss | Illegal_symbols
  | Not_512_bytes | No_boot_flag | Unexpected_EOF.

#[export] Instance death_eq_dec : EqDecision death.
Proof. solve_decision. Defined.

(** The globals: [buf], what is left to read of [fd], the standard output and
    its position. *)
Record host := mk_host { buf : list Z; input : list Z; out : list Z; pos : nat }.

(** Computations that end, or die. *)
Definition D (A : Type) : Type := host → death + (A * host).

#[export] Instance D_ret : MRet D := λ A a h, inr (a, h).
#[export] Instance D_bind : MBind D := λ A B f m h,
  match m h with inl e => inl e | inr (a, h') => f a h' end.

Definition die {A} (e : death) : D A := λ _, inl e.
Definition host_gets {A} (f : host → A) : D A := λ h, inr (f h, h).
Definition host_modify (f : host → host) : D unit := λ h, inr (tt, f h).

Definition BUFSIZE : nat := 1024.
Definition MINIX_HEADER_LEN : nat := 32.
Definition DEFAULT_MAJOR_ROOT : Z := 0.
Definition DEFAULT_MINOR_ROOT : Z := 0.

(** ** The calls of the system *)

(** [open(name, O_RDONLY, 0)]: a file that can be opened, or not. *)
Definition open_file (f : option (list Z)) : D unit :=
  match f with
  | None => die Unable_to_open
  | Some c => host_modify (λ h, mk_host (buf h) c (out h) (pos h))
  end.

(** [read(fd, buf, n)] *)
Definition read (n : nat) : D nat :=
  d ← host_gets (λ h, take n (input h));
  host_modify (λ h, mk_host (d ++ drop (length d) (buf h)) (drop n (input h)) (out h) (pos h)) ;;
  mret (length d).

(** A write at a position past the end fills the gap with zeros. *)
Definition splice (p : nat) (d o : list Z) : list Z :=
  take p (o ++ replicate (p - length o) 0) ++ d ++ drop (p + length d) o.

(** [write(1, buf, n)] *)
Definition write (n : nat) : D unit :=
  host_modify (λ h, mk_host (buf h) (input h) (splice (pos h) (take n (buf h)) (out h)) (pos h + length (take n (buf h)))).

(** [lseek(1, n, SEEK_SET)] *)
Definition lseek (n : nat) : D unit := host_modify (λ h, mk_host (buf h) (input h) (out h) n).

Definition set_buf (i : nat) (v : Z) : D unit :=
  host_modify (λ h, mk_host (<[i := v]> (buf h)) (input h) (out h) (pos h)).

Definition buf_at (b : list Z) (i : nat) : Z := default 0 (b !! i).

(** [lb[k]], [lb] being [buf] read as little-endian words. *)
Definition word (b : list Z) (k : nat) : Z :=
  buf_at b (4 * k) + 2 ^ 8 * buf_at b (4 * k + 1) + 2 ^ 16 * buf_at b (4 * k + 2) + 2 ^ 24 * buf_at b (4 * k + 3).

(** ** The program *)

Definition hdr : list Z := [0x01; 0x03; 0x10; 0x04; 0x20; 0x00; 0x00; 0x00].

Definition minix_open (f : option (list Z)) : D unit :=
  open_file f ;;
  n ← read MINIX_HEADER_LEN;
  if negb (n =? MINIX_HEADER_LEN)%nat then die No_header
  else
    b ← host_gets buf;
    if negb (bool_decide (take 8 b = hdr)) || negb (word b 5 =? 0) then die Non_minix
    else if negb (word b 3 =? 0) then die Illegal_data
    else if negb (word b 4 =? 0) then die Illegal_bss
    else if negb (word b 7 =? 0) then die Illegal_symbols
    else mret tt.

(** Copying the boot sector. *)
Definition copy_boot (f : option (list Z)) : D unit :=
  minix_open f ;;
  i ← read BUFSIZE;
  if negb (i =? 512)%nat then die Not_512_bytes
  else
    b ← host_gets buf;
    if negb (buf_at b 510 =? 0x55) || negb (buf_at b 511 =? 0xaa) then die No_boot_flag
    else
      set_buf 508 DEFAULT_MINOR_ROOT ;;
      set_buf 509 DEFAULT_MAJOR_ROOT ;;
      write 512.

(** [while (sz > 0)]; the fuel is more than the number of blocks. *)
Fixpoint copy_loop (fuel : nat) (sz : Z) : D unit :=
  match fuel with
  | O => die Unexpected_EOF
  | S f =>
      if 0 <? sz then
        let l := if Z.of_nat BUFSIZE <? sz then Z.of_nat BUFSIZE else sz in
        n ← read (Z.to_nat l);
        if negb (Z.of_nat n =? l) then die Unexpected_EOF
        else write (Z.to_nat l) ;; copy_loop f (u32 (sz - l))
      else mret tt
  end.

(** Copying a file: the answer is its size. *)
Definition copy_file (f : option (list Z)) : D Z :=
  open_file f ;;
  sz ← host_gets (λ h, u32 (Z.of_nat (length (input h))));
  copy_loop (S (Z.to_nat sz)) sz ;;
  mret sz.

(** [buf[i] = (v >> 8 * i) & 0xff] for the first [n] bytes. *)
Fixpoint set_bytes (n : nat) (i : nat) (v : Z) : D unit :=
  match n with
  | O => mret tt
  | S n => set_buf i (Z.land (Z.shiftr v (8 * Z.of_nat i)) 0xff) ;; set_bytes n (S i) v
  end.

(** Three bytes of a size and a zero, at the place [p] of the image. *)
Definition write_size (v : Z) (p : nat) : D unit :=
  set_bytes 3 0 v ;; set_buf 3 0 ;; lseek p ;; write 4.

Definition main_build (argv : list (option (list Z))) : D unit :=
  match argv with
  | [bootsect; system; user] =>
      copy_boot bootsect ;;
      sys_size ← copy_file system;
      usr_size ← copy_file user;
      let im_size := u32 (sys_size + usr_size + 15) / 16 in
      set_bytes 2 0 im_size ;;
      lseek 500 ;;
      write 2 ;;
      write_size sys_size 512 ;;
      write_size usr_size 516 ;;
      write_size 0x7E6A 520
  | _ => die Usage
  end.

(** The image on the standard output, or the reason why there is none. *)
Definition build (argv : list (option (list Z))) : death + list Z :=
  match main_build argv (mk_host (replicate BUFSIZE 0) [] [] 0) with
  | inl e => inl e
  | inr (_, h) => inr (out h)
  end.

(** ** What the parts do *)

(** The boot files that are accepted: a header of the format of ld86 without
    data, bss and symbols, and a sector that ends with the boot flag. *)
Record bootable (c : list Z) : Prop := {
  bt_length : length c = (MINIX_HEADER_LEN + 512)%nat;
  bt_magic : take 8 c = hdr;
  bt_segments : word c 3 = 0 ∧ word c 4 = 0 ∧ word c 5 = 0 ∧ word c 7 = 0;
  bt_flag : buf_at c (32 + 510) = 0x55 ∧ buf_at c (32 + 511) = 0xaa;
}.

(** A run from [h] ends in [Q], or dies and then [E] holds. *)
Definition dwp {A} (m : D A) (Q : A → host → Prop) (E : Prop) (h : host) : Prop :=
  match m h with inr (a, h') => Q a h' | inl _ => E end.

Section parts.
Implicit Types (h : host) (c d o : list Z) (E : Prop).

Lemma dwp_bind {A B} (m : D A) (f : A → D B) Q E h : dwp m (λ a, dwp (f a) Q E) E h → dwp (m ≫= f) Q E h.
Proof. unfold dwp, mbind, D_bind. by destruct (m h) as [|[]]. Qed.

Lemma dwp_mono {A} (m : D A) (Q Q' : A → host → Prop) E h : dwp m Q E h → (∀ a h', Q a h' → Q' a h') → dwp m Q' E h.
Proof. unfold dwp. destruct (m h) as [|[]]; auto. Qed.

Lemma read_run n h (Q : nat → host → Prop) E :
  Q (length (take n (input h)))
    (mk_host (take n (input h) ++ drop (length (take n (input h))) (buf h)) (drop n (input h)) (out h) (pos h)) →
  dwp (read n) Q E h.
Proof. done. Qed.

Lemma splice_end d o : splice (length o) d o = o ++ d.
Proof.
  unfold splice. rewrite Nat.sub_diag. cbn [replicate]. rewrite app_nil_r, take_ge by lia.
  rewrite (drop_ge o) by lia. by rewrite app_nil_r.
Qed.

Lemma splice_lookup p d o i : (p ≤ length o)%nat →
  splice p d o !! i = if decide (p ≤ i < p + length d)%nat then d !! (i - p)%nat else o !! i.
Proof.
  intros Hp. unfold splice. replace (p - length o)%nat with 0%nat by lia. cbn [replicate]. rewrite app_nil_r.
  assert (Hl : length (take p o) = p) by (rewrite length_take; lia). case_decide as Hd.
  - rewrite lookup_app_r by lia. rewrite Hl, lookup_app_l by lia. done.
  - destruct (decide (i < p)%nat); [rewrite lookup_app_l by lia; by rewrite lookup_take_lt by lia|].
    rewrite lookup_app_r by lia. rewrite Hl, lookup_app_r by lia. rewrite lookup_drop. f_equal. lia.
Qed.

Lemma length_splice p d o : (p ≤ length o)%nat → length (splice p d o) = (length o `max` (p + length d))%nat.
Proof.
  intros Hp. unfold splice. replace (p - length o)%nat with 0%nat by lia. cbn [replicate].
  rewrite app_nil_r, !length_app, length_take, length_drop. lia.
Qed.

Lemma copy_loop_run fuel h (Q : unit → host → Prop) E :
  length (buf h) = BUFSIZE → pos h = length (out h) → Z.of_nat (length (input h)) < 2 ^ 32 →
  (length (input h) < fuel)%nat →
  (∀ b, length b = BUFSIZE → Q tt (mk_host b [] (out h ++ input h) (length (out h ++ input h)))) →
  dwp (copy_loop fuel (Z.of_nat (length (input h)))) Q E h.
Proof.
  unfold BUFSIZE. revert h. induction fuel as [|f IH]; intros h Hb Hp Hs Hf HQ; [lia|]. cbn [copy_loop]. unfold BUFSIZE.
  destruct (Z.ltb_spec 0 (Z.of_nat (length (input h)))) as [Hpos|Hz].
  - set (l := if Z.of_nat 1024 <? Z.of_nat (length (input h)) then _ else _).
    assert (Hl : 0 < l ≤ 1024 ∧ l ≤ Z.of_nat (length (input h))) by (subst l; destruct (Z.ltb_spec (Z.of_nat 1024) (Z.of_nat (length (input h)))); lia).
    cbv zeta. fold l. clearbody l. set (n := Z.to_nat l). assert (Hn : length (take n (input h)) = n) by (rewrite length_take; lia).
    apply dwp_bind, read_run. rewrite Hn. replace (Z.of_nat n) with l by lia. rewrite Z.eqb_refl. cbn [negb].
    apply dwp_bind. unfold write, host_modify, dwp at 1. cbn [buf input out pos].
    rewrite take_app_length' by (symmetry; exact Hn). rewrite Hn, Hp, splice_end.
    set (h2 := mk_host _ _ _ _). rewrite u32_small by (unfold is_u32; lia).
    replace (Z.of_nat (length (input h)) - l) with (Z.of_nat (length (input h2))) by (subst h2; cbn; rewrite length_drop; lia).
    apply IH; subst h2; cbn [buf input out pos].
    + rewrite length_app, Hn, length_drop. lia.
    + rewrite length_app. lia.
    + rewrite length_drop. lia.
    + rewrite length_drop. lia.
    + intros b Hb'. specialize (HQ b Hb'). by rewrite <- app_assoc, take_drop.
  - destruct (input h) as [|] eqn:Hi; [|cbn in Hz; lia]. specialize (HQ (buf h) Hb). rewrite app_nil_r, <- Hp in HQ.
    unfold dwp, mret, D_ret. destruct h. cbn in *. by subst.
Qed.

Lemma copy_file_run c h (Q : Z → host → Prop) E :
  length (buf h) = BUFSIZE → pos h = length (out h) → Z.of_nat (length c) < 2 ^ 32 →
  (∀ b, length b = BUFSIZE → Q (Z.of_nat (length c)) (mk_host b [] (out h ++ c) (length (out h ++ c)))) →
  dwp (copy_file (Some c)) Q E h.
Proof.
  intros Hb Hp Hs HQ. unfold copy_file, open_file. apply dwp_bind. unfold host_modify, dwp at 1.
  apply dwp_bind. unfold host_gets, dwp at 1. cbn [input]. rewrite u32_small by (unfold is_u32; lia).
  apply dwp_bind. change (length c) with (length (input (mk_host (buf h) c (out h) (pos h)))) at 2.
  apply copy_loop_run; cbn [buf input out pos]; [done|done|done|lia|]. intros b Hb'. by apply HQ.
Qed.

(** The low bytes of a number. *)
Definition low_bytes (n : nat) (v : Z) : list Z := (λ i, Z.land (Z.shiftr v (8 * Z.of_nat i)) 0xff) <$> seq 0 n.

Lemma write_size_run v p h (Q : unit → host → Prop) E :
  length (buf h) = BUFSIZE →
  (∀ b n, length b = BUFSIZE → Q tt (mk_host b (input h) (splice p (low_bytes 3 v ++ [0]) (out h)) n)) →
  dwp (write_size v p) Q E h.
Proof.
  intros Hb HQ. destruct h as [b i o q]. cbn [buf] in Hb. unfold BUFSIZE in *.
  destruct b as [|b0 [|b1 [|b2 [|b3 b]]]]; try discriminate.
  apply (HQ _ (p + 4)%nat). cbn [length] in *. exact Hb.
Qed.

Lemma write_paragraphs_run {A} v h (m : D A) (Q : A → host → Prop) E :
  length (buf h) = BUFSIZE →
  (∀ b n, length b = BUFSIZE → dwp m Q E (mk_host b (input h) (splice 500 (low_bytes 2 v) (out h)) n)) →
  dwp (set_bytes 2 0 v ;; lseek 500 ;; write 2 ;; m) Q E h.
Proof.
  intros Hb HQ. destruct h as [b i o q]. cbn [buf] in Hb. unfold BUFSIZE in *.
  destruct b as [|b0 [|b1 b]]; try discriminate. apply (HQ _ 502%nat). cbn [length] in *. exact Hb.
Qed.
End parts.

(** ** The boot sector *)

(** The sector of a boot file, with the root device filled in. *)
Definition boot_sector (c : list Z) : list Z :=
  <[509%nat := DEFAULT_MAJOR_ROOT]> (<[508%nat := DEFAULT_MINOR_ROOT]> (drop MINIX_HEADER_LEN c)).

Section boot.
Implicit Types (h : host) (c d r : list Z) (E : Prop).

Lemma buf_at_app d r i : (i < length d)%nat → buf_at (d ++ r) i = buf_at d i.
Proof. intros Hi. unfold buf_at. by rewrite lookup_app_l. Qed.

Lemma buf_at_take n d i : (i < n)%nat → buf_at (take n d) i = buf_at d i.
Proof. intros Hi. unfold buf_at. by rewrite lookup_take_lt. Qed.

Lemma word_head c r k : (MINIX_HEADER_LEN ≤ length c)%nat → (k < 8)%nat → word (take MINIX_HEADER_LEN c ++ r) k = word c k.
Proof.
  unfold MINIX_HEADER_LEN. intros Hc Hk. unfold word.
  rewrite !buf_at_app by (rewrite length_take; lia). by rewrite !buf_at_take by lia.
Qed.

Lemma dwp_die {A} (e : death) (Q : A → host → Prop) E h : E → dwp (die e) Q E h.
Proof. done. Qed.

(** The header is accepted, or the boot file is not bootable. *)
Lemma minix_open_run c h (Q : unit → host → Prop) E :
  length (buf h) = BUFSIZE → (¬ bootable c → E) →
  ((MINIX_HEADER_LEN ≤ length c)%nat → take 8 c = hdr → word c 3 = 0 ∧ word c 4 = 0 ∧ word c 5 = 0 ∧ word c 7 = 0 →
     ∀ b, length b = BUFSIZE → Q tt (mk_host b (drop MINIX_HEADER_LEN c) (out h) (pos h))) →
  dwp (minix_open (Some c)) Q E h.
Proof.
  intros Hb HE HQ. unfold minix_open, open_file. apply dwp_bind. unfold host_modify, dwp at 1.
  apply dwp_bind, read_run. cbn [buf input out pos].
  destruct (Nat.eqb_spec (length (take MINIX_HEADER_LEN c)) MINIX_HEADER_LEN) as [Hl|Hl]; cbn [negb].
  2: { apply dwp_die, HE. intros [Hbl _ _ _]. apply Hl. rewrite length_take. lia. }
  assert (Hlc : (MINIX_HEADER_LEN ≤ length c)%nat) by (rewrite length_take in Hl; lia).
  apply dwp_bind. unfold host_gets, dwp at 1. cbn [buf]. rewrite !word_head by (done || lia).
  rewrite take_app_le by (rewrite Hl; unfold MINIX_HEADER_LEN; lia). rewrite take_take. change (8 `min` MINIX_HEADER_LEN)%nat with 8%nat.
  destruct (bool_decide_reflect (take 8 c = hdr)) as [Hm|Hm]; cbn [negb orb]; [|apply dwp_die, HE; by intros [_ ? _ _]].
  destruct (Z.eqb_spec (word c 5) 0) as [H5|H5]; cbn [negb]; [|apply dwp_die, HE; by intros [_ _ (? & ? & ? & ?) _]].
  destruct (Z.eqb_spec (word c 3) 0) as [H3|H3]; cbn [negb]; [|apply dwp_die, HE; by intros [_ _ (? & ? & ? & ?) _]].
  destruct (Z.eqb_spec (word c 4) 0) as [H4|H4]; cbn [negb]; [|apply dwp_die, HE; by intros [_ _ (? & ? & ? & ?) _]].
  destruct (Z.eqb_spec (word c 7) 0) as [H7|H7]; cbn [negb]; [|apply dwp_die, HE; by intros [_ _ (? & ? & ? & ?) _]].
  apply HQ; [done..|]. rewrite length_app, length_drop, Hl, Hb. unfold BUFSIZE, MINIX_HEADER_LEN. lia.
Qed.

Lemma copy_boot_run f h (Q : unit → host → Prop) E :
  length (buf h) = BUFSIZE → out h = [] → pos h = 0%nat → ((∀ c, f = Some c → ¬ bootable c) → E) →
  (∀ c b r, f = Some c → bootable c → length b = BUFSIZE → Q tt (mk_host b r (boot_sector c) 512)) →
  dwp (copy_boot f) Q E h.
Proof.
  intros Hb Ho Hp HE HQ. unfold copy_boot. destruct f as [c|]; [|by apply HE]. apply dwp_bind, minix_open_run; [done| |].
  { intros Hn. apply HE. by intros ? [= <-]. }
  intros Hlc Hm Hw b Hbl. apply dwp_bind, read_run. cbn [buf input out pos]. set (s := drop MINIX_HEADER_LEN c).
  assert (Hls : length s = (length c - 32)%nat) by (subst s; rewrite length_drop; unfold MINIX_HEADER_LEN; lia).
  unfold MINIX_HEADER_LEN in Hlc. unfold BUFSIZE in *.
  destruct (Nat.eqb_spec (length (take 1024 s)) 512) as [Hl|Hl]; cbn [negb].
  2: { apply dwp_die, HE. intros ? [= <-] [Hbt _ _ _]. apply Hl. unfold MINIX_HEADER_LEN in Hbt. rewrite length_take. lia. }
  rewrite length_take in Hl. rewrite !(take_ge s) by lia.
  apply dwp_bind. unfold host_gets, dwp at 1. cbn [buf]. rewrite !buf_at_app by lia.
  assert (Hat : ∀ i, buf_at s i = buf_at c (32 + i)) by (intros i; unfold buf_at; subst s; by rewrite lookup_drop).
  rewrite !Hat. destruct (Z.eqb_spec (buf_at c (32 + 510)) 0x55) as [H1|H1]; cbn [negb orb];
    [|apply dwp_die, HE; by intros ? [= <-] [_ _ _ [? ?]]].
  destruct (Z.eqb_spec (buf_at c (32 + 511)) 0xaa) as [H2|H2]; cbn [negb];
    [|apply dwp_die, HE; by intros ? [= <-] [_ _ _ [? ?]]].
  unfold set_buf, write, host_modify, dwp, mbind, D_bind. cbn [buf input out pos].
  rewrite !insert_app_l by (rewrite ?length_insert; lia). rewrite take_app_length' by (rewrite !length_insert; lia).
  rewrite Ho, Hp. replace (0 + length _)%nat with 512%nat by (rewrite !length_insert; lia).
  change (splice 0 ?d []) with (d ++ drop (0 + length d) []). rewrite drop_nil, app_nil_r.
  apply (HQ c); [done|split; try done; unfold MINIX_HEADER_LEN; lia|].
  rewrite length_app, !length_insert, length_drop. lia.
Qed.
End boot.

(** ** The image *)

(** A little-endian number of [n] bytes at the place [p]. *)
Fixpoint number (n p : nat) (img : list Z) : Z :=
  match n with
  | O => 0
  | S n => buf_at img p + 2 ^ 8 * number n (S p) img
  end.

(** The image of a boot file, a kernel and a user program. *)
Record image_of (boot sys usr img : list Z) : Prop := {
  io_length : length img = (524 `max` (512 + length sys + length usr))%nat;
  io_sector : ∀ i : nat, (i < 500)%nat ∨ (502 ≤ i < 508)%nat ∨ (510 ≤ i < 512)%nat → img !! i = boot !! (MINIX_HEADER_LEN + i)%nat;
  io_root : img !! 508%nat = Some DEFAULT_MINOR_ROOT ∧ img !! 509%nat = Some DEFAULT_MAJOR_ROOT;
  io_paragraphs : number 2 500 img = u32 (Z.of_nat (length sys) + Z.of_nat (length usr) + 15) / 16 mod 2 ^ 16;
  io_sizes : number 4 512 img = Z.of_nat (length sys) mod 2 ^ 24 ∧
             number 4 516 img = Z.of_nat (length usr) mod 2 ^ 24 ∧ number 4 520 img = 0x7E6A;
  io_programs : ∀ i : nat, (12 ≤ i)%nat → img !! (512 + i)%nat = (sys ++ usr) !! i;
}.

(** The bytes as they are written one after the other. *)
Definition written_image (boot sys usr : list Z) : list Z :=
  splice 520 (low_bytes 3 0x7E6A ++ [0])
    (splice 516 (low_bytes 3 (Z.of_nat (length usr)) ++ [0])
      (splice 512 (low_bytes 3 (Z.of_nat (length sys)) ++ [0])
        (splice 500 (low_bytes 2 (u32 (Z.of_nat (length sys) + Z.of_nat (length usr) + 15) / 16))
          (boot_sector boot ++ sys ++ usr)))).

Lemma low_bytes_number v :
  0 ≤ v →
  Z.land (Z.shiftr v 0) 0xff + 2 ^ 8 * (Z.land (Z.shiftr v 8) 0xff) = v mod 2 ^ 16 ∧
  Z.land (Z.shiftr v 0) 0xff + 2 ^ 8 * (Z.land (Z.shiftr v 8) 0xff + 2 ^ 8 * (Z.land (Z.shiftr v 16) 0xff)) = v mod 2 ^ 24.
Proof.
  intros Hv. change 0xff with (Z.ones 8). rewrite !Z.land_ones, !Z.shiftr_div_pow2 by lia.
  change (2 ^ 0) with 1. change (2 ^ 8) with 256. change (2 ^ 16) with 65536. change (2 ^ 24) with 16777216.
  split; Z.div_mod_to_equations; lia.
Qed.

Lemma length_boot_sector boot : bootable boot → length (boot_sector boot) = 512%nat.
Proof. intros [Hl _ _ _]. unfold boot_sector. rewrite !length_insert, length_drop, Hl. done. Qed.

Section image.
Context (boot sys usr : list Z) (Hb : bootable boot).

Lemma length_low n v : length (low_bytes n v ++ [0]) = S n.
Proof. unfold low_bytes. rewrite length_app, length_fmap, length_seq. cbn. lia. Qed.

Lemma length_low' n v : length (low_bytes n v) = n.
Proof. unfold low_bytes. by rewrite length_fmap, length_seq. Qed.

Lemma length_written : length (written_image boot sys usr) = (524 `max` (512 + length sys + length usr))%nat.
Proof.
  unfold written_image. pose proof (length_boot_sector boot Hb).
  repeat first [rewrite length_splice; rewrite ?length_low, ?length_low'; cbn [Nat.add] | progress rewrite !length_app]; lia.
Qed.

(** What the image has at each place. *)
Lemma written_lookup i :
  written_image boot sys usr !! i =
    if decide (520 ≤ i < 524)%nat then (low_bytes 3 0x7E6A ++ [0]) !! (i - 520)%nat
    else if decide (516 ≤ i < 520)%nat then (low_bytes 3 (Z.of_nat (length usr)) ++ [0]) !! (i - 516)%nat
    else if decide (512 ≤ i < 516)%nat then (low_bytes 3 (Z.of_nat (length sys)) ++ [0]) !! (i - 512)%nat
    else if decide (500 ≤ i < 502)%nat then
      low_bytes 2 (u32 (Z.of_nat (length sys) + Z.of_nat (length usr) + 15) / 16) !! (i - 500)%nat
    else (boot_sector boot ++ sys ++ usr) !! i.
Proof.
  unfold written_image. pose proof (length_boot_sector boot Hb) as Hs.
  remember (splice 500 _ _) as o1 eqn:E1. assert (H1 : (512 ≤ length o1)%nat).
  { rewrite E1, length_splice; rewrite !length_app; lia. }
  set (o2 := splice 512 _ o1). assert (H2 : (516 ≤ length o2)%nat) by (subst o2; rewrite length_splice, length_low; lia).
  set (o3 := splice 516 _ o2). assert (H3 : (520 ≤ length o3)%nat) by (subst o3; rewrite length_splice, length_low; lia).
  rewrite splice_lookup by lia. rewrite length_low. change (520 + 4)%nat with 524%nat. case_decide; [done|].
  subst o3. rewrite splice_lookup by lia. rewrite length_low. change (516 + 4)%nat with 520%nat. case_decide; [done|].
  subst o2. rewrite splice_lookup by lia. rewrite length_low. change (512 + 4)%nat with 516%nat. case_decide; [done|].
  subst o1. rewrite splice_lookup by (rewrite !length_app; lia). by rewrite length_low'.
Qed.

Lemma written_image_of : image_of boot sys usr (written_image boot sys usr).
Proof.
  pose proof (length_boot_sector boot Hb) as Hs. assert (Hl : length boot = 544%nat) by apply Hb.
  assert (Hat : ∀ i v, written_image boot sys usr !! i = Some v → buf_at (written_image boot sys usr) i = v)
    by (intros i v E; unfold buf_at; by rewrite E).
  assert (Hsz : ∀ v p, 0 ≤ v → (∀ j, (j < 4)%nat → written_image boot sys usr !! (p + j)%nat = (low_bytes 3 v ++ [0]) !! j) →
    number 4 p (written_image boot sys usr) = v mod 2 ^ 24).
  { intros v p Hv Hj. cbn [number]. rewrite <- (proj2 (low_bytes_number v Hv)).
    rewrite (Hat p (Z.land (Z.shiftr v 0) 0xff)) by (rewrite <- (Nat.add_0_r p); by rewrite Hj by lia).
    rewrite (Hat (S p) (Z.land (Z.shiftr v 8) 0xff)) by (rewrite <- (Nat.add_1_r p); by rewrite Hj by lia).
    rewrite (Hat (S (S p)) (Z.land (Z.shiftr v 16) 0xff)) by (replace (S (S p)) with (p + 2)%nat by lia; by rewrite Hj by lia).
    rewrite (Hat (S (S (S p))) 0) by (replace (S (S (S p))) with (p + 3)%nat by lia; by rewrite Hj by lia). lia. }
  split.
  - exact length_written.
  - intros i Hi. rewrite written_lookup. rewrite !decide_False by lia. rewrite lookup_app_l by lia.
    unfold boot_sector. rewrite !list_lookup_insert_ne by lia. by rewrite lookup_drop.
  - rewrite !written_lookup. rewrite !decide_False by lia. rewrite !lookup_app_l by lia. unfold boot_sector. split.
    + rewrite list_lookup_insert_ne by lia. apply list_lookup_insert_eq. rewrite length_drop, Hl. unfold MINIX_HEADER_LEN. lia.
    + apply list_lookup_insert_eq. rewrite length_insert, length_drop, Hl. unfold MINIX_HEADER_LEN. lia.
  - set (v := u32 _ / 16). assert (Hv : 0 ≤ v) by (subst v; apply Z.div_pos; [apply u32_range|lia]).
    rewrite <- (proj1 (low_bytes_number v Hv)). cbn [number].
    rewrite (Hat 500%nat (Z.land (Z.shiftr v 0) 0xff)) by (rewrite written_lookup; by rewrite !decide_False, decide_True by lia).
    rewrite (Hat 501%nat (Z.land (Z.shiftr v 8) 0xff)) by (rewrite written_lookup; by rewrite !decide_False, decide_True by lia). lia.
  - split; [|split].
    + apply Hsz; [lia|]. intros j Hj. rewrite written_lookup. rewrite !decide_False, decide_True by lia. f_equal. lia.
    + apply Hsz; [lia|]. intros j Hj. rewrite written_lookup. rewrite decide_False, decide_True by lia. f_equal. lia.
    + rewrite (Hsz 0x7E6A 520%nat); [done|lia|]. intros j Hj. rewrite written_lookup. rewrite decide_True by lia. f_equal. lia.
  - intros i Hi. rewrite written_lookup. rewrite !decide_False by lia. rewrite lookup_app_r by lia. f_equal. lia.
Qed.
End image.

(** The run of the program: the image, or why there is none. *)
Lemma build_run (argv : list (option (list Z))) :
  (∀ i f, argv !! i = Some (Some f) → Z.of_nat (length f) < 2 ^ 32) →
  match build argv with
  | inr img => ∃ boot sys usr, argv = [Some boot; Some sys; Some usr] ∧ bootable boot ∧ img = written_image boot sys usr
  | inl _ => ¬ ∃ boot sys usr, argv = [Some boot; Some sys; Some usr] ∧ bootable boot
  end.
Proof.
  intros Hsz. set (E := ¬ ∃ boot sys usr, argv = [Some boot; Some sys; Some usr] ∧ bootable boot).
  assert (Hw : dwp (main_build argv) (λ _ h, ∃ boot sys usr, argv = [Some boot; Some sys; Some usr] ∧ bootable boot ∧
    out h = written_image boot sys usr) E (mk_host (replicate BUFSIZE 0) [] [] 0)).
  { unfold main_build. destruct argv as [|f1 [|f2 [|f3 [|]]]]; try (apply dwp_die; by intros (? & ? & ? & ? & _)).
    apply dwp_bind, copy_boot_run; [apply length_replicate|done|done| |].
    { intros Hn (boot & sys & usr & [= -> _ _] & Hbt). by apply (Hn boot). }
    intros boot b1 r1 -> Hbt Hb1. apply dwp_bind.
    destruct f2 as [sys|]; [|apply dwp_die; by intros (? & ? & ? & ? & _)].
    apply copy_file_run; cbn [buf out pos]; [done|by rewrite length_boot_sector|by apply (Hsz 1%nat)|].
    intros b2 Hb2. apply dwp_bind. destruct f3 as [usr|]; [|apply dwp_die; by intros (? & ? & ? & ? & _)].
    apply copy_file_run; cbn [buf out pos]; [done|done|by apply (Hsz 2%nat)|]. intros b3 Hb3. cbv zeta.
    apply write_paragraphs_run; [done|].
    intros b4 n4 Hb4. apply dwp_bind, write_size_run; [done|]. intros b5 n5 Hb5.
    apply dwp_bind, write_size_run; [done|]. intros b6 n6 Hb6. apply write_size_run; [done|]. intros b7 n7 _.
    exists boot, sys, usr. split; [done|]. split; [done|]. cbn [out input]. unfold written_image. by rewrite <- app_assoc. }
  unfold build, dwp in *. destruct (main_build argv _) as [e|[[] h]]; [exact Hw|].
  destruct Hw as (boot & sys & usr & Ha & Hbt & ->). exists boot, sys, usr. by split.
Qed.

(** An image made of bytes holds bytes. *)
Lemma splice_bytes p d o : Forall is_u8 d → Forall is_u8 o → Forall is_u8 (splice p d o).
Proof.
  intros Hd Ho. unfold splice. rewrite !Forall_app. split; [|split; [done|by apply Forall_drop]].
  apply Forall_take, Forall_app. split; [done|]. apply Forall_replicate. wrap_lia.
Qed.

Lemma low_bytes_bytes n v : Forall is_u8 (low_bytes n v).
Proof. unfold low_bytes. apply Forall_fmap, Forall_true. intros i. cbn. change 0xff with (Z.ones 8). rewrite Z.land_ones by lia. apply u8_range. Qed.

Lemma written_bytes boot sys usr : Forall is_u8 boot → Forall is_u8 sys → Forall is_u8 usr → Forall is_u8 (written_image boot sys usr).
Proof.
  intros Hb Hs Hu. assert (Forall is_u8 [0]) as H0 by (repeat constructor; lia).
  unfold written_image. repeat apply splice_bytes; try (apply Forall_app; split; [apply low_bytes_bytes|done]); [apply low_bytes_bytes|].
  apply Forall_app. split; [|by apply Forall_app]. unfold boot_sector. do 2 (apply Forall_insert; [|by split]). by apply Forall_drop.
Qed.

(** C39: the disk image.  The program makes an image exactly when it is given three
    files that can be opened and the first one is a boot file with its flag;
    otherwise it dies.  The image is the boot sector, the kernel and the user
    program one after the other; the sector has the number of paragraphs at 500
    (cut to 16 bits) and the root device 0 at 508; the first three words of the
    kernel are its size, the size of the user program (cut to 24 bits) and a
    magic number: these are the words the kernel reads when it starts, and the
    user program is where they say.  All the other bytes are those of the files. *)
Theorem build_correct (argv : list (option (list Z))) :
  (∀ i f, argv !! i = Some (Some f) → Z.of_nat (length f) < 2 ^ 32) →
  match build argv with
  | inr img => ∃ boot sys usr, argv = [Some boot; Some sys; Some usr] ∧ bootable boot ∧ image_of boot sys usr img
  | inl _ => ¬ ∃ boot sys usr, argv = [Some boot; Some sys; Some usr] ∧ bootable boot
  end.
Proof.
  intros Hsz. pose proof (build_run argv Hsz) as Hb. destruct (build argv) as [e|img]; [exact Hb|].
  destruct Hb as (boot & sys & usr & Ha & Hbt & ->). exists boot, sys, usr. split; [done|]. split; [done|]. by apply written_image_of.
Qed.

(** A boot file, a kernel of sixteen bytes and a user program of four. *)
Definition example_boot : list Z := hdr ++ replicate 24 0 ++ replicate 510 0x90 ++ [0x55; 0xaa].

Lemma build_correct_witness :
  match build [Some example_boot; Some (replicate 16 7); Some [1; 2; 3; 4]] with
  | inr img => image_of example_boot (replicate 16 7) [1; 2; 3; 4] img
  | inl _ => False
  end.
Proof.
  assert (Hbt : bootable example_boot) by (split; repeat split; reflexivity).
  pose proof (build_correct [Some example_boot; Some (replicate 16 7); Some [1; 2; 3; 4]]) as Hw.
  destruct (build _) as [e|img].
  - apply Hw; [|by exists example_boot, (replicate 16 7), [1; 2; 3; 4]].
    intros [|[|[|i]]] f Hi; cbn in Hi; try discriminate; injection Hi as <-; reflexivity.
  - destruct Hw as (boot & sys & usr & [= <- <- <-] & _ & Hi); [|exact Hi].
    intros [|[|[|i]]] f Hi; cbn in Hi; try discriminate; injection Hi as <-; reflexivity.
Defined.
