(* ===== verification/Paging.v ===== *)
(** * Frames and page tables (mm.c, mm_address.h, types.h)

    [Frames] is the byte map of physical frames with its allocator.  [PTE] is
    the 32-bit page table entry with its bit fields.  [PageTable] is the memory
    that holds the page directories and tables: a finite map from the address
    of an entry to the entry, so that an index past the end of a table reaches
    whatever entry lies there, as it does in the kernel. *)

From S2P Require Import Prelude CInt.

Definition TOTAL_PAGES : Z := 1024.
Definition NUM_PAG_KERNEL : Z := 256.
Definition NUM_PAG_CODE : Z := 8.
Definition NUM_PAG_DATA : Z := 20.
Definition PAGE_SIZE : Z := 0x1000.
Definition L_USER_START : Z := 0x100000.
Definition PAG_LOG_INIT_DATA : Z := Z.shiftr L_USER_START 12.
Definition PAG_LOG_INIT_CODE : Z := PAG_LOG_INIT_DATA + NUM_PAG_DATA.
Definition USER_FIRST_PAGE : Z := Z.shiftr L_USER_START 12.
Definition USER_LAST_PAGE : Z := USER_FIRST_PAGE + NUM_PAG_CODE + NUM_PAG_DATA.
Definition ENTRY_DIR_PAGES : Z := 0.
Definition NR_TASKS : Z := 10.

(** ** The byte map of frames *)

Module Frames.

Definition FREE_FRAME : Z := 0.

(** [phys_mem]: the number of references to each frame, a [Byte] each. *)
Abbreviation phys := (list Z).

Definition incr (i : Z) (pm : phys) : option phys := v ← znth pm i; zset pm i (u8 (v + 1)).
Definition decr (i : Z) (pm : phys) : option phys := v ← znth pm i; zset pm i (u8 (v - 1)).

Definition init_frames : M phys Z :=
  for_up (Z.to_nat TOTAL_PAGES) 0 (λ i, lift (λ pm, zset pm i FREE_FRAME)) ;;
  for_up (Z.to_nat NUM_PAG_KERNEL) 0 (λ i, lift (incr i)) ;;
  mret 0.

(** [for (i = NUM_PAG_KERNEL; i < TOTAL_PAGES; i += 2)] with its early return. *)
Fixpoint alloc_loop (fuel : nat) (i : Z) : M phys Z := λ pm,
  match fuel with
  | O => Some (-1, pm)
  | S f =>
      if i <? TOTAL_PAGES then
        v ← znth pm i;
        if v =? FREE_FRAME then pm ← incr i pm; Some (i, pm)
        else alloc_loop f (i + 2) pm
      else Some (-1, pm)
  end.

Definition alloc_frame : M phys Z := alloc_loop 385 NUM_PAG_KERNEL.

Definition free_frame (frame : Z) (pm : phys) : option phys :=
  if (NUM_PAG_KERNEL <? frame) && (frame <? TOTAL_PAGES) then decr frame pm else Some pm.

(** The frames [alloc_frame] can hand out: one in two, from the kernel up. *)
Definition allocatable (i : Z) : Prop := NUM_PAG_KERNEL ≤ i < TOTAL_PAGES ∧ Z.even i = true.

Definition wf (pm : phys) : Prop :=
  Z.of_nat (length pm) = TOTAL_PAGES ∧ Forall is_u8 pm.

Section facts.
Implicit Types pm : phys.

Lemma wf_lookup pm i : wf pm → 0 ≤ i < TOTAL_PAGES → ∃ v, znth pm i = Some v ∧ is_u8 v.
Proof.
  intros [Hlen Hu] Hi. destruct (znth_in_range pm i) as [v Hv]; [lia|]. exists v. split; [done|].
  unfold znth in Hv. destruct (i <? 0); [done|]. eapply Forall_lookup_1; [exact Hu|exact Hv].
Qed.

Lemma wf_insert pm i v : wf pm → 0 ≤ i < TOTAL_PAGES → is_u8 v → wf (<[Z.to_nat i := v]> pm).
Proof.
  intros [Hlen Hu] Hi Hv. split; [by rewrite length_insert|]. by apply Forall_insert.
Qed.

(** The loop finds the first free frame on its path. *)
Lemma alloc_loop_spec fuel i pm :
  wf pm → NUM_PAG_KERNEL ≤ i → Z.even i = true → (TOTAL_PAGES - i < 2 * Z.of_nat fuel) →
  (∃ r, alloc_loop fuel i pm = Some (r, <[Z.to_nat r := 1]> pm) ∧ i ≤ r < TOTAL_PAGES ∧
     Z.even r = true ∧ znth pm r = Some FREE_FRAME ∧
     (∀ j v, i ≤ j < r → Z.even j = true → znth pm j = Some v → v ≠ FREE_FRAME)) ∨
  (alloc_loop fuel i pm = Some (-1, pm) ∧
     ∀ j v, i ≤ j < TOTAL_PAGES → Z.even j = true → znth pm j = Some v → v ≠ FREE_FRAME).
Proof.
  intros Hwf. revert i. induction fuel as [|f IH]; intros i Hi Hev Hf.
  { right. split; [done|]. intros. lia. }
  cbn [alloc_loop]. destruct (Z.ltb_spec i TOTAL_PAGES) as [Hlt|Hge].
  2: { right. split; [done|]. intros. lia. }
  unfold NUM_PAG_KERNEL in Hi.
  destruct (wf_lookup pm i Hwf ltac:(lia)) as (v & Hv & Hu). rewrite Hv. cbn [mbind option_bind].
  destruct (Z.eqb_spec v FREE_FRAME) as [->|Hne].
  - left. exists i. unfold incr. rewrite Hv. cbn [mbind option_bind].
    rewrite zset_Some by (destruct Hwf; lia). split_and!; [done|lia..|done|done|]. intros. lia.
  - assert (Hskip : ∀ j v, i ≤ j < i + 2 → Z.even j = true → znth pm j = Some v → v ≠ FREE_FRAME).
    { intros j w Hj Hej Hw. assert (j = i) as ->; [|congruence].
      destruct (decide (j = i + 1)) as [->|]; [|lia]. rewrite Z.add_1_r, Z.even_succ in Hej.
      rewrite <- Z.negb_even, Hev in Hej. done. }
    destruct (IH (i + 2)) as [(r & -> & Hr & Her & Hz & Hfirst)|[-> Hall]].
    + unfold NUM_PAG_KERNEL. lia.
    + by rewrite Z.even_add, Hev.
    + lia.
    + left. exists r. split_and!; [done|lia..|done|done|]. intros j w Hj.
      destruct (Z.lt_ge_cases j (i + 2)); [apply Hskip|apply Hfirst]; lia.
    + right. split; [done|]. intros j w Hj.
      destruct (Z.lt_ge_cases j (i + 2)); [apply Hskip|apply Hall]; lia.
Qed.

Lemma alloc_frame_spec pm :
  wf pm →
  (∃ r, alloc_frame pm = Some (r, <[Z.to_nat r := 1]> pm) ∧ allocatable r ∧
     znth pm r = Some FREE_FRAME ∧
     (∀ j v, allocatable j → j < r → znth pm j = Some v → v ≠ FREE_FRAME)) ∨
  (alloc_frame pm = Some (-1, pm) ∧
     ∀ j v, allocatable j → znth pm j = Some v → v ≠ FREE_FRAME).
Proof.
  intros Hwf. unfold allocatable.
  destruct (alloc_loop_spec 385 NUM_PAG_KERNEL pm Hwf) as [(r & ? & ? & ? & ? & Hf)|[? Hf]];
    [done..| |].
  - left. exists r. split_and!; try done; [lia|lia|]. intros j v [??] ?. apply Hf; [lia|done].
  - right. split; [done|]. intros j v [??]. by apply Hf.
Qed.

Lemma wp_zset i x pm (Q : unit → phys → Prop) :
  0 ≤ i < Z.of_nat (length pm) → Q tt (<[Z.to_nat i := x]> pm) → wp (lift (λ pm, zset pm i x)) Q pm.
Proof. intros Hi HQ. eapply wp_lift; [by apply zset_Some|done]. Qed.

Lemma init_frames_spec pm :
  Z.of_nat (length pm) = TOTAL_PAGES →
  wp init_frames (λ r pm', r = 0 ∧ Z.of_nat (length pm') = TOTAL_PAGES ∧
    ∀ i, 0 ≤ i < TOTAL_PAGES → znth pm' i = Some (if i <? NUM_PAG_KERNEL then 1 else FREE_FRAME)) pm.
Proof.
  intros Hlen. unfold init_frames. wp_step.
  eapply wp_mono.
  { apply (wp_for_up (λ i pm', Z.of_nat (length pm') = TOTAL_PAGES ∧
             ∀ j, 0 ≤ j < i → znth pm' j = Some FREE_FRAME)).
    - split; [done|]. intros. lia.
    - intros j pm' Hj [Hl Hz]. unfold TOTAL_PAGES in *. apply wp_zset; [lia|].
      rewrite length_insert. split; [done|]. intros i Hi. rewrite znth_insert by lia.
      case_test; bool_to_prop; [done|]. apply Hz. lia. }
  intros [] pm1 [Hl1 Hz1]. rewrite Z2Nat.id in Hz1 by done. wp_step.
  eapply wp_mono.
  { apply (wp_for_up (λ i pm', Z.of_nat (length pm') = TOTAL_PAGES ∧
             ∀ j, 0 ≤ j < TOTAL_PAGES → znth pm' j = Some (if j <? i then 1 else FREE_FRAME))).
    - split; [done|]. intros j Hj. rewrite Hz1 by lia. by destruct (Z.ltb_spec j 0); [lia|].
    - intros j pm' Hj [Hl Hz]. unfold NUM_PAG_KERNEL, TOTAL_PAGES in *. eapply wp_lift.
      + unfold incr. rewrite Hz by lia. destruct (Z.ltb_spec j j); [lia|]. cbn [mbind option_bind].
        apply zset_Some. lia.
      + rewrite length_insert. split; [done|]. intros i Hi. rewrite znth_insert, Hz by lia.
        destruct (Z.eqb_spec j i), (Z.ltb_spec i j), (Z.ltb_spec i (j + 1)); try lia; done. }
  intros [] pm2 [Hl2 Hz2]. wp_step. split_and!; [done..|]. intros i Hi. by rewrite Hz2.
Qed.

Lemma init_frames_wf pm :
  Z.of_nat (length pm) = TOTAL_PAGES →
  (∀ i, 0 ≤ i < TOTAL_PAGES → znth pm i = Some (if i <? NUM_PAG_KERNEL then 1 else FREE_FRAME)) → wf pm.
Proof.
  intros Hlen Hz. split; [done|]. apply Forall_lookup. intros n v Hn.
  rewrite <- znth_of_nat in Hn. rewrite Hz in Hn by (apply znth_Some_range in Hn; lia).
  injection Hn as <-. unfold FREE_FRAME. case_test; wrap_lia.
Qed.

Lemma free_frame_spec frame pm :
  wf pm → 0 ≤ frame →
  ∃ pm', free_frame frame pm = Some pm' ∧ wf pm' ∧
    ∀ i, 0 ≤ i < TOTAL_PAGES → ∀ v, znth pm i = Some v →
      znth pm' i = Some (if (i =? frame) && (NUM_PAG_KERNEL <? frame) then u8 (v - 1) else v).
Proof.
  intros Hwf Hf. unfold free_frame. destruct (Z.ltb_spec NUM_PAG_KERNEL frame) as [Hk|Hk];
    destruct (Z.ltb_spec frame TOTAL_PAGES) as [Ht|Ht]; cbn [andb].
  - destruct (wf_lookup pm frame Hwf ltac:(lia)) as (v & Hv & Hu).
    unfold decr. rewrite Hv. cbn [mbind option_bind]. rewrite zset_Some by (destruct Hwf; lia).
    eexists. split; [done|]. split; [apply wf_insert; [done|lia|apply u8_range]|].
    intros i Hi w Hw. rewrite znth_insert by (destruct Hwf; lia).
    destruct (Z.eqb_spec frame i), (Z.eqb_spec i frame); cbn; congruence.
  - exists pm. split; [done|]. split; [done|]. intros i Hi v ->.
    destruct (Z.eqb_spec i frame); [lia|done].
  - exists pm. split; [done|]. split; [done|]. intros i Hi v ->. by rewrite andb_false_r.
  - exists pm. split; [done|]. split; [done|]. intros i Hi v ->. by rewrite andb_false_r.
Qed.

(** [n] allocations in a row. *)
Fixpoint alloc_n (n : nat) : M phys (list Z) :=
  match n with
  | O => mret []
  | S n => r ← alloc_frame; rs ← alloc_n n; mret (r :: rs)
  end.

Lemma wp_alloc_frame pm (Q : Z → phys → Prop) :
  wf pm →
  (∀ r, allocatable r → znth pm r = Some FREE_FRAME →
     (∀ j v, allocatable j → j < r → znth pm j = Some v → v ≠ FREE_FRAME) →
     wf (<[Z.to_nat r := 1]> pm) → Q r (<[Z.to_nat r := 1]> pm)) →
  ((∀ j v, allocatable j → znth pm j = Some v → v ≠ FREE_FRAME) → Q (-1) pm) →
  wp alloc_frame Q pm.
Proof.
  intros Hwf H1 H2. unfold wp.
  destruct (alloc_frame_spec pm Hwf) as [(r & -> & Ha & Hz & Hfirst)|[-> Hall]]; [|by apply H2].
  apply H1; [done..|]. destruct Ha as [? _]. unfold NUM_PAG_KERNEL in *.
  apply wf_insert; [done|lia|wrap_lia].
Qed.

(** The frames of [rs] come from the free frames of [pm], each once. *)
Lemma alloc_n_spec n pm :
  wf pm → wp (alloc_n n) (λ rs pm', wf pm' ∧ length rs = n ∧
    (∀ r, r ∈ rs → r = -1 ∨ allocatable r ∧ znth pm r = Some FREE_FRAME) ∧
    NoDup (filter (λ r, r ≠ -1) rs) ∧
    (∀ i, 0 ≤ i < TOTAL_PAGES → znth pm' i = if decide (i ∈ rs) then Some 1 else znth pm i) ∧
    (-1 ∈ rs → ∀ j v, allocatable j → znth pm' j = Some v → v ≠ FREE_FRAME)) pm.
Proof.
  revert pm. induction n as [|n IH]; intros pm Hwf; cbn [alloc_n].
  { apply wp_ret. split_and!; [done..|by intros ? ?%elem_of_nil|constructor|done|by intros ?%elem_of_nil]. }
  apply wp_bind, wp_alloc_frame; [done| |].
  - intros r Ha Hz Hfirst Hwf1. apply wp_bind. eapply wp_mono; [by apply IH|].
    intros rs pm' (Hwf' & Hlen & Hrs & Hnd & Heff & Hfull). apply wp_ret.
    assert (Hr : 0 ≤ r < Z.of_nat (length pm)) by (eapply znth_Some_range; done).
    assert (Hins : ∀ i, znth (<[Z.to_nat r := 1]> pm) i = if r =? i then Some 1 else znth pm i).
    { intros i. by apply znth_insert. }
    assert (r ∉ rs) as Hnot.
    { intros Hin. destruct (Hrs r Hin) as [->|[_ Hz']]; [lia|].
      rewrite Hins, Z.eqb_refl in Hz'. done. }
    assert (r ≠ -1) by lia. split_and!; [done|cbn; lia| | | |].
    + intros r' [->|Hin]%elem_of_cons; [by right|]. destruct (Hrs r' Hin) as [?|[? Hz']]; [by left|].
      right. split; [done|]. rewrite Hins in Hz'. destruct (Z.eqb_spec r r'); [done|done].
    + rewrite filter_cons_True by done. constructor; [|done]. rewrite list_elem_of_filter. tauto.
    + intros i Hi. rewrite Heff, Hins by done.
      destruct (Z.eqb_spec r i) as [->|Hne].
      * rewrite (decide_True (P := i ∈ i :: rs)) by (by left). by case_decide.
      * destruct (decide (i ∈ rs)); [by rewrite decide_True by (by right)|].
        rewrite decide_False; [done|]. intros [?|?]%elem_of_cons; [congruence|done].
    + intros [?|Hin]%elem_of_cons; [lia|]. by apply Hfull.
  - intros Hall. apply wp_bind. eapply wp_mono; [by apply IH|].
    intros rs pm' (Hwf' & Hlen & Hrs & Hnd & Heff & Hfull). apply wp_ret.
    split_and!; [done|cbn; lia| | | |].
    + intros r' [->|Hin]%elem_of_cons; [by left|]. by apply Hrs.
    + by rewrite filter_cons_False by (by intros []).
    + intros i Hi. rewrite Heff by done. destruct (decide (i ∈ rs)); [by rewrite decide_True by (by right)|].
      rewrite decide_False; [done|]. intros [?|?]%elem_of_cons; [lia|done].
    + intros _ j v Hj Hv. unfold allocatable, NUM_PAG_KERNEL in Hj. rewrite Heff in Hv by lia. case_decide.
      * by injection Hv as <-.
      * by apply (Hall j v).
Qed.
End facts.

(** C28: the frame allocator.  [alloc_frame] never faults; it gives -1 and
    changes nothing when every frame it may hand out is in use, and otherwise
    the lowest free frame of even number above the kernel, with one reference
    and the other counters untouched.  [free_frame] of that frame gives back
    the map that was there before, except for frame 256, which the test
    [frame > NUM_PAG_KERNEL] never releases. *)
Theorem alloc_free_correct (pm : phys) :
  wf pm →
  wp alloc_frame (λ r pm',
    (r = -1 ∧ pm' = pm ∧ ∀ j v, allocatable j → znth pm j = Some v → v ≠ FREE_FRAME) ∨
    (allocatable r ∧ znth pm r = Some FREE_FRAME ∧
     (∀ j v, allocatable j → j < r → znth pm j = Some v → v ≠ FREE_FRAME) ∧
     wf pm' ∧ (∀ j, znth pm' j = if r =? j then Some 1 else znth pm j) ∧
     free_frame r pm' = Some (if r =? NUM_PAG_KERNEL then pm' else pm))) pm.
Proof.
  intros Hwf. apply wp_alloc_frame; [done| |].
  - intros r Ha Hz Hfirst Hwf'. right. pose proof (znth_Some_range _ _ _ Hz) as Hr.
    assert (Hins : ∀ j, znth (<[Z.to_nat r := 1]> pm) j = if r =? j then Some 1 else znth pm j)
      by (intros j; by apply znth_insert).
    split_and!; [done..|]. unfold free_frame. destruct Ha as [Ha _].
    destruct (Z.eqb_spec r NUM_PAG_KERNEL) as [->|Hne]; [done|].
    destruct (Z.ltb_spec NUM_PAG_KERNEL r); [|lia]. destruct (Z.ltb_spec r TOTAL_PAGES); [|lia]. cbn [andb].
    unfold decr. rewrite Hins, Z.eqb_refl. cbn [mbind option_bind].
    rewrite zset_Some by (rewrite length_insert; lia). f_equal.
    rewrite list_insert_insert_eq. apply list_insert_id.
    change (u8 (1 - 1)) with FREE_FRAME. rewrite <- znth_of_nat, Z2Nat.id by lia. done.
  - intros Hall. by left.
Qed.

Lemma alloc_free_correct_witness :
  wf (replicate 1024 0) ∧
  wp alloc_frame (λ r pm', r = 256 ∧ free_frame r pm' = Some pm') (replicate 1024 0).
Proof.
  assert (wf (replicate 1024 0)) as Hwf.
  { split; [done|]. apply Forall_replicate. wrap_lia. }
  split; [exact Hwf|]. pose proof (alloc_free_correct _ Hwf) as Hc. revert Hc.
  unfold wp. destruct (alloc_frame (replicate 1024 0)) as [[r pm']|] eqn:E; [|done].
  vm_compute in E. injection E as <- <-. intros [[? _]|(_ & _ & _ & _ & _ & Hf)]; [done|]. by split.
Defined.

End Frames.

(** ** The bit fields of an entry *)

Module PTE.

(** [pbase_addr : 20] is bits 12 to 31; [present], [rw], [user] are bits 0, 1, 2. *)
Definition pbase_addr (e : Z) : Z := Z.land (Z.shiftr e 12) 0xFFFFF.
Definition set_pbase_addr (v e : Z) : Z := Z.lor (Z.land e 0xFFF) (Z.shiftl (Z.land v 0xFFFFF) 12).

Definition bit (i : Z) (e : Z) : Z := Z.b2z (Z.testbit e i).
Definition set_bit (i v e : Z) : Z := Z.lor (Z.clearbit e i) (Z.shiftl (Z.land v 1) i).

Definition present : Z → Z := bit 0.
Definition rw : Z → Z := bit 1.
Definition user : Z → Z := bit 2.
Definition set_present : Z → Z → Z := set_bit 0.
Definition set_rw : Z → Z → Z := set_bit 1.
Definition set_user : Z → Z → Z := set_bit 2.

Section facts.
(** A flag is set below the frame number without touching it. *)
Lemma set_bit_low i v l f :
  0 ≤ i < 12 → set_bit i v (Z.lor l (Z.shiftl f 12)) = Z.lor (set_bit i v l) (Z.shiftl f 12).
Proof.
  intros Hi. unfold set_bit.
  assert (Z.clearbit (Z.lor l (Z.shiftl f 12)) i = Z.lor (Z.clearbit l i) (Z.shiftl f 12)) as ->.
  { apply Z.bits_inj'. intros n Hn. rewrite Z.lor_spec, !Z.clearbit_eqb, Z.lor_spec by lia.
    destruct (Z.eqb_spec i n) as [->|]; cbn; rewrite ?andb_true_r, ?andb_false_r; [|done].
    by rewrite Z.shiftl_spec_low by lia. }
  by rewrite <- !Z.lor_assoc, (Z.lor_comm (Z.shiftl f 12)).
Qed.

Lemma set_pbase_low v l f :
  Z.land l 0xFFF = l → set_pbase_addr v (Z.lor l (Z.shiftl f 12)) = Z.lor l (Z.shiftl (Z.land v 0xFFFFF) 12).
Proof.
  intros Hl. unfold set_pbase_addr. f_equal. rewrite Z.land_lor_distr_l, Hl.
  rewrite (land_ones_mod _ 12), Z.shiftl_mul_pow2, Z.mod_mul by lia. by rewrite Z.lor_0_r.
Qed.

Lemma pbase_of l f : 0 ≤ l < 2 ^ 12 → 0 ≤ f < 2 ^ 20 → pbase_addr (Z.lor l (Z.shiftl f 12)) = f.
Proof.
  intros Hl Hf. unfold pbase_addr. rewrite lor_shiftl_add by lia.
  rewrite (land_ones_mod _ 20), Z.shiftr_div_pow2 by lia.
  rewrite Z.div_add, (Z.div_small l), Z.add_0_l by lia. by apply Z.mod_small.
Qed.

Lemma land_20 f : 0 ≤ f < 2 ^ 20 → Z.land f 0xFFFFF = f.
Proof. intros Hf. rewrite (land_ones_mod _ 20) by lia. by apply Z.mod_small. Qed.
End facts.

End PTE.

(** ** Page tables in memory *)

Module PageTable.
Import PTE.

(** The entries of all directories and tables, by address. *)
Abbreviation entries := (gmap Z Z).

(** The address of [PT[page]]. *)
Definition slot (PT page : Z) : Z := u32 (PT + 4 * page).

Definition load_pte (PT page : Z) (m : entries) : option Z := m !! slot PT page.
Definition store_pte (PT page e : Z) (m : entries) : option entries :=
  _ ← m !! slot PT page; Some (<[slot PT page := e]> m).
Definition update_pte (PT page : Z) (f : Z → Z) (m : entries) : option entries :=
  e ← load_pte PT page m; store_pte PT page (f e) m.

Definition is_logic_page_free (PT page : Z) (m : entries) : option bool :=
  e ← load_pte PT page m; Some (e =? 0).

Definition set_ss_pag (PT page frame : Z) (m : entries) : option entries :=
  m ← store_pte PT page 0 m;
  m ← update_pte PT page (set_pbase_addr frame) m;
  m ← update_pte PT page (set_user 1) m;
  m ← update_pte PT page (set_rw 1) m;
  update_pte PT page (set_present 1) m.

Definition del_ss_pag (PT logical_page : Z) (m : entries) : option entries :=
  store_pte PT logical_page 0 m.

Definition get_frame (PT logical_page : Z) (m : entries) : option Z :=
  e ← load_pte PT logical_page m; Some (pbase_addr e).

Definition is_cow_page (PT page : Z) (m : entries) : option bool :=
  e ← load_pte PT page m; Some (negb (e =? 0) && (rw e =? 0)).

(** [for (pag = USER_LAST_PAGE; pag < TOTAL_PAGES; ++pag)] with its early return. *)
Fixpoint free_page_loop (n : nat) (PT pag : Z) (m : entries) : option Z :=
  match n with
  | O => Some (-1)
  | S n =>
      e ← load_pte PT pag m;
      if e =? 0 then Some pag else free_page_loop n PT (pag + 1) m
  end.

Definition find_free_page (PT : Z) (m : entries) : option Z :=
  free_page_loop (Z.to_nat (TOTAL_PAGES - USER_LAST_PAGE)) PT USER_LAST_PAGE m.

(** [init_table_pages]: clears the [NR_TASKS] tables that follow one another
    from [pagusr_table] on and maps the kernel pages of each, page 0 excepted. *)
Definition init_table_pages (pagusr_table : Z) : M entries unit :=
  for_up (Z.to_nat NR_TASKS) 0 (λ j,
    let PT := pagusr_table + 4 * TOTAL_PAGES * j in
    for_up (Z.to_nat TOTAL_PAGES) 0 (λ i, lift (store_pte PT i 0)) ;;
    for_up (Z.to_nat (NUM_PAG_KERNEL - 1)) 1 (λ i,
      lift (update_pte PT i (set_pbase_addr i)) ;;
      lift (update_pte PT i (set_rw 1)) ;;
      lift (update_pte PT i (set_present 1)))).

(** [init_dir_pages]: entry [ENTRY_DIR_PAGES] of every directory. *)
Definition init_dir_pages (dir_pages pagusr_table : Z) : M entries unit :=
  for_up (Z.to_nat NR_TASKS) 0 (λ i,
    let dir := dir_pages + 4 * TOTAL_PAGES * i in
    lift (store_pte dir ENTRY_DIR_PAGES 0) ;;
    lift (update_pte dir ENTRY_DIR_PAGES
            (set_pbase_addr (Z.shiftr (pagusr_table + 4 * TOTAL_PAGES * i) 12))) ;;
    lift (update_pte dir ENTRY_DIR_PAGES (set_user 1)) ;;
    lift (update_pte dir ENTRY_DIR_PAGES (set_rw 1)) ;;
    lift (update_pte dir ENTRY_DIR_PAGES (set_present 1))).

(** The entry [set_ss_pag] builds: the frame number above [user], [rw] and
    [present]. *)
Definition ss_entry (frame : Z) : Z := Z.lor 7 (Z.shiftl (Z.land frame 0xFFFFF) 12).

Section facts.
Implicit Types m : entries.

Lemma store_pte_Some PT page e m :
  is_Some (load_pte PT page m) → store_pte PT page e m = Some (<[slot PT page := e]> m).
Proof. unfold load_pte, store_pte. by intros [x ->]. Qed.

Lemma update_pte_insert PT page f e m :
  update_pte PT page f (<[slot PT page := e]> m) = Some (<[slot PT page := f e]> m).
Proof.
  unfold update_pte, load_pte, store_pte. rewrite lookup_insert_eq. cbn [mbind option_bind].
  by rewrite insert_insert_eq.
Qed.

Lemma ss_entry_bits frame :
  set_present 1 (set_rw 1 (set_user 1 (set_pbase_addr frame 0))) = ss_entry frame.
Proof.
  unfold ss_entry, set_present, set_rw, set_user.
  change (set_pbase_addr frame 0) with (Z.lor 0 (Z.shiftl (Z.land frame 0xFFFFF) 12)).
  by rewrite !set_bit_low by lia.
Qed.

Lemma set_ss_pag_effect PT page frame m :
  is_Some (load_pte PT page m) →
  set_ss_pag PT page frame m = Some (<[slot PT page := ss_entry frame]> m).
Proof.
  intros Hm. unfold set_ss_pag. rewrite store_pte_Some by done. cbn [mbind option_bind].
  do 4 (rewrite update_pte_insert; cbn [mbind option_bind]). by rewrite ss_entry_bits.
Qed.

Lemma del_ss_pag_effect PT page m :
  is_Some (load_pte PT page m) → del_ss_pag PT page m = Some (<[slot PT page := 0]> m).
Proof. apply store_pte_Some. Qed.

Lemma ss_entry_fields frame :
  0 ≤ frame < 2 ^ 20 →
  pbase_addr (ss_entry frame) = frame ∧ present (ss_entry frame) = 1 ∧
  rw (ss_entry frame) = 1 ∧ user (ss_entry frame) = 1 ∧ ss_entry frame ≠ 0.
Proof.
  intros Hf. unfold ss_entry. rewrite land_20 by done. split; [by apply pbase_of|].
  unfold present, rw, user, bit. rewrite !Z.lor_spec, !Z.shiftl_spec_low by lia. split_and!; try done.
  rewrite lor_shiftl_add by lia. lia.
Qed.

(** The first free page at or after [pag], if there is one. *)
Lemma free_page_loop_spec n PT pag m :
  (∀ p, pag ≤ p < pag + Z.of_nat n → is_Some (load_pte PT p m)) →
  ∃ r, free_page_loop n PT pag m = Some r ∧
    ((pag ≤ r < pag + Z.of_nat n ∧ load_pte PT r m = Some 0 ∧
      ∀ p e, pag ≤ p < r → load_pte PT p m = Some e → e ≠ 0) ∨
     (r = -1 ∧ ∀ p e, pag ≤ p < pag + Z.of_nat n → load_pte PT p m = Some e → e ≠ 0)).
Proof.
  revert pag. induction n as [|n IH]; intros pag Hm; cbn [free_page_loop].
  { eexists. split; [done|]. right. split; [done|]. intros. lia. }
  destruct (Hm pag) as [e He]; [lia|]. rewrite He. cbn [mbind option_bind].
  destruct (Z.eqb_spec e 0) as [->|Hne].
  - exists pag. split; [done|]. left. split_and!; [lia|lia|done|]. intros. lia.
  - destruct (IH (pag + 1)) as (r & -> & Hr); [intros p ?; apply Hm; lia|].
    exists r. split; [done|]. destruct Hr as [(? & ? & Hall)|[-> Hall]]; [left|right].
    + split_and!; [lia|lia|done|]. intros p f Hp Hf. destruct (Z.eq_dec p pag) as [->|]; [congruence|].
      apply (Hall p f); [lia|done].
    + split; [done|]. intros p f Hp Hf. destruct (Z.eq_dec p pag) as [->|]; [congruence|].
      apply (Hall p f); [lia|done].
Qed.

(** ** Filling a range of entries *)

(** A loop whose body rewrites the entry [addr i] from [g i] to [f i]. *)
Lemma wp_fill (addr f g : Z → Z) (body : Z → M entries unit) n lo m :
  (∀ i j, lo ≤ i < lo + Z.of_nat n → lo ≤ j < lo + Z.of_nat n → addr i = addr j → i = j) →
  (∀ i, lo ≤ i < lo + Z.of_nat n → m !! addr i = Some (g i)) →
  (∀ i m, lo ≤ i < lo + Z.of_nat n → m !! addr i = Some (g i) →
     body i m = Some (tt, <[addr i := f i]> m)) →
  wp (for_up n lo body) (λ _ m',
    (∀ i, lo ≤ i < lo + Z.of_nat n → m' !! addr i = Some (f i)) ∧
    (∀ a, (∀ i, lo ≤ i < lo + Z.of_nat n → a ≠ addr i) → m' !! a = m !! a)) m.
Proof.
  intros Hinj Hg Hbody. eapply wp_mono.
  { apply (wp_for_up (λ k m', (∀ i, lo ≤ i < k → m' !! addr i = Some (f i)) ∧
      (∀ a, (∀ i, lo ≤ i < k → a ≠ addr i) → m' !! a = m !! a))).
    - split; [intros; lia|done].
    - intros k m' Hk [H1 H2]. unfold wp. rewrite Hbody; [| lia |].
      + split.
        * intros i Hi. destruct (decide (i = k)) as [->|]; [by rewrite lookup_insert_eq|].
          rewrite lookup_insert_ne; [apply H1; lia|]. intros E. apply Hinj in E; lia.
        * intros a Ha. rewrite lookup_insert_ne by (intros <-; by apply (Ha k); [lia|]).
          apply H2. intros i Hi. apply Ha. lia.
      + rewrite H2; [apply Hg; lia|]. intros i Hi E. apply Hinj in E; lia. }
  intros [] m' H'. exact H'.
Qed.

(** A table whose entries have addresses of 32 bits. *)
Definition table_ok (PT : Z) : Prop := 0 ≤ PT ∧ PT + 4096 ≤ 2 ^ 32.

Lemma slot_eq PT i : table_ok PT → 0 ≤ i < TOTAL_PAGES → slot PT i = PT + 4 * i.
Proof. unfold table_ok, slot, TOTAL_PAGES. intros. apply u32_small. wrap_lia. Qed.

(** The entry [init_table_pages] gives to the kernel page [i]. *)
Definition kernel_entry (i : Z) : Z := Z.lor 3 (Z.shiftl (Z.land i 0xFFFFF) 12).

Lemma kernel_entry_bits i : set_present 1 (set_rw 1 (set_pbase_addr i 0)) = kernel_entry i.
Proof.
  unfold kernel_entry, set_present, set_rw.
  change (set_pbase_addr i 0) with (Z.lor 0 (Z.shiftl (Z.land i 0xFFFFF) 12)).
  by rewrite !set_bit_low by lia.
Qed.

Lemma kernel_entry_fields i :
  0 ≤ i < 2 ^ 20 →
  pbase_addr (kernel_entry i) = i ∧ present (kernel_entry i) = 1 ∧ user (kernel_entry i) = 0.
Proof.
  intros Hf. unfold kernel_entry. rewrite land_20 by done. split; [by apply pbase_of|].
  unfold present, user, bit. rewrite !Z.lor_spec, !Z.shiftl_spec_low by lia. by split_and!.
Qed.

Lemma update_pte_run PT page f e m :
  m !! slot PT page = Some e → update_pte PT page f m = Some (<[slot PT page := f e]> m).
Proof. intros He. unfold update_pte, store_pte, load_pte. by rewrite He; cbn; rewrite ?He. Qed.

Lemma store_pte_run PT page e v m :
  m !! slot PT page = Some e → store_pte PT page v m = Some (<[slot PT page := v]> m).
Proof. intros He. unfold store_pte. by rewrite He. Qed.

(** The content of a table of kernel pages: identity map, page 0 excepted. *)
Definition kernel_table (i : Z) : Z := if (1 <=? i) && (i <? NUM_PAG_KERNEL) then kernel_entry i else 0.

Lemma init_one_table PT m :
  table_ok PT → (∀ i, 0 ≤ i < TOTAL_PAGES → is_Some (m !! slot PT i)) →
  wp (for_up (Z.to_nat TOTAL_PAGES) 0 (λ i, lift (store_pte PT i 0)) ;;
      for_up (Z.to_nat (NUM_PAG_KERNEL - 1)) 1 (λ i,
        lift (update_pte PT i (set_pbase_addr i)) ;;
        lift (update_pte PT i (set_rw 1)) ;;
        lift (update_pte PT i (set_present 1)))) (λ _ m',
    (∀ i, 0 ≤ i < TOTAL_PAGES → m' !! slot PT i = Some (kernel_table i)) ∧
    (∀ a, a < PT ∨ PT + 4096 ≤ a → m' !! a = m !! a)) m.
Proof.
  intros HPT Hm. unfold TOTAL_PAGES, NUM_PAG_KERNEL in *. apply wp_bind. eapply wp_mono.
  { apply (wp_fill (slot PT) (λ _, 0) (λ i, default 0 (m !! slot PT i))).
    - intros i j Hi Hj. rewrite !slot_eq by (done || unfold TOTAL_PAGES; lia). lia.
    - intros i Hi. destruct (Hm i) as [e ->]; [lia|done].
    - intros i m' Hi He. unfold lift. by erewrite store_pte_run. }
  intros [] m1 [Hz1 Ho1]. eapply wp_mono.
  { apply (wp_fill (slot PT) kernel_entry (λ _, 0)).
    - intros i j Hi Hj. rewrite !slot_eq by (done || unfold TOTAL_PAGES; lia). lia.
    - intros i Hi. apply Hz1. lia.
    - intros i m' Hi He. unfold mbind, M_bind, lift. rewrite (update_pte_run _ _ _ 0) by done. cbn [mbind option_bind].
      rewrite update_pte_insert. cbn [mbind option_bind]. rewrite update_pte_insert. cbn [mbind option_bind].
      by rewrite kernel_entry_bits. }
  intros [] m2 [Hz2 Ho2]. split.
  - intros i Hi. unfold kernel_table, NUM_PAG_KERNEL.
    destruct (Z.leb_spec 1 i); [destruct (Z.ltb_spec i 256)|]; cbn [andb].
    + apply Hz2. lia.
    + rewrite Ho2; [apply Hz1; lia|]. intros j Hj. rewrite !slot_eq by (done || unfold TOTAL_PAGES; lia). lia.
    + rewrite Ho2; [apply Hz1; lia|]. intros j Hj. rewrite !slot_eq by (done || unfold TOTAL_PAGES; lia). lia.
  - intros a Ha. rewrite Ho2, Ho1; [done|..]; intros j Hj; rewrite slot_eq by (done || unfold TOTAL_PAGES; lia); lia.
Qed.

(** The array of the [NR_TASKS] tables (or directories) that starts at [b]. *)
Definition tables_ok (b : Z) : Prop := 0 ≤ b ∧ b + 40960 ≤ 2 ^ 32.
Definition table_of (b j : Z) : Z := b + 4096 * j.

Lemma tables_table b j : tables_ok b → 0 ≤ j < NR_TASKS → table_ok (table_of b j).
Proof. unfold tables_ok, table_ok, table_of, NR_TASKS. lia. Qed.

Definition is_table (b : Z) m : Prop :=
  ∀ j i, 0 ≤ j < NR_TASKS → 0 ≤ i < TOTAL_PAGES → is_Some (m !! slot (table_of b j) i).

Lemma init_table_pages_spec b m :
  tables_ok b → is_table b m →
  wp (init_table_pages b) (λ _ m',
    (∀ j i, 0 ≤ j < NR_TASKS → 0 ≤ i < TOTAL_PAGES → m' !! slot (table_of b j) i = Some (kernel_table i)) ∧
    (∀ a, a < b ∨ b + 40960 ≤ a → m' !! a = m !! a)) m.
Proof.
  intros Hb Hm. unfold init_table_pages. eapply wp_mono.
  { apply (wp_for_up (λ k m', is_table b m' ∧
      (∀ j i, 0 ≤ j < k → 0 ≤ i < TOTAL_PAGES → m' !! slot (table_of b j) i = Some (kernel_table i)) ∧
      (∀ a, a < b ∨ b + 40960 ≤ a → m' !! a = m !! a))).
    - split_and!; [done|intros; lia|done].
    - intros j m' Hj (Ht & Hdone & Hout). unfold NR_TASKS in *.
      replace (b + 4 * TOTAL_PAGES * j) with (table_of b j) by (unfold table_of, TOTAL_PAGES; lia).
      pose proof (tables_table b j Hb ltac:(unfold NR_TASKS; lia)) as HT.
      eapply wp_mono; [apply (init_one_table _ _ HT); intros i Hi; apply Ht; [unfold NR_TASKS; lia|done]|].
      intros [] m2 [Hnew Hsame].
      assert (Hother : ∀ j' i, 0 ≤ j' < 10 → 0 ≤ i < TOTAL_PAGES → j' ≠ j →
                m2 !! slot (table_of b j') i = m' !! slot (table_of b j') i).
      { intros j' i Hj' Hi Hne. apply Hsame. rewrite slot_eq by (done || apply tables_table; done).
        unfold table_of, TOTAL_PAGES in *. lia. }
      split_and!.
      + intros j' i Hj' Hi. unfold NR_TASKS in Hj'. destruct (decide (j' = j)) as [->|Hne]; [rewrite Hnew by done; eauto|].
        rewrite Hother by done. by apply Ht.
      + intros j' i Hj' Hi. destruct (decide (j' = j)) as [->|Hne]; [by apply Hnew|].
        rewrite Hother by (done || lia). apply Hdone; [lia|done].
      + intros a Ha. rewrite Hsame; [by apply Hout|]. unfold table_of. lia. }
  intros [] m' (_ & Hdone & Hout). split; [|done]. intros j i Hj. apply Hdone. unfold NR_TASKS in *. lia.
Qed.

(** The entry [init_dir_pages] gives to the directory of the table at [t]. *)
Definition dir_entry (t : Z) : Z := ss_entry (Z.shiftr t 12).

Lemma init_dir_pages_spec d b m :
  tables_ok d → is_table d m →
  wp (init_dir_pages d b) (λ _ m',
    (∀ j, 0 ≤ j < NR_TASKS → m' !! slot (table_of d j) 0 = Some (dir_entry (table_of b j))) ∧
    (∀ a, a < d ∨ d + 40960 ≤ a → m' !! a = m !! a) ∧
    (∀ j i, 0 ≤ j < NR_TASKS → 0 < i < TOTAL_PAGES → m' !! slot (table_of d j) i = m !! slot (table_of d j) i)) m.
Proof.
  intros Hd Hm. unfold init_dir_pages. unfold NR_TASKS in *. eapply wp_mono.
  { apply (wp_fill (λ j, slot (table_of d j) 0) (λ j, dir_entry (table_of b j))
             (λ j, default 0 (m !! slot (table_of d j) 0))).
    - intros i j Hi Hj. rewrite !slot_eq by (done || apply tables_table; done || unfold NR_TASKS; lia).
      unfold table_of. lia.
    - intros j Hj. destruct (Hm j 0) as [e ->]; [unfold NR_TASKS; lia|unfold TOTAL_PAGES; lia|done].
    - intros j m' Hj He.
      change (d + 4 * TOTAL_PAGES * j) with (table_of d j). change (b + 4 * TOTAL_PAGES * j) with (table_of b j).
      unfold mbind, M_bind, lift, ENTRY_DIR_PAGES. erewrite store_pte_run by done. cbn [mbind option_bind].
      do 4 (rewrite update_pte_insert; cbn [mbind option_bind]). by rewrite ss_entry_bits. }
  intros [] m' [Hnew Hout]. split; [intros j Hj; apply Hnew; lia|].
  assert (Hat : ∀ j i, 0 ≤ j < 10 → 0 ≤ i < TOTAL_PAGES → slot (table_of d j) i = table_of d j + 4 * i).
  { intros j i Hj Hi. apply slot_eq; [|done]. by apply tables_table. }
  split.
  - intros a Ha. apply Hout. intros j Hj. rewrite Hat; [unfold table_of; lia|lia|unfold TOTAL_PAGES; lia].
  - intros j i Hj Hi. apply Hout. intros j' Hj'. rewrite !Hat by (unfold TOTAL_PAGES in *; lia).
    unfold table_of, TOTAL_PAGES in *. lia.
Qed.
End facts.

End PageTable.
