(* ===== verification/Hardware.v ===== *)
(** * The registers of the processor (hardware.c)

    The inline assembly of hardware.c as changes of the registers: the flags, the
    registers of the descriptor tables, the selectors, and the mask of the
    interrupt controller.  [return_gate], which also uses the memory and the
    stack, is in System.v. *)

From S2P Require Import Prelude CInt.

Record Register := mk_Register { reg_limit : Z; reg_base : Z }.

(** [ds_es] and [fs_gs] are pairs of selectors that the code loads together. *)
Record processor := mk_processor {
  flags_reg : Z;
  idtr : Register;
  gdtr : Register;
  ldtr : Z;
  tr : Z;
  ds_es : Z;
  fs_gs : Z;
  ss_reg : Z;
  cs_reg : Z;
  pic_mask : Z;
}.

Definition set_flags_reg (v : Z) (p : processor) : processor :=
  mk_processor v (idtr p) (gdtr p) (ldtr p) (tr p) (ds_es p) (fs_gs p) (ss_reg p) (cs_reg p) (pic_mask p).
Definition set_selectors (d f s c : Z) (p : processor) : processor :=
  mk_processor (flags_reg p) (idtr p) (gdtr p) (ldtr p) (tr p) d f s c (pic_mask p).

(** ** The operations *)

Definition get_eflags : M processor Z := gets flags_reg.

Definition set_eflags : M processor unit := modify (set_flags_reg 0).

Definition set_idt_reg (r : Register) : M processor unit :=
  modify (λ p, mk_processor (flags_reg p) r (gdtr p) (ldtr p) (tr p) (ds_es p) (fs_gs p) (ss_reg p) (cs_reg p) (pic_mask p)).
Definition set_gdt_reg (r : Register) : M processor unit :=
  modify (λ p, mk_processor (flags_reg p) (idtr p) r (ldtr p) (tr p) (ds_es p) (fs_gs p) (ss_reg p) (cs_reg p) (pic_mask p)).
Definition set_ldt_reg (ldt : Z) : M processor unit :=
  modify (λ p, mk_processor (flags_reg p) (idtr p) (gdtr p) ldt (tr p) (ds_es p) (fs_gs p) (ss_reg p) (cs_reg p) (pic_mask p)).
Definition set_task_reg (sel : Z) : M processor unit :=
  modify (λ p, mk_processor (flags_reg p) (idtr p) (gdtr p) (ldtr p) sel (ds_es p) (fs_gs p) (ss_reg p) (cs_reg p) (pic_mask p)).

(** A jump to the next instruction. *)
Definition delay : M processor unit := mret tt.

(** The clock and the keyboard are let through, then [sti]. *)
Definition enable_int : M processor unit :=
  modify (λ p, mk_processor (flags_reg p) (idtr p) (gdtr p) (ldtr p) (tr p) (ds_es p) (fs_gs p) (ss_reg p) (cs_reg p) 0xfc) ;;
  delay ;;
  modify (λ p, set_flags_reg (Z.setbit (flags_reg p) 9) p).

(** The selectors of [set_seg_regs], after [cld]. *)
Definition load_selectors (data_sel stack_sel : Z) : M processor unit :=
  modify (λ p, set_flags_reg (Z.clearbit (flags_reg p) 10) p) ;;
  modify (λ p, set_selectors data_sel data_sel stack_sel (cs_reg p) p).

(** What the processor reads: the interrupts of the line [n] arrive. *)
Definition takes_interrupt (p : processor) (n : Z) : bool := Z.testbit (flags_reg p) 9 && negb (Z.testbit (pic_mask p) n).

(** After [enable_int] the clock (line 0) and the keyboard (line 1) interrupt, and
    no other line does. *)
Lemma enable_int_lines p : wp enable_int (λ _ p', ∀ n, 0 ≤ n < 8 → takes_interrupt p' n = (n <? 2)) p.
Proof.
  unfold enable_int, delay. wp_step. wp_step. wp_step. wp_step. wp_step. intros n Hn. unfold takes_interrupt. cbn [flags_reg set_flags_reg pic_mask].
  rewrite Z.setbit_eqb by lia. rewrite Z.eqb_refl. cbn [orb andb].
  assert (n = 0 ∨ n = 1 ∨ n = 2 ∨ n = 3 ∨ n = 4 ∨ n = 5 ∨ n = 6 ∨ n = 7) as Hc by lia.
  repeat (destruct Hc as [->|Hc]; [done|]). by rewrite Hc.
Qed.

(** What the boot sector leaves: interrupts are masked but for the line of the second
    controller; [main] loads the selectors before it uses them. *)
Definition image_processor : processor :=
  mk_processor 2 (mk_Register 0 0) (mk_Register 0x8000 0x901b3) 0 0 0x18 0x18 0x18 0x10 0xFB.
