(* ===== verification/Descriptors.v ===== *)
(** * Descriptor tables (types.h, segment.h, setInterruptHandler of interrupt.c,
    setGdt and setTSS of mm.c)

    The gates of the IDT, the descriptor of the TSS in the GDT and the TSS, as
    the code builds them from 16 and 8-bit fields, with the decoding the
    processor does of a gate and of a descriptor. *)

From S2P Require Import Prelude CInt Hardware.

Definition KERNEL_CS : Z := 0x10.
Definition KERNEL_DS : Z := 0x18.
Definition USER_CS : Z := 0x23.
Definition USER_DS : Z := 0x2B.
Definition KERNEL_TSS : Z := 0x30.
Definition GDT_START : Z := 0x901b3.
Definition IDT_ENTRIES : Z := 256.
Definition INITIAL_EFLAGS : Z := 0x00000200.
Definition USER_ESP : Z := 0x100000 + 20 * 0x1000 - 16.

(** The macros of types.h. *)
Definition highWord (address : Z) : Z := u16 (Z.land (Z.shiftr address 16) 0xFFFF).
Definition lowWord (address : Z) : Z := u16 (Z.land address 0xFFFF).
Definition midByte (address : Z) : Z := u8 (Z.land (Z.shiftr address 16) 0xFF).
Definition highByte (address : Z) : Z := u8 (Z.land (Z.shiftr address (16 + 8)) 0xFF).

Record Gate := mk_Gate {
  lowOffset : Z;
  segmentSelector : Z;
  flags : Z;
  highOffset : Z;
}.

Record Descriptor := mk_Descriptor {
  limit : Z;
  lowBase : Z;
  midBase : Z;
  flags1 : Z;
  flags2 : Z;
  highBase : Z;
}.

(** The TSS without its field [esp0], which the kernel state keeps apart. *)
Record TSS := mk_TSS {
  PreviousTaskLink : Z; ss0 : Z; esp1 : Z; ss1 : Z; esp2 : Z; ss2 : Z;
  tss_cr3 : Z; tss_eip : Z; eFlags : Z; tss_eax : Z; tss_ecx : Z; tss_edx : Z; tss_ebx : Z;
  tss_esp : Z; tss_ebp : Z; tss_esi : Z; tss_edi : Z;
  tss_es : Z; tss_cs : Z; tss_ss : Z; tss_ds : Z; tss_fs : Z; tss_gs : Z;
  LDTSegmentSelector : Z; debugTrap : Z; IOMapBaseAddress : Z;
}.

(** The tables, and the processor whose registers select them. *)
Record tables := mk_tables {
  idt : list Gate;
  gdt : list Descriptor;
  tss : TSS;
  proc : processor;
}.

Definition set_idt (v : list Gate) (d : tables) : tables := mk_tables v (gdt d) (tss d) (proc d).
Definition set_gdt (v : list Descriptor) (d : tables) : tables := mk_tables (idt d) v (tss d) (proc d).
Definition set_tss (v : TSS) (d : tables) : tables := mk_tables (idt d) (gdt d) v (proc d).
Definition set_proc (v : processor) (d : tables) : tables := mk_tables (idt d) (gdt d) (tss d) v.

(** ** The operations *)

Definition on_processor {A} (m : M processor A) : M tables A := zoom proc set_proc m.

Definition setInterruptHandler (vector handler maxAccessibleFromPL : Z) : M tables unit :=
  let fl := u16 (Z.shiftl maxAccessibleFromPL 13) in
  let fl := u16 (Z.lor fl 0x8E00) in
  lift (λ d, i ← zset (idt d) vector (mk_Gate (lowWord handler) KERNEL_CS fl (highWord handler)); Some (set_idt i d)).

(** The same gate as [setInterruptHandler]: the type of a trap gate is commented out. *)
Definition setTrapHandler (vector handler maxAccessibleFromPL : Z) : M tables unit :=
  let fl := u16 (Z.shiftl maxAccessibleFromPL 13) in
  let fl := u16 (Z.lor fl 0x8E00) in
  lift (λ d, i ← zset (idt d) vector (mk_Gate (lowWord handler) KERNEL_CS fl (highWord handler)); Some (set_idt i d)).

(** [gdt[KERNEL_TSS >> 3]] gets the address of the TSS. *)
Definition setGdt (tss_addr : Z) : M tables unit :=
  lift (λ d,
    e ← znth (gdt d) (Z.shiftr KERNEL_TSS 3);
    g ← zset (gdt d) (Z.shiftr KERNEL_TSS 3)
          (mk_Descriptor (limit e) (lowWord tss_addr) (midByte tss_addr) (flags1 e) (flags2 e) (highByte tss_addr));
    Some (set_gdt g d)) ;;
  on_processor (set_gdt_reg (mk_Register (u16 (256 * 8)) GDT_START)).

Definition setTSS : M tables unit :=
  modify (set_tss {|
    PreviousTaskLink := 0; ss0 := KERNEL_DS; esp1 := 0; ss1 := 0; esp2 := 0; ss2 := 0;
    tss_cr3 := 0; tss_eip := 0; eFlags := INITIAL_EFLAGS; tss_eax := 0; tss_ecx := 0; tss_edx := 0; tss_ebx := 0;
    tss_esp := USER_ESP; tss_ebp := USER_ESP; tss_esi := 0; tss_edi := 0;
    tss_es := USER_DS; tss_cs := USER_CS; tss_ss := USER_DS; tss_ds := USER_DS; tss_fs := 0; tss_gs := 0;
    LDTSegmentSelector := KERNEL_TSS; debugTrap := 0; IOMapBaseAddress := 0;
  |}) ;;
  on_processor (set_task_reg KERNEL_TSS).

(** ** What the processor reads *)

Definition gate_target (g : Gate) : Z := highOffset g * 2 ^ 16 + lowOffset g.
Definition gate_dpl (g : Gate) : Z := Z.land (Z.shiftr (flags g) 13) 3.
Definition gate_type (g : Gate) : Z := Z.land (Z.shiftr (flags g) 8) 0x1F.
Definition gate_present (g : Gate) : bool := Z.testbit (flags g) 15.
Definition desc_base (e : Descriptor) : Z := highBase e * 2 ^ 24 + midBase e * 2 ^ 16 + lowBase e.

(** The fields of the macros are the digits of the address. *)
Lemma words_of a : is_u32 a → highWord a * 2 ^ 16 + lowWord a = a.
Proof.
  intros Ha. unfold highWord, lowWord. rewrite !(land_ones_mod _ 16), Z.shiftr_div_pow2 by lia.
  unfold u16, is_u32 in *. rewrite !Z.mod_mod by lia. change (2 ^ 32) with 4294967296 in Ha.
  change (2 ^ 16) with 65536. Z.div_mod_to_equations; lia.
Qed.

Lemma bytes_of a : is_u32 a → highByte a * 2 ^ 24 + midByte a * 2 ^ 16 + lowWord a = a.
Proof.
  intros Ha. unfold highByte, midByte, lowWord.
  rewrite !(land_ones_mod _ 16), !(land_ones_mod _ 8), !Z.shiftr_div_pow2 by lia.
  unfold u16, u8, is_u32 in *. rewrite !Z.mod_mod by lia. change (2 ^ 32) with 4294967296 in Ha.
  change (2 ^ (16 + 8)) with 16777216. change (2 ^ 16) with 65536. change (2 ^ 24) with 16777216.
  change (2 ^ 8) with 256. Z.div_mod_to_equations; lia.
Qed.

Lemma gate_flags pl : 0 ≤ pl < 4 →
  let fl := u16 (Z.lor (u16 (Z.shiftl pl 13)) 0x8E00) in
  Z.land (Z.shiftr fl 13) 3 = pl ∧ Z.land (Z.shiftr fl 8) 0x1F = 14 ∧ Z.testbit fl 15 = true.
Proof.
  intros Hpl. assert (pl = 0 ∨ pl = 1 ∨ pl = 2 ∨ pl = 3) as [->|[->|[->| ->]]] by lia; by vm_compute.
Qed.

(** Descriptors round trip.  After [setInterruptHandler] the processor
    reads in the gate of the vector the address of the handler, the kernel code
    segment, the privilege level given, and a present 32-bit interrupt gate (so
    that the handler runs with interrupts masked), the other gates being as
    they were; [setTrapHandler] builds the same gate; after [setGdt] the
    descriptor selected by [KERNEL_TSS] has the base of the TSS and keeps its
    limit and attributes. *)
Lemma descriptors_round_trip (d : tables) (vector handler pl tss_addr : Z) (e : Descriptor) :
  0 ≤ vector < Z.of_nat (length (idt d)) → is_u32 handler → 0 ≤ pl < 4 → is_u32 tss_addr →
  znth (gdt d) 6 = Some e →
  wp (setInterruptHandler vector handler pl) (λ _ d',
    (∃ g, znth (idt d') vector = Some g ∧ gate_target g = handler ∧ segmentSelector g = KERNEL_CS ∧
       gate_dpl g = pl ∧ gate_type g = 14 ∧ gate_present g = true) ∧
    (∀ v, v ≠ vector → znth (idt d') v = znth (idt d) v) ∧
    setTrapHandler vector handler pl d = Some (tt, d')) d ∧
  wp (setGdt tss_addr) (λ _ d',
    (∃ e', znth (gdt d') (Z.shiftr KERNEL_TSS 3) = Some e' ∧ desc_base e' = tss_addr ∧
       limit e' = limit e ∧ flags1 e' = flags1 e ∧ flags2 e' = flags2 e) ∧
    (∀ i, i ≠ 6 → znth (gdt d') i = znth (gdt d) i) ∧
    gdtr (proc d') = mk_Register 2048 GDT_START ∧ idt d' = idt d) d.
Proof.
  intros Hv Hh Hpl Ht He. split.
  - unfold setInterruptHandler. destruct (gate_flags pl Hpl) as (Hd & Hty & Hp).
    eapply wp_lift; [by rewrite zset_Some|]. cbn [idt set_idt]. split_and!.
    + eexists. split; [rewrite znth_insert by done; by rewrite Z.eqb_refl|].
      split_and!; try done. by apply words_of.
    + intros v Hne. rewrite znth_insert by done. destruct (Z.eqb_spec vector v); [congruence|done].
    + unfold setTrapHandler, lift. by rewrite zset_Some.
  - pose proof (znth_Some_range _ _ _ He) as Hr. unfold setGdt. change (Z.shiftr KERNEL_TSS 3) with 6.
    wp_step. eapply wp_lift.
    { rewrite He. cbn [mbind option_bind]. by rewrite zset_Some. }
    apply wp_zoom, wp_modify. cbn [gdt set_gdt idt gdtr proc set_proc]. split_and!; try done.
    + eexists. split; [rewrite znth_insert by done; by rewrite Z.eqb_refl|].
      split_and!; try done. by apply bytes_of.
    + intros i Hne. rewrite znth_insert by done. destruct (Z.eqb_spec 6 i); [congruence|done].
Qed.

Definition blank_gate : Gate := mk_Gate 0 0 0 0.
Definition blank_descriptor : Descriptor := mk_Descriptor 0 0 0 0 0 0.
Definition blank_tss : TSS := mk_TSS 0 0 0 0 0 0 0 0 0 0 0 0 0 0 0 0 0 0 0 0 0 0 0 0 0 0.

(** The tables of the image: the GDT is the one of bootsect.S. *)
Definition image_tables : tables :=
  mk_tables (replicate 256 blank_gate)
    [blank_descriptor; blank_descriptor;
     mk_Descriptor 0xFFFF 0 0 0x9a 0xcf 0; mk_Descriptor 0xFFFF 0 0 0x92 0xcf 0;
     mk_Descriptor 0xFFFF 0 0 0xfa 0xcf 0; mk_Descriptor 0xFFFF 0 0 0xf2 0xcf 0;
     mk_Descriptor 104 0 0 0x89 0 0]
    blank_tss image_processor.
