(* ===== verification/Kernel.v ===== *)
(** * The kernel state (sched.h, sched.c, mm.h, interrupt.c)

    One record holds the globals of the kernel and the machine registers it
    drives.  Kernel objects keep the addresses the linker gives them
    ([Layout]); a pointer is its address, so that the pointer arithmetic of
    the code (the PCB of an anchor, the entry of a page table, the current
    process from the stack pointer) is arithmetic here.  An access to an
    address that holds no object is a fault. *)

From S2P Require Import Prelude CInt ListHead Circular Memory Console Paging Descriptors.
Export Circ(circular_buffer).

(** ** What the linker and the compiler decide *)

Class Layout := {
  task : Z;             (** the array of [NR_TASKS] task unions, a page each *)
  dir_pages : Z;        (** [dir_pages[NR_TASKS][TOTAL_PAGES]] *)
  pagusr_table : Z;     (** [pagusr_table[NR_TASKS][TOTAL_PAGES]] *)
  freequeue : Z;        (** the heads of the three queues *)
  readyqueue : Z;
  blocked : Z;
  kern_buff : Z;        (** the static buffer of sys_write *)
  read_buff : Z;        (** the local buffer of sys_read *)
  cpu_idle : Z;         (** code addresses *)
  ret_from_fork : Z;
  task_switch_ret : Z;  (** the return address [task_switch] pushes for its call *)
  tss_addr : Z;         (** the TSS *)
  clk_handler : Z;      (** the entry points of entry.S *)
  kbd_handler : Z;
  sys_call_handler_sysenter : Z;
  call_depth : Z;       (** the bytes of stack between a kernel entry and a call of [task_switch] *)
}.

Definition TASKS_SIZE : Z := 40960.

Class LayoutOk `{Layout} : Prop := {
  task_aligned : task mod 4096 = 0;
  task_range : 0 < task ∧ task + TASKS_SIZE ≤ 0x100000;
  dir_aligned : dir_pages mod 4096 = 0;
  dir_range : 0 < dir_pages ∧ dir_pages + TASKS_SIZE ≤ 0x100000;
  pagusr_aligned : pagusr_table mod 4096 = 0;
  pagusr_range : 0 < pagusr_table ∧ pagusr_table + TASKS_SIZE ≤ 0x100000;
  tables_apart : dir_pages + TASKS_SIZE ≤ pagusr_table ∨ pagusr_table + TASKS_SIZE ≤ dir_pages;
  queues_apart : freequeue ≠ readyqueue ∧ freequeue ≠ blocked ∧ readyqueue ≠ blocked;
  queues_out : ∀ q, q = freequeue ∨ q = readyqueue ∨ q = blocked →
    0 < q ∧ (q < task ∨ task + TASKS_SIZE ≤ q);
  kern_buff_range : 4096 ≤ kern_buff ∧ kern_buff + 512 ≤ 0x100000;
  read_buff_range : 4096 ≤ read_buff ∧ read_buff + 512 ≤ 0x100000;
  call_depth_range : 76 ≤ call_depth ≤ 1024 ∧ call_depth mod 4 = 0;  (** at least the words entry.S saves *)
  code_apart : task_switch_ret ≠ cpu_idle ∧ task_switch_ret ≠ ret_from_fork ∧ cpu_idle ≠ ret_from_fork;
}.

(** A layout as the linker script produces it: the page-aligned arrays one
    after the other behind the data of the kernel. *)
#[export] Instance example_layout : Layout := {
  task := 0x20000; dir_pages := 0x2A000; pagusr_table := 0x34000;
  freequeue := 0x1F000; readyqueue := 0x1F008; blocked := 0x1F010;
  kern_buff := 0x1E000; read_buff := 0x1E800;
  cpu_idle := 0x10400; ret_from_fork := 0x10800; task_switch_ret := 0x10900;
  tss_addr := 0x1EA00; clk_handler := 0x10A00; kbd_handler := 0x10B00;
  sys_call_handler_sysenter := 0x10C00;
  call_depth := 128;
}.

(** ** The PCB *)

Inductive state_t := ST_RUN | ST_READY | ST_BLOCKED | ST_ZOMBIE.

#[export] Instance state_t_eq_dec : EqDecision state_t.
Proof. solve_decision. Defined.

(** [struct task_struct]: its anchors ([node], [dead_sons], [sons], [bros]) are
    in [lists], at their offsets from the address of the PCB. *)
Record task_struct := mk_task_struct {
  PID : Z;
  dir_pages_baseAddr : Z;
  state : state_t;
  parent : Z;
  kernel_esp0 : Z;
  nr_ticks : Z;
  quantum : Z;
  pending_unblocks : Z;
}.

Definition node (t : Z) : Z := t + 8.
Definition dead_sons (t : Z) : Z := t + 20.
Definition sons (t : Z) : Z := t + 28.
Definition bros (t : Z) : Z := t + 36.

Definition KERNEL_STACK_SIZE : Z := 1024.

(** [&((union task_union * )t)->stack[i]] *)
Definition stack_slot (t i : Z) : Z := t + 4 * i.

Definition with_PID (v : Z) (p : task_struct) : task_struct :=
  mk_task_struct v (dir_pages_baseAddr p) (state p) (parent p) (kernel_esp0 p) (nr_ticks p) (quantum p) (pending_unblocks p).
Definition with_dir_pages_baseAddr (v : Z) (p : task_struct) : task_struct :=
  mk_task_struct (PID p) v (state p) (parent p) (kernel_esp0 p) (nr_ticks p) (quantum p) (pending_unblocks p).
Definition with_state (v : state_t) (p : task_struct) : task_struct :=
  mk_task_struct (PID p) (dir_pages_baseAddr p) v (parent p) (kernel_esp0 p) (nr_ticks p) (quantum p) (pending_unblocks p).
Definition with_parent (v : Z) (p : task_struct) : task_struct :=
  mk_task_struct (PID p) (dir_pages_baseAddr p) (state p) v (kernel_esp0 p) (nr_ticks p) (quantum p) (pending_unblocks p).
(** The conversion of an address to [unsigned long]. *)
Definition with_kernel_esp0 (v : Z) (p : task_struct) : task_struct :=
  mk_task_struct (PID p) (dir_pages_baseAddr p) (state p) (parent p) (u32 v) (nr_ticks p) (quantum p) (pending_unblocks p).
Definition with_nr_ticks (v : Z) (p : task_struct) : task_struct :=
  mk_task_struct (PID p) (dir_pages_baseAddr p) (state p) (parent p) (kernel_esp0 p) v (quantum p) (pending_unblocks p).
Definition with_quantum (v : Z) (p : task_struct) : task_struct :=
  mk_task_struct (PID p) (dir_pages_baseAddr p) (state p) (parent p) (kernel_esp0 p) (nr_ticks p) v (pending_unblocks p).
Definition with_pending_unblocks (v : Z) (p : task_struct) : task_struct :=
  mk_task_struct (PID p) (dir_pages_baseAddr p) (state p) (parent p) (kernel_esp0 p) (nr_ticks p) (quantum p) v.

Record SharedPage := mk_SharedPage { frame : Z; num_refs : Z; to_clear : Z }.

Definition with_num_refs (v : Z) (p : SharedPage) : SharedPage := mk_SharedPage (frame p) v (to_clear p).
Definition with_to_clear (v : Z) (p : SharedPage) : SharedPage := mk_SharedPage (frame p) (num_refs p) v.

(** ** The state of the machine and of the kernel *)

Record kernel := mk_kernel {
  tasks : gmap Z task_struct;  (** the PCBs, by address *)
  lists : links;  (** every [struct list_head] of the kernel *)
  stacks : gmap Z Z;  (** the words of the system stacks, by address *)
  ptes : gmap Z Z;  (** page directories and tables, by address of the entry *)
  phys_mem : list Z;  (** references to each physical frame *)
  shared_pages : list SharedPage;
  frames : gmap Z Z;  (** the bytes of physical memory *)
  esp : Z;  (** the stack pointer *)
  cr3 : Z;  (** the page directory in use *)
  cr0 : Z;  (** control register 0: bit 31 enables paging *)
  tss_esp0 : Z;  (** [tss.esp0] *)
  msrs : gmap Z (Z * Z);  (** the registers written by [wrmsr]: low and high half *)
  resume : Z;  (** where the last stack switch resumed execution *)
  idle_task : Z;
  task1_task : Z;
  next_pid : Z;
  ticks_since_last_switch : Z;  (** an [unsigned int] *)
  zeos_ticks : Z;  (** an [int] *)
  cbuff : circular_buffer;  (** the keyboard buffer *)
  cons : console;  (** the screen *)
  desc : tables;  (** the IDT, the GDT, the TSS and their registers *)
}.

Definition set_tasks (v : gmap Z task_struct) (k : kernel) : kernel :=
  mk_kernel v (lists k) (stacks k) (ptes k) (phys_mem k) (shared_pages k) (frames k) (esp k) (cr3 k) (cr0 k) (tss_esp0 k) (msrs k) (resume k) (idle_task k) (task1_task k) (next_pid k) (ticks_since_last_switch k) (zeos_ticks k) (cbuff k) (cons k) (desc k).
Definition set_lists (v : links) (k : kernel) : kernel :=
  mk_kernel (tasks k) v (stacks k) (ptes k) (phys_mem k) (shared_pages k) (frames k) (esp k) (cr3 k) (cr0 k) (tss_esp0 k) (msrs k) (resume k) (idle_task k) (task1_task k) (next_pid k) (ticks_since_last_switch k) (zeos_ticks k) (cbuff k) (cons k) (desc k).
Definition set_stacks (v : gmap Z Z) (k : kernel) : kernel :=
  mk_kernel (tasks k) (lists k) v (ptes k) (phys_mem k) (shared_pages k) (frames k) (esp k) (cr3 k) (cr0 k) (tss_esp0 k) (msrs k) (resume k) (idle_task k) (task1_task k) (next_pid k) (ticks_since_last_switch k) (zeos_ticks k) (cbuff k) (cons k) (desc k).
Definition set_ptes (v : gmap Z Z) (k : kernel) : kernel :=
  mk_kernel (tasks k) (lists k) (stacks k) v (phys_mem k) (shared_pages k) (frames k) (esp k) (cr3 k) (cr0 k) (tss_esp0 k) (msrs k) (resume k) (idle_task k) (task1_task k) (next_pid k) (ticks_since_last_switch k) (zeos_ticks k) (cbuff k) (cons k) (desc k).
Definition set_phys_mem (v : list Z) (k : kernel) : kernel :=
  mk_kernel (tasks k) (lists k) (stacks k) (ptes k) v (shared_pages k) (frames k) (esp k) (cr3 k) (cr0 k) (tss_esp0 k) (msrs k) (resume k) (idle_task k) (task1_task k) (next_pid k) (ticks_since_last_switch k) (zeos_ticks k) (cbuff k) (cons k) (desc k).
Definition set_shared_pages (v : list SharedPage) (k : kernel) : kernel :=
  mk_kernel (tasks k) (lists k) (stacks k) (ptes k) (phys_mem k) v (frames k) (esp k) (cr3 k) (cr0 k) (tss_esp0 k) (msrs k) (resume k) (idle_task k) (task1_task k) (next_pid k) (ticks_since_last_switch k) (zeos_ticks k) (cbuff k) (cons k) (desc k).
Definition set_frames (v : gmap Z Z) (k : kernel) : kernel :=
  mk_kernel (tasks k) (lists k) (stacks k) (ptes k) (phys_mem k) (shared_pages k) v (esp k) (cr3 k) (cr0 k) (tss_esp0 k) (msrs k) (resume k) (idle_task k) (task1_task k) (next_pid k) (ticks_since_last_switch k) (zeos_ticks k) (cbuff k) (cons k) (desc k).
Definition set_esp (v : Z) (k : kernel) : kernel :=
  mk_kernel (tasks k) (lists k) (stacks k) (ptes k) (phys_mem k) (shared_pages k) (frames k) v (cr3 k) (cr0 k) (tss_esp0 k) (msrs k) (resume k) (idle_task k) (task1_task k) (next_pid k) (ticks_since_last_switch k) (zeos_ticks k) (cbuff k) (cons k) (desc k).
Definition put_cr3 (v : Z) (k : kernel) : kernel :=
  mk_kernel (tasks k) (lists k) (stacks k) (ptes k) (phys_mem k) (shared_pages k) (frames k) (esp k) v (cr0 k) (tss_esp0 k) (msrs k) (resume k) (idle_task k) (task1_task k) (next_pid k) (ticks_since_last_switch k) (zeos_ticks k) (cbuff k) (cons k) (desc k).
Definition set_cr0 (v : Z) (k : kernel) : kernel :=
  mk_kernel (tasks k) (lists k) (stacks k) (ptes k) (phys_mem k) (shared_pages k) (frames k) (esp k) (cr3 k) v (tss_esp0 k) (msrs k) (resume k) (idle_task k) (task1_task k) (next_pid k) (ticks_since_last_switch k) (zeos_ticks k) (cbuff k) (cons k) (desc k).
Definition set_tss_esp0 (v : Z) (k : kernel) : kernel :=
  mk_kernel (tasks k) (lists k) (stacks k) (ptes k) (phys_mem k) (shared_pages k) (frames k) (esp k) (cr3 k) (cr0 k) v (msrs k) (resume k) (idle_task k) (task1_task k) (next_pid k) (ticks_since_last_switch k) (zeos_ticks k) (cbuff k) (cons k) (desc k).
Definition set_msrs (v : gmap Z (Z * Z)) (k : kernel) : kernel :=
  mk_kernel (tasks k) (lists k) (stacks k) (ptes k) (phys_mem k) (shared_pages k) (frames k) (esp k) (cr3 k) (cr0 k) (tss_esp0 k) v (resume k) (idle_task k) (task1_task k) (next_pid k) (ticks_since_last_switch k) (zeos_ticks k) (cbuff k) (cons k) (desc k).
Definition set_resume (v : Z) (k : kernel) : kernel :=
  mk_kernel (tasks k) (lists k) (stacks k) (ptes k) (phys_mem k) (shared_pages k) (frames k) (esp k) (cr3 k) (cr0 k) (tss_esp0 k) (msrs k) v (idle_task k) (task1_task k) (next_pid k) (ticks_since_last_switch k) (zeos_ticks k) (cbuff k) (cons k) (desc k).
Definition set_idle_task (v : Z) (k : kernel) : kernel :=
  mk_kernel (tasks k) (lists k) (stacks k) (ptes k) (phys_mem k) (shared_pages k) (frames k) (esp k) (cr3 k) (cr0 k) (tss_esp0 k) (msrs k) (resume k) v (task1_task k) (next_pid k) (ticks_since_last_switch k) (zeos_ticks k) (cbuff k) (cons k) (desc k).
Definition set_task1_task (v : Z) (k : kernel) : kernel :=
  mk_kernel (tasks k) (lists k) (stacks k) (ptes k) (phys_mem k) (shared_pages k) (frames k) (esp k) (cr3 k) (cr0 k) (tss_esp0 k) (msrs k) (resume k) (idle_task k) v (next_pid k) (ticks_since_last_switch k) (zeos_ticks k) (cbuff k) (cons k) (desc k).
Definition set_next_pid (v : Z) (k : kernel) : kernel :=
  mk_kernel (tasks k) (lists k) (stacks k) (ptes k) (phys_mem k) (shared_pages k) (frames k) (esp k) (cr3 k) (cr0 k) (tss_esp0 k) (msrs k) (resume k) (idle_task k) (task1_task k) v (ticks_since_last_switch k) (zeos_ticks k) (cbuff k) (cons k) (desc k).
Definition set_ticks_since_last_switch (v : Z) (k : kernel) : kernel :=
  mk_kernel (tasks k) (lists k) (stacks k) (ptes k) (phys_mem k) (shared_pages k) (frames k) (esp k) (cr3 k) (cr0 k) (tss_esp0 k) (msrs k) (resume k) (idle_task k) (task1_task k) (next_pid k) v (zeos_ticks k) (cbuff k) (cons k) (desc k).
Definition set_zeos_ticks (v : Z) (k : kernel) : kernel :=
  mk_kernel (tasks k) (lists k) (stacks k) (ptes k) (phys_mem k) (shared_pages k) (frames k) (esp k) (cr3 k) (cr0 k) (tss_esp0 k) (msrs k) (resume k) (idle_task k) (task1_task k) (next_pid k) (ticks_since_last_switch k) v (cbuff k) (cons k) (desc k).
Definition set_cbuff (v : circular_buffer) (k : kernel) : kernel :=
  mk_kernel (tasks k) (lists k) (stacks k) (ptes k) (phys_mem k) (shared_pages k) (frames k) (esp k) (cr3 k) (cr0 k) (tss_esp0 k) (msrs k) (resume k) (idle_task k) (task1_task k) (next_pid k) (ticks_since_last_switch k) (zeos_ticks k) v (cons k) (desc k).
Definition set_cons (v : console) (k : kernel) : kernel :=
  mk_kernel (tasks k) (lists k) (stacks k) (ptes k) (phys_mem k) (shared_pages k) (frames k) (esp k) (cr3 k) (cr0 k) (tss_esp0 k) (msrs k) (resume k) (idle_task k) (task1_task k) (next_pid k) (ticks_since_last_switch k) (zeos_ticks k) (cbuff k) v (desc k).

Definition set_desc (v : tables) (k : kernel) : kernel :=
  mk_kernel (tasks k) (lists k) (stacks k) (ptes k) (phys_mem k) (shared_pages k) (frames k) (esp k) (cr3 k) (cr0 k) (tss_esp0 k) (msrs k) (resume k) (idle_task k) (task1_task k) (next_pid k) (ticks_since_last_switch k) (zeos_ticks k) (cbuff k) (cons k) v.

(** ** Access to the state *)

Abbreviation MK := (M kernel).

(** Runs a computation of a component on its part of the state. *)
Definition on_lists (f : links → option links) : MK unit := zoom lists set_lists (lift f).
Definition on_ptes (f : gmap Z Z → option (gmap Z Z)) : MK unit := zoom ptes set_ptes (lift f).
Definition on_frames {A} (m : M (list Z) A) : MK A := zoom phys_mem set_phys_mem m.

(** [t->field] and [t->field = v]. *)
Definition pcb (t : Z) : MK task_struct := ask (λ k, tasks k !! t).
Definition set_pcb (t : Z) (f : task_struct → task_struct) : MK unit :=
  lift (λ k, p ← tasks k !! t; Some (set_tasks (<[t := f p]> (tasks k)) k)).

(** [shared_pages[i]] and its update. *)
Definition shared (i : Z) : MK SharedPage := ask (λ k, znth (shared_pages k) i).
Definition set_shared (i : Z) (f : SharedPage → SharedPage) : MK unit :=
  lift (λ k, p ← znth (shared_pages k) i; l ← zset (shared_pages k) i (f p); Some (set_shared_pages l k)).

(** A word of a system stack. *)
Definition load_stack (a : Z) : MK Z := ask (λ k, stacks k !! a).
Definition store_stack (a v : Z) : MK unit := modify (λ k, set_stacks (<[a := v]> (stacks k)) k).

(** [current]: the page of the stack pointer, which in the body of the function
    is below the return address that its call has pushed. *)
Definition current (k : kernel) : Z := Z.land (u32 (esp k - 4)) 0xfffff000.

(** Hardware registers. *)
Definition set_msr (addr low high : Z) : MK unit := modify (λ k, set_msrs (<[addr := (low, high)]> (msrs k)) k).
Definition write_cr3 (dir : Z) : MK unit := modify (put_cr3 dir).
Definition set_pe_flag : MK unit := modify (λ k, set_cr0 (Z.lor (cr0 k) 0x80000000) k).

(** ** The memory seen by the code: translation through the page tables

    With paging enabled, [cr3] holds the directory; the entry of the directory gives the table, the
    entry of the table the frame.  The kernel runs at privilege level 0, where
    only the [present] bits matter. *)
Definition translate (k : kernel) (va : Z) : option Z :=
  if negb (Z.testbit (cr0 k) 31) then Some va else
  de ← ptes k !! (Z.land (cr3 k) 0xfffff000 + 4 * (va / 2 ^ 22));
  if PTE.present de =? 0 then None
  else
    pe ← ptes k !! (PTE.pbase_addr de * 4096 + 4 * (va / 4096 mod 1024));
    if PTE.present pe =? 0 then None else Some (PTE.pbase_addr pe * 4096 + va mod 4096).

#[export] Instance PagedMem : ByteMem kernel := {
  resolve := translate;
  pread k a := u8 (default 0 (frames k !! a));
  pwrite a v k := set_frames (<[a := v]> (frames k)) k;
}.

#[export] Instance PagedMemLaws : ByteMemLaws kernel.
Proof.
  split; cbn; auto with zeos. intros k a v b. rewrite lookup_insert. by case_decide.
Qed.

#[export] Instance example_layout_ok : LayoutOk.
Proof. split; unfold TASKS_SIZE; cbn; try lia; try done. Qed.

(** ** Proof rules of the accesses *)

Section rules.
Context {A : Type}.
Implicit Types (k : kernel) (Q : unit → kernel → Prop).

Lemma wp_pcb t p (Q : task_struct → kernel → Prop) k :
  tasks k !! t = Some p → Q p k → wp (pcb t) Q k.
Proof. intros Hp. by apply wp_ask. Qed.

Lemma wp_set_pcb t p f Q k :
  tasks k !! t = Some p → Q tt (set_tasks (<[t := f p]> (tasks k)) k) → wp (set_pcb t f) Q k.
Proof. intros Hp HQ. eapply wp_lift; [|exact HQ]. by rewrite Hp. Qed.

Lemma wp_on_lists f h Q k :
  f (lists k) = Some h → Q tt (set_lists h k) → wp (on_lists f) Q k.
Proof. intros Hf HQ. unfold wp, on_lists, zoom, lift. rewrite Hf. exact HQ. Qed.

Lemma wp_on_ptes f m Q k :
  f (ptes k) = Some m → Q tt (set_ptes m k) → wp (on_ptes f) Q k.
Proof. intros Hf HQ. unfold wp, on_ptes, zoom, lift. rewrite Hf. exact HQ. Qed.

Lemma wp_on_frames (m : M (list Z) A) a pm (Q : A → kernel → Prop) k :
  m (phys_mem k) = Some (a, pm) → Q a (set_phys_mem pm k) → wp (on_frames m) Q k.
Proof. intros Hf HQ. unfold wp, on_frames, zoom. rewrite Hf. exact HQ. Qed.

Lemma wp_load_stack a v (Q : Z → kernel → Prop) k :
  stacks k !! a = Some v → Q v k → wp (load_stack a) Q k.
Proof. intros Hp. by apply wp_ask. Qed.

Lemma wp_shared i s (Q : SharedPage → kernel → Prop) k :
  znth (shared_pages k) i = Some s → Q s k → wp (shared i) Q k.
Proof. intros Hp. by apply wp_ask. Qed.

Lemma wp_set_shared i s f Q k :
  znth (shared_pages k) i = Some s →
  Q tt (set_shared_pages (<[Z.to_nat i := f s]> (shared_pages k)) k) → wp (set_shared i f) Q k.
Proof.
  intros Hs HQ. pose proof (znth_Some_range _ _ _ Hs). eapply wp_lift; [|exact HQ].
  rewrite Hs. cbn [mbind option_bind]. by rewrite zset_Some.
Qed.
End rules.

(** Computes the fields of a literal state after an update, and nothing else. *)
Ltac kcbn :=
  cbn [tasks lists stacks ptes phys_mem shared_pages frames esp cr3 cr0 tss_esp0 msrs resume idle_task task1_task next_pid ticks_since_last_switch zeos_ticks cbuff cons desc
       set_tasks set_lists set_stacks set_ptes set_phys_mem set_shared_pages set_frames set_esp put_cr3 set_cr0 set_tss_esp0 set_msrs set_resume set_idle_task set_task1_task set_next_pid set_ticks_since_last_switch set_zeos_ticks set_cbuff set_cons set_desc] in *.

(** One step of a kernel computation from a literal state: the accessed object
    is looked up in the assumptions. *)
Ltac kstep :=
  lazymatch goal with
  | |- wp (_ ≫= _) _ _ => apply wp_bind
  | |- wp (mret _) _ _ => apply wp_ret
  | |- wp (gets _) _ _ => apply wp_gets
  | |- wp (modify _) _ _ => apply wp_modify
  | |- wp (pcb _) _ _ => eapply wp_pcb; [kcbn; try eassumption|]
  | |- wp (set_pcb _ _) _ _ => eapply wp_set_pcb; [kcbn; try eassumption|]
  | |- wp (load_stack _) _ _ => eapply wp_load_stack; [kcbn; try eassumption|]
  | |- wp (store_stack _ _) _ _ => apply wp_modify
  | |- wp (set_msr _ _ _) _ _ => apply wp_modify
  | |- wp (write_cr3 _) _ _ => apply wp_modify
  | |- wp (on_lists _) _ _ => eapply wp_on_lists; [kcbn; try eassumption|]
  | |- wp (on_ptes _) _ _ => eapply wp_on_ptes; [kcbn; try eassumption|]
  | |- wp (on_frames _) _ _ => eapply wp_on_frames; [kcbn; try eassumption|]
  | |- wp (shared _) _ _ => eapply wp_shared; [kcbn; try eassumption|]
  | |- wp (set_shared _ _) _ _ => eapply wp_set_shared; [kcbn; try eassumption|]
  | |- wp (ask _) _ _ => eapply wp_ask; [kcbn; try eassumption|]
  end; cbn beta; kcbn.

(** All the steps whose accesses are found in the assumptions. *)
Ltac ksteps := repeat (kstep; [idtac]).

(** ** The state the boot sector loads

    The image holds the statics of the kernel: zeroed task unions, anchors,
    tables and maps; the stack of [main] ends at [task[4]]. *)

Definition blank_pcb : task_struct := mk_task_struct 0 NULL ST_RUN NULL 0 0 0 0.

(** [n] words of value [v] from the address [b] on. *)
Fixpoint fill_map {A} (b : Z) (n : nat) (v : A) : gmap Z A :=
  match n with
  | O => ∅
  | S n => <[b := v]> (fill_map (b + 4) n v)
  end.

Lemma fill_map_lookup {A} b n (v : A) i :
  0 ≤ i < Z.of_nat n → fill_map b n v !! (b + 4 * i) = Some v.
Proof.
  revert b i. induction n as [|n IH]; intros b i Hi; [lia|]. cbn [fill_map].
  destruct (decide (i = 0)) as [->|Hne]; [by rewrite Z.mul_0_r, Z.add_0_r, lookup_insert_eq|].
  rewrite lookup_insert_ne by lia. replace (b + 4 * i) with (b + 4 + 4 * (i - 1)) by lia. apply IH. lia.
Qed.

Lemma fill_map_outside {A} b n (v : A) a :
  a < b ∨ b + 4 * Z.of_nat n ≤ a → fill_map b n v !! a = None.
Proof.
  revert b. induction n as [|n IH]; intros b Ha; [done|]. cbn [fill_map].
  rewrite lookup_insert_ne by lia. apply IH. lia.
Qed.

Definition task_list `{Layout} : list Z := (λ i, task + 4096 * Z.of_nat i) <$> seq 0 10.

Definition blank_links `{Layout} : links :=
  list_to_map ((λ a, (a, mk_list_head NULL NULL)) <$>
    [freequeue; readyqueue; blocked] ++ (task_list ≫= λ t, [node t; dead_sons t; sons t; bros t])).

Definition boot_image `{Layout} : kernel := {|
  tasks := list_to_map ((λ t, (t, blank_pcb)) <$> task_list);
  lists := blank_links;
  stacks := ∅;
  ptes := fill_map dir_pages (Z.to_nat 10240) 0 ∪ fill_map pagusr_table (Z.to_nat 10240) 0;
  phys_mem := replicate 1024 0;
  shared_pages := replicate 10 (mk_SharedPage 0 0 0);
  frames := ∅;
  esp := task + 4 * 4096 - 20;
  cr3 := 0; cr0 := 1; tss_esp0 := 0; msrs := ∅; resume := 0;
  idle_task := NULL; task1_task := NULL; next_pid := 2;
  ticks_since_last_switch := 0; zeos_ticks := 0;
  cbuff := Circ.mk_circular_buffer (replicate 32 0) 0 0 0;
  cons := console_init;
  desc := image_tables;
|}.
