(* ===== verification/Mm.v ===== *)
(** * Address spaces of the processes (mm.c, get_DIR and get_PT of sched.c)

    The operations of mm.c on the state of the kernel: they combine the frame
    allocator and the page tables of [Paging] with the PCBs and the array of
    shared pages. *)

From S2P Require Import Prelude CInt ListHead Memory Paging Kernel.
Import PTE PageTable.

Definition NUM_SHARED_PAGES : Z := 10.

Section mm.
Context `{Layout}.

(** ** Directory and table of a process *)

Definition get_DIR (t : Z) : MK Z := p ← pcb t; mret (dir_pages_baseAddr p).

Definition get_PT (t : Z) : MK Z :=
  p ← pcb t;
  e ← ask (λ k, load_pte (dir_pages_baseAddr p) 0 (ptes k));
  mret (u32 (Z.shiftl (pbase_addr e) 12)).

Definition allocate_DIR (t : Z) : MK Z :=
  let pos := u32 (t - task) / 4096 in
  set_pcb t (with_dir_pages_baseAddr (u32 (dir_pages + 4 * TOTAL_PAGES * pos))) ;;
  mret 1.

(** ** User pages *)

Definition set_user_pages (t : Z) : MK unit :=
  process_PT ← get_PT t;
  for_up (Z.to_nat NUM_PAG_CODE) 0 (λ pag,
    new_ph_pag ← on_frames Frames.alloc_frame;
    let page := PAG_LOG_INIT_CODE + pag in
    on_ptes (store_pte process_PT page 0) ;;
    on_ptes (update_pte process_PT page (set_pbase_addr new_ph_pag)) ;;
    on_ptes (update_pte process_PT page (set_user 1)) ;;
    on_ptes (update_pte process_PT page (set_present 1))) ;;
  for_up (Z.to_nat NUM_PAG_DATA) 0 (λ pag,
    new_ph_pag ← on_frames Frames.alloc_frame;
    let page := PAG_LOG_INIT_DATA + pag in
    on_ptes (store_pte process_PT page 0) ;;
    on_ptes (update_pte process_PT page (set_pbase_addr new_ph_pag)) ;;
    on_ptes (update_pte process_PT page (set_user 1)) ;;
    on_ptes (update_pte process_PT page (set_rw 1)) ;;
    on_ptes (update_pte process_PT page (set_present 1))).

Definition free_user_pages (t : Z) : MK unit :=
  process_PT ← get_PT t;
  for_up (Z.to_nat NUM_PAG_DATA) 0 (λ pag,
    frame ← ask (λ k, get_frame process_PT (PAG_LOG_INIT_DATA + pag) (ptes k));
    on_frames (lift (Frames.free_frame frame)) ;;
    on_ptes (store_pte process_PT (PAG_LOG_INIT_DATA + pag) 0)).

Definition get_user_free_page (t : Z) : MK Z :=
  process_PT ← get_PT t;
  ask (λ k, find_free_page process_PT (ptes k)).

(** ** Shared pages *)

(** [for (idx = 0; idx < NUM_SHARED_PAGES; ++idx)] with its early return; after
    the loop the function returns 0. *)
Fixpoint shared_loop (n : nat) (idx frm : Z) : MK Z :=
  match n with
  | O => mret 0
  | S n =>
      s ← shared idx;
      if u32 (frame s) =? frm then mret idx else shared_loop n (idx + 1) frm
  end.

Definition is_frame_shared (frm : Z) : MK Z := shared_loop (Z.to_nat NUM_SHARED_PAGES) 0 frm.

Definition init_shared_pages : MK unit :=
  for_up (Z.to_nat NUM_SHARED_PAGES) 0 (λ idx,
    f ← on_frames Frames.alloc_frame;
    set_shared idx (λ s, mk_SharedPage f (num_refs s) (to_clear s)) ;;
    set_shared idx (with_num_refs 0) ;;
    set_shared idx (with_to_clear 0)).

(** ** The initial address space *)

(** [set_cr3]: a directory is used by its address. *)
Definition set_cr3 (dir : Z) : MK unit := write_cr3 dir.

Definition init_mm : MK unit :=
  zoom ptes set_ptes (init_table_pages pagusr_table) ;;
  _ ← on_frames Frames.init_frames;
  zoom ptes set_ptes (init_dir_pages dir_pages pagusr_table) ;;
  init_shared_pages ;;
  _ ← allocate_DIR task;
  d ← get_DIR task;
  set_cr3 d ;;
  set_pe_flag.

End mm.

(** ** The address space of a process *)

(** The row of [dir_pages] and of [pagusr_table] of the process at [t]. *)
Definition pos_of `{Layout} (t : Z) : Z := (t - task) / 4096.
Definition dir_of `{Layout} (t : Z) : Z := table_of dir_pages (pos_of t).
Definition pt_of `{Layout} (t : Z) : Z := table_of pagusr_table (pos_of t).

(** The addresses of the task unions. *)
Definition is_task `{Layout} (t : Z) : Prop := task ≤ t < task + TASKS_SIZE ∧ t mod 4096 = 0.

(** The directory of the process leads to its table. *)
Definition has_space `{Layout} (k : kernel) (t : Z) : Prop :=
  (∃ p, tasks k !! t = Some p ∧ dir_pages_baseAddr p = dir_of t) ∧
  ptes k !! slot (dir_of t) 0 = Some (dir_entry (pt_of t)) ∧
  (∀ i, 0 ≤ i < TOTAL_PAGES → is_Some (ptes k !! slot (pt_of t) i)).

Section space.
Context `{LayoutOk}.
Implicit Types (k : kernel) (t : Z).

Lemma task_bounds t : is_task t → 0 < t ∧ t + 4096 ≤ 0x100000.
Proof. intros [? ?]. pose proof task_range. pose proof task_aligned. unfold TASKS_SIZE in *.
  Z.div_mod_to_equations; lia. Qed.

Lemma pos_bounds t : is_task t → 0 ≤ pos_of t < NR_TASKS.
Proof.
  intros [? ?]. pose proof task_aligned. unfold pos_of, NR_TASKS, TASKS_SIZE in *.
  Z.div_mod_to_equations; lia.
Qed.

Lemma pos_task t : is_task t → t = task + 4096 * pos_of t.
Proof. intros [? ?]. pose proof task_aligned. unfold pos_of. Z.div_mod_to_equations; lia. Qed.

Lemma pt_bounds t : is_task t →
  table_ok (pt_of t) ∧ pt_of t mod 4096 = 0 ∧ pagusr_table ≤ pt_of t ∧ pt_of t + 4096 ≤ pagusr_table + TASKS_SIZE.
Proof.
  intros Ht%pos_bounds. pose proof pagusr_range. pose proof pagusr_aligned.
  unfold table_ok, pt_of, table_of, NR_TASKS, TASKS_SIZE in *. Z.div_mod_to_equations; lia.
Qed.

Lemma dir_bounds t : is_task t →
  table_ok (dir_of t) ∧ dir_of t mod 4096 = 0 ∧ dir_pages ≤ dir_of t ∧ dir_of t + 4096 ≤ dir_pages + TASKS_SIZE.
Proof.
  intros Ht%pos_bounds. pose proof dir_range. pose proof dir_aligned.
  unfold table_ok, dir_of, table_of, NR_TASKS, TASKS_SIZE in *. Z.div_mod_to_equations; lia.
Qed.

Lemma pt_inj t t' : is_task t → is_task t' → t ≠ t' →
  pt_of t + 4096 ≤ pt_of t' ∨ pt_of t' + 4096 ≤ pt_of t.
Proof.
  intros Ht Ht' Hne. pose proof (pos_task t Ht). pose proof (pos_task t' Ht').
  unfold pt_of, table_of. lia.
Qed.

(** The entry of a directory holds the page number of the table. *)
Lemma dir_entry_base b : 0 ≤ b < 2 ^ 32 → b mod 4096 = 0 →
  Z.shiftl (pbase_addr (dir_entry b)) 12 = b ∧ present (dir_entry b) = 1.
Proof.
  intros Hb Hal. unfold dir_entry. rewrite Z.shiftr_div_pow2 by lia. change (2 ^ 12) with 4096.
  change (2 ^ 32) with 4294967296 in Hb.
  destruct (ss_entry_fields (b / 4096)) as (-> & -> & _).
  { change (2 ^ 20) with 1048576. Z.div_mod_to_equations; lia. }
  split; [|done]. rewrite Z.shiftl_mul_pow2 by lia. change (2 ^ 12) with 4096. Z.div_mod_to_equations; lia.
Qed.

Lemma wp_get_PT t (Q : Z → kernel → Prop) k :
  is_task t → has_space k t → Q (pt_of t) k → wp (get_PT t) Q k.
Proof.
  intros Ht ((p & Hp & Hd) & He & _) HQ. unfold get_PT. ksteps. kstep.
  { unfold load_pte. rewrite Hd. exact He. }
  destruct (pt_bounds t Ht) as (HPT & Hal & ? & ?). unfold table_ok in HPT.
  destruct (dir_entry_base (pt_of t)) as [-> _]; [lia|done|]. rewrite u32_small by wrap_lia. by kstep.
Qed.

(** The translation of an address of the first 4 MB, the process at [t] running. *)
Lemma translate_space k t va :
  is_task t → has_space k t → cr3 k = dir_of t → Z.testbit (cr0 k) 31 = true → 0 ≤ va < 2 ^ 22 →
  translate k va = pe ← ptes k !! slot (pt_of t) (va / 4096);
    if present pe =? 0 then None else Some (pbase_addr pe * 4096 + va mod 4096).
Proof.
  intros Ht (_ & He & _) Hc Hpg Hva. unfold translate. rewrite Hpg. cbn [negb].
  destruct (dir_bounds t Ht) as (HD & Hal & _ & _). destruct (pt_bounds t Ht) as (HPT & Halp & _ & _).
  rewrite Hc, land_page_mask by (unfold table_ok in HD; wrap_lia).
  change (2 ^ 22) with 4194304 in *. rewrite (Z.div_small va 4194304) by done.
  replace (dir_of t / 4096 * 4096 + 4 * 0) with (slot (dir_of t) 0)
    by (rewrite slot_eq by (done || unfold TOTAL_PAGES; lia); Z.div_mod_to_equations; lia).
  rewrite He. cbn [mbind option_bind].
  destruct (dir_entry_base (pt_of t)) as [Hb ->]; [unfold table_ok in HPT; lia|done|]. cbn [Z.eqb].
  rewrite Z.shiftl_mul_pow2 in Hb by lia. change (2 ^ 12) with 4096 in Hb. rewrite Hb.
  assert (0 ≤ va / 4096 < 1024) by (Z.div_mod_to_equations; lia).
  rewrite (Z.mod_small (va / 4096)) by lia.
  rewrite slot_eq by (done || unfold TOTAL_PAGES; lia). done.
Qed.

(** Updating an entry of a table keeps the address spaces. *)
Lemma pt_slot_range t i : is_task t → 0 ≤ i < TOTAL_PAGES →
  slot (pt_of t) i = pt_of t + 4 * i ∧ pagusr_table ≤ slot (pt_of t) i < pagusr_table + TASKS_SIZE.
Proof.
  intros Ht Hi. destruct (pt_bounds t Ht) as (HPT & _ & ? & ?).
  rewrite slot_eq by done. unfold TOTAL_PAGES in Hi. lia.
Qed.

Lemma dir_slot_range t : is_task t →
  slot (dir_of t) 0 = dir_of t ∧ dir_pages ≤ slot (dir_of t) 0 < dir_pages + TASKS_SIZE.
Proof.
  intros Ht. destruct (dir_bounds t Ht) as (HPT & _ & ? & ?).
  rewrite slot_eq by (done || unfold TOTAL_PAGES; lia). lia.
Qed.

Lemma pt_slot_inj t i t' i' : is_task t → is_task t' → 0 ≤ i < TOTAL_PAGES → 0 ≤ i' < TOTAL_PAGES →
  slot (pt_of t) i = slot (pt_of t') i' → t = t' ∧ i = i'.
Proof.
  intros Ht Ht' Hi Hi'. destruct (pt_slot_range t i Ht Hi) as [-> _]. destruct (pt_slot_range t' i' Ht' Hi') as [-> _].
  intros E. destruct (decide (t = t')) as [->|Hne]; [split; [done|lia]|].
  pose proof (pt_inj t t' Ht Ht' Hne). unfold TOTAL_PAGES in *. lia.
Qed.

Lemma dir_pt_slot t t' i : is_task t → is_task t' → 0 ≤ i < TOTAL_PAGES → slot (dir_of t) 0 ≠ slot (pt_of t') i.
Proof.
  intros Ht Ht' Hi. pose proof (dir_slot_range t Ht). pose proof (pt_slot_range t' i Ht' Hi).
  pose proof tables_apart. lia.
Qed.

Lemma has_space_insert k t t' i e :
  is_task t → is_task t' → 0 ≤ i < TOTAL_PAGES → has_space k t →
  has_space (set_ptes (<[slot (pt_of t') i := e]> (ptes k)) k) t.
Proof.
  intros Ht Ht' Hi (Hp & He & Hs). split_and!; [done|..]; kcbn.
  - rewrite lookup_insert_ne; [done|]. intros E. by apply (dir_pt_slot t t' i).
  - intros j Hj. rewrite lookup_insert. case_decide; [done|]. by apply Hs.
Qed.

(** ** set_user_pages and free_user_pages *)

Lemma wp_alloc_n_S (n : nat) pm rs pm' :
  Frames.alloc_n (S n) pm = Some (rs, pm') →
  ∃ r rs' pm1, Frames.alloc_frame pm = Some (r, pm1) ∧ Frames.alloc_n n pm1 = Some (rs', pm') ∧ rs = r :: rs'.
Proof.
  cbn [Frames.alloc_n]. unfold mbind, M_bind, mret, M_ret.
  destruct (Frames.alloc_frame pm) as [[r pm1]|]; [|done].
  destruct (Frames.alloc_n n pm1) as [[rs' pm2]|] eqn:E; [|done]. intros [= <- <-].
  exists r, rs', pm1. done.
Qed.

(** A loop that allocates a frame and maps it, page after page. *)
Lemma wp_alloc_map (f : Z → Z) (map : Z → Z → MK unit) t base n lo k rs pm' :
  is_task t → 0 ≤ base + lo → base + lo + Z.of_nat n ≤ TOTAL_PAGES →
  (∀ i, 0 ≤ i < TOTAL_PAGES → is_Some (ptes k !! slot (pt_of t) i)) →
  (∀ r pag k, is_Some (ptes k !! slot (pt_of t) (base + pag)) →
     wp (map r pag) (λ _ k', k' = set_ptes (<[slot (pt_of t) (base + pag) := f r]> (ptes k)) k) k) →
  Frames.alloc_n n (phys_mem k) = Some (rs, pm') →
  wp (for_up n lo (λ pag, r ← on_frames Frames.alloc_frame; map r pag)) (λ _ k',
    ∃ m', k' = set_ptes m' (set_phys_mem pm' k) ∧
      (∀ j r, rs !! j = Some r → m' !! slot (pt_of t) (base + lo + Z.of_nat j) = Some (f r)) ∧
      (∀ a, (∀ j, 0 ≤ j < Z.of_nat n → a ≠ slot (pt_of t) (base + lo + j)) → m' !! a = ptes k !! a)) k.
Proof.
  intros Ht. revert lo k rs. induction n as [|n IH]; intros lo k rs Hlo Hhi Hs Hmap Hal.
  { cbn in Hal. injection Hal as <- <-. cbn [for_up]. kstep. exists (ptes k).
    split; [by destruct k|]. split; [by intros [|j] r|done]. }
  apply wp_alloc_n_S in Hal as (r & rs' & pm1 & Ha & Hal & ->). cbn [for_up]. kstep. kstep. kstep.
  eapply wp_mono; [apply Hmap; kcbn; apply Hs; lia|]. intros [] k1 ->. kcbn.
  eapply wp_mono.
  { apply (IH (lo + 1)); kcbn; [lia|lia| |done|exact Hal].
    intros i Hi. rewrite lookup_insert. case_decide; [done|]. by apply Hs. }
  intros [] k' (m' & -> & Hnew & Hout). exists m'. kcbn. split; [done|].
  assert (Hs0 : m' !! slot (pt_of t) (base + lo) = Some (f r)).
  { rewrite Hout; [by rewrite lookup_insert_eq|]. intros j Hj E. apply pt_slot_inj in E; [|done..|lia|lia]. lia. }
  split.
  - intros [|j] r' Hj; cbn in Hj.
    + injection Hj as <-. by replace (base + lo + Z.of_nat 0) with (base + lo) by lia.
    + replace (base + lo + Z.of_nat (S j)) with (base + (lo + 1) + Z.of_nat j) by lia. by apply Hnew.
  - intros a Hj. rewrite Hout.
    + rewrite lookup_insert_ne; [done|]. intros <-. apply (Hj 0); [lia|]. f_equal. lia.
    + intros j Hj' ->. apply (Hj (j + 1)); [lia|]. f_equal. lia.
Qed.

(** The entries [set_user_pages] builds. *)
Definition code_entry (frame : Z) : Z := Z.lor 5 (Z.shiftl (Z.land frame 0xFFFFF) 12).

Lemma code_entry_bits frame : set_present 1 (set_user 1 (set_pbase_addr frame 0)) = code_entry frame.
Proof.
  unfold code_entry, set_present, set_user.
  change (set_pbase_addr frame 0) with (Z.lor 0 (Z.shiftl (Z.land frame 0xFFFFF) 12)).
  by rewrite !set_bit_low by lia.
Qed.

Lemma code_entry_fields frame :
  0 ≤ frame < 2 ^ 20 →
  pbase_addr (code_entry frame) = frame ∧ present (code_entry frame) = 1 ∧
  rw (code_entry frame) = 0 ∧ user (code_entry frame) = 1.
Proof.
  intros Hf. unfold code_entry. rewrite land_20 by done. split; [by apply pbase_of|].
  unfold present, rw, user, bit. rewrite !Z.lor_spec, !Z.shiftl_spec_low by lia. by split_and!.
Qed.

Lemma alloc_n_app (n m : nat) pm rs pm' :
  Frames.alloc_n (n + m) pm = Some (rs, pm') →
  ∃ rs1 rs2 pm1, Frames.alloc_n n pm = Some (rs1, pm1) ∧ length rs1 = n ∧
    Frames.alloc_n m pm1 = Some (rs2, pm') ∧ rs = rs1 ++ rs2.
Proof.
  revert pm rs. induction n as [|n IH]; intros pm rs Ha.
  - exists [], rs, pm. done.
  - apply wp_alloc_n_S in Ha as (r & rs' & pm1 & Ha & (rs1 & rs2 & pm2 & H1 & Hlen & H2 & ->)%IH & ->).
    exists (r :: rs1), rs2, pm2. split_and!; [|cbn; lia|done|done].
    cbn [Frames.alloc_n]. unfold mbind, M_bind. by rewrite Ha, H1.
Qed.

Lemma set_user_pages_run t k fs pm' :
  is_task t → has_space k t → Frames.alloc_n 28 (phys_mem k) = Some (fs, pm') →
  wp (set_user_pages t) (λ _ k', ∃ m', k' = set_ptes m' (set_phys_mem pm' k) ∧
    (∀ j r, (j < 8)%nat → fs !! j = Some r → m' !! slot (pt_of t) (PAG_LOG_INIT_CODE + Z.of_nat j) = Some (code_entry r)) ∧
    (∀ j r, (j < 20)%nat → fs !! (8 + j)%nat = Some r →
       m' !! slot (pt_of t) (PAG_LOG_INIT_DATA + Z.of_nat j) = Some (ss_entry r)) ∧
    (∀ a, (∀ i, USER_FIRST_PAGE ≤ i < USER_LAST_PAGE → a ≠ slot (pt_of t) i) → m' !! a = ptes k !! a)) k.
Proof.
  intros Ht Hs Hal. pose proof Hs as (_ & _ & He).
  apply (alloc_n_app 8 20) in Hal as (cs & ds & pm1 & Hc & Hlc & Hd & ->).
  unfold set_user_pages. kstep. eapply wp_get_PT; [done..|].
  change PAG_LOG_INIT_CODE with 276. change PAG_LOG_INIT_DATA with 256.
  change USER_FIRST_PAGE with 256. change USER_LAST_PAGE with 284. unfold TOTAL_PAGES in *.
  kstep. eapply wp_mono.
  { eapply (wp_alloc_map code_entry (λ r pag, _) t 276 8 0); [done|lia|unfold TOTAL_PAGES; lia|exact He| |exact Hc].
    intros r pag k1 [e He1]. do 2 kstep; [by apply (store_pte_run _ _ e)|].
    do 2 kstep; [by rewrite update_pte_insert|]. do 2 kstep; [by rewrite update_pte_insert|].
    kstep; [by rewrite update_pte_insert|]. by rewrite code_entry_bits. }
  intros [] k1 (m1 & -> & Hnew1 & Hout1).
  assert (Hs1 : ∀ i, 0 ≤ i < 1024 → is_Some (m1 !! slot (pt_of t) i)).
  { intros i Hi. destruct (decide (276 ≤ i < 284)) as [Hin|Hni].
    - destruct (lookup_lt_is_Some_2 cs (Z.to_nat (i - 276))) as [r Hr]; [lia|].
      apply Hnew1 in Hr. replace (276 + 0 + Z.of_nat (Z.to_nat (i - 276))) with i in Hr by lia. eauto.
    - rewrite Hout1; [by apply He|]. intros j Hj E. apply pt_slot_inj in E; unfold TOTAL_PAGES; lia || done. }
  eapply wp_mono.
  { eapply (wp_alloc_map ss_entry (λ r pag, _) t 256 20 0); [done|lia|unfold TOTAL_PAGES; lia|kcbn; exact Hs1| |kcbn; exact Hd].
    intros r pag k1 [e He1]. do 2 kstep; [by apply (store_pte_run _ _ e)|].
    do 2 kstep; [by rewrite update_pte_insert|]. do 2 kstep; [by rewrite update_pte_insert|].
    do 2 kstep; [by rewrite update_pte_insert|].
    kstep; [by rewrite update_pte_insert|]. by rewrite ss_entry_bits. }
  intros [] k2 (m2 & -> & Hnew2 & Hout2). exists m2. kcbn. split; [done|]. split_and!.
  - intros j r Hj Hr. rewrite Hout2.
    + replace (276 + Z.of_nat j) with (276 + 0 + Z.of_nat j) by lia. apply Hnew1.
      by rewrite lookup_app_l in Hr by lia.
    + intros i Hi E. apply pt_slot_inj in E; unfold TOTAL_PAGES; lia || done.
  - intros j r Hj Hr. rewrite lookup_app_r in Hr by lia.
    replace (256 + Z.of_nat j) with (256 + 0 + Z.of_nat j) by lia. apply Hnew2.
    rewrite <- Hr. f_equal. lia.
  - intros a Ha. rewrite Hout2, Hout1; [done|..]; intros j Hj; apply Ha; lia.
Qed.

(** The write that [pgf_routine] grants: the entry becomes the one of [set_ss_pag]. *)
Lemma code_entry_granted frame : set_rw 1 (code_entry frame) = ss_entry frame.
Proof.
  unfold code_entry, set_rw. by rewrite set_bit_low by lia.
Qed.

(** The page of user memory that gets the [j]-th frame allocated. *)
Definition user_frame (fs : list Z) (page : Z) : option Z :=
  if page <? PAG_LOG_INIT_CODE then znth fs (page - PAG_LOG_INIT_DATA + NUM_PAG_CODE)
  else znth fs (page - PAG_LOG_INIT_CODE).

Definition user_entry (page r : Z) : Z := if page <? PAG_LOG_INIT_CODE then ss_entry r else code_entry r.

Lemma user_entry_fields page r : 0 ≤ r < 2 ^ 20 →
  pbase_addr (user_entry page r) = r ∧ present (user_entry page r) = 1 ∧
  rw (user_entry page r) = (if page <? PAG_LOG_INIT_CODE then 1 else 0) ∧ user (user_entry page r) = 1.
Proof.
  intros Hr. unfold user_entry. destruct (page <? PAG_LOG_INIT_CODE).
  - destruct (ss_entry_fields r Hr) as (? & ? & ? & ? & _). done.
  - by apply code_entry_fields.
Qed.

Lemma set_user_pages_spec t k :
  is_task t → has_space k t → Frames.wf (phys_mem k) →
  wp (set_user_pages t) (λ _ k', ∃ fs m' pm',
    Frames.alloc_n 28 (phys_mem k) = Some (fs, pm') ∧ k' = set_ptes m' (set_phys_mem pm' k) ∧ has_space k' t ∧
    (∀ page r, USER_FIRST_PAGE ≤ page < USER_LAST_PAGE → user_frame fs page = Some r →
       m' !! slot (pt_of t) page = Some (user_entry page r)) ∧
    (∀ a, (∀ i, USER_FIRST_PAGE ≤ i < USER_LAST_PAGE → a ≠ slot (pt_of t) i) → m' !! a = ptes k !! a)) k.
Proof.
  intros Ht Hs Hwf. pose proof (Frames.alloc_n_spec 28 _ Hwf) as Ha. unfold wp in Ha.
  destruct (Frames.alloc_n 28 (phys_mem k)) as [[fs pm']|] eqn:E; [|done].
  destruct Ha as (_ & Hlen & _). eapply wp_mono; [by eapply set_user_pages_run|].
  intros [] k' (m' & -> & Hcode & Hdata & Hout). exists fs, m', pm'.
  assert (Hpages : ∀ page r, USER_FIRST_PAGE ≤ page < USER_LAST_PAGE → user_frame fs page = Some r →
            m' !! slot (pt_of t) page = Some (user_entry page r)).
  { unfold user_frame, user_entry, znth. change USER_FIRST_PAGE with 256. change USER_LAST_PAGE with 284.
    change PAG_LOG_INIT_CODE with 276 in *. change PAG_LOG_INIT_DATA with 256 in *. change NUM_PAG_CODE with 8.
    intros page r Hp. destruct (Z.ltb_spec page 276).
    - destruct (Z.ltb_spec (page - 256 + 8) 0); [done|]. intros Hr.
      replace page with (256 + Z.of_nat (Z.to_nat (page - 256))) by lia. apply Hdata; [lia|].
      rewrite <- Hr. f_equal. lia.
    - destruct (Z.ltb_spec (page - 276) 0); [done|]. intros Hr.
      replace page with (276 + Z.of_nat (Z.to_nat (page - 276))) by lia. apply Hcode; [lia|done]. }
  split_and!; [done|done| |done|done]. destruct Hs as (? & Hd & He). split_and!; kcbn; [done|..].
  - rewrite Hout; [done|]. change USER_FIRST_PAGE with 256. change USER_LAST_PAGE with 284.
    intros i Hi. apply dir_pt_slot; [done|done|unfold TOTAL_PAGES; lia].
  - change USER_FIRST_PAGE with 256 in *. change USER_LAST_PAGE with 284 in *.
    intros i Hi. destruct (decide (256 ≤ i < 284)) as [Hin|Hni].
    + assert (is_Some (user_frame fs i)) as [r Hr].
      { unfold user_frame. change PAG_LOG_INIT_CODE with 276. change PAG_LOG_INIT_DATA with 256. change NUM_PAG_CODE with 8.
        destruct (Z.ltb_spec i 276); apply znth_in_range; rewrite Hlen; lia. }
      rewrite (Hpages i r) by done. eauto.
    + rewrite Hout; [by apply He|]. intros j Hj E'. apply pt_slot_inj in E'; unfold TOTAL_PAGES in *; lia || done.
Qed.

(** Writing one entry of the table of the running process changes the
    translation of that page only. *)
Lemma translate_insert k t page e va :
  is_task t → has_space k t → cr3 k = dir_of t → Z.testbit (cr0 k) 31 = true →
  0 ≤ page < TOTAL_PAGES → 0 ≤ va < 2 ^ 22 →
  translate (set_ptes (<[slot (pt_of t) page := e]> (ptes k)) k) va =
  if va / 4096 =? page then
    if present e =? 0 then None else Some (pbase_addr e * 4096 + va mod 4096)
  else translate k va.
Proof.
  intros Ht Hs Hc Hpg Hp Hva.
  rewrite (translate_space k t), (translate_space _ t) by (done || by apply has_space_insert).
  kcbn. assert (0 ≤ va / 4096 < TOTAL_PAGES).
  { change (2 ^ 22) with 4194304 in Hva. unfold TOTAL_PAGES. Z.div_mod_to_equations; lia. }
  destruct (Z.eqb_spec (va / 4096) page) as [->|Hne]; [by rewrite lookup_insert_eq|].
  rewrite lookup_insert_ne; [done|]. intros E. apply pt_slot_inj in E; naive_solver.
Qed.
End space.

(** C27: mapping and unmapping a page.  In a process whose directory leads to
    its table and that the processor is using, [set_ss_pag] makes the page
    translate to the frame, [get_frame] read it back, and leaves the
    translation of the other pages alone; [del_ss_pag] then makes the accesses
    to the page fault and the page free again, the other pages still as they
    were. *)
Theorem page_mapping_round_trip `{LayoutOk} k t page frm :
  is_task t → has_space k t → cr3 k = dir_of t → Z.testbit (cr0 k) 31 = true →
  0 ≤ page < TOTAL_PAGES → 0 ≤ frm < 2 ^ 20 →
  wp (on_ptes (set_ss_pag (pt_of t) page frm)) (λ _ k1,
    get_frame (pt_of t) page (ptes k1) = Some frm ∧
    is_logic_page_free (pt_of t) page (ptes k1) = Some false ∧
    (∀ va, 0 ≤ va < 2 ^ 22 →
       translate k1 va = if va / 4096 =? page then Some (frm * 4096 + va mod 4096) else translate k va) ∧
    wp (on_ptes (del_ss_pag (pt_of t) page)) (λ _ k2,
      is_logic_page_free (pt_of t) page (ptes k2) = Some true ∧
      (∀ va, 0 ≤ va < 2 ^ 22 →
         translate k2 va = if va / 4096 =? page then None else translate k va)) k1) k.
Proof.
  intros Ht Hs Hc Hpg Hp Hf. pose proof (proj2 (proj2 Hs) page Hp) as He.
  destruct (ss_entry_fields frm Hf) as (Hb & Hpr & _ & _ & Hnz).
  eapply wp_on_ptes; [by apply set_ss_pag_effect|].
  split_and!.
  - unfold get_frame, load_pte. kcbn. rewrite lookup_insert_eq. cbn. by rewrite Hb.
  - unfold is_logic_page_free, load_pte. kcbn. rewrite lookup_insert_eq. cbn.
    by destruct (Z.eqb_spec (ss_entry frm) 0).
  - intros va Hva. rewrite (translate_insert k t) by done. by rewrite Hpr, Hb.
  - eapply wp_on_ptes.
    { apply del_ss_pag_effect. unfold load_pte. kcbn. rewrite lookup_insert_eq. eauto. }
    split.
    + unfold is_logic_page_free, load_pte. kcbn. by rewrite lookup_insert_eq.
    + intros va Hva. rewrite (translate_insert _ t) by (done || by apply has_space_insert).
      rewrite (translate_insert k t) by done. by destruct (va / 4096 =? page).
Qed.

(** C26: [set_user_pages].  It maps the 20 data pages of the process writable
    and the 8 code pages read-only, both at user level, to 28 successive
    results of [alloc_frame]: frames that were free, pairwise different, each
    with one reference now, and no other counter, table or kernel page changes.
    The allocation gives -1 only if no frame that it hands out is left, and then the
    code maps the page all the same: the entry is built from -1. *)
Theorem set_user_pages_correct `{LayoutOk} t k :
  is_task t → has_space k t → Frames.wf (phys_mem k) →
  wp (set_user_pages t) (λ _ k', ∃ fs, length fs = 28%nat ∧
    Frames.alloc_n 28 (phys_mem k) = Some (fs, phys_mem k') ∧
    (-1 ∈ fs → ∀ j v, Frames.allocatable j → znth (phys_mem k') j = Some v → v ≠ Frames.FREE_FRAME) ∧
    NoDup (filter (λ r, r ≠ -1) fs) ∧
    (∀ r, r ∈ fs → r = -1 ∨ Frames.allocatable r ∧ znth (phys_mem k) r = Some Frames.FREE_FRAME) ∧
    (∀ i, 0 ≤ i < TOTAL_PAGES → znth (phys_mem k') i = if decide (i ∈ fs) then Some 1 else znth (phys_mem k) i) ∧
    (∀ page r, USER_FIRST_PAGE ≤ page < USER_LAST_PAGE → user_frame fs page = Some r →
       ptes k' !! slot (pt_of t) page = Some (user_entry page r) ∧
       (cr3 k = dir_of t → Z.testbit (cr0 k) 31 = true → r ≠ -1 →
        ∀ o, 0 ≤ o < 4096 → translate k' (page * 4096 + o) = Some (r * 4096 + o))) ∧
    (∀ t' i, is_task t' → 0 ≤ i < TOTAL_PAGES → t' ≠ t ∨ i < USER_FIRST_PAGE ∨ USER_LAST_PAGE ≤ i →
       ptes k' !! slot (pt_of t') i = ptes k !! slot (pt_of t') i)) k.
Proof.
  intros Ht Hs Hwf. eapply wp_mono; [by apply set_user_pages_spec|].
  intros [] k' (fs & m' & pm' & Hal & -> & Hs' & Hpages & Hout). exists fs.
  pose proof (Frames.alloc_n_spec 28 _ Hwf) as Ha. unfold wp in Ha. rewrite Hal in Ha.
  destruct Ha as (_ & Hlen & Hfs & Hnd & Heff & Hfull). kcbn. split_and!; [done..| |].
  - intros page r Hp Hr. split; [by apply Hpages|]. intros Hc Hpg Hne o Ho.
    change USER_FIRST_PAGE with 256 in *. change USER_LAST_PAGE with 284 in *.
    rewrite (translate_space _ t) by (done || (change (2 ^ 22) with 4194304; lia)).
    assert ((page * 4096 + o) / 4096 = page ∧ (page * 4096 + o) mod 4096 = o) as [-> ->]
      by (split; Z.div_mod_to_equations; lia).
    kcbn. rewrite (Hpages page r) by done. cbn [mbind option_bind].
    destruct (user_entry_fields page r) as (-> & -> & _); [|done].
    assert (r ∈ fs) as Hin.
    { unfold user_frame, znth in Hr. repeat case_match; try done; by eapply list_elem_of_lookup_2. }
    destruct (Hfs r Hin) as [?|[[Hra _] _]]; [done|]. unfold NUM_PAG_KERNEL, TOTAL_PAGES in Hra. lia.
  - intros t' i Ht' Hi Hc. apply Hout. intros j Hj E.
    change USER_FIRST_PAGE with 256 in *. change USER_LAST_PAGE with 284 in *.
    apply pt_slot_inj in E; unfold TOTAL_PAGES in *; lia || done.
Qed.

(** ** init_mm *)

Definition fresh_page (f : Z) : SharedPage := mk_SharedPage f 0 0.

Section init.
Context `{LayoutOk}.
Implicit Types (k : kernel) (t : Z).

Lemma init_shared_loop (n : nat) idx k fs pm' :
  0 ≤ idx → idx + Z.of_nat n ≤ Z.of_nat (length (shared_pages k)) →
  Frames.alloc_n n (phys_mem k) = Some (fs, pm') →
  wp (for_up n idx (λ idx,
    f ← on_frames Frames.alloc_frame;
    set_shared idx (λ s, mk_SharedPage f (num_refs s) (to_clear s)) ;;
    set_shared idx (with_num_refs 0) ;;
    set_shared idx (with_to_clear 0))) (λ _ k', ∃ sh,
      k' = set_shared_pages sh (set_phys_mem pm' k) ∧ length sh = length (shared_pages k) ∧
      (∀ j f, fs !! j = Some f → znth sh (idx + Z.of_nat j) = Some (fresh_page f)) ∧
      (∀ i, i < idx → znth sh i = znth (shared_pages k) i)) k.
Proof.
  revert idx k fs. induction n as [|n IH]; intros idx k fs Hi Hn Ha.
  { cbn in Ha. injection Ha as <- <-. cbn [for_up]. kstep. exists (shared_pages k).
    split; [by destruct k|]. split_and!; [done|by intros [|j] r|done]. }
  apply wp_alloc_n_S in Ha as (f & fs' & pm1 & Hf & Ha & ->).
  destruct (znth_in_range (shared_pages k) idx) as [s Hs]; [lia|].
  pose proof (λ x j, znth_insert (shared_pages k) idx j x ltac:(lia)) as Hins.
  cbn [for_up]. do 3 kstep. do 2 kstep.
  do 2 kstep; [by rewrite Hins, Z.eqb_refl|]. kstep; [by rewrite list_insert_insert_eq, Hins, Z.eqb_refl|].
  rewrite !list_insert_insert_eq. eapply wp_mono.
  { apply (IH (idx + 1)); kcbn; [lia|rewrite length_insert; lia|exact Ha]. }
  intros [] k' (sh & -> & Hlen & Hnew & Hold). exists sh. kcbn. rewrite length_insert in Hlen.
  split_and!; [done|done|..].
  - intros [|j] g Hg; cbn in Hg.
    + injection Hg as <-. rewrite Hold by lia. replace (idx + Z.of_nat 0) with idx by lia.
      by rewrite Hins, Z.eqb_refl.
    + replace (idx + Z.of_nat (S j)) with (idx + 1 + Z.of_nat j) by lia. by apply Hnew.
  - intros i Hi'. rewrite Hold, Hins by lia. destruct (Z.eqb_spec idx i); [lia|done].
Qed.

(** The map of frames after [init_frames], and after the ten allocations of
    [init_shared_pages]. *)
Definition frames_init : list Z := replicate 256 1 ++ replicate 768 0.
Definition shared_frames : list Z := (λ n, 256 + 2 * Z.of_nat n) <$> seq 0 10.
Definition frames_shared : list Z :=
  replicate 256 1 ++ concat (replicate 10 [1; 0]) ++ replicate 748 0.

Lemma alloc_shared : Frames.alloc_n 10 frames_init = Some (shared_frames, frames_shared).
Proof. vm_compute. reflexivity. Qed.

Lemma frames_init_eq pm :
  Z.of_nat (length pm) = TOTAL_PAGES →
  (∀ i, 0 ≤ i < TOTAL_PAGES → znth pm i = Some (if i <? NUM_PAG_KERNEL then 1 else Frames.FREE_FRAME)) →
  pm = frames_init.
Proof.
  unfold TOTAL_PAGES, NUM_PAG_KERNEL, Frames.FREE_FRAME. intros Hlen Hz. apply znth_ext; [by apply Nat2Z.inj|].
  intros i Hi. rewrite Hz by lia. unfold znth, frames_init. destruct (Z.ltb_spec i 0); [lia|].
  symmetry. destruct (Z.ltb_spec i 256).
  - rewrite lookup_app_l by (rewrite length_replicate; lia). apply lookup_replicate. split; [done|lia].
  - rewrite lookup_app_r by (rewrite length_replicate; lia). rewrite length_replicate.
    apply lookup_replicate. split; [done|lia].
Qed.

(** The state [init_mm] leaves, [m] being the directories and tables. *)
Definition mm_state k p m : kernel :=
  set_cr0 (Z.lor (cr0 k) 0x80000000) (put_cr3 (dir_of task)
    (set_tasks (<[task := with_dir_pages_baseAddr (dir_of task) p]> (tasks k))
      (set_shared_pages (fresh_page <$> shared_frames) (set_phys_mem frames_shared (set_ptes m k))))).

(** What the tables of [m] map: the kernel pages of every process. *)
Definition kernel_map (m : gmap Z Z) : Prop :=
  ∀ t, is_task t → m !! slot (dir_of t) 0 = Some (dir_entry (pt_of t)) ∧
    ∀ i, 0 ≤ i < TOTAL_PAGES → m !! slot (pt_of t) i = Some (kernel_table i).

(** Of the directories only the entry 0 changes. *)
Definition directories_kept (m m' : gmap Z Z) : Prop :=
  ∀ t i, is_task t → 0 < i < TOTAL_PAGES → m' !! slot (dir_of t) i = m !! slot (dir_of t) i.

Lemma is_task_0 : is_task task.
Proof. split; [unfold TASKS_SIZE; lia|apply task_aligned]. Qed.

Lemma pos_0 : pos_of task = 0.
Proof. unfold pos_of. by rewrite Z.sub_diag. Qed.

Lemma init_mm_run k p :
  length (phys_mem k) = 1024%nat → length (shared_pages k) = 10%nat →
  is_table dir_pages (ptes k) → is_table pagusr_table (ptes k) → tasks k !! task = Some p →
  wp init_mm (λ _ k', ∃ m, kernel_map m ∧ directories_kept (ptes k) m ∧ k' = mm_state k p m) k.
Proof.
  intros Hpm Hsh Hd Hpt Hp. pose proof pagusr_range. pose proof dir_range. pose proof tables_apart as Hap.
  assert (tables_ok pagusr_table ∧ tables_ok dir_pages) as [Hok1 Hok2] by (unfold tables_ok, TASKS_SIZE in *; lia).
  unfold init_mm. apply wp_bind, wp_zoom. eapply wp_mono; [by apply init_table_pages_spec|].
  intros [] m1 [Ht1 Ho1]. kcbn. apply wp_bind, wp_zoom. kcbn.
  eapply wp_mono; [apply Frames.init_frames_spec; by rewrite Hpm|].
  intros r pm1 (-> & Hl1 & Hz1). rewrite (frames_init_eq pm1) by done. kcbn.
  apply wp_bind, wp_zoom. kcbn. eapply wp_mono.
  { apply init_dir_pages_spec; [done|]. intros j i Hj Hi. rewrite Ho1; [by apply Hd|].
    rewrite slot_eq by (done || by apply tables_table).
    unfold table_of, TASKS_SIZE, NR_TASKS, TOTAL_PAGES in *. lia. }
  intros [] m2 (Ht2 & Ho2 & Hk2). kcbn. kstep. unfold init_shared_pages. eapply wp_mono.
  { apply (init_shared_loop 10); kcbn; [lia|rewrite Hsh; lia|exact alloc_shared]. }
  intros [] k1 (sh & -> & Hls & Hsh' & _). kcbn.
  assert (sh = fresh_page <$> shared_frames) as ->.
  { apply list_eq. intros j. destruct (decide (j < 10)%nat) as [Hj|Hj].
    - rewrite list_lookup_fmap. destruct (lookup_lt_is_Some_2 shared_frames j) as [f Hf]; [done|].
      rewrite Hf. pose proof (Hsh' j f Hf) as E. by rewrite Z.add_0_l, znth_of_nat in E.
    - rewrite !lookup_ge_None_2; [done|cbn; lia|lia]. }
  unfold allocate_DIR, get_DIR, set_cr3, set_pe_flag.
  replace (u32 (dir_pages + 4 * TOTAL_PAGES * (u32 (task - task) / 4096))) with (dir_of task).
  2: { unfold dir_of, table_of. rewrite pos_0, Z.sub_diag. change (u32 0 / 4096) with 0.
       rewrite !Z.mul_0_r, Z.add_0_r. symmetry. apply u32_small. unfold TASKS_SIZE in *. wrap_lia. }
  ksteps. kstep; [by rewrite lookup_insert_eq|]. ksteps. exists m2. split; [|split; [|done]]; intros t.
  2: { intros i Ht Hi. destruct (dir_bounds t Ht) as (HD & _ & ? & ?). unfold dir_of. rewrite Hk2 by (done || by apply pos_bounds).
       apply Ho1. change (table_of dir_pages (pos_of t)) with (dir_of t). rewrite slot_eq by (done || unfold TOTAL_PAGES in *; lia).
       unfold TASKS_SIZE, TOTAL_PAGES in *. lia. }
  intros Ht. split.
  - apply Ht2. by apply pos_bounds.
  - intros i Hi. rewrite Ho2; [apply Ht1; [by apply pos_bounds|done]|].
    destruct (pt_slot_range t i Ht Hi). unfold TASKS_SIZE in *. lia.
Qed.

Lemma kernel_table_lookup i : 0 ≤ i < TOTAL_PAGES →
  present (kernel_table i) = (if (1 <=? i) && (i <? NUM_PAG_KERNEL) then 1 else 0) ∧
  (1 ≤ i < NUM_PAG_KERNEL → pbase_addr (kernel_table i) = i).
Proof.
  intros Hi. unfold kernel_table, NUM_PAG_KERNEL, TOTAL_PAGES in *.
  destruct (Z.leb_spec 1 i); [destruct (Z.ltb_spec i 256)|]; cbn [andb]; [|split; [done|lia]..].
  destruct (kernel_entry_fields i) as (-> & -> & _); [change (2 ^ 20) with 1048576; lia|done].
Qed.

(** The address space of a process with only the kernel pages. *)
Lemma translate_kernel k t va :
  is_task t → has_space k t → kernel_map (ptes k) → cr3 k = dir_of t → Z.testbit (cr0 k) 31 = true →
  0 ≤ va < 2 ^ 22 → translate k va = if (4096 <=? va) && (va <? L_USER_START) then Some va else None.
Proof.
  intros Ht Hs Hm Hc Hpg Hva. rewrite (translate_space k t) by done.
  change (2 ^ 22) with 4194304 in Hva. unfold L_USER_START.
  assert (0 ≤ va / 4096 < TOTAL_PAGES) as Hi by (unfold TOTAL_PAGES; Z.div_mod_to_equations; lia).
  rewrite (proj2 (Hm t Ht)) by done. cbn [mbind option_bind].
  destruct (kernel_table_lookup (va / 4096) Hi) as [-> Hb]. unfold NUM_PAG_KERNEL in *.
  assert ((1 <=? va / 4096) = (4096 <=? va)) as -> by
    (destruct (Z.leb_spec 1 (va / 4096)), (Z.leb_spec 4096 va); try done; Z.div_mod_to_equations; lia).
  assert ((va / 4096 <? 256) = (va <? 0x100000)) as -> by
    (destruct (Z.ltb_spec (va / 4096) 256), (Z.ltb_spec va 0x100000); try done; Z.div_mod_to_equations; lia).
  destruct (Z.leb_spec 4096 va); [destruct (Z.ltb_spec va 0x100000)|]; cbn; [|done..].
  rewrite Hb by (Z.div_mod_to_equations; lia). f_equal. Z.div_mod_to_equations; lia.
Qed.

Lemma has_space_kernel k t p :
  is_task t → kernel_map (ptes k) → tasks k !! t = Some p → dir_pages_baseAddr p = dir_of t → has_space k t.
Proof.
  intros Ht Hm Hp Hd. destruct (Hm t Ht) as [? He]. split_and!; [eauto|done|].
  intros i Hi. rewrite He by done. eauto.
Qed.

(** An address whose entry in the directory is not present. *)
Lemma translate_absent k t va :
  Z.testbit (cr0 k) 31 = true → is_task t → cr3 k = dir_of t → 0 ≤ va / 4194304 < TOTAL_PAGES →
  (∀ e, ptes k !! slot (dir_of t) (va / 4194304) = Some e → present e = 0) → translate k va = None.
Proof.
  intros Hpg Ht Hc Hi He. unfold translate. rewrite Hpg. cbn [negb].
  destruct (dir_bounds t Ht) as (HD & Hal & _ & _). rewrite slot_eq in He by done. change (2 ^ 22) with 4194304.
  rewrite Hc, land_page_mask by (unfold table_ok in HD; wrap_lia).
  replace (dir_of t / 4096 * 4096) with (dir_of t) by (Z.div_mod_to_equations; lia).
  destruct (ptes k !! _) as [e|]; [|done]. cbn [mbind option_bind]. by rewrite (He e eq_refl).
Qed.

Lemma set_bit_31 c : Z.testbit (Z.lor c 0x80000000) 31 = true.
Proof. by rewrite Z.lor_spec, orb_true_r. Qed.
End init.

(** C25: [init_mm] builds the initial memory.  Afterwards paging is on with the
    directory of task 0; the directory of every process leads to its own table,
    which maps the kernel pages to themselves at supervisor level, page 0 and
    all user pages excepted, so that of the first 4 MB the first megabyte but its
    first page is the identity and every other access faults; an access from 4 MB
    on faults too if its entry in the directory of task 0 was not present before,
    and the directories of the image are zero; the kernel frames have one
    reference each; the ten shared pages have the ten frames 256, 258, ..., 274,
    no reference and nothing to clear, and every other frame is free. *)
Theorem init_mm_correct `{LayoutOk} k p :
  length (phys_mem k) = 1024%nat → length (shared_pages k) = 10%nat →
  is_table dir_pages (ptes k) → is_table pagusr_table (ptes k) → tasks k !! task = Some p →
  wp init_mm (λ _ k',
    kernel_map (ptes k') ∧ cr3 k' = dir_of task ∧
    (∀ va, 0 ≤ va < 2 ^ 22 →
       translate k' va = if (4096 <=? va) && (va <? L_USER_START) then Some va else None) ∧
    (∀ va, 2 ^ 22 ≤ va < 2 ^ 32 → (∀ e, ptes k !! slot (dir_of task) (va / 2 ^ 22) = Some e → present e = 0) →
       translate k' va = None) ∧
    shared_pages k' = (λ f, mk_SharedPage f 0 0) <$> [256; 258; 260; 262; 264; 266; 268; 270; 272; 274] ∧
    Frames.wf (phys_mem k') ∧
    (∀ i, 0 ≤ i < TOTAL_PAGES →
       znth (phys_mem k') i = Some ⟦ (i <? NUM_PAG_KERNEL) || (Z.even i && (i <? 276)) ⟧)) k.
Proof.
  intros Hpm Hsh Hd Hpt Hp. eapply wp_mono; [by apply (init_mm_run k p)|].
  intros [] k' (m & Hm & Hkept & ->). unfold mm_state. kcbn. split_and!; [done|done| | |done| |].
  - intros va Hva. pose proof is_task_0. apply (translate_kernel _ task); kcbn; try done.
    + eapply has_space_kernel; [done|done|kcbn; by rewrite lookup_insert_eq|done].
    + apply set_bit_31.
  - intros va Hva He. change (2 ^ 22) with 4194304 in *. change (2 ^ 32) with 4294967296 in *.
    assert (0 < va / 4194304 < TOTAL_PAGES) as Hi by (unfold TOTAL_PAGES; Z.div_mod_to_equations; lia).
    apply (translate_absent _ task); kcbn; [apply set_bit_31|exact is_task_0|done|lia|].
    intros e. rewrite Hkept by (done || exact is_task_0). apply He.
  - split; [done|]. apply (bool_decide_unpack _). by vm_compute.
  - intros i Hi.
    assert (forallb (λ n, bool_decide (frames_shared !! n =
      Some ⟦ (Z.of_nat n <? NUM_PAG_KERNEL) || (Z.even (Z.of_nat n) && (Z.of_nat n <? 276)) ⟧)) (seq 0 1024) = true) as Hall
      by (vm_compute; reflexivity).
    rewrite forallb_forall in Hall. specialize (Hall (Z.to_nat i)). rewrite bool_decide_eq_true in Hall.
    replace i with (Z.of_nat (Z.to_nat i)) by lia. rewrite znth_of_nat. apply Hall.
    apply in_seq. unfold TOTAL_PAGES in Hi. lia.
Qed.

(** ** The theorems apply to the state the boot sector loads *)

Section image.
Context `{LayoutOk}.

Lemma boot_image_tables : is_table dir_pages (ptes boot_image) ∧ is_table pagusr_table (ptes boot_image).
Proof.
  pose proof pagusr_range. pose proof dir_range. unfold TASKS_SIZE in *.
  assert (tables_ok pagusr_table ∧ tables_ok dir_pages) as [Hok1 Hok2] by (unfold tables_ok; lia).
  assert (Hn : Z.of_nat (Z.to_nat 10240) = 10240) by (by rewrite Z2Nat.id).
  cbn [ptes boot_image]. revert Hn. generalize (Z.to_nat 10240). intros n Hn.
  split; intros j i Hj Hi; rewrite slot_eq by (done || by apply tables_table);
    unfold table_of, NR_TASKS, TOTAL_PAGES in *.
  - replace (dir_pages + 4096 * j + 4 * i) with (dir_pages + 4 * (1024 * j + i)) by lia.
    exists 0. apply lookup_union_Some_l. apply fill_map_lookup. lia.
  - replace (pagusr_table + 4096 * j + 4 * i) with (pagusr_table + 4 * (1024 * j + i)) by lia.
    exists 0. pose proof tables_apart. unfold TASKS_SIZE in *.
    rewrite lookup_union_r; [apply fill_map_lookup; lia|]. apply fill_map_outside. lia.
Qed.

Lemma task_list_spec t : is_task t ↔ t ∈ task_list.
Proof.
  unfold task_list. rewrite list_elem_of_fmap. split.
  - intros Ht. exists (Z.to_nat (pos_of t)). pose proof (pos_bounds t Ht). unfold NR_TASKS in *.
    split; [rewrite Z2Nat.id by lia; by apply pos_task|]. apply elem_of_seq. lia.
  - intros (n & -> & Hn%elem_of_seq). pose proof task_aligned. unfold is_task, TASKS_SIZE.
    split; [lia|]. Z.div_mod_to_equations; lia.
Qed.

(** Before [init_mm] the directories are zero. *)
Lemma boot_image_zero t i : is_task t → 0 ≤ i < TOTAL_PAGES → ptes boot_image !! slot (dir_of t) i = Some 0.
Proof.
  intros Ht Hi. destruct (dir_bounds t Ht) as (HD & _ & ? & ?). rewrite slot_eq by done. unfold TASKS_SIZE, TOTAL_PAGES in *.
  assert (Hn : Z.of_nat (Z.to_nat 10240) = 10240) by (by rewrite Z2Nat.id). pose proof (pos_bounds t Ht) as Hpos. unfold NR_TASKS in Hpos.
  cbn [ptes boot_image]. revert Hn. generalize (Z.to_nat 10240). intros n Hn. unfold dir_of, table_of in *.
  replace (dir_pages + 4096 * pos_of t + 4 * i) with (dir_pages + 4 * (1024 * pos_of t + i)) by lia.
  apply lookup_union_Some_l. apply fill_map_lookup. lia.
Qed.

Lemma boot_image_pcb t : is_task t → tasks boot_image !! t = Some blank_pcb.
Proof.
  intros Ht%task_list_spec. cbn [tasks boot_image]. apply elem_of_list_to_map_1'.
  - intros y (u & [= -> <-] & _)%list_elem_of_fmap. done.
  - apply list_elem_of_fmap. eauto.
Qed.
End image.

Lemma init_mm_correct_witness :
  wp (init_mm (H := example_layout)) (λ _ k',
    cr3 k' = 0x2A000 ∧ translate k' 0x1234 = Some 0x1234 ∧ translate k' 0x100000 = None ∧ translate k' 0x400000 = None) boot_image.
Proof.
  eapply wp_mono.
  { refine (init_mm_correct boot_image blank_pcb _ _ _ _ _).
    - reflexivity.
    - reflexivity.
    - exact (proj1 boot_image_tables).
    - exact (proj2 boot_image_tables).
    - exact (boot_image_pcb _ is_task_0). }
  intros [] k' (_ & Hc & Ht & Hup & _). split; [exact Hc|]. split; [rewrite Ht; vm_compute; done|].
  split; [rewrite Ht; vm_compute; done|]. apply Hup; [vm_compute; split; done|]. intros e He.
  change (0x400000 / 2 ^ 22) with 1 in He. rewrite boot_image_zero in He; [by injection He as <-|exact is_task_0|unfold TOTAL_PAGES; lia].
Defined.

(** A concrete kernel after [init_mm]. *)
Lemma example_mm : ∃ k : kernel,
  has_space (H := example_layout) k 0x20000 ∧ cr3 k = dir_of 0x20000 ∧ Z.testbit (cr0 k) 31 = true ∧
  Frames.wf (phys_mem k) ∧ phys_mem k = frames_shared.
Proof.
  pose proof (init_mm_run boot_image blank_pcb eq_refl eq_refl (proj1 boot_image_tables)
    (proj2 boot_image_tables) (boot_image_pcb _ is_task_0)) as Hm.
  destruct (proj1 (wp_run _ _ _) Hm) as (? & k & _ & m & Hmap & _ & ->).
  exists (mm_state boot_image blank_pcb m). clear Hm.
  split; [|split; [|split; [|split]]].
  - eapply has_space_kernel; [exact (is_task_0 (H := example_layout))|exact Hmap| |].
    + unfold mm_state. kcbn. by rewrite lookup_insert_eq.
    + reflexivity.
  - reflexivity.
  - apply set_bit_31.
  - split; [done|]. apply (bool_decide_unpack _). by vm_compute.
  - reflexivity.
Qed.

Lemma page_mapping_round_trip_witness : ∃ k : kernel,
  wp (on_ptes (set_ss_pag (pt_of (H := example_layout) 0x20000) 300 500)) (λ _ k1,
    translate k1 (300 * 4096 + 5) = Some (500 * 4096 + 5)) k.
Proof.
  destruct example_mm as (k & Hs & Hc & Hp & _). exists k. eapply wp_mono.
  { refine (page_mapping_round_trip k 0x20000 300 500 (is_task_0 (H := example_layout)) Hs Hc Hp _ _); [unfold TOTAL_PAGES|]; lia. }
  intros [] k1 (_ & _ & Ht & _). rewrite Ht by lia. reflexivity.
Defined.

Lemma set_user_pages_correct_witness : ∃ k : kernel,
  wp (set_user_pages 0x20000) (λ _ k', ∃ r,
    ptes k' !! slot (pt_of (H := example_layout) 0x20000) 256 = Some (user_entry 256 r)) k.
Proof.
  destruct example_mm as (k & Hs & _ & _ & Hwf & _). exists k. eapply wp_mono.
  { exact (set_user_pages_correct 0x20000 k (is_task_0 (H := example_layout)) Hs Hwf). }
  intros [] k' (fs & Hlen & _ & _ & _ & _ & _ & Hpages & _).
  assert (∃ r, user_frame fs 256 = Some r) as [r Hr] by (apply znth_in_range; rewrite Hlen; done).
  exists r. refine (proj1 (Hpages 256 r _ Hr)). split; [reflexivity|]. exact (eq_refl : (256 ?= 284) = Lt).
Defined.
