(* ===== verification/Space.v ===== *)
(** * The memory a process sees

    A process has the kernel pages, mapped to themselves, and its user pages,
    mapped to frames of its own.  [proc_space] states it of the tables in
    memory; under it the translation of every address is known, and the copies
    between two areas of the running process are copies between the frames
    behind them. *)

From S2P Require Import Prelude CInt ListHead Memory Paging Kernel Mm.
Import PTE PageTable.

(** The entry of the user page [p] in the frame [f]: the one of [set_user_pages], or
    the one of a code page that the process has been allowed to write. *)
Definition user_mapping (p f e : Z) : Prop := e = user_entry p f ∨ e = ss_entry f.

(** The table of [t] maps the user page [p] to the frame [ufr p]. *)
Record proc_space `{Layout} (k : kernel) (t : Z) (ufr : Z → Z) : Prop := {
  ps_space : has_space k t;
  ps_kernel : ∀ i, 0 ≤ i < NUM_PAG_KERNEL → ptes k !! slot (pt_of t) i = Some (kernel_table i);
  ps_user : ∀ p, USER_FIRST_PAGE ≤ p < USER_LAST_PAGE →
    ∃ e, ptes k !! slot (pt_of t) p = Some e ∧ user_mapping p (ufr p) e;
  ps_frames : ∀ p, USER_FIRST_PAGE ≤ p < USER_LAST_PAGE → NUM_PAG_KERNEL ≤ ufr p < TOTAL_PAGES;
  ps_inj : ∀ p q, USER_FIRST_PAGE ≤ p < USER_LAST_PAGE → USER_FIRST_PAGE ≤ q < USER_LAST_PAGE →
    ufr p = ufr q → p = q;
}.

(** The processor runs [t] with paging on. *)
Definition running `{Layout} (k : kernel) (t : Z) : Prop :=
  cr3 k = dir_of t ∧ Z.testbit (cr0 k) 31 = true.

(** The page is in the table of the process. *)
Definition page_used `{Layout} (k : kernel) (t p : Z) : Prop := ∃ e, ptes k !! slot (pt_of t) p = Some e ∧ e ≠ 0.

(** The area is inside the user pages every process has. *)
Definition user_area (a n : Z) : Prop := USER_FIRST_PAGE * 4096 ≤ a ∧ a + n ≤ USER_LAST_PAGE * 4096.

(** The process [t], which the processor runs, with its user pages. *)
Record user_process `{Layout} (k : kernel) (t : Z) (ufr : Z → Z) : Prop := {
  up_task : is_task t;
  up_space : proc_space k t ufr;
  up_running : running k t;
  up_current : current k = t;
}.

Section space.
Context `{LayoutOk}.

Lemma user_mapping_fields p f e : 0 ≤ f < 2 ^ 20 → user_mapping p f e → pbase_addr e = f ∧ present e = 1 ∧ e ≠ 0.
Proof.
  intros Hf [->| ->].
  - destruct (user_entry_fields p f Hf) as (Hb & Hp & _). split; [done|]. split; [done|]. intros E. by rewrite E in Hp.
  - by destruct (ss_entry_fields f Hf) as (? & ? & _ & _ & ?).
Qed.

(** What the table has for a user page. *)
Lemma user_page_entry k t ufr p : proc_space k t ufr → USER_FIRST_PAGE ≤ p < USER_LAST_PAGE →
  ∃ e, ptes k !! slot (pt_of t) p = Some e ∧ user_mapping p (ufr p) e ∧ pbase_addr e = ufr p ∧ present e = 1 ∧ e ≠ 0.
Proof.
  intros Hps Hp. destruct (ps_user _ _ _ Hps p Hp) as (e & He & Hm). exists e. split; [done|]. split; [done|].
  apply (user_mapping_fields p); [|done]. pose proof (ps_frames _ _ _ Hps p Hp). unfold NUM_PAG_KERNEL, TOTAL_PAGES in *.
  change (2 ^ 20) with 1048576. lia.
Qed.

(** The address space is in the tables and in the PCB. *)
Lemma proc_space_same k k' t ufr :
  ptes k' = ptes k → tasks k' = tasks k → proc_space k t ufr → proc_space k' t ufr.
Proof. intros Hp Ht [Hs ????]. unfold has_space in Hs. split; unfold has_space; by rewrite ?Hp, ?Ht. Qed.
Implicit Types (k : kernel) (t : Z).

Lemma translate_kernel_page k t ufr va :
  is_task t → proc_space k t ufr → running k t → 4096 ≤ va < L_USER_START → translate k va = Some va.
Proof.
  intros Ht Hps [Hc Hp] Hva. unfold L_USER_START in Hva.
  rewrite (translate_space k t) by (done || apply Hps || (change (2 ^ 22) with 4194304; lia)).
  assert (1 ≤ va / 4096 < NUM_PAG_KERNEL) as Hi by (unfold NUM_PAG_KERNEL; Z.div_mod_to_equations; lia).
  rewrite (ps_kernel _ _ _ Hps) by lia. cbn [mbind option_bind].
  destruct (kernel_table_lookup (va / 4096)) as [-> Hb]; [unfold NUM_PAG_KERNEL, TOTAL_PAGES in *; lia|].
  rewrite Hb by lia. destruct (Z.leb_spec 1 (va / 4096)); [|lia].
  destruct (Z.ltb_spec (va / 4096) NUM_PAG_KERNEL); [|lia]. cbn. f_equal. Z.div_mod_to_equations; lia.
Qed.

Lemma translate_user_page k t ufr va :
  is_task t → proc_space k t ufr → running k t →
  USER_FIRST_PAGE * 4096 ≤ va < USER_LAST_PAGE * 4096 →
  translate k va = Some (ufr (va / 4096) * 4096 + va mod 4096).
Proof.
  intros Ht Hps [Hc Hp] Hva. change (USER_FIRST_PAGE * 4096) with 1048576 in Hva.
  change (USER_LAST_PAGE * 4096) with 1163264 in Hva.
  rewrite (translate_space k t) by (done || apply Hps || (change (2 ^ 22) with 4194304; lia)).
  assert (USER_FIRST_PAGE ≤ va / 4096 < USER_LAST_PAGE) as Hi.
  { change USER_FIRST_PAGE with 256. change USER_LAST_PAGE with 284. Z.div_mod_to_equations; lia. }
  destruct (user_page_entry _ _ _ _ Hps Hi) as (e & -> & _ & Hb & Hpr & _). cbn [mbind option_bind]. by rewrite Hpr, Hb.
Qed.

(** A page above the user area mapped by [set_ss_pag]. *)
Lemma translate_ss_page k t p f va :
  is_task t → has_space k t → running k t → 0 ≤ p < TOTAL_PAGES → 0 ≤ f < 2 ^ 20 →
  ptes k !! slot (pt_of t) p = Some (ss_entry f) → p * 4096 ≤ va < (p + 1) * 4096 →
  translate k va = Some (f * 4096 + va mod 4096).
Proof.
  intros Ht Hs [Hc Hp] Hpr Hf He Hva. unfold TOTAL_PAGES in Hpr.
  rewrite (translate_space k t) by (done || (change (2 ^ 22) with 4194304; lia)).
  assert (va / 4096 = p) as -> by (Z.div_mod_to_equations; lia).
  rewrite He. cbn [mbind option_bind]. by destruct (ss_entry_fields f Hf) as (-> & -> & _).
Qed.

(** A user address and the physical byte behind it. *)
Definition user_byte (ufr : Z → Z) (va : Z) : Z := ufr (va / 4096) * 4096 + va mod 4096.

Lemma user_byte_inj k t ufr va vb :
  proc_space k t ufr → USER_FIRST_PAGE * 4096 ≤ va < USER_LAST_PAGE * 4096 →
  USER_FIRST_PAGE * 4096 ≤ vb < USER_LAST_PAGE * 4096 →
  user_byte ufr va = user_byte ufr vb → va = vb.
Proof.
  intros Hps Ha Hb E. unfold user_byte in E. change (USER_FIRST_PAGE * 4096) with 1048576 in *.
  change (USER_LAST_PAGE * 4096) with 1163264 in *.
  assert (Hp : ∀ v, 1048576 ≤ v < 1163264 → USER_FIRST_PAGE ≤ v / 4096 < USER_LAST_PAGE).
  { intros v Hv. change USER_FIRST_PAGE with 256. change USER_LAST_PAGE with 284. Z.div_mod_to_equations; lia. }
  assert (ufr (va / 4096) = ufr (vb / 4096)) as Hf by (Z.div_mod_to_equations; lia).
  apply (ps_inj _ _ _ Hps) in Hf; [|by apply Hp..]. Z.div_mod_to_equations; lia.
Qed.

Lemma user_byte_range k t ufr va :
  proc_space k t ufr → USER_FIRST_PAGE * 4096 ≤ va < USER_LAST_PAGE * 4096 →
  L_USER_START ≤ user_byte ufr va < 2 ^ 22.
Proof.
  intros Hps Ha. change (USER_FIRST_PAGE * 4096) with 1048576 in *.
  change (USER_LAST_PAGE * 4096) with 1163264 in *.
  assert (NUM_PAG_KERNEL ≤ ufr (va / 4096) < TOTAL_PAGES) as Hf.
  { apply (ps_frames _ _ _ Hps). change USER_FIRST_PAGE with 256. change USER_LAST_PAGE with 284. Z.div_mod_to_equations; lia. }
  unfold user_byte, NUM_PAG_KERNEL, TOTAL_PAGES, L_USER_START in *. change (2 ^ 22) with 4194304.
  Z.div_mod_to_equations; lia.
Qed.

(** The copies of the kernel change physical memory and nothing else. *)
Lemma copy_data_frames p q n k k' : copy_data p q n k = Some k' → ∃ fr, k' = set_frames fr k.
Proof.
  intros Hc. eapply (copy_data_inv (λ s, ∃ fr, s = set_frames fr k)); [|exact Hc|].
  - intros s a v [fr ->]. cbn. eauto.
  - exists (frames k). by destruct k.
Qed.

Lemma zero_out_frames q n k k' : zero_out q n k = Some k' → ∃ fr, k' = set_frames fr k.
Proof.
  intros Hc. eapply (zero_out_inv (λ s, ∃ fr, s = set_frames fr k)); [|exact Hc|].
  - intros s a v [fr ->]. cbn. eauto.
  - exists (frames k). by destruct k.
Qed.

Lemma proc_space_frames k t ufr fr : proc_space k t ufr → proc_space (set_frames fr k) t ufr.
Proof. intros Hps. split; apply Hps. Qed.

(** Two areas that translate to physical areas apart: the copy moves the bytes. *)
Lemma wp_copy p q n (src dst : Z → Z) k (Q : unit → kernel → Prop) :
  is_u32 p → is_u32 q → 0 ≤ n → p + n ≤ 2 ^ 32 → q + n ≤ 2 ^ 32 →
  (∀ i, 0 ≤ i < n → translate k (p + i) = Some (src i)) →
  (∀ i, 0 ≤ i < n → translate k (q + i) = Some (dst i)) →
  (∀ i j, 0 ≤ i < n → 0 ≤ j < n → dst i = dst j → i = j) →
  (∀ i j, 0 ≤ i < n → 0 ≤ j < n → src i ≠ dst j) →
  (∀ fr, (∀ i, 0 ≤ i < n → pread (set_frames fr k) (dst i) = pread k (src i)) →
     (∀ z, (∀ i, 0 ≤ i < n → z ≠ dst i) → pread (set_frames fr k) z = pread k z) → Q tt (set_frames fr k)) →
  wp (lift (copy_data p q n)) Q k.
Proof.
  intros Hp Hq Hn Hpn Hqn Hsrc Hdst Hinj Hapart HQ.
  assert (Hpi : ∀ i, 0 ≤ i < n → u32 (p + i) = p + i) by (intros i Hi; apply u32_small; unfold is_u32 in *; lia).
  assert (Hqi : ∀ i, 0 ≤ i < n → u32 (q + i) = q + i) by (intros i Hi; apply u32_small; unfold is_u32 in *; lia).
  destruct (copy_data_spec p q n k Hp Hq Hn) as (k' & Hc & Hres & Hnew & Hout).
  - intros i Hi. cbn. rewrite Hpi, Hsrc by done. eauto.
  - intros i Hi. cbn. rewrite Hqi, Hdst by done. eauto.
  - intros i j x Hi Hj. cbn. rewrite !Hqi, !Hdst by done. intros [= <-] [= E]. symmetry in E. by apply Hinj.
  - intros i j x y Hi Hj. cbn. rewrite Hqi, Hpi, Hsrc, Hdst by done. intros [= <-] [= <-]. by apply Hapart.
  - destruct (copy_data_frames _ _ _ _ _ Hc) as [fr ->]. eapply wp_lift; [exact Hc|]. apply HQ.
    + intros i Hi. specialize (Hnew i Hi). unfold load8 in Hnew. rewrite Hres in Hnew.
      cbn [resolve PagedMem] in Hnew. rewrite Hqi, Hpi, Hsrc, Hdst in Hnew by done. cbn in Hnew. by injection Hnew.
    + intros z Hz. apply Hout. intros i Hi. cbn. rewrite Hqi, Hdst by done. intros [= E]. by apply (Hz i Hi).
Qed.

Lemma user_load k t ufr a : user_process k t ufr → user_area a 1 →
  translate k a = Some (user_byte ufr a) ∧ load8 k a = Some (pread k (user_byte ufr a)).
Proof.
  intros [Ht Hs Hr _] [Ha Hn]. assert (translate k a = Some (user_byte ufr a)) as E by (apply (translate_user_page k t ufr); done || lia).
  split; [done|]. unfold load8. cbn [resolve PagedMem]. by rewrite E.
Qed.

Lemma has_space_tables k k' t :
  tasks k' !! t = tasks k !! t → ptes k' !! slot (dir_of t) 0 = ptes k !! slot (dir_of t) 0 →
  (∀ i, 0 ≤ i < TOTAL_PAGES → is_Some (ptes k !! slot (pt_of t) i) → is_Some (ptes k' !! slot (pt_of t) i)) →
  has_space k t → has_space k' t.
Proof. intros Ht Hd Hs (H1 & H2 & H3). unfold has_space. rewrite Ht, Hd. split; [done|]. split; [done|]. auto. Qed.

(** The process keeps its space when only pages above the user area change. *)
Lemma proc_space_above k k' t ufr :
  tasks k' !! t = tasks k !! t → ptes k' !! slot (dir_of t) 0 = ptes k !! slot (dir_of t) 0 →
  (∀ i, 0 ≤ i < USER_LAST_PAGE → ptes k' !! slot (pt_of t) i = ptes k !! slot (pt_of t) i) →
  (∀ i, USER_LAST_PAGE ≤ i < TOTAL_PAGES → is_Some (ptes k' !! slot (pt_of t) i)) →
  proc_space k t ufr → proc_space k' t ufr.
Proof.
  intros Ht Hd Hlow Hhigh Hps. change USER_LAST_PAGE with 284 in *. split; [|intros i Hi|intros i Hi|apply Hps|apply Hps].
  - apply (has_space_tables k); [done|done| |apply Hps]. intros i Hi Hs. destruct (decide (i < 284)); [rewrite Hlow by lia; done|apply Hhigh; lia].
  - unfold NUM_PAG_KERNEL in Hi. rewrite Hlow by lia. by apply Hps.
  - change USER_FIRST_PAGE with 256 in Hi. change USER_LAST_PAGE with 284 in Hi. rewrite Hlow by lia. apply Hps. done.
Qed.

Lemma user_process_same k k' t ufr :
  esp k' = esp k → cr3 k' = cr3 k → cr0 k' = cr0 k → tasks k' !! t = tasks k !! t →
  ptes k' !! slot (dir_of t) 0 = ptes k !! slot (dir_of t) 0 →
  (∀ i, 0 ≤ i < USER_LAST_PAGE → ptes k' !! slot (pt_of t) i = ptes k !! slot (pt_of t) i) →
  (∀ i, USER_LAST_PAGE ≤ i < TOTAL_PAGES → is_Some (ptes k' !! slot (pt_of t) i)) →
  user_process k t ufr → user_process k' t ufr.
Proof.
  intros He Hc3 Hc0 Ht Hd Hlow Hhigh [Htk Hs [Hr1 Hr2] Hcur]. split; [done| | |].
  - by apply (proc_space_above k).
  - split; congruence.
  - unfold current in *. congruence.
Qed.

Lemma unused_page k t p : has_space k t → 0 ≤ p < TOTAL_PAGES → ¬ page_used k t p → ptes k !! slot (pt_of t) p = Some 0.
Proof.
  intros (_ & _ & Hs) Hp Hn. destruct (Hs p Hp) as [e He]. destruct (decide (e = 0)) as [->|]; [done|].
  destruct Hn. by exists e.
Qed.

(** ** The first free page above the user area *)

Definition first_free k t (r : Z) : Prop :=
  (USER_LAST_PAGE ≤ r < TOTAL_PAGES ∧ ¬ page_used k t r ∧ ∀ p, USER_LAST_PAGE ≤ p < r → page_used k t p) ∨
  (r = -1 ∧ ∀ p, USER_LAST_PAGE ≤ p < TOTAL_PAGES → page_used k t p).

Lemma wp_free_page t (Q : Z → kernel → Prop) k :
  is_task t → has_space k t → (∀ r, first_free k t r → Q r k) → wp (get_user_free_page t) Q k.
Proof.
  intros Ht Hs HQ. assert (Hs' := Hs). destruct Hs' as (_ & _ & He). unfold get_user_free_page. kstep. apply wp_get_PT; [done..|].
  destruct (free_page_loop_spec (Z.to_nat (TOTAL_PAGES - USER_LAST_PAGE)) (pt_of t) USER_LAST_PAGE (ptes k)) as (r & Hr & Hc).
  { change (Z.of_nat (Z.to_nat (TOTAL_PAGES - USER_LAST_PAGE))) with 740. change USER_LAST_PAGE with 284.
    intros p Hp. apply He. unfold TOTAL_PAGES. lia. }
  change (Z.of_nat (Z.to_nat (TOTAL_PAGES - USER_LAST_PAGE))) with 740 in Hc. change USER_LAST_PAGE with 284 in Hc.
  eapply wp_ask; [exact Hr|]. apply HQ. unfold first_free. change USER_LAST_PAGE with 284. change TOTAL_PAGES with 1024 in *.
  unfold load_pte in Hc. destruct Hc as [(H1 & H2 & H3)|[-> H3]]; [left|right].
  - split; [lia|]. split; [intros (e & E & Hne); congruence|]. intros p Hp. destruct (He p) as [e E]; [lia|]. exists e. split; [done|]. by apply (H3 p).
  - split; [done|]. intros p Hp. destruct (He p) as [e E]; [lia|]. exists e. split; [done|]. by apply (H3 p).
Qed.

(** ** The index of a shared frame *)

Definition shared_index k (f i : Z) : Prop :=
  (∃ s, znth (shared_pages k) i = Some s ∧ u32 (frame s) = f) ∨
  (i = 0 ∧ ∀ j s, znth (shared_pages k) j = Some s → u32 (frame s) ≠ f).

Lemma shared_loop_run n idx f k :
  0 ≤ idx → idx + Z.of_nat n = Z.of_nat (length (shared_pages k)) →
  (∀ j s, 0 ≤ j < idx → znth (shared_pages k) j = Some s → u32 (frame s) ≠ f) →
  ∃ i, shared_loop n idx f k = Some (i, k) ∧ shared_index k f i.
Proof.
  revert idx. induction n as [|n IH]; intros idx Hi Hn Hno.
  - exists 0. split; [done|]. right. split; [done|]. intros j s Hj. apply (Hno j s); [|done].
    pose proof (znth_Some_range _ _ _ Hj). lia.
  - destruct (znth_in_range (shared_pages k) idx) as [s Hs]; [lia|]. cbn [shared_loop].
    unfold mbind, M_bind, shared, ask. rewrite Hs. cbn [mbind option_bind].
    destruct (Z.eqb_spec (u32 (frame s)) f) as [E|Hne]; [exists idx; split; [done|]; left; by exists s|].
    apply IH; [lia|lia|]. intros j s' Hj Hs'. destruct (decide (j = idx)) as [->|]; [congruence|]. apply (Hno j); [lia|done].
Qed.

Lemma wp_is_frame_shared f (Q : Z → kernel → Prop) k :
  length (shared_pages k) = 10%nat → (∀ i, shared_index k f i → Q i k) → wp (is_frame_shared f) Q k.
Proof.
  intros Hl HQ. destruct (shared_loop_run (Z.to_nat NUM_SHARED_PAGES) 0 f k) as (i & Hi & Hsi); [lia|by rewrite Hl|lia|].
  unfold wp, is_frame_shared. rewrite Hi. by apply HQ.
Qed.
End space.
