(* ===== verification/Words.v ===== *)
(** * Words in the memory of a process

    The 32-bit accesses of a process, and of the kernel on its behalf, to the
    pages of the process: a word that is stored is read back, and no other byte
    of the process changes. *)

From S2P Require Import Prelude CInt Memory Paging Kernel Mm Space.

(** [t] is the process whose tables the processor uses. *)
Definition runs `{Layout} (k : kernel) (t : Z) (ufr : Z → Z) : Prop := is_task t ∧ proc_space k t ufr ∧ running k t.

(** The area is in the data pages, which a process may write. *)
Definition data_area (a n : Z) : Prop := USER_FIRST_PAGE * 4096 ≤ a ∧ a + n ≤ PAG_LOG_INIT_CODE * 4096.

(** The four bytes at a physical address. *)
Definition memory_word (k : kernel) (a : Z) : Z :=
  pread k a + pread k (a + 1) * 2 ^ 8 + pread k (a + 2) * 2 ^ 16 + pread k (a + 3) * 2 ^ 24.

Section words.
Context `{LayoutOk}.
Implicit Types (k : kernel) (t a b w : Z) (ufr : Z → Z).

Lemma process_runs k t ufr : user_process k t ufr → runs k t ufr.
Proof. by intros []. Qed.

Lemma runs_frames k t ufr fr : runs k t ufr → runs (set_frames fr k) t ufr.
Proof. intros (Ht & Hs & Hr). split; [done|]. split; [by apply (proc_space_same k)|done]. Qed.

(** ** Areas *)

Lemma data_area_user a n : data_area a n → user_area a n.
Proof. intros [? E]. split; [done|]. change (a + n ≤ 276 * 4096) in E. change (a + n ≤ 284 * 4096). lia. Qed.

Lemma data_area_range a n i : data_area a n → 0 ≤ i < n → user_area (a + i) 1 ∧ u32 (a + i) = a + i.
Proof.
  intros [H1' H2'] Hi. change (256 * 4096 ≤ a) in H1'. change (a + n ≤ 276 * 4096) in H2'. split; [|apply u32_small; wrap_lia].
  split; [change (256 * 4096 ≤ a + i)|change (a + i + 1 ≤ 284 * 4096)]; lia.
Qed.

Lemma data_area_u32 a n : data_area a n → 0 < n → u32 a = a.
Proof. intros Ha Hn. destruct (data_area_range a n 0 Ha ltac:(lia)) as [_ E]. by rewrite Z.add_0_r in E. Qed.

Lemma data_area_part a n b m : data_area a n → a ≤ b → b + m ≤ a + n → data_area b m.
Proof. intros [? ?] ? ?. split; lia. Qed.

Lemma word_of_bytes w : u8 w + u8 (u8 (w / 2 ^ 8)) * 2 ^ 8 + u8 (u8 (w / 2 ^ 16)) * 2 ^ 16 + u8 (u8 (w / 2 ^ 24)) * 2 ^ 24 = u32 w.
Proof.
  rewrite !(u8_small (u8 _)) by auto with zeos. unfold u8, u32. change (2 ^ 32) with 4294967296. change (2 ^ 24) with 16777216. change (2 ^ 16) with 65536.
  change (2 ^ 8) with 256. Z.div_mod_to_equations; lia.
Qed.

(** ** Loads *)

Lemma runs_load k t ufr a : runs k t ufr → user_area a 1 → load8 k a = Some (pread k (user_byte ufr a)).
Proof.
  intros (Ht & Hs & Hr) [Ha Hn]. unfold load8. cbn [resolve PagedMem].
  rewrite (translate_user_page k t ufr) by (done || lia). reflexivity.
Qed.

Lemma word_loads k a : (∀ i, 0 ≤ i < 4 → u32 (a + i) = a + i ∧ is_Some (load8 k (a + i))) → is_Some (load32 k a).
Proof.
  intros Hb. destruct (Hb 0 ltac:(lia)) as [_ [b0 E0]], (Hb 1 ltac:(lia)) as [R1 [b1 E1]], (Hb 2 ltac:(lia)) as [R2 [b2 E2]], (Hb 3 ltac:(lia)) as [R3 [b3 E3]].
  rewrite Z.add_0_r in E0. unfold load32. rewrite E0. cbn [mbind option_bind]. rewrite R1, E1. cbn [mbind option_bind]. rewrite R2, E2, R3, E3. by eexists.
Qed.

Lemma user_word k t ufr a : runs k t ufr → user_area a 4 → is_Some (load32 k a).
Proof.
  intros Hp Ha. assert (256 * 4096 ≤ a ∧ a + 4 ≤ 284 * 4096) as Hr by exact Ha. apply word_loads. intros i Hi.
  split; [apply u32_small; wrap_lia|]. eexists. apply (runs_load k t ufr (a + i)); [done|].
  split; [change (256 * 4096 ≤ a + i)|change (a + i + 1 ≤ 284 * 4096)]; lia.
Qed.

(** The pages of the kernel, in the address space of the process. *)
Lemma kernel_load k t ufr a : runs k t ufr → 4096 ≤ a → a + 4 ≤ L_USER_START → load32 k a = Some (memory_word k a).
Proof.
  intros (Ht & Hs & Hr) Ha Hb. unfold L_USER_START in Hb. unfold load32. rewrite !u32_small by wrap_lia.
  assert (Hl : ∀ b, a ≤ b < a + 4 → load8 k b = Some (pread k b)).
  { intros b Hb'. unfold load8. cbn [resolve PagedMem]. by rewrite (translate_kernel_page k t ufr b Ht Hs Hr) by (unfold L_USER_START; lia). }
  rewrite !Hl by lia. reflexivity.
Qed.

Lemma load_word k k' a : data_area a 4 → (∀ i, 0 ≤ i < 4 → load8 k' (a + i) = load8 k (a + i)) → load32 k' a = load32 k a.
Proof.
  intros Ha Hs. unfold load32. rewrite (proj2 (data_area_range a 4 1 Ha ltac:(lia))), (proj2 (data_area_range a 4 2 Ha ltac:(lia))), (proj2 (data_area_range a 4 3 Ha ltac:(lia))).
  pose proof (Hs 0 ltac:(lia)) as E0. rewrite Z.add_0_r in E0. by rewrite E0, !Hs by lia.
Qed.
(** ** Stores *)

Lemma store_byte k t ufr a v : runs k t ufr → user_area a 1 →
  let k' := set_frames (<[user_byte ufr a := v]> (frames k)) k in
  store8 a v k = Some k' ∧ ∀ b, user_area b 1 → load8 k' b = if decide (b = a) then Some (u8 v) else load8 k b.
Proof.
  intros Hp Ha. pose proof Hp as (Ht & Hs & Hr).
  split; [unfold store8; cbn [resolve PagedMem]; by rewrite (translate_user_page k t ufr) by (done || (destruct Ha; lia))|].
  intros b Hb. rewrite (runs_load _ t ufr b) by (done || by apply runs_frames). rewrite (runs_load k t ufr b) by done.
  cbn [pread PagedMem frames set_frames]. rewrite lookup_insert. destruct (decide (b = a)) as [->|Hne].
  - by rewrite decide_True by done.
  - rewrite decide_False; [done|]. intros E. apply Hne. symmetry. apply (user_byte_inj k t ufr); [done| | |done].
    + destruct Ha. lia.
    + destruct Hb. lia.
Qed.

Lemma store_word k t ufr a w : runs k t ufr → data_area a 4 →
  ∃ fr, store32 a w k = Some (set_frames fr k) ∧ load32 (set_frames fr k) a = Some (u32 w) ∧
    ∀ b, user_area b 1 → b < a ∨ a + 4 ≤ b → load8 (set_frames fr k) b = load8 k b.
Proof.
  intros Hp Ha. destruct (data_area_range a 4 0 Ha ltac:(lia)) as [U0 R0], (data_area_range a 4 1 Ha ltac:(lia)) as [U1 R1],
    (data_area_range a 4 2 Ha ltac:(lia)) as [U2 R2], (data_area_range a 4 3 Ha ltac:(lia)) as [U3 R3]. rewrite Z.add_0_r in U0, R0.
  destruct (store_byte k t ufr a (u8 w) Hp U0) as [E0 L0]. set (f0 := <[_ := _]> _) in *. pose proof (runs_frames k t ufr f0 Hp) as Hp0.
  destruct (store_byte _ t ufr (a + 1) (u8 (w / 2 ^ 8)) Hp0 U1) as [E1 L1]. set (f1 := <[_ := _]> (frames (set_frames f0 k))) in *. pose proof (runs_frames _ t ufr f1 Hp0) as Hp1.
  destruct (store_byte _ t ufr (a + 2) (u8 (w / 2 ^ 16)) Hp1 U2) as [E2 L2]. set (f2 := <[_ := _]> (frames (set_frames f1 _))) in *. pose proof (runs_frames _ t ufr f2 Hp1) as Hp2.
  destruct (store_byte _ t ufr (a + 3) (u8 (w / 2 ^ 24)) Hp2 U3) as [E3 L3]. set (f3 := <[_ := _]> (frames (set_frames f2 _))) in *.
  exists f3. change (set_frames f3 k) with (set_frames f3 (set_frames f2 (set_frames f1 (set_frames f0 k)))). split_and!.
  - unfold store32. rewrite E0. cbn [mbind option_bind]. rewrite R1, E1. cbn [mbind option_bind]. by rewrite R2, E2, R3.
  - unfold load32. rewrite R1, R2, R3, !L3, !L2, !L1, !L0 by done.
    repeat (case_decide; [|lia] || (case_decide; [lia|])). cbn [mbind option_bind]. f_equal. rewrite (u8_small (u8 w)) by auto with zeos. apply word_of_bytes.
  - intros b Hb Hout. rewrite L3, L2, L1, L0 by done. by rewrite !decide_False by lia.
Qed.

(** A store of the running process. *)
Lemma store_process_word k t ufr a w : user_process k t ufr → data_area a 4 →
  ∃ k', store32 a w k = Some k' ∧ k' = set_frames (frames k') k ∧ user_process k' t ufr ∧ load32 k' a = Some (u32 w) ∧
    ∀ b, user_area b 1 → b < a ∨ a + 4 ≤ b → load8 k' b = load8 k b.
Proof.
  intros Hp Ha. destruct (store_word k t ufr a w (process_runs _ _ _ Hp) Ha) as (fr & E & Hld & Hother).
  exists (set_frames fr k). split_and!; [done..| |done|done]. destruct Hp as [Ht Hs Hr Hc]. split; [done| |done|done]. by apply (proc_space_same k).
Qed.

Lemma store32_frames k k' a w : store32 a w k = Some k' → ∃ fr, k' = set_frames fr k.
Proof.
  assert (∀ a v k k', store8 a v k = Some k' → ∃ fr, k' = set_frames fr k) as H8.
  { clear. intros a v k k' E. unfold store8 in E. destruct (resolve k a); [|done]. injection E as <-. by eexists. }
  unfold store32. intros E. destruct (store8 a _ k) as [k0|] eqn:E0; [|done]. cbn [mbind option_bind] in E.
  destruct (store8 (u32 (a + 1)) _ k0) as [k1|] eqn:E1; [|done]. cbn [mbind option_bind] in E.
  destruct (store8 (u32 (a + 2)) _ k1) as [k2|] eqn:E2; [|done]. cbn [mbind option_bind] in E.
  apply H8 in E0 as [f0 ->]. apply H8 in E1 as [f1 ->]. apply H8 in E2 as [f2 ->]. apply H8 in E as [f3 ->]. by exists f3.
Qed.
End words.
