(* ===== verification/Sched.v ===== *)
(** * The scheduler (sched.c, task_switch and switch_stacks of kernel_misc.S)

    Definitions of the scheduler and of the stack switch, then the invariant of
    the process queues and what the operations do to the queues as sequences:
    the policy, the fairness of the turns and the return from a stack switch. *)

From S2P Require Import Prelude CInt ListHead Circular Memory Console Paging Descriptors Kernel Mm.

Definition INIT_QUANTUM : Z := 1.

(** The address of [((union task_union * )t)->stack[KERNEL_STACK_SIZE]], past the stack. *)
Definition stack_top (t : Z) : Z := stack_slot t KERNEL_STACK_SIZE.

Definition list_head_to_task_struct (l : Z) : Z := Z.land l 0xFFFFF000.

Section sched.
Context `{Layout}.

Definition list_empty_of (head : Z) : MK bool := ask (λ k, list_empty head (lists k)).
Definition list_first_of (head : Z) : MK Z := ask (λ k, list_first head (lists k)).

(** ** Initialisation *)

Definition init_sched : MK unit :=
  on_lists (INIT_LIST_HEAD freequeue) ;;
  for_up (Z.to_nat NR_TASKS) 0 (λ i,
    let t := task + PAGE_SIZE * i in
    set_pcb t (with_PID (-1)) ;;
    on_lists (list_add (node t) freequeue)) ;;
  on_lists (INIT_LIST_HEAD readyqueue) ;;
  on_lists (INIT_LIST_HEAD blocked).

Definition init_idle : MK unit :=
  elem ← list_first_of freequeue;
  on_lists (list_del elem) ;;
  let idle_pcb := list_head_to_task_struct elem in
  set_pcb idle_pcb (with_PID 0) ;;
  set_pcb idle_pcb (with_nr_ticks 0) ;;
  _ ← allocate_DIR idle_pcb;
  on_lists (INIT_LIST_HEAD (sons idle_pcb)) ;;
  store_stack (stack_slot idle_pcb (KERNEL_STACK_SIZE - 2)) 0 ;;
  store_stack (stack_slot idle_pcb (KERNEL_STACK_SIZE - 1)) cpu_idle ;;
  set_pcb idle_pcb (with_kernel_esp0 (stack_slot idle_pcb (KERNEL_STACK_SIZE - 2))) ;;
  modify (set_idle_task idle_pcb).

Definition init_task1 : MK unit :=
  elem ← list_first_of freequeue;
  on_lists (list_del elem) ;;
  let task1_pcb := list_head_to_task_struct elem in
  set_pcb task1_pcb (with_PID 1) ;;
  set_pcb task1_pcb (with_nr_ticks 0) ;;
  set_pcb task1_pcb (with_state ST_RUN) ;;
  set_pcb task1_pcb (with_pending_unblocks 0) ;;
  on_lists (INIT_LIST_HEAD (sons task1_pcb)) ;;
  _ ← allocate_DIR task1_pcb;
  set_user_pages task1_pcb ;;
  modify (set_tss_esp0 (stack_top task1_pcb)) ;;
  set_msr 0x175 (stack_top task1_pcb) 0 ;;
  d ← get_DIR task1_pcb;
  set_cr3 d ;;
  modify (set_task1_task task1_pcb) ;;
  modify (set_ticks_since_last_switch 0) ;;
  set_pcb task1_pcb (with_quantum INIT_QUANTUM).

(** ** The stack switch *)

(** [switch_stacks(&t->kernel_esp0, new_sp)]: saves the frame pointer of the
    caller in the PCB of [t], loads the stack pointer and returns on the new
    stack: one word is popped in [%ebp], the next one is the address execution
    continues at. *)
Definition switch_stacks (ebp t new_sp : Z) : MK unit :=
  set_pcb t (with_kernel_esp0 ebp) ;;
  modify (set_esp new_sp) ;;
  modify (λ k, set_esp (esp k + 4) k) ;;
  addr ← gets esp;
  r ← load_stack addr;
  modify (set_resume r) ;;
  modify (λ k, set_esp (esp k + 4) k).

Definition inner_task_switch (ebp new : Z) : MK unit :=
  new_dir ← get_DIR new;
  modify (set_tss_esp0 (stack_top new)) ;;
  set_msr 0x175 (stack_top new) 0 ;;
  set_cr3 new_dir ;;
  c ← gets current;
  p ← pcb new;
  switch_stacks ebp c (kernel_esp0 p).

(** [task_switch], called with the stack pointer [call_depth] bytes below the
    one of the kernel entry: the call, four saved registers and the argument
    take 24 bytes, the call of inner_task_switch pushes its return address and
    its prologue the frame pointer.  A process that resumes after that call
    takes the same 24 bytes off its stack and returns. *)
Definition task_switch (new : Z) : MK unit :=
  modify (λ k, set_esp (esp k - call_depth - 24) k) ;;
  modify (λ k, set_esp (esp k - 4) k) ;;
  ret_slot ← gets esp;
  store_stack ret_slot task_switch_ret ;;
  inner_task_switch (ret_slot - 4) new ;;
  r ← gets resume;
  if r =? task_switch_ret then modify (λ k, set_esp (esp k + 24 + call_depth) k) else mret tt.

(** ** The round-robin policy *)

Definition get_quantum (t : Z) : MK Z := p ← pcb t; mret (s32 (quantum p)).
Definition set_quantum (t new_quantum : Z) : MK unit := set_pcb t (with_quantum (u32 new_quantum)).

Definition update_sched_data_rr : MK unit :=
  proc_pcb ← gets current;
  n ← gets ticks_since_last_switch;
  set_pcb proc_pcb (with_nr_ticks n).

(** The comparison of the quantum with the ticks is between unsigned ints. *)
Definition needs_sched_rr : MK bool :=
  proc_pcb ← gets current;
  p ← pcb proc_pcb;
  if PID p =? 0 then b ← list_empty_of readyqueue; mret (negb b)
  else
    q ← get_quantum proc_pcb;
    if u32 q <? nr_ticks p then b ← list_empty_of readyqueue; mret (negb b)
    else if bool_decide (state p = ST_BLOCKED) then mret true
    else mret false.

Definition update_process_state_rr (t dest : Z) (dest_state : state_t) : MK unit :=
  c ← gets current;
  if dest =? NULL then
    on_lists (list_del (node t)) ;;
    set_pcb t (with_state ST_RUN)
  else if c =? t then
    on_lists (list_add_tail (node t) dest) ;;
    set_pcb t (with_state dest_state)
  else
    on_lists (list_del (node t)) ;;
    on_lists (list_add_tail (node t) dest) ;;
    set_pcb t (with_state dest_state).

Definition sched_next_rr : MK unit :=
  b ← list_empty_of readyqueue;
  if (b : bool) then
    modify (set_ticks_since_last_switch 0) ;;
    i ← gets idle_task;
    task_switch i
  else
    new_list_item ← list_first_of readyqueue;
    let new := list_head_to_task_struct new_list_item in
    c ← gets current;
    p ← pcb c;
    (if (0 <? PID p) && negb (bool_decide (state p = ST_BLOCKED))
     then update_process_state_rr c readyqueue ST_READY else mret tt) ;;
    update_process_state_rr new NULL ST_RUN ;;
    modify (set_ticks_since_last_switch 0) ;;
    task_switch new.

Definition schedule : MK unit :=
  update_sched_data_rr ;;
  b ← needs_sched_rr;
  if (b : bool) then sched_next_rr else mret tt.

End sched.

(** ** Processes and stacks *)

(** The stack pointer is on the stack of [t], with room below it. *)
Definition on_stack (t e : Z) : Prop := t + 2048 < e ≤ t + 4096.

(** The stack pointer of a process that resumes from the saved pointer [sp]
    with the return address [r] on its stack. *)
Definition resumed_esp `{Layout} (sp r : Z) : Z :=
  if r =? task_switch_ret then sp + 32 + call_depth else sp + 8.

(** The context saved for [t] resumes on the stack of [t]. *)
Definition saved `{Layout} (k : kernel) (t : Z) : Prop :=
  ∃ p r, tasks k !! t = Some p ∧ stacks k !! (kernel_esp0 p + 4) = Some r ∧
    t ≤ kernel_esp0 p + 4 < t + 4096 ∧ on_stack t (resumed_esp (kernel_esp0 p) r).

(** The parts of the state that scheduling never touches. *)
Definition same_rest (k k' : kernel) : Prop :=
  ptes k' = ptes k ∧ phys_mem k' = phys_mem k ∧
  shared_pages k' = shared_pages k ∧ frames k' = frames k ∧ cr0 k' = cr0 k ∧
  idle_task k' = idle_task k ∧ task1_task k' = task1_task k ∧ next_pid k' = next_pid k ∧
  zeos_ticks k' = zeos_ticks k ∧ cbuff k' = cbuff k ∧ cons k' = cons k.

Section switch.
Context `{LayoutOk}.
Implicit Types (k : kernel) (t : Z) (p : task_struct).

Lemma page_of t a : is_task t → t ≤ a < t + 4096 → Z.land a 0xfffff000 = t.
Proof.
  intros Ht Ha. pose proof (task_bounds t Ht). destruct Ht as [_ Ht].
  rewrite land_page_mask by wrap_lia. Z.div_mod_to_equations; lia.
Qed.

Lemma same_page t t' a : is_task t → is_task t' → t ≤ a < t + 4096 → t' ≤ a < t' + 4096 → t = t'.
Proof. intros [? ?] [? ?]. Z.div_mod_to_equations; lia. Qed.

Lemma current_at k t : is_task t → t + 4 ≤ esp k ≤ t + 4096 → current k = t.
Proof.
  intros Ht He. unfold current. pose proof (task_bounds t Ht).
  rewrite u32_small by wrap_lia. apply page_of; [done|lia].
Qed.

Lemma current_on k t : is_task t → on_stack t (esp k) → current k = t.
Proof. intros Ht He. apply current_at; [done|]. unfold on_stack in He. lia. Qed.

Lemma list_head_node t : is_task t → list_head_to_task_struct (node t) = t.
Proof. intros Ht. apply page_of; [done|]. unfold node. lia. Qed.

(** The addresses of a kernel stack fit the field [kernel_esp0]. *)
Lemma stack_slot_small t i : is_task t → 0 ≤ i < KERNEL_STACK_SIZE → u32 (stack_slot t i) = stack_slot t i.
Proof.
  intros Ht Hi. pose proof (task_bounds t Ht). unfold KERNEL_STACK_SIZE in Hi. apply u32_small. unfold stack_slot. wrap_lia.
Qed.

Lemma saved_sp_small t e : is_task t → on_stack t e → u32 (e - call_depth - 32) = e - call_depth - 32.
Proof.
  intros Ht He. pose proof (task_bounds t Ht). pose proof call_depth_range. unfold on_stack in He. apply u32_small. wrap_lia.
Qed.

(** What [task_switch new] does to the state, seen from the process [cur]. *)
Record switched (k : kernel) (cur : Z) (pc : task_struct) (new : Z) (pn : task_struct) (r : Z) (k' : kernel) : Prop := {
  sw_tasks : tasks k' = <[cur := with_kernel_esp0 (esp k - call_depth - 32) pc]> (tasks k);
  sw_stacks : stacks k' = <[esp k - call_depth - 28 := task_switch_ret]> (stacks k);
  sw_esp : esp k' = resumed_esp (kernel_esp0 pn) r;
  sw_resume : resume k' = r;
  sw_cr3 : cr3 k' = dir_pages_baseAddr pn;
  sw_tss : tss_esp0 k' = stack_top new;
  sw_msrs : msrs k' = <[0x175 := (stack_top new, 0)]> (msrs k);
  sw_rest : same_rest k k' ∧ lists k' = lists k ∧
    ticks_since_last_switch k' = ticks_since_last_switch k;
}.

Lemma task_switch_spec k cur pc new :
  is_task cur → is_task new → cur ≠ new → on_stack cur (esp k) →
  tasks k !! cur = Some pc → saved k new →
  ∃ pn r, tasks k !! new = Some pn ∧ stacks k !! (kernel_esp0 pn + 4) = Some r ∧
    wp (task_switch new) (λ _ k', switched k cur pc new pn r k') k.
Proof.
  intros Hc Hn Hne Hon Hpc (pn & r & Hpn & Hr & Hrange & Hres).
  exists pn, r. split_and!; [done..|]. pose proof call_depth_range as [? ?].
  set (slot := esp k - call_depth - 24 - 4).
  assert (kernel_esp0 pn + 4 ≠ slot) as Hslot.
  { intros Heq. apply Hne. unfold on_stack in Hon. subst slot.
    apply (same_page cur new (kernel_esp0 pn + 4)); [done|done|rewrite Heq; lia|lia]. }
  unfold task_switch. ksteps. unfold inner_task_switch, get_DIR, set_cr3. ksteps.
  rewrite (current_at _ cur) by (done || unfold on_stack in *; kcbn; lia).
  unfold switch_stacks. ksteps. kstep.
  { by rewrite lookup_insert_ne. }
  ksteps.
  destruct (r =? task_switch_ret) eqn:Er; kstep; split; kcbn; unfold resumed_esp; rewrite ?Er;
    try done; repeat first [lia | f_equal].
Qed.
End switch.

(** ** The invariant of the process queues *)

(** A fact on the PCB of [t]. *)
Definition pcb_is (k : kernel) (t : Z) (P : task_struct → Prop) : Prop :=
  ∃ p, tasks k !! t = Some p ∧ P p.

(** The lists of the kernel: the three queues, and the others [F]. *)
Definition queues `{Layout} (fq rq bq : list Z) (F : list (Z * list Z)) : list (Z * list Z) :=
  (freequeue, node <$> fq) :: (readyqueue, node <$> rq) :: (blocked, node <$> bq) :: F.

(** The test of [sched_next_rr] that sends the current process to the back of
    the ready queue. *)
Definition runnable (p : task_struct) : bool :=
  (0 <? PID p) && negb (bool_decide (state p = ST_BLOCKED)).

(** [run] holds the processor, [fq], [rq] and [bq] are the queues: what holds
    when [sched_next_rr] is called. *)
Record sched_pre `{Layout} (k : kernel) (run : Z) (fq rq bq : list Z) (F : list (Z * list Z)) : Prop := {
  p_rings : rings (lists k) (queues fq rq bq F);
  p_nodes : ∀ t, is_task t → node t ∈ dom (lists k) ∧ node t ∉ anchors F;
  p_cover : ∀ t, is_task t ↔ t = idle_task k ∨ t = run ∨ t ∈ fq ++ rq ++ bq;
  p_stack : on_stack run (esp k);
  p_idle : idle_task k ∉ fq ++ rq ++ bq ∧ pcb_is k (idle_task k) (λ p, PID p = 0);
  p_free : ∀ t, t ∈ fq → pcb_is k t (λ p, PID p = -1);
  p_ready : ∀ t, t ∈ rq → pcb_is k t (λ p, 0 < PID p ∧ state p = ST_READY);
  p_blocked : ∀ t, t ∈ bq → pcb_is k t (λ p, 0 < PID p ∧ state p = ST_BLOCKED);
  p_saved : ∀ t, t = idle_task k ∨ t ∈ rq ++ bq → t ≠ run → saved k t;
  p_run : run ∉ rq ∧ (run = idle_task k ∨ run ∈ fq ∨ run ∈ bq ∨
    run ∉ fq ++ bq ∧ pcb_is k run (λ p, 0 < PID p ∧ state p = ST_RUN));
}.

(** The registers that select the process: its stack and its directory. *)
Definition cpu_of (k : kernel) (t : Z) : Prop :=
  tss_esp0 k = stack_top t ∧ msrs k !! 0x175 = Some (stack_top t, 0) ∧
  pcb_is k t (λ p, cr3 k = dir_pages_baseAddr p).

(** The invariant between two kernel entries: the process that runs is in no queue. *)
Definition sched_inv `{Layout} (k : kernel) (run : Z) (fq rq bq : list Z) (F : list (Z * list Z)) : Prop :=
  sched_pre k run fq rq bq F ∧ run ∉ fq ++ bq ∧ cpu_of k run.

(** What scheduling leaves alone: everything but the states and the saved
    contexts of the PCBs, the queues and the registers. *)
Definition same_pcb (p p' : task_struct) : Prop :=
  PID p' = PID p ∧ dir_pages_baseAddr p' = dir_pages_baseAddr p ∧ parent p' = parent p ∧
  nr_ticks p' = nr_ticks p ∧ quantum p' = quantum p ∧ pending_unblocks p' = pending_unblocks p.

Definition same_but_sched (k k' : kernel) : Prop :=
  (∀ t, option_Forall2 same_pcb (tasks k !! t) (tasks k' !! t)) ∧
  dom (lists k') = dom (lists k) ∧ same_rest k k'.

Section invariant.
Context `{LayoutOk}.
Implicit Types (k : kernel) (t run : Z) (p : task_struct) (fq rq bq : list Z) (F : list (Z * list Z)).

Lemma queues_ready fq rq bq F :
  queues fq rq bq F ≡ₚ (readyqueue, node <$> rq) :: (freequeue, node <$> fq) :: (blocked, node <$> bq) :: F.
Proof. apply Permutation_swap. Qed.

Lemma queues_blocked fq rq bq F :
  queues fq rq bq F ≡ₚ (blocked, node <$> bq) :: (freequeue, node <$> fq) :: (readyqueue, node <$> rq) :: F.
Proof. unfold queues. solve_Permutation. Qed.

Lemma node_inj t t' : node t = node t' → t = t'.
Proof. unfold node. lia. Qed.

Lemma node_not_head t q : is_task t → q = freequeue ∨ q = readyqueue ∨ q = blocked → node t ≠ q.
Proof.
  intros [? ?] Hq. pose proof (queues_out q Hq). unfold node, TASKS_SIZE in *.
  pose proof task_aligned. Z.div_mod_to_equations; lia.
Qed.

Lemma node_in t (ts : list Z) : node t ∈ node <$> ts ↔ t ∈ ts.
Proof.
  rewrite list_elem_of_fmap. split; [|eauto].
  intros (u & ->%node_inj & ?). done.
Qed.

Lemma node_out t fq rq bq F :
  is_task t → node t ∉ anchors F → t ∉ fq ++ rq ++ bq → node t ∉ anchors (queues fq rq bq F).
Proof.
  intros Ht HF Hq. unfold queues.
  rewrite !anchors_cons, !app_comm_cons, !elem_of_app, !elem_of_cons, !node_in.
  rewrite !elem_of_app in Hq.
  pose proof (node_not_head t freequeue Ht). pose proof (node_not_head t readyqueue Ht).
  pose proof (node_not_head t blocked Ht). tauto.
Qed.

Lemma rings_nodup h fq rq bq F : rings h (queues fq rq bq F) → NoDup (fq ++ rq ++ bq).
Proof.
  intros [Hnd _]. apply (NoDup_fmap_1 node). rewrite !fmap_app. revert Hnd.
  unfold queues. rewrite !anchors_cons. intros (_ & Hnd)%NoDup_cons.
  apply NoDup_app in Hnd as (H1 & H2 & (_ & Hnd)%NoDup_cons).
  apply NoDup_app in Hnd as (H3 & H4 & (_ & Hnd)%NoDup_cons).
  apply NoDup_app in Hnd as (H5 & _ & _).
  apply NoDup_app. split_and!; [done| |].
  - intros x Hx. specialize (H2 x Hx). clear - H2. set_solver.
  - apply NoDup_app. split_and!; [done| |done]. intros x Hx. specialize (H4 x Hx). clear - H4. set_solver.
Qed.

(** A saved context depends on the PCB and on the stack of its process only. *)
Lemma saved_ext k k' t :
  kernel_esp0 <$> tasks k' !! t = kernel_esp0 <$> tasks k !! t →
  (∀ a, t ≤ a < t + 4096 → stacks k' !! a = stacks k !! a) →
  saved k t → saved k' t.
Proof.
  intros Ht Hs (p & r & Hp & Hr & Ha & Ho). rewrite Hp in Ht.
  destruct (tasks k' !! t) as [p'|] eqn:Hp'; [|done]. cbn in Ht. injection Ht as Ht.
  exists p', r. rewrite Ht, Hs by done. done.
Qed.

Lemma pcb_is_mono k t (P Q : task_struct → Prop) :
  (∀ p, P p → Q p) → pcb_is k t P → pcb_is k t Q.
Proof. intros HPQ (p & ? & ?). exists p. auto. Qed.

Lemma pre_task k run fq rq bq F t :
  sched_pre k run fq rq bq F → t = idle_task k ∨ t = run ∨ t ∈ fq ++ rq ++ bq → is_task t.
Proof. intros Hp Ht. by apply (p_cover _ _ _ _ _ _ Hp). Qed.

Lemma current_run k run fq rq bq F : sched_pre k run fq rq bq F → current k = run.
Proof. intros Hp. apply current_on; [eapply pre_task; eauto|apply Hp]. Qed.

(** ** One scheduling step *)

(** The next process and the ready queue after [sched_next_rr]. *)
Definition next_of (k : kernel) (rq : list Z) : Z := List.hd (idle_task k) rq.
Definition requeue (pc : task_struct) (run : Z) (rq : list Z) : list Z :=
  tail rq ++ if runnable pc then [run] else [].

(** The same process in the same context, whatever its scheduling state. *)
Definition same_ctx (p p' : task_struct) : Prop := same_pcb p p' ∧ kernel_esp0 p' = kernel_esp0 p.

Lemma same_ctx_refl p : same_ctx p p.
Proof. by split_and!. Qed.

Lemma same_ctx_state p p' s : same_ctx p p' → same_ctx p (with_state s p').
Proof. done. Qed.

Lemma Forall2_lookup {R : task_struct → task_struct → Prop} {x y p} :
  option_Forall2 R x y → x = Some p → ∃ p', y = Some p' ∧ R p p'.
Proof. intros HR ->. inversion HR; eauto. Qed.

Lemma runnable_kind k run fq rq bq F pc :
  sched_pre k run fq rq bq F → tasks k !! run = Some pc →
  (runnable pc = true ↔ run ≠ idle_task k ∧ run ∉ fq ++ bq) ∧
  (runnable pc = true → 0 < PID pc ∧ state pc = ST_RUN).
Proof.
  intros Hp Hpc. unfold runnable. rewrite elem_of_app.
  assert (H4 : ∀ P, pcb_is k run P → P pc) by (intros P (p & ? & ?); congruence).
  destruct (proj2 (p_run _ _ _ _ _ _ Hp)) as [Hi|[Hi|[Hi|[Hn Hi]]]].
  - pose proof (proj2 (p_idle _ _ _ _ _ _ Hp)) as Hid. rewrite <- Hi in Hid.
    apply H4 in Hid. rewrite Hid. cbn. split; [|done]. split; [done|]. by intros [? _].
  - pose proof (H4 _ (p_free _ _ _ _ _ _ Hp run Hi)) as Hid. rewrite Hid. cbn.
    split; [|done]. split; [done|]. tauto.
  - destruct (H4 _ (p_blocked _ _ _ _ _ _ Hp run Hi)) as [? ->]. rewrite bool_decide_true, andb_false_r by done.
    split; [|done]. split; [done|]. tauto.
  - destruct (H4 _ Hi) as [? ->]. rewrite bool_decide_false by done. rewrite elem_of_app in Hn.
    destruct (Z.ltb_spec 0 (PID pc)); [|lia]. cbn. split; [|done]. split; [|done].
    intros _. split; [|done]. intros ->.
    pose proof (H4 _ (proj2 (p_idle _ _ _ _ _ _ Hp))) as H5. cbn in H5. lia.
Qed.

Lemma not_runnable_kind k run fq rq bq F pc :
  sched_pre k run fq rq bq F → tasks k !! run = Some pc → runnable pc = false →
  run = idle_task k ∨ run ∈ fq ∨ run ∈ bq.
Proof.
  intros Hp Hpc Hr. destruct (runnable_kind _ _ _ _ _ _ pc Hp Hpc) as [[_ Hk] _].
  rewrite elem_of_app in Hk. destruct (decide (run = idle_task k)); [tauto|].
  destruct (decide (run ∈ fq)); [tauto|]. destruct (decide (run ∈ bq)); [tauto|].
  rewrite Hk in Hr; [done|tauto].
Qed.

(** The processes are still covered after the step. *)
Lemma cover_step k run fq rq bq F pc t :
  sched_pre k run fq rq bq F → tasks k !! run = Some pc → (rq = [] → runnable pc = false) →
  is_task t ↔ t = idle_task k ∨ t = next_of k rq ∨ t ∈ fq ++ requeue pc run rq ++ bq.
Proof.
  intros Hp Hpc Hrq. rewrite (p_cover _ _ _ _ _ _ Hp t).
  pose proof (not_runnable_kind _ _ _ _ _ _ pc Hp Hpc) as Hk.
  unfold next_of, requeue. destruct rq as [|n rest]; cbn.
  - specialize (Hrq eq_refl). specialize (Hk Hrq). rewrite Hrq. cbn. rewrite !elem_of_app.
    split; [|tauto]. intros [?|[->|?]]; tauto.
  - rewrite !elem_of_app, elem_of_cons, !elem_of_app. destruct (runnable pc).
    + rewrite list_elem_of_singleton. tauto.
    + specialize (Hk eq_refl). split; [|rewrite elem_of_nil; tauto].
      intros [?|[->|?]]; tauto.
Qed.

(** The state [K] in which the queues are updated, before the stack switch. *)
Record requeued k K run fq rq bq F pc : Prop := {
  rq_same : ∀ t, option_Forall2 same_ctx (tasks k !! t) (tasks K !! t);
  rq_other : ∀ t, t ≠ run → t ≠ next_of k rq → tasks K !! t = tasks k !! t;
  rq_run : if runnable pc then pcb_is K run (λ p, state p = ST_READY)
           else tasks K !! run = tasks k !! run;
  rq_next : rq ≠ [] → pcb_is K (next_of k rq) (λ p, state p = ST_RUN);
  rq_rings : rings (lists K) (queues fq (requeue pc run rq) bq F);
  rq_dom : dom (lists K) = dom (lists k);
  rq_out : ∀ a, a ∉ anchors (queues fq rq bq F) → a ≠ node run → lists K !! a = lists k !! a;
  rq_stacks : stacks K = stacks k ∧ esp K = esp k ∧ msrs K = msrs k;
  rq_rest : same_rest k K ∧ ticks_since_last_switch K = 0;
}.

Lemma same_rest_trans k1 k2 k3 : same_rest k1 k2 → same_rest k2 k3 → same_rest k1 k3.
Proof. unfold same_rest. intuition congruence. Qed.

Lemma next_ne_run k run fq rq bq F :
  sched_pre k run fq rq bq F → (rq = [] → run ≠ idle_task k) → next_of k rq ≠ run.
Proof.
  intros Hp Hrq. unfold next_of. destruct rq as [|n rest]; cbn; [by intros <-; apply Hrq|].
  intros <-. apply (proj1 (p_run _ _ _ _ _ _ Hp)). by left.
Qed.

Lemma next_task k run fq rq bq F : sched_pre k run fq rq bq F → is_task (next_of k rq).
Proof.
  intros Hp. apply (p_cover _ _ _ _ _ _ Hp). unfold next_of. destruct rq as [|n rest]; cbn; [tauto|].
  right. right. apply elem_of_app. right. by left.
Qed.

Lemma next_saved k run fq rq bq F :
  sched_pre k run fq rq bq F → (rq = [] → run ≠ idle_task k) → saved k (next_of k rq).
Proof.
  intros Hp Hrq. apply (p_saved _ _ _ _ _ _ Hp); [|by eapply next_ne_run].
  unfold next_of. destruct rq as [|n rest]; cbn; [by left|]. right. by left.
Qed.

Section step.
Context k K k' run fq rq bq F pc pr pn r
  (Hp : sched_pre k run fq rq bq F) (Hpc : tasks k !! run = Some pc)
  (Hrq : rq = [] → runnable pc = false ∧ run ≠ idle_task k)
  (HK : requeued k K run fq rq bq F pc)
  (Hpr : tasks K !! run = Some pr) (Hpn : tasks K !! next_of k rq = Some pn)
  (Hsw : switched K run pr (next_of k rq) pn r k').

Let next := next_of k rq.

Lemma step_ne : next ≠ run.
Proof. eapply next_ne_run; [done|]. intros ?. by apply Hrq. Qed.

Lemma step_same t : option_Forall2 same_pcb (tasks k !! t) (tasks k' !! t).
Proof.
  rewrite (sw_tasks _ _ _ _ _ _ _ Hsw).
  pose proof (rq_same _ _ _ _ _ _ _ _ HK t) as Hs.
  destruct (decide (t = run)) as [->|Hne].
  - rewrite lookup_insert_eq. rewrite Hpr in Hs. inversion Hs as [p ? [Hpp _]|]. constructor. done.
  - rewrite lookup_insert_ne by done. inversion Hs as [p ? [Hpp _]|]; by constructor.
Qed.

Lemma step_pcb t (P : task_struct → Prop) :
  (∀ p p', same_pcb p p' → P p → P p') → pcb_is k t P → pcb_is k' t P.
Proof.
  intros HP (p & Hpt & HPp). destruct (Forall2_lookup (step_same t) Hpt) as (p' & ? & ?).
  exists p'. eauto.
Qed.

Lemma step_other t : t ≠ run → t ≠ next → tasks k' !! t = tasks k !! t.
Proof.
  intros Hr Hn. rewrite (sw_tasks _ _ _ _ _ _ _ Hsw), lookup_insert_ne by done.
  by apply (rq_other _ _ _ _ _ _ _ _ HK).
Qed.

Lemma step_rest : same_rest k k' ∧ lists k' = lists K ∧ ticks_since_last_switch k' = 0.
Proof.
  destruct (sw_rest _ _ _ _ _ _ _ Hsw) as (? & ? & Ht).
  destruct (rq_rest _ _ _ _ _ _ _ _ HK) as [? Ht'].
  split_and!; [by eapply same_rest_trans|done|congruence].
Qed.

Lemma step_is_task t : t = idle_task k ∨ t = run ∨ t ∈ fq ++ rq ++ bq → is_task t.
Proof. by apply (p_cover _ _ _ _ _ _ Hp). Qed.

Lemma step_next_task : is_task next.
Proof. exact (next_task _ _ _ _ _ _ Hp). Qed.

Lemma step_saved_other t : t ≠ run → is_task t → saved k t → saved k' t.
Proof.
  intros Hne Ht. destruct (rq_stacks _ _ _ _ _ _ _ _ HK) as (Hst & He & _). apply saved_ext.
  - rewrite (sw_tasks _ _ _ _ _ _ _ Hsw), lookup_insert_ne by done.
    pose proof (rq_same _ _ _ _ _ _ _ _ HK t) as Hs. inversion Hs as [p p' [_ Hc]|]; cbn; congruence.
  - intros a Ha. rewrite (sw_stacks _ _ _ _ _ _ _ Hsw), lookup_insert_ne by
      (intros <-; apply Hne; pose proof call_depth_range; pose proof (p_stack _ _ _ _ _ _ Hp) as Hos;
       unfold on_stack in Hos; rewrite He in Ha;
       apply (same_page t run (esp k - call_depth - 28)); [done|apply step_is_task; tauto|lia|lia]).
    by rewrite Hst.
Qed.

(** The process that gives the processor up can be resumed where it was. *)
Lemma step_saved_run : saved k' run.
Proof.
  destruct (rq_stacks _ _ _ _ _ _ _ _ HK) as (Hst & He & _).
  pose proof (p_stack _ _ _ _ _ _ Hp) as Hos. unfold on_stack in Hos.
  pose proof call_depth_range.
  exists (with_kernel_esp0 (esp K - call_depth - 32) pr), task_switch_ret. cbn.
  rewrite (saved_sp_small run) by (apply step_is_task || (unfold on_stack; rewrite He); tauto || lia).
  rewrite (sw_tasks _ _ _ _ _ _ _ Hsw), lookup_insert_eq. split; [done|].
  rewrite (sw_stacks _ _ _ _ _ _ _ Hsw).
  replace (esp K - call_depth - 32 + 4) with (esp K - call_depth - 28) by lia.
  rewrite lookup_insert_eq. split; [done|]. unfold resumed_esp, on_stack. rewrite Z.eqb_refl. lia.
Qed.
Hypothesis Hr : stacks K !! (kernel_esp0 pn + 4) = Some r.

Lemma step_nodup : NoDup (fq ++ rq ++ bq).
Proof. eapply rings_nodup, (p_rings _ _ _ _ _ _ Hp). Qed.

Lemma step_next_saved : saved k next.
Proof. apply (next_saved _ _ _ _ _ _ Hp). intros E. by apply Hrq. Qed.

Lemma step_on_stack : on_stack next (esp k').
Proof.
  rewrite (sw_esp _ _ _ _ _ _ _ Hsw). destruct step_next_saved as (p & r' & Hpk & Hrk & _ & Ho).
  destruct (Forall2_lookup (rq_same _ _ _ _ _ _ _ _ HK next) Hpk) as (p' & Hp' & _ & Hc).
  assert (pn = p') as -> by (apply (inj Some); by rewrite <- Hpn).
  rewrite Hc in Hr |- *.
  rewrite (proj1 (rq_stacks _ _ _ _ _ _ _ _ HK)), Hrk in Hr. by injection Hr as <-.
Qed.

(** The next process is in none of the queues of the new state. *)
Lemma step_next_out : next ∉ fq ++ requeue pc run rq ++ bq.
Proof.
  pose proof step_ne as Hne. pose proof step_nodup as Hnd. unfold next, next_of, requeue in *.
  assert (Hrun : next ∉ if runnable pc then [run] else []).
  { destruct (runnable pc); [rewrite list_elem_of_singleton|rewrite elem_of_nil; tauto]. done. }
  unfold next, next_of in Hrun. rewrite !elem_of_app. destruct rq as [|n rest]; cbn in *.
  - pose proof (proj1 (p_idle _ _ _ _ _ _ Hp)) as Hi. rewrite elem_of_app in Hi.
    pose proof (not_elem_of_nil (idle_task k)). tauto.
  - apply NoDup_app in Hnd as (_ & Hd & (Hn & _)%NoDup_cons). rewrite elem_of_app in Hn.
    assert (n ∉ fq) by (intros Hnf; apply (Hd n Hnf); by left). tauto.
Qed.

Lemma step_run_state :
  if runnable pc then pcb_is k' run (λ p, 0 < PID p ∧ state p = ST_READY)
  else pcb_is k' run (λ p, state p = state pc).
Proof.
  pose proof (rq_run _ _ _ _ _ _ _ _ HK) as HKr.
  destruct (Forall2_lookup (step_same run) Hpc) as (p' & Hp' & [HPID _]).
  pose proof Hp' as Hp''. rewrite (sw_tasks _ _ _ _ _ _ _ Hsw), lookup_insert_eq in Hp''.
  injection Hp'' as <-. destruct (runnable pc) eqn:Er.
  - destruct HKr as (q & Hq & Hst). rewrite Hpr in Hq. injection Hq as <-.
    destruct (runnable_kind _ _ _ _ _ _ pc Hp Hpc) as [_ Hk]. destruct (Hk Er) as [HP _].
    eexists. split; [exact Hp'|]. cbn in *. split; [lia|done].
  - rewrite Hpr, Hpc in HKr. injection HKr as ->. eexists. split; [exact Hp'|]. done.
Qed.

Lemma step_queued t P : t ∈ tail rq ∨ t ∈ bq → t ≠ run → pcb_is k t P → pcb_is k' t P.
Proof.
  intros Ht Hne (p & Hpt & HP). exists p. split; [|done]. rewrite step_other; [done..|].
  intros ->. pose proof step_next_out as Hout. unfold requeue in Hout.
  rewrite !elem_of_app in Hout. tauto.
Qed.

Lemma step_ready t : t ∈ requeue pc run rq → pcb_is k' t (λ p, 0 < PID p ∧ state p = ST_READY).
Proof.
  unfold requeue. pose proof step_run_state as Hrun. rewrite elem_of_app. intros [Ht|Ht].
  - assert (t ∈ rq) as Htr by (destruct rq; [done|by right]).
    apply step_queued; [by left|intros ->; by apply (p_run _ _ _ _ _ _ Hp)|].
    by apply (p_ready _ _ _ _ _ _ Hp).
  - destruct (runnable pc); [apply list_elem_of_singleton in Ht as ->; done|by apply elem_of_nil in Ht].
Qed.

Lemma step_blocked t : t ∈ bq → pcb_is k' t (λ p, 0 < PID p ∧ state p = ST_BLOCKED).
Proof.
  destruct (runnable_kind _ _ _ _ _ _ pc Hp Hpc) as [Hk _].
  intros Ht. pose proof (p_blocked _ _ _ _ _ _ Hp t Ht) as Hb.
  destruct (decide (t = run)) as [->|Htr]; [|apply step_queued; [by right|done..]].
  pose proof step_run_state as Hrun. destruct Hb as (p & Hpp & HPID & Hst).
  rewrite Hpc in Hpp. injection Hpp as <-.
  destruct (runnable pc); [destruct (proj1 Hk eq_refl) as [_ Hbq]; rewrite elem_of_app in Hbq; tauto|].
  destruct (Forall2_lookup (step_same run) Hpc) as (p' & Hp' & [HP _]).
  destruct Hrun as (q & Hq & Hsq). rewrite Hp' in Hq. injection Hq as <-.
  exists p'. split; [done|]. split; [lia|congruence].
Qed.

Lemma step_saved t : t = idle_task k ∨ t ∈ requeue pc run rq ++ bq → t ≠ next → saved k' t.
Proof.
  intros Ht Htn. destruct (decide (t = run)) as [->|Htr]; [apply step_saved_run|].
  assert (t = idle_task k ∨ t ∈ rq ++ bq) as Ht'.
  { rewrite elem_of_app. destruct Ht as [?|[Ht|?]%elem_of_app]; [tauto| |tauto].
    apply elem_of_app in Ht as [Ht|Ht]; [right; left; by destruct rq; [|right]|].
    destruct (runnable pc); [by apply list_elem_of_singleton in Ht|by apply elem_of_nil in Ht]. }
  apply step_saved_other; [done| |by apply (p_saved _ _ _ _ _ _ Hp)].
  apply step_is_task. rewrite !elem_of_app in Ht'. rewrite !elem_of_app. tauto.
Qed.

Lemma step_idle_out : idle_task k ∉ fq ++ requeue pc run rq ++ bq.
Proof.
  destruct (runnable_kind _ _ _ _ _ _ pc Hp Hpc) as [Hk _].
  pose proof (proj1 (p_idle _ _ _ _ _ _ Hp)) as Hi.
  unfold requeue. rewrite !elem_of_app in Hi. rewrite !elem_of_app.
  assert (idle_task k ∈ tail rq → idle_task k ∈ rq) by (destruct rq; [done|by right]).
  destruct (runnable pc); [rewrite list_elem_of_singleton|rewrite elem_of_nil; tauto].
  destruct (proj1 Hk eq_refl) as [? _]. intuition congruence.
Qed.

Lemma step_next_state :
  next = idle_task k ∨ pcb_is k' next (λ p, 0 < PID p ∧ state p = ST_RUN).
Proof.
  pose proof step_ne as Hne. destruct (decide (rq = [])) as [Hrq0|Hrq0].
  { left. unfold next, next_of. by rewrite Hrq0. }
  right. assert (next ∈ rq) as Hin by (unfold next, next_of; destruct rq; [done|by left]).
  destruct (p_ready _ _ _ _ _ _ Hp next Hin) as (p0 & Hp0 & HPID & _).
  destruct (Forall2_lookup (step_same next) Hp0) as (p' & Hp' & [HP _]).
  exists p'. split; [done|]. split; [lia|].
  destruct (rq_next _ _ _ _ _ _ _ _ HK Hrq0) as (q & Hq & Hsq). fold next in Hq.
  rewrite (sw_tasks _ _ _ _ _ _ _ Hsw), lookup_insert_ne in Hp' by done. congruence.
Qed.

Lemma step_inv : sched_inv k' next fq (requeue pc run rq) bq F.
Proof.
  pose proof step_next_out as Hout. pose proof step_ne as Hne.
  destruct step_rest as ((? & ? & ? & ? & ? & Hidle & _) & Hl & _).
  split_and!; [split| |].
  - rewrite Hl. apply HK.
  - intros t Ht. rewrite Hl, (rq_dom _ _ _ _ _ _ _ _ HK). by apply (p_nodes _ _ _ _ _ _ Hp).
  - intros t. rewrite Hidle. eapply cover_step; [done..|]. intros Hn. by apply Hrq.
  - apply step_on_stack.
  - rewrite Hidle. split; [apply step_idle_out|]. generalize (proj2 (p_idle _ _ _ _ _ _ Hp)).
    apply step_pcb. intros p p' [-> _]. done.
  - intros t Ht. generalize (p_free _ _ _ _ _ _ Hp t Ht). apply step_pcb. intros p p' [-> _]. done.
  - apply step_ready.
  - apply step_blocked.
  - rewrite Hidle. apply step_saved.
  - rewrite Hidle. rewrite !elem_of_app in Hout. rewrite !elem_of_app. pose proof step_next_state. tauto.
  - rewrite !elem_of_app in Hout. rewrite !elem_of_app. tauto.
  - split_and!; [apply Hsw|rewrite (sw_msrs _ _ _ _ _ _ _ Hsw); by rewrite lookup_insert_eq|].
    exists pn. rewrite (sw_tasks _ _ _ _ _ _ _ Hsw), lookup_insert_ne by done. split; [done|apply Hsw].
Qed.
End step.

(** ** sched_next_rr *)

Lemma ready_empty k run fq rq bq F :
  sched_pre k run fq rq bq F → list_empty readyqueue (lists k) = Some (bool_decide (rq = [])).
Proof.
  intros Hp. pose proof (p_rings _ _ _ _ _ _ Hp) as Hl. rewrite queues_ready in Hl.
  rewrite (rings_empty _ _ _ _ Hl). f_equal. apply bool_decide_ext. destruct rq; done.
Qed.

Lemma same_ctx_lookup (m : gmap Z task_struct) t : option_Forall2 same_ctx (m !! t) (m !! t).
Proof. destruct (m !! t); constructor. apply same_ctx_refl. Qed.

Lemma same_ctx_insert (m m' : gmap Z task_struct) t p s :
  (∀ u, option_Forall2 same_ctx (m !! u) (m' !! u)) → m' !! t = Some p →
  ∀ u, option_Forall2 same_ctx (m !! u) (<[t := with_state s p]> m' !! u).
Proof.
  intros Hm Hp u. specialize (Hm u). destruct (decide (u = t)) as [->|Hne].
  - rewrite lookup_insert_eq. rewrite Hp in Hm. inversion Hm; constructor. by apply same_ctx_state.
  - by rewrite lookup_insert_ne.
Qed.

Lemma requeue_run h run fq rq bq F :
  rings h (queues fq rq bq F) → is_task run → node run ∈ dom h → node run ∉ anchors F →
  run ∉ fq ++ rq ++ bq →
  ∃ h', list_add_tail (node run) readyqueue h = Some h' ∧ dom h' = dom h ∧
    rings h' (queues fq (rq ++ [run]) bq F) ∧
    (∀ a, a ∉ anchors (queues fq rq bq F) → a ≠ node run → h' !! a = h !! a).
Proof.
  intros Hl Ht Hd HF Hq. pose proof (node_out _ _ _ _ _ Ht HF Hq) as Hn.
  rewrite queues_ready in Hl. rewrite queues_ready in Hn.
  destruct (rings_add_tail _ _ _ _ _ Hl Hd Hn) as (h' & ? & [? Ho] & ?).
  exists h'. rewrite queues_ready, fmap_app. do 3 (split; [done|]). intros a. rewrite queues_ready, anchors_cons, app_comm_cons.
  rewrite elem_of_app. intros Ha Hne. apply Ho. rewrite elem_of_cons. tauto.
Qed.

Lemma dequeue_next h n fq rq bq F :
  rings h (queues fq (n :: rq) bq F) →
  ∃ h', list_del (node n) h = Some h' ∧ dom h' = dom h ∧ rings h' (queues fq rq bq F) ∧
    (∀ a, a ∉ anchors (queues fq (n :: rq) bq F) → h' !! a = h !! a).
Proof.
  intros Hl. rewrite queues_ready in Hl. destruct (rings_del h readyqueue [] (node n) _ _ Hl) as (h' & ? & [? Ho] & ? & _).
  exists h'. rewrite queues_ready. do 3 (split; [done|]). intros a. rewrite queues_ready, anchors_cons, app_comm_cons.
  rewrite elem_of_app. intros Ha. apply Ho. tauto.
Qed.

(** A process that can go on is in no queue, and the anchors that its queueing leaves alone. *)
Lemma runnable_out k run fq rq bq F pc : sched_pre k run fq rq bq F → tasks k !! run = Some pc → runnable pc = true → run ∉ fq ++ rq ++ bq.
Proof.
  intros Hp Hpc Er. destruct (runnable_kind _ _ _ _ _ _ _ Hp Hpc) as [[Hk _] _].
  destruct (Hk Er) as [_ Hk']. pose proof (proj1 (p_run _ _ _ _ _ _ Hp)).
  rewrite !elem_of_app in Hk'. rewrite !elem_of_app. tauto.
Qed.

Lemma anchors_requeued a fq rq bq F run :
  a ∉ anchors (queues fq rq bq F) → a ≠ node run → a ∉ anchors (queues fq (rq ++ [run]) bq F).
Proof.
  intros Ha Hne. rewrite queues_ready, anchors_cons, app_comm_cons, elem_of_app in Ha |- *.
  rewrite fmap_app, app_comm_cons, elem_of_app. change (node <$> [run]) with [node run]. rewrite list_elem_of_singleton. tauto.
Qed.

(** The queue updates of [sched_next_rr] up to the stack switch. *)
Lemma sched_next_requeue k run fq rq bq F pc Q :
  sched_pre k run fq rq bq F → tasks k !! run = Some pc →
  (rq = [] → runnable pc = false ∧ run ≠ idle_task k) →
  (∀ K, requeued k K run fq rq bq F pc → wp (task_switch (next_of k rq)) Q K) →
  wp sched_next_rr Q k.
Proof.
  intros Hp Hpc Hrq HQ. pose proof (pre_task _ _ _ _ _ _ run Hp ltac:(tauto)) as Hrt.
  pose proof (current_run _ _ _ _ _ _ Hp) as Hcur. pose proof (p_rings _ _ _ _ _ _ Hp) as Hl.
  pose proof (next_ne_run _ _ _ _ _ _ Hp (λ E, proj2 (Hrq E))) as Hne.
  unfold sched_next_rr, list_empty_of, list_first_of. kstep. kstep; [by eapply ready_empty|].
  destruct rq as [|n rest].
  { cbn. ksteps. apply HQ. split; kcbn; try done.
    - intros t. apply same_ctx_lookup.
    - by rewrite (proj1 (Hrq eq_refl)).
    - unfold requeue. by rewrite (proj1 (Hrq eq_refl)). }
  rewrite bool_decide_false by done. kstep. kstep.
  { rewrite queues_ready in Hl. by eapply rings_first. }
  cbn [List.hd fmap list_fmap]. rewrite list_head_node by (eapply pre_task; [done|set_solver]).
  kstep. kstep. rewrite Hcur. do 3 kstep.
  change ((0 <? PID pc) && negb (bool_decide (state pc = ST_BLOCKED))) with (runnable pc).
  cbn [next_of List.hd] in Hne, HQ.
  destruct (p_ready _ _ _ _ _ _ Hp n ltac:(by left)) as (pn & Hpn & _).
  destruct (p_nodes _ _ _ _ _ _ Hp run Hrt) as [Hrd HrF].
  destruct (queues_out readyqueue ltac:(tauto)) as [Hq0 _].
  destruct (runnable pc) eqn:Er; kcbn; [|kstep]; unfold update_process_state_rr.
  - destruct (requeue_run _ run _ _ _ _ Hl Hrt Hrd HrF) as (h1 & Hh1 & Hd1 & Hl1 & Ho1); [by eapply runnable_out|].
    destruct (dequeue_next _ n _ _ _ _ Hl1) as (h2 & Hh2 & Hd2 & Hl2 & Ho2).
    ksteps. destruct (Z.eqb_spec readyqueue NULL) as [E0|_]; [unfold NULL in E0; lia|].
    rewrite Hcur, Z.eqb_refl. ksteps. cbn [Z.eqb NULL]. ksteps. kstep; [by rewrite lookup_insert_ne|].
    ksteps. apply HQ. split; kcbn.
    + apply same_ctx_insert; [|by rewrite lookup_insert_ne].
      apply same_ctx_insert; [apply same_ctx_lookup|done].
    + intros t ? ?. by rewrite !lookup_insert_ne.
    + rewrite Er. eexists. split; [cbn; by rewrite lookup_insert_ne, lookup_insert_eq|done].
    + intros _. eexists. split; [cbn; by rewrite lookup_insert_eq|done].
    + unfold requeue. by rewrite Er.
    + congruence.
    + intros a Ha Hne'. rewrite Ho2, Ho1; [done|done|done|]. by apply (anchors_requeued a fq (n :: rest)).
    + done.
    + done.
  - destruct (dequeue_next _ n _ _ _ _ Hl) as (h2 & Hh2 & Hd2 & Hl2 & Ho2).
    kstep. kstep. cbn [Z.eqb NULL]. ksteps. apply HQ. split; kcbn; [| | | | | |by intros a Ha _; apply Ho2| |done].
    + apply same_ctx_insert; [apply same_ctx_lookup|done].
    + intros t ? ?. by rewrite !lookup_insert_ne.
    + rewrite Er. by rewrite lookup_insert_ne.
    + intros _. eexists. split; [cbn; by rewrite lookup_insert_eq|done].
    + unfold requeue. rewrite Er. by rewrite app_nil_r.
    + done.
    + done.
Qed.

(** [sched_next_rr]: the queues, then the stacks. *)
Lemma sched_next_switch k run fq rq bq F pc :
  sched_pre k run fq rq bq F → tasks k !! run = Some pc →
  (rq = [] → runnable pc = false ∧ run ≠ idle_task k) →
  wp sched_next_rr (λ _ k', ∃ K pr pn r, requeued k K run fq rq bq F pc ∧ tasks K !! run = Some pr ∧
    tasks K !! next_of k rq = Some pn ∧ stacks K !! (kernel_esp0 pn + 4) = Some r ∧ switched K run pr (next_of k rq) pn r k') k.
Proof.
  intros Hp Hpc Hrq. eapply sched_next_requeue; [done..|]. intros K HK.
  destruct (Forall2_lookup (rq_same _ _ _ _ _ _ _ _ HK run) Hpc) as (pr & Hpr & _).
  pose proof (next_ne_run _ _ _ _ _ _ Hp (λ E, proj2 (Hrq E))) as Hne.
  pose proof (pre_task _ _ _ _ _ _ run Hp ltac:(tauto)) as Hrt.
  assert (is_task (next_of k rq)) as Hnt by (by eapply next_task).
  destruct (rq_stacks _ _ _ _ _ _ _ _ HK) as (Hst & He & _).
  destruct (task_switch_spec K run pr (next_of k rq)) as (pn & r & Hpn & Hr & Hsw); [done..|by rewrite He; apply Hp|done| |].
  { eapply saved_ext; [| |eapply next_saved; [exact Hp|intros E; by apply Hrq]].
    - pose proof (rq_same _ _ _ _ _ _ _ _ HK (next_of k rq)) as Hs. inversion Hs as [p p' [_ Hc]|]; cbn; congruence.
    - intros a _. by rewrite Hst. }
  eapply wp_mono; [exact Hsw|]. intros [] k' Hk'. by exists K, pr, pn, r.
Qed.

Lemma sched_next_rr_spec k run fq rq bq F pc :
  sched_pre k run fq rq bq F → tasks k !! run = Some pc →
  (rq = [] → runnable pc = false ∧ run ≠ idle_task k) →
  wp sched_next_rr (λ _ k',
    sched_inv k' (next_of k rq) fq (requeue pc run rq) bq F ∧
    same_but_sched k k' ∧ ticks_since_last_switch k' = 0 ∧ saved k' run) k.
Proof.
  intros Hp Hpc Hrq. eapply wp_mono; [by eapply sched_next_switch|].
  intros [] k' (K & pr & pn & r & HK & Hpr & Hpn & Hr & Hk'). split_and!.
  - eapply step_inv; eauto.
  - split; [|split].
    + eapply step_same; eauto.
    + destruct (step_rest k K k' run fq rq bq F pc pr pn r) as (_ & Hl & _); [done..|]. rewrite Hl. apply HK.
    + eapply step_rest; eauto.
  - eapply step_rest; eauto.
  - eapply step_saved_run; eauto.
Qed.

(** The anchors of no list, the one of [run] apart, are left alone. *)
Lemma sched_next_rr_links k run fq rq bq F pc :
  sched_pre k run fq rq bq F → tasks k !! run = Some pc →
  (rq = [] → runnable pc = false ∧ run ≠ idle_task k) →
  wp sched_next_rr (λ _ k', ∀ a, a ∉ anchors (queues fq rq bq F) → a ≠ node run → lists k' !! a = lists k !! a) k.
Proof.
  intros Hp Hpc Hrq. eapply wp_mono; [by eapply sched_next_switch|].
  intros [] k' (K & pr & pn & r & HK & _ & _ & _ & Hk') a Ha Hna.
  destruct (sw_rest _ _ _ _ _ _ _ Hk') as (_ & -> & _). by apply (rq_out _ _ _ _ _ _ _ _ HK).
Qed.

(** ** What the invariant does not depend on *)

Definition same_sched (p p' : task_struct) : Prop :=
  PID p' = PID p ∧ state p' = state p ∧ kernel_esp0 p' = kernel_esp0 p.

(** [k'] has the scheduling state of [k]. *)
Definition sched_frame k k' : Prop :=
  (∀ t, option_Forall2 same_sched (tasks k !! t) (tasks k' !! t)) ∧
  lists k' = lists k ∧ stacks k' = stacks k ∧ esp k' = esp k ∧ idle_task k' = idle_task k.

Lemma frame_pcb k k' t (P : task_struct → Prop) :
  sched_frame k k' → (∀ p p', same_sched p p' → P p → P p') → pcb_is k t P → pcb_is k' t P.
Proof.
  intros [Ht _] HP (p & Hp & HPp). destruct (Forall2_lookup (Ht t) Hp) as (p' & ? & ?).
  exists p'. eauto.
Qed.

Lemma frame_saved k k' t : sched_frame k k' → saved k t → saved k' t.
Proof.
  intros (Ht & _ & Hs & _). apply saved_ext; [|by rewrite Hs].
  specialize (Ht t). inversion Ht as [p p' (_ & _ & He)|]; cbn; congruence.
Qed.

Lemma sched_pre_frame k k' run fq rq bq F :
  sched_frame k k' → sched_pre k run fq rq bq F → sched_pre k' run fq rq bq F.
Proof.
  intros Hf Hp. pose proof Hf as (_ & Hl & Hs & He & Hi). split.
  - rewrite Hl. apply Hp.
  - rewrite Hl. apply Hp.
  - rewrite Hi. apply Hp.
  - rewrite He. apply Hp.
  - rewrite Hi. destruct (p_idle _ _ _ _ _ _ Hp) as [? Hid]. split; [done|].
    revert Hid. apply frame_pcb; [done|]. intros p p' [-> _]. done.
  - intros t Ht. generalize (p_free _ _ _ _ _ _ Hp t Ht). apply frame_pcb; [done|].
    intros p p' [-> _]. done.
  - intros t Ht. generalize (p_ready _ _ _ _ _ _ Hp t Ht). apply frame_pcb; [done|].
    intros p p' (-> & -> & _). done.
  - intros t Ht. generalize (p_blocked _ _ _ _ _ _ Hp t Ht). apply frame_pcb; [done|].
    intros p p' (-> & -> & _). done.
  - intros t Ht Hne. rewrite Hi in Ht. eapply frame_saved; [done|]. by apply (p_saved _ _ _ _ _ _ Hp).
  - rewrite Hi. destruct (p_run _ _ _ _ _ _ Hp) as [? Hr]. split; [done|].
    destruct Hr as [?|[?|[?|[? Hr]]]]; [tauto..|]. right. right. right. split; [done|].
    revert Hr. apply frame_pcb; [done|]. intros p p' (-> & -> & _). done.
Qed.

Lemma frame_insert k t p p' :
  tasks k !! t = Some p → same_sched p p' → sched_frame k (set_tasks (<[t := p']> (tasks k)) k).
Proof.
  intros Hp Hs. split; [|done]. intros u. cbn. destruct (decide (u = t)) as [->|].
  - rewrite lookup_insert_eq, Hp. by constructor.
  - rewrite lookup_insert_ne by done. destruct (tasks k !! u); constructor. by split_and!.
Qed.

Lemma run_pcb k run fq rq bq F : sched_pre k run fq rq bq F → is_Some (tasks k !! run).
Proof.
  intros Hp. destruct (proj2 (p_run _ _ _ _ _ _ Hp)) as [->|[Hi|[Hi|[_ Hi]]]].
  - destruct (proj2 (p_idle _ _ _ _ _ _ Hp)) as (p & ? & _). eauto.
  - destruct (p_free _ _ _ _ _ _ Hp run Hi) as (p & ? & _). eauto.
  - destruct (p_blocked _ _ _ _ _ _ Hp run Hi) as (p & ? & _). eauto.
  - destruct Hi as (p & ? & _). eauto.
Qed.

(** ** schedule *)

(** When [needs_sched_rr] asks for a switch. *)
Definition wants_switch (p : task_struct) rq : bool :=
  if (PID p =? 0) || (quantum p <? nr_ticks p) then negb (bool_decide (rq = []))
  else bool_decide (state p = ST_BLOCKED).

Lemma needs_sched_spec k run fq rq bq F p (Q : bool → kernel → Prop) :
  sched_pre k run fq rq bq F → tasks k !! run = Some p → is_u32 (quantum p) →
  Q (wants_switch p rq) k → wp needs_sched_rr Q k.
Proof.
  intros Hp Hpc Hq HQ. pose proof (current_run _ _ _ _ _ _ Hp) as Hcur.
  pose proof (ready_empty _ _ _ _ _ _ Hp) as He.
  unfold needs_sched_rr. kstep. kstep. rewrite Hcur. kstep. kstep.
  unfold wants_switch, list_empty_of, get_quantum in *.
  destruct (PID p =? 0); cbn [orb] in *; [by ksteps|].
  ksteps. rewrite u32_s32, u32_small by done. destruct (quantum p <? nr_ticks p); kcbn; [by ksteps|].
  by destruct (bool_decide (state p = ST_BLOCKED)); kcbn; kstep.
Qed.

Lemma wants_switch_pre k run fq rq bq F p :
  sched_pre k run fq rq bq F → tasks k !! run = Some p → wants_switch p rq = true →
  rq = [] → runnable p = false ∧ run ≠ idle_task k.
Proof.
  intros Hp Hpc Hw ->. unfold wants_switch in Hw. unfold runnable.
  destruct (PID p =? 0) eqn:E0; [done|]. destruct (quantum p <? nr_ticks p); [done|]. cbn in Hw.
  rewrite Hw, andb_false_r. split; [done|]. intros ->.
  destruct (proj2 (p_idle _ _ _ _ _ _ Hp)) as (q & Hq & Hz). rewrite Hpc in Hq. injection Hq as <-.
  by rewrite Hz in E0.
Qed.

Lemma schedule_spec k run fq rq bq F pc :
  sched_pre k run fq rq bq F → tasks k !! run = Some pc → is_u32 (quantum pc) →
  let pc' := with_nr_ticks (ticks_since_last_switch k) pc in
  let k1 := set_tasks (<[run := pc']> (tasks k)) k in
  wp schedule (λ _ k',
    if wants_switch pc' rq then
      sched_inv k' (next_of k rq) fq (requeue pc run rq) bq F ∧
      same_but_sched k1 k' ∧ ticks_since_last_switch k' = 0 ∧ saved k' run
    else k' = k1) k.
Proof.
  intros Hp Hpc Hq pc' k1. pose proof (current_run _ _ _ _ _ _ Hp) as Hcur.
  assert (sched_frame k k1) as Hf by (by eapply frame_insert).
  pose proof (sched_pre_frame _ _ _ _ _ _ _ Hf Hp) as Hp1.
  assert (tasks k1 !! run = Some pc') as Hpc1 by apply lookup_insert_eq.
  unfold schedule, update_sched_data_rr. kstep. kstep. kstep. rewrite Hcur. ksteps. fold pc'. fold k1.
  eapply needs_sched_spec; [done..|]. destruct (wants_switch pc' rq) eqn:Ew; [|by kstep].
  exact (sched_next_rr_spec k1 run fq rq bq F pc' Hp1 Hpc1 (wants_switch_pre _ _ _ _ _ _ _ Hp1 Hpc1 Ew)).
Qed.
(** ** The scheduler between two kernel entries *)

Lemma inv_runnable k run fq rq bq F pc :
  sched_inv k run fq rq bq F → tasks k !! run = Some pc →
  runnable pc = negb (bool_decide (run = idle_task k)).
Proof.
  intros (Hp & Hout & _) Hpc. destruct (runnable_kind _ _ _ _ _ _ _ Hp Hpc) as [Hk _].
  destruct (runnable pc).
  - rewrite bool_decide_false; [done|]. by apply Hk.
  - case_bool_decide; [done|]. assert (false = true) by (by apply Hk). done.
Qed.

Lemma inv_rotate k run fq t rq bq F :
  sched_inv k run fq (t :: rq) bq F →
  wp sched_next_rr (λ _ k',
    sched_inv k' t fq (rq ++ if bool_decide (run = idle_task k) then [] else [run]) bq F ∧
    idle_task k' = idle_task k ∧ t ≠ idle_task k) k.
Proof.
  intros Hi. pose proof Hi as (Hp & _). destruct (run_pcb _ _ _ _ _ _ Hp) as [pc Hpc].
  eapply wp_mono; [apply (sched_next_rr_spec k run fq (t :: rq) bq F pc Hp Hpc); discriminate|].
  intros [] k' (Hi' & (_ & _ & Hrest) & _).
  unfold requeue in Hi'. rewrite (inv_runnable _ _ _ _ _ _ _ Hi Hpc) in Hi'.
  split_and!; [by destruct (bool_decide (run = idle_task k))|apply Hrest|].
  intros ->. apply (proj1 (p_idle _ _ _ _ _ _ Hp)). rewrite !elem_of_app. right. left. by left.
Qed.

Lemma inv_rotate_iter ahead : ∀ k run fq t behind bq F,
  sched_inv k run fq (ahead ++ t :: behind) bq F →
  wp (for_up (S (length ahead)) 0 (λ _, sched_next_rr)) (λ _ k',
    sched_inv k' t fq (behind ++ (if bool_decide (run = idle_task k) then [] else [run]) ++ ahead) bq F) k.
Proof.
  generalize 0 at 1. induction ahead as [|a ahead IH]; intros i k run fq t behind bq F Hi.
  - cbn [length for_up]. kstep. eapply wp_mono; [by apply inv_rotate|]. intros [] k' [Hi' _]. kstep.
    by rewrite app_nil_r.
  - cbn [length app for_up] in *. kstep. eapply wp_mono; [by apply inv_rotate|].
    intros [] k' (Hi' & Hid & Hne). rewrite <- app_assoc in Hi'. cbn [app] in Hi'.
    eapply wp_mono; [by apply IH|]. intros [] k'' Hi''.
    rewrite (bool_decide_false (a = idle_task k')), <- app_assoc in Hi'' by (by rewrite Hid). done.
Qed.
End invariant.

(** C1: round robin.  From any state of the scheduler, [sched_next_rr] gives
    the processor to the processes of the ready queue in order: the process
    with [ahead] processes before it runs after [length ahead + 1] switches,
    the processes served meanwhile (and the one that was running, unless it was
    the idle process) are at the back of the queue in the order they ran, the
    registers select the stack and the directory of the new process, and the
    invariant of the queues is kept. *)
Theorem round_robin_fair `{LayoutOk} k run fq ahead t behind bq F :
  sched_inv k run fq (ahead ++ t :: behind) bq F →
  wp (for_up (S (length ahead)) 0 (λ _, sched_next_rr)) (λ _ k',
    current k' = t ∧ cpu_of k' t ∧
    sched_inv k' t fq (behind ++ (if bool_decide (run = idle_task k) then [] else [run]) ++ ahead) bq F) k.
Proof.
  intros Hi. eapply wp_mono; [by apply inv_rotate_iter|]. intros [] k' Hi'.
  pose proof Hi' as (Hp & _ & Hc). split_and!; [by eapply current_run|done|done].
Qed.

Lemma schedule_stable `{LayoutOk} k run fq rq bq F pc :
  sched_inv k run fq rq bq F → tasks k !! run = Some pc → is_u32 (quantum pc) →
  let pc' := with_nr_ticks (ticks_since_last_switch k) pc in
  let k1 := set_tasks (<[run := pc']> (tasks k)) k in
  wp schedule (λ _ k',
    match rq with
    | next :: rest =>
        if bool_decide (run = idle_task k) || (quantum pc <? ticks_since_last_switch k) then
          sched_inv k' next fq (rest ++ if bool_decide (run = idle_task k) then [] else [run]) bq F ∧
          same_but_sched k1 k' ∧ ticks_since_last_switch k' = 0 ∧ saved k' run
        else k' = k1
    | [] => k' = k1
    end) k.
Proof.
  intros Hi Hpc Hq pc' k1. pose proof Hi as (Hp & Hout & _).
  pose proof (inv_runnable _ _ _ _ _ _ _ Hi Hpc) as Hr.
  eapply wp_mono; [by eapply schedule_spec|]. intros [] k' Hk'. fold pc' in Hk'. fold k1 in Hk'.
  assert (Hw : wants_switch pc' rq = negb (bool_decide (rq = [])) &&
    (bool_decide (run = idle_task k) || (quantum pc <? ticks_since_last_switch k))).
  { unfold wants_switch. cbn [PID quantum nr_ticks state with_nr_ticks pc'].
    destruct (runnable_kind _ _ _ _ _ _ _ Hp Hpc) as [_ Hk]. rewrite Hr in Hk.
    case_bool_decide as Hrun; cbn in Hk |- *.
    - subst run. destruct (proj2 (p_idle _ _ _ _ _ _ Hp)) as (p & Hpp & Hz).
      rewrite Hpc in Hpp. injection Hpp as <-. rewrite Hz. by rewrite andb_true_r.
    - destruct (Hk eq_refl) as [HP ->]. destruct (Z.eqb_spec (PID pc) 0); [lia|]. cbn.
      destruct (quantum pc <? ticks_since_last_switch k); [by rewrite andb_true_r|by rewrite andb_false_r]. }
  rewrite Hw in Hk'. unfold next_of, requeue in Hk'.
  destruct rq as [|next rest]; [done|]. cbn in Hk'.
  destruct (bool_decide (run = idle_task k) || (quantum pc <? ticks_since_last_switch k)); [|done].
  change (runnable pc') with (runnable pc) in Hk'. rewrite Hr in Hk'.
  by destruct (bool_decide (run = idle_task k)).
Qed.

(** C10: the policy of [schedule].  The process that runs gets the ticks of its
    turn in its PCB; it is preempted exactly when another process is ready and
    it is the idle process or its ticks exceed its quantum (unsigned
    comparison); then the first ready process runs, with a new turn, and the
    preempted one (but idle) goes to the back of the ready queue with its
    context saved.  Otherwise nothing else changes. *)
Theorem schedule_policy `{LayoutOk} k run fq rq bq F pc :
  sched_inv k run fq rq bq F → tasks k !! run = Some pc → is_u32 (quantum pc) →
  let pc' := with_nr_ticks (ticks_since_last_switch k) pc in
  let k1 := set_tasks (<[run := pc']> (tasks k)) k in
  wp schedule (λ _ k',
    match rq with
    | next :: rest =>
        if bool_decide (run = idle_task k) || (quantum pc <? ticks_since_last_switch k) then
          sched_inv k' next fq (rest ++ if bool_decide (run = idle_task k) then [] else [run]) bq F ∧
          same_but_sched k1 k' ∧ ticks_since_last_switch k' = 0 ∧ saved k' run
        else k' = k1
    | [] => k' = k1
    end) k.
Proof. exact (schedule_stable k run fq rq bq F pc). Qed.

Section resume.
Context `{LayoutOk}.

Lemma switched_cpu k cur pc new pn r k' :
  cur ≠ new → tasks k !! new = Some pn → switched k cur pc new pn r k' → cpu_of k' new.
Proof.
  intros Hne Hpn Hsw. split_and!; [apply Hsw|rewrite (sw_msrs _ _ _ _ _ _ _ Hsw); by rewrite lookup_insert_eq|].
  exists pn. rewrite (sw_tasks _ _ _ _ _ _ _ Hsw), lookup_insert_ne by done. split; [done|apply Hsw].
Qed.

(** The context [task_switch] saves for the process that calls it. *)
Lemma switched_context k cur pc new pn r k' :
  is_task cur → on_stack cur (esp k) → switched k cur pc new pn r k' →
  ∃ p, tasks k' !! cur = Some p ∧ stacks k' !! (kernel_esp0 p + 4) = Some task_switch_ret ∧
    cur ≤ kernel_esp0 p + 4 < cur + 4096 ∧ dir_pages_baseAddr p = dir_pages_baseAddr pc ∧
    resumed_esp (kernel_esp0 p) task_switch_ret = esp k.
Proof.
  intros Hc Hos Hsw. pose proof call_depth_range. pose proof (saved_sp_small _ _ Hc Hos) as Hsp. unfold on_stack in Hos.
  exists (with_kernel_esp0 (esp k - call_depth - 32) pc). cbn. rewrite Hsp.
  rewrite (sw_tasks _ _ _ _ _ _ _ Hsw), lookup_insert_eq, (sw_stacks _ _ _ _ _ _ _ Hsw).
  replace (esp k - call_depth - 32 + 4) with (esp k - call_depth - 28) by lia.
  rewrite lookup_insert_eq. unfold resumed_esp. rewrite Z.eqb_refl. split_and!; (done || lia).
Qed.
End resume.

(** C11: the context switch.  [task_switch new] continues on the stack of [new],
    whose directory and kernel stack the processor then uses; and however the
    machine runs in between, as long as the PCB and the stack of the process
    that called it are left alone, when any other process switches back to it
    execution returns from that very call of [task_switch] with the stack
    pointer it had, on its own directory and kernel stack. *)
Theorem task_switch_resumes `{LayoutOk} k cur pc new :
  is_task cur → is_task new → cur ≠ new → on_stack cur (esp k) → tasks k !! cur = Some pc → saved k new →
  wp (task_switch new) (λ _ k1,
    current k1 = new ∧ cpu_of k1 new ∧
    ∀ k2 other po, is_task other → other ≠ cur → on_stack other (esp k2) → tasks k2 !! other = Some po →
      tasks k2 !! cur = tasks k1 !! cur → (∀ a, cur ≤ a < cur + 4096 → stacks k2 !! a = stacks k1 !! a) →
      wp (task_switch cur) (λ _ k3,
        resume k3 = task_switch_ret ∧ esp k3 = esp k ∧ current k3 = cur ∧ cpu_of k3 cur ∧
        cr3 k3 = dir_pages_baseAddr pc ∧ saved k3 other) k2) k.
Proof.
  intros Hc Hn Hne Hos Hpc Hs.
  destruct (task_switch_spec k cur pc new Hc Hn Hne Hos Hpc Hs) as (pn & r & Hpn & Hr & Hwp).
  eapply wp_mono; [exact Hwp|]. intros [] k1 Hsw.
  destruct Hs as (pn' & r' & Hpn' & Hr' & Hrange & Ho). rewrite Hpn in Hpn'. injection Hpn' as <-.
  rewrite Hr in Hr'. injection Hr' as <-.
  split_and!.
  - apply current_on; [done|]. by rewrite (sw_esp _ _ _ _ _ _ _ Hsw).
  - by eapply switched_cpu.
  - intros k2 other po Hot Hone Hos2 Hpo Hsame Hstk.
    destruct (switched_context _ _ _ _ _ _ _ Hc Hos Hsw) as (p & Hp & Hret & Hpr & Hdir & Hesp).
    assert (tasks k2 !! cur = Some p) as Hp2 by congruence.
    assert (stacks k2 !! (kernel_esp0 p + 4) = Some task_switch_ret) as Hret2 by (by rewrite Hstk).
    destruct (task_switch_spec k2 other po cur Hot Hc Hone Hos2 Hpo) as (p' & r2 & Hp' & Hr2 & Hwp2).
    { exists p, task_switch_ret. rewrite Hesp. done. }
    rewrite Hp2 in Hp'. injection Hp' as <-. rewrite Hret2 in Hr2. injection Hr2 as <-.
    eapply wp_mono; [exact Hwp2|]. intros [] k3 Hsw2.
    assert (esp k3 = esp k) as He by (by rewrite (sw_esp _ _ _ _ _ _ _ Hsw2)).
    destruct (switched_context _ _ _ _ _ _ _ Hot Hos2 Hsw2) as (q & Hq & Hqr & Hqrange & _ & Hqe).
    split_and!; [apply Hsw2|done|apply current_on; [done|by rewrite He]|by eapply switched_cpu| |].
    + rewrite <- Hdir. apply Hsw2.
    + exists q, task_switch_ret. rewrite Hqe. done.
Qed.

(** ** A concrete state

    Process 1 runs, its child 2 is ready and its child 3 blocked. *)

(** The anchors of the list of head [hd] from [a] on, behind [p]. *)
Fixpoint cells (p a : Z) (xs : list Z) (hd : Z) : list (Z * list_head) :=
  match xs with
  | [] => [(a, mk_list_head hd p)]
  | x :: xs => (a, mk_list_head x p) :: cells a x xs hd
  end.

Definition ring_links (L : list (Z * list Z)) : links :=
  list_to_map (L ≫= λ r, cells (List.last r.2 r.1) r.1 r.2 r.1).

Definition example_free : list Z := [0x24000; 0x25000; 0x26000; 0x27000; 0x28000; 0x29000].
Definition example_family : list (Z * list Z) :=
  [(sons 0x21000, [bros 0x22000; bros 0x23000]); (sons 0x22000, []); (sons 0x23000, []); (sons 0x20000, [])].

Definition example_task (pid : Z) (s : state_t) (t : Z) : task_struct :=
  mk_task_struct pid (dir_of (H := example_layout) t) s 0x21000 (stack_slot t 1005) 0 2 0.

Definition example_run : kernel := {|
  tasks := list_to_map ((λ t, (t, example_task (-1) ST_RUN t)) <$> example_free) ∪
    list_to_map [(0x20000, example_task 0 ST_READY 0x20000); (0x21000, example_task 1 ST_RUN 0x21000);
      (0x22000, example_task 2 ST_READY 0x22000); (0x23000, example_task 3 ST_BLOCKED 0x23000)];
  lists := ring_links (queues (H := example_layout) example_free [0x22000] [0x23000] example_family) ∪ blank_links (H := example_layout);
  stacks := list_to_map ((λ t, (stack_slot t 1006, 0x10800)) <$> [0x20000; 0x22000; 0x23000]);
  ptes := ∅; phys_mem := []; shared_pages := []; frames := ∅;
  esp := 0x22000 - 64; cr3 := dir_of (H := example_layout) 0x21000; cr0 := 0x80000001; tss_esp0 := 0x22000;
  msrs := {[0x175 := (0x22000, 0)]}; resume := 0; idle_task := 0x20000; task1_task := 0x21000;
  next_pid := 4; ticks_since_last_switch := 0; zeos_ticks := 0;
  cbuff := Circ.mk_circular_buffer (replicate 32 0) 0 0 0; cons := console_init; desc := image_tables;
|}.

Lemma example_tasks t : is_task (H := example_layout) t ↔ t ∈ [0x20000; 0x21000; 0x22000; 0x23000] ++ example_free.
Proof.
  unfold example_free. cbn [app]. rewrite !elem_of_cons, elem_of_nil. unfold is_task, TASKS_SIZE. cbn [task example_layout]. split.
  - intros [Hr Hm]. Z.div_mod_to_equations. lia.
  - intros Ht. repeat destruct Ht as [->|Ht]; done.
Qed.

(** One case for each element of a literal list. *)
Ltac each_elem H := repeat (apply elem_of_cons in H as [->|H]); [..|by apply not_elem_of_nil in H].

Lemma example_inv : sched_inv (H := example_layout) example_run 0x21000 example_free [0x22000] [0x23000] example_family.
Proof.
  split; [|split; [vm_compute; set_solver|split; [done|split; [done|by eexists]]]]. split.
  - split; [apply (bool_decide_unpack _); by vm_compute|].
    repeat (apply Forall_cons; split); try by apply Forall_nil.
    all: split; [apply (bool_decide_unpack _); by vm_compute|vm_compute; repeat split].
  - intros t Ht%example_tasks. split; revert t Ht; apply Forall_forall, (bool_decide_unpack _); by vm_compute.
  - intros t. rewrite example_tasks. cbn. set_solver.
  - by vm_compute.
  - split; [apply (bool_decide_unpack _); by vm_compute|by eexists].
  - intros t Ht. each_elem Ht; by eexists.
  - intros t Ht. each_elem Ht; by eexists.
  - intros t Ht. each_elem Ht; by eexists.
  - intros t [->|Ht] _; [|each_elem Ht].
    + exists (example_task 0 ST_READY 0x20000), 0x10800. split; [by vm_compute|by vm_compute].
    + exists (example_task 2 ST_READY 0x22000), 0x10800. split; [by vm_compute|by vm_compute].
    + exists (example_task 3 ST_BLOCKED 0x23000), 0x10800. split; [by vm_compute|by vm_compute].
  - split; [apply (bool_decide_unpack _); by vm_compute|]. right. right. right.
    split; [apply (bool_decide_unpack _); by vm_compute|by eexists].
Qed.

Lemma round_robin_fair_witness :
  wp (for_up 1 0 (λ _, sched_next_rr (H := example_layout))) (λ _ k', current k' = 0x22000) example_run.
Proof.
  eapply wp_mono; [exact (round_robin_fair _ _ _ [] _ _ _ _ example_inv)|]. by intros [] k' [? _].
Defined.

Lemma schedule_policy_witness :
  wp (schedule (H := example_layout)) (λ _ k', ticks_since_last_switch k' = 0 ∧
    saved (H := example_layout) k' 0x21000) (set_ticks_since_last_switch 5 example_run).
Proof.
  assert (sched_inv (H := example_layout) (set_ticks_since_last_switch 5 example_run) 0x21000 example_free
    [0x22000] [0x23000] example_family) as Hi.
  { destruct example_inv as (Hp & Ho & Hc). split; [|exact (conj Ho Hc)].
    apply (sched_pre_frame example_run); [|exact Hp]. split; [|done].
    intros t. apply option_Forall2_refl. by intros p. }
  pose proof (schedule_policy (set_ticks_since_last_switch 5 example_run) 0x21000 example_free [0x22000] [0x23000]
    example_family (example_task 1 ST_RUN 0x21000) Hi) as Hw.
  cbv zeta in Hw. eapply wp_mono; [apply Hw; by vm_compute|].
  intros [] k' (_ & _ & Ht & Hs). exact (conj Ht Hs).
Defined.

Lemma task_switch_resumes_witness :
  wp (task_switch (H := example_layout) 0x22000) (λ _ k1, current k1 = 0x22000) example_run.
Proof.
  eapply wp_mono.
  { refine (task_switch_resumes example_run 0x21000 (example_task 1 ST_RUN 0x21000) 0x22000 _ _ _ _ _ _).
    - by apply example_tasks, (bool_decide_unpack _).
    - by apply example_tasks, (bool_decide_unpack _).
    - lia.
    - by vm_compute.
    - reflexivity.
    - exists (example_task 2 ST_READY 0x22000), 0x10800. split; [by vm_compute|by vm_compute]. }
  by intros [] k' [? _].
Defined.
