(* ===== verification/Boot.v ===== *)
(** * The initial processes (init_sched, init_idle, init_task1 of sched.c)

    What [main] makes of the image the boot sector loads: the free queue, the
    idle process and the first user process, and the proof that they satisfy
    the invariant of the scheduler. *)

From S2P Require Import Prelude CInt ListHead Memory Paging Kernel Mm Sched.
Import PTE PageTable.

(** ** The processes the kernel starts with *)

Definition idle0 `{Layout} : Z := task + 4096 * 9.
Definition task1 `{Layout} : Z := task + 4096 * 8.
Definition free0 `{Layout} : list Z := rev (take 8 task_list).

(** The initialisation of the scheduler in [main]. *)
Definition start_sched `{Layout} : MK unit := init_sched ;; init_idle ;; init_task1.

Section boot.
Context `{LayoutOk}.
Implicit Types (k : kernel) (t : Z).

Lemma task_nth i : 0 ≤ i < NR_TASKS → is_task (task + PAGE_SIZE * i).
Proof.
  unfold NR_TASKS, PAGE_SIZE. intros Hi. pose proof task_aligned. unfold is_task, TASKS_SIZE.
  split; [lia|]. Z.div_mod_to_equations; lia.
Qed.

Lemma init_sched_loop (n : nat) i k xs :
  (i + Z.of_nat n = NR_TASKS) → 0 ≤ i →
  (∀ t, is_task t → is_Some (tasks k !! t) ∧ node t ∈ dom (lists k)) →
  (∀ t, t ∈ xs → is_task t ∧ t < task + PAGE_SIZE * i) →
  rings (lists k) [(freequeue, node <$> xs)] →
  wp (for_up n i (λ i,
    let t := task + PAGE_SIZE * i in
    set_pcb t (with_PID (-1)) ;; on_lists (list_add (node t) freequeue))) (λ _ k', ∃ T h,
      k' = set_tasks T (set_lists h k) ∧ dom h = dom (lists k) ∧
      rings h [(freequeue, node <$> rev ((λ j, task + PAGE_SIZE * (i + Z.of_nat j)) <$> seq 0 n) ++ xs)] ∧
      ∀ t, is_task t → T !! t = (if t <? task + PAGE_SIZE * i then id else with_PID (-1)) <$> tasks k !! t) k.
Proof.
  revert i k xs. induction n as [|n IH]; intros i k xs Hn Hi Hk Hxs Hl; cbn [for_up].
  - kstep. exists (tasks k), (lists k). split; [by destruct k|]. split_and!; [done|by cbn|].
    intros t Ht. destruct (Z.ltb_spec t (task + PAGE_SIZE * i)) as [_|Hge]; [by rewrite option_fmap_id|].
    destruct Ht. unfold TASKS_SIZE, NR_TASKS, PAGE_SIZE in *. lia.
  - pose proof (task_nth i ltac:(lia)) as Ht. destruct (Hk _ Ht) as [[p Hp] Hd].
    assert (node (task + PAGE_SIZE * i) ∉ anchors [(freequeue, node <$> xs)]) as Hnot.
    { rewrite anchors_cons. cbn [anchors mbind list_bind]. rewrite app_nil_r, elem_of_cons, node_in.
      intros [E|Hin]; [by apply (node_not_head _ freequeue Ht) in E; [|left]|].
      destruct (Hxs _ Hin). lia. }
    destruct (rings_add _ _ _ _ _ Hl Hd Hnot) as (h1 & Hh1 & [Hd1 _] & Hl1).
    kstep. kstep. kstep. kstep. eapply wp_mono.
    { apply (IH (i + 1) _ (task + PAGE_SIZE * i :: xs)); kcbn; [lia|lia| | |exact Hl1].
      - intros t Ht'. destruct (Hk _ Ht'). rewrite Hd1. split; [|done].
        rewrite lookup_insert. by case_decide.
      - unfold PAGE_SIZE in *. intros t [->|Hin]%elem_of_cons; [split; [done|lia]|].
        destruct (Hxs _ Hin). split; [done|lia]. }
    intros [] k' (T & h & -> & Hdh & Hr & HT). kcbn. exists T, h. split_and!; [done|congruence| |].
    + cbn [seq fmap list_fmap rev]. rewrite <- fmap_S_seq, <- list_fmap_compose.
      replace (rev _) with (rev ((λ j : nat, task + PAGE_SIZE * (i + 1 + Z.of_nat j)) <$> seq 0 n)).
      2: { f_equal. apply list_fmap_ext. intros j x _. cbn. f_equal. lia. }
      rewrite Z.add_0_r, <- app_assoc. exact Hr.
    + intros t Ht'. rewrite HT by done. destruct (decide (t = task + PAGE_SIZE * i)) as [->|Hne].
      * rewrite lookup_insert_eq, Hp. unfold PAGE_SIZE.
        destruct (Z.ltb_spec (task + 0x1000 * i) (task + 0x1000 * (i + 1))); [|lia].
        by destruct (Z.ltb_spec (task + 0x1000 * i) (task + 0x1000 * i)); [lia|].
      * rewrite lookup_insert_ne by done.
        assert ((t <? task + PAGE_SIZE * (i + 1)) = (t <? task + PAGE_SIZE * i)) as ->; [|done].
        destruct Ht' as [? Hm]. pose proof task_aligned. unfold PAGE_SIZE in *.
        destruct (Z.ltb_spec t (task + 0x1000 * (i + 1))), (Z.ltb_spec t (task + 0x1000 * i)); try done; [|lia].
        Z.div_mod_to_equations; lia.
Qed.

Lemma rev_task_list t : t ∈ rev task_list ↔ is_task t.
Proof. by rewrite list_elem_of_In, <- in_rev, <- list_elem_of_In, <- task_list_spec. Qed.

Lemma init_sched_run k :
  (∀ t, is_task t → is_Some (tasks k !! t) ∧ node t ∈ dom (lists k)) →
  (∀ q, q = freequeue ∨ q = readyqueue ∨ q = blocked → q ∈ dom (lists k)) →
  wp init_sched (λ _ k', ∃ T h,
    k' = set_tasks T (set_lists h k) ∧ dom h = dom (lists k) ∧
    rings h (queues (rev task_list) [] [] []) ∧
    ∀ t, is_task t → T !! t = with_PID (-1) <$> tasks k !! t) k.
Proof.
  intros Hk Hq. pose proof queues_apart as (Hfr & Hfb & Hrb).
  destruct (rings_init (lists k) freequeue []) as (h0 & Hh0 & [Hd0 _] & Hl0);
    [by split; constructor|apply Hq; tauto|by apply not_elem_of_nil|].
  unfold init_sched. kstep. kstep. kstep. eapply wp_mono.
  { apply (init_sched_loop 10 0 _ []); kcbn; [done|done| |by intros ? ?%elem_of_nil|exact Hl0].
    intros t Ht. rewrite Hd0. by apply Hk. }
  intros [] k1 (T & h1 & -> & Hd1 & Hl1 & HT). kcbn.
  change (rev ((λ j : nat, task + PAGE_SIZE * (0 + Z.of_nat j)) <$> seq 0 10)) with (rev task_list) in Hl1.
  rewrite app_nil_r in Hl1.
  assert (Hhead : ∀ q, q = readyqueue ∨ q = blocked → q ∉ anchors [(freequeue, node <$> rev task_list)]).
  { intros q Hq'. rewrite anchors_cons. cbn [anchors mbind list_bind]. rewrite app_nil_r, elem_of_cons.
    intros [E|(t & -> & Ht)%list_elem_of_fmap]; [destruct Hq'; congruence|].
    apply rev_task_list in Ht. by apply (node_not_head t (node t) Ht); [tauto|]. }
  destruct (rings_init _ readyqueue _ Hl1) as (h2 & Hh2 & [Hd2 _] & Hl2);
    [rewrite Hd1, Hd0; apply Hq; tauto|apply Hhead; tauto|].
  destruct (rings_init _ blocked _ Hl2) as (h3 & Hh3 & [Hd3 _] & Hl3).
  { rewrite Hd2, Hd1, Hd0. apply Hq. tauto. }
  { rewrite anchors_cons. cbn [app]. apply not_elem_of_cons. split; [done|]. apply Hhead. tauto. }
  kstep. kstep. kstep. exists T, h3. split_and!; [done|congruence| |].
  - rewrite queues_blocked. cbn [fmap list_fmap].
    assert (Hp : [(blocked, []); (freequeue, node <$> rev task_list); (readyqueue, [])] ≡ₚ
      [(blocked, []); (readyqueue, []); (freequeue, node <$> rev task_list)]) by apply Permutation_skip, Permutation_swap.
    by rewrite Hp.
  - intros t Ht. rewrite HT by done. destruct (Z.ltb_spec t (task + PAGE_SIZE * 0)); [|done].
    destruct Ht. unfold PAGE_SIZE in *. lia.
Qed.

(** ** The anchors of a PCB are pairwise different, and none is a queue *)

Lemma anchor_mod t o : is_task t → 0 ≤ o < 4096 → (t + o) mod 4096 = o.
Proof. intros [_ Ht] Ho. Z.div_mod_to_equations; lia. Qed.

Lemma sons_not_node t t' : is_task t → is_task t' → sons t ≠ node t'.
Proof.
  intros Ht Ht' E. assert (28 = 8); [|lia].
  rewrite <- (anchor_mod t 28 Ht), <- (anchor_mod t' 8 Ht') by lia. unfold sons, node in E. by rewrite E.
Qed.

Lemma sons_not_head t q : is_task t → q = freequeue ∨ q = readyqueue ∨ q = blocked → sons t ≠ q.
Proof.
  intros [? ?] Hq. pose proof (queues_out q Hq). unfold sons, TASKS_SIZE in *.
  pose proof task_aligned. Z.div_mod_to_equations; lia.
Qed.

Lemma sons_out t fq rq bq F :
  is_task t → (∀ u, u ∈ fq ++ rq ++ bq → is_task u) → sons t ∉ anchors F →
  sons t ∉ anchors (queues fq rq bq F).
Proof.
  intros Ht Hq HF. unfold queues. rewrite !anchors_cons, !app_comm_cons, !elem_of_app, !elem_of_cons.
  assert (Hn : ∀ l : list Z, (∀ u, u ∈ l → is_task u) → sons t ∉ node <$> l).
  { intros l Hl (u & E & Hu)%list_elem_of_fmap. by apply (sons_not_node t u Ht (Hl u Hu)). }
  pose proof (sons_not_head t freequeue Ht). pose proof (sons_not_head t readyqueue Ht).
  pose proof (sons_not_head t blocked Ht).
  assert (∀ u, u ∈ fq ∨ u ∈ rq ∨ u ∈ bq → is_task u) as Hq' by (intros u Hu; apply Hq; by rewrite !elem_of_app).
  pose proof (Hn fq ltac:(auto)). pose proof (Hn rq ltac:(auto)). pose proof (Hn bq ltac:(auto)). tauto.
Qed.

(** Taking the first PCB of the free queue. *)
Lemma take_free h t fq rq bq F :
  rings h (queues (t :: fq) rq bq F) →
  list_first freequeue h = Some (node t) ∧
  ∃ h', list_del (node t) h = Some h' ∧ dom h' = dom h ∧ rings h' (queues fq rq bq F) ∧
    (∀ a, a ∉ anchors (queues (t :: fq) rq bq F) → h' !! a = h !! a).
Proof.
  intros Hl. split; [exact (rings_first _ _ _ _ Hl)|].
  destruct (rings_del h freequeue [] (node t) _ _ Hl) as (h' & Hdel & [Hd Ho] & Hl' & _).
  exists h'. split_and!; [done..|]. intros a Ha. apply Ho. intros Hin. apply Ha.
  unfold queues. rewrite anchors_cons, app_comm_cons. apply elem_of_app. by left.
Qed.

(** A row of the directories is assigned by the position of the PCB. *)
Lemma dir_address t : is_task t → u32 (dir_pages + 4 * TOTAL_PAGES * (u32 (t - task) / 4096)) = dir_of t.
Proof.
  intros Ht. destruct (dir_bounds t Ht) as ([??] & _). pose proof (task_bounds t Ht).
  rewrite (u32_small (t - task)) by (destruct Ht; unfold TASKS_SIZE in *; wrap_lia).
  unfold dir_of, table_of, pos_of, TOTAL_PAGES in *. apply u32_small. wrap_lia.
Qed.

(** The start of the scheduler leaves paging, the bytes of memory and the
    keyboard buffer alone. *)
Definition same_io k k' : Prop :=
  cr0 k' = cr0 k ∧ frames k' = frames k ∧ cbuff k' = cbuff k ∧ shared_pages k' = shared_pages k ∧ next_pid k' = next_pid k.

Lemma same_io_trans k1 k2 k3 : same_io k1 k2 → same_io k2 k3 → same_io k1 k3.
Proof. unfold same_io. intuition congruence. Qed.

Definition idle_pcb t p : task_struct :=
  with_kernel_esp0 (stack_slot t (KERNEL_STACK_SIZE - 2))
    (with_dir_pages_baseAddr (dir_of t) (with_nr_ticks 0 (with_PID 0 p))).

Lemma init_idle_run k t fq p F :
  rings (lists k) (queues (t :: fq) [] [] F) → (∀ u, u ∈ t :: fq → is_task u) →
  tasks k !! t = Some p → sons t ∈ dom (lists k) → sons t ∉ anchors F →
  wp init_idle (λ _ k', ∃ h,
    tasks k' = <[t := idle_pcb t p]> (tasks k) ∧ lists k' = h ∧
    stacks k' = <[stack_slot t (KERNEL_STACK_SIZE - 1) := cpu_idle]>
                  (<[stack_slot t (KERNEL_STACK_SIZE - 2) := 0]> (stacks k)) ∧
    idle_task k' = t ∧ dom h = dom (lists k) ∧ rings h (queues fq [] [] ((sons t, []) :: F)) ∧
    ptes k' = ptes k ∧ phys_mem k' = phys_mem k ∧ same_io k k' ∧ shared_pages k' = shared_pages k) k.
Proof.
  intros Hl Hq Hp Hd HF. assert (is_task t) as Ht by (apply Hq; by left).
  destruct (take_free _ _ _ _ _ _ Hl) as (Hfirst & h1 & Hh1 & Hd1 & Hl1 & _).
  destruct (rings_init h1 (sons t) _ Hl1) as (h2 & Hh2 & [Hd2 _] & Hl2); [by rewrite Hd1| |].
  { apply sons_out; [done| |done]. intros u. rewrite !app_nil_r. intros Hu. apply Hq. by right. }
  unfold init_idle, list_first_of, allocate_DIR. do 4 kstep. rewrite list_head_node by done. ksteps.
  kstep; [by rewrite lookup_insert_eq|]. ksteps. kstep; [by rewrite lookup_insert_eq|]. ksteps.
  kstep; [by rewrite lookup_insert_eq|]. ksteps. exists h2. kcbn.
  rewrite !insert_insert_eq. rewrite dir_address by done. split_and!; try done; [congruence|].
  assert (Hp' : (sons t, []) :: queues fq [] [] F ≡ₚ queues fq [] [] ((sons t, []) :: F))
    by (unfold queues; solve_Permutation). by rewrite <- Hp'.
Qed.

Definition task1_pcb t p : task_struct :=
  with_quantum INIT_QUANTUM (with_dir_pages_baseAddr (dir_of t) (with_pending_unblocks 0
    (with_state ST_RUN (with_nr_ticks 0 (with_PID 1 p))))).

(** The user pages of the first process: what [set_user_pages_spec] says. *)
Definition user_map t (fs : list Z) (m m' : gmap Z Z) : Prop :=
  (∀ page r, USER_FIRST_PAGE ≤ page < USER_LAST_PAGE → user_frame fs page = Some r →
     m' !! slot (pt_of t) page = Some (user_entry page r)) ∧
  (∀ a, (∀ i, USER_FIRST_PAGE ≤ i < USER_LAST_PAGE → a ≠ slot (pt_of t) i) → m' !! a = m !! a).

Lemma init_task1_run k t fq p F :
  rings (lists k) (queues (t :: fq) [] [] F) → (∀ u, u ∈ t :: fq → is_task u) →
  tasks k !! t = Some p → sons t ∈ dom (lists k) → sons t ∉ anchors F →
  kernel_map (ptes k) → Frames.wf (phys_mem k) →
  wp init_task1 (λ _ k', ∃ h fs,
    tasks k' = <[t := task1_pcb t p]> (tasks k) ∧ lists k' = h ∧ stacks k' = stacks k ∧
    idle_task k' = idle_task k ∧ task1_task k' = t ∧ dom h = dom (lists k) ∧
    rings h (queues fq [] [] ((sons t, []) :: F)) ∧
    Frames.alloc_n 28 (phys_mem k) = Some (fs, phys_mem k') ∧
    user_map t fs (ptes k) (ptes k') ∧ has_space k' t ∧ cpu_of k' t ∧
    ticks_since_last_switch k' = 0 ∧ same_io k k') k.
Proof.
  intros Hl Hq Hp Hd HF Hm Hwf. assert (is_task t) as Ht by (apply Hq; by left).
  destruct (take_free _ _ _ _ _ _ Hl) as (Hfirst & h1 & Hh1 & Hd1 & Hl1 & _).
  destruct (rings_init h1 (sons t) _ Hl1) as (h2 & Hh2 & [Hd2 _] & Hl2); [by rewrite Hd1| |].
  { apply sons_out; [done| |done]. intros u. rewrite !app_nil_r. intros Hu. apply Hq. by right. }
  unfold init_task1, list_first_of, allocate_DIR. do 4 kstep. rewrite list_head_node by done. ksteps.
  do 3 (kstep; [by rewrite lookup_insert_eq|]; ksteps).
  kstep; [by rewrite lookup_insert_eq|]. ksteps. rewrite dir_address by done.
  eapply wp_mono.
  { apply set_user_pages_spec; [done| |done]. eapply has_space_kernel; [done|done|kcbn; by rewrite lookup_insert_eq|done]. }
  intros [] k1 (fs & m' & pm' & Hal & -> & Hs & Hpages & Hout). unfold get_DIR, set_cr3. ksteps.
  kstep; [by rewrite lookup_insert_eq|]. ksteps. kstep; [by rewrite lookup_insert_eq|].
  exists h2, fs. kcbn. rewrite !insert_insert_eq.
  destruct Hs as (Hs1 & Hs2 & Hs3). kcbn.
  split_and!; try done.
  - congruence.
  - assert (Hp' : (sons t, []) :: queues fq [] [] F ≡ₚ queues fq [] [] ((sons t, []) :: F))
      by (unfold queues; solve_Permutation). by rewrite <- Hp'.
  - split; [|by split]. exists (task1_pcb t p). split; [|done]. kcbn. by rewrite lookup_insert_eq.
  - split; [done|]. split; [kcbn; by rewrite lookup_insert_eq|].
    exists (task1_pcb t p). split; [|done]. kcbn. by rewrite lookup_insert_eq.
Qed.

(** ** The state in which the first process starts *)

Lemma task_list_rev : rev task_list = idle0 :: task1 :: free0.
Proof. reflexivity. Qed.

Lemma task_cases t : is_task t ↔ t = idle0 ∨ t = task1 ∨ t ∈ free0.
Proof. by rewrite <- rev_task_list, task_list_rev, !elem_of_cons. Qed.

Lemma free0_ne t : t ∈ free0 → t ≠ idle0 ∧ t ≠ task1.
Proof.
  unfold free0, idle0, task1. rewrite list_elem_of_In, <- in_rev, <- list_elem_of_In. cbn.
  rewrite !elem_of_cons, elem_of_nil. lia.
Qed.

Lemma start_tasks : is_task idle0 ∧ is_task task1 ∧ idle0 ≠ task1.
Proof. rewrite !task_cases. unfold idle0, task1. split_and!; [tauto|tauto|lia]. Qed.

(** The anchors the static data of the kernel holds. *)
Definition anchors_in k : Prop :=
  (∀ t, is_task t → is_Some (tasks k !! t) ∧ node t ∈ dom (lists k) ∧ sons t ∈ dom (lists k)) ∧
  (∀ q, q = freequeue ∨ q = readyqueue ∨ q = blocked → q ∈ dom (lists k)).

Lemma start_sched_run k :
  anchors_in k → kernel_map (ptes k) → Frames.wf (phys_mem k) →
  wp start_sched (λ _ k', ∃ T fs pi p1,
    tasks k' = <[task1 := task1_pcb task1 p1]> (<[idle0 := idle_pcb idle0 pi]> T) ∧
    (∀ t, is_task t → T !! t = with_PID (-1) <$> tasks k !! t) ∧
    rings (lists k') (queues free0 [] [] [(sons task1, []); (sons idle0, [])]) ∧
    dom (lists k') = dom (lists k) ∧ idle_task k' = idle0 ∧ task1_task k' = task1 ∧
    stacks k' !! stack_slot idle0 (KERNEL_STACK_SIZE - 1) = Some cpu_idle ∧
    Frames.alloc_n 28 (phys_mem k) = Some (fs, phys_mem k') ∧ user_map task1 fs (ptes k) (ptes k') ∧
    has_space k' task1 ∧ cpu_of k' task1 ∧ ticks_since_last_switch k' = 0 ∧ same_io k k' ∧
    (∀ t, is_task t → parent <$> tasks k' !! t = parent <$> tasks k !! t)) k.
Proof.
  intros [Hk Hq] Hm Hwf. destruct start_tasks as (Hti & Ht1 & Hne).
  unfold start_sched. kstep. eapply wp_mono.
  { apply init_sched_run; [|done]. intros t Ht. by destruct (Hk t Ht) as (? & ? & ?). }
  intros [] k1 (T & h1 & -> & Hd1 & Hl1 & HT). rewrite task_list_rev in Hl1.
  destruct (Hk _ Hti) as ([pi Hpi] & _ & Hsi). destruct (Hk _ Ht1) as ([p1 Hp1] & _ & Hs1).
  kstep. eapply wp_mono.
  { apply (init_idle_run _ idle0 (task1 :: free0) (with_PID (-1) pi) []); kcbn; [done| | | |].
    - intros u. rewrite task_cases, !elem_of_cons. tauto.
    - by rewrite HT, Hpi.
    - by rewrite Hd1.
    - apply not_elem_of_nil. }
  intros [] k2 (h2 & Htk2 & Hls2 & Hst2 & Hid2 & Hd2 & Hl2 & Hpt2 & Hpm2 & Hc2 & _). kcbn.
  eapply wp_mono.
  { apply (init_task1_run _ task1 free0 (with_PID (-1) p1) [(sons idle0, [])]).
    - by rewrite Hls2.
    - intros u. rewrite task_cases, !elem_of_cons. tauto.
    - by rewrite Htk2, lookup_insert_ne, HT, Hp1.
    - by rewrite Hls2, Hd2, Hd1.
    - rewrite anchors_cons. cbn. rewrite list_elem_of_singleton. unfold sons. lia.
    - by rewrite Hpt2.
    - by rewrite Hpm2. }
  intros [] k3 (h3 & fs & Htk3 & Hls3 & Hst3 & Hid3 & Ht3 & Hd3 & Hl3 & Hal & Hum & Hsp & Hcpu & Htick & Hc3).
  exists T, fs, (with_PID (-1) pi), (with_PID (-1) p1). rewrite Hpm2, Hpt2 in *.
  split; [congruence|]. split; [exact HT|]. split; [by rewrite Hls3|].
  do 3 (split; [congruence|]). split; [rewrite Hst3, Hst2; by rewrite lookup_insert_eq|].
  do 5 (split; [done|]). split; [by eapply same_io_trans|]. intros t Ht. rewrite Htk3, Htk2, !lookup_insert.
  repeat case_decide; subst; [by rewrite Hp1|by rewrite Hpi|]. rewrite HT by done. by destruct (tasks k !! t).
Qed.

(** The list of children of the first processes. *)
Definition boot_family : list (Z * list Z) := [(sons task1, []); (sons idle0, [])].

Lemma boot_family_nodes t : is_task t → node t ∉ anchors boot_family.
Proof.
  intros Ht. destruct start_tasks as (Hi & H1 & _). unfold boot_family. rewrite !anchors_cons. cbn.
  rewrite !elem_of_cons, elem_of_nil.
  pose proof (sons_not_node task1 t H1 Ht). pose proof (sons_not_node idle0 t Hi Ht). intuition congruence.
Qed.

(** What [start_sched_run] says is the invariant, once the processor enters
    the kernel from the first process. *)
Lemma start_inv k k' T pi p1 :
  anchors_in k → dom (lists k') = dom (lists k) →
  tasks k' = <[task1 := task1_pcb task1 p1]> (<[idle0 := idle_pcb idle0 pi]> T) →
  (∀ t, is_task t → T !! t = with_PID (-1) <$> tasks k !! t) →
  rings (lists k') (queues free0 [] [] boot_family) → idle_task k' = idle0 →
  stacks k' !! stack_slot idle0 (KERNEL_STACK_SIZE - 1) = Some cpu_idle → cpu_of k' task1 →
  sched_inv (set_esp (tss_esp0 k') k') task1 free0 [] [] boot_family.
Proof.
  intros [Hk _] Hd Htk HT Hl Hid Hst Hcpu. destruct start_tasks as (Hti & Ht1 & Hne).
  assert (Hidle : tasks k' !! idle0 = Some (idle_pcb idle0 pi)).
  { rewrite Htk, lookup_insert_ne by done. by rewrite lookup_insert_eq. }
  assert (Htask1 : tasks k' !! task1 = Some (task1_pcb task1 p1)) by (by rewrite Htk, lookup_insert_eq).
  assert (Hout : idle0 ∉ free0 ∧ task1 ∉ free0) by (split; intros Hin; by apply free0_ne in Hin as [??]).
  split; [split; kcbn; rewrite ?Hid, ?app_nil_r|split].
  - exact Hl.
  - intros t Ht. rewrite Hd. split; [by apply Hk|by apply boot_family_nodes].
  - apply task_cases.
  - rewrite (proj1 Hcpu). unfold on_stack, stack_top, stack_slot, KERNEL_STACK_SIZE. lia.
  - split; [tauto|]. exists (idle_pcb idle0 pi). done.
  - intros t Ht. destruct (free0_ne t Ht). assert (is_task t) as Htt by (apply task_cases; tauto).
    destruct (Hk t Htt) as ([p Hp] & _). exists (with_PID (-1) p). split; [|done].
    kcbn. rewrite Htk, !lookup_insert_ne, HT by done. by rewrite Hp.
  - by intros t ?%elem_of_nil.
  - by intros t ?%elem_of_nil.
  - intros t [->|?%elem_of_nil] _; [|done]. exists (idle_pcb idle0 pi), cpu_idle. kcbn.
    pose proof code_apart as (Hc & _). cbn [kernel_esp0 idle_pcb with_kernel_esp0].
    rewrite stack_slot_small by (exact Hti || (unfold KERNEL_STACK_SIZE; lia)). unfold stack_slot, KERNEL_STACK_SIZE in *.
    split; [done|]. replace (idle0 + 4 * (1024 - 2) + 4) with (idle0 + 4 * (1024 - 1)) by lia.
    split; [done|]. split; [lia|]. unfold resumed_esp, on_stack.
    destruct (Z.eqb_spec cpu_idle task_switch_ret); [congruence|lia].
  - split; [apply not_elem_of_nil|]. right. right. right. split; [tauto|].
    exists (task1_pcb task1 p1). done.
  - rewrite app_nil_r. tauto.
  - destruct Hcpu as (? & ? & p & ? & ?). split_and!; [done|done|]. by exists p.
Qed.
End boot.
