(* ===== verification/Interrupt.v ===== *)
(** * Interrupt service routines (interrupt.c)

    The clock, the keyboard and the page fault, and the set-up of the IDT.  The
    entry points of entry.S save the registers on the kernel stack of the
    process that is interrupted, and call these routines. *)

From Stdlib Require Import String Ascii.
From S2P Require Import Prelude CInt ListHead Circular Memory Console LibC Paging Hardware Descriptors Kernel Mm Sched.
Import PTE PageTable.

(** The table of the keyboard, by scan code: the accented characters are the
    last byte of their encoding in the source. *)
Definition char_map : list Z :=
  [0; 0; 49; 50; 51; 52; 53; 54; 55; 56; 57; 48; 39; -95; 0; 0;
   113; 119; 101; 114; 116; 121; 117; 105; 111; 112; 96; 43; 0; 0; 97; 115;
   100; 102; 103; 104; 106; 107; 108; -79; 0; -70; 0; -89; 122; 120; 99; 118;
   98; 110; 109; 44; 46; 45; 0; 42; 0; 0; 0; 0; 0; 0; 0; 0;
   0; 0; 0; 0; 0; 0; 0; 55; 56; 57; 45; 52; 53; 54; 43; 49;
   50; 51; 48; 0; 0; 0; 60; 0; 0; 0; 0; 0; 0; 0; 0; 0; 0; 0].

Section interrupts.
Context `{Layout}.

Definition set_sysenter_msrs : MK unit :=
  set_msr 0x174 KERNEL_CS 0 ;;
  set_msr 0x175 (stack_top (task + PAGE_SIZE * 1)) 0 ;;
  set_msr 0x176 sys_call_handler_sysenter 0.

(** [set_handlers], of libzeos.a, fills the gates of the exceptions. *)
Definition setIdt (idt_addr : Z) (set_handlers : M tables unit) : MK unit :=
  zoom desc set_desc (
    set_handlers ;;
    setInterruptHandler 32 clk_handler 0 ;;
    setInterruptHandler 33 kbd_handler 0) ;;
  set_sysenter_msrs ;;
  zoom desc set_desc (on_processor (set_idt_reg (mk_Register (u16 (IDT_ENTRIES * 8 - 1)) idt_addr))).

Definition initCircBuff : MK unit := modify (λ k, set_cbuff (Circ.init (cbuff k)) k).

(** The processor loads [esp0] of the TSS when the interrupt comes from user
    mode; the idle process is interrupted in kernel mode, on its own stack. *)
Definition kernel_entry_stack : MK unit :=
  c ← gets current;
  i ← gets idle_task;
  if c =? i then mret tt else modify (λ k, set_esp (tss_esp0 k) k).

Definition clk_routine : MK unit :=
  modify (λ k, set_zeos_ticks (s32 (zeos_ticks k + 1)) k) ;;
  modify (λ k, set_ticks_since_last_switch (u32 (ticks_since_last_switch k + 1)) k) ;;
  schedule.

(** [key] is the byte read from port 0x60. *)
Definition kbd_routine (key : Z) : MK unit :=
  let is_break := u8 ⟦ negb (Z.land key 0x80 =? 0) ⟧ in
  let scan_code := u8 (Z.shiftr (Z.shiftl key 1) 1) in
  if is_break =? 0 then
    character ← ask (λ _, znth char_map scan_code);
    _ ← zoom cbuff set_cbuff (Circ.put character);
    mret tt
  else mret tt.

(** The message of a fatal page fault: [strcat] appends the address in place,
    over the bytes [after] that follow the literal in memory. *)
Definition pgf_message : list Z := nl ++ chars "PAGE FAULT generated at %eip = 0x".

Definition pgf_error (faulty_instruction : Z) (buff after : list Z) : MK unit :=
  buff ← ask (λ _, itohexa (s32 faulty_instruction) buff);
  mesg ← ask (λ _, strcat buff (cstr pgf_message ++ after));
  zoom cons set_cons (lift (printk mesg)).

(** [cr2] is the faulty address.  The result is [true] when the routine returns
    to the faulty instruction, [false] when it prints the error and spins. *)
Definition pgf_routine (cr2 faulty_instruction : Z) (buff after : list Z) : MK bool :=
  let faulty_page := Z.shiftr (s32 cr2) 12 in
  c ← gets current;
  pt ← get_PT c;
  cow ← ask (λ k, is_cow_page pt faulty_page (ptes k));
  if (cow : bool) then
    f ← ask (λ k, PageTable.get_frame pt faulty_page (ptes k));
    refs ← ask (λ k, znth (phys_mem k) f);
    if refs =? 1 then
      on_ptes (update_pte pt faulty_page (set_rw 1)) ;;
      c ← gets current; d ← get_DIR c; set_cr3 d ;;
      mret true
    else
      c ← gets current;
      free_pt_page ← get_user_free_page c;
      if free_pt_page <? 0 then pgf_error faulty_instruction buff after ;; mret false
      else
        new_ph_pag ← on_frames Frames.alloc_frame;
        if new_ph_pag <? 0 then pgf_error faulty_instruction buff after ;; mret false
        else
          on_ptes (set_ss_pag pt free_pt_page new_ph_pag) ;;
          c ← gets current; d ← get_DIR c; set_cr3 d ;;
          lift (copy_data (u32 (Z.shiftl faulty_page 12)) (u32 (Z.shiftl free_pt_page 12)) PAGE_SIZE) ;;
          f ← ask (λ k, PageTable.get_frame pt faulty_page (ptes k));
          on_frames (lift (Frames.decr f)) ;;
          on_ptes (set_ss_pag pt faulty_page new_ph_pag) ;;
          on_ptes (del_ss_pag pt free_pt_page) ;;
          c ← gets current; d ← get_DIR c; set_cr3 d ;;
          mret true
  else pgf_error faulty_instruction buff after ;; mret false.

End interrupts.

(** ** The clock *)

(** A clock interrupt, from its entry. *)
Definition clock_interrupt `{Layout} : MK unit := kernel_entry_stack ;; clk_routine.

Section clock.
Context `{LayoutOk}.
Implicit Types (k : kernel) (run : Z) (fq rq bq : list Z) (F : list (Z * list Z)).

(** A state that differs from [k] in nothing the invariant reads. *)
Lemma sched_inv_frame k k' run fq rq bq F :
  sched_frame k k' → tasks k' = tasks k → tss_esp0 k' = tss_esp0 k → msrs k' = msrs k → cr3 k' = cr3 k →
  sched_inv k run fq rq bq F → sched_inv k' run fq rq bq F.
Proof.
  intros Hf Ht He Hm Hc (Hp & Hout & H1 & H2 & p & Hpp & H3). split; [by eapply sched_pre_frame|].
  split; [done|]. split; [by rewrite He|]. split; [by rewrite Hm|]. exists p. rewrite Ht, Hc. done.
Qed.

Lemma frame_fields k k' :
  tasks k' = tasks k → lists k' = lists k → stacks k' = stacks k → esp k' = esp k →
  idle_task k' = idle_task k → sched_frame k k'.
Proof.
  intros Ht Hl Hs He Hi. split; [|done]. intros t. rewrite Ht. destruct (tasks k !! t); constructor. done.
Qed.

(** The entry loads the top of the kernel stack of the process. *)
Lemma entry_inv k run fq rq bq F :
  sched_inv k run fq rq bq F →
  wp kernel_entry_stack (λ _ k', sched_inv k' run fq rq bq F ∧ tasks k' = tasks k ∧
    ticks_since_last_switch k' = ticks_since_last_switch k ∧ idle_task k' = idle_task k ∧
    zeos_ticks k' = zeos_ticks k) k.
Proof.
  intros Hi. pose proof Hi as (Hp & Hout & Ht & Hm & Hc). unfold kernel_entry_stack. do 4 kstep.
  destruct (current k =? idle_task k); kstep; [by split|]. split; [|done].
  split; [|by split]. destruct Hp. split; try done. kcbn. rewrite Ht.
  unfold on_stack, stack_top, stack_slot, KERNEL_STACK_SIZE. lia.
Qed.

(** One clock interrupt. *)
Lemma clock_step k run fq rq bq F pc :
  sched_inv k run fq rq bq F → tasks k !! run = Some pc → is_u32 (quantum pc) →
  let ticks := u32 (ticks_since_last_switch k + 1) in
  let preempt := bool_decide (run = idle_task k) || (quantum pc <? ticks) in
  wp clock_interrupt (λ _ k', zeos_ticks k' = s32 (zeos_ticks k + 1) ∧
    match rq with
    | next :: rest =>
        if preempt then
          sched_inv k' next fq (rest ++ if bool_decide (run = idle_task k) then [] else [run]) bq F ∧
          ticks_since_last_switch k' = 0 ∧ idle_task k' = idle_task k
        else sched_inv k' run fq rq bq F ∧ ticks_since_last_switch k' = ticks ∧ idle_task k' = idle_task k ∧
             tasks k' = <[run := with_nr_ticks ticks pc]> (tasks k)
    | [] => sched_inv k' run fq rq bq F ∧ ticks_since_last_switch k' = ticks ∧ idle_task k' = idle_task k ∧
            tasks k' = <[run := with_nr_ticks ticks pc]> (tasks k)
    end) k.
Proof.
  intros Hi Hpc Hq ticks preempt. unfold clock_interrupt. kstep. eapply wp_mono; [by apply entry_inv|].
  intros [] k1 (Hi1 & Ht1 & Hticks & Hid & Hz). unfold clk_routine. do 4 kstep.
  set (k2 := set_ticks_since_last_switch _ _).
  assert (sched_inv k2 run fq rq bq F) as Hi2.
  { apply (sched_inv_frame k1); [by apply frame_fields|done|done|done|done|exact Hi1]. }
  assert (tasks k2 !! run = Some pc) as Hpc2 by (subst k2; kcbn; by rewrite Ht1).
  assert (ticks_since_last_switch k2 = ticks) as Hticks2 by (subst k2 ticks; kcbn; by rewrite Hticks).
  assert (idle_task k2 = idle_task k) as Hid2 by (subst k2; kcbn; exact Hid).
  assert (zeos_ticks k2 = s32 (zeos_ticks k + 1)) as Hz2 by (subst k2; kcbn; by rewrite Hz).
  assert (tasks k2 = tasks k) as Ht2 by (subst k2; kcbn; exact Ht1).
  clearbody k2. eapply wp_mono; [by eapply schedule_stable|]. intros [] k' Hk'. cbv zeta in Hk'.
  rewrite Hticks2, Hid2, Ht2 in Hk'.
  assert (Hsame : ∀ k', k' = set_tasks (<[run := with_nr_ticks ticks pc]> (tasks k)) k2 →
    zeos_ticks k' = s32 (zeos_ticks k + 1) ∧ sched_inv k' run fq rq bq F ∧
    ticks_since_last_switch k' = ticks ∧ idle_task k' = idle_task k ∧
    tasks k' = <[run := with_nr_ticks ticks pc]> (tasks k)).
  { intros k'' ->. kcbn. split; [done|]. split; [|done].
    pose proof Hi2 as (Hp2 & Hout & H1 & H2 & p & Hpp & H3). rewrite Hpc2 in Hpp. injection Hpp as <-.
    split; [|split; [done|]].
    - eapply sched_pre_frame; [|exact Hp2]. rewrite <- Ht2. by eapply frame_insert.
    - split_and!; [done|done|]. eexists. split; [kcbn; by rewrite lookup_insert_eq|]. done. }
  destruct rq as [|next rest]; [by apply Hsame|]. fold preempt in Hk'.
  destruct preempt; [|by apply Hsame].
  destruct Hk' as (Hinv & (_ & _ & Hrest) & Htk & _).
  destruct Hrest as (_ & _ & _ & _ & _ & Hi' & _ & _ & Hz' & _). kcbn.
  split; [by rewrite Hz'|]. split; [done|]. split; [done|]. by rewrite Hi'.
Qed.

Lemma clock_turn (n : nat) i k run fq rq bq F pc :
  sched_inv k run fq rq bq F → run ≠ idle_task k → tasks k !! run = Some pc → is_u32 (quantum pc) →
  ticks_since_last_switch k + Z.of_nat n ≤ quantum pc → 0 ≤ ticks_since_last_switch k →
  wp (for_up n i (λ _, clock_interrupt)) (λ _ k',
    sched_inv k' run fq rq bq F ∧ ticks_since_last_switch k' = ticks_since_last_switch k + Z.of_nat n ∧
    idle_task k' = idle_task k ∧ pcb_is k' run (λ p, quantum p = quantum pc)) k.
Proof.
  revert i k pc. induction n as [|n IH]; intros i k pc Hi Hne Hpc Hq Hn Hz; cbn [for_up].
  - kstep. split; [done|]. split; [lia|]. split; [done|]. by exists pc.
  - kstep. eapply wp_mono; [by apply (clock_step _ _ _ _ _ _ _ Hi Hpc Hq)|].
    intros [] k1 [_ Hk1].
    assert (u32 (ticks_since_last_switch k + 1) = ticks_since_last_switch k + 1) as Ht
      by (apply u32_small; unfold is_u32 in *; lia).
    rewrite Ht in Hk1. rewrite bool_decide_false in Hk1 by done. cbn [orb] in Hk1.
    assert (quantum pc <? ticks_since_last_switch k + 1 = false) as Hlt by (apply Z.ltb_ge; lia).
    rewrite Hlt in Hk1.
    assert (sched_inv k1 run fq rq bq F ∧ ticks_since_last_switch k1 = ticks_since_last_switch k + 1 ∧
      idle_task k1 = idle_task k ∧
      tasks k1 = <[run := with_nr_ticks (ticks_since_last_switch k + 1) pc]> (tasks k)) as (Hi1 & Ht1 & Hid1 & Htk1)
      by (by destruct rq).
    eapply wp_mono.
    { apply (IH _ _ (with_nr_ticks (ticks_since_last_switch k + 1) pc) Hi1).
      - by rewrite Hid1.
      - by rewrite Htk1, lookup_insert_eq.
      - done.
      - rewrite Ht1. cbn. lia.
      - lia. }
    intros [] k' (Hi' & Ht' & Hid' & Hp'). split; [done|]. split; [lia|]. split; [congruence|done].
Qed.
End clock.

(** C12: the quantum.  A user process that has just got the processor keeps it
    for the clock interrupts its quantum counts, whatever the ready queue, and
    at the next one, if a process is ready, the first ready process runs with a
    new turn and the preempted one is the last of the ready queue; the
    invariant holds all along. *)
Theorem quantum_respected `{LayoutOk} k run fq next rest bq F pc (n : nat) :
  sched_inv k run fq (next :: rest) bq F → run ≠ idle_task k → tasks k !! run = Some pc →
  is_u32 (quantum pc + 1) → 0 ≤ quantum pc → ticks_since_last_switch k = 0 →
  (Z.of_nat n ≤ quantum pc →
   wp (for_up n 0 (λ _, clock_interrupt)) (λ _ k',
     current k' = run ∧ sched_inv k' run fq (next :: rest) bq F) k) ∧
  (Z.of_nat n = quantum pc →
   wp (for_up n 0 (λ _, clock_interrupt) ;; clock_interrupt) (λ _ k',
     current k' = next ∧ sched_inv k' next fq (rest ++ [run]) bq F ∧ ticks_since_last_switch k' = 0) k).
Proof.
  intros Hi Hne Hpc Hq Hq0 Ht.
  assert (is_u32 (quantum pc)) as Hqu by (unfold is_u32 in *; lia).
  split; intros Hn.
  - eapply wp_mono; [apply (clock_turn n 0 _ _ _ _ _ _ _ Hi Hne Hpc Hqu); lia|].
    intros [] k' (Hi' & _). split; [|done]. eapply current_run, Hi'.
  - kstep. eapply wp_mono; [apply (clock_turn n 0 _ _ _ _ _ _ _ Hi Hne Hpc Hqu); lia|].
    intros [] k1 (Hi1 & Ht1 & Hid1 & (p1 & Hp1 & Hq1)).
    eapply wp_mono; [apply (clock_step _ _ _ _ _ _ _ Hi1 Hp1); by rewrite Hq1|].
    intros [] k' [_ Hk']. cbv zeta in Hk'. rewrite Hid1, bool_decide_false, Ht1, Ht, Hq1 in Hk' by done.
    assert (u32 (0 + Z.of_nat n + 1) = quantum pc + 1) as Hu by (rewrite Hn, Z.add_0_l; by apply u32_small).
    rewrite Hu in Hk'. cbn [orb] in Hk'. destruct (Z.ltb_spec (quantum pc) (quantum pc + 1)); [|lia].
    destruct Hk' as (Hi' & Ht' & _). split; [|done]. eapply current_run, Hi'.
Qed.

Lemma quantum_respected_witness :
  wp (for_up 2 0 (λ _, clock_interrupt (H := example_layout)) ;; clock_interrupt (H := example_layout))
    (λ _ k', current k' = 0x22000) example_run.
Proof.
  destruct (quantum_respected example_run 0x21000 example_free 0x22000 [] [0x23000] example_family
    (example_task 1 ST_RUN 0x21000) 2 example_inv) as [_ Hw]; [done|reflexivity|by vm_compute|done|done|].
  eapply wp_mono; [exact (Hw eq_refl)|]. by intros [] k' [? _].
Defined.

(** ** The keyboard *)

Lemma break_bit key : is_u8 key → (Z.land key 0x80 =? 0) = (key <? 0x80).
Proof.
  unfold is_u8. change (2 ^ 8) with 256. intros Hk.
  assert (forallb (λ n, Bool.eqb (Z.land (Z.of_nat n) 0x80 =? 0) (Z.of_nat n <? 0x80)) (seq 0 256) = true) as Hall
    by (vm_compute; reflexivity).
  rewrite forallb_forall in Hall. specialize (Hall (Z.to_nat key)).
  rewrite Z2Nat.id in Hall by lia. apply Bool.eqb_prop, Hall. apply in_seq. lia.
Qed.

Lemma kbd_routine_run (key : Z) (k : kernel) :
  is_u8 key → Circ.wf (cbuff k) →
  if 0x80 <=? key then kbd_routine key k = Some (tt, k)
  else if key <? 98 then
    wp (kbd_routine key) (λ _ k', ∃ c, znth char_map key = Some c ∧
      Circ.wf (cbuff k') ∧ k' = set_cbuff (cbuff k') k ∧
      Circ.contents (cbuff k') =
        if (length (Circ.contents (cbuff k)) <? 31)%nat then Circ.contents (cbuff k) ++ [c]
        else Circ.contents (cbuff k)) k
  else kbd_routine key k = None.
Proof.
  intros Hk Hwf. pose proof (break_bit key Hk) as Hb. unfold kbd_routine. rewrite Hb.
  assert (u8 (Z.shiftr (Z.shiftl key 1) 1) = key) as ->.
  { rewrite Z.shiftr_shiftl_l by lia. change (1 - 1) with 0. rewrite Z.shiftl_0_r. by apply u8_small. }
  destruct (Z.leb_spec 0x80 key), (Z.ltb_spec key 0x80); try lia; cbn [negb b2z].
  - done.
  - change (u8 0 =? 0) with true. cbv iota. destruct (Z.ltb_spec key 98) as [Hlt|Hge].
    + destruct (znth_in_range char_map key) as [c Hc]; [unfold is_u8 in Hk; cbn; lia|].
      kstep. eapply wp_ask; [exact Hc|]. kstep. apply wp_zoom.
      destruct (Nat.ltb_spec (length (Circ.contents (cbuff k))) 31) as [Hroom|Hfull].
      * destruct (Circ.put_room _ c Hwf Hroom) as (b' & Hput & Hwf' & Hcont & _).
        unfold wp at 1. rewrite Hput. kstep. exists c. done.
      * pose proof (Circ.contents_lt (cbuff k)). unfold wp at 1. rewrite Circ.put_full by (done || lia).
        kstep. exists c. done.
    + unfold mbind, M_bind, ask. destruct (znth char_map key) as [c|] eqn:E; [|done].
      apply znth_Some_range in E. cbn in E. lia.
Qed.
