(* ===== verification/System.v ===== *)
(** * The start of the system (system.c)

    [main], from the image the boot sector loads to the jump to user mode. *)

From Stdlib Require Import Ascii String.
From S2P Require Import Prelude CInt ListHead Circular Memory Console LibC Paging Hardware Descriptors Kernel Mm Space Words Sched Boot Interrupt.
Import PTE PageTable.

Definition KERNEL_START : Z := 0x10000.

Section main.
Context `{Layout}.

(** [int ( *usr_main)(void) = (void * )(PAG_LOG_INIT_CODE * PAGE_SIZE)] *)
Definition usr_main : Z := PAG_LOG_INIT_CODE * PAGE_SIZE.

(** [unsigned int *p_sys_size = (unsigned int * )KERNEL_START] and [*p_usr_size], the word after it *)
Definition p_sys_size : Z := KERNEL_START.
Definition p_usr_size : Z := KERNEL_START + 1 * 4.

(** [unsigned int *p_rdtr = (unsigned int * )KERNEL_START + 2] *)
Definition p_rdtr : Z := KERNEL_START + 2 * 4.

Definition on_hardware {A} (m : M processor A) : MK A := zoom desc set_desc (on_processor m).

(** The selectors, and the stack [main] runs on. *)
Definition set_seg_regs (data_sel stack_sel esp : Z) : MK unit :=
  on_hardware (load_selectors data_sel stack_sel) ;; modify (set_esp (u32 (esp - 5 * 4))).

Definition print (s : string) : MK unit := zoom cons set_cons (lift (printk (cstr (chars s)))).

(** [setTSS] of mm.c, with the field [esp0] kept in the state of the kernel. *)
Definition set_TSS : MK unit :=
  modify (set_tss_esp0 (stack_top (task + PAGE_SIZE * 1))) ;;
  zoom desc set_desc setTSS.

(** The word that [p_rdtr] points to is left at the top of the user stack; the
    four words that are pushed are what [lret] pops. *)
Definition return_gate (ds ss esp cs eip : Z) : MK unit :=
  rdtr ← ask (λ k, load32 k p_rdtr);
  on_hardware (modify (λ p, set_selectors ds (fs_gs p) (ss_reg p) (cs_reg p) p)) ;;
  lift (store32 (u32 (esp + 12)) rdtr) ;;
  on_hardware (modify (λ p, set_selectors (ds_es p) (fs_gs p) ss cs p)) ;;
  modify (set_esp esp) ;;
  modify (set_resume eip).

(** [idt_addr] is the address of the IDT; [set_handlers] comes from libzeos.a.
    [start_sched] is the three calls of the scheduler. *)
Definition main (idt_addr : Z) (set_handlers : M tables unit) : MK unit :=
  on_hardware set_eflags ;;
  set_seg_regs KERNEL_DS KERNEL_DS (task + PAGE_SIZE * 4) ;;
  print "Kernel Loaded!    " ;;
  zoom desc set_desc (setGdt tss_addr) ;;
  setIdt idt_addr set_handlers ;;
  set_TSS ;;
  initCircBuff ;;
  init_mm ;;
  start_sched ;;
  sys_size ← ask (λ k, load32 k p_sys_size);
  usr_size ← ask (λ k, load32 k p_usr_size);
  lift (copy_data (u32 (KERNEL_START + sys_size)) L_USER_START usr_size) ;;
  print "Entering user mode..." ;;
  on_hardware enable_int ;;
  return_gate USER_DS USER_DS USER_ESP USER_CS usr_main.

End main.

(** ** The state in which the first process starts *)

(** What [main] relies on of [set_handlers]: it fills gates of the IDT. *)
Definition fills_gates (set_handlers : M tables unit) : Prop :=
  ∀ d, Datatypes.length (idt d) = 256%nat →
    ∃ i, set_handlers d = Some (tt, set_idt i d) ∧ Datatypes.length i = 256%nat.

(** The image loaded by the boot sector: the bytes of physical memory are [fr]. *)
Definition loaded_image `{Layout} (fr : gmap Z Z) : kernel := set_frames fr boot_image.

(** The frames of the user pages of the first process. *)
Definition boot_frames : list Z := (λ n, 276 + 2 * Z.of_nat n) <$> seq 0 28.
Definition boot_ufr (p : Z) : Z := default 0 (user_frame boot_frames p).

Section boot.
Context `{LayoutOk}.

Lemma printk_text s c : Forall (λ x, x ≠ 0) s → ∃ c', printk (cstr s) c = Some c'.
Proof.
  intros Hs. revert c. induction Hs as [|x s Hx Hs IH]; intros c; [by exists c|].
  cbn [cstr app printk]. destruct (Z.eqb_spec x 0); [done|]. apply IH.
Qed.

Lemma wp_print s (Q : unit → kernel → Prop) k :
  Forall (λ x, x ≠ 0) (chars s) → (∀ c, Q tt (set_cons c k)) → wp (print s) Q k.
Proof.
  intros Hs HQ. destruct (printk_text (chars s) (cons k) Hs) as [c Hc].
  apply wp_zoom. eapply wp_lift; [exact Hc|]. apply HQ.
Qed.

Lemma wp_gate v h pl d (Q : unit → tables → Prop) :
  0 ≤ v < Z.of_nat (Datatypes.length (idt d)) →
  (∀ i, Datatypes.length i = Datatypes.length (idt d) → Q tt (set_idt i d)) →
  wp (setInterruptHandler v h pl) Q d.
Proof.
  intros Hv HQ. unfold setInterruptHandler. eapply wp_lift; [by rewrite zset_Some|].
  apply HQ. by rewrite length_insert.
Qed.

(** The set-up of the IDT touches the tables and the registers only. *)
Lemma wp_setIdt idt_addr sh k (Q : unit → kernel → Prop) :
  fills_gates sh → Datatypes.length (idt (desc k)) = 256%nat →
  (∀ d m, Q tt (set_desc d (set_msrs m k))) → wp (setIdt idt_addr sh) Q k.
Proof.
  intros Hsh Hlen HQ. unfold setIdt. kstep. apply wp_zoom.
  destruct (Hsh _ Hlen) as (i & Hi & Hil). apply wp_bind. unfold wp at 1. rewrite Hi.
  apply wp_bind, wp_gate; [cbn; lia|]. intros i1 Hi1. apply wp_gate; [cbn in *; lia|]. intros i2 Hi2.
  kstep. unfold set_sysenter_msrs. ksteps. apply wp_zoom. unfold set_idt_reg. apply wp_modify. kcbn.
  apply HQ.
Qed.

(** The frames after the 28 allocations for the first process. *)
Definition boot_phys : list Z :=
  replicate 256 1 ++ concat (replicate 38 [1; 0]) ++ replicate 692 0.

Lemma boot_alloc : Frames.alloc_n 28 frames_shared = Some (boot_frames, boot_phys).
Proof. vm_compute. reflexivity. Qed.

Definition user_pages : list Z := (λ n, 256 + Z.of_nat n) <$> seq 0 28.

Lemma user_pages_in p : USER_FIRST_PAGE ≤ p < USER_LAST_PAGE → p ∈ user_pages.
Proof.
  change USER_FIRST_PAGE with 256. change USER_LAST_PAGE with 284. intros Hp.
  apply list_elem_of_fmap. exists (Z.to_nat (p - 256)). split; [lia|]. apply elem_of_seq. lia.
Qed.

Lemma boot_ufr_ok p : USER_FIRST_PAGE ≤ p < USER_LAST_PAGE →
  user_frame boot_frames p = Some (boot_ufr p) ∧ NUM_PAG_KERNEL ≤ boot_ufr p < TOTAL_PAGES.
Proof.
  intros Hp%user_pages_in. revert p Hp. apply Forall_forall. apply (bool_decide_unpack _). by vm_compute.
Qed.

Lemma boot_ufr_inj p q : USER_FIRST_PAGE ≤ p < USER_LAST_PAGE → USER_FIRST_PAGE ≤ q < USER_LAST_PAGE →
  boot_ufr p = boot_ufr q → p = q.
Proof.
  intros Hp%user_pages_in Hq%user_pages_in. revert q Hq. revert p Hp.
  assert (Forall (λ p, Forall (λ q, boot_ufr p = boot_ufr q → p = q) user_pages) user_pages) as Hall
    by (apply (bool_decide_unpack _); by vm_compute).
  intros p Hp q Hq. exact (proj1 (Forall_forall _ _) (proj1 (Forall_forall _ _) Hall p Hp) q Hq).
Qed.

Lemma boot_space (m : gmap Z Z) (k' : kernel) :
  kernel_map m → user_map task1 boot_frames m (ptes k') → has_space k' task1 → proc_space k' task1 boot_ufr.
Proof.
  intros Hm [Hu Ho] Hs. destruct start_tasks as (_ & Ht & _). split; [done| | | |].
  - intros i Hi. unfold NUM_PAG_KERNEL in Hi. rewrite Ho.
    + apply Hm; [done|unfold TOTAL_PAGES; lia].
    + intros j Hj E. change USER_FIRST_PAGE with 256 in Hj. change USER_LAST_PAGE with 284 in Hj.
      apply pt_slot_inj in E; unfold TOTAL_PAGES; lia || done.
  - intros p Hp. exists (user_entry p (boot_ufr p)). split; [|by left]. apply Hu; [done|]. by apply boot_ufr_ok.
  - intros p Hp. by apply boot_ufr_ok.
  - apply boot_ufr_inj.
Qed.

Lemma image_links a :
  a ∈ [freequeue; readyqueue; blocked] ++ (task_list ≫= λ t, [node t; dead_sons t; sons t; bros t]) →
  a ∈ dom (lists boot_image).
Proof.
  intros Ha. cbn [lists boot_image]. unfold blank_links. apply elem_of_dom. exists (mk_list_head NULL NULL).
  apply elem_of_list_to_map_1'.
  - by intros y (b & [= -> <-] & _)%list_elem_of_fmap.
  - apply list_elem_of_fmap. eauto.
Qed.

Lemma image_anchors : anchors_in boot_image.
Proof.
  assert (Hdom := image_links). split.
  - intros t Ht. pose proof Ht as Htl%task_list_spec. split; [rewrite boot_image_pcb by done; eauto|].
    split; apply Hdom, elem_of_app; right; apply list_elem_of_bind; exists t; (split; [|done]).
    + by left.
    + do 2 right. by left.
  - intros q Hq. apply Hdom, elem_of_app. left. rewrite !elem_of_cons. tauto.
Qed.

(** What [main] finds in memory: the statics of the kernel. *)
Record image_ok (k : kernel) : Prop := {
  im_phys : Datatypes.length (phys_mem k) = 1024%nat;
  im_shared : Datatypes.length (shared_pages k) = 10%nat;
  im_dirs : is_table dir_pages (ptes k);
  im_tables : is_table pagusr_table (ptes k);
  im_anchors : anchors_in k;
  im_idt : Datatypes.length (idt (desc k)) = 256%nat;
  im_gdt : is_Some (znth (gdt (desc k)) (Z.shiftr KERNEL_TSS 3));
  im_keys : Z.of_nat (Datatypes.length (Circ.keys (cbuff k))) = Circ.MAX_BUFF_SIZE;
}.

Lemma loaded_image_ok fr : image_ok (loaded_image fr).
Proof.
  unfold loaded_image. split.
  - reflexivity.
  - reflexivity.
  - exact (proj1 boot_image_tables).
  - exact (proj2 boot_image_tables).
  - exact image_anchors.
  - reflexivity.
  - exists (mk_Descriptor 104 0 0 0x89 0 0). reflexivity.
  - reflexivity.
Qed.

(** The sizes in the first words of the image, which build.c has written. *)
Definition sys_size (k : kernel) : Z := memory_word k p_sys_size.
Definition usr_size (k : kernel) : Z := memory_word k p_usr_size.

Lemma memory_word_pos k a : 0 ≤ memory_word k a.
Proof. unfold memory_word. pose proof (pread_is_u8 k a). pose proof (pread_is_u8 k (a + 1)). pose proof (pread_is_u8 k (a + 2)). pose proof (pread_is_u8 k (a + 3)). wrap_lia. Qed.

Lemma memory_word_same k k' a : frames k' = frames k → memory_word k' a = memory_word k a.
Proof. intros E. unfold memory_word. cbn [pread PagedMem]. by rewrite E. Qed.

(** The user program lies between the kernel image and the user area, and its pages
    have room for it. *)
Definition image_fits (k : kernel) : Prop := usr_size k ≤ 28 * 4096 ∧ KERNEL_START + sys_size k + usr_size k ≤ L_USER_START.

Lemma image_bounds k : image_fits k →
  usr_size k ≤ 114688 ∧ 0 ≤ usr_size k ∧ 0 ≤ sys_size k ∧ 65536 + sys_size k + usr_size k ≤ 1048576.
Proof. pose proof (memory_word_pos k p_sys_size). pose proof (memory_word_pos k p_usr_size). unfold image_fits, KERNEL_START, L_USER_START, sys_size, usr_size in *. lia. Qed.

Lemma image_fits_same k k' : frames k' = frames k → image_fits k → image_fits k'.
Proof. intros E. unfold image_fits, usr_size, sys_size. by rewrite !(memory_word_same k k'). Qed.

Lemma image_area k i : image_fits k → 0 ≤ i < usr_size k → user_area (L_USER_START + i) 1.
Proof.
  intros Hfit%image_bounds Hi. split; [change (1048576 ≤ 0x100000 + i); lia|]. change (0x100000 + i + 1 ≤ 1163264). lia.
Qed.

(** Loading the user program, in the address space of the first process. *)
Lemma load_user k ufr (Q : unit → kernel → Prop) :
  image_fits k → proc_space k task1 ufr → running k task1 →
  (∀ fr, (∀ i, 0 ≤ i < usr_size k → load8 (set_frames fr k) (L_USER_START + i) = Some (pread k (KERNEL_START + sys_size k + i))) →
     Q tt (set_frames fr k)) →
  wp (lift (copy_data (u32 (KERNEL_START + sys_size k)) L_USER_START (usr_size k))) Q k.
Proof.
  intros Hfit%image_bounds Hps Hrun HQ. destruct start_tasks as (_ & Ht & _). revert Hfit HQ. generalize (sys_size k) (usr_size k). intros sys_size usr_size Hfit HQ.
  unfold KERNEL_START, L_USER_START in *. rewrite u32_small by wrap_lia.
  assert (Hu : ∀ i, 0 ≤ i < usr_size → USER_FIRST_PAGE * 4096 ≤ 0x100000 + i < USER_LAST_PAGE * 4096).
  { intros i Hi. change (USER_FIRST_PAGE * 4096) with 1048576. change (USER_LAST_PAGE * 4096) with 1163264. lia. }
  apply (wp_copy _ _ _ (λ i, 0x10000 + sys_size + i) (λ i, user_byte ufr (0x100000 + i))).
  - wrap_lia.
  - wrap_lia.
  - lia.
  - lia.
  - lia.
  - intros i Hi. apply (translate_kernel_page k task1 ufr); [done..|unfold L_USER_START; lia].
  - intros i Hi. apply (translate_user_page k task1 ufr); [done..|by apply Hu].
  - intros i j Hi Hj E. apply (user_byte_inj k task1 ufr) in E; [lia|done|by apply Hu..].
  - intros i j Hi Hj. pose proof (user_byte_range k task1 ufr _ Hps (Hu j Hj)) as Hr.
    unfold L_USER_START in Hr. lia.
  - intros fr Hnew _. apply HQ. intros i Hi. unfold load8. cbn [resolve PagedMem].
    change (translate (set_frames fr k) (0x100000 + i)) with (translate k (0x100000 + i)).
    rewrite (translate_user_page k task1 ufr) by (done || by apply Hu). cbn [mbind option_bind]. f_equal. by apply Hnew.
Qed.

(** The selectors of user mode, and the lines that interrupt: the clock and the keyboard. *)
Definition user_mode (p : processor) : Prop :=
  cs_reg p = USER_CS ∧ ss_reg p = USER_DS ∧ ds_es p = USER_DS ∧ ∀ n, 0 ≤ n < 8 → takes_interrupt p n = (n <? 2).

Lemma wp_on_hardware {A} (m : M processor A) (Q : A → kernel → Prop) k :
  wp m (λ a p, Q a (set_desc (set_proc p (desc k)) k)) (proc (desc k)) → wp (on_hardware m) Q k.
Proof. intros Hw. by apply wp_zoom, wp_zoom. Qed.

(** The jump to user mode, when the clock and the keyboard have been enabled. *)
Lemma wp_return_gate k ufr (Q : unit → kernel → Prop) : runs k task1 ufr → (∀ n, 0 ≤ n < 8 → takes_interrupt (proc (desc k)) n = (n <? 2)) →
  (∀ fr d, user_mode (proc d) →
     (∀ b, user_area b 1 → ¬ (USER_ESP + 12 ≤ b < USER_ESP + 16) → load8 (set_frames fr k) b = load8 k b) →
     Q tt (set_resume usr_main (set_esp USER_ESP (set_desc d (set_frames fr k))))) →
  wp (return_gate USER_DS USER_DS USER_ESP USER_CS usr_main) Q k.
Proof.
  intros Hr Hlines HQ. unfold return_gate. pose proof (kernel_load k task1 ufr p_rdtr Hr ltac:(by vm_compute) ltac:(by vm_compute)) as Hv. set (v := memory_word k p_rdtr) in Hv. clearbody v.
  apply wp_bind. eapply wp_ask; [exact Hv|]. apply wp_bind, wp_on_hardware, wp_modify. set (d1 := set_proc _ _).
  assert (Hr1 : runs (set_desc d1 k) task1 ufr).
  { destruct Hr as (Ht & Hs & Hru). split; [done|]. split; [by apply (proc_space_same k)|done]. }
  change (u32 (USER_ESP + 12)) with (USER_ESP + 12).
  destruct (store_word _ task1 ufr (USER_ESP + 12) v Hr1) as (fr & E & _ & Hother); [split; by vm_compute|].
  apply wp_bind. eapply wp_lift; [exact E|]. apply wp_bind, wp_on_hardware, wp_modify. apply wp_bind, wp_modify, wp_modify.
  apply HQ; [split_and!; try reflexivity; exact Hlines|]. intros b Hb Hnb. apply Hother; [done|]. lia.
Qed.

(** What [main] leaves when it jumps to user mode. *)
Record booted (k k' : kernel) : Prop := {
  bo_inv : sched_inv (set_esp (tss_esp0 k') k') task1 free0 [] [] boot_family;
  bo_idle : idle_task k' = idle0;
  bo_task1 : pcb_is k' task1 (λ p, PID p = 1 ∧ quantum p = INIT_QUANTUM);
  bo_space : proc_space k' task1 boot_ufr;
  bo_running : running k' task1;
  bo_image : ∀ i, 0 ≤ i < usr_size k → ¬ (USER_ESP + 12 ≤ L_USER_START + i < USER_ESP + 16) →
    load8 k' (L_USER_START + i) = Some (pread k (KERNEL_START + sys_size k + i));
  bo_keys : Circ.wf (cbuff k') ∧ Circ.contents (cbuff k') = [];
  bo_resume : resume k' = usr_main;
  bo_user_mode : esp k' = USER_ESP ∧ user_mode (proc (desc k'));
  bo_tables : ∃ m, kernel_map m ∧ user_map task1 boot_frames m (ptes k');
  bo_phys : phys_mem k' = boot_phys;
  bo_shared : shared_pages k' = fresh_page <$> shared_frames;
  bo_links : dom (lists k') = dom (lists k);
  bo_pid : next_pid k' = next_pid k;
  bo_parents : ∀ t, is_task t → parent <$> tasks k' !! t = parent <$> tasks k !! t;
}.

(** The anchors of the image are still there after [init_mm]. *)
Lemma anchors_mapped k p0 m : anchors_in k → anchors_in (mm_state k p0 m).
Proof.
  intros [Ht Hq]. split; [|exact Hq]. intros t H'. destruct (Ht t H') as ([p Hp] & Hn & Hs). unfold mm_state. kcbn. split; [|done].
  rewrite lookup_insert. case_decide; eauto.
Qed.

(** The end of [main]: the user program is copied, and the jump to it. *)
Lemma wp_start_user k (Q : unit → kernel → Prop) : image_fits k → proc_space k task1 boot_ufr → running k task1 →
  (∀ fr d c, user_mode (proc d) → let k' := set_resume usr_main (set_esp USER_ESP (set_desc d (set_frames fr (set_cons c k)))) in
     (∀ i, 0 ≤ i < usr_size k → ¬ (USER_ESP + 12 ≤ L_USER_START + i < USER_ESP + 16) →
        load8 k' (L_USER_START + i) = Some (pread k (KERNEL_START + sys_size k + i))) → Q tt k') →
  wp (sys_size ← ask (λ k, load32 k p_sys_size); usr_size ← ask (λ k, load32 k p_usr_size);
      lift (copy_data (u32 (KERNEL_START + sys_size)) L_USER_START usr_size) ;;
      print "Entering user mode..." ;; on_hardware enable_int ;; return_gate USER_DS USER_DS USER_ESP USER_CS usr_main) Q k.
Proof.
  intros Hfit Hps Hrun HQ. assert (runs k task1 boot_ufr) as Hrs by (destruct start_tasks as (_ & Ht & _); by split).
  apply wp_bind. eapply wp_ask; [by apply (kernel_load k task1 boot_ufr)|]. apply wp_bind. eapply wp_ask; [by apply (kernel_load k task1 boot_ufr)|].
  kstep. apply (load_user k boot_ufr); [done..|]. intros fr Hfrm.
  kstep. apply wp_print; [apply (bool_decide_unpack _); by vm_compute|]. intros c2. kcbn.
  apply wp_bind, wp_on_hardware. eapply wp_mono; [apply enable_int_lines|]. intros [] pr Hpr. set (k3 := set_desc _ _).
  assert (runs k3 task1 boot_ufr) as Hrun3.
  { destruct start_tasks as (_ & Ht & _). split; [exact Ht|]. split; [exact (proc_space_same k k3 task1 boot_ufr eq_refl eq_refl Hps)|exact Hrun]. }
  apply (wp_return_gate k3 boot_ufr); [exact Hrun3|exact Hpr|]. intros fr2 d2 Hmode Hbytes. apply (HQ fr2 d2 c2 Hmode).
  intros i Hi Hni. etransitivity; [exact (Hbytes _ (image_area k i Hfit Hi) Hni)|exact (Hfrm i Hi)].
Qed.

Lemma boot_run (k : kernel) idt_addr set_handlers :
  image_ok k → fills_gates set_handlers → image_fits k →
  wp (main idt_addr set_handlers) (λ _ k', booted k k') k.
Proof.
  intros Hk Hsh Hfit. destruct (im_gdt k Hk) as [e He]. pose proof (znth_Some_range _ _ _ He) as Her.
  destruct (proj1 (im_anchors k Hk) task is_task_0) as ([p0 Hp0] & _).
  unfold main, set_seg_regs. apply wp_bind, wp_on_hardware, wp_modify. apply wp_bind, wp_bind, wp_on_hardware. unfold load_selectors.
  apply wp_bind, wp_modify, wp_modify. set (d0 := set_proc _ (desc (set_desc _ k))). apply wp_modify. kcbn.
  kstep. apply wp_print; [apply (bool_decide_unpack _); by vm_compute|]. intros c1. kcbn.
  kstep. apply wp_zoom. unfold setGdt. apply wp_bind. eapply wp_lift.
  { change (gdt (desc _)) with (gdt (desc k)). rewrite He. cbn [mbind option_bind]. by rewrite zset_Some. }
  unfold set_gdt_reg. apply wp_modify. kcbn.
  kstep. apply wp_setIdt; [done|kcbn; apply Hk|]. intros d m. kcbn.
  unfold set_TSS. ksteps. apply wp_zoom. unfold setTSS. apply wp_bind, wp_modify, wp_zoom, wp_modify. kcbn.
  unfold initCircBuff. ksteps.
  eapply wp_mono; [apply (init_mm_run _ p0); kcbn; (apply Hk || exact Hp0)|].
  intros [] k1 (mp & Hmp & _ & ->).
  pose proof (anchors_mapped k p0 mp (im_anchors k Hk)) as Han.
  kstep. eapply wp_mono.
  { apply start_sched_run; [exact Han|exact Hmp|apply (bool_decide_unpack _); by vm_compute]. }
  intros [] k2 (T & fs & pi & p1 & Htk & HT & Hl & Hd & Hid & _ & Hst & Hal & Hum & Hsp & Hcpu & _ & Hio & Hpar).
  pose proof boot_alloc as Hal'. destruct Hio as (Hc0 & Hfr & Hcb & Hshp & Hnp). unfold mm_state in Hal, Hc0, Hfr, Hcb, Hshp, Hum. kcbn.
  rewrite Hal' in Hal. apply some_pair_inj in Hal as [<- Hphys].
  assert (proc_space k2 task1 boot_ufr) as Hps by exact (boot_space mp k2 Hmp Hum Hsp).
  assert (running k2 task1) as Hrun.
  { split; [|rewrite Hc0; apply set_bit_31]. destruct Hcpu as (_ & _ & p & Hp & ->).
    destruct Hsp as ((p' & Hp' & Hdir) & _). congruence. }
  assert (usr_size k2 = usr_size k ∧ sys_size k2 = sys_size k) as [Eu Es] by (split; by apply memory_word_same).
  assert (image_fits k2) as Hfit2 by (by apply (image_fits_same k)).
  apply (wp_start_user k2); [exact Hfit2|exact Hps|exact Hrun|]. intros fr d2 c2 Hmode k4 Hbytes.
  destruct (Circ.init_contents (cbuff k) (im_keys k Hk)) as [Hwf Hct]. split; kcbn.
  - exact (start_inv _ k4 T pi p1 Han Hd Htk HT Hl Hid Hst Hcpu).
  - exact Hid.
  - exists (task1_pcb task1 p1).
    split; [exact (eq_trans (f_equal (.!! task1) Htk) (lookup_insert_eq _ _ _))|split; reflexivity].
  - exact (proc_space_same k2 k4 task1 boot_ufr eq_refl eq_refl Hps).
  - exact Hrun.
  - intros i Hi Hni. rewrite <- Eu in Hi. rewrite <- Es. etransitivity; [exact (Hbytes i Hi Hni)|]. cbn [pread PagedMem]. by rewrite Hfr.
  - change (Circ.wf (cbuff k2) ∧ Circ.contents (cbuff k2) = []). rewrite Hcb. split; [exact Hwf|exact Hct].
  - reflexivity.
  - split; [reflexivity|exact Hmode].
  - exists mp. exact (conj Hmp Hum).
  - exact (eq_sym Hphys).
  - exact Hshp.
  - exact Hd.
  - exact Hnp.
  - intros t Ht. rewrite Hpar by done. unfold mm_state. kcbn. rewrite lookup_insert. case_decide; [subst; by rewrite Hp0|done].
Qed.

End boot.

(** C2: the start of the system.  From the image the boot sector loads (any state
    with the statics of the kernel in place and any bytes in memory, the sizes in
    the first two words being those of a kernel and a user program that fit below
    1 MB and in the 28 user pages), [main] runs without a fault to the jump to user
    mode.  Then the first process (PID 1, with one tick of quantum) is the one that
    runs and the idle process the only other one, every other PCB is in the free queue, and the invariant of
    the scheduler holds from the first entry into the kernel on; paging is on,
    the process has its 28 user pages in frames of its own, and they hold the
    user program, byte by byte but for the word at the top of the stack; the
    keyboard buffer is empty, execution continues at the first instruction of
    the user code, in user mode on the user stack, and of the interrupt lines the
    clock and the keyboard are open. *)
Theorem boot_correct `{LayoutOk} (k : kernel) idt_addr set_handlers :
  image_ok k → fills_gates set_handlers → image_fits k →
  wp (main idt_addr set_handlers) (λ _ k', ∃ ufr,
    sched_inv (set_esp (tss_esp0 k') k') task1 free0 [] [] boot_family ∧
    idle_task k' = idle0 ∧ pcb_is k' task1 (λ p, PID p = 1 ∧ quantum p = INIT_QUANTUM) ∧
    proc_space k' task1 ufr ∧ running k' task1 ∧
    (∀ i, 0 ≤ i < usr_size k → ¬ (USER_ESP + 12 ≤ L_USER_START + i < USER_ESP + 16) →
       load8 k' (L_USER_START + i) = Some (pread k (KERNEL_START + sys_size k + i))) ∧
    Circ.wf (cbuff k') ∧ Circ.contents (cbuff k') = [] ∧ resume k' = usr_main ∧ esp k' = USER_ESP ∧ user_mode (proc (desc k'))) k.
Proof.
  intros Hk Hsh Hfit. eapply wp_mono; [by apply boot_run|]. intros [] k' [? ? ? ? ? ? [? ?] ? [? ?] _ _ _ _ _].
  exists boot_ufr. repeat (split; [assumption|]). assumption.
Qed.

(** The first words of an image: a kernel of 0x2E000 bytes and a user program of 0x3000. *)
Definition example_frames : gmap Z Z :=
  list_to_map [(0x10001, 0xE0); (0x10002, 0x02); (0x10005, 0x30)].

Lemma example_fits : image_fits (loaded_image (H := example_layout) example_frames) ∧
  sys_size (loaded_image (H := example_layout) example_frames) = 0x2E000 ∧ usr_size (loaded_image (H := example_layout) example_frames) = 0x3000.
Proof. split; [split; by vm_compute|]. split; reflexivity. Qed.

(** A kernel image, and no handlers of the library. *)
Lemma boot_correct_witness :
  wp (main (H := example_layout) 0x5000 (mret tt)) (λ _ k',
    idle_task k' = idle0 ∧ running k' task1 ∧ resume k' = usr_main ∧ cs_reg (proc (desc k')) = USER_CS) (loaded_image example_frames).
Proof.
  eapply wp_mono.
  { refine (boot_correct (loaded_image example_frames) 0x5000 (mret tt) (loaded_image_ok example_frames) _ (proj1 example_fits)).
    intros d Hd. exists (idt d). split; [by destruct d|exact Hd]. }
  intros [] k' (ufr & _ & Hi & _ & _ & Hr & _ & _ & _ & Hres & _ & Hcs & _). exact (conj Hi (conj Hr (conj Hres Hcs))).
Defined.

(** ** A running user process *)

Lemma example_main : ∃ k', main (H := example_layout) 0x5000 (mret tt) (loaded_image example_frames) = Some (tt, k') ∧
  booted (H := example_layout) (loaded_image example_frames) k'.
Proof.
  assert (fills_gates (mret tt)) as Hg by (intros d Hd; exists (idt d); split; [by destruct d|exact Hd]).
  pose proof (boot_run (loaded_image example_frames) 0x5000 (mret tt) (loaded_image_ok example_frames) Hg (proj1 example_fits)) as Hw.
  destruct (proj1 (wp_run (main 0x5000 (mret tt)) _ _) Hw) as ([] & k' & Hm & Hb). exists k'. exact (conj Hm Hb).
Qed.

Lemma example_booted : ∃ k', booted (H := example_layout) (loaded_image example_frames) k'.
Proof. destruct example_main as (k' & _ & Hb). by exists k'. Qed.

(** The first process at its first entry into the kernel, on the screen [c]. *)
Definition entered (c : console) (k : kernel) : kernel := set_cons c (set_esp (tss_esp0 k) k).

Lemma entered_process `{LayoutOk} k k' c :
  booted k k' → user_process (entered c k') task1 boot_ufr.
Proof.
  intros Hb. destruct start_tasks as (_ & Ht & _). split.
  - exact Ht.
  - exact (proc_space_same k' (entered c k') task1 boot_ufr eq_refl eq_refl (bo_space _ _ Hb)).
  - exact (bo_running _ _ Hb).
  - exact (current_run _ _ _ _ _ _ (proj1 (bo_inv _ _ Hb))).
Qed.

Lemma example_process : ∃ k, user_process (H := example_layout) k (task1 (H := example_layout)) boot_ufr ∧
  wf_console (cons k) ∧ Circ.wf (cbuff k).
Proof.
  destruct example_booted as [k' Hb]. exists (entered near_end k').
  split; [exact (entered_process _ _ _ Hb)|]. split; [exact near_end_wf|exact (proj1 (bo_keys _ _ Hb))].
Qed.
