(* ===== verification/UserIO.v ===== *)
(** * System calls on user buffers, the screen and the keyboard (sys.c, access_ok of utils.c)

    The service routines that read and write the memory of the user, on the
    kernel state: the buffers are reached through the page tables of the
    running process, the screen and the keyboard buffer are those of their
    files. *)

From S2P Require Import Prelude CInt ListHead Circular Memory Errno Console Paging Kernel Mm Space Sched Boot System.
Import PTE PageTable.

Definition ESCRIPTURA : Z := 1.
Definition MAX_BUFFER_SIZE : Z := 512.
Definition VERIFY_READ : Z := 0.
Definition VERIFY_WRITE : Z := 1.

Section syscalls.
Context `{Layout}.

(** ** Checks on the arguments *)

Definition check_fd (fd permissions : Z) : Z :=
  if negb (fd =? 1) then -9
  else if negb (permissions =? ESCRIPTURA) then -13
  else 0.

(** [for (i = addr_ini; i <= addr_fin; ++i)] with its early return. *)
Fixpoint check_loop (n : nat) (i : Z) : MK bool :=
  match n with
  | O => mret true
  | S n =>
      c ← gets current;
      PT ← get_PT c;
      free ← ask (λ k, is_logic_page_free PT i (ptes k));
      if (free : bool) then mret false else check_loop n (i + 1)
  end.

Definition check_allocated (addr_ini addr_fin : Z) : MK bool :=
  check_loop (Z.to_nat (addr_fin - addr_ini + 1)) addr_ini.

(** The case of [VERIFY_WRITE] falls through to the default one. *)
Definition access_ok (type addr size : Z) : MK bool :=
  let addr_ini := Z.shiftr (u32 addr) 12 in
  let addr_fin := Z.shiftr (u32 (u32 addr + u32 size)) 12 in
  let default_case : MK bool :=
    if (USER_FIRST_PAGE <=? addr_ini) && (addr_fin <=? USER_FIRST_PAGE + NUM_PAG_CODE + NUM_PAG_DATA) then mret true
    else if (USER_LAST_PAGE <=? addr_ini) && (addr_fin <? TOTAL_PAGES) then check_allocated addr_ini addr_fin
    else mret false in
  if addr_fin <? addr_ini then mret false
  else if type =? VERIFY_WRITE then
    if (USER_FIRST_PAGE + NUM_PAG_CODE <=? addr_ini) && (addr_fin <=? USER_LAST_PAGE) then mret true
    else if (USER_LAST_PAGE <=? addr_ini) && (addr_fin <? TOTAL_PAGES) then check_allocated addr_ini addr_fin
    else default_case
  else default_case.

(** ** Output *)

(** The characters of a kernel buffer. *)
Fixpoint read_chars (n : nat) (a : Z) : MK (list Z) :=
  match n with
  | O => mret []
  | S n => c ← ask (λ k, load8 k a); cs ← read_chars n (a + 1); mret (s8 c :: cs)
  end.

Definition copy_in (start dest size : Z) : MK Z := copy_from_user start dest size.

(** [copy_from_user] of [n] bytes, then [sys_write_console] of the buffer. *)
Definition write_chunk (buffer n : Z) : MK Z :=
  _ ← copy_in buffer kern_buff n;
  cs ← read_chars (Z.to_nat n) kern_buff;
  zoom cons set_cons (sys_write_console cs n).

(** [while (remaining_bytes > MAX_BUFFER_SIZE)]: the buffer and the bytes left. *)
Fixpoint write_while (fuel : nat) (buffer remaining_bytes : Z) : MK (Z * Z) :=
  match fuel with
  | O => fault
  | S f =>
      if MAX_BUFFER_SIZE <? remaining_bytes then
        ret ← write_chunk buffer MAX_BUFFER_SIZE;
        write_while f (u32 (buffer + ret)) (remaining_bytes - ret)
      else mret (buffer, remaining_bytes)
  end.

Definition sys_write (fd buffer size : Z) : MK Z :=
  let ret := check_fd fd ESCRIPTURA in
  if negb (ret =? 0) then mret ret
  else
    ok ← access_ok VERIFY_READ buffer size;
    if negb ok then mret (- EFAULT)
    else if size <? 0 then mret (- EINVAL)
    else
      p ← write_while (S (Z.to_nat size)) buffer size;
      let '(buffer, remaining_bytes) := p in
      remaining_bytes ←
        (if 0 <? remaining_bytes then
           ret ← write_chunk buffer remaining_bytes; mret (remaining_bytes - ret)
         else mret remaining_bytes);
      mret (size - remaining_bytes).

(** ** Keyboard *)

(** The loop of [sys_read]: the local buffer, [num_chars], [index] and
    [num_reads].  [num_chars < maxchars] compares unsigned ints. *)
Fixpoint read_loop (fuel : nat) (b maxchars : Z) (num_chars index num_reads : Z) : MK (Z * Z * Z) :=
  match fuel with
  | O => fault
  | S f =>
      empty ← gets (λ k, Circ.is_empty (cbuff k));
      if negb empty && (num_chars <? u32 maxchars) then
        old ← ask (λ k, load8 k (read_buff + num_chars));
        r ← zoom cbuff set_cbuff (Circ.get (s8 old));
        lift (store8 (u32 (read_buff + num_chars)) (u8 r.2)) ;;
        let num_chars := u32 (num_chars + 1) in
        let index := u32 (index + 1) in
        if index =? MAX_BUFFER_SIZE then
          _ ← copy_to_user (u32 (read_buff + num_reads * MAX_BUFFER_SIZE))
                (u32 (b + num_reads * MAX_BUFFER_SIZE)) MAX_BUFFER_SIZE;
          read_loop f b maxchars num_chars 0 (u32 (num_reads + 1))
        else read_loop f b maxchars num_chars index num_reads
      else mret (num_chars, index, num_reads)
  end.

Definition sys_read (b maxchars : Z) : MK Z :=
  ok ← access_ok VERIFY_WRITE b maxchars;
  if negb ok then mret (- EFAULT)
  else
    r ← read_loop (Z.to_nat Circ.MAX_BUFF_SIZE) b maxchars 0 0 0;
    let '(num_chars, index, num_reads) := r in
    (if negb (index =? 0) then
       _ ← copy_to_user (u32 (read_buff + num_reads * MAX_BUFFER_SIZE))
             (u32 (b + num_reads * MAX_BUFFER_SIZE)) index;
       mret tt
     else mret tt) ;;
    mret num_chars.

(** ** Screen *)

Definition sys_gotoxy (x y : Z) : MK Z := zoom cons set_cons (Console.sys_gotoxy x y).
Definition sys_set_color (fg bg : Z) : MK Z := zoom cons set_cons (Console.sys_set_color fg bg).

End syscalls.

(** ** What the checks accept *)

(** What [access_ok] accepts, whatever the type of the access: the pages of the
    area, with the one after its last byte, are user pages (or the page that
    follows them), or pages above them that the process has mapped. *)
Definition accessible `{Layout} (k : kernel) (t addr size : Z) : Prop :=
  let lo := addr / 4096 in
  let hi := u32 (addr + size) / 4096 in
  lo ≤ hi ∧ (USER_FIRST_PAGE ≤ lo ∧ hi ≤ USER_LAST_PAGE ∨
             USER_LAST_PAGE ≤ lo ∧ hi < TOTAL_PAGES ∧ ∀ p, lo ≤ p ≤ hi → page_used k t p).

(** The keys not yet read. *)
Abbreviation pending k := (Circ.contents (cbuff k)).

Section facts.
Context `{LayoutOk}.
Implicit Types (k : kernel) (t : Z).

Lemma check_loop_run n i k t :
  is_task t → has_space k t → current k = t → 0 ≤ i → i + Z.of_nat n ≤ TOTAL_PAGES →
  ∃ b, check_loop n i k = Some (b, k) ∧ (b = true ↔ ∀ p, i ≤ p < i + Z.of_nat n → page_used k t p).
Proof.
  intros Ht Hs Hc. revert i. induction n as [|n IH]; intros i Hi Hn.
  { exists true. split; [done|]. split; [intros _ p Hp; lia|done]. }
  assert (Hs' := Hs). destruct Hs' as (_ & _ & He). destruct (He i) as [e Hei]; [lia|].
  assert (Hpt : get_PT t k = Some (pt_of t, k)).
  { destruct (proj1 (wp_run (get_PT t) (λ r k', r = pt_of t ∧ k' = k) k)) as (a & s & E & -> & ->); [|exact E].
    by apply wp_get_PT. }
  cbn [check_loop]. unfold gets at 1, mbind at 1, M_bind. rewrite Hc. unfold mbind at 1, M_bind. rewrite Hpt.
  unfold mbind at 1, M_bind, ask, is_logic_page_free, load_pte. rewrite Hei. cbn [mbind option_bind].
  destruct (Z.eqb_spec e 0) as [->|Hne].
  - exists false. split; [done|]. split; [done|]. intros Hall. destruct (Hall i) as (e & He' & ?); [lia|]. congruence.
  - destruct (IH (i + 1)) as (b & Hb & Hiff); [lia..|]. exists b. split; [exact Hb|]. rewrite Hiff. split; intros Hall p Hp.
    + destruct (decide (p = i)) as [->|]; [by exists e|]. apply Hall. lia.
    + apply Hall. lia.
Qed.

Lemma check_allocated_run lo hi k t :
  is_task t → has_space k t → current k = t → 0 ≤ lo ≤ hi → hi < TOTAL_PAGES →
  ∃ b, check_allocated lo hi k = Some (b, k) ∧ (b = true ↔ ∀ p, lo ≤ p ≤ hi → page_used k t p).
Proof.
  intros Ht Hs Hc Hlo Hhi. destruct (check_loop_run (Z.to_nat (hi - lo + 1)) lo k t Ht Hs Hc) as (b & Hb & Hiff); [lia..|].
  exists b. split; [exact Hb|]. rewrite Hiff. split; intros Hall p Hp; apply Hall; lia.
Qed.

Lemma access_ok_run type addr size k t :
  is_task t → has_space k t → current k = t → is_u32 addr →
  ∃ b, access_ok type addr size k = Some (b, k) ∧ (b = true ↔ accessible k t addr size).
Proof.
  intros Ht Hs Hc Ha. unfold access_ok, accessible. rewrite (u32_small addr Ha).
  assert (u32 (addr + u32 size) = u32 (addr + size)) as -> by (rewrite Z.add_comm, u32_add_l; f_equal; lia).
  rewrite !Z.shiftr_div_pow2 by lia. change (2 ^ 12) with 4096.
  pose proof (u32_range (addr + size)) as Hr. set (e := u32 (addr + size)) in *. unfold is_u32 in *.
  assert (Hlo : 0 ≤ addr / 4096) by (Z.div_mod_to_equations; lia).
  set (lo := addr / 4096) in *. set (hi := e / 4096).
  change (USER_FIRST_PAGE + NUM_PAG_CODE + NUM_PAG_DATA) with USER_LAST_PAGE.
  destruct (Z.ltb_spec hi lo) as [Hlt|Hle]; [exists false; split; [done|]; split; [done|lia]|].
  assert (Hch : USER_LAST_PAGE ≤ lo → hi < TOTAL_PAGES →
    ∃ b, check_allocated lo hi k = Some (b, k) ∧ (b = true ↔ ∀ p, lo ≤ p ≤ hi → page_used k t p)).
  { intros ??. by apply check_allocated_run. }
  change USER_FIRST_PAGE with 256 in *. change USER_LAST_PAGE with 284 in *. change NUM_PAG_CODE with 8.
  assert (Hdef : ∃ b : bool,
    (if (256 <=? lo) && (hi <=? 284) then mret true
     else if (284 <=? lo) && (hi <? TOTAL_PAGES) then check_allocated lo hi else mret false : MK bool) k = Some (b, k) ∧
    (b = true ↔ lo ≤ hi ∧ (256 ≤ lo ∧ hi ≤ 284 ∨ 284 ≤ lo ∧ hi < TOTAL_PAGES ∧ ∀ p, lo ≤ p ≤ hi → page_used k t p))).
  { destruct (Z.leb_spec 256 lo), (Z.leb_spec hi 284), (Z.leb_spec 284 lo), (Z.ltb_spec hi TOTAL_PAGES); cbn [andb];
      try (exists true; split; [done|]; split; [intros _; split; [done|by left]|done]);
      try (destruct Hch as (b & -> & Hiff); [lia..|]; exists b; split; [done|]; rewrite Hiff; split;
           [intros Hall; split; [done|by right]|intros [_ [?|(_ & _ & Hall)]]; [lia|done]]);
      exists false; (split; [done|]); (split; [done|]); intros [_ [?|(? & ? & _)]]; unfold TOTAL_PAGES in *; lia. }
  destruct (type =? VERIFY_WRITE); [|exact Hdef].
  destruct (Z.leb_spec (256 + 8) lo), (Z.leb_spec hi 284); cbn [andb]; try (
    destruct (Z.leb_spec 284 lo), (Z.ltb_spec hi TOTAL_PAGES); cbn [andb]; try exact Hdef;
    destruct Hch as (b & -> & Hiff); [lia..|]; exists b; (split; [done|]); rewrite Hiff; split;
    [intros Hall; split; [done|by right]|intros [_ [?|(_ & _ & Hall)]]; [lia|done]]).
  exists true. split; [done|]. split; [intros _; split; [done|left; lia]|done].
Qed.

(** ** The characters a user buffer holds *)

Definition user_text k (a n : Z) : list Z :=
  (λ i, s8 (default 0 (load8 k (a + Z.of_nat i)))) <$> seq 0 (Z.to_nat n).

(** Outside the buffer of the kernel at [b]. *)
Definition outside (b z : Z) : Prop := z < b ∨ b + MAX_BUFFER_SIZE ≤ z.

(** Physical memory is as in [k], but for the buffer of the kernel at [b]. *)
Definition same_but (b : Z) k k' : Prop := ∀ z, outside b z → pread k' z = pread k z.

(** Physical memory above the kernel is as in [k]. *)
Definition same_user k k' : Prop := ∀ z, L_USER_START ≤ z → pread k' z = pread k z.

Lemma user_outside z : L_USER_START ≤ z → outside kern_buff z ∧ outside read_buff z.
Proof.
  destruct kern_buff_range, read_buff_range. unfold L_USER_START, outside, MAX_BUFFER_SIZE. split; right; lia.
Qed.

Lemma same_user_load k k' t ufr a :
  same_user k k' → user_process k t ufr → user_process k' t ufr → user_area a 1 → load8 k' a = load8 k a.
Proof.
  intros Hs Hup Hup' Ha. rewrite (proj2 (user_load k' t ufr a Hup' Ha)), (proj2 (user_load k t ufr a Hup Ha)). f_equal.
  apply Hs. destruct Ha as [H1 H2]. apply (user_byte_range k t ufr); [apply Hup|lia].
Qed.

(** [k] with other bytes in the buffer of [sys_write] and another screen. *)
Definition wrote k k' (s : list Z) : Prop :=
  ∃ fr c, k' = set_cons c (set_frames fr k) ∧ same_but kern_buff k k' ∧ prints s (cons k) c.

Lemma wrote_user k k' s : wrote k k' s → same_user k k'.
Proof. intros (fr & c & _ & Hb & _) z Hz. by apply Hb, user_outside. Qed.

Lemma wrote_process k k' s t ufr : wrote k k' s → user_process k t ufr → user_process k' t ufr.
Proof.
  intros (fr & c & -> & _) [Ht Hs Hr Hc]. split; [done| |done|done]. by apply (proc_space_same k).
Qed.

Lemma wrote_nil k : wf_console (cons k) → wrote k k [].
Proof. intros Hwf. exists (frames k), (cons k). split; [by destruct k|]. split; [done|]. by apply prints_nil. Qed.

Lemma wrote_app k k1 k2 s s' : wrote k k1 s → wrote k1 k2 s' → wrote k k2 (s ++ s').
Proof.
  intros (fr & c & -> & Hu & Hp) (fr' & c' & -> & Hu' & Hp'). exists fr', c'. split; [done|]. split.
  - intros a Ha. rewrite (Hu' a Ha). by apply Hu.
  - by eapply prints_app.
Qed.

Lemma user_text_same k k' t ufr a n : user_process k t ufr → user_process k' t ufr → same_user k k' → user_area a n →
  user_text k' a n = user_text k a n.
Proof.
  intros Hup Hup' Hs [Ha Hn]. apply list_fmap_ext. intros j i [-> Hj]%lookup_seq. rewrite (same_user_load k k' t ufr); [done..|].
  unfold user_area. lia.
Qed.

Lemma user_text_app k a n m : 0 ≤ n → 0 ≤ m → user_text k a (n + m) = user_text k a n ++ user_text k (a + n) m.
Proof.
  intros Hn Hm. unfold user_text. rewrite Z2Nat.inj_add, seq_app, fmap_app by done. f_equal.
  replace (0 + Z.to_nat n)%nat with (Z.to_nat n + 0)%nat by lia. rewrite <- fmap_add_seq, <- list_fmap_compose. apply list_fmap_ext. intros j i _. cbn.
  do 4 f_equal. lia.
Qed.

Lemma read_chars_run n a k (v : Z → Z) :
  (∀ i, 0 ≤ i < Z.of_nat n → load8 k (a + i) = Some (v i)) →
  read_chars n a k = Some ((λ i, s8 (v (Z.of_nat i))) <$> seq 0 n, k).
Proof.
  revert a v. induction n as [|n IH]; intros a v Hv; [done|]. cbn [read_chars]. unfold mbind at 1, M_bind, ask.
  rewrite <- (Z.add_0_r a) at 1. rewrite Hv by lia. cbn [mbind option_bind]. unfold mbind at 1, M_bind.
  rewrite (IH (a + 1) (λ i, v (1 + i))) by (intros i Hi; rewrite <- Z.add_assoc; apply Hv; lia).
  cbn [seq fmap list_fmap]. unfold mret, M_ret. do 3 f_equal. rewrite <- fmap_S_seq, <- list_fmap_compose.
  apply list_fmap_ext. intros j i _. cbn -[Z.of_nat]. do 2 f_equal. lia.
Qed.

Lemma wp_copy_from p q n (Q : Z → kernel → Prop) k :
  wp (lift (copy_data p q n)) (λ _, Q 0) k → wp (copy_from_user p q n) Q k.
Proof. unfold wp, lift, copy_from_user. by destruct (copy_data p q n k). Qed.

(** One chunk: the bytes of the user go through the kernel buffer to the screen. *)
Lemma wp_write_chunk k t ufr buffer n (Q : Z → kernel → Prop) :
  user_process k t ufr → wf_console (cons k) → 0 < n ≤ MAX_BUFFER_SIZE → user_area buffer n →
  (∀ k', wrote k k' (user_text k buffer n) → Q n k') → wp (write_chunk buffer n) Q k.
Proof.
  intros Hup Hwf Hn [Ha Hb] HQ. destruct kern_buff_range as [Hk1 Hk2]. unfold MAX_BUFFER_SIZE in Hn.
  assert (Hps := Hup). destruct Hps as [Ht Hps Hr Hc].
  assert (Hb0 : USER_FIRST_PAGE * 4096 = 1048576) by done. assert (Hb1 : USER_LAST_PAGE * 4096 = 1163264) by done.
  assert (Hker : ∀ i, 0 ≤ i < n → translate k (kern_buff + i) = Some (kern_buff + i)).
  { intros i Hi. apply (translate_kernel_page k t ufr); [done..|unfold L_USER_START; lia]. }
  assert (Hub : ∀ a, user_area a 1 → L_USER_START ≤ user_byte ufr a).
  { intros a [Ha1 Ha2]. apply (user_byte_range k t ufr); [done|lia]. }
  unfold write_chunk, copy_in. apply wp_bind, wp_copy_from.
  apply (wp_copy _ _ _ (λ i, user_byte ufr (buffer + i)) (λ i, kern_buff + i)); try (wrap_lia || lia).
  - intros i Hi. apply (user_load k t ufr); [done|unfold user_area; lia].
  - done.
  - intros i j Hi Hj E. pose proof (Hub (buffer + i)) as Hu. unfold user_area, L_USER_START in Hu. lia.
  - intros fr Hnew Hold. apply wp_bind.
    assert (Hread := read_chars_run (Z.to_nat n) kern_buff (set_frames fr k) (λ i, pread k (user_byte ufr (buffer + i)))).
    unfold wp at 1. rewrite Hread.
    2: { intros i Hi. unfold load8. cbn [resolve PagedMem].
         change (translate (set_frames fr k)) with (translate k). rewrite Hker by lia. cbn [mbind option_bind].
         f_equal. apply Hnew. lia. }
    assert ((λ i, s8 (pread k (user_byte ufr (buffer + Z.of_nat i)))) <$> seq 0 (Z.to_nat n) = user_text k buffer n) as ->.
    { apply list_fmap_ext. intros j i [-> Hj]%lookup_seq.
      destruct (user_load k t ufr (buffer + Z.of_nat (0 + j)) Hup) as [_ ->]; [unfold user_area; lia|done]. }
    apply wp_zoom. destruct (write_console_prints (user_text k buffer n) (cons (set_frames fr k)) Hwf) as (c & Hc' & Hp).
    assert (Z.of_nat (length (user_text k buffer n)) = n) as El by (unfold user_text; rewrite length_fmap, length_seq; lia).
    rewrite El in Hc'. unfold wp. rewrite Hc'. apply HQ. exists fr, c. split; [done|]. split; [|exact Hp].
    intros z Hz. apply Hold. intros i Hi E. unfold outside, MAX_BUFFER_SIZE in Hz. lia.
Qed.

Lemma wp_write_while f k t ufr buffer rem :
  user_process k t ufr → wf_console (cons k) → user_area buffer rem → 0 ≤ rem → (Z.to_nat rem < f)%nat →
  wp (write_while f buffer rem) (λ p k', p.1 = buffer + (rem - p.2) ∧ 0 ≤ p.2 ≤ MAX_BUFFER_SIZE ∧ p.2 ≤ rem ∧
    wrote k k' (user_text k buffer (rem - p.2))) k.
Proof.
  revert k buffer rem. induction f as [|f IH]; intros k buffer rem Hup Hwf Hua Hrem Hf; [lia|]. cbn [write_while].
  unfold MAX_BUFFER_SIZE. destruct (Z.ltb_spec 512 rem) as [Hlt|Hle].
  - destruct Hua as [Ha Hb]. assert (USER_LAST_PAGE * 4096 = 1163264) as Hlast by done.
    assert (USER_FIRST_PAGE * 4096 = 1048576) as Hfirst by done.
    apply wp_bind. apply (wp_write_chunk k t ufr); [done|done|unfold MAX_BUFFER_SIZE; lia|unfold user_area; lia|].
    intros k1 Hw. rewrite u32_small by wrap_lia.
    assert (wf_console (cons k1)) as Hwf1 by (destruct Hw as (? & ? & -> & _ & Hp); apply Hp).
    assert (same_user k k1) as Hsu by exact (wrote_user _ _ _ Hw).
    eapply wp_mono; [apply (IH k1); [by eapply wrote_process|done|unfold user_area; lia|lia|lia]|].
    intros [b r] k2 (E & Hr & Hr' & Hw'). cbn [fst snd] in *. split; [lia|]. split; [exact Hr|]. split; [lia|].
    replace (rem - r) with (512 + (rem - 512 - r)) by lia. rewrite user_text_app by lia.
    eapply wrote_app; [exact Hw|]. rewrite <- (user_text_same k k1 t ufr); [exact Hw'|done|by eapply wrote_process|done|]. unfold user_area. lia.
  - apply wp_ret. cbn [fst snd]. rewrite Z.sub_diag. split; [lia|]. split; [lia|]. split; [done|]. by apply wrote_nil.
Qed.

Lemma wp_access k t ufr type addr size (Q : bool → kernel → Prop) :
  user_process k t ufr → is_u32 addr → (∀ b, (b = true ↔ accessible k t addr size) → Q b k) →
  wp (access_ok type addr size) Q k.
Proof.
  intros [Ht Hs _ Hc] Ha HQ. destruct (access_ok_run type addr size k t Ht (ps_space _ _ _ Hs) Hc Ha) as (b & Hb & Hiff).
  unfold wp. rewrite Hb. by apply HQ.
Qed.

(** An area that ends in the user pages is accepted exactly when it starts there. *)
Lemma accessible_user k t a n :
  is_u32 a → 0 ≤ n → a + n ≤ USER_LAST_PAGE * 4096 → accessible k t a n ↔ L_USER_START ≤ a.
Proof.
  intros Ha Hn Hl. change (USER_LAST_PAGE * 4096) with 1163264 in Hl. unfold accessible, L_USER_START.
  rewrite u32_small by wrap_lia. change USER_FIRST_PAGE with 256. change USER_LAST_PAGE with 284.
  unfold is_u32 in Ha. split; [intros [_ [?|?]]|intros ?; split; [|left]]; Z.div_mod_to_equations; lia.
Qed.

Lemma sys_write_run k t ufr fd buffer size :
  user_process k t ufr → wf_console (cons k) → is_u32 buffer → is_s32 size →
  size < 0 ∨ buffer + size ≤ USER_LAST_PAGE * 4096 →
  wp (sys_write fd buffer size) (λ r k',
    if negb (fd =? 1) then r = - EBADF ∧ k' = k
    else if size <? 0 then (r = - EFAULT ∨ r = - EINVAL) ∧ k' = k
    else if buffer <? L_USER_START then r = - EFAULT ∧ k' = k
    else r = size ∧ wrote k k' (user_text k buffer size)) k.
Proof.
  intros Hup Hwf Hb Hs Hend. unfold sys_write, check_fd. cbv zeta.
  destruct (fd =? 1); cbn [negb Z.eqb ESCRIPTURA Pos.eqb]; [|by kstep].
  apply wp_bind, (wp_access k t ufr); [done..|]. intros ok Hok.
  destruct (Z.ltb_spec size 0) as [Hneg|Hpos].
  { destruct ok; cbn [negb]; kstep; auto. }
  destruct Hend as [?|Hend]; [lia|]. rewrite (accessible_user k t) in Hok by done.
  destruct (Z.ltb_spec buffer L_USER_START) as [Hlow|Hhigh].
  { destruct ok; [pose proof (proj1 Hok eq_refl); lia|]. cbn [negb]. by kstep. }
  rewrite (proj2 Hok Hhigh). cbn [negb]. apply wp_bind.
  eapply wp_mono; [apply (wp_write_while _ k t ufr); [done|done|done|done|lia]|].
  intros [b r] k1 (E & Hr & Hr' & Hw). cbn [fst snd] in *. subst b.
  assert (Hsu : same_user k k1) by exact (wrote_user _ _ _ Hw).
  apply wp_bind. destruct (Z.ltb_spec 0 r).
  - apply wp_bind. assert (Hua : user_area (buffer + (size - r)) r).
    { unfold user_area, L_USER_START in *. change (USER_FIRST_PAGE * 4096) with 1048576. lia. }
    apply (wp_write_chunk k1 t ufr); [by eapply wrote_process| |lia|done|].
    { destruct Hw as (? & ? & -> & _ & Hp). apply Hp. }
    intros k2 Hw2. apply wp_ret, wp_ret. split; [lia|]. rewrite (user_text_same k k1 t ufr) in Hw2 by (done || by eapply wrote_process).
    replace size with (size - r + r) at 1 by lia. rewrite user_text_app by lia. by eapply wrote_app.
  - apply wp_ret, wp_ret. assert (r = 0) as -> by lia. rewrite !Z.sub_0_r in *. done.
Qed.

(** ** The keyboard buffer *)

(** [k'] is [k] after [sys_read] has moved [n] characters to its local buffer. *)
Definition fetched k k' (n : nat) : Prop :=
  ∃ fr cb, k' = set_cbuff cb (set_frames fr k) ∧ Circ.wf cb ∧ Circ.contents cb = drop n (pending k) ∧
    (∀ j c, (j < n)%nat → pending k !! j = Some c → load8 k' (read_buff + Z.of_nat j) = Some (u8 c)) ∧ same_but read_buff k k'.

Lemma read_slot k t ufr j : user_process k t ufr → 0 ≤ j < MAX_BUFFER_SIZE →
  u32 (read_buff + j) = read_buff + j ∧ translate k (read_buff + j) = Some (read_buff + j).
Proof.
  intros [Ht Hs Hr _] Hj. destruct read_buff_range as [H1 H2]. unfold MAX_BUFFER_SIZE in Hj. split; [wrap_lia|].
  apply (translate_kernel_page k t ufr); [done..|unfold L_USER_START; lia].
Qed.

Lemma fetched_process k k' n t ufr : fetched k k' n → user_process k t ufr → user_process k' t ufr.
Proof.
  intros (fr & cb & -> & _) [Ht Hs Hr Hc]. split; [done| |done|done]. by apply (proc_space_same k).
Qed.

Lemma wp_read_loop f k k1 t ufr b maxchars n :
  user_process k t ufr → fetched k k1 n → (length (pending k) - n < f)%nat → (length (pending k) ≤ 31)%nat →
  0 ≤ maxchars < 2 ^ 31 → (n ≤ length (pending k))%nat → Z.of_nat n ≤ maxchars →
  wp (read_loop f b maxchars (Z.of_nat n) (Z.of_nat n) 0) (λ r k', ∃ m,
    r = (Z.of_nat m, Z.of_nat m, 0) ∧ m = Nat.min (Z.to_nat maxchars) (length (pending k)) ∧ fetched k k' m) k1.
Proof.
  intros Hup. revert k1 n. induction f as [|f IH]; intros k1 n Hfe Hf Hlen Hmax Hn Hnm; [lia|].
  assert (Hup1 := fetched_process _ _ _ _ _ Hfe Hup). assert (Hfe' := Hfe).
  destruct Hfe as (fr & cb & -> & Hcb & Hct & Hold & Hu). cbn [read_loop]. apply wp_bind, wp_gets. cbn [cbuff set_cbuff].
  rewrite Circ.is_empty_contents, Hct by done. rewrite (u32_small maxchars) by wrap_lia.
  destruct (decide (Z.of_nat n < maxchars ∧ (n < length (pending k))%nat)) as [[Hlt Hlt']|Hstop].
  - destruct (lookup_lt_is_Some_2 _ _ Hlt') as [c Hc]. rewrite (drop_S _ _ _ Hc) in Hct |- *.
    cbn [bool_decide negb decide_rel]. rewrite bool_decide_eq_false_2 by done. cbn [negb andb].
    destruct (Z.ltb_spec (Z.of_nat n) maxchars); [|lia].
    destruct (read_slot _ t ufr (Z.of_nat n) Hup1) as [Hsmall Htr]; [unfold MAX_BUFFER_SIZE; lia|].
    apply wp_bind. eapply wp_ask; [unfold load8; cbn [resolve PagedMem]; by rewrite Htr|]. apply wp_bind, wp_zoom. cbn [cbuff set_cbuff].
    destruct (Circ.get_cons cb (s8 (pread (set_cbuff cb (set_frames fr k)) (read_buff + Z.of_nat n))) c _ Hcb Hct) as (cb' & Hg & Hcb' & Hct' & _).
    unfold wp at 1. rewrite Hg. apply wp_bind. rewrite Hsmall. eapply wp_lift.
    { exact (f_equal (λ o, p ← o; Some (pwrite p _ _)) Htr). }
    cbn [snd]. rewrite !(u32_small (Z.of_nat n + 1)) by wrap_lia.
    change MAX_BUFFER_SIZE with 512. destruct (Z.eqb_spec (Z.of_nat n + 1) 512); [lia|].
    replace (Z.of_nat n + 1) with (Z.of_nat (S n)) by lia. apply IH; try lia.
    exists (<[read_buff + Z.of_nat n := u8 c]> fr), cb'. split; [done|]. split; [done|]. split; [done|]. split.
    + intros j d Hj Hd. destruct (read_slot _ t ufr (Z.of_nat j) Hup1) as [_ Htj]; [unfold MAX_BUFFER_SIZE; lia|].
      unfold load8. cbn [resolve PagedMem]. etransitivity; [exact (f_equal (λ o, o ≫= λ p, Some _) Htj)|]. cbn. f_equal.
      destruct (decide (j = n)) as [->|Hne].
      * rewrite lookup_insert_eq. cbn. assert (d = c) as -> by congruence. apply u8_small, u8_range.
      * rewrite lookup_insert_ne by lia. specialize (Hold j d ltac:(lia) Hd). unfold load8 in Hold. cbn [resolve PagedMem] in Hold.
        rewrite Htj in Hold. cbn in Hold. by injection Hold.
    + intros z Hz. rewrite <- (Hu z Hz). cbn [pread pwrite PagedMem frames set_frames set_cbuff]. destruct read_buff_range as [Hrb1 Hrb2].
      unfold outside, MAX_BUFFER_SIZE in *. rewrite lookup_insert_ne; [done|lia].
  - assert (negb (bool_decide (drop n (pending k) = [])) && (Z.of_nat n <? maxchars) = false) as ->.
    { destruct (Z.ltb_spec (Z.of_nat n) maxchars); [|apply andb_false_r].
      rewrite drop_ge by lia. done. }
    apply wp_ret. exists n. split; [done|]. split; [lia|done].
Qed.

Lemma wp_copy_to p q n (Q : Z → kernel → Prop) k :
  wp (lift (copy_data p q n)) (λ _, Q 0) k → wp (copy_to_user p q n) Q k.
Proof. apply wp_copy_from. Qed.

(** The characters go from the local buffer to the user. *)
Lemma wp_deliver k k1 t ufr b n (Q : Z → kernel → Prop) :
  user_process k t ufr → fetched k k1 n → (n ≤ length (pending k))%nat → Z.of_nat n ≤ MAX_BUFFER_SIZE →
  user_area b (Z.of_nat n) →
  (∀ fr, let k' := set_frames fr k1 in
     (∀ j c, (j < n)%nat → pending k !! j = Some c → load8 k' (b + Z.of_nat j) = Some (u8 c)) →
     (∀ z, outside read_buff z → (∀ j, 0 ≤ j < Z.of_nat n → z ≠ user_byte ufr (b + j)) → pread k' z = pread k z) → Q 0 k') →
  wp (copy_to_user read_buff b (Z.of_nat n)) Q k1.
Proof.
  intros Hup Hfe Hn Hmax [Ha Hb] HQ. assert (Hup1 := fetched_process _ _ _ _ _ Hfe Hup).
  destruct Hfe as (fr & cb & -> & _ & _ & Hheld & Hu). set (k1 := set_cbuff cb (set_frames fr k)) in *.
  change (USER_FIRST_PAGE * 4096) with 1048576 in Ha. change (USER_LAST_PAGE * 4096) with 1163264 in Hb.
  destruct read_buff_range as [H1 H2]. unfold MAX_BUFFER_SIZE in Hmax.
  assert (Hdst : ∀ i, 0 ≤ i < Z.of_nat n → user_area (b + i) 1).
  { intros i Hi. unfold user_area. change (USER_FIRST_PAGE * 4096) with 1048576. change (USER_LAST_PAGE * 4096) with 1163264. lia. }
  apply wp_copy_to, (wp_copy _ _ _ (λ i, read_buff + i) (λ i, user_byte ufr (b + i))); try (wrap_lia || lia).
  - intros i Hi. apply (read_slot k1 t ufr); [done|unfold MAX_BUFFER_SIZE; lia].
  - intros i Hi. by apply (user_load k1 t ufr), Hdst.
  - intros i j Hi Hj E. apply (user_byte_inj k1 t ufr) in E; [lia|apply Hup1| |].
    + destruct (Hdst i Hi). lia.
    + destruct (Hdst j Hj). lia.
  - intros i j Hi Hj E. destruct (Hdst j Hj) as [Hd1 Hd2].
    pose proof (user_byte_range k1 t ufr (b + j) (up_space _ _ _ Hup1) ltac:(lia)) as Hr. unfold L_USER_START in Hr. lia.
  - intros fr' Hnew Hold. apply HQ.
    + intros j c Hj Hc. destruct (user_load k1 t ufr (b + Z.of_nat j) Hup1) as [Htr _]; [apply Hdst; lia|].
      etransitivity; [exact (f_equal (λ o, o ≫= λ p, Some _) Htr)|]. cbn [mbind option_bind].
      specialize (Hheld j c Hj Hc). unfold load8 in Hheld. cbn [resolve PagedMem] in Hheld.
      rewrite (proj2 (read_slot k1 t ufr (Z.of_nat j) Hup1 ltac:(unfold MAX_BUFFER_SIZE; lia))) in Hheld. cbn [mbind option_bind] in Hheld.
      rewrite <- Hheld. f_equal. apply Hnew. lia.
    + intros z Hz Hout. rewrite <- (Hu z Hz). by apply Hold.
Qed.
End facts.

(** C19: the guard of the system calls.  For any address and size, [access_ok]
    answers without touching the state, whatever the type of the access (a
    write is checked as a read), and what it accepts never reaches the memory
    of the kernel: every byte of the area is in a user page, in page 284
    behind them, which it lets through, or in a page the process has mapped.
    The sizes are those of an [int] that is not negative. *)
Theorem access_ok_protects_kernel `{LayoutOk} k t type addr size :
  is_task t → has_space k t → current k = t → is_u32 addr →
  ∃ b, access_ok type addr size k = Some (b, k) ∧ (b = true ↔ accessible k t addr size) ∧
    (b = true → 0 ≤ size < 2 ^ 31 → ∀ i, 0 ≤ i < size →
       let page := (addr + i) / 4096 in
       USER_FIRST_PAGE ≤ page < TOTAL_PAGES ∧ (USER_LAST_PAGE < page → page_used k t page)).
Proof.
  intros Ht Hs Hc Ha. destruct (access_ok_run type addr size k t Ht Hs Hc Ha) as (b & Hb & Hiff).
  exists b. split; [exact Hb|]. split; [exact Hiff|]. intros Htrue Hsz i Hi. cbv zeta.
  destruct (proj1 Hiff Htrue) as [Hle Hacc]. unfold u32 in Hle, Hacc. unfold is_u32 in Ha.
  change USER_FIRST_PAGE with 256 in *. change USER_LAST_PAGE with 284 in *. unfold TOTAL_PAGES in *.
  change (2 ^ 32) with 4294967296 in *. change (2 ^ 31) with 2147483648 in *.
  destruct Hacc as [[H1 H2]|(H1 & H2 & Hall)]; [split; Z.div_mod_to_equations; lia|].
  split; [Z.div_mod_to_equations; lia|]. intros _. apply Hall. Z.div_mod_to_equations; lia.
Qed.

Lemma access_ok_protects_kernel_witness : ∃ k, access_ok VERIFY_WRITE 0x1000 16 k = Some (false, k).
Proof.
  destruct example_process as (k & [Ht Hs _ Hc] & _). exists k.
  destruct (access_ok_protects_kernel k _ VERIFY_WRITE 0x1000 16 Ht (ps_space _ _ _ Hs) Hc) as (b & Hb & Hiff & _); [wrap_lia|].
  destruct b; [|exact Hb]. destruct (proj1 Hiff eq_refl) as (_ & [[H1 _]|[H1 _]]); by (exfalso; apply H1).
Defined.

(** A negative size wraps around inside the first page: the check accepts it. *)
Example access_ok_wraps `{LayoutOk} k t : accessible k t 0x100004 (-1).
Proof. split; [done|]. left. split; done. Qed.

(** A buffer that [access_ok] does not accept. *)
Lemma sys_write_refused `{LayoutOk} k t ufr buffer size :
  user_process k t ufr → is_u32 buffer → ¬ accessible k t buffer size →
  wp (sys_write 1 buffer size) (λ r k', r = - EFAULT ∧ k' = k) k.
Proof.
  intros Hup Hb Hno. unfold sys_write, check_fd. cbn [negb Z.eqb ESCRIPTURA Pos.eqb]. apply wp_bind, (wp_access k t ufr); [done..|].
  intros ok Hok. destruct ok; [by destruct Hno; apply Hok|]. cbn [negb]. by apply wp_ret.
Qed.

Lemma sys_read_refused `{LayoutOk} k t ufr b maxchars :
  user_process k t ufr → is_u32 b → ¬ accessible k t b maxchars →
  wp (sys_read b maxchars) (λ r k', r = - EFAULT ∧ k' = k) k.
Proof.
  intros Hup Hb Hno. unfold sys_read. apply wp_bind, (wp_access k t ufr); [done..|].
  intros ok Hok. destruct ok; [by destruct Hno; apply Hok|]. cbn [negb]. by apply wp_ret.
Qed.

(** C20: output, for a buffer that ends inside the user pages or that [access_ok]
    refuses (what else it accepts, the page behind them and pages that the process
    has mapped, is in C19).  [sys_write] checks before it touches anything: another
    file descriptor than 1 gives [EBADF], a negative size an error, and a buffer
    that [access_ok] refuses [EFAULT]: so for one that starts in the memory of the
    kernel, which a process cannot print.  Otherwise the characters of the user
    buffer, in chunks of at most 512 through the kernel buffer, appear on the
    screen as the reference terminal shows them, and the call returns the size;
    nothing else of the kernel changes but the 512 bytes of that buffer, and the
    memory of all the processes is as it was. *)
Theorem sys_write_correct `{LayoutOk} k t ufr fd buffer size :
  user_process k t ufr → wf_console (cons k) → is_u32 buffer → is_s32 size →
  size < 0 ∨ ¬ accessible k t buffer size ∨ buffer + size ≤ USER_LAST_PAGE * 4096 →
  wp (sys_write fd buffer size) (λ r k',
    if negb (fd =? 1) then r = - EBADF ∧ k' = k
    else if size <? 0 then (r = - EFAULT ∨ r = - EINVAL) ∧ k' = k
    else (r = - EFAULT ∧ k' = k ∧ ¬ accessible k t buffer size) ∨
      (r = size ∧ accessible k t buffer size ∧ L_USER_START ≤ buffer ∧
       ∃ fr c, k' = set_cons c (set_frames fr k) ∧ prints (user_text k buffer size) (cons k) c ∧
         ∀ z, z < kern_buff ∨ kern_buff + 512 ≤ z → pread k' z = pread k z)) k.
Proof.
  intros Hup Hwf Hb Hs Hend.
  assert (Hin : size < 0 ∨ buffer + size ≤ USER_LAST_PAGE * 4096 → wp (sys_write fd buffer size) (λ r k',
    if negb (fd =? 1) then r = - EBADF ∧ k' = k
    else if size <? 0 then (r = - EFAULT ∨ r = - EINVAL) ∧ k' = k
    else if buffer <? L_USER_START then r = - EFAULT ∧ k' = k
    else r = size ∧ wrote k k' (user_text k buffer size)) k) by (intros; by apply (sys_write_run k t ufr)).
  destruct (Z.ltb_spec size 0) as [Hneg|Hpos]; [by apply Hin; left|].
  destruct (Z.eqb_spec fd 1) as [->|Hfd]; cbn [negb] in *.
  2: { unfold sys_write, check_fd. apply Z.eqb_neq in Hfd as ->. cbn [negb Z.eqb]. by kstep. }
  destruct Hend as [?|[Hno|Hend]]; [lia| |].
  - eapply wp_mono; [exact (sys_write_refused k t ufr buffer size Hup Hb Hno)|]. intros r k' [-> ->]. by left.
  - eapply wp_mono; [apply Hin; by right|]. intros r k' Hk'. pose proof (accessible_user k t buffer size Hb Hpos Hend) as Hiff.
    destruct (Z.ltb_spec buffer L_USER_START) as [Hlow|Hhigh].
    + destruct Hk' as [-> ->]. left. split; [done|]. split; [done|]. intros Hacc%Hiff. lia.
    + destruct Hk' as (-> & fr & c & E & Hsame & Hp). right. split; [done|]. split; [by apply Hiff|]. split; [done|]. exists fr, c. by split_and!.
Qed.

Lemma sys_write_correct_witness : ∃ k, wp (sys_write (H := example_layout) 1 0x100000 600) (λ r _, r = 600) k.
Proof.
  destruct example_process as (k & Hup & Hwf & _). exists k.
  pose proof (sys_write_correct k _ _ 1 0x100000 600 Hup Hwf) as Hw.
  eapply wp_mono; [apply Hw; [wrap_lia|wrap_lia|right; right; vm_compute; discriminate]|].
  intros r k' [(_ & _ & Hno)|(Hr & _)]; [|exact Hr]. destruct Hno. split; [vm_compute; discriminate|]. left. split; vm_compute; discriminate.
Defined.

Lemma sys_read_run `{LayoutOk} k t ufr b maxchars :
  user_process k t ufr → Circ.wf (cbuff k) → is_u32 b → 0 ≤ maxchars < 2 ^ 31 → b + maxchars ≤ USER_LAST_PAGE * 4096 →
  wp (sys_read b maxchars) (λ r k',
    if b <? L_USER_START then r = - EFAULT ∧ k' = k
    else ∃ n, n = Nat.min (Z.to_nat maxchars) (length (pending k)) ∧ r = Z.of_nat n ∧
      (∀ j c, (j < n)%nat → pending k !! j = Some c → load8 k' (b + Z.of_nat j) = Some (u8 c)) ∧
      (∀ z, outside read_buff z → (∀ j, 0 ≤ j < Z.of_nat n → z ≠ user_byte ufr (b + j)) → pread k' z = pread k z) ∧
      Circ.wf (cbuff k') ∧ pending k' = drop n (pending k) ∧
      ∃ fr, k' = set_cbuff (cbuff k') (set_frames fr k)) k.
Proof.
  intros Hup Hcb Hb Hmax Hend. unfold sys_read. apply wp_bind, (wp_access k t ufr); [done..|]. intros ok Hok.
  rewrite (accessible_user k t) in Hok by (done || lia).
  destruct (Z.ltb_spec b L_USER_START) as [Hlow|Hhigh].
  { destruct ok; [pose proof (proj1 Hok eq_refl); lia|]. cbn [negb]. by apply wp_ret. }
  rewrite (proj2 Hok Hhigh). cbn [negb]. apply wp_bind.
  assert (length (pending k) < 32)%nat as Hlen by (rewrite Circ.length_contents; apply Circ.count_lt).
  assert (fetched k k 0) as Hf0.
  { exists (frames k), (cbuff k). split; [by destruct k|]. split; [done|]. split; [done|]. split; [lia|done]. }
  eapply wp_mono; [apply (wp_read_loop (Z.to_nat Circ.MAX_BUFF_SIZE) k k t ufr b maxchars 0 Hup Hf0);
    [change (Z.to_nat Circ.MAX_BUFF_SIZE) with 32%nat; lia|lia|done|lia|lia]|].
  intros r k1 (n & -> & Hn & Hfe). assert (Hfe' := Hfe). destruct Hfe' as (fr & cb & Ek & Hcb' & Hct & _ & Hu). apply wp_bind.
  destruct (Z.eqb_spec (Z.of_nat n) 0) as [E0|Hne]; cbn [negb].
  - apply wp_ret, wp_ret. exists n. assert (n = 0%nat) as En by lia. split; [done|]. split; [done|]. split; [intros; lia|].
    split; [intros z Hz _; by apply Hu|]. rewrite Ek. split; [done|]. split; [done|]. by exists fr.
  - rewrite Z.mul_0_l, !Z.add_0_r, (u32_small b Hb).
    rewrite u32_small by (destruct read_buff_range; wrap_lia).
    apply wp_bind, (wp_deliver k k1 t ufr b n); [done|done|lia|unfold MAX_BUFFER_SIZE; lia| |].
    { unfold user_area. unfold L_USER_START in Hhigh. change (USER_FIRST_PAGE * 4096) with 1048576. lia. }
    intros fr' k' Hnew Hold. apply wp_ret, wp_ret. exists n. split; [done|]. split; [done|]. split; [exact Hnew|].
    split; [exact Hold|]. subst k' k1. split; [done|]. split; [done|]. by exists fr'.
Qed.

(** C21: input, for a number of characters that is not negative and, as for the
    output, a buffer that ends inside the user pages or that [access_ok] refuses.
    [sys_read] refuses the latter with [EFAULT] and changes nothing: so for a buffer
    in the memory of the kernel.  Otherwise it takes the oldest pending keys, as
    many as there are but not more than [maxchars], out of the keyboard buffer and
    stores them in order at the start of the user buffer; the other pending keys
    stay, and no other byte of the memory changes, of the processes or of the
    kernel, but the 512 bytes of the buffer of [sys_read]. *)
Theorem sys_read_correct `{LayoutOk} k t ufr b maxchars :
  user_process k t ufr → Circ.wf (cbuff k) → is_u32 b → 0 ≤ maxchars < 2 ^ 31 →
  ¬ accessible k t b maxchars ∨ b + maxchars ≤ USER_LAST_PAGE * 4096 →
  wp (sys_read b maxchars) (λ r k',
    (r = - EFAULT ∧ k' = k ∧ ¬ accessible k t b maxchars) ∨
    (accessible k t b maxchars ∧ L_USER_START ≤ b ∧
     ∃ n, n = Nat.min (Z.to_nat maxchars) (length (pending k)) ∧ r = Z.of_nat n ∧
      (∀ j c, (j < n)%nat → pending k !! j = Some c → load8 k' (b + Z.of_nat j) = Some (u8 c)) ∧
      (∀ z, z < read_buff ∨ read_buff + 512 ≤ z → (∀ j, 0 ≤ j < Z.of_nat n → z ≠ user_byte ufr (b + j)) → pread k' z = pread k z) ∧
      Circ.wf (cbuff k') ∧ pending k' = drop n (pending k) ∧
      ∃ fr, k' = set_cbuff (cbuff k') (set_frames fr k))) k.
Proof.
  intros Hup Hcb Hb Hmax [Hno|Hend].
  { eapply wp_mono; [exact (sys_read_refused k t ufr b maxchars Hup Hb Hno)|]. intros r k' [-> ->]. by left. }
  eapply wp_mono; [exact (sys_read_run k t ufr b maxchars Hup Hcb Hb Hmax Hend)|]. intros r k' Hk'.
  pose proof (accessible_user k t b maxchars Hb (proj1 Hmax) Hend) as Hiff. destruct (Z.ltb_spec b L_USER_START) as [Hlow|Hhigh].
  - destruct Hk' as [-> ->]. left. split; [done|]. split; [done|]. intros Hacc%Hiff. lia.
  - right. split; [by apply Hiff|]. split; [done|exact Hk'].
Qed.

Lemma sys_read_correct_witness : ∃ k, wp (sys_read (H := example_layout) 0x100000 10) (λ r k', 0 ≤ r ∧ Circ.wf (cbuff k')) k.
Proof.
  destruct example_process as (k & Hup & _ & Hcb). exists k.
  pose proof (sys_read_correct k _ _ 0x100000 10 Hup Hcb) as Hw.
  eapply wp_mono; [apply Hw; [wrap_lia|lia|right; vm_compute; discriminate]|].
  intros r k' [(_ & _ & Hno)|(_ & _ & n & _ & Hr & _ & _ & Hcb' & _)]; [|split; [lia|exact Hcb']].
  destruct Hno. split; [vm_compute; discriminate|]. left. split; vm_compute; discriminate.
Defined.
