(* ===== verification/Process.v ===== *)
(** * System calls on processes (sys.c)

    Creation, end, blocking and family of the processes: the service routines
    on the kernel state, then their specifications on the queues of the
    scheduler and on the address spaces. *)

From S2P Require Import Prelude CInt ListHead Memory Errno Paging Kernel Mm Sched.
Import PTE PageTable.

Definition USE_COW : bool := false.

Section processes.
Context `{Layout}.

(** ** Identity and time *)

Definition sys_ni_syscall : MK Z := mret (-38).

Definition sys_getpid : MK Z := c ← gets current; p ← pcb c; mret (PID p).

Definition sys_gettime : MK Z := gets zeos_ticks.

(** ** Processes *)

(** [copy_data(parent_union->stack, child_union->stack, PAGE_SIZE)]: the page of
    a task union holds its PCB, with its anchors, and the words of its stack. *)
Definition copy_anchor (a b : Z) (h : links) : option links :=
  e ← h !! a; _ ← h !! b; Some (<[b := e]> h).

Fixpoint copy_words (n : nat) (a b : Z) (m : gmap Z Z) : gmap Z Z :=
  match n with
  | O => m
  | S n =>
      copy_words n (a + 4) (b + 4) (match m !! a with Some v => <[b := v]> m | None => delete b m end)
  end.

Definition copy_union (parent child : Z) : MK unit :=
  p ← pcb parent;
  set_pcb child (λ _, p) ;;
  on_lists (copy_anchor (node parent) (node child)) ;;
  on_lists (copy_anchor (dead_sons parent) (dead_sons child)) ;;
  on_lists (copy_anchor (sons parent) (sons child)) ;;
  on_lists (copy_anchor (bros parent) (bros child)) ;;
  modify (λ k, set_stacks (copy_words (Z.to_nat KERNEL_STACK_SIZE) parent child (stacks k)) k).

(** [pt_child[i] = pt_parent[i]] *)
Definition copy_pte (pt_child pt_parent i : Z) (m : gmap Z Z) : option (gmap Z Z) :=
  e ← load_pte pt_parent i m; store_pte pt_child i e m.

(** The copy-on-write variant of the data pages, compiled out by [USE_COW]. *)
Definition fork_cow (pt_child pt_parent : Z) : MK unit :=
  for_up (Z.to_nat NUM_PAG_DATA) 0 (λ pag,
    on_ptes (copy_pte pt_child pt_parent (PAG_LOG_INIT_DATA + pag)) ;;
    f ← ask (λ k, get_frame pt_child (PAG_LOG_INIT_DATA + pag) (ptes k));
    on_frames (lift (Frames.incr f)) ;;
    on_ptes (update_pte pt_child (PAG_LOG_INIT_DATA + pag) (set_rw 0)) ;;
    on_ptes (update_pte pt_parent (PAG_LOG_INIT_DATA + pag) (set_rw 0))).

(** Reserving a frame and a logical page of the parent for each data page: the
    error of an early return, or the reserved pages. *)
Fixpoint fork_reserve (n : nat) (pag child pt_parent pt_child : Z) : MK (Z + list Z) :=
  match n with
  | O => mret (inr [])
  | S n =>
      c ← gets current;
      free_pt_page ← get_user_free_page c;
      if free_pt_page <? 0 then mret (inl (- ENOMEM))
      else
        new_ph_pag ← on_frames Frames.alloc_frame;
        if new_ph_pag <? 0 then free_user_pages child ;; mret (inl (- ENOMEM))
        else
          on_ptes (set_ss_pag pt_parent free_pt_page new_ph_pag) ;;
          on_ptes (set_ss_pag pt_child (USER_FIRST_PAGE + pag) new_ph_pag) ;;
          r ← fork_reserve n (pag + 1) child pt_parent pt_child;
          mret (match r with inl e => inl e | inr ps => inr (free_pt_page :: ps) end)
  end.

(** Copying the data pages through the reserved pages, then unmapping them. *)
Fixpoint fork_copy (pag : Z) (free_pt_pages : list Z) (pt_parent : Z) : MK unit :=
  match free_pt_pages with
  | [] => mret tt
  | p :: ps =>
      lift (copy_data (Z.shiftl (USER_FIRST_PAGE + pag) 12) (Z.shiftl p 12) PAGE_SIZE) ;;
      on_ptes (del_ss_pag pt_parent p) ;;
      fork_copy (pag + 1) ps pt_parent
  end.

(** The loop over the pages above the user area. *)
Definition fork_shared (pt_parent pt_child : Z) : MK unit :=
  for_up (Z.to_nat (TOTAL_PAGES - USER_LAST_PAGE)) USER_LAST_PAGE (λ pag,
    free ← ask (λ k, is_logic_page_free pt_parent pag (ptes k));
    if (free : bool) then mret tt
    else
      f ← ask (λ k, get_frame pt_parent pag (ptes k));
      let frame := u32 (Z.shiftl f 12) in
      idx ← is_frame_shared frame;
      if negb (idx =? 0) then
        set_shared idx (λ s, with_num_refs (s32 (num_refs s + 1)) s) ;;
        on_ptes (set_ss_pag pt_child pag frame)
      else mret tt).

(** From the flush of the TLB to the return. *)
Definition fork_finish (child : Z) : MK Z :=
  c ← gets current;
  d ← get_DIR c;
  set_cr3 d ;;
  pid ← gets next_pid;
  modify (λ k, set_next_pid (s32 (next_pid k + 1)) k) ;;
  set_pcb child (with_PID pid) ;;
  set_pcb child (with_nr_ticks 0) ;;
  set_pcb child (with_state ST_READY) ;;
  set_pcb child (with_pending_unblocks 0) ;;
  on_lists (list_add_tail (node child) readyqueue) ;;
  store_stack (stack_slot child (KERNEL_STACK_SIZE - 18)) ret_from_fork ;;
  store_stack (stack_slot child (KERNEL_STACK_SIZE - 19)) 0 ;;
  set_pcb child (with_kernel_esp0 (stack_slot child (KERNEL_STACK_SIZE - 19))) ;;
  c ← gets current;
  set_pcb child (with_parent c) ;;
  on_lists (INIT_LIST_HEAD (sons child)) ;;
  on_lists (list_add_tail (bros child) (sons c)) ;;
  p ← pcb child;
  mret (PID p).

(** From the search of the tables on: the pages of the child. *)
Definition fork_space (child : Z) : MK Z :=
  pt_child ← get_PT child;
  c ← gets current;
  pt_parent ← get_PT c;
  for_up (Z.to_nat NUM_PAG_KERNEL) 0 (λ pag, on_ptes (copy_pte pt_child pt_parent pag)) ;;
  for_up (Z.to_nat NUM_PAG_CODE) 0 (λ pag, on_ptes (copy_pte pt_child pt_parent (PAG_LOG_INIT_CODE + pag))) ;;
  if USE_COW then
    fork_cow pt_child pt_parent ;;
    fork_shared pt_parent pt_child ;;
    fork_finish child
  else
    r ← fork_reserve (Z.to_nat NUM_PAG_DATA) 0 child pt_parent pt_child;
    match r with
    | inl e => mret e
    | inr free_pt_pages =>
        c ← gets current;
        d ← get_DIR c;
        set_cr3 d ;;
        fork_copy 0 free_pt_pages pt_parent ;;
        fork_shared pt_parent pt_child ;;
        fork_finish child
    end.

Definition sys_fork : MK Z :=
  b ← list_empty_of freequeue;
  if (b : bool) then mret (- ENOMEM)
  else
    elem ← list_first_of freequeue;
    on_lists (list_del elem) ;;
    let child_pcb := list_head_to_task_struct elem in
    c ← gets current;
    copy_union c child_pcb ;;
    _ ← allocate_DIR child_pcb;
    fork_space child_pcb.

(** The loops of [sys_exit]: the children go to the idle process, the shared
    pages are released. *)
Definition exit_turn (i : Z) : MK unit :=
  let t := task + PAGE_SIZE * i in
  p ← pcb t;
  c ← gets current;
  if negb (parent p =? c) then mret tt
  else
    idle ← gets idle_task;
    set_pcb t (with_parent idle) ;;
    on_lists (list_del (bros t)) ;;
    on_lists (list_add_tail (bros t) (sons idle)).

Definition exit_children : MK unit := for_up (Z.to_nat NR_TASKS) 0 exit_turn.

Definition exit_shared (proc_pcb : Z) : MK unit :=
  for_up (Z.to_nat (TOTAL_PAGES - USER_LAST_PAGE)) USER_LAST_PAGE (λ pag,
    pt ← get_PT proc_pcb;
    free ← ask (λ k, is_logic_page_free pt pag (ptes k));
    if (free : bool) then mret tt
    else
      f ← ask (λ k, get_frame pt pag (ptes k));
      let frame := u32 (Z.shiftl f 12) in
      idx ← is_frame_shared frame;
      if negb (idx =? 0) then
        set_shared idx (λ s, with_num_refs (s32 (num_refs s - 1)) s) ;;
        s ← shared idx;
        (if (num_refs s =? 0) && (to_clear s =? 1) then lift (zero_out frame PAGE_SIZE) else mret tt) ;;
        on_ptes (del_ss_pag pt frame)
      else mret tt).

Definition sys_exit : MK unit :=
  proc_pcb ← gets current;
  p ← pcb proc_pcb;
  (if negb (PID p =? 1) then on_lists (list_del (bros proc_pcb)) else mret tt) ;;
  set_pcb proc_pcb (with_PID (-1)) ;;
  exit_children ;;
  exit_shared proc_pcb ;;
  update_process_state_rr proc_pcb freequeue ST_ZOMBIE ;;
  free_user_pages proc_pcb ;;
  set_pcb proc_pcb (with_dir_pages_baseAddr NULL) ;;
  sched_next_rr.

Definition sys_block : MK Z :=
  proc_pcb ← gets current;
  p ← pcb proc_pcb;
  (if pending_unblocks p =? 0 then
     on_lists (list_add_tail (node proc_pcb) blocked) ;;
     set_pcb proc_pcb (with_state ST_BLOCKED) ;;
     schedule
   else set_pcb proc_pcb (with_pending_unblocks (s32 (pending_unblocks p - 1)))) ;;
  mret 0.

(** What [sys_unblock] does with the child it has found. *)
Definition unblock_son (son : Z) : MK Z :=
  p ← pcb son;
  (if bool_decide (state p = ST_BLOCKED) then
     set_pcb son (with_state ST_READY) ;;
     set_pcb son (with_pending_unblocks 0) ;;
     on_lists (list_del (node son)) ;;
     on_lists (list_add_tail (node son) readyqueue)
   else set_pcb son (with_pending_unblocks (s32 (pending_unblocks p + 1)))) ;;
  mret 0.

(** [list_for_each_safe(pos, n, &proc_pcb->sons)] with its early return. *)
Fixpoint unblock_loop (fuel : nat) (pid head pos n : Z) : MK Z :=
  match fuel with
  | O => fault
  | S f =>
      if pos =? head then mret (- ECHILD)
      else
        let son := list_head_to_task_struct pos in
        p ← pcb son;
        if PID p =? pid then unblock_son son
        else
          n' ← ask (λ k, load_next (lists k) n);
          unblock_loop f pid head n n'
  end.

Definition sys_unblock (pid : Z) : MK Z :=
  proc_pcb ← gets current;
  pos ← ask (λ k, load_next (lists k) (sons proc_pcb));
  n ← ask (λ k, load_next (lists k) pos);
  fuel ← gets (λ k, S (size (lists k)));
  unblock_loop fuel pid (sons proc_pcb) pos n.

Definition sys_numsons : MK Z :=
  c ← gets current; n ← ask (λ k, list_size (sons c) (lists k)); mret (n - 1).

Definition sys_numbros : MK Z :=
  c ← gets current; n ← ask (λ k, list_size (bros c) (lists k)); mret (n - 1).

End processes.

(** ** Blocking the running process *)

Section block.
Context `{LayoutOk}.
Implicit Types (k : kernel) (t run : Z) (p : task_struct) (fq rq bq : list Z) (F : list (Z * list Z)).

Lemma pcb_is_insert_ne k t u p P : u ≠ t → pcb_is k u P →
  pcb_is (set_tasks (<[t := p]> (tasks k)) k) u P.
Proof. intros Hne (q & Hq & HP). exists q. split; [|done]. kcbn. by rewrite lookup_insert_ne. Qed.

Lemma pcb_is_lists k h t P : pcb_is k t P → pcb_is (set_lists h k) t P.
Proof. done. Qed.

Lemma inv_run_user k run fq rq bq F pc :
  sched_inv k run fq rq bq F → run ≠ idle_task k → tasks k !! run = Some pc →
  0 < PID pc ∧ state pc = ST_RUN ∧ run ∉ fq ++ rq ++ bq.
Proof.
  intros (Hp & Hout & _) Hne Hpc. destruct (p_run _ _ _ _ _ _ Hp) as [Hrq Hk].
  rewrite elem_of_app in Hout. rewrite !elem_of_app.
  destruct Hk as [?|[?|[?|[_ (q & Hq & ? & ?)]]]]; [done|tauto|tauto|].
  rewrite Hpc in Hq. injection Hq as <-. tauto.
Qed.

(** The state after [list_add_tail(&run->node, &blocked)] and the new state. *)
Lemma pre_block k run fq rq bq F pc :
  sched_inv k run fq rq bq F → run ≠ idle_task k → tasks k !! run = Some pc →
  ∃ h, list_add_tail (node run) blocked (lists k) = Some h ∧ dom h = dom (lists k) ∧
    sched_pre (set_tasks (<[run := with_state ST_BLOCKED pc]> (tasks k)) (set_lists h k))
      run fq rq (bq ++ [run]) F.
Proof.
  intros Hi Hne Hpc. pose proof Hi as (Hp & _ & _).
  destruct (inv_run_user _ _ _ _ _ _ _ Hi Hne Hpc) as (HPID & _ & Hout).
  pose proof (pre_task _ _ _ _ _ _ run Hp ltac:(tauto)) as Ht.
  destruct (p_nodes _ _ _ _ _ _ Hp run Ht) as [Hd HF].
  pose proof (node_out _ _ _ _ _ Ht HF Hout) as Hn. pose proof (p_rings _ _ _ _ _ _ Hp) as Hl.
  rewrite queues_blocked in Hl, Hn.
  destruct (rings_add_tail _ _ _ _ _ Hl Hd Hn) as (h & Hh & [Hdh _] & Hl').
  exists h. split; [done|]. split; [done|].
  assert (Hmono : ∀ t P, t ≠ run → pcb_is k t P →
    pcb_is (set_tasks (<[run := with_state ST_BLOCKED pc]> (tasks k)) (set_lists h k)) t P).
  { intros t P Ht' Hk. by apply (pcb_is_insert_ne (set_lists h k)). }
  rewrite !elem_of_app in Hout. split; kcbn.
  - rewrite queues_blocked, fmap_app. exact Hl'.
  - rewrite Hdh. apply Hp.
  - intros t. rewrite (p_cover _ _ _ _ _ _ Hp t), !elem_of_app, list_elem_of_singleton. tauto.
  - apply Hp.
  - destruct (p_idle _ _ _ _ _ _ Hp) as [Hid Hidp]. split; [|by apply Hmono; [intros ?; by apply Hne|]].
    rewrite !elem_of_app in Hid. rewrite !elem_of_app, list_elem_of_singleton. intuition congruence.
  - intros t Htf. apply Hmono; [intros ->; tauto|]. by apply Hp.
  - intros t Htr. apply Hmono; [intros ->; tauto|]. by apply Hp.
  - intros t [Htb|Htb]%elem_of_app; [apply Hmono; [intros ->; tauto|]; by apply Hp|].
    apply list_elem_of_singleton in Htb as ->.
    eexists. split; [kcbn; by rewrite lookup_insert_eq|]. done.
  - intros t Htt Htr. apply (saved_ext k).
    + kcbn. by rewrite lookup_insert_ne.
    + done.
    + apply (p_saved _ _ _ _ _ _ Hp); [|done].
      rewrite !elem_of_app in Htt. rewrite elem_of_app. rewrite list_elem_of_singleton in Htt. tauto.
  - split; [tauto|]. right. right. left. rewrite elem_of_app, list_elem_of_singleton. tauto.
Qed.
End block.

Section block_run.
Context `{LayoutOk}.

Lemma sys_block_run k run fq rq bq F pc :
  sched_inv k run fq rq bq F → run ≠ idle_task k → tasks k !! run = Some pc → is_u32 (quantum pc) →
  wp sys_block (λ r k',
    (r = 0 ∧
     if negb (pending_unblocks pc =? 0) then
       sched_inv k' run fq rq bq F ∧ lists k' = lists k ∧
       tasks k' = <[run := with_pending_unblocks (s32 (pending_unblocks pc - 1)) pc]> (tasks k)
     else if (quantum pc <? ticks_since_last_switch k) && bool_decide (rq = []) then
       sched_pre k' run fq rq (bq ++ [run]) F ∧ current k' = run
     else
       sched_inv k' (List.hd (idle_task k) rq) fq (tail rq) (bq ++ [run]) F ∧ saved k' run ∧
       ticks_since_last_switch k' = 0) ∧ idle_task k' = idle_task k) k.
Proof.
  intros Hi Hne Hpc Hq. pose proof Hi as (Hp & Hout & Hcpu).
  pose proof (current_run _ _ _ _ _ _ Hp) as Hcur.
  destruct (inv_run_user _ _ _ _ _ _ _ Hi Hne Hpc) as (HPID & Hst & _).
  unfold sys_block. kstep. kstep. rewrite Hcur. kstep. kstep. kstep.
  destruct (pending_unblocks pc =? 0); cbn [negb].
  2: { ksteps. split; [|done]. split; [done|]. split; [|done].
       assert (sched_frame k (set_tasks (<[run := with_pending_unblocks (s32 (pending_unblocks pc - 1)) pc]> (tasks k)) k))
         as Hf by (by eapply frame_insert).
       split; [by eapply sched_pre_frame|]. split; [done|].
       destruct Hcpu as (Ht & Hm & (q & Hqq & Hc)). rewrite Hpc in Hqq. injection Hqq as <-.
       split_and!; [done|done|]. eexists. split; [kcbn; by rewrite lookup_insert_eq|]. done. }
  destruct (pre_block _ _ _ _ _ _ _ Hi Hne Hpc) as (h & Hh & Hd & Hp').
  ksteps. set (k1 := set_tasks _ _) in *.
  assert (tasks k1 !! run = Some (with_state ST_BLOCKED pc)) as Hpc1 by apply lookup_insert_eq.
  eapply wp_mono; [by eapply schedule_spec|]. intros [] k' Hk'. cbv zeta in Hk'. kstep.
  set (pc' := with_nr_ticks _ _) in Hk'.
  assert (Hw : wants_switch pc' rq = negb ((quantum pc <? ticks_since_last_switch k) && bool_decide (rq = []))).
  { unfold wants_switch. subst pc' k1. cbn. destruct (Z.eqb_spec (PID pc) 0); [lia|]. cbn.
    destruct (quantum pc <? ticks_since_last_switch k); [done|]. by rewrite bool_decide_true. }
  rewrite Hw in Hk'. destruct ((quantum pc <? ticks_since_last_switch k) && bool_decide (rq = [])).
  - cbn [negb] in Hk'. subst k'. split; [|done]. split; [done|].
    assert (sched_pre (set_tasks (<[run := pc']> (tasks k1)) k1) run fq rq (bq ++ [run]) F) as Hp2.
    { eapply sched_pre_frame; [by eapply frame_insert|exact Hp']. }
    split; [exact Hp2|]. by eapply current_run.
  - cbn [negb] in Hk'. destruct Hk' as (Hi' & Hsame & Ht & Hs). split; [split; [done|]|exact (proj1 (proj2 (proj2 (proj2 (proj2 (proj2 (proj2 (proj2 Hsame))))))))].
    assert (requeue (with_state ST_BLOCKED pc) run rq = tail rq) as Hrq.
    { unfold requeue, runnable. cbn. by rewrite andb_false_r, app_nil_r. }
    rewrite Hrq in Hi'. done.
Qed.
End block_run.

(** C17: [sys_block] blocks the process that calls it, unless it has been
    unblocked before.  With pending unblocks it uses one up and goes on
    running.  Without, it goes to the back of the blocked queue and the first
    ready process (the idle one if there is none) gets the processor, the
    context of the blocked process being saved and the invariant kept; but when
    its quantum has expired and no process is ready, [needs_sched_rr] answers
    no before it looks at the state: the process keeps the processor while it
    is in the blocked queue. *)
Theorem sys_block_correct `{LayoutOk} k run fq rq bq F pc :
  sched_inv k run fq rq bq F → run ≠ idle_task k → tasks k !! run = Some pc → is_u32 (quantum pc) →
  wp sys_block (λ r k',
    r = 0 ∧
    if negb (pending_unblocks pc =? 0) then
      sched_inv k' run fq rq bq F ∧ lists k' = lists k ∧
      tasks k' = <[run := with_pending_unblocks (s32 (pending_unblocks pc - 1)) pc]> (tasks k)
    else if (quantum pc <? ticks_since_last_switch k) && bool_decide (rq = []) then
      sched_pre k' run fq rq (bq ++ [run]) F ∧ current k' = run
    else
      sched_inv k' (List.hd (idle_task k) rq) fq (tail rq) (bq ++ [run]) F ∧ saved k' run ∧
      ticks_since_last_switch k' = 0) k.
Proof.
  intros Hi Hne Hpc Hq. eapply wp_mono; [by eapply sys_block_run|]. by intros r k' [? _].
Qed.

Lemma sys_block_correct_witness :
  wp (sys_block (H := example_layout)) (λ r k', r = 0 ∧ saved (H := example_layout) k' 0x21000) example_run.
Proof.
  pose proof (sys_block_correct example_run 0x21000 example_free [0x22000] [0x23000] example_family
    (example_task 1 ST_RUN 0x21000) example_inv) as Hw.
  eapply wp_mono; [apply Hw; [done|reflexivity|by vm_compute]|].
  intros r k' (Hr & _ & Hs & _). exact (conj Hr Hs).
Defined.

(** ** Unblocking a child *)

(** The first of the processes [cs] whose PID is [pid]. *)
Fixpoint find_pid (m : gmap Z task_struct) (pid : Z) (cs : list Z) : option Z :=
  match cs with
  | [] => None
  | c :: cs => if bool_decide (PID <$> m !! c = Some pid) then Some c else find_pid m pid cs
  end.

Section unblock.
Context `{LayoutOk}.
Implicit Types (k : kernel) (t run c : Z) (p : task_struct) (fq rq bq cs : list Z) (F : list (Z * list Z)).

Lemma list_head_bros t : is_task t → list_head_to_task_struct (bros t) = t.
Proof. intros Ht. apply page_of; [done|]. unfold bros. lia. Qed.

Lemma bros_ne_sons t u : is_task t → is_task u → bros t ≠ sons u.
Proof. intros [_ Ht] [_ Hu]. unfold bros, sons. Z.div_mod_to_equations; lia. Qed.

Lemma unblock_loop_spec fuel pid head k cs (a n : Z) (Q : Z → kernel → Prop) :
  lseg (lists k) a (bros <$> cs) head → is_Some (load_next (lists k) head) →
  (∀ c, c ∈ cs → is_task c ∧ is_Some (tasks k !! c) ∧ bros c ≠ head) →
  (length cs < fuel)%nat →
  match find_pid (tasks k) pid cs with
  | None => Q (- ECHILD) k
  | Some c => wp (unblock_son c) Q k
  end →
  load_next (lists k) (List.hd head (bros <$> cs)) = Some n →
  wp (unblock_loop fuel pid head (List.hd head (bros <$> cs)) n) Q k.
Proof.
  intros Hl Hh. revert fuel a n Hl. induction cs as [|c cs IH]; intros fuel a n Hl Hcs Hf HQ Hn;
    (destruct fuel as [|fuel]; [lia|]); cbn [fmap list_fmap List.hd unblock_loop] in *.
  - rewrite Z.eqb_refl. by kstep.
  - destruct (Hcs c) as (Ht & [p Hp] & Hne); [by left|].
    destruct (Z.eqb_spec (bros c) head); [done|]. rewrite list_head_bros by done. kstep. kstep.
    cbn [find_pid] in HQ. rewrite Hp in HQ. cbn [fmap option_fmap option_map] in HQ.
    destruct (Z.eqb_spec (PID p) pid) as [Heq|Hpid]; [by rewrite bool_decide_true in HQ by congruence|].
    rewrite bool_decide_false in HQ by congruence.
    destruct Hl as (_ & _ & Hl). pose proof (lseg_first _ _ _ _ Hl) as Hn'. rewrite Hn in Hn'.
    injection Hn' as ->.
    assert (is_Some (load_next (lists k) (List.hd head (bros <$> cs)))) as [n' Hn'].
    { destruct cs as [|c' cs]; [done|]. destruct Hl as (_ & _ & Hl). cbn. by rewrite (lseg_first _ _ _ _ Hl). }
    kstep. eapply wp_ask; [exact Hn'|]. eapply IH; [exact Hl| |cbn in Hf; lia|done|done].
    intros c' Hc'. apply Hcs. by right.
Qed.

(** The state after a blocked child has been made ready. *)
Lemma pre_unblock k run fq rq b1 c b2 F p :
  sched_pre k run fq rq (b1 ++ c :: b2) F → c ≠ run → tasks k !! c = Some p →
  ∃ h1 h2, list_del (node c) (lists k) = Some h1 ∧ list_add_tail (node c) readyqueue h1 = Some h2 ∧
    sched_pre (set_lists h2 (set_tasks (<[c := with_pending_unblocks 0 (with_state ST_READY p)]> (tasks k)) k))
      run fq (rq ++ [c]) (b1 ++ b2) F.
Proof.
  intros Hp Hne Hpc. pose proof (p_rings _ _ _ _ _ _ Hp) as Hl.
  pose proof (rings_nodup _ _ _ _ _ Hl) as Hnd.
  assert (c ∈ b1 ++ c :: b2) as Hcb by (rewrite elem_of_app; right; by left).
  pose proof (pre_task _ _ _ _ _ _ c Hp ltac:(rewrite !elem_of_app in *; tauto)) as Ht.
  destruct (p_blocked _ _ _ _ _ _ Hp c Hcb) as (p' & Hp' & HPID & _).
  rewrite Hpc in Hp'. injection Hp' as <-. destruct (p_nodes _ _ _ _ _ _ Hp c Ht) as [Hd HF].
  rewrite queues_blocked, fmap_app in Hl.
  destruct (rings_del _ _ (fmap (M := list) node b1) (node c) (fmap (M := list) node b2) _ Hl) as (h1 & Hh1 & [Hd1 _] & Hl1 & _ & Hout).
  rewrite <- fmap_app, <- queues_blocked in Hl1, Hout.
  rewrite queues_ready in Hl1, Hout. rewrite <- Hd1 in Hd.
  destruct (rings_add_tail _ _ _ _ _ Hl1 Hd Hout) as (h2 & Hh2 & [Hd2 _] & Hl2).
  exists h1, h2. split; [done|]. split; [done|].
  assert (Hmem : ∀ t, t ∈ fq ∨ t ∈ rq ∨ t ∈ b1 ++ b2 → t ≠ c).
  { assert (Hperm : fq ++ rq ++ b1 ++ c :: b2 ≡ₚ c :: fq ++ rq ++ b1 ++ b2) by solve_Permutation.
    rewrite Hperm in Hnd. apply NoDup_cons in Hnd as [Hc _]. rewrite !elem_of_app in Hc.
    intros t Htq ->. rewrite elem_of_app in Htq. tauto. }
  assert (Hmono : ∀ t P, t ≠ c → pcb_is k t P →
    pcb_is (set_lists h2 (set_tasks (<[c := with_pending_unblocks 0 (with_state ST_READY p)]> (tasks k)) k)) t P).
  { intros t P Ht' Hk. by apply pcb_is_lists, pcb_is_insert_ne. }
  assert (Hsub : ∀ t, t ∈ b1 ++ b2 → t ∈ b1 ++ c :: b2).
  { intros t. rewrite !elem_of_app, elem_of_cons. tauto. }
  split; kcbn.
  - rewrite queues_ready, fmap_app. exact Hl2.
  - rewrite Hd2, Hd1. apply Hp.
  - intros t. rewrite (p_cover _ _ _ _ _ _ Hp t), !elem_of_app, elem_of_cons, list_elem_of_singleton. tauto.
  - apply Hp.
  - destruct (p_idle _ _ _ _ _ _ Hp) as [Hid Hidp]. split.
    + rewrite !elem_of_app, elem_of_cons in Hid. rewrite !elem_of_app, list_elem_of_singleton. tauto.
    + apply Hmono; [|done]. rewrite !elem_of_app, elem_of_cons in Hid. intros E. apply Hid. tauto.
  - intros t Htf. apply Hmono; [apply Hmem; tauto|]. by apply Hp.
  - intros t [Htr|Htr]%elem_of_app; [apply Hmono; [apply Hmem; tauto|]; by apply Hp|].
    apply list_elem_of_singleton in Htr as ->. eexists. split; [kcbn; by rewrite lookup_insert_eq|]. done.
  - intros t Htb. apply Hmono; [apply Hmem; tauto|]. apply Hp. by apply Hsub.
  - intros t Htt Htr. apply (saved_ext k).
    + kcbn. rewrite lookup_insert. case_decide; [subst; by rewrite Hpc|done].
    + done.
    + apply (p_saved _ _ _ _ _ _ Hp); [|done].
      rewrite !elem_of_app in Htt. rewrite !elem_of_app, elem_of_cons. rewrite list_elem_of_singleton in Htt. tauto.
  - destruct (p_run _ _ _ _ _ _ Hp) as [Hr Hk].
    rewrite !elem_of_app, elem_of_cons in Hk. rewrite !elem_of_app, list_elem_of_singleton.
    split; [intros [?|?]; congruence|].
    destruct Hk as [?|[?|[[?|[?|?]]|[? Hs]]]]; [tauto|tauto|tauto|congruence|tauto|]. right. right. right.
    split; [tauto|]. by apply Hmono.
Qed.

Lemma find_pid_in m pid cs c : find_pid m pid cs = Some c → c ∈ cs.
Proof.
  induction cs as [|c' cs IH]; cbn; [done|]. case_bool_decide; [intros [= ->]; by left|].
  intros Hc. right. by apply IH.
Qed.

(** The children of the process that runs. *)
Definition children k run fq rq bq F cs : Prop :=
  (sons run, bros <$> cs) ∈ F ∧ ∀ c, c ∈ cs → c ∈ rq ++ bq.

Lemma unblock_son_run k run fq rq bq F cs c p :
  sched_inv k run fq rq bq F → children k run fq rq bq F cs → c ∈ cs → tasks k !! c = Some p →
  wp (unblock_son c) (λ r k', r = 0 ∧ idle_task k' = idle_task k ∧
    if bool_decide (state p = ST_BLOCKED) then
      ∃ b1 b2, bq = b1 ++ c :: b2 ∧ sched_inv k' run fq (rq ++ [c]) (b1 ++ b2) F ∧
        pcb_is k' c (λ p, state p = ST_READY ∧ pending_unblocks p = 0)
    else
      sched_inv k' run fq rq bq F ∧
      tasks k' = <[c := with_pending_unblocks (s32 (pending_unblocks p + 1)) p]> (tasks k)) k.
Proof.
  intros Hi [_ Hcs] Hc Hpc. pose proof Hi as (Hp & Hout & Ht & Hm & (q & Hq & Hcr)).
  pose proof (Hcs c Hc) as Hlive.
  assert (c ≠ run) as Hne.
  { intros ->. pose proof (proj1 (p_run _ _ _ _ _ _ Hp)). rewrite elem_of_app in Hout, Hlive. tauto. }
  unfold unblock_son. kstep. kstep. kstep. case_bool_decide as Hst.
  - assert (c ∈ bq) as (b1 & b2 & ->)%list_elem_of_split.
    { apply elem_of_app in Hlive as [Hr|?]; [|done].
      destruct (p_ready _ _ _ _ _ _ Hp c Hr) as (p' & Hp' & _ & Hrd). congruence. }
    destruct (pre_unblock _ _ _ _ _ _ _ _ _ Hp Hne Hpc) as (h1 & h2 & Hh1 & Hh2 & Hp2).
    kstep. kstep. kstep. kstep; [by rewrite lookup_insert_eq|]. rewrite insert_insert_eq. ksteps.
    split; [done|]. split; [done|]. exists b1, b2. split; [done|]. split; [split; [|split]|].
    + eapply sched_pre_frame; [|exact Hp2]. split; [|done]. intros t. kcbn.
      destruct (<[c:=_]> (tasks k) !! t); constructor. done.
    + rewrite !elem_of_app, elem_of_cons in Hout. rewrite !elem_of_app. tauto.
    + split_and!; [done|done|]. exists q. kcbn. by rewrite lookup_insert_ne.
    + eexists. split; [kcbn; by rewrite lookup_insert_eq|]. done.
  - ksteps. split; [done|]. split; [done|]. split; [|done]. split; [|split; [done|]].
    + eapply sched_pre_frame; [by eapply frame_insert|done].
    + split_and!; [done|done|]. exists q. kcbn. by rewrite lookup_insert_ne.
Qed.

Lemma sys_unblock_run k run fq rq bq F cs pid :
  sched_inv k run fq rq bq F → children k run fq rq bq F cs →
  wp (sys_unblock pid) (λ r k', idle_task k' = idle_task k ∧
    match find_pid (tasks k) pid cs with
    | None => r = - ECHILD ∧ k' = k
    | Some c => r = 0 ∧ ∃ p, tasks k !! c = Some p ∧ PID p = pid ∧
        if bool_decide (state p = ST_BLOCKED) then
          ∃ b1 b2, bq = b1 ++ c :: b2 ∧ sched_inv k' run fq (rq ++ [c]) (b1 ++ b2) F ∧
            pcb_is k' c (λ p, state p = ST_READY ∧ pending_unblocks p = 0)
        else
          sched_inv k' run fq rq bq F ∧
          tasks k' = <[c := with_pending_unblocks (s32 (pending_unblocks p + 1)) p]> (tasks k)
    end) k.
Proof.
  intros Hi Hcs. pose proof Hi as (Hp & _). pose proof Hcs as [HF Hlive].
  assert (Hring : ring (lists k) (sons run) (bros <$> cs)).
  { eapply rings_ring; [apply Hp|]. unfold queues. do 3 right. exact HF. }
  pose proof Hring as [Hnd Hl]. apply NoDup_cons in Hnd as [Hnotin _].
  assert (Htask : ∀ c, c ∈ cs → is_task c ∧ is_Some (tasks k !! c)).
  { intros c Hc. specialize (Hlive c Hc). split.
    - eapply pre_task; [done|]. right. right. rewrite elem_of_app. by right.
    - apply elem_of_app in Hlive as [Hr|Hb].
      + destruct (p_ready _ _ _ _ _ _ Hp c Hr) as (p & ? & _). eauto.
      + destruct (p_blocked _ _ _ _ _ _ Hp c Hb) as (p & ? & _). eauto. }
  unfold sys_unblock. kstep. kstep. rewrite (current_run _ _ _ _ _ _ Hp).
  pose proof (lseg_first _ _ _ _ Hl) as Hfirst.
  assert (is_Some (load_next (lists k) (List.hd (sons run) (bros <$> cs)))) as [n Hn].
  { destruct cs as [|c cs]; [cbn; by rewrite Hfirst|]. destruct Hl as (_ & _ & Hl). cbn. by rewrite (lseg_first _ _ _ _ Hl). }
  kstep. eapply wp_ask; [exact Hfirst|]. kstep. eapply wp_ask; [exact Hn|]. kstep. kstep.
  eapply unblock_loop_spec; [exact Hl|by rewrite Hfirst| | | |exact Hn].
  - intros c Hc. destruct (Htask c Hc). split_and!; [done|done|].
    intros E. apply Hnotin. rewrite <- E. by apply list_elem_of_fmap_2.
  - pose proof (ring_length _ _ _ Hring) as Hlen. rewrite length_fmap in Hlen. lia.
  - destruct (find_pid (tasks k) pid cs) as [c|] eqn:Ef; [|done].
    pose proof (find_pid_in _ _ _ _ Ef) as Hc. destruct (Htask c Hc) as [_ [p Hpc]].
    eapply wp_mono; [by eapply unblock_son_run|]. intros r k' (-> & Hid & Hk'). split; [done|]. split; [done|].
    exists p. split_and!; [done| |done].
    clear - Ef Hpc. induction cs as [|c' cs IH]; [done|]. cbn in Ef. case_bool_decide as E; [|by apply IH].
    injection Ef as ->. rewrite Hpc in E. by injection E.
Qed.
End unblock.

(** C16: [sys_unblock] looks for the first child of the running process with the
    given PID.  Without one it fails with [ECHILD] and changes nothing.  A child
    that is blocked goes from the blocked queue to the back of the ready queue;
    one that is not gets a pending unblock, which by [sys_block_correct] its
    next [sys_block] uses up instead of blocking: a wake-up is never lost.  The
    invariant of the queues is kept. *)
Theorem sys_unblock_correct `{LayoutOk} k run fq rq bq F cs pid :
  sched_inv k run fq rq bq F → children k run fq rq bq F cs →
  wp (sys_unblock pid) (λ r k',
    match find_pid (tasks k) pid cs with
    | None => r = - ECHILD ∧ k' = k
    | Some c => r = 0 ∧ ∃ p, tasks k !! c = Some p ∧ PID p = pid ∧
        if bool_decide (state p = ST_BLOCKED) then
          ∃ b1 b2, bq = b1 ++ c :: b2 ∧ sched_inv k' run fq (rq ++ [c]) (b1 ++ b2) F ∧
            pcb_is k' c (λ p, state p = ST_READY ∧ pending_unblocks p = 0)
        else
          sched_inv k' run fq rq bq F ∧
          tasks k' = <[c := with_pending_unblocks (s32 (pending_unblocks p + 1)) p]> (tasks k)
    end) k.
Proof.
  intros Hi Hcs. eapply wp_mono; [by eapply sys_unblock_run|]. by intros r k' [_ ?].
Qed.

Lemma sys_unblock_correct_witness :
  wp (sys_unblock (H := example_layout) 3) (λ r k', r = 0 ∧
    pcb_is k' 0x23000 (λ p, state p = ST_READY ∧ pending_unblocks p = 0)) example_run.
Proof.
  pose proof (sys_unblock_correct example_run 0x21000 example_free [0x22000] [0x23000] example_family
    [0x22000; 0x23000] 3 example_inv) as Hw.
  assert (find_pid (tasks example_run) 3 [0x22000; 0x23000] = Some 0x23000) as Hf by reflexivity.
  rewrite Hf in Hw. eapply wp_mono.
  { apply Hw. split; [by left|]. intros c Hc. cbn. set_solver. }
  intros r k' (Hr & p & Hp & _ & Hk'). injection Hp as <-. destruct Hk' as (b1 & b2 & _ & _ & Hk').
  exact (conj Hr Hk').
Defined.
