(* ===== verification/Shm.v ===== *)
(** * Shared memory (sys_shmat, sys_shmdt and sys_shmrm of sys.c)

    Ten shared pages, attached to a process by an entry of its page table. *)

From S2P Require Import Prelude CInt ListHead Memory Errno Console Paging Kernel Mm Space Sched Boot System.
Import PTE PageTable.

Section shm.
Context `{Layout}.

(** From [set_ss_pag] to the return of [sys_shmat]. *)
Definition shm_attach (id proc_tp addr_page : Z) : MK Z :=
  s ← shared id;
  on_ptes (set_ss_pag proc_tp addr_page (frame s)) ;;
  c ← gets current;
  d ← get_DIR c;
  set_cr3 d ;;
  set_shared id (λ s, with_num_refs (s32 (num_refs s + 1)) s) ;;
  mret (u32 (Z.shiftl addr_page 12)).

Definition sys_shmat (id addr : Z) : MK Z :=
  if (id <? 0) || (9 <? id) then mret (- ENOSHR)
  else
    c ← gets current;
    proc_tp ← get_PT c;
    if addr =? NULL then
      c ← gets current;
      addr_page ← get_user_free_page c;
      if addr_page =? -1 then mret (- ENOMEM) else shm_attach id proc_tp addr_page
    else if negb (addr mod PAGE_SIZE =? 0) then mret (- EFAULT)
    else
      let addr_page := Z.shiftr addr 12 in
      free ← ask (λ k, is_logic_page_free proc_tp addr_page (ptes k));
      if (free : bool) then shm_attach id proc_tp addr_page
      else
        c ← gets current;
        addr_page ← get_user_free_page c;
        if addr_page =? -1 then mret (- ENOMEM) else shm_attach id proc_tp addr_page.

Definition sys_shmdt (addr : Z) : MK Z :=
  if addr =? NULL then mret (- EINVAL)
  else if negb (addr mod PAGE_SIZE =? 0) then mret (- EFAULT)
  else
    let addr_page := Z.shiftr addr 12 in
    c ← gets current;
    proc_tp ← get_PT c;
    free ← ask (λ k, is_logic_page_free proc_tp addr_page (ptes k));
    if (free : bool) then mret (- ENOSHR)
    else
      frame ← ask (λ k, get_frame proc_tp addr_page (ptes k));
      idx ← is_frame_shared frame;
      if negb (idx =? 0) then
        set_shared idx (λ s, with_num_refs (s32 (num_refs s - 1)) s) ;;
        s ← shared idx;
        (if (num_refs s =? 0) && (to_clear s =? 1) then lift (zero_out addr PAGE_SIZE) else mret tt) ;;
        on_ptes (del_ss_pag proc_tp addr_page) ;;
        c ← gets current;
        d ← get_DIR c;
        set_cr3 d ;;
        mret 0
      else mret (- ENOSHR).

Definition sys_shmrm (id : Z) : MK Z :=
  if (id <? 0) || (9 <? id) then mret (- ENOSHR)
  else set_shared id (with_to_clear 1) ;; mret 0.

End shm.

(** ** The shared pages of the kernel *)

(** Ten pages in different frames of the memory above the kernel. *)
Record shm_ok (k : kernel) : Prop := {
  so_pages : length (shared_pages k) = 10%nat;
  so_frames : ∀ i s, znth (shared_pages k) i = Some s → NUM_PAG_KERNEL ≤ frame s < TOTAL_PAGES;
  so_inj : ∀ i j s s', znth (shared_pages k) i = Some s → znth (shared_pages k) j = Some s' → frame s = frame s' → i = j;
}.

Lemma shm_ok_same k k' : shared_pages k' = shared_pages k → shm_ok k → shm_ok k'.
Proof. intros E [H1 H2 H3]. split; rewrite E; assumption. Qed.

(** [frame << 12] is the number of no shared page: [is_frame_shared] answers 0. *)
Lemma wp_shifted_frame `{LayoutOk} f (Q : Z → kernel → Prop) k :
  shm_ok k → Q 0 k → wp (is_frame_shared (u32 (Z.shiftl f 12))) Q k.
Proof.
  intros Hok HQ. apply wp_is_frame_shared; [apply Hok|]. intros i [(s & Hs & E)|[-> _]]; [|exact HQ].
  exfalso. pose proof (so_frames _ Hok _ _ Hs) as Hf. unfold NUM_PAG_KERNEL, TOTAL_PAGES in Hf.
  rewrite Z.shiftl_mul_pow2 in E by lia. change (2 ^ 12) with 4096 in E. unfold u32 in E. change (2 ^ 32) with 4294967296 in E.
  Z.div_mod_to_equations; lia.
Qed.

Section attach.
Context `{LayoutOk}.
Implicit Types (k : kernel) (t p id : Z) (s : SharedPage).

(** The state after [shm_attach]. *)
Definition attached k t id p s : kernel :=
  set_shared_pages (<[Z.to_nat id := with_num_refs (s32 (num_refs s + 1)) s]> (shared_pages k))
    (put_cr3 (dir_of t) (set_ptes (<[slot (pt_of t) p := ss_entry (frame s)]> (ptes k)) k)).

Lemma wp_get_DIR t (Q : Z → kernel → Prop) k : has_space k t → Q (dir_of t) k → wp (get_DIR t) Q k.
Proof. intros ((p & Hp & Hd) & _) HQ. unfold get_DIR. ksteps. by rewrite Hd. Qed.

(** Loading the directory that is loaded. *)
Lemma put_cr3_same k d : cr3 k = d → put_cr3 d k = k.
Proof. intros <-. by destruct k. Qed.

Lemma wp_shm_attach k t ufr id p s (Q : Z → kernel → Prop) :
  user_process k t ufr → 0 ≤ p < TOTAL_PAGES → znth (shared_pages k) id = Some s →
  Q (p * 4096) (attached k t id p s) → wp (shm_attach id (pt_of t) p) Q k.
Proof.
  intros [Ht Hs Hr Hc] Hp Hsh HQ. assert (Hsp := ps_space _ _ _ Hs).
  unfold shm_attach. kstep. eapply wp_shared; [exact Hsh|]. kstep. eapply wp_on_ptes.
  { apply set_ss_pag_effect. exact (proj2 (proj2 Hsp) p Hp). }
  apply wp_bind, wp_gets. change (current (set_ptes _ k)) with (current k). rewrite Hc.
  apply wp_bind, wp_get_DIR; [by apply has_space_insert|]. unfold set_cr3. ksteps.
  rewrite Z.shiftl_mul_pow2 by lia. rewrite u32_small; [exact HQ|].
  unfold TOTAL_PAGES in Hp. change (2 ^ 12) with 4096. wrap_lia.
Qed.

(** The page [sys_shmat] takes: the one asked for if it is free, the first free
    one otherwise. *)
Definition chosen k t addr p : Prop :=
  0 ≤ p < TOTAL_PAGES ∧ ¬ page_used k t p ∧
  if (addr =? 0) || negb (bool_decide (ptes k !! slot (pt_of t) (addr / 4096) = Some 0)) then first_free k t p
  else p = addr / 4096.

Lemma sys_shmat_run k t ufr id addr (Q : Z → kernel → Prop) :
  user_process k t ufr → shm_ok k → 0 ≤ addr < 2 ^ 22 →
  (((id <? 0) || (9 <? id)) = true → Q (- ENOSHR) k) →
  (0 ≤ id ≤ 9 → addr mod 4096 ≠ 0 → Q (- EFAULT) k) →
  (0 ≤ id ≤ 9 → addr mod 4096 = 0 → (∀ p, USER_LAST_PAGE ≤ p < TOTAL_PAGES → page_used k t p) → Q (- ENOMEM) k) →
  (∀ p s, 0 ≤ id ≤ 9 → addr mod 4096 = 0 → chosen k t addr p → znth (shared_pages k) id = Some s →
     Q (p * 4096) (attached k t id p s)) →
  wp (sys_shmat id addr) Q k.
Proof.
  intros Hup Hok Ha Hbad Hmis Hfull Hgood. assert (Hup' := Hup). destruct Hup' as [Ht Hs Hr Hc].
  assert (Hsp := ps_space _ _ _ Hs). unfold sys_shmat.
  destruct ((id <? 0) || (9 <? id)) eqn:Hid; [apply wp_ret; by apply Hbad|].
  apply orb_false_iff in Hid as [Hid1%Z.ltb_ge Hid2%Z.ltb_ge].
  destruct (znth_in_range (shared_pages k) id) as [s Hsh]; [rewrite (so_pages _ Hok); lia|].
  apply wp_bind, wp_gets. rewrite Hc. apply wp_bind, wp_get_PT; [done..|].
  assert (Hfree : addr mod 4096 = 0 →
    (addr =? 0) || negb (bool_decide (ptes k !! slot (pt_of t) (addr / 4096) = Some 0)) = true →
    wp (c ← gets current; addr_page ← get_user_free_page c;
        if addr_page =? -1 then mret (- ENOMEM) else shm_attach id (pt_of t) addr_page) Q k).
  { intros Hal Hb. apply wp_bind, wp_gets. rewrite Hc. apply wp_bind, wp_free_page; [done..|]. intros p Hp.
    assert (Hp' := Hp). destruct Hp' as [(H1 & H2 & H3)|[-> H3]]; [|by apply Hfull].
    change USER_LAST_PAGE with 284 in H1. destruct (Z.eqb_spec p (-1)); [lia|].
    eapply wp_shm_attach; [done|lia|done|]. apply Hgood; [done|done| |done]. split; [lia|]. split; [done|]. by rewrite Hb. }
  change NULL with 0. destruct (Z.eqb_spec addr 0) as [->|Hne]; [by apply Hfree|]. change PAGE_SIZE with 4096.
  destruct (Z.eqb_spec (addr mod 4096) 0) as [Hal|Hal]; cbn [negb]; [|apply wp_ret; by apply Hmis].
  rewrite Z.shiftr_div_pow2 by lia. change (2 ^ 12) with 4096. change (2 ^ 22) with 4194304 in Ha.
  assert (0 ≤ addr / 4096 < TOTAL_PAGES) as Hpg by (unfold TOTAL_PAGES; Z.div_mod_to_equations; lia).
  destruct (proj2 (proj2 Hsp) (addr / 4096) Hpg) as [e He].
  apply wp_bind. eapply wp_ask; [unfold is_logic_page_free, load_pte; by rewrite He|].
  destruct (Z.eqb_spec e 0) as [->|Hused].
  - eapply wp_shm_attach; [done|done|done|]. apply Hgood; [done|done| |done]. split; [done|].
    split; [intros (e & E & ?); congruence|]. rewrite He, bool_decide_eq_true_2 by done. by destruct (Z.eqb_spec addr 0).
  - apply Hfree; [done|]. rewrite He, bool_decide_eq_false_2 by congruence. apply orb_true_r.
Qed.

(** The memory of a page, through its mapping. *)
Lemma attached_translate k t ufr id p s fr va :
  user_process k t ufr → 0 ≤ p < TOTAL_PAGES → 0 ≤ frame s < 2 ^ 20 → 0 ≤ va < 2 ^ 22 →
  translate (set_frames fr (attached k t id p s)) va =
    if va / 4096 =? p then Some (frame s * 4096 + va mod 4096) else translate k va.
Proof.
  intros [Ht Hs [Hr1 Hr2] Hc] Hp Hf Hva. destruct (ss_entry_fields (frame s) Hf) as (Hb & Hpr & _).
  transitivity (translate (set_ptes (<[slot (pt_of t) p := ss_entry (frame s)]> (ptes k)) k) va).
  { unfold translate, attached. kcbn. by rewrite Hr1. }
  rewrite (translate_insert k t) by (done || apply Hs). by rewrite Hpr, Hb.
Qed.

(** Taking the last reference back: the array of shared pages is the one before. *)
Lemma refs_back (l : list SharedPage) id s :
  znth l id = Some s → 0 ≤ num_refs s < 2 ^ 31 - 1 →
  let s1 := with_num_refs (s32 (num_refs s + 1)) s in
  with_num_refs (s32 (num_refs s1 - 1)) s1 = s ∧
  znth (<[Z.to_nat id := s1]> l) id = Some s1 ∧ <[Z.to_nat id := s]> (<[Z.to_nat id := s1]> l) = l.
Proof.
  intros Hs Hn s1. pose proof (znth_Some_range _ _ _ Hs) as Hr. split; [|split].
  - subst s1. destruct s as [f n c]. unfold with_num_refs. cbn in *. f_equal. wrap_lia.
  - rewrite znth_insert by done. by rewrite Z.eqb_refl.
  - rewrite list_insert_insert_eq. apply list_insert_id. unfold znth in Hs. by destruct (id <? 0).
Qed.

Lemma shared_index_id k t id p s i fr :
  shm_ok k → znth (shared_pages k) id = Some s →
  shared_index (set_frames fr (attached k t id p s)) (frame s) i → i = id.
Proof.
  intros Hok Hs Hi. pose proof (znth_Some_range _ _ _ Hs) as Hr.
  assert (Hfr : ∀ j s', znth (shared_pages (attached k t id p s)) j = Some s' →
    ∃ s0, znth (shared_pages k) j = Some s0 ∧ frame s' = frame s0).
  { intros j s' Hj. unfold attached in Hj. kcbn. rewrite znth_insert in Hj by done.
    destruct (Z.eqb_spec id j) as [<-|]; [|eauto]. injection Hj as <-. by exists s. }
  assert (Hsm : ∀ j s', znth (shared_pages (attached k t id p s)) j = Some s' → u32 (frame s') = frame s').
  { intros j s' (s0 & Hj & ->)%Hfr. pose proof (so_frames _ Hok _ _ Hj). apply u32_small.
    unfold NUM_PAG_KERNEL, TOTAL_PAGES in *. wrap_lia. }
  destruct Hi as [(s' & Hs' & E)|[_ Hno]].
  - rewrite (Hsm _ _ Hs') in E. apply Hfr in Hs' as (s0 & Hs0 & E'). apply (so_inj _ Hok i id s0 s); congruence.
  - exfalso. apply (Hno id (with_num_refs (s32 (num_refs s + 1)) s)).
    + unfold attached. kcbn. rewrite znth_insert by done. by rewrite Z.eqb_refl.
    + apply u32_small. pose proof (so_frames _ Hok _ _ Hs). unfold NUM_PAG_KERNEL, TOTAL_PAGES in *. cbn. wrap_lia.
Qed.

(** Clearing a page through its mapping clears its frame. *)
Lemma wp_clear k t ufr id p s fr (l : list SharedPage) (Q : unit → kernel → Prop) :
  user_process k t ufr → 0 ≤ p < TOTAL_PAGES → 0 ≤ frame s < 2 ^ 20 →
  let k2 := set_shared_pages l (set_frames fr (attached k t id p s)) in
  (∀ fr', (∀ o, 0 ≤ o < 4096 → pread (set_frames fr' k2) (frame s * 4096 + o) = 0) →
     (∀ z, z / 4096 ≠ frame s → pread (set_frames fr' k2) z = pread k2 z) → Q tt (set_frames fr' k2)) →
  wp (lift (zero_out (p * 4096) PAGE_SIZE)) Q k2.
Proof.
  intros Hup Hp Hf k2 HQ. unfold TOTAL_PAGES in Hp.
  assert (Hadd : ∀ o, 0 ≤ o < 4096 → u32 (p * 4096 + o) = p * 4096 + o) by (intros o Ho; apply u32_small; wrap_lia).
  assert (Htr : ∀ o, 0 ≤ o < 4096 → resolve k2 (u32 (p * 4096 + o)) = Some (frame s * 4096 + o)).
  { intros o Ho. rewrite Hadd by done. cbn [resolve PagedMem].
    change (translate k2 (p * 4096 + o)) with (translate (set_frames fr (attached k t id p s)) (p * 4096 + o)).
    rewrite (attached_translate k t ufr) by (done || (change (2 ^ 22) with 4194304; lia)).
    replace ((p * 4096 + o) / 4096) with p by (Z.div_mod_to_equations; lia). rewrite Z.eqb_refl. f_equal. Z.div_mod_to_equations; lia. }
  destruct (zero_out_spec (p * 4096) PAGE_SIZE k2) as (k3 & Hz & Hres & Hnew & Hold).
  { wrap_lia. } { done. } { intros i Hi. unfold PAGE_SIZE in Hi. rewrite Htr by lia. eauto. }
  destruct (zero_out_frames _ _ _ _ Hz) as [fr' ->]. eapply wp_lift; [exact Hz|]. apply HQ.
  - intros o Ho. specialize (Hnew o Ho). unfold load8 in Hnew. rewrite Hres, Htr in Hnew by done. by injection Hnew.
  - intros z Hne. apply Hold. intros i Hi. unfold PAGE_SIZE in Hi. rewrite Htr by lia. intros [= <-]. apply Hne. Z.div_mod_to_equations; lia.
Qed.

(** Detaching what has been attached, the memory being written meanwhile. *)
Lemma sys_shmdt_run k t ufr id p s fr (Q : Z → kernel → Prop) :
  user_process k t ufr → shm_ok k → 0 < p < TOTAL_PAGES → ¬ page_used k t p →
  znth (shared_pages k) id = Some s → 0 ≤ num_refs s < 2 ^ 31 - 1 →
  (id = 0 → Q (- ENOSHR) (set_frames fr (attached k t id p s))) →
  (id ≠ 0 → ∀ fr',
    ((num_refs s =? 0) && (to_clear s =? 1) = true → ∀ o, 0 ≤ o < 4096 → pread (set_frames fr' k) (frame s * 4096 + o) = 0) →
    ((num_refs s =? 0) && (to_clear s =? 1) = false → fr' = fr) →
    (∀ z, z / 4096 ≠ frame s → pread (set_frames fr' k) z = pread (set_frames fr k) z) → Q 0 (set_frames fr' k)) →
  wp (sys_shmdt (p * 4096)) Q (set_frames fr (attached k t id p s)).
Proof.
  intros Hup Hok Hp Hfree Hsh Hn Hq0 Hq1. assert (Hup' := Hup). destruct Hup' as [Ht Hs [Hr1 Hr2] Hc].
  assert (Hsp := ps_space _ _ _ Hs). pose proof (so_frames _ Hok _ _ Hsh) as Hf. unfold NUM_PAG_KERNEL, TOTAL_PAGES in Hf, Hp.
  assert (Hf20 : 0 ≤ frame s < 2 ^ 20) by (change (2 ^ 20) with 1048576; lia).
  destruct (ss_entry_fields (frame s) Hf20) as (Hb & _ & _ & _ & Hnz).
  destruct (refs_back _ _ _ Hsh Hn) as (Hs1 & Hs2 & Hs3).
  assert (Hpt : ∀ k', ptes k' = ptes (attached k t id p s) → load_pte (pt_of t) p (ptes k') = Some (ss_entry (frame s))).
  { intros k' ->. unfold load_pte, attached. kcbn. apply lookup_insert_eq. }
  assert (Hsp1 : ∀ k', tasks k' = tasks k → ptes k' = ptes (attached k t id p s) → has_space k' t).
  { intros k' Hk1 Hk2. unfold has_space. rewrite Hk1, Hk2. apply (has_space_insert k t t); [done|done|unfold TOTAL_PAGES; lia|done]. }
  unfold sys_shmdt. change NULL with 0. destruct (Z.eqb_spec (p * 4096) 0); [lia|]. change PAGE_SIZE with 4096 at 1.
  rewrite Z.mod_mul by lia. cbn [Z.eqb negb]. rewrite Z.shiftr_div_pow2 by lia. change (2 ^ 12) with 4096. rewrite Z.div_mul by lia. cbv zeta.
  apply wp_bind, wp_gets. change (current (set_frames fr (attached k t id p s))) with (current k). rewrite Hc.
  apply wp_bind, wp_get_PT; [done|by apply Hsp1|].
  apply wp_bind. eapply wp_ask; [unfold is_logic_page_free; by rewrite Hpt|]. destruct (Z.eqb_spec (ss_entry (frame s)) 0); [done|].
  apply wp_bind. eapply wp_ask; [unfold get_frame; by rewrite Hpt|]. rewrite Hb.
  apply wp_bind, wp_is_frame_shared; [unfold attached; kcbn; rewrite length_insert; apply Hok|].
  intros i Hi. apply (shared_index_id k t id p s i fr) in Hi as ->; [|done..].
  destruct (Z.eqb_spec id 0) as [E0|Hid]; cbn [negb]; [apply wp_ret; by apply Hq0|].
  apply wp_bind. eapply wp_set_shared; [unfold attached; kcbn; exact Hs2|]. rewrite Hs1.
  change (shared_pages (set_frames fr (attached k t id p s)))
    with (<[Z.to_nat id := with_num_refs (s32 (num_refs s + 1)) s]> (shared_pages k)). rewrite Hs3.
  set (k2 := set_shared_pages _ _). apply wp_bind. eapply wp_shared; [exact Hsh|].
  assert (Hend : ∀ fr', wp (on_ptes (del_ss_pag (pt_of t) p) ;; c ← gets current; d ← get_DIR c; set_cr3 d ;; mret 0) Q (set_frames fr' k2)
                  ↔ Q 0 (set_frames fr' k)).
  { intros fr'. assert (Hdel : del_ss_pag (pt_of t) p (ptes (set_frames fr' k2)) = Some (ptes k)).
    { rewrite del_ss_pag_effect by (rewrite Hpt by done; eauto). f_equal. subst k2. unfold attached. kcbn.
      rewrite insert_insert_eq. apply insert_id, unused_page; [done|unfold TOTAL_PAGES; lia|done]. }
    unfold wp, mbind at 1, M_bind at 1, on_ptes, zoom, lift. rewrite Hdel. cbn [mbind option_bind].
    unfold mbind at 1, M_bind at 1, gets. change (current (set_ptes (ptes k) (set_frames fr' k2))) with (current k). rewrite Hc.
    destruct Hsp as ((pc & Hpc & Hdir) & _). unfold mbind at 1, M_bind at 1, get_DIR, pcb, ask, mbind at 1, M_bind at 1.
    change (tasks (set_ptes (ptes k) (set_frames fr' k2))) with (tasks k). rewrite Hpc. cbn [mbind option_bind mret M_ret]. rewrite Hdir.
    cbn [mbind M_bind set_cr3 write_cr3 modify mret M_ret]. subst k2. unfold attached. kcbn. by rewrite <- Hr1. }
  apply wp_bind. destruct ((num_refs s =? 0) && (to_clear s =? 1)) eqn:Hz.
  - apply (wp_clear k t ufr id p s fr (shared_pages k)); [done|unfold TOTAL_PAGES; lia|done|]. fold k2. intros fr' Hzero Hold.
    apply Hend. apply Hq1; [done|intros _; exact Hzero|done|exact Hold].
  - apply wp_ret, (Hend fr). by apply Hq1.
Qed.
End attach.

(** C22: shared memory, for an address below 4 MB and pages with fewer than 2^31-1
    references.  [sys_shmat] refuses an identifier out of 0 to 9 ([ENOSHR]), then an
    address inside a page ([EFAULT]), and changes nothing; otherwise it maps the shared frame at the page asked for if that is
    free, and at the first free page otherwise, unless there is none
    ([ENOMEM]); the rest of the address space stays, and the page counts one
    reference more.  Whatever is written to memory in between, [sys_shmdt] of
    the address undoes it: tables, references and everything else are as they
    were, and the page is cleared if that was its last reference and it is
    marked.  Page 0 is the exception: its index is the answer for a frame that
    is not shared, and it can never be detached. *)
Theorem shared_page_round_trip `{LayoutOk} k t ufr id addr :
  user_process k t ufr → shm_ok k → 0 ≤ addr < 2 ^ 22 →
  (∀ s, znth (shared_pages k) id = Some s → 0 ≤ num_refs s < 2 ^ 31 - 1) →
  wp (sys_shmat id addr) (λ r k1,
    (r = - ENOSHR ∧ k1 = k ∧ ¬ 0 ≤ id ≤ 9) ∨ (r = - EFAULT ∧ k1 = k ∧ 0 ≤ id ≤ 9 ∧ addr mod 4096 ≠ 0) ∨
    (r = - ENOMEM ∧ k1 = k ∧ 0 ≤ id ≤ 9 ∧ addr mod 4096 = 0 ∧ ∀ p, USER_LAST_PAGE ≤ p < TOTAL_PAGES → page_used k t p) ∨
    ∃ p s, r = p * 4096 ∧ 0 ≤ id ≤ 9 ∧ addr mod 4096 = 0 ∧ chosen k t addr p ∧ znth (shared_pages k) id = Some s ∧
      (∀ va, 0 ≤ va < 2 ^ 22 →
         translate k1 va = if va / 4096 =? p then Some (frame s * 4096 + va mod 4096) else translate k va) ∧
      (∀ j, znth (shared_pages k1) j = if id =? j then Some (with_num_refs (num_refs s + 1) s) else znth (shared_pages k) j) ∧
      ∀ fr, wp (sys_shmdt r) (λ r2 k2,
        if id =? 0 then r2 = - ENOSHR ∧ k2 = set_frames fr k1
        else r2 = 0 ∧ ∃ fr', k2 = set_frames fr' k ∧
          (if (num_refs s =? 0) && (to_clear s =? 1) then ∀ o, 0 ≤ o < 4096 → pread k2 (frame s * 4096 + o) = 0
           else fr' = fr) ∧
          (∀ z, z / 4096 ≠ frame s → pread k2 z = pread (set_frames fr k1) z)) (set_frames fr k1)) k.
Proof.
  intros Hup Hok Ha Hrefs. apply (sys_shmat_run k t ufr); [done|done|done| | | |].
  - intros Hid. left. split; [done|]. split; [done|]. apply orb_true_iff in Hid as [?%Z.ltb_lt|?%Z.ltb_lt]; lia.
  - intros Hid Hal. right. left. done.
  - intros Hid Hal Hfull. do 2 right. left. done.
  - intros p s Hid Hal Hch Hsh. do 3 right. assert (Hch' := Hch). destruct Hch' as (Hp & Hfree & Hcase). specialize (Hrefs s Hsh).
    pose proof (so_frames _ Hok _ _ Hsh) as Hf. unfold NUM_PAG_KERNEL, TOTAL_PAGES in Hf.
    assert (0 < p) as Hp0.
    { destruct (Z.eqb_spec addr 0) as [->|Hne]; cbn [orb] in Hcase.
      - unfold first_free in Hcase. change USER_LAST_PAGE with 284 in Hcase. lia.
      - destruct (bool_decide _); cbn [negb] in Hcase; [Z.div_mod_to_equations; lia|].
        unfold first_free in Hcase. change USER_LAST_PAGE with 284 in Hcase. lia. }
    exists p, s. do 5 (split; [done|]). split; [|split].
    + intros va Hva. change (attached k t id p s) with (set_frames (frames (attached k t id p s)) (attached k t id p s)).
      apply (attached_translate k t ufr); [done|done|change (2 ^ 20) with 1048576; lia|done].
    + intros j. unfold attached. kcbn. rewrite znth_insert by (by eapply znth_Some_range).
      rewrite s32_small; [done|]. wrap_lia.
    + intros fr. apply (sys_shmdt_run k t ufr); [done|done|lia|done|done|done| |].
      * intros ->. done.
      * intros Hne fr' Hz Hnz Hold. destruct (Z.eqb_spec id 0); [done|]. split; [done|]. exists fr'. split; [done|].
        split; [|exact Hold]. destruct ((num_refs s =? 0) && (to_clear s =? 1)); [by apply Hz|by apply Hnz].
Qed.

(** The shared pages after the boot. *)
Lemma booted_shm `{LayoutOk} k k' : booted k k' → shm_ok k'.
Proof.
  intros Hb. assert (E := bo_shared _ _ Hb).
  assert (Hall : ∀ i s, znth (shared_pages k') i = Some s → 0 ≤ i < 10 ∧ s = fresh_page (256 + 2 * i)).
  { intros i s Hs. pose proof (znth_Some_range _ _ _ Hs) as Hr. rewrite E in Hs, Hr.
    change (Z.of_nat (length (fresh_page <$> shared_frames))) with 10 in Hr. split; [lia|].
    unfold znth in Hs. destruct (Z.ltb_spec i 0); [lia|]. rewrite list_lookup_fmap in Hs. unfold shared_frames in Hs.
    rewrite list_lookup_fmap, lookup_seq_lt in Hs by lia. cbn in Hs. injection Hs as <-. do 2 f_equal. lia. }
  split.
  - by rewrite E.
  - intros i s [Hi ->]%Hall. cbn. unfold NUM_PAG_KERNEL, TOTAL_PAGES. lia.
  - intros i j s s' [Hi ->]%Hall [Hj ->]%Hall. cbn. lia.
Qed.

Lemma shared_page_round_trip_witness : ∃ k, wp (sys_shmat 3 0x16C000) (λ r _, r ≠ - ENOSHR) k.
Proof.
  destruct example_booted as [k' Hb]. exists (entered near_end k').
  assert (shm_ok (entered near_end k')) as Hok by exact (shm_ok_same k' (entered near_end k') eq_refl (booted_shm _ _ Hb)).
  pose proof (shared_page_round_trip _ _ _ 3 0x16C000 (entered_process _ _ _ Hb) Hok) as Hw.
  eapply wp_mono; [apply Hw; [vm_compute; split; [discriminate|reflexivity]|]|].
  - intros s Hs. assert (E := bo_shared _ _ Hb). change (shared_pages (entered near_end k')) with (shared_pages k') in Hs.
    rewrite E in Hs. injection Hs as <-. vm_compute. split; [discriminate|reflexivity].
  - intros r k1 [(_ & _ & Hn)|[(-> & _)|[(-> & _)|(p & s & -> & _ & _ & (Hp & _) & _)]]]; [lia|discriminate|discriminate|unfold ENOSHR; lia].
Defined.
