(* ===== verification/Fork.v ===== *)
(** * The creation of a process (sys_fork of sys.c)

    What [sys_fork] does, stage by stage: the copy of the task union, of the
    kernel and code entries of the table, the reservation of frames, the copy
    of the data pages and the insertion in the queues and in the family; then
    the theorem that the child is a copy of its parent. *)

From S2P Require Import Prelude CInt ListHead Circular Memory Errno Console Paging Kernel Mm Space Sched Boot Interrupt System Process Shm.
Import PTE PageTable.

Section stages.
Context `{LayoutOk}.
Implicit Types (k : kernel) (t run child : Z) (h : links) (m : gmap Z Z).

(** ** The task union *)

Lemma copy_words_outside n a b (m : gmap Z Z) x :
  (∀ i, 0 ≤ i < Z.of_nat n → x ≠ b + 4 * i) → copy_words n a b m !! x = m !! x.
Proof.
  revert a b m. induction n as [|n IH]; intros a b m Hx; [done|]. cbn [copy_words].
  rewrite IH by (intros i Hi; specialize (Hx (i + 1)); lia). specialize (Hx 0).
  destruct (m !! a); [rewrite lookup_insert_ne by lia|rewrite lookup_delete_ne by lia]; done.
Qed.

Lemma copy_words_inside n a b (m : gmap Z Z) i :
  a + 4 * Z.of_nat n ≤ b ∨ b + 4 * Z.of_nat n ≤ a → 0 ≤ i < Z.of_nat n →
  copy_words n a b m !! (b + 4 * i) = m !! (a + 4 * i).
Proof.
  revert a b m i. induction n as [|n IH]; intros a b m i Hab Hi; [lia|]. cbn [copy_words].
  destruct (decide (i = 0)) as [->|Hne].
  - rewrite copy_words_outside by lia. rewrite !Z.mul_0_r, !Z.add_0_r.
    destruct (m !! a); [by rewrite lookup_insert_eq|by rewrite lookup_delete_eq].
  - replace (b + 4 * i) with (b + 4 + 4 * (i - 1)) by lia. rewrite IH by lia.
    replace (a + 4 * i) with (a + 4 + 4 * (i - 1)) by lia.
    destruct (m !! a); [rewrite lookup_insert_ne by lia|rewrite lookup_delete_ne by lia]; done.
Qed.

(** The anchors of a task union. *)
Definition own_anchors t : list Z := [node t; dead_sons t; sons t; bros t].

Lemma copy_anchor_run (a b : Z) h :
  a ∈ dom h → b ∈ dom h → ∃ h', copy_anchor a b h = Some h' ∧ agree_out [b] h h'.
Proof.
  intros [e He]%elem_of_dom [e' He']%elem_of_dom. unfold copy_anchor. rewrite He, He'. eexists. split; [done|]. split.
  - rewrite dom_insert_L. assert (b ∈ dom h) by (apply elem_of_dom; eauto). set_solver.
  - intros c Hc. rewrite lookup_insert_ne; [done|]. set_solver.
Qed.

Lemma wp_copy_union run child pc k (Q : unit → kernel → Prop) :
  tasks k !! run = Some pc → is_Some (tasks k !! child) →
  (∀ a, a ∈ own_anchors run ∨ a ∈ own_anchors child → a ∈ dom (lists k)) →
  (∀ h, agree_out (own_anchors child) (lists k) h →
     Q tt (set_stacks (copy_words (Z.to_nat KERNEL_STACK_SIZE) run child (stacks k))
            (set_lists h (set_tasks (<[child := pc]> (tasks k)) k)))) →
  wp (copy_union run child) Q k.
Proof.
  intros Hpc [pd Hpd] Hdom HQ. unfold copy_union. do 4 kstep.
  assert (Hrun : ∀ a, a = node run ∨ a = dead_sons run ∨ a = sons run ∨ a = bros run → a ∈ dom (lists k)).
  { intros a Ha. apply Hdom. left. unfold own_anchors. rewrite !elem_of_cons. tauto. }
  assert (Hown : ∀ a, a = node child ∨ a = dead_sons child ∨ a = sons child ∨ a = bros child → [a] ⊆ own_anchors child).
  { intros a Ha b ->%list_elem_of_singleton. unfold own_anchors. rewrite !elem_of_cons. tauto. }
  assert (Hchi : ∀ a, a = node child ∨ a = dead_sons child ∨ a = sons child ∨ a = bros child → a ∈ dom (lists k)).
  { intros a Ha. apply Hdom. right. apply (Hown a Ha). by apply list_elem_of_singleton. }
  destruct (copy_anchor_run (node run) (node child) (lists k)) as (h1 & Hh1 & Ha1); [auto|auto|].
  destruct (copy_anchor_run (dead_sons run) (dead_sons child) h1) as (h2 & Hh2 & Ha2);
    [rewrite (proj1 Ha1); auto..|].
  destruct (copy_anchor_run (sons run) (sons child) h2) as (h3 & Hh3 & Ha3);
    [rewrite (proj1 Ha2), (proj1 Ha1); auto..|].
  destruct (copy_anchor_run (bros run) (bros child) h3) as (h4 & Hh4 & Ha4);
    [rewrite (proj1 Ha3), (proj1 Ha2), (proj1 Ha1); auto 6..|].
  do 8 kstep. apply wp_modify. kcbn. apply HQ.
  apply (agree_out_sub _ _ _ _) with (2 := Hown _ (or_introl eq_refl)) in Ha1.
  apply (agree_out_sub _ _ _ _) with (2 := Hown _ (or_intror (or_introl eq_refl))) in Ha2.
  apply (agree_out_sub _ _ _ _) with (2 := Hown _ (or_intror (or_intror (or_introl eq_refl)))) in Ha3.
  apply (agree_out_sub _ _ _ _) with (2 := Hown _ (or_intror (or_intror (or_intror eq_refl)))) in Ha4.
  eauto using agree_out_trans.
Qed.

(** ** The entries of the table *)

Lemma wp_copy_ptes k tc tp base (n : nat) (Q : unit → kernel → Prop) :
  is_task tc → is_task tp → tc ≠ tp → 0 ≤ base → base + Z.of_nat n ≤ TOTAL_PAGES →
  (∀ i, 0 ≤ i < TOTAL_PAGES → is_Some (ptes k !! slot (pt_of tc) i)) →
  (∀ i, 0 ≤ i < TOTAL_PAGES → is_Some (ptes k !! slot (pt_of tp) i)) →
  (∀ m, (∀ i, base ≤ i < base + Z.of_nat n → m !! slot (pt_of tc) i = ptes k !! slot (pt_of tp) i) →
     (∀ a, (∀ i, base ≤ i < base + Z.of_nat n → a ≠ slot (pt_of tc) i) → m !! a = ptes k !! a) → Q tt (set_ptes m k)) →
  wp (for_up n 0 (λ pag, on_ptes (copy_pte (pt_of tc) (pt_of tp) (base + pag)))) Q k.
Proof.
  intros Htc Htp Hne Hb Hn Hec Hep HQ. eapply wp_mono.
  { apply (wp_for_up (λ j k', ∃ m, k' = set_ptes m k ∧
      (∀ i, base ≤ i < base + j → m !! slot (pt_of tc) i = ptes k !! slot (pt_of tp) i) ∧
      (∀ a, (∀ i, base ≤ i < base + j → a ≠ slot (pt_of tc) i) → m !! a = ptes k !! a))).
    - exists (ptes k). split; [by destruct k|]. split; [intros i Hi; lia|done].
    - intros j k' Hj (m & -> & Hin & Hout).
      assert (Hpar : m !! slot (pt_of tp) (base + j) = ptes k !! slot (pt_of tp) (base + j)).
      { apply Hout. intros i Hi E. apply pt_slot_inj in E as [E _]; [by apply Hne|done|done|lia|lia]. }
      assert (Hchi : m !! slot (pt_of tc) (base + j) = ptes k !! slot (pt_of tc) (base + j)).
      { apply Hout. intros i Hi E. apply pt_slot_inj in E as [_ E]; [lia|done|done|lia|lia]. }
      destruct (Hep (base + j)) as [e He]; [lia|]. destruct (Hec (base + j)) as [e' He']; [lia|].
      eapply wp_on_ptes.
      { unfold copy_pte, load_pte. kcbn. rewrite Hpar, He. cbn [mbind option_bind]. apply store_pte_Some. unfold load_pte. rewrite Hchi, He'. eauto. }
      exists (<[slot (pt_of tc) (base + j) := e]> m). split; [done|]. split.
      + intros i Hi. destruct (decide (i = base + j)) as [->|Hij]; [by rewrite lookup_insert_eq|].
        rewrite lookup_insert_ne; [apply Hin; lia|]. intros E. apply pt_slot_inj in E as [_ E]; [lia|done|done|lia|lia].
      + intros a Ha. rewrite lookup_insert_ne; [apply Hout; intros i Hi; apply Ha; lia|].
        intros E. apply (Ha (base + j)); [lia|done]. }
  intros [] k' (m & -> & Hin & Hout). rewrite Z.add_0_l in Hin, Hout. by apply HQ.
Qed.

(** ** The frames and the pages of the copies *)

(** The free pages above the user area, in order. *)
Definition free_pages (PT : Z) m : list Z :=
  filter (λ p, m !! slot PT p = Some 0) (seqZ USER_LAST_PAGE (TOTAL_PAGES - USER_LAST_PAGE)).

Lemma free_page_loop_head n PT pag m :
  (∀ p, pag ≤ p < pag + Z.of_nat n → is_Some (m !! slot PT p)) →
  free_page_loop n PT pag m = Some (List.hd (-1) (filter (λ p, m !! slot PT p = Some 0) (seqZ pag (Z.of_nat n)))).
Proof.
  revert pag. induction n as [|n IH]; intros pag Hm; [done|]. cbn [free_page_loop].
  rewrite (seqZ_cons pag) by lia. replace (Z.pred (Z.of_nat (S n))) with (Z.of_nat n) by lia.
  destruct (Hm pag) as [e He]; [lia|]. unfold load_pte. rewrite He. cbn [mbind option_bind].
  destruct (Z.eqb_spec e 0) as [->|Hne].
  - rewrite filter_cons_True by done. done.
  - rewrite filter_cons_False by congruence. rewrite <- Z.add_1_r. apply IH. intros p Hp. apply Hm. lia.
Qed.

Lemma find_free_page_head PT m :
  (∀ p, 0 ≤ p < TOTAL_PAGES → is_Some (m !! slot PT p)) → find_free_page PT m = Some (List.hd (-1) (free_pages PT m)).
Proof.
  intros Hm. unfold find_free_page, free_pages. change (TOTAL_PAGES - USER_LAST_PAGE) with 740. change USER_LAST_PAGE with 284.
  rewrite free_page_loop_head; [done|]. intros p Hp. apply Hm. unfold TOTAL_PAGES. lia.
Qed.

Lemma free_pages_range PT m p : p ∈ free_pages PT m → USER_LAST_PAGE ≤ p < TOTAL_PAGES ∧ m !! slot PT p = Some 0.
Proof.
  intros [Hp Hin%elem_of_seqZ]%list_elem_of_filter. unfold TOTAL_PAGES in *. change USER_LAST_PAGE with 284 in *. split; [lia|done].
Qed.

(** Taking the first free page leaves the others. *)
Lemma free_pages_take PT m m' p ps :
  free_pages PT m = p :: ps → (∀ q, USER_LAST_PAGE ≤ q < TOTAL_PAGES → m' !! slot PT q = Some 0 ↔ q ≠ p ∧ m !! slot PT q = Some 0) →
  free_pages PT m' = ps.
Proof.
  intros Hfp Hm'. transitivity (filter (λ q, q ≠ p) (free_pages PT m)).
  - unfold free_pages. rewrite list_filter_filter. apply filter_ext_in. intros q Hq%elem_of_seqZ.
    apply Hm'. unfold TOTAL_PAGES in *. change USER_LAST_PAGE with 284 in *. lia.
  - assert (NoDup (free_pages PT m)) as Hnd by apply NoDup_filter, NoDup_seqZ.
    rewrite Hfp in Hnd |- *. apply NoDup_cons in Hnd as [Hp _]. rewrite filter_cons_False by tauto.
    apply filter_all_in. intros q Hq ->. done.
Qed.

(** The pages [ps] of the parent and the data pages of the child from [pag] on
    are mapped to the frames [fs]; the other entries are those of [m]. *)
Definition mapped_twice tp tc (pag : Z) (ps fs : list Z) m m' : Prop :=
  (∀ i p f, ps !! i = Some p → fs !! i = Some f →
     m' !! slot (pt_of tp) p = Some (ss_entry f) ∧
     m' !! slot (pt_of tc) (USER_FIRST_PAGE + pag + Z.of_nat i) = Some (ss_entry f)) ∧
  (∀ a, (∀ p, p ∈ ps → a ≠ slot (pt_of tp) p) →
     (∀ i, pag ≤ i < pag + Z.of_nat (length ps) → a ≠ slot (pt_of tc) (USER_FIRST_PAGE + i)) → m' !! a = m !! a).

Lemma mapped_twice_cons tp tc pag p ps f fs m m' :
  is_task tp → is_task tc → tp ≠ tc → 0 ≤ pag → pag + Z.of_nat (length (p :: ps)) ≤ 20 →
  p ∉ ps → (∀ q, q ∈ p :: ps → 0 ≤ q < TOTAL_PAGES) →
  mapped_twice tp tc (pag + 1) ps fs
    (<[slot (pt_of tc) (USER_FIRST_PAGE + pag) := ss_entry f]> (<[slot (pt_of tp) p := ss_entry f]> m)) m' →
  mapped_twice tp tc pag (p :: ps) (f :: fs) m m'.
Proof.
  unfold mapped_twice. change USER_FIRST_PAGE with 256.
  intros Htp Htc Hne Hpag Hlen Hnot Hran [Hin Hout]. cbn [length] in Hlen.
  assert (Hp := Hran p ltac:(by left)). unfold TOTAL_PAGES in *.
  assert (Hcp : ∀ i q, 0 ≤ i < 1024 → 0 ≤ q < 1024 → slot (pt_of tc) i ≠ slot (pt_of tp) q).
  { intros i q Hi Hq E. apply pt_slot_inj in E as [E _]; [by apply Hne|done..]. }
  split.
  - intros [|i] q g Hq Hg; cbn in Hq, Hg.
    + injection Hq as <-. injection Hg as <-. rewrite Z.add_0_r. split.
      * rewrite Hout; [|intros q Hq E; apply pt_slot_inj in E as [_ ->]; try done; apply Hran; by right|intros i Hi E; by apply (Hcp (256 + i) p); lia || done].
        rewrite lookup_insert_ne by (apply Hcp; lia). apply lookup_insert_eq.
      * rewrite Hout; [apply lookup_insert_eq|intros q Hq; apply Hcp; [lia|apply Hran; by right]|].
        intros i Hi E. apply pt_slot_inj in E as [_ E]; try done; unfold TOTAL_PAGES; lia.
    + destruct (Hin i q g Hq Hg) as [H1 H2]. split; [exact H1|].
      by replace (256 + pag + Z.of_nat (S i)) with (256 + (pag + 1) + Z.of_nat i) by lia.
  - intros a Ha Hb. rewrite Hout.
    + rewrite lookup_insert_ne by (intros E; apply (Hb pag); [cbn [length]; lia|done]).
      rewrite lookup_insert_ne by (intros E; apply (Ha p); [by left|done]). done.
    + intros q Hq. apply Ha. by right.
    + intros i Hi. apply Hb. cbn [length]. lia.
Qed.

Lemma wp_fork_reserve n pag run child ps rest fs pm k (Q : Z + list Z → kernel → Prop) :
  is_task run → is_task child → run ≠ child → current k = run → has_space k run →
  (∀ i, 0 ≤ i < TOTAL_PAGES → is_Some (ptes k !! slot (pt_of child) i)) →
  free_pages (pt_of run) (ptes k) = ps ++ rest → length ps = n →
  Frames.wf (phys_mem k) → Frames.alloc_n n (phys_mem k) = Some (fs, pm) → -1 ∉ fs →
  0 ≤ pag → pag + Z.of_nat n ≤ 20 →
  (∀ m, mapped_twice run child pag ps fs (ptes k) m → Q (inr ps) (set_ptes m (set_phys_mem pm k))) →
  wp (fork_reserve n pag child (pt_of run) (pt_of child)) Q k.
Proof.
  revert pag ps fs k Q. induction n as [|n IH]; intros pag ps fs k Q Hr Hc Hne Hcur Hsp Hec Hfp Hlen Hwf Hal Hfs Hpag Hp20 HQ.
  { destruct ps; [|done]. injection Hal as <- <-. apply wp_ret.
    replace k with (set_ptes (ptes k) (set_phys_mem (phys_mem k) k)) by (by destruct k). apply HQ.
    split; [intros i p f Hi; by rewrite lookup_nil in Hi|done]. }
  destruct ps as [|p ps]; [done|]. injection Hlen as Hlen. cbn [app] in Hfp.
  assert (Hps : ∀ q, q ∈ p :: ps → USER_LAST_PAGE ≤ q < TOTAL_PAGES ∧ ptes k !! slot (pt_of run) q = Some 0).
  { intros q Hq. apply free_pages_range. rewrite Hfp, app_comm_cons. apply elem_of_app. by left. }
  destruct (Hps p) as [Hpr Hp0]; [by left|]. assert (HU : USER_FIRST_PAGE = 256 ∧ USER_LAST_PAGE = 284 ∧ TOTAL_PAGES = 1024) by done.
  assert (NoDup (p :: ps ++ rest)) as [Hpn _]%NoDup_cons.
  { rewrite <- Hfp. unfold free_pages. apply NoDup_filter, NoDup_seqZ. }
  cbn [fork_reserve]. kstep. kstep. rewrite Hcur. kstep. unfold get_user_free_page. kstep. apply wp_get_PT; [done..|].
  eapply wp_ask; [apply find_free_page_head, Hsp|]. rewrite Hfp. cbn [List.hd].
  destruct (Z.ltb_spec p 0); [lia|]. cbn [Frames.alloc_n] in Hal. unfold mbind at 1, M_bind at 1 in Hal.
  destruct (Frames.alloc_frame_spec (phys_mem k) Hwf) as [(f & Ha & Hfa & _)|[Ha _]].
  2: { rewrite Ha in Hal. unfold mbind, M_bind in Hal. destruct (Frames.alloc_n n (phys_mem k)) as [[rs pm1]|]; [|done].
       injection Hal as <- _. destruct Hfs. by left. }
  rewrite Ha in Hal. unfold mbind, M_bind in Hal.
  destruct (Frames.alloc_n n (<[Z.to_nat f := 1]> (phys_mem k))) as [[rs pm1]|] eqn:Hal1; [|done].
  injection Hal as <- ->. rewrite not_elem_of_cons in Hfs. destruct Hfs as [_ Hrs].
  kstep. eapply wp_on_frames; [exact Ha|]. destruct Hfa as [Hf1 Hf2]. unfold NUM_PAG_KERNEL in Hf1.
  destruct (Z.ltb_spec f 0); [lia|]. kcbn.
  kstep. eapply wp_on_ptes; [apply set_ss_pag_effect; unfold load_pte; kcbn; rewrite Hp0; eauto|]. kcbn.
  assert (Hslot : slot (pt_of child) (USER_FIRST_PAGE + pag) ≠ slot (pt_of run) p).
  { intros E. apply pt_slot_inj in E as [E _]; [by apply Hne|done|done|lia|lia]. }
  kstep. eapply wp_on_ptes.
  { apply set_ss_pag_effect. unfold load_pte. kcbn. rewrite lookup_insert_ne by done. apply Hec. lia. }
  kcbn. set (m1 := <[slot (pt_of child) _ := _]> _). kstep.
  apply (IH (pag + 1) ps rs); kcbn; try done; try lia.
  - apply (has_space_tables k); [done| | |done]; kcbn; subst m1.
    + rewrite !lookup_insert_ne; [done|intros E; symmetry in E; revert E; apply dir_pt_slot; done || lia..].
    + intros i Hi Hs. rewrite !lookup_insert. by repeat case_decide.
  - intros i Hi. subst m1. rewrite !lookup_insert. repeat case_decide; try done. by apply Hec.
  - eapply free_pages_take; [exact Hfp|]. intros q Hq. subst m1.
    rewrite lookup_insert_ne by (intros E; apply pt_slot_inj in E as [E _]; [by apply Hne|done|done|lia|lia]).
    destruct (decide (q = p)) as [->|Hqp].
    + rewrite lookup_insert_eq. split; [|tauto]. intros [= E]. exfalso.
      destruct (ss_entry_fields f) as (_ & _ & _ & _ & Hnz); [change (2 ^ 20) with 1048576; unfold TOTAL_PAGES in *; lia|done].
    + rewrite lookup_insert_ne; [tauto|]. intros E. apply pt_slot_inj in E as [_ E]; [by apply Hqp|done|done|lia|lia].
  - apply Frames.wf_insert; [done|lia|wrap_lia].
  - intros m Hm. kstep. apply HQ. subst m1. apply mapped_twice_cons; [done|done|done|done|cbn [length]; lia| | |done].
    + intros Hin. apply Hpn, elem_of_app. by left.
    + intros q Hq. destruct (Hps q Hq). lia.
Qed.

(** ** The data pages *)

(** The frames [fs] hold the user pages from [pag] on; other frames are as in [k]. *)
Definition copied k fr (ufr : Z → Z) (pag : Z) (fs : list Z) : Prop :=
  (∀ i f o, fs !! i = Some f → 0 ≤ o < 4096 →
     pread (set_frames fr k) (f * 4096 + o) = pread k (ufr (USER_FIRST_PAGE + pag + Z.of_nat i) * 4096 + o)) ∧
  (∀ z, z / 4096 ∉ fs → pread (set_frames fr k) z = pread k z).

(** The pages [ps] are free again. *)
Definition unmapped t (ps : list Z) m m' : Prop :=
  (∀ p, p ∈ ps → m' !! slot (pt_of t) p = Some 0) ∧
  (∀ a, (∀ p, p ∈ ps → a ≠ slot (pt_of t) p) → m' !! a = m !! a).

Lemma wp_copy_page k t ufr u p f (Q : unit → kernel → Prop) :
  user_process k t ufr → USER_FIRST_PAGE ≤ u < USER_LAST_PAGE → USER_LAST_PAGE ≤ p < TOTAL_PAGES →
  NUM_PAG_KERNEL ≤ f < TOTAL_PAGES → ufr u ≠ f → ptes k !! slot (pt_of t) p = Some (ss_entry f) →
  (∀ fr, (∀ o, 0 ≤ o < 4096 → pread (set_frames fr k) (f * 4096 + o) = pread k (ufr u * 4096 + o)) →
     (∀ z, z / 4096 ≠ f → pread (set_frames fr k) z = pread k z) → Q tt (set_frames fr k)) →
  wp (lift (copy_data (Z.shiftl u 12) (Z.shiftl p 12) PAGE_SIZE)) Q k.
Proof.
  intros Hup Hu Hp Hf Hne He HQ. assert (Hup' := Hup). destruct Hup' as [Ht Hs Hr _].
  rewrite !Z.shiftl_mul_pow2 by lia. change (2 ^ 12) with 4096. change PAGE_SIZE with 4096.
  assert (HU : USER_FIRST_PAGE = 256 ∧ USER_LAST_PAGE = 284 ∧ TOTAL_PAGES = 1024 ∧ NUM_PAG_KERNEL = 256) by done.
  apply (wp_copy _ _ _ (λ i, ufr u * 4096 + i) (λ i, f * 4096 + i)); try (wrap_lia || lia).
  - intros i Hi. destruct (user_load k t ufr (u * 4096 + i) Hup) as [-> _]; [unfold user_area; lia|].
    unfold user_byte. f_equal. replace ((u * 4096 + i) / 4096) with u by (Z.div_mod_to_equations; lia).
    replace ((u * 4096 + i) mod 4096) with i by (Z.div_mod_to_equations; lia). done.
  - intros i Hi. rewrite (translate_ss_page k t p f); try done; [|apply Hs|lia|change (2 ^ 20) with 1048576; lia|lia].
    f_equal. f_equal. Z.div_mod_to_equations; lia.
  - intros fr Hnew Hold. apply HQ; [exact Hnew|]. intros z Hz. apply Hold. intros i Hi ->. apply Hz. Z.div_mod_to_equations; lia.
Qed.

Lemma wp_fork_copy ps fs pag t ufr k (Q : unit → kernel → Prop) :
  user_process k t ufr → length ps = length fs → 0 ≤ pag → pag + Z.of_nat (length ps) ≤ NUM_PAG_DATA →
  NoDup ps → (∀ p, p ∈ ps → USER_LAST_PAGE ≤ p < TOTAL_PAGES) →
  (∀ i p f, ps !! i = Some p → fs !! i = Some f → ptes k !! slot (pt_of t) p = Some (ss_entry f)) →
  NoDup fs → (∀ f, f ∈ fs → NUM_PAG_KERNEL ≤ f < TOTAL_PAGES ∧ ∀ u, USER_FIRST_PAGE ≤ u < USER_LAST_PAGE → ufr u ≠ f) →
  (∀ fr m, copied k fr ufr pag fs → unmapped t ps (ptes k) m → Q tt (set_ptes m (set_frames fr k))) →
  wp (fork_copy pag ps (pt_of t)) Q k.
Proof.
  revert pag fs k Q. induction ps as [|p ps IH]; intros pag fs k Q Hup Hlen Hpag Hn Hnp Hps He Hnf Hfs HQ.
  { destruct fs; [|done]. apply wp_ret. replace k with (set_ptes (ptes k) (set_frames (frames k) k)) by (by destruct k). apply HQ.
    - split; [intros i f o Hi; by rewrite lookup_nil in Hi|by destruct k].
    - split; [by intros p ?%elem_of_nil|done]. }
  destruct fs as [|f fs]; [done|]. injection Hlen as Hlen. cbn [length] in Hn. cbn [fork_copy].
  apply NoDup_cons in Hnp as [Hp Hnp], Hnf as [Hf Hnf]. assert (Hup' := Hup). destruct Hup' as [Ht Hs Hr Hc].
  destruct (Hfs f) as [Hfr Hfu]; [by left|]. assert (Hpr := Hps p ltac:(by left)). assert (Hpe := He 0%nat p f eq_refl eq_refl).
  assert (HU : USER_FIRST_PAGE = 256 ∧ USER_LAST_PAGE = 284 ∧ TOTAL_PAGES = 1024 ∧ NUM_PAG_KERNEL = 256 ∧ NUM_PAG_DATA = 20) by done.
  apply wp_bind, (wp_copy_page k t ufr _ _ f); [done|lia|lia|lia|apply Hfu; lia|done|]. intros fr Hnew Hold.
  apply wp_bind. eapply wp_on_ptes; [apply del_ss_pag_effect; unfold load_pte; kcbn; rewrite Hpe; eauto|].
  cbn [ptes set_frames]. set (k1 := set_ptes _ (set_frames fr k)).
  assert (Hk1 : ∀ i, 0 ≤ i < 1024 → i ≠ p → ptes k1 !! slot (pt_of t) i = ptes k !! slot (pt_of t) i).
  { intros i Hi Hne. subst k1. kcbn. apply lookup_insert_ne. intros E. apply pt_slot_inj in E as [_ E]; [by apply Hne|done|done|lia|lia]. }
  assert (Hup1 : user_process k1 t ufr).
  { split; [done| |done|done]. apply (proc_space_above k); [done| | | |done].
    - subst k1. kcbn. apply lookup_insert_ne. intros E. symmetry in E. revert E. apply dir_pt_slot; [done|done|lia].
    - intros i Hi. apply Hk1; lia.
    - intros i Hi. destruct (decide (i = p)) as [->|Hne]; [subst k1; kcbn; rewrite lookup_insert_eq; eauto|].
      rewrite Hk1 by lia. apply Hs. lia. }
  apply (IH (pag + 1) fs k1); [done|done|lia|lia|done|intros q Hq; apply Hps; by right| |done|intros g Hg; apply Hfs; by right|].
  { intros i q g Hq Hg. rewrite Hk1; [by apply (He (S i))| |].
    - destruct (Hps q) as [? ?]; [right; by eapply list_elem_of_lookup_2|lia].
    - intros ->. apply Hp. by eapply list_elem_of_lookup_2. }
  intros fr' m [Hin Hout] [Hm1 Hm2]. change (set_ptes m (set_frames fr' k1)) with (set_ptes m (set_frames fr' k)). apply HQ.
  - split.
    + intros [|i] g o Hg Ho; cbn in Hg.
      * injection Hg as <-. rewrite Z.add_0_r, <- Hnew by done. apply (Hout (f * 4096 + o)).
        replace ((f * 4096 + o) / 4096) with f by (Z.div_mod_to_equations; lia). done.
      * replace (USER_FIRST_PAGE + pag + Z.of_nat (S i)) with (USER_FIRST_PAGE + (pag + 1) + Z.of_nat i) by lia.
        etransitivity; [exact (Hin i g o Hg Ho)|]. apply Hold.
        assert (i < length ps)%nat by (rewrite Hlen; by eapply lookup_lt_Some).
        set (v := ufr _). replace ((v * 4096 + o) / 4096) with v by (Z.div_mod_to_equations; lia). apply Hfu. lia.
    + intros z Hz. rewrite not_elem_of_cons in Hz. etransitivity; [exact (Hout z (proj2 Hz))|]. apply Hold, Hz.
  - split.
    + intros q [->|Hq]%elem_of_cons; [|by apply Hm1]. rewrite Hm2; [subst k1; kcbn; apply lookup_insert_eq|].
      intros q Hq E. apply pt_slot_inj in E as [_ ->]; [done..|lia|destruct (Hps q); [by right|lia]].
    + intros a Ha. rewrite Hm2 by (intros q Hq; apply Ha; by right). subst k1. kcbn.
      apply lookup_insert_ne. intros <-. apply (Ha p); [by left|done].
Qed.

(** ** The shared pages: the loop never finds one *)

Lemma wp_fork_shared k (PT PT' : Z) (Q : unit → kernel → Prop) :
  shm_ok k → (∀ i, 0 ≤ i < TOTAL_PAGES → is_Some (ptes k !! slot PT i)) → Q tt k → wp (fork_shared PT PT') Q k.
Proof.
  intros Hok He HQ. assert (HU : USER_LAST_PAGE = 284 ∧ TOTAL_PAGES = 1024) by done.
  eapply wp_mono; [apply (wp_for_up (λ _ k', k' = k)); [done|]|by intros [] k' ->].
  intros j k' Hj ->. change (Z.of_nat (Z.to_nat (TOTAL_PAGES - USER_LAST_PAGE))) with 740 in Hj.
  destruct (He j) as [e Hej]; [lia|]. apply wp_bind. eapply wp_ask; [unfold is_logic_page_free, load_pte; by rewrite Hej|].
  destruct (e =? 0); [by apply wp_ret|].
  apply wp_bind. eapply wp_ask; [unfold get_frame, load_pte; by rewrite Hej|]. cbv zeta.
  apply wp_bind, wp_shifted_frame; [done|]. by apply wp_ret.
Qed.

(** ** The queues and the family *)

Lemma anchors_tail (a hd x : Z) (xs : list Z) L : a ∈ anchors ((hd, xs ++ [x]) :: L) ↔ a = x ∨ a ∈ anchors ((hd, xs) :: L).
Proof. rewrite !anchors_cons, !elem_of_cons, !elem_of_app, list_elem_of_singleton. tauto. Qed.

(** The lists after the child has entered the ready queue and the family. *)
Definition forked run child (fq rq bq cs : list Z) F : list (Z * list Z) :=
  queues fq (rq ++ [child]) bq ((sons child, []) :: (sons run, bros <$> (cs ++ [child])) :: F).

Lemma fork_lists h run child fq rq bq cs F :
  rings h (queues fq rq bq ((sons run, bros <$> cs) :: F)) →
  (∀ a, a ∈ own_anchors child → a ∈ dom h ∧ a ∉ anchors (queues fq rq bq ((sons run, bros <$> cs) :: F))) →
  ∃ h1 h2 h3, list_add_tail (node child) readyqueue h = Some h1 ∧ INIT_LIST_HEAD (sons child) h1 = Some h2 ∧
    list_add_tail (bros child) (sons run) h2 = Some h3 ∧ dom h3 = dom h ∧ rings h3 (forked run child fq rq bq cs F).
Proof.
  intros Hl Hown. set (Fs := (sons run, bros <$> cs) :: F) in *.
  assert (Hin : ∀ a, a = node child ∨ a = sons child ∨ a = bros child → a ∈ dom h ∧ a ∉ anchors (queues fq rq bq Fs)).
  { intros a Ha. apply Hown. unfold own_anchors. rewrite !elem_of_cons. tauto. }
  destruct (Hin (node child)) as [Hd1 Ho1]; [auto|]. destruct (Hin (sons child)) as [Hd2 Ho2]; [auto|].
  destruct (Hin (bros child)) as [Hd3 Ho3]; [auto|]. rewrite queues_ready in Hl, Ho1, Ho2, Ho3.
  destruct (rings_add_tail _ _ _ _ _ Hl Hd1 Ho1) as (h1 & Hh1 & [Hdom1 _] & Hl1).
  assert (Hne : sons child ≠ node child ∧ bros child ≠ node child ∧ bros child ≠ sons child) by (unfold sons, bros, node; lia).
  destruct (rings_init h1 (sons child) _ Hl1) as (h2 & Hh2 & [Hdom2 _] & Hl2); [by rewrite Hdom1|rewrite anchors_tail; tauto|].
  assert (Hperm : (sons child, []) :: (readyqueue, (node <$> rq) ++ [node child]) :: (freequeue, node <$> fq) :: (blocked, node <$> bq) :: Fs ≡ₚ
    (sons run, bros <$> cs) :: (sons child, []) :: (readyqueue, (node <$> rq) ++ [node child]) :: (freequeue, node <$> fq) :: (blocked, node <$> bq) :: F)
    by (subst Fs; solve_Permutation).
  assert (Hout : bros child ∉ anchors ((sons child, []) :: (readyqueue, (node <$> rq) ++ [node child]) :: (freequeue, node <$> fq) :: (blocked, node <$> bq) :: Fs)).
  { rewrite anchors_cons. cbn [app]. rewrite elem_of_cons, anchors_tail. tauto. }
  rewrite Hperm in Hl2, Hout.
  destruct (rings_add_tail _ _ _ _ _ Hl2 ltac:(by rewrite Hdom2, Hdom1) Hout) as (h3 & Hh3 & [Hdom3 _] & Hl3).
  exists h1, h2, h3. split_and!; [done..|congruence|].
  assert (Hfin : forked run child fq rq bq cs F ≡ₚ
    (sons run, (bros <$> cs) ++ [bros child]) :: (sons child, []) :: (readyqueue, (node <$> rq) ++ [node child]) :: (freequeue, node <$> fq) :: (blocked, node <$> bq) :: F).
  { unfold forked, queues. rewrite !fmap_app. cbn [fmap list_fmap]. solve_Permutation. }
  by rewrite Hfin.
Qed.

(** The PCB of the child, [pc] being the one of its parent. *)
Definition child_pcb run child (pid : Z) (pc : task_struct) : task_struct :=
  mk_task_struct pid (dir_of child) ST_READY run (stack_slot child (KERNEL_STACK_SIZE - 19)) 0 (quantum pc) 0.

Lemma wp_fork_finish k run child pc h1 h2 h3 (Q : Z → kernel → Prop) :
  is_task child → current k = run → has_space k run → tasks k !! child = Some (with_dir_pages_baseAddr (dir_of child) pc) →
  list_add_tail (node child) readyqueue (lists k) = Some h1 → INIT_LIST_HEAD (sons child) h1 = Some h2 →
  list_add_tail (bros child) (sons run) h2 = Some h3 → running k run →
  Q (next_pid k)
    (set_lists h3 (set_tasks (<[child := child_pcb run child (next_pid k) pc]> (tasks k))
      (set_stacks (<[stack_slot child (KERNEL_STACK_SIZE - 19) := 0]> (<[stack_slot child (KERNEL_STACK_SIZE - 18) := ret_from_fork]> (stacks k)))
        (set_next_pid (s32 (next_pid k + 1)) k)))) →
  wp (fork_finish child) Q k.
Proof.
  intros Hchild Hcur Hsp Hpc Hh1 Hh2 Hh3 [Hc3 _] HQ. unfold fork_finish. apply wp_bind, wp_gets. rewrite Hcur.
  apply wp_bind, wp_get_DIR; [done|]. unfold set_cr3.
  assert (put_cr3 (dir_of run) k = k) as Ek by (rewrite <- Hc3; by destruct k).
  kstep. kstep. rewrite Ek. ksteps.
  do 3 (kstep; [by rewrite lookup_insert_eq|]; ksteps). rewrite !insert_insert_eq.
  kstep; [by rewrite lookup_insert_eq|]. ksteps.
  assert (Hcur' : ∀ k', esp k' = esp k → current k' = run) by (intros k' E; unfold current; rewrite E; exact Hcur).
  rewrite Hcur' by done. do 2 (kstep; [by rewrite lookup_insert_eq|]; ksteps).
  rewrite !insert_insert_eq. unfold with_parent, with_kernel_esp0. cbn [PID dir_pages_baseAddr state parent kernel_esp0 nr_ticks quantum pending_unblocks
    with_PID with_state with_nr_ticks with_pending_unblocks with_dir_pages_baseAddr].
  rewrite stack_slot_small by (done || (unfold KERNEL_STACK_SIZE; lia)). exact HQ.
Qed.
End stages.

(** ** The whole call *)

(** When [sys_fork] succeeds: a free PCB, room for the copies, and the family
    anchors of the free PCB in no list. *)
Record fork_ready `{Layout} k run child fq rq bq cs F ufr : Prop := {
  fr_inv : sched_inv k run (child :: fq) rq bq ((sons run, bros <$> cs) :: F);
  fr_process : user_process k run ufr;
  fr_anchors : ∀ t a, is_task t → a ∈ own_anchors t → a ∈ dom (lists k);
  fr_family : ∀ a, a ∈ own_anchors child → a ∉ anchors ((sons run, bros <$> cs) :: F);
  fr_dir : ptes k !! slot (dir_of child) 0 = Some (dir_entry (pt_of child));
  fr_table : ∀ i, 0 ≤ i < TOTAL_PAGES → is_Some (ptes k !! slot (pt_of child) i);
  fr_shared : shm_ok k;
  fr_phys : Frames.wf (phys_mem k);
  fr_held : ∀ p, USER_FIRST_PAGE ≤ p < USER_LAST_PAGE → znth (phys_mem k) (ufr p) ≠ Some Frames.FREE_FRAME;
  fr_frames : ∃ fs pm, Frames.alloc_n (Z.to_nat NUM_PAG_DATA) (phys_mem k) = Some (fs, pm) ∧ -1 ∉ fs;
  fr_pages : (Z.to_nat NUM_PAG_DATA ≤ length (free_pages (pt_of run) (ptes k)))%nat;
  fr_pid : 0 < next_pid k;
}.

(** What it leaves. *)
Record fork_done `{Layout} k run child fq rq bq cs F ufr k' : Prop := {
  fd_inv : sched_inv k' run fq (rq ++ [child]) bq ((sons child, []) :: (sons run, bros <$> (cs ++ [child])) :: F);
  fd_child : ∃ pc, tasks k !! run = Some pc ∧ tasks k' = <[child := child_pcb run child (next_pid k) pc]> (tasks k);
  fd_pid : next_pid k' = s32 (next_pid k + 1);
  fd_parent : user_process k' run ufr ∧
    (∀ i, 0 ≤ i < TOTAL_PAGES → ptes k' !! slot (pt_of run) i = ptes k !! slot (pt_of run) i) ∧
    (∀ a, user_area a 1 → load8 k' a = load8 k a);
  fd_space : ∃ ufr', proc_space k' child ufr' ∧
    (∀ a, user_area a 1 → pread k' (user_byte ufr' a) = pread k (user_byte ufr a)) ∧
    (∀ p q, USER_FIRST_PAGE ≤ p < PAG_LOG_INIT_CODE → USER_FIRST_PAGE ≤ q < USER_LAST_PAGE → ufr' p ≠ ufr q) ∧
    (∀ p, PAG_LOG_INIT_CODE ≤ p < USER_LAST_PAGE → ufr' p = ufr p) ∧
    (∀ p, USER_FIRST_PAGE ≤ p < PAG_LOG_INIT_CODE →
       znth (phys_mem k) (ufr' p) = Some Frames.FREE_FRAME ∧ znth (phys_mem k') (ufr' p) = Some 1);
  fd_stack : stacks k' !! stack_slot child (KERNEL_STACK_SIZE - 18) = Some ret_from_fork ∧
    ∀ i, 0 ≤ i < KERNEL_STACK_SIZE → i ≠ KERNEL_STACK_SIZE - 18 → i ≠ KERNEL_STACK_SIZE - 19 →
      stacks k' !! stack_slot child i = stacks k !! stack_slot run i;
  fd_cpu : esp k' = esp k ∧ msrs k' = msrs k ∧
    ∀ t a, is_task t → t ≠ child → t ≤ a < t + 4096 → stacks k' !! a = stacks k !! a;
  fd_rest : shared_pages k' = shared_pages k ∧ Frames.wf (phys_mem k') ∧ idle_task k' = idle_task k ∧
    dom (lists k') = dom (lists k);
  fd_tables : (∀ t, is_task t → ptes k' !! slot (dir_of t) 0 = ptes k !! slot (dir_of t) 0) ∧
    (∀ t i, is_task t → 0 ≤ i < TOTAL_PAGES → t ≠ child ∨ USER_LAST_PAGE ≤ i →
       ptes k' !! slot (pt_of t) i = ptes k !! slot (pt_of t) i);
  fd_counts : ∀ f v, znth (phys_mem k) f = Some v → v ≠ Frames.FREE_FRAME → znth (phys_mem k') f = Some v;
  fd_bytes : ∀ z, znth (phys_mem k) (z / 4096) ≠ Some Frames.FREE_FRAME → pread k' z = pread k z;
}.

Section whole.
Context `{LayoutOk}.
Implicit Types (k : kernel) (t run child : Z) (pc : task_struct) (fq rq bq cs : list Z) (F : list (Z * list Z)).

(** The free PCB is none of the processes. *)
Lemma free_apart k run child fq rq bq F :
  sched_inv k run (child :: fq) rq bq F →
  is_task run ∧ is_task child ∧ child ≠ run ∧ child ≠ idle_task k ∧ child ∉ fq ∧ child ∉ rq ∧ child ∉ bq.
Proof.
  intros (Hp & Hout & _). pose proof (rings_nodup _ _ _ _ _ (p_rings _ _ _ _ _ _ Hp)) as Hnd. cbn [app] in Hnd.
  apply NoDup_cons in Hnd as [Hc _]. rewrite !elem_of_app in Hc.
  pose proof (proj1 (p_idle _ _ _ _ _ _ Hp)) as Hi. cbn [app] in Hi, Hout. rewrite not_elem_of_cons in Hi, Hout.
  split; [eapply pre_task; [exact Hp|tauto]|]. split; [eapply pre_task; [exact Hp|do 2 right; by left]|].
  split; [intros E; by apply (proj1 Hout)|]. split; [intros E; by apply (proj1 Hi)|]. tauto.
Qed.

Lemma fork_inv k run child fq rq bq cs F pc k' :
  sched_inv k run (child :: fq) rq bq ((sons run, bros <$> cs) :: F) → 0 < next_pid k →
  rings (lists k') (forked run child fq rq bq cs F) → dom (lists k') = dom (lists k) →
  tasks k' = <[child := child_pcb run child (next_pid k) pc]> (tasks k) →
  esp k' = esp k → cr3 k' = cr3 k → tss_esp0 k' = tss_esp0 k → msrs k' = msrs k → idle_task k' = idle_task k →
  (∀ t a, is_task t → t ≠ child → t ≤ a < t + 4096 → stacks k' !! a = stacks k !! a) →
  stacks k' !! stack_slot child (KERNEL_STACK_SIZE - 18) = Some ret_from_fork →
  sched_inv k' run fq (rq ++ [child]) bq ((sons child, []) :: (sons run, bros <$> (cs ++ [child])) :: F).
Proof.
  intros Hi Hpid Hl Hd Ht He Hc3 Htss Hmsr Hid Hst Hret.
  destruct (free_apart _ _ _ _ _ _ _ Hi) as (Htr & Htc & Hcr & Hci & Hcf & Hcq & Hcb).
  destruct Hi as (Hp & Hout & Hcpu). cbn [app] in Hout. rewrite not_elem_of_cons, elem_of_app in Hout.
  assert (Hpcb : ∀ t P, t ≠ child → pcb_is k t P → pcb_is k' t P).
  { intros t P Hne (p & Hpp & HP). exists p. split; [|done]. by rewrite Ht, lookup_insert_ne by done. }
  assert (Hsub : ∀ t, t ∈ fq → t ∈ child :: fq) by (intros t; by right).
  split; [|split; [rewrite elem_of_app; tauto|]].
  - split; rewrite ?Hid, ?He.
    + exact Hl.
    + intros t Htt. destruct (p_nodes _ _ _ _ _ _ Hp t Htt) as [Hn Hnf]. rewrite Hd. split; [done|].
      rewrite fmap_app. cbn [fmap list_fmap]. rewrite anchors_cons. cbn [app]. rewrite elem_of_cons, anchors_tail.
      intros [E|[E|?]]; [|unfold node, bros in E; destruct Htt, Htc; Z.div_mod_to_equations; lia|done].
      unfold node, sons in E. destruct Htt, Htc. Z.div_mod_to_equations; lia.
    + intros t. rewrite (p_cover _ _ _ _ _ _ Hp t). cbn [app]. rewrite !elem_of_cons, !elem_of_app, list_elem_of_singleton. tauto.
    + apply Hp.
    + destruct (p_idle _ _ _ _ _ _ Hp) as [Hni Hpi]. split; [|by apply Hpcb].
      cbn [app] in Hni. rewrite not_elem_of_cons, !elem_of_app in Hni. rewrite !elem_of_app, list_elem_of_singleton. intuition congruence.
    + intros t Htf. apply Hpcb; [by intros ->|]. by apply Hp, Hsub.
    + intros t [Htq|E%list_elem_of_singleton]%elem_of_app; [apply Hpcb; [by intros ->|by apply Hp]|]. subst t.
      eexists. split; [rewrite Ht; apply lookup_insert_eq|]. done.
    + intros t Htb. apply Hpcb; [by intros ->|by apply Hp].
    + intros t Htt Hne. destruct (decide (t = child)) as [->|Hnc].
      * exists (child_pcb run child (next_pid k) pc), ret_from_fork. cbn [kernel_esp0 child_pcb].
        unfold stack_slot, KERNEL_STACK_SIZE in *. replace (child + 4 * (1024 - 19) + 4) with (child + 4 * (1024 - 18)) by lia.
        split; [rewrite Ht; apply lookup_insert_eq|]. split; [done|]. split; [lia|]. unfold resumed_esp, on_stack.
        destruct code_apart as (_ & Hca & _). destruct (Z.eqb_spec ret_from_fork task_switch_ret); [congruence|lia].
      * assert (t = idle_task k ∨ t ∈ rq ++ bq) as Htt'.
        { rewrite !elem_of_app, list_elem_of_singleton in Htt. rewrite elem_of_app. tauto. }
        apply (saved_ext k); [by rewrite Ht, lookup_insert_ne| |by apply Hp].
        intros a Ha. apply (Hst t); [|done|done]. eapply pre_task; [exact Hp|]. rewrite !elem_of_app in *. tauto.
    + destruct (p_run _ _ _ _ _ _ Hp) as [Hr Hk]. rewrite elem_of_app, list_elem_of_singleton. split; [intros [?|?]; congruence|].
      cbn [app] in Hk. rewrite !elem_of_cons, !elem_of_app in Hk. destruct Hk as [?|[[?|?]|[?|[? Hk]]]]; [tauto|congruence|tauto|tauto|].
      do 3 right. split; [rewrite elem_of_app; tauto|]. apply Hpcb; [congruence|done].
  - destruct Hcpu as (H1 & H2 & H3). split; [congruence|]. split; [congruence|]. apply Hpcb; [congruence|]. by rewrite Hc3.
Qed.

(** The tables in the end, from those of each stage. *)
Record tables_done run child (fs : list Z) (m0 m4 : gmap Z Z) : Prop := {
  td_run : ∀ i, 0 ≤ i < TOTAL_PAGES → m4 !! slot (pt_of run) i = m0 !! slot (pt_of run) i;
  td_dir : ∀ t, is_task t → m4 !! slot (dir_of t) 0 = m0 !! slot (dir_of t) 0;
  td_copied : ∀ i, 0 ≤ i < NUM_PAG_KERNEL ∨ PAG_LOG_INIT_CODE ≤ i < USER_LAST_PAGE →
    m4 !! slot (pt_of child) i = m0 !! slot (pt_of run) i;
  td_data : ∀ (i : nat) f, fs !! i = Some f → m4 !! slot (pt_of child) (USER_FIRST_PAGE + Z.of_nat i) = Some (ss_entry f);
  td_above : ∀ i, USER_LAST_PAGE ≤ i < TOTAL_PAGES → m4 !! slot (pt_of child) i = m0 !! slot (pt_of child) i;
  td_others : ∀ t i, is_task t → t ≠ run → t ≠ child → 0 ≤ i < TOTAL_PAGES → m4 !! slot (pt_of t) i = m0 !! slot (pt_of t) i;
}.

Lemma fork_tables run child ps fs (m0 m1 m2 m3 m4 : gmap Z Z) :
  is_task run → is_task child → child ≠ run → length ps = 20%nat → length fs = 20%nat →
  (∀ p, p ∈ ps → USER_LAST_PAGE ≤ p < TOTAL_PAGES ∧ m0 !! slot (pt_of run) p = Some 0) →
  (∀ i, 0 ≤ i < NUM_PAG_KERNEL → m1 !! slot (pt_of child) i = m0 !! slot (pt_of run) i) →
  (∀ a, (∀ i, 0 ≤ i < NUM_PAG_KERNEL → a ≠ slot (pt_of child) i) → m1 !! a = m0 !! a) →
  (∀ i, PAG_LOG_INIT_CODE ≤ i < USER_LAST_PAGE → m2 !! slot (pt_of child) i = m1 !! slot (pt_of run) i) →
  (∀ a, (∀ i, PAG_LOG_INIT_CODE ≤ i < USER_LAST_PAGE → a ≠ slot (pt_of child) i) → m2 !! a = m1 !! a) →
  mapped_twice run child 0 ps fs m2 m3 → unmapped run ps m3 m4 → tables_done run child fs m0 m4.
Proof.
  intros Hr Hc Hne Hlp Hlf Hps H1 H1' H2 H2' [H3 H3'] [H4 H4']. rewrite Hlp in H3'.
  change USER_FIRST_PAGE with 256 in *. change USER_LAST_PAGE with 284 in *. change PAG_LOG_INIT_CODE with 276 in *.
  unfold TOTAL_PAGES, NUM_PAG_KERNEL in *.
  assert (Hcr : ∀ i j, 0 ≤ i < 1024 → 0 ≤ j < 1024 → slot (pt_of run) j ≠ slot (pt_of child) i).
  { intros i j Hi Hj E. apply pt_slot_inj in E as [E _]; [congruence|done..]. }
  assert (Hcc : ∀ i j, 0 ≤ i < 1024 → 0 ≤ j < 1024 → i ≠ j → slot (pt_of child) i ≠ slot (pt_of child) j).
  { intros i j Hi Hj Hij E. apply pt_slot_inj in E as [_ E]; done. }
  assert (Hrr : ∀ i j, 0 ≤ i < 1024 → 0 ≤ j < 1024 → i ≠ j → slot (pt_of run) i ≠ slot (pt_of run) j).
  { intros i j Hi Hj Hij E. apply pt_slot_inj in E as [_ E]; done. }
  assert (Hrun : ∀ i, 0 ≤ i < 1024 → m2 !! slot (pt_of run) i = m0 !! slot (pt_of run) i).
  { intros i Hi. rewrite H2', H1'; [done| |]; intros j Hj; apply Hcr; lia. }
  assert (Hchild : ∀ i, 0 ≤ i < 1024 → m4 !! slot (pt_of child) i = m3 !! slot (pt_of child) i).
  { intros i Hi. apply H4'. intros p Hp E. destruct (Hps p Hp). symmetry in E. revert E. apply Hcr; lia. }
  assert (Hkept : ∀ i, 0 ≤ i < 1024 → i < 256 ∨ 276 ≤ i → m4 !! slot (pt_of child) i = m2 !! slot (pt_of child) i).
  { intros i Hi Hi'. rewrite Hchild by done. apply H3'.
    - intros p Hp E. destruct (Hps p Hp). symmetry in E. revert E. apply Hcr; lia.
    - intros j Hj. apply Hcc; lia. }
  split; unfold TOTAL_PAGES, NUM_PAG_KERNEL; change USER_FIRST_PAGE with 256; change USER_LAST_PAGE with 284; change PAG_LOG_INIT_CODE with 276.
  - intros i Hi. destruct (decide (i ∈ ps)) as [Hin|Hout]; [rewrite H4 by done; symmetry; by apply Hps|].
    rewrite H4', H3', Hrun; [done|done| | |].
    + intros p Hp. destruct (Hps p Hp). apply Hrr; [lia..|]. by intros ->.
    + intros j Hj. apply Hcr; lia.
    + intros p Hp. destruct (Hps p Hp). apply Hrr; [lia..|]. by intros ->.
  - intros t Ht. rewrite H4', H3', H2', H1'; [done|intros; apply dir_pt_slot; unfold TOTAL_PAGES; done || lia..| | |].
    + intros p Hp. destruct (Hps p Hp). apply dir_pt_slot; unfold TOTAL_PAGES; done || lia.
    + intros; apply dir_pt_slot; unfold TOTAL_PAGES; done || lia.
    + intros p Hp. destruct (Hps p Hp). apply dir_pt_slot; unfold TOTAL_PAGES; done || lia.
  - intros i [Hi|Hi]; rewrite Hkept by lia.
    + rewrite H2' by (intros j Hj; apply Hcc; lia). by apply H1.
    + rewrite H2 by done. apply H1'. intros j Hj. apply Hcr; lia.
  - intros i f Hf. assert (i < 20)%nat by (rewrite <- Hlf; by eapply lookup_lt_Some).
    rewrite Hchild by lia. destruct (lookup_lt_is_Some_2 ps i) as [p Hp]; [lia|].
    destruct (H3 i p f Hp Hf) as [_ E]. by rewrite Z.add_0_r in E.
  - intros i Hi. rewrite Hkept by lia. rewrite H2', H1'; [done| |]; intros j Hj; apply Hcc; lia.
  - intros t i Ht Htr Htc Hi. assert (Ho : ∀ u j, is_task u → t ≠ u → 0 ≤ j < 1024 → slot (pt_of t) i ≠ slot (pt_of u) j).
    { intros u j Hu Hn Hj E. apply pt_slot_inj in E as [E _]; [congruence|done..]. }
    assert (Hpr : ∀ p, p ∈ ps → 0 ≤ p < 1024) by (intros p Hp; destruct (Hps p Hp); lia).
    rewrite H4' by (intros p Hp; apply Ho; auto). rewrite H3' by (first [intros p Hp; by apply Ho; auto | intros j Hj; apply Ho; [done|done|lia]]).
    by rewrite H2', H1' by (intros j Hj; apply Ho; [done|done|lia]).
Qed.

(** The frames of the child: new ones for the data, those of the parent for the code. *)
Definition child_frames (fs : list Z) (ufr : Z → Z) (p : Z) : Z :=
  if p <? PAG_LOG_INIT_CODE then default 0 (fs !! Z.to_nat (p - USER_FIRST_PAGE)) else ufr p.

Lemma child_frames_data fs ufr p : length fs = 20%nat → USER_FIRST_PAGE ≤ p < PAG_LOG_INIT_CODE →
  ∃ f, fs !! Z.to_nat (p - USER_FIRST_PAGE) = Some f ∧ child_frames fs ufr p = f.
Proof.
  intros Hl Hp. change USER_FIRST_PAGE with 256 in *. change PAG_LOG_INIT_CODE with 276 in *.
  destruct (lookup_lt_is_Some_2 fs (Z.to_nat (p - 256))) as [f Hf]; [lia|]. exists f. split; [done|].
  unfold child_frames. change USER_FIRST_PAGE with 256. change PAG_LOG_INIT_CODE with 276.
  destruct (Z.ltb_spec p 276); [|lia]. by rewrite Hf.
Qed.

Lemma child_space k k' run child pc ufr fs :
  is_task run → is_task child → proc_space k run ufr → tables_done run child fs (ptes k) (ptes k') →
  tasks k' !! child = Some (child_pcb run child (next_pid k) pc) →
  ptes k !! slot (dir_of child) 0 = Some (dir_entry (pt_of child)) →
  (∀ i, 0 ≤ i < TOTAL_PAGES → is_Some (ptes k !! slot (pt_of child) i)) →
  length fs = 20%nat → NoDup fs →
  (∀ f, f ∈ fs → NUM_PAG_KERNEL ≤ f < TOTAL_PAGES ∧ ∀ u, USER_FIRST_PAGE ≤ u < USER_LAST_PAGE → ufr u ≠ f) →
  proc_space k' child (child_frames fs ufr).
Proof.
  intros Hr Hc Hs [Td1 Td2 Td3 Td4 Td5] Hpc Hdir Htab Hlf Hnd Hfs.
  assert (HU : USER_FIRST_PAGE = 256 ∧ USER_LAST_PAGE = 284 ∧ TOTAL_PAGES = 1024 ∧ NUM_PAG_KERNEL = 256 ∧ PAG_LOG_INIT_CODE = 276) by done.
  assert (Hdata : ∀ p, USER_FIRST_PAGE ≤ p < PAG_LOG_INIT_CODE → ∃ f, fs !! Z.to_nat (p - USER_FIRST_PAGE) = Some f ∧
    child_frames fs ufr p = f ∧ f ∈ fs ∧ ptes k' !! slot (pt_of child) p = Some (ss_entry f)).
  { intros p Hp. destruct (child_frames_data fs ufr p Hlf Hp) as (f & Hf & E). exists f. split; [done|]. split; [done|].
    split; [by eapply list_elem_of_lookup_2|]. rewrite <- (Td4 _ _ Hf). do 2 f_equal. lia. }
  assert (Hcode : ∀ p, PAG_LOG_INIT_CODE ≤ p → child_frames fs ufr p = ufr p).
  { intros p Hp. unfold child_frames. destruct (Z.ltb_spec p PAG_LOG_INIT_CODE); [lia|done]. }
  split.
  - split; [eexists; split; [exact Hpc|done]|]. split; [by rewrite Td2|]. intros i Hi.
    destruct (decide (i < 256 ∨ 276 ≤ i < 284)); [rewrite Td3 by lia; apply Hs; lia|].
    destruct (decide (i < 276)); [destruct (Hdata i) as (f & _ & _ & _ & ->); [lia|eauto]|]. rewrite Td5 by lia. by apply Htab.
  - intros i Hi. rewrite Td3 by lia. by apply Hs.
  - intros p Hp. destruct (decide (p < PAG_LOG_INIT_CODE)).
    + destruct (Hdata p) as (f & _ & -> & _ & ->); [lia|]. exists (ss_entry f). split; [done|by right].
    + rewrite Td3, Hcode by lia. by apply Hs.
  - intros p Hp. destruct (decide (p < PAG_LOG_INIT_CODE)).
    + destruct (Hdata p) as (f & _ & -> & Hin & _); [lia|]. by apply Hfs.
    + rewrite Hcode by lia. by apply Hs.
  - intros p q Hp Hq. destruct (decide (p < PAG_LOG_INIT_CODE)), (decide (q < PAG_LOG_INIT_CODE)).
    + destruct (Hdata p) as (f & Hf & -> & _); [lia|]. destruct (Hdata q) as (g & Hg & -> & _); [lia|]. intros ->.
      pose proof (NoDup_lookup _ _ _ _ Hnd Hf Hg). lia.
    + destruct (Hdata p) as (f & Hf & -> & Hin & _); [lia|]. rewrite Hcode by lia. intros E. destruct (Hfs f Hin) as [_ Hn]. by destruct (Hn q Hq).
    + destruct (Hdata q) as (f & Hf & -> & Hin & _); [lia|]. rewrite Hcode by lia. intros E. destruct (Hfs f Hin) as [_ Hn]. by destruct (Hn p Hp).
    + rewrite !Hcode by lia. by apply Hs.
Qed.

(** The frames of the allocator are new. *)
Lemma fresh_frames k ufr n fs pm :
  Frames.wf (phys_mem k) → Frames.alloc_n n (phys_mem k) = Some (fs, pm) → -1 ∉ fs →
  (∀ p, USER_FIRST_PAGE ≤ p < USER_LAST_PAGE → znth (phys_mem k) (ufr p) ≠ Some Frames.FREE_FRAME) →
  length fs = n ∧ NoDup fs ∧
  ∀ f, f ∈ fs → NUM_PAG_KERNEL ≤ f < TOTAL_PAGES ∧ ∀ u, USER_FIRST_PAGE ≤ u < USER_LAST_PAGE → ufr u ≠ f.
Proof.
  intros Hwf Hal Hm1 Hheld. pose proof (Frames.alloc_n_spec n (phys_mem k) Hwf) as Hw. unfold wp in Hw. rewrite Hal in Hw.
  destruct Hw as (_ & Hl & Hfree & Hnd & _). split; [done|]. split.
  - rewrite filter_all_in in Hnd; [done|]. intros r Hr ->. done.
  - intros f Hf. destruct (Hfree f Hf) as [->|[Ha Hz]]; [done|]. split; [destruct Ha; unfold TOTAL_PAGES, NUM_PAG_KERNEL in *; lia|].
    intros u Hu <-. by apply (Hheld u Hu).
Qed.

Lemma alloc_keeps_wf n pm fs pm' : Frames.wf pm → Frames.alloc_n n pm = Some (fs, pm') → Frames.wf pm'.
Proof. intros Hwf Hal. pose proof (Frames.alloc_n_spec n pm Hwf) as Hw. unfold wp in Hw. rewrite Hal in Hw. apply Hw. Qed.

(** The frames in use keep their counts, the new ones were free. *)
Lemma alloc_counts n pm fs pm' : Frames.wf pm → Frames.alloc_n n pm = Some (fs, pm') → -1 ∉ fs →
  (∀ f v, znth pm f = Some v → v ≠ Frames.FREE_FRAME → znth pm' f = Some v) ∧
  (∀ f, f ∈ fs → znth pm f = Some Frames.FREE_FRAME ∧ znth pm' f = Some 1).
Proof.
  intros Hwf Hal Hm1. pose proof (Frames.alloc_n_spec n pm Hwf) as Hw. unfold wp in Hw. rewrite Hal in Hw.
  destruct Hw as (_ & _ & Hfree & _ & Heff & _). split.
  - intros f v Hv Hne. pose proof (znth_Some_range _ _ _ Hv) as Hr. rewrite Heff by (destruct Hwf; lia).
    destruct (decide (f ∈ fs)) as [Hin|]; [|done]. destruct (Hfree f Hin) as [->|[_ Hz]]; [done|congruence].
  - intros f Hin. destruct (Hfree f Hin) as [->|[_ Hz]]; [done|]. split; [done|].
    pose proof (znth_Some_range _ _ _ Hz) as Hr. rewrite Heff by (destruct Hwf; lia). by rewrite decide_True.
Qed.

Lemma child_bytes k k4 fr ufr fs a :
  frames k4 = frames k → copied k4 fr ufr 0 fs → length fs = 20%nat →
  (∀ f, f ∈ fs → NUM_PAG_KERNEL ≤ f < TOTAL_PAGES ∧ ∀ u, USER_FIRST_PAGE ≤ u < USER_LAST_PAGE → ufr u ≠ f) →
  user_area a 1 →
  pread (set_frames fr k) (user_byte ufr a) = pread k (user_byte ufr a) ∧
  pread (set_frames fr k) (user_byte (child_frames fs ufr) a) = pread k (user_byte ufr a).
Proof.
  intros Efr [Hnew Hold] Hl Hfs [Ha1 Ha2].
  assert (HU : USER_FIRST_PAGE = 256 ∧ USER_LAST_PAGE = 284 ∧ PAG_LOG_INIT_CODE = 276) by done.
  assert (Hpg : USER_FIRST_PAGE ≤ a / 4096 < USER_LAST_PAGE) by (Z.div_mod_to_equations; lia).
  assert (Epr : ∀ z, pread k4 z = pread k z) by (intros z; cbn [pread PagedMem]; by rewrite Efr).
  assert (Hmod : 0 ≤ a mod 4096 < 4096) by (apply Z.mod_pos_bound; lia).
  assert (Hsame : pread (set_frames fr k) (user_byte ufr a) = pread k (user_byte ufr a)).
  { rewrite <- Epr. apply Hold. unfold user_byte. set (v := ufr _). intros Hin. destruct (Hfs _ Hin) as [_ Hn].
    apply (Hn (a / 4096) Hpg). subst v. Z.div_mod_to_equations; lia. }
  split; [exact Hsame|]. unfold user_byte. destruct (decide (a / 4096 < PAG_LOG_INIT_CODE)) as [Hd|Hc].
  - destruct (child_frames_data fs ufr (a / 4096) Hl) as (f & Hf & ->); [lia|].
    rewrite <- Epr. etransitivity; [exact (Hnew _ f (a mod 4096) Hf Hmod)|].
    by replace (USER_FIRST_PAGE + 0 + Z.of_nat (Z.to_nat (a / 4096 - USER_FIRST_PAGE))) with (a / 4096) by lia.
  - unfold child_frames. destruct (Z.ltb_spec (a / 4096) PAG_LOG_INIT_CODE); [lia|]. exact Hsame.
Qed.

Lemma own_anchors_out t fq rq bq F :
  is_task t → (∀ u, u ∈ fq ++ rq ++ bq → is_task u) → t ∉ fq ++ rq ++ bq →
  (∀ a, a ∈ own_anchors t → a ∉ anchors F) → ∀ a, a ∈ own_anchors t → a ∉ anchors (queues fq rq bq F).
Proof.
  intros Ht Hq Hout HF a Ha. assert (HFa := HF a Ha). unfold own_anchors in Ha. rewrite !elem_of_cons in Ha.
  assert (Hhead : ∀ q, q = freequeue ∨ q = readyqueue ∨ q = blocked → a ≠ q).
  { intros q Hq' ->. pose proof (queues_out q Hq') as [_ Hqo]. destruct Ht as [Ht Hm]. pose proof task_aligned.
    assert (task ≤ q < task + TASKS_SIZE); [|lia]. unfold TASKS_SIZE, node, dead_sons, sons, bros in *.
    destruct Ha as [->|[->|[->|[->|?%elem_of_nil]]]]; Z.div_mod_to_equations; lia || done. }
  assert (Hnode : ∀ l : list Z, (∀ u, u ∈ l → u ∈ fq ++ rq ++ bq) → a ∉ node <$> l).
  { intros l Hl (u & E & Hu)%list_elem_of_fmap. specialize (Hl u Hu). pose proof (Hq u Hl) as [_ Hum]. destruct Ht as [_ Hm].
    assert (u = t) as ->; [|done]. unfold node, dead_sons, sons, bros in *.
    destruct Ha as [->|[->|[->|[->|?%elem_of_nil]]]]; Z.div_mod_to_equations; lia || done. }
  unfold queues. rewrite !anchors_cons, !app_comm_cons, !elem_of_app, !elem_of_cons.
  pose proof (Hhead freequeue ltac:(auto)). pose proof (Hhead readyqueue ltac:(auto)). pose proof (Hhead blocked ltac:(auto)).
  assert (a ∉ node <$> fq) by (apply Hnode; intros u Hu; rewrite !elem_of_app; auto).
  assert (a ∉ node <$> rq) by (apply Hnode; intros u Hu; rewrite !elem_of_app; auto).
  assert (a ∉ node <$> bq) by (apply Hnode; intros u Hu; rewrite !elem_of_app; auto). tauto.
Qed.

(** The entries a copy leaves. *)
Lemma entries_kept child run base n (m m' : gmap Z Z) :
  is_task child → is_task run → child ≠ run → 0 ≤ base → base + n ≤ TOTAL_PAGES →
  (∀ i, base ≤ i < base + n → m' !! slot (pt_of child) i = m !! slot (pt_of run) i) →
  (∀ a, (∀ i, base ≤ i < base + n → a ≠ slot (pt_of child) i) → m' !! a = m !! a) →
  (∀ i, 0 ≤ i < TOTAL_PAGES → is_Some (m !! slot (pt_of child) i)) →
  (∀ i, 0 ≤ i < TOTAL_PAGES → is_Some (m !! slot (pt_of run) i)) →
  (∀ i, 0 ≤ i < TOTAL_PAGES → is_Some (m' !! slot (pt_of child) i)) ∧
  (∀ i, 0 ≤ i < TOTAL_PAGES → m' !! slot (pt_of run) i = m !! slot (pt_of run) i) ∧
  (∀ t, is_task t → m' !! slot (dir_of t) 0 = m !! slot (dir_of t) 0).
Proof.
  intros Hc Hr Hne Hb Hn Hin Hout Hsc Hsr. split; [|split].
  - intros i Hi. destruct (decide (base ≤ i < base + n)) as [Hi'|Hi']; [rewrite Hin by done; by apply Hsr|].
    rewrite Hout; [by apply Hsc|]. intros j Hj E. apply pt_slot_inj in E as [_ ->]; [done|done|done|done|lia].
  - intros i Hi. apply Hout. intros j Hj E. apply pt_slot_inj in E as [E _]; [by apply Hne|done|done|done|lia].
  - intros t Ht. apply Hout. intros j Hj. apply dir_pt_slot; [done|done|lia].
Qed.

Lemma free_pages_ext PT (m m' : gmap Z Z) :
  (∀ i, 0 ≤ i < TOTAL_PAGES → m' !! slot PT i = m !! slot PT i) → free_pages PT m' = free_pages PT m.
Proof.
  intros Hm. unfold free_pages. apply filter_ext_in. intros q Hq%elem_of_seqZ.
  unfold TOTAL_PAGES in *. change USER_LAST_PAGE with 284 in *. by rewrite Hm by lia.
Qed.

(** The second half of the call: the copies are made through the pages [ps]. *)
Lemma wp_fork_tail k run child ps fs ufr (Q : Z → kernel → Prop) :
  user_process k run ufr → shm_ok k → length ps = length fs → Z.of_nat (length ps) ≤ NUM_PAG_DATA →
  NoDup ps → (∀ p, p ∈ ps → USER_LAST_PAGE ≤ p < TOTAL_PAGES) →
  (∀ i p f, ps !! i = Some p → fs !! i = Some f → ptes k !! slot (pt_of run) p = Some (ss_entry f)) →
  NoDup fs → (∀ f, f ∈ fs → NUM_PAG_KERNEL ≤ f < TOTAL_PAGES ∧ ∀ u, USER_FIRST_PAGE ≤ u < USER_LAST_PAGE → ufr u ≠ f) →
  (∀ fr m, copied k fr ufr 0 fs → unmapped run ps (ptes k) m → wp (fork_finish child) Q (set_ptes m (set_frames fr k))) →
  wp (c ← gets current; d ← get_DIR c; set_cr3 d ;;
      fork_copy 0 ps (pt_of run) ;; fork_shared (pt_of run) (pt_of child) ;; fork_finish child) Q k.
Proof.
  intros Hup Hsh Hlen Hn Hnp Hps He Hnf Hfs HQ. assert (Hup' := Hup). destruct Hup' as [Ht Hs [Hr1 Hr2] Hc].
  apply wp_bind, wp_gets. rewrite Hc. apply wp_bind, wp_get_DIR; [apply Hs|].
  unfold set_cr3. apply wp_bind, wp_modify. assert (Ek : put_cr3 (dir_of run) k = k) by (rewrite <- Hr1; by destruct k).
  rewrite Ek. apply wp_bind. apply (wp_fork_copy ps fs 0 run ufr); [done|done|lia|lia|done..|].
  intros fr m Hcp Hun. apply wp_bind, wp_fork_shared; [exact (shm_ok_same k (set_ptes m (set_frames fr k)) eq_refl Hsh)| |by apply HQ].
  intros i Hi. change (ptes (set_ptes m (set_frames fr k))) with m. destruct Hun as [Hm1 Hm2].
  destruct (decide (i ∈ ps)) as [Hin|Hout]; [rewrite Hm1 by done; eauto|]. rewrite Hm2; [by apply Hs|].
  intros p Hp E. apply pt_slot_inj in E as [_ ->]; [done|done|done|done|]. specialize (Hps p Hp).
  change USER_LAST_PAGE with 284 in Hps. lia.
Qed.

(** The parent keeps its space while the pages [ps] are reserved. *)
Lemma reserved_process k run child ufr ps fs (m2 m3 : gmap Z Z) pm :
  user_process k run ufr → is_task child → child ≠ run → length ps = 20%nat → length fs = 20%nat →
  (∀ p, p ∈ ps → USER_LAST_PAGE ≤ p < TOTAL_PAGES ∧ ptes k !! slot (pt_of run) p = Some 0) →
  (∀ i, 0 ≤ i < TOTAL_PAGES → m2 !! slot (pt_of run) i = ptes k !! slot (pt_of run) i) →
  (∀ t, is_task t → m2 !! slot (dir_of t) 0 = ptes k !! slot (dir_of t) 0) →
  mapped_twice run child 0 ps fs m2 m3 → user_process (set_ptes m3 (set_phys_mem pm (set_ptes m2 k))) run ufr.
Proof.
  intros [Htr Hs Hr Hcur] Htc Hcr Hlp Hlf Hps Hrun Hdir [Hin Hout].
  assert (HN : TOTAL_PAGES = 1024 ∧ USER_LAST_PAGE = 284) by (split; reflexivity).
  change USER_FIRST_PAGE with 256 in Hin, Hout. rewrite Hlp in Hout.
  assert (Hm3r : ∀ i, 0 ≤ i < TOTAL_PAGES → i ∉ ps → m3 !! slot (pt_of run) i = ptes k !! slot (pt_of run) i).
  { intros i Hi Hni. rewrite <- Hrun by done. apply Hout.
    - intros p Hp E. apply pt_slot_inj in E as [_ ->]; [done|done|done|done|]. destruct (Hps p Hp) as [Hr' _]. lia.
    - intros j Hj E. apply pt_slot_inj in E as [E _]; [by apply Hcr|done|done|done|lia]. }
  split; [done| |exact Hr|exact Hcur]. apply (proc_space_above k); [done| | | |exact Hs]; kcbn.
  - rewrite <- Hdir by done. apply Hout.
    + intros p Hp. destruct (Hps p Hp) as [Hr' _]. apply dir_pt_slot; [done|done|lia].
    + intros j Hj. apply dir_pt_slot; [done|done|lia].
  - intros i Hi. apply Hm3r; [lia|]. intros Hip. destruct (Hps i Hip). lia.
  - intros i Hi. destruct (decide (i ∈ ps)) as [Hip|Hip]; [|rewrite Hm3r by (done || lia); apply Hs; lia].
    apply list_elem_of_lookup_1 in Hip as [j Hj]. destruct (lookup_lt_is_Some_2 fs j) as [f Hf].
    { rewrite Hlf, <- Hlp. by eapply lookup_lt_Some. }
    destruct (Hin j i f Hj Hf) as [-> _]. eauto.
Qed.

(** The pages of the child, from the state after the copy of the union. *)
Lemma fork_space_run k run child ufr fs pm (Q : Z → kernel → Prop) :
  user_process k run ufr → is_task child → child ≠ run → has_space k child → shm_ok k →
  Frames.wf (phys_mem k) → Frames.alloc_n 20 (phys_mem k) = Some (fs, pm) → -1 ∉ fs →
  length fs = 20%nat → NoDup fs →
  (∀ f, f ∈ fs → NUM_PAG_KERNEL ≤ f < TOTAL_PAGES ∧ ∀ u, USER_FIRST_PAGE ≤ u < USER_LAST_PAGE → ufr u ≠ f) →
  (20 ≤ length (free_pages (pt_of run) (ptes k)))%nat →
  (∀ m fr, tables_done run child fs (ptes k) m → copied k fr ufr 0 fs →
     wp (fork_finish child) Q (set_ptes m (set_frames fr (set_phys_mem pm k)))) →
  wp (fork_space child) Q k.
Proof.
  intros Hup Htc Hcr Hspc Hsh Hphys Hal Hfs Hlf Hnf Hfresh Hpages HQ.
  assert (Hup' := Hup). destruct Hup' as [Htr Hs Hr Hcur]. assert (Hsp := ps_space _ _ _ Hs).
  assert (Hsp' := Hsp). destruct Hsp' as (Hpc & Hrd & Hrt). assert (Htab := proj2 (proj2 Hspc)).
  assert (HN : TOTAL_PAGES = 1024 ∧ NUM_PAG_KERNEL = 256 ∧ PAG_LOG_INIT_CODE = 276 ∧ USER_LAST_PAGE = 284) by (repeat split).
  assert (Hspr : ∀ m, (∀ i, 0 ≤ i < TOTAL_PAGES → is_Some (m !! slot (pt_of run) i)) →
    m !! slot (dir_of run) 0 = ptes k !! slot (dir_of run) 0 → has_space (set_ptes m k) run).
  { intros m Hm Hmd. split; [exact Hpc|]. split; [exact (eq_trans Hmd Hrd)|exact Hm]. }
  unfold fork_space. apply wp_bind, wp_get_PT; [done..|]. apply wp_bind, wp_gets. rewrite Hcur.
  apply wp_bind, wp_get_PT; [done..|].
  apply wp_bind. refine (wp_copy_ptes k child run 0 256 _ Htc Htr Hcr _ _ Htab Hrt _); [lia..|].
  intros m1 Hm1 Hm1'. destruct (entries_kept child run 0 256 (ptes k) m1) as (Htab1 & Hrt1 & Hdir1); [done|done|done|lia|lia|done..|].
  assert (Hrs1 : ∀ i, 0 ≤ i < TOTAL_PAGES → is_Some (m1 !! slot (pt_of run) i)) by (intros i Hi; rewrite Hrt1 by done; by apply Hrt).
  apply wp_bind. refine (wp_copy_ptes (set_ptes m1 k) child run PAG_LOG_INIT_CODE 8 _ Htc Htr Hcr _ _ Htab1 Hrs1 _); [lia..|].
  intros m2 Hm2 Hm2'. change (set_ptes m2 (set_ptes m1 k)) with (set_ptes m2 k).
  destruct (entries_kept child run PAG_LOG_INIT_CODE 8 m1 m2) as (Htab2 & Hrt2 & Hdir2); [done|done|done|lia|lia|done..|].
  assert (Hrun2 : ∀ i, 0 ≤ i < TOTAL_PAGES → m2 !! slot (pt_of run) i = ptes k !! slot (pt_of run) i).
  { intros i Hi. rewrite Hrt2 by done. by apply Hrt1. }
  change USE_COW with false. cbv iota. apply wp_bind.
  set (ps := take 20 (free_pages (pt_of run) (ptes k))).
  assert (Hlp : length ps = 20%nat) by (subst ps; rewrite length_take; lia).
  assert (Hps : ∀ p, p ∈ ps → USER_LAST_PAGE ≤ p < TOTAL_PAGES ∧ ptes k !! slot (pt_of run) p = Some 0).
  { intros p Hp. apply free_pages_range. rewrite <- (take_drop 20). apply elem_of_app. left. exact Hp. }
  refine (wp_fork_reserve 20 0 run child ps (drop 20 (free_pages (pt_of run) (ptes k))) fs pm (set_ptes m2 k) _
    Htr Htc (not_eq_sym Hcr) Hcur _ Htab2 _ Hlp Hphys Hal Hfs _ _ _); [| |lia|lia|].
  { apply Hspr; [intros i Hi; rewrite Hrun2 by done; by apply Hrt|]. rewrite Hdir2 by done. by apply Hdir1. }
  { change (ptes (set_ptes m2 k)) with m2. rewrite (free_pages_ext _ _ _ Hrun2). subst ps. by rewrite take_drop. }
  intros m3 Hm3. change (ptes (set_ptes m2 k)) with m2 in Hm3. cbv iota. clear Hal Hpages.
  apply (wp_fork_tail _ run child ps fs ufr); kcbn.
  - apply (reserved_process k run child ufr ps fs m2); [done..| |done]. intros t Ht. rewrite Hdir2 by done. by apply Hdir1.
  - refine (shm_ok_same k _ _ Hsh). reflexivity.
  - exact (eq_trans Hlp (eq_sym Hlf)).
  - rewrite Hlp. unfold NUM_PAG_DATA. lia.
  - subst ps. apply (NoDup_app _ (drop 20 (free_pages (pt_of run) (ptes k)))). rewrite take_drop. apply NoDup_filter, NoDup_seqZ.
  - intros p Hp. by apply Hps.
  - intros i p f Hip Hif. by apply (proj1 Hm3 i p f).
  - done.
  - done.
  - intros fr m4 Hcp Hun. apply (HQ m4 fr); [|exact Hcp]. apply (fork_tables run child ps fs _ m1 m2 m3 m4); auto.
Qed.

(** The state in which [fork_finish] starts. *)
Definition fork_copied k child pc (h : links) (st m fr : gmap Z Z) pm : kernel :=
  set_ptes m (set_frames fr (set_phys_mem pm
    (set_tasks (<[child := with_dir_pages_baseAddr (dir_of child) pc]> (tasks k))
      (set_stacks st (set_lists h k))))).

Lemma fork_stages k run child fq rq bq cs F ufr (Q : Z → kernel → Prop) :
  fork_ready k run child fq rq bq cs F ufr →
  (∀ pc h st m fs pm fr, tasks k !! run = Some pc → st = copy_words (Z.to_nat KERNEL_STACK_SIZE) run child (stacks k) →
     rings h (queues fq rq bq ((sons run, bros <$> cs) :: F)) → dom h = dom (lists k) →
     tables_done run child fs (ptes k) m → length fs = 20%nat → NoDup fs →
     (∀ f, f ∈ fs → NUM_PAG_KERNEL ≤ f < TOTAL_PAGES ∧ ∀ u, USER_FIRST_PAGE ≤ u < USER_LAST_PAGE → ufr u ≠ f) →
     copied k fr ufr 0 fs → Frames.wf pm → Frames.alloc_n 20 (phys_mem k) = Some (fs, pm) → -1 ∉ fs →
     wp (fork_finish child) Q (fork_copied k child pc h st m fr pm)) →
  wp sys_fork Q k.
Proof.
  intros [Hi Hup Hdom Hfam Hdir Htab Hsh Hphys Hheld (fs & pm & Hal & Hfs) Hpages Hpid] HQ.
  destruct (free_apart _ _ _ _ _ _ _ Hi) as (Htr & Htc & Hcr & Hci & Hcf & Hcq & Hcb).
  destruct (fresh_frames _ _ _ _ _ Hphys Hal Hfs Hheld) as (Hlf & Hnf & Hfresh).
  pose proof (alloc_keeps_wf _ _ _ _ Hphys Hal) as Hwf.
  assert (Hup' := Hup). destruct Hup' as [_ Hs Hr Hcur]. assert (Hsp := ps_space _ _ _ Hs).
  assert (Hsp' := Hsp). destruct Hsp' as ((pc & Hpc & Hpcd) & Hrd & Hrt). assert (Hp := proj1 Hi).
  destruct (take_free _ _ _ _ _ _ (p_rings _ _ _ _ _ _ Hp)) as (Hfirst & h1 & Hh1 & Hd1 & Hl1 & _).
  destruct (p_free _ _ _ _ _ _ Hp child ltac:(by left)) as (pd & Hpd & _).
  unfold sys_fork, list_empty_of, list_first_of. apply wp_bind. eapply wp_ask.
  { exact (rings_empty _ _ _ _ (p_rings _ _ _ _ _ _ Hp)). }
  rewrite bool_decide_eq_false_2 by done. cbv iota. apply wp_bind. eapply wp_ask; [exact Hfirst|].
  apply wp_bind. eapply wp_on_lists; [exact Hh1|]. rewrite list_head_node by done. apply wp_bind, wp_gets.
  change (current (set_lists h1 k)) with (current k). rewrite Hcur.
  apply wp_bind, (wp_copy_union run child pc); [exact Hpc|eauto|kcbn; rewrite Hd1; intros a [Ha|Ha]; [by apply (Hdom run)|by apply (Hdom child)]|].
  intros h2 [Hd2 Ha2]. unfold allocate_DIR. rewrite dir_address by done.
  apply wp_bind, wp_bind. eapply wp_set_pcb; [apply lookup_insert_eq|]. apply wp_ret.
  specialize (HQ pc h2). unfold fork_copied in HQ. change (lists (set_lists h1 k)) with h1 in Hd2, Ha2.
  change (tasks (set_stacks _ _)) with (<[child := pc]> (tasks k)). rewrite insert_insert_eq.
  change (stacks (set_lists h1 k)) with (stacks k). 
  specialize (λ m fs pm fr, HQ _ m fs pm fr Hpc eq_refl) as HQ'. revert HQ'. clear HQ.
  generalize (copy_words (Z.to_nat KERNEL_STACK_SIZE) run child (stacks k)). intros st HQ.
  set (k0 := set_tasks _ _). assert (Hcr' : tasks k0 !! run = tasks k !! run) by exact (lookup_insert_ne _ _ _ _ Hcr).
  apply (fork_space_run k0 run child ufr fs pm).
  - split; [done| |exact Hr|exact Hcur]. apply (proc_space_above k); [exact Hcr'|done|done| |done].
    intros i Hi'. apply Hrt. change USER_LAST_PAGE with 284 in Hi'. lia.
  - done.
  - done.
  - split; [eexists; split; [apply lookup_insert_eq|done]|]. split; [exact Hdir|exact Htab].
  - refine (shm_ok_same k _ _ Hsh). reflexivity.
  - exact Hphys.
  - exact Hal.
  - exact Hfs.
  - exact Hlf.
  - exact Hnf.
  - exact Hfresh.
  - exact Hpages.
  - intros m fr Htd Hcp. refine (HQ m fs pm fr _ (eq_trans Hd2 Hd1) Htd Hlf Hnf Hfresh Hcp Hwf Hal Hfs).
    apply (rings_ext h1); [|exact Hl1]. intros a Ha. apply Ha2. intros Hown. revert a Hown Ha.
    apply own_anchors_out; [exact Htc| |rewrite !elem_of_app; tauto|exact Hfam].
    intros u Hu. apply (pre_task _ _ _ _ _ _ _ Hp). right. right. right. exact Hu.
Qed.

(** The stack of the child: the one of its parent, with the frame of [ret_from_fork]. *)
Lemma child_stack_spec run child (m st m' : gmap Z Z) :
  is_task run → is_task child → child ≠ run → st = copy_words (Z.to_nat KERNEL_STACK_SIZE) run child m →
  m' = <[stack_slot child (KERNEL_STACK_SIZE - 19) := 0]> (<[stack_slot child (KERNEL_STACK_SIZE - 18) := ret_from_fork]> st) →
  (∀ t a, is_task t → t ≠ child → t ≤ a < t + 4096 → m' !! a = m !! a) ∧
  m' !! stack_slot child (KERNEL_STACK_SIZE - 18) = Some ret_from_fork ∧
  ∀ i, 0 ≤ i < KERNEL_STACK_SIZE → i ≠ KERNEL_STACK_SIZE - 18 → i ≠ KERNEL_STACK_SIZE - 19 →
    m' !! stack_slot child i = m !! stack_slot run i.
Proof.
  unfold stack_slot, KERNEL_STACK_SIZE. change (Z.to_nat 1024) with (Pos.to_nat 1024).
  assert (HN : Z.of_nat (Pos.to_nat 1024) = 1024) by lia. generalize dependent (Pos.to_nat 1024). intros n HN [_ Hr] [_ Hc] Hne -> ->.
  assert (Hgap : ∀ t, t mod 4096 = 0 → t ≠ child → t + 4096 ≤ child ∨ child + 4096 ≤ t) by (intros; Z.div_mod_to_equations; lia).
  split; [|split].
  - intros t a [_ Ht] Htne Ha. specialize (Hgap t Ht Htne). rewrite !lookup_insert_ne by lia. apply copy_words_outside. intros i Hi. lia.
  - rewrite lookup_insert_ne by lia. apply lookup_insert_eq.
  - intros i Hi H1 H2. rewrite !lookup_insert_ne by lia. apply copy_words_inside; [|lia].
    specialize (Hgap run Hr (not_eq_sym Hne)). lia.
Qed.

(** The father goes on in its own space. *)
Lemma father_goes_on k k' run child p ufr fs m : user_process k run ufr → tasks k' = <[child := p]> (tasks k) → child ≠ run →
  tables_done run child fs (ptes k) m → ptes k' = m → running k' run → current k' = run → user_process k' run ufr.
Proof.
  intros [Htr Hs _ _] Htk Hcr Htd <- Hr Hcur. assert (Hsp := ps_space _ _ _ Hs).
  assert (Hpt : ∀ i, 0 ≤ i < TOTAL_PAGES → ptes k' !! slot (pt_of run) i = ptes k !! slot (pt_of run) i) by exact (td_run _ _ _ _ _ Htd).
  split; [exact Htr| |exact Hr|exact Hcur]. apply (proc_space_above k).
  - rewrite Htk. exact (lookup_insert_ne _ _ _ _ Hcr).
  - by apply (td_dir _ _ _ _ _ Htd).
  - intros i Hi'. apply Hpt. change USER_LAST_PAGE with 284 in Hi'. unfold TOTAL_PAGES. lia.
  - intros i Hi'. rewrite Hpt; [apply Hsp|]; change USER_LAST_PAGE with 284 in Hi'; lia.
  - exact Hs.
Qed.

(** Where the pages of the child are: the data in the new frames, the code where
    its father has it. *)
Lemma child_frames_apart fs ufr : length fs = 20%nat →
  (∀ f, f ∈ fs → NUM_PAG_KERNEL ≤ f < TOTAL_PAGES ∧ ∀ u, USER_FIRST_PAGE ≤ u < USER_LAST_PAGE → ufr u ≠ f) →
  (∀ p q, USER_FIRST_PAGE ≤ p < PAG_LOG_INIT_CODE → USER_FIRST_PAGE ≤ q < USER_LAST_PAGE → child_frames fs ufr p ≠ ufr q) ∧
  (∀ p, PAG_LOG_INIT_CODE ≤ p < USER_LAST_PAGE → child_frames fs ufr p = ufr p) ∧
  (∀ p, USER_FIRST_PAGE ≤ p < PAG_LOG_INIT_CODE → child_frames fs ufr p ∈ fs).
Proof.
  intros Hlf Hfresh. split; [|split].
  - intros p q Hp Hq E. destruct (child_frames_data fs ufr p Hlf Hp) as (f & Hf & Ef). rewrite Ef in E.
    apply (proj2 (Hfresh f (list_elem_of_lookup_2 _ _ _ Hf)) q Hq). by symmetry.
  - intros p [Hp _]. unfold child_frames. by destruct (Z.ltb_spec p PAG_LOG_INIT_CODE); [lia|].
  - intros p Hp. destruct (child_frames_data fs ufr p Hlf Hp) as (f & Hf & ->). by eapply list_elem_of_lookup_2.
Qed.

Lemma sys_fork_run k run child fq rq bq cs F ufr :
  fork_ready k run child fq rq bq cs F ufr →
  wp sys_fork (λ r k', r = next_pid k ∧ fork_done k run child fq rq bq cs F ufr k') k.
Proof.
  intros Hready. eapply fork_stages; [exact Hready|]. intros pc h st m fs pm fr Hpc Est Hl Hd Htd Hlf Hnf Hfresh Hcp Hwf Hal Hfs.
  pose proof Hready as [Hi Hup Hdom Hfam Hdir Htab _ _ _ _ _ Hpid].
  destruct (free_apart _ _ _ _ _ _ _ Hi) as (Htr & Htc & Hcr & Hci & Hcf & Hcq & Hcb).
  assert (Hup' := Hup). destruct Hup' as [_ Hs Hr Hcur]. assert (Hsp := ps_space _ _ _ Hs).
  destruct (fork_lists h run child fq rq bq cs F Hl) as (h1 & h2 & h3 & Hh1 & Hh2 & Hh3 & Hd3 & Hl3).
  { intros a Ha. rewrite Hd. split; [by apply (Hdom child)|]. revert a Ha. apply own_anchors_out; [done| | |exact Hfam].
    - intros u Hu. apply (pre_task _ _ _ _ _ _ _ (proj1 Hi)). right. right. right. exact Hu.
    - rewrite !elem_of_app. tauto. }
  set (k1 := fork_copied k child pc h st m fr pm).
  apply (wp_fork_finish k1 run child pc h1 h2 h3); [exact Htc|exact Hcur| |apply lookup_insert_eq|exact Hh1|exact Hh2|exact Hh3|exact Hr|].
  { apply (has_space_tables k); [|by apply Htd| |done].
    - exact (lookup_insert_ne _ _ _ _ Hcr).
    - intros i Hi' Hsi. change (is_Some (m !! slot (pt_of run) i)). by rewrite (td_run _ _ _ _ _ Htd). }
  split; [reflexivity|]. change (next_pid k1) with (next_pid k). set (k' := set_lists _ _).
  destruct (child_stack_spec run child (stacks k) st (stacks k') Htr Htc Hcr Est eq_refl) as (Hso & Hsr & Hsi).
  assert (Htk : tasks k' = <[child := child_pcb run child (next_pid k) pc]> (tasks k)) by exact (insert_insert_eq _ _ _ _).
  assert (Hpt : ∀ i, 0 ≤ i < TOTAL_PAGES → ptes k' !! slot (pt_of run) i = ptes k !! slot (pt_of run) i) by exact (td_run _ _ _ _ _ Htd).
  assert (Hup' : user_process k' run ufr).
  { by apply (father_goes_on k k' run child _ ufr fs m Hup Htk). }
  assert (Hbytes : ∀ a, user_area a 1 → pread k' (user_byte ufr a) = pread k (user_byte ufr a) ∧
    pread k' (user_byte (child_frames fs ufr) a) = pread k (user_byte ufr a)).
  { intros a Ha. exact (child_bytes k k fr ufr fs a eq_refl Hcp Hlf Hfresh Ha). }
  assert (Hinv : sched_inv k' run fq (rq ++ [child]) bq ((sons child, []) :: (sons run, bros <$> (cs ++ [child])) :: F)).
  { apply (fork_inv k run child fq rq bq cs F pc k'); [exact Hi|exact Hpid|exact Hl3|exact (eq_trans Hd3 Hd)|exact Htk|reflexivity..|exact Hso|exact Hsr]. }
  assert (Hspace : proc_space k' child (child_frames fs ufr)).
  { apply (child_space k k' run child pc ufr fs); [exact Htr|exact Htc|exact Hs|exact Htd| |exact Hdir|exact Htab|exact Hlf|exact Hnf|exact Hfresh].
    rewrite Htk. apply lookup_insert_eq. }
  destruct (alloc_counts _ _ _ _ (fr_phys _ _ _ _ _ _ _ _ _ Hready) Hal Hfs) as [Hkeep Hnew].
  assert (Hph : phys_mem k' = pm) by reflexivity. assert (Hpm : ptes k' = m) by reflexivity. rewrite <- Hph in Hkeep, Hnew. rewrite <- Hpm in Htd.
  assert (Hnp : next_pid k' = s32 (next_pid k + 1)) by reflexivity.
  assert (Hold : ∀ z, znth (phys_mem k) (z / 4096) ≠ Some Frames.FREE_FRAME → pread k' z = pread k z).
  { intros z Hz. apply Hcp. intros Hin. by apply Hz, Hnew. }
  assert (Hrest : shared_pages k' = shared_pages k ∧ Frames.wf (phys_mem k') ∧ idle_task k' = idle_task k ∧ dom (lists k') = dom (lists k)).
  { split; [reflexivity|]. split; [exact Hwf|]. split; [reflexivity|exact (eq_trans Hd3 Hd)]. }
  assert (Hcpu : esp k' = esp k ∧ msrs k' = msrs k ∧ ∀ t a, is_task t → t ≠ child → t ≤ a < t + 4096 → stacks k' !! a = stacks k !! a).
  { split; [reflexivity|]. split; [reflexivity|exact Hso]. }
  clearbody k'. split; [exact Hinv|exists pc; split; [exact Hpc|exact Htk]|exact Hnp| | | |exact Hcpu|exact Hrest| |exact Hkeep|exact Hold].
  - split; [exact Hup'|]. split; [exact Hpt|]. intros a Ha.
    rewrite (proj2 (user_load k' run ufr a Hup' Ha)), (proj2 (user_load k run ufr a Hup Ha)). f_equal. apply (Hbytes a Ha).
  - exists (child_frames fs ufr). split; [exact Hspace|]. split; [intros a Ha; apply (Hbytes a Ha)|].
    destruct (child_frames_apart fs ufr Hlf Hfresh) as (Hap & Hcode & Hin). split; [exact Hap|]. split; [exact Hcode|].
    intros p Hp. by apply Hnew, Hin.
  - split; [exact Hsr|exact Hsi].
  - split; [exact (td_dir _ _ _ _ _ Htd)|]. intros t i Ht Hi' Hor. destruct (decide (t = run)) as [->|Hnr]; [by apply (td_run _ _ _ _ _ Htd)|].
    destruct (decide (t = child)) as [->|Hnc]; [|by apply (td_others _ _ _ _ _ Htd)]. apply (td_above _ _ _ _ _ Htd). destruct Hor as [Hor|Hor]; [by destruct Hor|exact (conj Hor (proj2 Hi'))].
Qed.

Lemma sys_fork_full k run rq bq F : sched_inv k run [] rq bq F → wp sys_fork (λ r k', r = - ENOMEM ∧ k' = k) k.
Proof.
  intros Hi. unfold sys_fork, list_empty_of.
  apply wp_bind. eapply wp_ask; [exact (rings_empty _ _ _ _ (p_rings _ _ _ _ _ _ (proj1 Hi)))|].
  rewrite bool_decide_eq_true_2 by done. by apply wp_ret.
Qed.

(** ** After the boot *)

Definition child1 : Z := task + 4096 * 7.

Lemma boot_phys_wf : Frames.wf boot_phys.
Proof. split; [reflexivity|]. apply (bool_decide_unpack _). by vm_compute. Qed.

Lemma boot_held p : USER_FIRST_PAGE ≤ p < USER_LAST_PAGE → znth boot_phys (boot_ufr p) = Some 1.
Proof.
  intros Hp%user_pages_in. revert p Hp. apply Forall_forall. apply (bool_decide_unpack _). by vm_compute.
Qed.

Lemma boot_room : ∃ fs pm, Frames.alloc_n (Z.to_nat NUM_PAG_DATA) boot_phys = Some (fs, pm) ∧ -1 ∉ fs.
Proof.
  assert (∀ x, x = Frames.alloc_n (Z.to_nat NUM_PAG_DATA) boot_phys →
    match x with Some (fs, _) => bool_decide (-1 ∉ fs) | None => false end = true) as Hx by (intros x ->; by vm_compute).
  destruct (Frames.alloc_n (Z.to_nat NUM_PAG_DATA) boot_phys) as [[fs pm]|]; [|by specialize (Hx _ eq_refl)].
  exists fs, pm. split; [done|]. exact (bool_decide_eq_true_1 _ (Hx _ eq_refl)).
Qed.

Lemma booted_fork k k' c :
  booted k k' → dom (lists k) = dom (lists boot_image) → 0 < next_pid k →
  fork_ready (entered c k') task1 child1 (tail free0) [] [] [] [(sons idle0, [])] boot_ufr.
Proof.
  intros Hb Hlk Hpid. destruct start_tasks as (_ & Ht1 & _). destruct (bo_tables _ _ Hb) as (m & Hm & _ & Hout).
  assert (Htc : is_task child1) by (apply task_cases; right; right; by left).
  assert (Hne : child1 ≠ task1) by (unfold child1, task1; lia).
  assert (HN : USER_FIRST_PAGE = 256 ∧ USER_LAST_PAGE = 284 ∧ TOTAL_PAGES = 1024) by (repeat split).
  split.
  - apply (sched_inv_frame (set_esp (tss_esp0 k') k')); [by apply frame_fields|reflexivity..|exact (bo_inv _ _ Hb)].
  - exact (entered_process _ _ _ Hb).
  - intros t a Ht%task_list_spec Ha. change (a ∈ dom (lists k')). rewrite (bo_links _ _ Hb), Hlk. apply image_links.
    apply elem_of_app. right. apply list_elem_of_bind. by exists t.
  - intros a Ha Hin. rewrite !anchors_cons in Hin. cbn in Hin. unfold own_anchors in Ha. repeat rewrite elem_of_cons in Ha. rewrite !elem_of_cons in Hin.
    unfold child1, task1, idle0, node, dead_sons, sons, bros in *.
    destruct Ha as [->|[->|[->|[->|?%elem_of_nil]]]]; destruct Hin as [?|[?|?%elem_of_nil]]; done || lia.
  - change (ptes k' !! slot (dir_of child1) 0 = Some (dir_entry (pt_of child1))). rewrite Hout; [by apply Hm|].
    intros i Hi. apply dir_pt_slot; [done|done|lia].
  - intros i Hi. change (is_Some (ptes k' !! slot (pt_of child1) i)). rewrite Hout; [rewrite (proj2 (Hm _ Htc) i Hi); eauto|].
    intros j Hj E. apply pt_slot_inj in E as [E _]; [done|done|done|lia|lia].
  - exact (shm_ok_same k' (entered c k') eq_refl (booted_shm _ _ Hb)).
  - change (Frames.wf (phys_mem k')). rewrite (bo_phys _ _ Hb). exact boot_phys_wf.
  - intros p Hp. change (phys_mem (entered c k')) with (phys_mem k'). rewrite (bo_phys _ _ Hb). by rewrite (boot_held p Hp).
  - change (phys_mem (entered c k')) with (phys_mem k'). rewrite (bo_phys _ _ Hb). exact boot_room.
  - change (ptes (entered c k')) with (ptes k'). unfold free_pages. rewrite filter_all_in.
    + rewrite length_seqZ. change (TOTAL_PAGES - USER_LAST_PAGE) with 740. change NUM_PAG_DATA with 20. lia.
    + intros p Hp%elem_of_seqZ. change (TOTAL_PAGES - USER_LAST_PAGE) with 740 in Hp. rewrite Hout.
      * rewrite (proj2 (Hm _ Ht1)) by lia. unfold kernel_table, NUM_PAG_KERNEL. destruct (Z.ltb_spec p 256); [lia|]. by rewrite andb_false_r.
      * intros i Hi E. apply pt_slot_inj in E as [_ E]; [lia|done|done|lia|lia].
  - change (0 < next_pid k'). by rewrite (bo_pid _ _ Hb).
Qed.
End whole.

(** The first process ready to create another one. *)
Lemma example_ready : ∃ k, next_pid k = 2 ∧
  fork_ready (H := example_layout) k task1 child1 (tail free0) [] [] [] [(sons idle0, [])] boot_ufr ∧
  (∀ t p, is_task t → tasks k !! t = Some p → parent p = NULL) ∧ NULL ∉ dom (lists k) ∧
  pcb_is k task1 (λ p, PID p = 1) ∧ idle_task k = idle0.
Proof.
  destruct example_booted as [k' Hb].
  assert (Hpid : next_pid (loaded_image (H := example_layout) example_frames) = 2) by reflexivity.
  assert (Hdom : ∀ fr, dom (lists (loaded_image (H := example_layout) fr)) = dom (lists boot_image)) by (intros fr; reflexivity).
  assert (Hpar : ∀ t, is_task t → parent <$> tasks (loaded_image (H := example_layout) example_frames) !! t = Some NULL).
  { intros t Ht. change (parent <$> tasks boot_image !! t = Some NULL). by rewrite boot_image_pcb. }
  assert (Hnull : NULL ∉ dom (lists (boot_image (H := example_layout)))) by (apply not_elem_of_dom; by vm_compute).
  specialize (Hdom example_frames). generalize dependent (loaded_image (H := example_layout) example_frames). intros k0 Hb Hpid Hdom Hpar.
  exists (entered near_end k'). split.
  - change (next_pid k' = 2). rewrite (bo_pid _ _ Hb). exact Hpid.
  - split; [apply (booted_fork k0); [exact Hb|exact Hdom|rewrite Hpid; lia]|]. split; [|split; [|split; [|exact (bo_idle _ _ Hb)]]].
    + intros t p Ht Hp. change (tasks (entered near_end k')) with (tasks k') in Hp. pose proof (bo_parents _ _ Hb t Ht) as E.
      rewrite Hpar, Hp in E by done. by injection E.
    + change (lists (entered near_end k')) with (lists k'). by rewrite (bo_links _ _ Hb), Hdom.
    + destruct (bo_task1 _ _ Hb) as (p & Hp & HP & _). by exists p.
Qed.

(** C13: the creation of a process.  Without a free PCB the answer is [ENOMEM] and
    nothing changes.  Otherwise, when there are twenty free frames and twenty
    free pages in the table of the parent, the call returns the next PID and the
    child is ready to run: it has the PCB taken from the free queue, with the
    parent, the quantum and the stack of its parent except for the frame that
    sends it to [ret_from_fork] (which answers 0), it is the last of the ready
    queue and the last son of its parent, and the invariant of the scheduler
    holds.  Its user area has the same bytes as the one of the parent: data
    pages in frames of its own, code pages in the frames of the parent.  The
    parent finds its table and its memory as they were. *)
Theorem sys_fork_correct `{LayoutOk} k run rq bq :
  (∀ F, sched_inv k run [] rq bq F → wp sys_fork (λ r k', r = - ENOMEM ∧ k' = k) k) ∧
  (∀ child fq cs F ufr, fork_ready k run child fq rq bq cs F ufr →
     wp sys_fork (λ r k', r = next_pid k ∧ fork_done k run child fq rq bq cs F ufr k') k).
Proof. split; [apply sys_fork_full|intros child fq cs F ufr; apply sys_fork_run]. Qed.

Lemma sys_fork_correct_witness : ∃ k run,
  wp sys_fork (λ r k', r = 2 ∧ ∃ child ufr, proc_space k' child ufr ∧ current k' = run) k.
Proof.
  destruct example_ready as (k & Hpid & Hready & _). exists k, task1.
  eapply wp_mono; [exact (proj2 (sys_fork_correct k task1 [] []) child1 (tail free0) [] _ boot_ufr Hready)|].
  intros r k2 [-> Hd]. split; [exact Hpid|]. destruct (fd_space _ _ _ _ _ _ _ _ _ _ Hd) as (ufr' & Hs & _).
  exists child1, ufr'. split; [exact Hs|]. exact (up_current _ _ _ (proj1 (fd_parent _ _ _ _ _ _ _ _ _ _ Hd))).
Defined.
