(* ===== verification/Exit.v ===== *)
(** * The end of a process (sys_exit of sys.c)

    The process leaves its family, its sons go to the idle process, its data
    frames and its PCB are given back and the next process runs.  The PCB keeps
    its parent: a father that exits after one of its sons unlinks a node that is
    in no list, through a null pointer. *)

From stdpp Require Import functions.
From S2P Require Import Prelude CInt ListHead Memory Errno Console Paging Kernel Mm Space Sched Boot Interrupt System Process Shm Fork.
Import PTE PageTable.

(** ** Families

    [fam u] are the sons of the process [u]; the processes [ps] have a list of
    sons. *)

Definition fams (ps : list Z) (fam : Z → list Z) : list (Z * list Z) := (λ u, (sons u, bros <$> fam u)) <$> ps.

Section family.
Context `{LayoutOk}.
Implicit Types (ps cs : list Z) (fam : Z → list Z) (Q : list (Z * list Z)).

Lemma fams_cons u ps fam : fams (u :: ps) fam = (sons u, bros <$> fam u) :: fams ps fam.
Proof. done. Qed.

Lemma fams_ext ps fam fam' : (∀ u, u ∈ ps → fam' u = fam u) → fams ps fam' = fams ps fam.
Proof. intros E. apply list_fmap_ext. intros i u Hu. by rewrite E by (by eapply list_elem_of_lookup_2). Qed.

#[export] Instance fams_perm fam : Proper ((≡ₚ) ==> (≡ₚ)) (λ ps, fams ps fam).
Proof. intros ps ps' E. unfold fams. by rewrite E. Qed.

(** The list of [u], and the others. *)
Lemma fams_split ps u fam : u ∈ ps → NoDup ps → ∃ rest, u ∉ rest ∧ ∀ fam', fams ps fam' ≡ₚ (sons u, bros <$> fam' u) :: fams rest fam'.
Proof.
  intros (l1 & l2 & ->)%list_elem_of_split Hnd. exists (l1 ++ l2).
  assert (Hp : l1 ++ u :: l2 ≡ₚ u :: l1 ++ l2) by solve_Permutation. rewrite Hp in Hnd.
  split; [by apply NoDup_cons in Hnd as [? _]|]. intros fam'. rewrite <- fams_cons. by apply fams_perm.
Qed.

Lemma bros_inj t t' : bros t = bros t' → t = t'.
Proof. unfold bros. lia. Qed.

Lemma bros_in t (ts : list Z) : bros t ∈ bros <$> ts ↔ t ∈ ts.
Proof. rewrite list_elem_of_fmap. split; [|eauto]. by intros (u & ->%bros_inj & ?). Qed.

(** The anchors of the families: the head of each list and its members. *)
Lemma anchors_fams ps fam a : a ∈ anchors (fams ps fam) ↔ ∃ u, u ∈ ps ∧ (a = sons u ∨ ∃ t, t ∈ fam u ∧ a = bros t).
Proof.
  unfold anchors. rewrite list_elem_of_bind. split.
  - intros (r & Ha & (u & -> & Hu)%list_elem_of_fmap). exists u. split; [done|]. cbn in Ha.
    apply elem_of_cons in Ha as [->|(t & -> & Ht)%list_elem_of_fmap]; [by left|right; eauto].
  - intros (u & Hu & Ha). exists (sons u, bros <$> fam u). split; [|apply list_elem_of_fmap; eauto]. cbn.
    apply elem_of_cons. destruct Ha as [->|(t & Ht & ->)]; [by left|right; by apply bros_in].
Qed.

(** A son leaves its family. *)
Lemma fam_del h Q ps fam u t :
  rings h (Q ++ fams ps fam) → NoDup ps → u ∈ ps → t ∈ fam u →
  ∃ h', list_del (bros t) h = Some h' ∧ dom h' = dom h ∧ h' !! bros t = Some (mk_list_head NULL NULL) ∧
    (∀ a, a ∉ anchors (Q ++ fams ps fam) → h' !! a = h !! a) ∧
    let fam' := <[u := filter (λ x, x ≠ t) (fam u)]> fam in
    rings h' (Q ++ fams ps fam') ∧ bros t ∉ anchors (Q ++ fams ps fam').
Proof.
  intros Hl Hnd Hu Ht. destruct (fams_split ps u fam Hu Hnd) as (rest & Hr & Hsp).
  apply list_elem_of_split in Ht as (l1 & l2 & Et).
  assert (Hp : ∀ fam', Q ++ fams ps fam' ≡ₚ (sons u, bros <$> fam' u) :: Q ++ fams rest fam').
  { intros fam'. rewrite (Hsp fam'). solve_Permutation. }
  rewrite Hp in Hl. pose proof Hl as Hl0. rewrite Et, fmap_app in Hl.
  destruct (rings_del h _ (fmap (M := list) bros l1) (bros t) (fmap (M := list) bros l2) _ Hl) as (h' & Hh & [Hd Ho] & Hl' & Hn & Hout).
  assert (Hfil : filter (λ x, x ≠ t) (fam u) = l1 ++ l2).
  { rewrite Et. apply filter_del. apply (NoDup_fmap_1 bros). rewrite <- Et.
    by destruct (rings_head _ _ _ _ Hl0) as [[_ ?]%NoDup_cons _]. }
  exists h'. split; [done|]. split; [done|]. split; [done|]. split.
  { intros a Ha. apply Ho. intros Hin. apply Ha. rewrite Hp, Et, fmap_app, anchors_cons, app_comm_cons, elem_of_app. by left. }
  assert (E : fams rest (<[u := l1 ++ l2]> fam) = fams rest fam).
  { apply fams_ext. intros v Hv. apply fn_lookup_insert_ne. by intros <-. }
  cbv zeta. rewrite Hfil, !Hp, E, fn_lookup_insert, fmap_app. done.
Qed.

(** A process joins a family. *)
Lemma fam_add h Q ps fam u t :
  rings h (Q ++ fams ps fam) → NoDup ps → u ∈ ps → bros t ∈ dom h → bros t ∉ anchors (Q ++ fams ps fam) →
  ∃ h', list_add_tail (bros t) (sons u) h = Some h' ∧ dom h' = dom h ∧
    (∀ a, a ≠ bros t → a ∉ anchors (Q ++ fams ps fam) → h' !! a = h !! a) ∧
    rings h' (Q ++ fams ps (<[u := fam u ++ [t]]> fam)).
Proof.
  intros Hl Hnd Hu Hd Hout. destruct (fams_split ps u fam Hu Hnd) as (rest & Hr & Hsp).
  assert (Hp : ∀ fam', Q ++ fams ps fam' ≡ₚ (sons u, bros <$> fam' u) :: Q ++ fams rest fam').
  { intros fam'. rewrite (Hsp fam'). solve_Permutation. }
  rewrite Hp in Hl, Hout. destruct (rings_add_tail h _ _ _ _ Hl Hd Hout) as (h' & Hh & [Hd' Ho] & Hl').
  exists h'. split; [done|]. split; [done|]. split.
  { intros a Hne Ha. apply Ho. rewrite elem_of_cons. intros [?|Hin]; [done|]. apply Ha. rewrite Hp, anchors_cons, app_comm_cons, elem_of_app. by left. }
  assert (E : fams rest (<[u := fam u ++ [t]]> fam) = fams rest fam).
  { apply fams_ext. intros v Hv. apply fn_lookup_insert_ne. by intros <-. }
  rewrite Hp, E, fn_lookup_insert, fmap_app. done.
Qed.
End family.

(** ** The sons go to the idle process *)

Section sons.
Context `{LayoutOk}.
Implicit Types (k : kernel) (t run : Z) (fq rq bq ps : list Z) (fam : Z → list Z) (T : gmap Z task_struct) (h : links).

(** The PCBs before the one of index [i], in the order of the loop. *)
Definition tasks_before (i : Z) : list Z := (λ j, task + 4096 * Z.of_nat j) <$> seq 0 (Z.to_nat i).

Lemma tasks_before_S i : 0 ≤ i → tasks_before (i + 1) = tasks_before i ++ [task + 4096 * i].
Proof.
  intros Hi. unfold tasks_before. replace (Z.to_nat (i + 1)) with (S (Z.to_nat i)) by lia.
  rewrite seq_S, fmap_app. cbn. do 3 f_equal. lia.
Qed.

Lemma tasks_before_all : tasks_before NR_TASKS = task_list.
Proof. done. Qed.

(** After [i] turns of the loop, from the state [k] and the families [fam]. *)
Record adopted k run fq rq bq ps fam (i : Z) T h (fam' : Z → list Z) : Prop := {
  ad_dom : dom h = dom (lists k);
  ad_rings : rings h (queues fq rq bq (fams ps fam'));
  ad_out : ∀ a, a ∉ anchors (queues fq rq bq (fams ps fam)) → h !! a = lists k !! a;
  ad_tasks : ∀ t, T !! t = (λ p, if bool_decide (t ∈ fam run ∧ t < task + 4096 * i) then with_parent (idle_task k) p else p) <$> tasks k !! t;
  ad_run : fam' run = filter (λ t, task + 4096 * i ≤ t) (fam run);
  ad_idle : fam' (idle_task k) = fam (idle_task k) ++ filter (λ t, t ∈ fam run) (tasks_before i);
  ad_rest : ∀ u, u ≠ run → u ≠ idle_task k → fam' u = fam u;
  ad_anchors : ∀ a, a ∈ anchors (fams ps fam') → a ∈ anchors (fams ps fam);
}.

(** What the loop needs of the families. *)
Record sons_of k run ps fam : Prop := {
  sn_nodup : NoDup ps;
  sn_run : run ∈ ps;
  sn_idle : idle_task k ∈ ps;
  sn_ne : run ≠ idle_task k;
  sn_tasks : ∀ t, t ∈ fam run → is_task t;
  sn_pcbs : ∀ t, is_task t → is_Some (tasks k !! t);
}.

Lemma task_below t i : is_task t → t < task + 4096 * (i + 1) ↔ t < task + 4096 * i ∨ t = task + 4096 * i.
Proof. intros [_ Hm]. pose proof task_aligned. split; [|lia]. intros Hlt. Z.div_mod_to_equations; lia. Qed.

Lemma adopted_0 k run fq rq bq ps fam :
  sons_of k run ps fam → rings (lists k) (queues fq rq bq (fams ps fam)) →
  adopted k run fq rq bq ps fam 0 (tasks k) (lists k) fam.
Proof.
  intros Hs Hl. assert (Hb : ∀ t, t ∈ fam run → task ≤ t) by (intros t Ht; by destruct (sn_tasks _ _ _ _ Hs t Ht) as [[? _] _]).
  split; try done.
  - intros t. rewrite bool_decide_eq_false_2; [by destruct (tasks k !! t)|]. intros [Ht%Hb Hlt]. lia.
  - rewrite filter_all_in; [done|]. intros t Ht%Hb. lia.
  - cbn. by rewrite app_nil_r.
Qed.

(** A PCB that is no son is left alone. *)
Lemma adopted_skip k run fq rq bq ps fam i T h fam' :
  sons_of k run ps fam → 0 ≤ i → task + 4096 * i ∉ fam run →
  adopted k run fq rq bq ps fam i T h fam' → adopted k run fq rq bq ps fam (i + 1) T h fam'.
Proof.
  intros Hs Hi Hout [H1 H2 H3 H4 H5 H6 H7 H8].
  assert (Hb : ∀ t, t ∈ fam run → (t < task + 4096 * (i + 1) ↔ t < task + 4096 * i)).
  { intros t Ht. rewrite task_below by (by eapply sn_tasks). split; [intros [?|E]; [done|by subst t]|tauto]. }
  split; try done.
  - intros t. rewrite H4. apply option_fmap_ext. intros p.
    erewrite bool_decide_ext; [done|]. specialize (Hb t). tauto.
  - rewrite H5. apply filter_ext_in. intros t Ht. specialize (Hb t Ht). lia.
  - rewrite H6, tasks_before_S, filter_app, filter_cons_False, filter_nil, app_nil_r by done. done.
Qed.

Lemma queues_app fq rq bq F : queues fq rq bq F = queues fq rq bq [] ++ F.
Proof. done. Qed.

(** A son goes to the back of the list of the idle process. *)
Lemma adopted_take k run fq rq bq ps fam i T h fam' t :
  sons_of k run ps fam → 0 ≤ i → t = task + 4096 * i → t ∈ fam run →
  adopted k run fq rq bq ps fam i T h fam' →
  ∃ p h1 h2 fam2, T !! t = Some p ∧ list_del (bros t) h = Some h1 ∧ list_add_tail (bros t) (sons (idle_task k)) h1 = Some h2 ∧
    adopted k run fq rq bq ps fam (i + 1) (<[t := with_parent (idle_task k) p]> T) h2 fam2.
Proof.
  intros [Hnd Hr Hid Hne Htk Hpcb] Hi Et Ht [H1 H2 H3 H4 H5 H6 H7 H8].
  destruct (Hpcb t (Htk t Ht)) as [p Hp]. rewrite queues_app in H2.
  assert (Ht' : t ∈ fam' run) by (rewrite H5; apply list_elem_of_filter; split; [lia|done]).
  destruct (fam_del _ _ _ _ _ _ H2 Hnd Hr Ht') as (h1 & Hh1 & Hd1 & _ & Ho1 & Hl1 & Hout).
  set (f1 := <[run:=_]> fam') in *.
  assert (Hb : bros t ∈ dom h1).
  { rewrite Hd1. eapply rings_dom; [exact H2|]. unfold anchors. rewrite bind_app, elem_of_app. right. apply anchors_fams. eauto 6. }
  destruct (fam_add _ _ _ _ _ _ Hl1 Hnd Hid Hb Hout) as (h2 & Hh2 & Hd2 & Ho2 & Hl2).
  set (f2 := <[_:=_ ++ [t]]> f1) in *.
  assert (E2 : ∀ u, f2 u = if decide (u = idle_task k) then fam' u ++ [t] else if decide (u = run) then filter (λ x, x ≠ t) (fam' u) else fam' u).
  { intros u. subst f2 f1. destruct (decide (u = idle_task k)) as [->|Hu]; [rewrite fn_lookup_insert; by rewrite fn_lookup_insert_ne|].
    rewrite fn_lookup_insert_ne by done. destruct (decide (u = run)) as [->|]; [by rewrite fn_lookup_insert|by rewrite fn_lookup_insert_ne]. }
  assert (Hsub : ∀ a, a ∈ anchors (fams ps f2) → a ∈ anchors (fams ps fam')).
  { intros a (u & Hu & Ha)%anchors_fams. apply anchors_fams. destruct Ha as [->|(x & Hx & ->)]; [eauto|].
    rewrite E2 in Hx. repeat case_decide; subst; [apply elem_of_app in Hx as [Hx| ->%list_elem_of_singleton]; eauto 6| |eauto 6].
    apply list_elem_of_filter in Hx as [_ Hx]. eauto 6. }
  exists p, h1, h2, f2. split; [rewrite H4, Hp, bool_decide_eq_false_2; [done|lia]|]. split; [done|]. split; [done|]. split.
  - congruence.
  - rewrite queues_app. exact Hl2.
  - intros a Ha. assert (Ha' : a ∉ anchors (queues fq rq bq [] ++ fams ps fam')).
    { rewrite queues_app in Ha. unfold anchors in *. rewrite bind_app, elem_of_app in *. intros [?|?%H8]; tauto. }
    rewrite Ho2, Ho1, H3; [done|done|done| |].
    + intros ->. apply Ha'. unfold anchors. rewrite bind_app, elem_of_app. right. apply anchors_fams. eauto 6.
    + intros Hin. apply Ha'. unfold anchors in *. rewrite bind_app, elem_of_app in *. destruct Hin as [?|Hin]; [by left|right].
      apply anchors_fams in Hin as (u & Hu & Hin). apply anchors_fams. exists u. split; [done|].
      destruct Hin as [->|(x & Hx & ->)]; [by left|]. right. exists x. split; [|done]. subst f1.
      destruct (decide (u = run)) as [->|]; [rewrite fn_lookup_insert, list_elem_of_filter in Hx; tauto|by rewrite fn_lookup_insert_ne in Hx].
  - intros u. rewrite lookup_insert. case_decide as E; [subst u; rewrite Hp; cbn; f_equal; rewrite bool_decide_eq_true_2; [done|split; [done|lia]]|].
    rewrite H4. apply option_fmap_ext. intros q. erewrite bool_decide_ext; [done|].
    split; intros [Hu Hlt]; (split; [done|]); [lia|]. apply task_below in Hlt; [|by apply Htk]. destruct Hlt; [done|congruence].
  - rewrite E2, decide_False, decide_True, H5, list_filter_filter by done. apply filter_ext_in. intros x Hx.
    pose proof (task_below x i (Htk x Hx)). split; [intros [Hn Hle]; lia|intros Hle; split; [lia|lia]].
  - rewrite E2, decide_True, H6, tasks_before_S, filter_app by done. subst t.
    rewrite filter_cons_True, filter_nil, app_assoc by done. done.
  - intros u Hu Hu'. rewrite E2, !decide_False by done. by apply H7.
  - intros a Ha. apply H8, Hsub, Ha.
Qed.

(** The first [n] turns of the loop: the parent pointers below are right. *)
Lemma exit_turns (n : nat) k run fq rq bq ps fam (Q : unit → kernel → Prop) :
  (Z.of_nat n ≤ NR_TASKS) → current k = run →
  sons_of k run ps fam → rings (lists k) (queues fq rq bq (fams ps fam)) →
  (∀ t p, is_task t → t < task + 4096 * Z.of_nat n → tasks k !! t = Some p → parent p = run ↔ t ∈ fam run) →
  (∀ T h fam', adopted k run fq rq bq ps fam (Z.of_nat n) T h fam' → Q tt (set_tasks T (set_lists h k))) →
  wp (for_up n 0 exit_turn) Q k.
Proof.
  intros Hn Hc Hs Hl Hpar HQ. eapply wp_mono.
  { apply (wp_for_up (λ i k', ∃ T h fam', k' = set_tasks T (set_lists h k) ∧ adopted k run fq rq bq ps fam i T h fam')).
    { exists (tasks k), (lists k), fam. split; [by destruct k|by apply adopted_0]. }
    intros i k' Hi (T & h & fam' & -> & Ha). set (t := task + PAGE_SIZE * i).
    assert (Htt : is_task t) by (apply task_nth; lia). destruct (sn_pcbs _ _ _ _ Hs t Htt) as [p Hp].
    assert (HT : T !! t = Some p).
    { rewrite (ad_tasks _ _ _ _ _ _ _ _ _ _ _ Ha), Hp, bool_decide_eq_false_2; [done|]. subst t. unfold PAGE_SIZE. lia. }
    specialize (Hpar t p Htt ltac:(subst t; unfold PAGE_SIZE; lia) Hp).
    unfold exit_turn. fold t. apply wp_bind. eapply wp_pcb; [exact HT|]. apply wp_bind, wp_gets.
    change (current (set_tasks T (set_lists h k))) with (current k). rewrite Hc.
    destruct (Z.eqb_spec (parent p) run) as [E|E]; cbn [negb].
    - destruct (adopted_take _ _ _ _ _ _ _ i _ _ _ t Hs ltac:(lia) eq_refl (proj1 Hpar E) Ha) as (p' & h1 & h2 & f2 & HT' & Hh1 & Hh2 & Ha2).
      apply wp_bind, wp_gets. kcbn. kstep. eapply wp_set_pcb; [exact HT'|]. kcbn.
      kstep. eapply wp_on_lists; [exact Hh1|]. eapply wp_on_lists; [exact Hh2|]. kcbn.
      exists (<[t:=with_parent (idle_task k) p']> T), h2, f2. split; [reflexivity|exact Ha2].
    - apply wp_ret. exists T, h, fam'. split; [done|]. apply adopted_skip; [done|lia| |done]. intros Hin. by apply E, Hpar. }
  intros [] k' (T & h & fam' & -> & Ha). apply (HQ T h fam'). exact Ha.
Qed.
End sons.

(** ** The pages *)

Section pages.
Context `{LayoutOk}.
Implicit Types (k : kernel) (t run : Z) (pm : list Z) (ufr : Z → Z).

(** The loop over the shared pages finds none. *)
Lemma wp_exit_shared k run (Q : unit → kernel → Prop) :
  is_task run → has_space k run → shm_ok k → Q tt k → wp (exit_shared run) Q k.
Proof.
  intros Ht Hs Hok HQ. assert (HU : USER_LAST_PAGE = 284 ∧ TOTAL_PAGES = 1024) by done.
  eapply wp_mono; [apply (wp_for_up (λ _ k', k' = k)); [done|]|by intros [] k' ->].
  intros j k' Hj ->. change (Z.of_nat (Z.to_nat (TOTAL_PAGES - USER_LAST_PAGE))) with 740 in Hj.
  apply wp_bind, wp_get_PT; [done..|]. destruct (proj2 (proj2 Hs) j ltac:(lia)) as [e He].
  apply wp_bind. eapply wp_ask; [unfold is_logic_page_free, load_pte; by rewrite He|].
  destruct (e =? 0); [by apply wp_ret|].
  apply wp_bind. eapply wp_ask; [unfold get_frame, load_pte; by rewrite He|]. cbv zeta.
  apply wp_bind, wp_shifted_frame; [done|]. by apply wp_ret.
Qed.

(** The counts after [n] data pages have been given back: one reference less
    for their frames, but the frame [NUM_PAG_KERNEL] keeps its own. *)
Definition data_pages (n : Z) : list Z := seqZ USER_FIRST_PAGE n.
Definition given_back ufr (n : Z) pm pm' : Prop :=
  Frames.wf pm' ∧ ∀ i v, znth pm i = Some v →
    znth pm' i = Some (if bool_decide (i ∈ ufr <$> data_pages n) && (NUM_PAG_KERNEL <? i) then u8 (v - 1) else v).

Lemma data_pages_S n : 0 ≤ n → data_pages (n + 1) = data_pages n ++ [USER_FIRST_PAGE + n].
Proof. intros Hn. unfold data_pages. rewrite seqZ_app by lia. done. Qed.

Lemma given_back_step ufr n pm pm' pm2 :
  0 ≤ n → Frames.wf pm → 0 ≤ ufr (USER_FIRST_PAGE + n) → ufr (USER_FIRST_PAGE + n) ∉ ufr <$> data_pages n →
  given_back ufr n pm pm' → Frames.wf pm2 →
  (∀ i, 0 ≤ i < TOTAL_PAGES → ∀ v, znth pm' i = Some v → znth pm2 i =
     Some (if (i =? ufr (USER_FIRST_PAGE + n)) && (NUM_PAG_KERNEL <? ufr (USER_FIRST_PAGE + n)) then u8 (v - 1) else v)) →
  given_back ufr (n + 1) pm pm2.
Proof.
  intros Hn Hwf Hf Hnew [Hwf' Hg] Hwf2 H2. split; [done|]. intros i v Hv.
  assert (Hi : 0 ≤ i < TOTAL_PAGES) by (apply znth_Some_range in Hv; destruct Hwf; lia).
  rewrite (H2 i Hi _ (Hg i v Hv)), data_pages_S by done. rewrite fmap_app. cbn [fmap list_fmap]. f_equal.
  set (f := ufr (USER_FIRST_PAGE + n)) in *. destruct (Z.eqb_spec i f) as [->|Hne].
  - rewrite (bool_decide_eq_false_2 _ Hnew), bool_decide_eq_true_2; [done|]. apply elem_of_app. right. by left.
  - erewrite (bool_decide_ext (i ∈ (ufr <$> data_pages n) ++ [f])); [done|]. rewrite elem_of_app, list_elem_of_singleton. tauto.
Qed.

(** The data pages leave the table of the process. *)
Definition data_unmapped run (n : Z) (m m' : gmap Z Z) : Prop :=
  (∀ i, 0 ≤ i < n → m' !! slot (pt_of run) (USER_FIRST_PAGE + i) = Some 0) ∧
  (∀ a, (∀ i, 0 ≤ i < n → a ≠ slot (pt_of run) (USER_FIRST_PAGE + i)) → m' !! a = m !! a).

Lemma free_user_pages_run k run ufr (Q : unit → kernel → Prop) :
  is_task run → proc_space k run ufr → Frames.wf (phys_mem k) →
  (∀ m pm, data_unmapped run NUM_PAG_DATA (ptes k) m → given_back ufr NUM_PAG_DATA (phys_mem k) pm →
     Q tt (set_ptes m (set_phys_mem pm k))) →
  wp (free_user_pages run) Q k.
Proof.
  intros Ht Hs Hwf HQ. unfold free_user_pages. apply wp_bind, wp_get_PT; [done|apply Hs|].
  assert (HN : USER_FIRST_PAGE = 256 ∧ USER_LAST_PAGE = 284 ∧ TOTAL_PAGES = 1024 ∧ PAG_LOG_INIT_CODE = 276 ∧ NUM_PAG_DATA = 20) by (repeat split).
  eapply wp_mono.
  { apply (wp_for_up (λ n k', ∃ m pm, k' = set_ptes m (set_phys_mem pm k) ∧
      data_unmapped run n (ptes k) m ∧ given_back ufr n (phys_mem k) pm)).
    - exists (ptes k), (phys_mem k). split; [by destruct k|]. split; [split; [lia|done]|]. split; [done|]. intros i v Hv. by rewrite bool_decide_eq_false_2 by apply not_elem_of_nil.
    - intros n k' Hn (m & pm & -> & [Hm1 Hm2] & Hg). change (PAG_LOG_INIT_DATA + n) with (USER_FIRST_PAGE + n).
      set (p := USER_FIRST_PAGE + n) in *. assert (Hp : USER_FIRST_PAGE ≤ p < USER_LAST_PAGE) by lia.
      pose proof (ps_frames _ _ _ Hs p Hp) as Hfr. unfold NUM_PAG_KERNEL in Hfr.
      destruct (user_page_entry _ _ _ _ Hs Hp) as (e & He0 & _ & Hb & _). assert (He : m !! slot (pt_of run) p = Some e).
      { rewrite Hm2; [exact He0|]. intros i Hi E. apply pt_slot_inj in E as [_ E]; [lia|done|done|lia|lia]. }
      kstep. kstep; [unfold get_frame, load_pte; by rewrite He|]. rewrite Hb.
      destruct (Frames.free_frame_spec (ufr p) pm) as (pm2 & Hfree & Hwf2 & Hpm2); [apply Hg|lia|].
      kstep. kstep; [unfold lift; by rewrite Hfree|].
      kstep; [unfold store_pte; by rewrite He|]. exists (<[slot (pt_of run) p := 0]> m), pm2. split; [done|]. split; [split|].
      + intros i Hi. rewrite lookup_insert. case_decide as E; [done|]. apply Hm1.
        destruct (decide (i = n)) as [->|]; [done|lia].
      + intros a Ha. rewrite lookup_insert_ne by (intros E; apply (Ha n); [lia|by rewrite <- E]). apply Hm2. intros i Hi. apply Ha. lia.
      + apply (given_back_step ufr n (phys_mem k) pm); [lia|done|fold p; lia| |done|done|exact Hpm2].
        intros (q & E & Hq%elem_of_seqZ)%list_elem_of_fmap. apply (ps_inj _ _ _ Hs) in E; [lia|lia|lia]. }
  intros [] k' (m & pm & -> & Hm & Hg). apply HQ; [exact Hm|exact Hg].
Qed.
End pages.

(** ** The whole call *)

(** The family of a process that is not its own father: it is in a list of sons
    unless it is the first process. *)
Record family `{Layout} k run (ps : list Z) (fam : Z → list Z) : Prop := {
  fm_nodup : NoDup ps;
  fm_lists : run ∈ ps ∧ idle_task k ∈ ps ∧ ∀ u, u ∈ ps → is_task u;
  fm_self : run ∉ fam run;
  fm_father : pcb_is k run (λ p, if PID p =? 1 then ∀ u, u ∈ ps → run ∉ fam u else ∃ u, u ∈ ps ∧ run ∈ fam u);
}.

(** Its sons are the PCBs whose parent it is. *)
Definition sons_known `{Layout} k run (fam : Z → list Z) : Prop :=
  ∀ t, t ∈ fam run ↔ is_task t ∧ pcb_is k t (λ p, parent p = run).

(** The families afterwards. *)
Definition exit_family `{Layout} (idle run : Z) (fam : Z → list Z) (u : Z) : list Z :=
  if u =? run then []
  else filter (λ t, t ≠ run) (fam u) ++ (if u =? idle then filter (λ t, t ∈ fam run) task_list else []).

(** A PCB afterwards. *)
Definition exit_pcb (idle run : Z) (fam : Z → list Z) (t : Z) (p p' : task_struct) : Prop :=
  if t =? run then PID p' = -1 ∧ dir_pages_baseAddr p' = NULL ∧ parent p' = parent p
  else PID p' = PID p ∧ dir_pages_baseAddr p' = dir_pages_baseAddr p ∧
    parent p' = if bool_decide (t ∈ fam run) then idle else parent p.

Record exit_ready `{Layout} k run fq rq bq ps fam ufr : Prop := {
  xr_inv : sched_inv k run fq rq bq (fams ps fam);
  xr_user : run ≠ idle_task k;
  xr_space : proc_space k run ufr;
  xr_family : family k run ps fam;
  xr_sons : sons_known k run fam;
  xr_shared : shm_ok k;
  xr_phys : Frames.wf (phys_mem k);
}.

Record exit_done `{Layout} k run fq rq bq ps fam ufr k' : Prop := {
  xd_inv : sched_inv k' (next_of k rq) (fq ++ [run]) (tail rq) bq (fams ps (exit_family (idle_task k) run fam));
  xd_pcbs : ∀ t p, tasks k !! t = Some p → pcb_is k' t (exit_pcb (idle_task k) run fam t p);
  xd_links : dom (lists k') = dom (lists k) ∧
    (pcb_is k run (λ p, PID p ≠ 1) → lists k' !! bros run = Some (mk_list_head NULL NULL));
  xd_tables : data_unmapped run NUM_PAG_DATA (ptes k) (ptes k');
  xd_frames : given_back ufr NUM_PAG_DATA (phys_mem k) (phys_mem k');
  xd_shared : shared_pages k' = shared_pages k;
  xd_ticks : ticks_since_last_switch k' = 0;
  xd_rest : idle_task k' = idle_task k ∧ next_pid k' = next_pid k ∧ zeos_ticks k' = zeos_ticks k ∧ cr0 k' = cr0 k ∧ frames k' = frames k;
}.

Section whole.
Context `{LayoutOk}.
Implicit Types (k : kernel) (t run : Z) (pc : task_struct) (fq rq bq ps : list Z) (fam : Z → list Z) (F : list (Z * list Z)).

Lemma task_pcb k run fq rq bq F t : sched_pre k run fq rq bq F → is_task t → is_Some (tasks k !! t).
Proof.
  intros Hp Ht. assert (Hq : ∀ P, pcb_is k t P → is_Some (tasks k !! t)) by (intros P (p & -> & _); eauto).
  apply (p_cover _ _ _ _ _ _ Hp) in Ht as [->|[->|Ht]]; [eapply Hq, Hp|by eapply run_pcb|].
  rewrite !elem_of_app in Ht. destruct Ht as [Ht|[Ht|Ht]]; eapply Hq; [by eapply p_free|by eapply p_ready|by eapply p_blocked].
Qed.

(** The process leaves the list of its father. *)
Lemma exit_leave k run fq rq bq ps fam pc (Q : unit → kernel → Prop) :
  sched_inv k run fq rq bq (fams ps fam) → run ≠ idle_task k → family k run ps fam → tasks k !! run = Some pc →
  (∀ h fam1, (∀ a, a ∉ anchors (queues fq rq bq (fams ps fam)) → h !! a = lists k !! a) → dom h = dom (lists k) → rings h (queues fq rq bq (fams ps fam1)) →
     (∀ u, u ∈ ps → fam1 u = filter (λ t, t ≠ run) (fam u)) → bros run ∉ anchors (queues fq rq bq (fams ps fam1)) →
     (PID pc ≠ 1 → h !! bros run = Some (mk_list_head NULL NULL)) → Q tt (set_lists h k)) →
  wp (if negb (PID pc =? 1) then on_lists (list_del (bros run)) else mret tt) Q k.
Proof.
  intros Hi Hne [Hnd (Hr & _ & Htk) Hself (p & Hp & Hf)] Hpc HQ.
  rewrite Hpc in Hp. injection Hp as <-. pose proof Hi as (Hpre & _).
  pose proof (p_rings _ _ _ _ _ _ Hpre) as Hl. rewrite queues_app in Hl.
  destruct (Z.eqb_spec (PID pc) 1) as [E1|E1]; cbn [negb].
  - apply wp_ret. assert (k = set_lists (lists k) k) as -> by (by destruct k). apply (HQ (lists k) fam); [done|done|exact Hl| | |done].
    + intros u Hu. symmetry. apply filter_all_in. intros t Ht ->. by apply (Hf u).
    + destruct (inv_run_user _ _ _ _ _ _ _ Hi Hne Hpc) as (_ & _ & Hq).
      rewrite queues_app. unfold anchors at 1. rewrite bind_app, elem_of_app. intros [Hin|(u & Hu & [E|(t & Ht & E%bros_inj)])%anchors_fams].
      * revert Hin. apply (own_anchors_out run); [by apply Htk| |done| |].
        -- intros u Hu. eapply pre_task; [exact Hpre|tauto].
        -- intros a _. apply not_elem_of_nil.
        -- unfold own_anchors. rewrite !elem_of_cons. tauto.
      * pose proof (Htk u Hu) as [_ Hmu]. pose proof (Htk run Hr) as [_ Hmr]. unfold bros, sons in E. Z.div_mod_to_equations; lia.
      * subst t. by apply (Hf u).
  - destruct Hf as (f & Hfp & Hfr).
    destruct (fam_del _ _ _ _ _ _ Hl Hnd Hfp Hfr) as (h & Hh & Hd & Hn & Ho & Hl' & Hout).
    eapply wp_on_lists; [exact Hh|]. apply (HQ h (<[f := filter (λ x, x ≠ run) (fam f)]> fam)); [exact Ho|done|exact Hl'| |exact Hout|done].
    intros u Hu. destruct (decide (u = f)) as [->|Hne']; [by rewrite fn_lookup_insert|]. rewrite fn_lookup_insert_ne by done.
    symmetry. apply filter_all_in. intros t Ht ->. apply Hout. unfold anchors at 1. rewrite bind_app, elem_of_app. right.
    apply anchors_fams. exists u. split; [done|]. right. exists run. by rewrite fn_lookup_insert_ne.
Qed.

(** The PCB in the free queue: what [sched_next_rr] needs. *)
Lemma exit_pre k K run fq rq bq F F' :
  sched_inv k run fq rq bq F → run ≠ idle_task k →
  rings (lists K) (queues (fq ++ [run]) rq bq F') → dom (lists K) = dom (lists k) →
  (∀ a, a ∈ anchors F' → a ∈ anchors F) →
  (∀ t, t ≠ run → option_Forall2 same_sched (tasks k !! t) (tasks K !! t)) →
  pcb_is K run (λ p, PID p = -1) →
  stacks K = stacks k → esp K = esp k → idle_task K = idle_task k →
  sched_pre K run (fq ++ [run]) rq bq F'.
Proof.
  intros (Hp & Hout & _) Hne Hl Hd HF Ht Hr Hst He Hi. rewrite elem_of_app in Hout.
  assert (Hpcb : ∀ t (P : task_struct → Prop), (∀ p p', same_sched p p' → P p → P p') → t ≠ run → pcb_is k t P → pcb_is K t P).
  { intros t P HP Hn (p & Hpp & HPp). destruct (Forall2_lookup (Ht t Hn) Hpp) as (p' & Hp' & Hs). exists p'. eauto. }
  pose proof (p_run _ _ _ _ _ _ Hp) as [Hrq _]. split; rewrite ?Hi.
  - exact Hl.
  - intros t Htt. rewrite Hd. destruct (p_nodes _ _ _ _ _ _ Hp t Htt) as [? Hn]. split; [done|]. by intros ?%HF.
  - intros t. rewrite (p_cover _ _ _ _ _ _ Hp t), !elem_of_app, list_elem_of_singleton. tauto.
  - rewrite He. apply Hp.
  - destruct (p_idle _ _ _ _ _ _ Hp) as [Hni Hpi]. split.
    + rewrite !elem_of_app in Hni. rewrite !elem_of_app, list_elem_of_singleton. intuition congruence.
    + revert Hpi. apply Hpcb; [by intros p p' [-> _]|congruence].
  - intros t [Htf| ->%list_elem_of_singleton]%elem_of_app; [|done]. generalize (p_free _ _ _ _ _ _ Hp t Htf).
    apply Hpcb; [by intros p p' [-> _]|]. intros ->. tauto.
  - intros t Htq. generalize (p_ready _ _ _ _ _ _ Hp t Htq). apply Hpcb; [by intros p p' (-> & -> & _)|]. by intros ->.
  - intros t Htb. generalize (p_blocked _ _ _ _ _ _ Hp t Htb). apply Hpcb; [by intros p p' (-> & -> & _)|]. intros ->. tauto.
  - intros t Htt Hn. apply (saved_ext k); [|by rewrite Hst|by apply Hp].
    pose proof (Ht t Hn) as Hs. inversion Hs as [p p' (_ & _ & E)|]; cbn; congruence.
  - split; [done|]. right. left. apply elem_of_app. right. by left.
Qed.

(** The families at the end of the loop. *)
Lemma exit_families k k2 run fq rq bq ps fam fam1 T h fam3 :
  run ≠ idle_task k → idle_task k2 = idle_task k → (∀ u, u ∈ ps → fam1 u = filter (λ t, t ≠ run) (fam u)) →
  run ∈ ps → idle_task k ∈ ps → fam1 run = fam run → (∀ t, t ∈ fam run → is_task t) →
  adopted k2 run fq rq bq ps fam1 NR_TASKS T h fam3 →
  fams ps fam3 = fams ps (exit_family (idle_task k) run fam).
Proof.
  intros Hne Hid Hf Hr Hi Hrun Htk [_ _ _ _ H5 H6 H7 _]. rewrite Hid in *. apply fams_ext. intros u Hu. unfold exit_family. symmetry.
  destruct (Z.eqb_spec u run) as [->|Hur].
  - rewrite H5, Hrun. symmetry. apply elem_of_nil_inv. intros t [Hge Ht]%list_elem_of_filter.
    destruct (Htk t Ht) as [Hb _]. unfold TASKS_SIZE, NR_TASKS in *. lia.
  - destruct (Z.eqb_spec u (idle_task k)) as [->|Hui].
    + rewrite H6, Hrun, Hf, tasks_before_all by done. done.
    + rewrite H7, Hf by done. by rewrite app_nil_r.
Qed.

(** The process joins the free queue. *)
Lemma exit_enqueue k run fq rq bq F (Q : unit → kernel → Prop) h p :
  rings h (queues fq rq bq F) → lists k = h → is_task run → node run ∈ dom h → node run ∉ anchors F → run ∉ fq ++ rq ++ bq →
  current k = run → tasks k !! run = Some p →
  (∀ h', dom h' = dom h → rings h' (queues (fq ++ [run]) rq bq F) →
     (∀ a, a ∉ anchors (queues fq rq bq F) → a ≠ node run → h' !! a = h !! a) →
     Q tt (set_tasks (<[run := with_state ST_ZOMBIE p]> (tasks k)) (set_lists h' k))) →
  wp (update_process_state_rr run freequeue ST_ZOMBIE) Q k.
Proof.
  intros Hl Eh Ht Hd HF Hout Hc Hp HQ. pose proof (node_out _ _ _ _ _ Ht HF Hout) as Hn.
  destruct (rings_add_tail _ _ _ _ _ Hl Hd Hn) as (h' & Hh & [Hd' Ho] & Hl').
  unfold update_process_state_rr. apply wp_bind, wp_gets. rewrite Hc, Z.eqb_refl.
  destruct (queues_out freequeue ltac:(tauto)) as [Hq0 _].
  destruct (Z.eqb_spec freequeue NULL) as [E0|_]; [unfold NULL in E0; lia|].
  kstep. eapply wp_on_lists; [rewrite Eh; exact Hh|]. eapply wp_set_pcb; [exact Hp|]. apply HQ.
  - done.
  - unfold queues. rewrite fmap_app. exact Hl'.
  - intros a Ha Hne. apply Ho. unfold queues in Ha. rewrite anchors_cons, app_comm_cons, elem_of_app in Ha. rewrite elem_of_cons. tauto.
Qed.

(** The PCBs before the switch. *)
Definition exit_tasks (idle run : Z) (fam : Z → list Z) (pc : task_struct) (m T : gmap Z task_struct) : Prop :=
  (∀ t, t ≠ run → T !! t = (λ p, if bool_decide (t ∈ fam run) then with_parent idle p else p) <$> m !! t) ∧
  T !! run = Some (with_dir_pages_baseAddr NULL (with_state ST_ZOMBIE (with_PID (-1) pc))).

Lemma exit_tasks_pcb k k' K idle run fam pc T t p :
  tasks k !! run = Some pc → exit_tasks idle run fam pc (tasks k) T → tasks K = T → same_but_sched K k' →
  tasks k !! t = Some p → pcb_is k' t (exit_pcb idle run fam t p).
Proof.
  intros Hpc [Ht Hr] <- (Hs & _) Hp. specialize (Hs t). unfold exit_pcb. destruct (Z.eqb_spec t run) as [->|Hne].
  - destruct (Forall2_lookup Hs Hr) as (p' & Hp' & Hsp & Hsd & Hspar & _). exists p'. split; [done|]. cbn in *. split_and!; [done..|congruence].
  - specialize (Ht t Hne). rewrite Hp in Ht. destruct (Forall2_lookup Hs Ht) as (p' & Hp' & Hsp & Hsd & Hspar & _).
    exists p'. split; [done|]. cbn in *. case_bool_decide; done.
Qed.

(** The call up to [sched_next_rr]. *)
Record exiting k run fq rq bq ps fam ufr pc K : Prop := {
  xi_pre : sched_pre K run (fq ++ [run]) rq bq (fams ps (exit_family (idle_task k) run fam));
  xi_tasks : exit_tasks (idle_task k) run fam pc (tasks k) (tasks K);
  xi_links : dom (lists K) = dom (lists k) ∧
    (PID pc ≠ 1 → lists K !! bros run = Some (mk_list_head NULL NULL) ∧
       bros run ∉ anchors (queues (fq ++ [run]) rq bq (fams ps (exit_family (idle_task k) run fam))));
  xi_tables : data_unmapped run NUM_PAG_DATA (ptes k) (ptes K);
  xi_frames : given_back ufr NUM_PAG_DATA (phys_mem k) (phys_mem K);
  xi_rest : shared_pages K = shared_pages k ∧ idle_task K = idle_task k ∧ next_pid K = next_pid k ∧ zeos_ticks K = zeos_ticks k ∧ cr0 K = cr0 k ∧ frames K = frames k;
}.

(** A process whose PCB keeps its directory keeps its space. *)
Lemma proc_space_pcb k k' t p p' ufr : tasks k !! t = Some p → tasks k' !! t = Some p' →
  dir_pages_baseAddr p' = dir_pages_baseAddr p → ptes k' = ptes k → proc_space k t ufr → proc_space k' t ufr.
Proof.
  intros Hp Hp' E Hm [((q & Hq & Hdir) & H2 & H3) H4 H5 H6 H7]. rewrite Hp in Hq. injection Hq as <-.
  split; unfold has_space; rewrite ?Hm; [|done..]. split; [|done]. exists p'. split; [exact Hp'|]. by rewrite E.
Qed.

(** The loop over the sons leaves the anchors of the families. *)
Lemma adopted_anchors k run fq rq bq ps fam fam1 n T h fam3 : adopted k run fq rq bq ps fam1 n T h fam3 →
  (∀ u, u ∈ ps → fam1 u = filter (λ t, t ≠ run) (fam u)) → ∀ a, a ∈ anchors (fams ps fam3) → a ∈ anchors (fams ps fam).
Proof.
  intros [_ _ _ _ _ _ _ Han] Hf1 a (u & Hu & Hau)%Han%anchors_fams. apply anchors_fams. exists u. split; [done|]. rewrite Hf1 in Hau by done.
  destruct Hau as [->|(t & [_ Ht']%list_elem_of_filter & ->)]; [by left|right; eauto].
Qed.

Lemma exit_stages k run fq rq bq ps fam ufr pc (Q : unit → kernel → Prop) :
  exit_ready k run fq rq bq ps fam ufr → tasks k !! run = Some pc →
  (∀ K, exiting k run fq rq bq ps fam ufr pc K → wp sched_next_rr Q K) →
  wp sys_exit Q k.
Proof.
  intros Hx Hpc HQ. pose proof Hx as [Hi Hne Hs Hfam Hsons Hok Hwf]. pose proof Hi as (Hp & _).
  unfold sons_known in Hsons. pose proof Hfam as [Hnd (Hr & Hid & Htk) Hself _]. assert (Ht : is_task run) by auto.
  pose proof (current_run _ _ _ _ _ _ Hp) as Hc. destruct (inv_run_user _ _ _ _ _ _ _ Hi Hne Hpc) as (HPID & Hst & Hout).
  unfold sys_exit. apply wp_bind, wp_gets. rewrite Hc. apply wp_bind. eapply wp_pcb; [exact Hpc|].
  apply wp_bind. eapply exit_leave; [exact Hi|exact Hne|exact Hfam|exact Hpc|]. intros h fam1 _ Hd1 Hl1 Hf1 Hb1 Hnull.
  assert (Hrun : fam1 run = fam run) by (rewrite Hf1 by done; apply filter_all_in; by intros t Ht' ->).
  apply wp_bind. eapply wp_set_pcb; [exact Hpc|]. set (k2 := set_tasks _ _).
  assert (Hs2 : sons_of k2 run ps fam1).
  { split; try done; rewrite ?Hrun.
    - intros t Ht'. by apply Hsons.
    - intros t Ht'. subst k2. kcbn. rewrite lookup_insert. case_decide; [eauto|]. by eapply task_pcb. }
  apply wp_bind, (exit_turns 10 k2 run fq rq bq ps fam1); [done|exact Hc|exact Hs2|exact Hl1| |].
  { intros t p Ht' _ Hp'. rewrite Hrun, Hsons. subst k2. kcbn. rewrite lookup_insert in Hp'. case_decide as E.
    - subst t. injection Hp' as <-. split; [intros E; split; [done|by exists pc]|]. intros (_ & q & Hq & E). cbn. congruence.
    - split; [intros E'; split; [done|by exists p]|]. intros (_ & q & Hq & E'). congruence. }
  intros T h3 fam3 Ha. pose proof Ha as [Hd3 Hl3 Ho3 HT _ _ _ Han].
  assert (E3 : fams ps fam3 = fams ps (exit_family (idle_task k) run fam)).
  { eapply (exit_families k k2); [done..| |exact Ha]. intros t Ht'. by apply Hsons. }
  assert (Htr : T !! run = Some (with_PID (-1) pc)).
  { rewrite HT, bool_decide_eq_false_2 by (rewrite Hrun; tauto). subst k2. kcbn. by rewrite lookup_insert_eq. }
  set (k3 := set_tasks T _). assert (Hs3 : proc_space k3 run ufr).
  { by apply (proc_space_pcb k k3 run pc (with_PID (-1) pc)). }
  apply wp_bind, wp_exit_shared; [exact Ht|apply Hs3|exact (shm_ok_same k k3 eq_refl Hok)|].
  pose proof (adopted_anchors k2 run fq rq bq ps fam fam1 NR_TASKS T h3 fam3 Ha Hf1) as Hanc.
  assert (Hbr : bros run ∉ anchors (queues fq rq bq (fams ps fam3))).
  { rewrite queues_app in Hb1 |- *. unfold anchors in *. rewrite bind_app, elem_of_app in *. intros [?|?%Han]; tauto. }
  destruct (p_nodes _ _ _ _ _ _ Hp run Ht) as [Hdn Hnn].
  apply wp_bind. eapply (exit_enqueue k3); [exact Hl3|done|exact Ht| | |exact Hout|exact Hc|exact Htr|].
  { rewrite Hd3. change (node run ∈ dom h). by rewrite Hd1. } { by intros ?%Hanc. }
  intros h4 Hd4 Hl4 Ho4. set (k4 := set_tasks _ _). apply wp_bind, (free_user_pages_run k4 run ufr); [done| |exact Hwf|].
  { apply (proc_space_pcb k3 k4 run (with_PID (-1) pc) (with_state ST_ZOMBIE (with_PID (-1) pc))); [done|apply lookup_insert_eq|done..]. }
  intros m pm Hm Hg. apply wp_bind. eapply wp_set_pcb; [apply lookup_insert_eq|].
  set (K := set_tasks _ _). assert (HK : exit_tasks (idle_task k) run fam pc (tasks k) (tasks K)).
  { split; [|apply lookup_insert_eq]. intros t Hn. subst K k4 k3 k2. kcbn. rewrite !lookup_insert_ne by done. rewrite HT, lookup_insert_ne, Hrun by done.
    destruct (tasks k !! t) as [p|] eqn:Ep; [|done]. cbn. f_equal. erewrite bool_decide_ext; [done|].
    split; [tauto|]. intros Hin. split; [done|]. apply Hsons in Hin as [[[_ Hb] _] _]. unfold TASKS_SIZE in Hb. lia. }
  apply HQ. split.
  - eapply (exit_pre k K); [exact Hi|exact Hne| |subst K k4 k3 k2; kcbn; congruence| | |by eexists; split; [apply HK|]|done..].
    + rewrite <- E3. exact Hl4.
    + intros a. rewrite <- E3. apply Hanc.
    + intros t Hn. rewrite (proj1 HK t Hn). destruct (tasks k !! t) as [p|]; constructor. by case_bool_decide.
  - exact HK.
  - split; [subst K k4 k3 k2; kcbn; congruence|]. intros HP. split.
    + change (h4 !! bros run = Some (mk_list_head NULL NULL)). rewrite Ho4, Ho3; [exact (Hnull HP)|exact Hb1|exact Hbr|unfold bros, node; lia].
    + rewrite <- E3. unfold queues. rewrite fmap_app. cbn [fmap list_fmap]. rewrite anchors_tail. intros [E|?]; [unfold bros, node in E; lia|by apply Hbr].
  - exact Hm.
  - exact Hg.
  - done.
Qed.

Lemma sys_exit_run k run fq rq bq ps fam ufr :
  exit_ready k run fq rq bq ps fam ufr → wp sys_exit (λ _ k', exit_done k run fq rq bq ps fam ufr k') k.
Proof.
  intros Hx. destruct (run_pcb _ _ _ _ _ _ (proj1 (xr_inv _ _ _ _ _ _ _ _ Hx))) as [pc Hpc].
  eapply exit_stages; [exact Hx|exact Hpc|]. intros K [Hp HT Hlk Hm Hg (Hsh & Hid & Hnp & Hz & Hcr0 & Hfr)].
  assert (Hrun : rq = [] → runnable (with_dir_pages_baseAddr NULL (with_state ST_ZOMBIE (with_PID (-1) pc))) = false ∧ run ≠ idle_task K).
  { intros _. split; [done|]. rewrite Hid. apply Hx. }
  eapply wp_mono; [apply wp_and; [exact (sched_next_rr_spec _ _ _ _ _ _ _ Hp (proj2 HT) Hrun)|exact (sched_next_rr_links _ _ _ _ _ _ _ Hp (proj2 HT) Hrun)]|].
  intros [] k' [(Hi' & Hsame & Htk & _) Hout].
  assert (Hrq : requeue (with_dir_pages_baseAddr NULL (with_state ST_ZOMBIE (with_PID (-1) pc))) run rq = tail rq) by apply app_nil_r.
  rewrite Hrq in Hi'. pose proof Hsame as (_ & Hdom & Hpt & Hpm & Hs' & Hfr' & Hcr0' & Hid' & _ & Hnp' & Hz' & _).
  split.
  - unfold next_of in *. rewrite Hid in Hi'. exact Hi'.
  - intros t p Hp'. by eapply exit_tasks_pcb.
  - split; [destruct Hlk; congruence|]. intros (p & Hp' & HP). rewrite Hpc in Hp'. injection Hp' as <-.
    destruct (proj2 Hlk HP) as [Hn Hb]. rewrite Hout; [exact Hn|exact Hb|unfold bros, node; lia].
  - by rewrite Hpt.
  - by rewrite Hpm.
  - congruence.
  - exact Htk.
  - split_and!; congruence.
Qed.

(** ** A father that outlives a son

    [sys_exit] leaves the parent of the PCB it frees as it is, and the node of
    the PCB, which [list_del] has unlinked, is null.  When the father exits the
    loop takes it for a son. *)
Definition dead_son k run fam t : Prop :=
  is_task t ∧ t ∉ fam run ∧ pcb_is k t (λ p, parent p = run) ∧ lists k !! bros t = Some (mk_list_head NULL NULL).

Record orphaned k run fq rq bq ps fam : Prop := {
  or_inv : sched_inv k run fq rq bq (fams ps fam);
  or_user : run ≠ idle_task k;
  or_family : family k run ps fam;
  or_sons : ∀ t, t ∈ fam run → is_task t ∧ pcb_is k t (λ p, parent p = run);
  or_dead : ∀ t, is_task t → pcb_is k t (λ p, parent p = run) → t ∈ fam run ∨ dead_son k run fam t;
  or_null : NULL ∉ dom (lists k);
}.

(** The turn of the loop on a dead son. *)
Lemma exit_turn_faults k run i p :
  current k = run → tasks k !! (task + PAGE_SIZE * i) = Some p → parent p = run → NULL ∉ dom (lists k) →
  lists k !! bros (task + PAGE_SIZE * i) = Some (mk_list_head NULL NULL) → exit_turn i k = None.
Proof.
  intros Hc Hp Hpar Hnull Hb. unfold exit_turn. apply bind_fault. eapply wp_pcb; [exact Hp|].
  apply bind_fault, wp_gets. rewrite Hpar, Hc, Z.eqb_refl. cbn [negb]. apply bind_fault, wp_gets, bind_fault.
  eapply wp_set_pcb; [exact Hp|]. apply bind_first_fault. unfold on_lists, zoom, lift. kcbn.
  unfold list_del, load_prev, load_next. rewrite Hb. cbn [fmap option_fmap mbind option_bind lh_prev lh_next option_map].
  unfold __list_del, store_prev. apply not_elem_of_dom in Hnull. rewrite Hnull. done.
Qed.

(** The first dead son in the order of the loop. *)
Lemma first_dead k run fam z : dead_son k run fam z → ∃ i : nat, (i < 10)%nat ∧
  (task + 4096 * Z.of_nat i ∉ fam run ∧ pcb_is k (task + 4096 * Z.of_nat i) (λ p, parent p = run)) ∧
  ∀ t, is_task t → t < task + 4096 * Z.of_nat i → pcb_is k t (λ p, parent p = run) → t ∈ fam run.
Proof.
  intros (Ht & Hout & (p & Hp & Hpar) & _).
  set (P := λ t, t ∉ fam run ∧ parent <$> tasks k !! t = Some run).
  assert (HP : ∀ t, P t → pcb_is k t (λ p, parent p = run)).
  { intros t [_ E]. destruct (tasks k !! t) as [q|] eqn:Eq; [|done]. injection E as E. by exists q. }
  destruct (list_find_elem_of P task_list z) as [[i z0] Hf]; [by apply task_list_spec|split; [done|by rewrite Hp, <- Hpar]|].
  apply list_find_Some in Hf as (Hi & Hz & Hfirst). assert (Hlen := lookup_lt_Some _ _ _ Hi). change (i < 10)%nat in Hlen.
  assert (Hnth : ∀ j : nat, (j < 10)%nat → task_list !! j = Some (task + 4096 * Z.of_nat j)).
  { intros j Hj. unfold task_list. rewrite list_lookup_fmap, lookup_seq_lt by done. done. }
  rewrite Hnth in Hi by done. injection Hi as <-. exists i. split; [done|]. split; [split; [apply Hz|by apply HP]|].
  intros t Htt Hlt (q & Hq & Hqp). destruct (decide (t ∈ fam run)) as [|Hn]; [done|]. exfalso.
  apply (Hfirst (Z.to_nat (pos_of t)) t).
  - pose proof (pos_bounds t Htt). unfold NR_TASKS in *. rewrite Hnth by lia. rewrite Z2Nat.id by lia. by rewrite <- pos_task.
  - rewrite (pos_task t Htt) in Hlt. pose proof (pos_bounds t Htt). lia.
  - split; [done|]. by rewrite Hq, <- Hqp.
Qed.

Lemma exit_faults k run fq rq bq ps fam z :
  orphaned k run fq rq bq ps fam → dead_son k run fam z → sys_exit k = None.
Proof.
  intros [Hi Hne Hfam Hsons Hdead Hnull] Hz. destruct (first_dead _ _ _ _ Hz) as (i & Hi10 & (Hout & pz & Hpz & Hpar) & Hfirst).
  pose proof Hi as (Hp & _). destruct (run_pcb _ _ _ _ _ _ Hp) as [pc Hpc].
  pose proof Hfam as [Hnd (Hr & Hid & Htk) Hself _]. pose proof (current_run _ _ _ _ _ _ Hp) as Hc.
  set (t0 := task + 4096 * Z.of_nat i) in *. assert (Ht0 : is_task t0) by (apply task_nth; unfold NR_TASKS; lia).
  assert (Hb0 : lists k !! bros t0 = Some (mk_list_head NULL NULL)).
  { destruct (Hdead t0 Ht0) as [?|(_ & _ & _ & ?)]; [by exists pz|done|done]. }
  unfold sys_exit. apply bind_fault, wp_gets. rewrite Hc. apply bind_fault. eapply wp_pcb; [exact Hpc|].
  apply bind_fault. eapply exit_leave; [exact Hi|exact Hne|exact Hfam|exact Hpc|]. intros h fam1 Ho1 Hd1 Hl1 Hf1 Hb1 _.
  assert (Hrun : fam1 run = fam run) by (rewrite Hf1 by done; apply filter_all_in; by intros t Ht' ->).
  apply bind_fault. eapply wp_set_pcb; [exact Hpc|]. set (k2 := set_tasks _ _). apply bind_first_fault.
  assert (Hb2 : h !! bros t0 = Some (mk_list_head NULL NULL)).
  { rewrite Ho1; [exact Hb0|]. by apply (rings_linked (lists k)); [apply Hp| |]. }
  unfold exit_children. replace (Z.to_nat NR_TASKS) with (i + S (9 - i))%nat by (unfold NR_TASKS; lia). apply for_up_fault.
  apply (exit_turns i k2 run fq rq bq ps fam1).
  - unfold NR_TASKS. lia.
  - exact Hc.
  - split; try done; rewrite ?Hrun; intros t Ht'; [by apply Hsons|]. subst k2. kcbn. rewrite lookup_insert. case_decide; [eauto|]. by eapply task_pcb.
  - exact Hl1.
  - intros t p Ht Hlt Hp'. rewrite Hrun. assert (Hpk : ∃ q, tasks k !! t = Some q ∧ parent q = parent p).
    { subst k2. kcbn. rewrite lookup_insert in Hp'. case_decide as E; [subst t; injection Hp' as <-; by exists pc|by exists p]. }
    destruct Hpk as (q & Hq & <-). split.
    + intros E. apply Hfirst; [done|done|by exists q].
    + intros (_ & q' & Hq' & E)%Hsons. congruence.
  - intros T h3 fam3 Ha. assert (HT : ∃ q, T !! t0 = Some q ∧ parent q = run).
    { rewrite (ad_tasks _ _ _ _ _ _ _ _ _ _ _ Ha), bool_decide_eq_false_2 by (rewrite Hrun; tauto).
      subst k2. kcbn. rewrite lookup_insert. case_decide as E; [|rewrite Hpz; by exists pz].
      exists (with_PID (-1) pc). split; [done|]. rewrite <- E in Hpz. cbn. congruence. }
    destruct HT as (q & Hq & Hqp). apply (exit_turn_faults _ run _ q); [exact Hc|exact Hq|exact Hqp| |].
    + change (NULL ∉ dom h3). rewrite (ad_dom _ _ _ _ _ _ _ _ _ _ _ Ha). change (NULL ∉ dom h). by rewrite Hd1.
    + change (h3 !! bros t0 = Some (mk_list_head NULL NULL)). rewrite (ad_out _ _ _ _ _ _ _ _ _ _ _ Ha); [exact Hb2|].
      apply (rings_linked h); [exact Hl1|by rewrite Hd1|exact Hb2].
Qed.
End whole.

(** ** A son of the first process *)

Definition sons0 `{Layout} (u : Z) : list Z := if u =? task1 then [child1] else [].

Lemma example_son : ∃ k fq ufr,
  exit_ready (H := example_layout) k child1 fq [task1] [] [child1; task1; idle0] sons0 ufr ∧
  NULL ∉ dom (lists k) ∧ idle_task k = idle0 ∧ pcb_is k child1 (λ p, PID p ≠ 1 ∧ parent p = task1) ∧ pcb_is k task1 (λ p, PID p = 1) ∧
  (∀ t p, is_task t → t ≠ child1 → tasks k !! t = Some p → parent p = NULL).
Proof.
  destruct example_ready as (k0 & Hpid & Hready & Hpar & Hnull & Hone & Hidle).
  destruct (proj1 (wp_run _ _ _) (sys_fork_run _ _ _ _ _ _ _ _ _ Hready)) as (r & k1 & _ & _ & Hd).
  pose proof (fr_shared _ _ _ _ _ _ _ _ _ Hready) as Hok. 
  destruct Hd as [Hi1 (pc & Hpc & Htk1) _ (Hup1 & _) (ufr' & Hs1 & _) _ _ (Hsh1 & Hwf1 & Hid1 & Hd1)].
  destruct Hone as (p1 & Hp1 & HP1). rewrite Hpc in Hp1. injection Hp1 as <-. rewrite Hpid in Htk1.
  assert (Hne : child1 ≠ task1) by done.
  assert (Hpc1 : tasks k1 !! task1 = Some pc) by (by rewrite Htk1, lookup_insert_ne).
  assert (Hrun : runnable pc = true).
  { destruct (runnable_kind _ _ _ _ _ _ pc (proj1 Hi1) Hpc1) as [[_ Hk] _]. apply Hk. split; [by rewrite Hid1, Hidle|exact (proj1 (proj2 Hi1))]. }
  destruct (proj1 (wp_run _ _ _) (sched_next_rr_spec _ _ _ _ _ _ _ (proj1 Hi1) Hpc1 ltac:(discriminate))) as ([] & k2 & _ & Hi2 & Hsame & _ & _).
  assert (Erq : requeue pc task1 ([] ++ [child1]) = [task1]) by (unfold requeue; by rewrite Hrun). rewrite Erq in Hi2.
  destruct Hsame as (Hs2 & Hd2 & Hpt2 & Hpm2 & Hsh2 & _ & _ & Hid2 & _).
  assert (Hparents : ∀ t p, is_task t → tasks k2 !! t = Some p → parent p = if t =? child1 then task1 else NULL).
  { intros t p Ht Hp. specialize (Hs2 t). rewrite Hp, Htk1 in Hs2. destruct (Z.eqb_spec t child1) as [->|Hn].
    - rewrite lookup_insert_eq in Hs2. inversion Hs2 as [? ? (_ & _ & E & _)|]; subst. exact E.
    - rewrite lookup_insert_ne in Hs2 by done. inversion Hs2 as [q ? (_ & _ & E & _) Eq|]; subst. rewrite E. by apply (Hpar t). }
  assert (Hchild : ∃ p, tasks k2 !! child1 = Some p ∧ PID p = 2 ∧ dir_pages_baseAddr p = dir_of child1).
  { specialize (Hs2 child1). rewrite Htk1, lookup_insert_eq in Hs2. inversion Hs2 as [? p (E & Ed & _)|]; subst. by exists p. }
  destruct Hchild as (p2 & Hp2 & HP2 & Hdir2).
  assert (Htc : is_task child1) by (eapply (pre_task _ _ _ _ _ _ _ (proj1 Hi2)); right; by left).
  assert (Ht1 : is_task task1) by (eapply (pre_task _ _ _ _ _ _ _ (proj1 Hi1)); right; by left).
  assert (Htask : is_task idle0) by (rewrite <- Hidle, <- Hid1; eapply (pre_task _ _ _ _ _ _ _ (proj1 Hi1)); by left).
  exists k2, (tail free0), ufr'. split; [split|split; [by rewrite Hd2, Hd1|split; [congruence|]]].
  - exact Hi2.
  - by rewrite Hid2, Hid1, Hidle.
  - destruct Hs1 as [(_ & Ht1' & Ht2') Hs12 Hs13 Hs14 Hs15]. split; rewrite ?Hpt2; try done.
    split; [by exists p2|]. rewrite Hpt2. done.
  - split.
    + apply (bool_decide_unpack _). by vm_compute.
    + rewrite Hid2, Hid1, Hidle. split; [by left|]. split; [by right; right; left|].
      intros u. rewrite !elem_of_cons, elem_of_nil. intuition congruence.
    + apply not_elem_of_nil.
    + exists p2. split; [done|]. rewrite HP2. cbn [Z.eqb]. exists task1. split; [by right; left|]. by left.
  - intros t. split; [by intros ?%elem_of_nil|]. intros (Ht & p & Hp & E). rewrite (Hparents t p Ht Hp) in E. by destruct (t =? child1).
  - apply (shm_ok_same k0); [by rewrite Hsh2|done].
  - by rewrite Hpm2.
  - split; [exists p2; split; [done|]; split; [lia|]; rewrite (Hparents _ _ Htc Hp2); by rewrite Z.eqb_refl|]. split.
    + specialize (Hs2 task1). rewrite Hpc1 in Hs2. inversion Hs2 as [? p (E & _)|]; subst. exists p. split; [done|]. congruence.
    + intros t p Ht Hn Hp. rewrite (Hparents t p Ht Hp). by destruct (Z.eqb_spec t child1).
Qed.

(** C14: the end of a process.  The process that calls [sys_exit] gives up the
    processor for good: the first ready process (the idle one if there is none)
    runs, the invariant of the scheduler holds and the PCB is at the back of the
    free queue, without PID and without directory.  The process is in no list of
    sons; its own sons are behind those of the idle process, which is their
    parent now, in the order of their PCBs.  Its data pages are out of its table
    and each of their frames has a reference less, except the frame
    [NUM_PAG_KERNEL].  No reference to a shared page is given back, and the PCB
    keeps the pointer to its parent. *)
Theorem sys_exit_correct `{LayoutOk} k run fq rq bq ps fam ufr :
  exit_ready k run fq rq bq ps fam ufr →
  wp sys_exit (λ _ k', exit_done k run fq rq bq ps fam ufr k') k.
Proof. exact (sys_exit_run k run fq rq bq ps fam ufr). Qed.

Lemma sys_exit_correct_witness : ∃ k,
  wp sys_exit (λ _ k', current k' = task1 ∧ lists k' !! bros child1 = Some (mk_list_head NULL NULL)) k.
Proof.
  destruct example_son as (k & fq & ufr & Hx & _ & _ & (p & Hp & HP & _) & _). exists k.
  eapply wp_mono; [exact (sys_exit_correct k child1 fq [task1] [] _ _ _ Hx)|].
  intros [] k' Hd. split; [exact (current_run _ _ _ _ _ _ (proj1 (xd_inv _ _ _ _ _ _ _ _ _ Hd)))|].
  apply (proj2 (xd_links _ _ _ _ _ _ _ _ _ Hd)). exists p. exact (conj Hp HP).
Defined.

(** The first process, after its son has exited. *)
Lemma example_orphan : ∃ k k' fq,
  sys_exit k = Some (tt, k') ∧ orphaned (H := example_layout) k' task1 fq [] [] [child1; task1; idle0] (λ _, []) ∧
  dead_son k' task1 (λ _, []) child1.
Proof.
  destruct example_son as (k & fq & ufr & Hx & Hnull & Hidle & (pc & Hpc & HPc & Hpar) & (p1 & Hp1 & HP1) & Hpars).
  destruct (proj1 (wp_run _ _ _) (sys_exit_run _ _ _ _ _ _ _ _ Hx)) as ([] & k' & Hrun & Hd).
  destruct Hd as [Hi Hpcb [Hdom Hlk] _ _ _ _ (Hid & _)]. exists k, k', (fq ++ [child1]). split; [done|].
  pose proof Hx as [Hi0 _ _ [Hnd (_ & _ & Htasks) _ _] _ _ _]. pose proof Hi as (Hp & _). rewrite Hidle in *.
  assert (Hfams : fams [child1; task1; idle0] (exit_family idle0 child1 sons0) = fams [child1; task1; idle0] (λ _, [])).
  { apply fams_ext. intros u Hu. rewrite !elem_of_cons, elem_of_nil in Hu. by repeat destruct Hu as [->|Hu]. }
  change (next_of k [task1]) with task1 in Hi. rewrite Hfams in Hi.
  assert (Hparents : ∀ t p, is_task t → tasks k' !! t = Some p → parent p = if t =? child1 then task1 else NULL).
  { intros t p' Ht Hp'. destruct (task_pcb _ _ _ _ _ _ t (proj1 Hi0) Ht) as [p0 Hp0]. destruct (Hpcb t p0 Hp0) as (q & Hq & Hex).
    rewrite Hp' in Hq. injection Hq as <-. unfold exit_pcb in Hex. destruct (Z.eqb_spec t child1) as [->|Hn].
    - destruct Hex as (_ & _ & ->). congruence.
    - destruct Hex as (_ & _ & ->). rewrite bool_decide_eq_false_2 by apply not_elem_of_nil. by apply (Hpars t). }
  assert (Htc : is_task child1) by (apply Htasks; by left). assert (Ht1 : is_task task1) by (apply Htasks; by right; left).
  assert (Hdead : dead_son k' task1 (λ _, []) child1).
  { split; [done|]. split; [apply not_elem_of_nil|]. split; [|apply Hlk; by exists pc].
    destruct (Hpcb child1 pc Hpc) as (q & Hq & Hex). exists q. split; [done|]. by rewrite (Hparents _ _ Htc Hq), Z.eqb_refl. }
  split; [|done]. split.
  - exact Hi.
  - by rewrite Hid.
  - split; [done|rewrite Hid; split; [by right; left|split; [by right; right; left|done]]|apply not_elem_of_nil|].
    destruct (Hpcb task1 p1 Hp1) as (q & Hq & Hex). exists q. split; [done|]. destruct Hex as (-> & _). rewrite HP1. intros u _. apply not_elem_of_nil.
  - intros t ?%elem_of_nil. done.
  - intros t Ht (p & Hp' & E). right. rewrite (Hparents t p Ht Hp') in E. by destruct (Z.eqb_spec t child1) as [->|].
  - by rewrite Hdom.
Qed.

(** C15: a process one of whose sons has exited cannot exit.  [sys_exit] leaves in
    the PCB it frees the pointer to the parent, and the links of its node are
    null since [list_del].  When the father exits before the PCB is used again,
    the loop over the PCBs takes it for a son and unlinks it: the call writes
    through the null pointer, which no page of the kernel maps. *)
Theorem exit_after_son_faults `{LayoutOk} k run fq rq bq ps fam t :
  orphaned k run fq rq bq ps fam → dead_son k run fam t → sys_exit k = None.
Proof. exact (exit_faults k run fq rq bq ps fam t). Qed.

Lemma exit_after_son_faults_witness : ∃ k k', sys_exit k = Some (tt, k') ∧ sys_exit k' = None.
Proof.
  destruct example_orphan as (k & k' & fq & Hk & Ho & Hd). exists k, k'. split; [exact Hk|].
  exact (exit_after_son_faults k' task1 fq [] [] _ _ child1 Ho Hd).
Defined.
