(* ===== verification/Fault.v ===== *)
(** * Page faults (pgf_routine of interrupt.c)

    What the routine does on every branch: it gives a page that is mapped read-only
    to its only owner, it copies a page with more owners, and it prints the
    address of the instruction and stops in every other case. *)

From S2P Require Import Prelude CInt ListHead Circular Memory Console LibC Paging Descriptors Kernel Mm Space Boot Interrupt System Shm.
Import PTE PageTable.

(** ** The message *)

Lemma printk_prints s rest k :
  is_text s → wf_console k → ∃ k', printk (s ++ 0 :: rest) k = Some k' ∧ prints s k k'.
Proof.
  intros Hs. revert k. induction Hs as [|c s Hc Hs IH]; intros k Hwf; cbn [app printk].
  - exists k. split; [done|]. by apply prints_nil.
  - destruct (Z.eqb_spec c 0); [done|]. destruct (printc_spec c k Hwf) as (Hwf' & Hcur & Hscr & Hfg & Hbg).
    destruct (IH _ Hwf') as (k' & Hk' & Hp). exists k'. split; [done|]. apply (prints_app [c] s k (printc c k)); [|done].
    split; [done| |done..]. cbn. by rewrite Hcur, Hscr.
Qed.

(** The digits the message ends with: none for an address that is negative as an
    [int]. *)
Definition address_text (ip : Z) : list Z := if s32 ip <? 0 then [] else hex_char <$> numeral 8 16 (s32 ip).

(** The routine has printed the message and spins. *)
Definition stopped (k : kernel) (ip : Z) (k' : kernel) : Prop :=
  ∃ c, k' = set_cons c k ∧ prints (pgf_message ++ address_text ip) (cons k) c.

Lemma address_is_text ip : is_text (address_text ip) ∧ (length (address_text ip) ≤ 8)%nat.
Proof.
  unfold address_text. destruct (s32 ip <? 0); [by split; [apply Forall_nil|cbn; lia]|]. rewrite length_fmap.
  split; [|apply numeral_length; lia]. apply Forall_fmap. unfold numeral.
  destruct (_ =? 0); [by apply Forall_singleton|]. apply Forall_rev. eapply Forall_impl; [apply (lsd_range 8 16); lia|].
  intros d Hd. cbn in Hd |- *. unfold hex_char. destruct (Z.ltb_spec d 10); lia.
Qed.

Lemma itohexa_address ip buff : (9 ≤ length buff)%nat → itohexa (s32 ip) buff = Some (overwrite buff 0 (cstr (address_text ip))).
Proof.
  intros Hl. pose proof (s32_range ip) as Hr. unfold address_text, is_s32 in *. destruct (Z.ltb_spec (s32 ip) 0).
  - apply itohexa_negative; lia.
  - apply itohexa_numeral; [lia|]. pose proof (numeral_length 8 16 (s32 ip) ltac:(lia)). lia.
Qed.

Lemma pgf_message_text : is_text pgf_message.
Proof. apply (bool_decide_unpack _). by vm_compute. Qed.

Lemma wp_pgf_error ip buff after (Q : unit → kernel → Prop) k :
  (9 ≤ length buff)%nat → (8 ≤ length after)%nat → wf_console (cons k) →
  (∀ k', stopped k ip k' → Q tt k') → wp (pgf_error ip buff after) Q k.
Proof.
  intros Hb Ha Hwf HQ. destruct (address_is_text ip) as [Ht Hl]. unfold pgf_error. kstep. eapply wp_ask; [by apply itohexa_address|].
  kstep. eapply wp_ask.
  { unfold overwrite, cstr. cbn [take app]. rewrite <- !app_assoc. cbn [app]. apply strcat_text; [apply pgf_message_text|done|lia]. }
  apply wp_zoom. set (mesg := overwrite _ _ _).
  assert (∃ rest, mesg = (pgf_message ++ address_text ip) ++ 0 :: rest) as [rest ->].
  { subst mesg. unfold overwrite, cstr. rewrite take_app_length, <- !app_assoc. eauto. }
  destruct (printk_prints (pgf_message ++ address_text ip) rest (cons k)) as (c & Hc & Hp); [|done|].
  { apply Forall_app. split; [apply pgf_message_text|done]. }
  eapply wp_lift; [exact Hc|]. apply HQ. by exists c.
Qed.

(** ** The fault *)

(** The process [t] runs and has touched the page [p], whose entry is [e].  A page
    that is mapped without the right to write is in a frame with an owner. *)
Record faulty `{Layout} (k : kernel) (t p e : Z) : Prop := {
  fa_task : is_task t;
  fa_space : has_space k t;
  fa_running : running k t;
  fa_current : current k = t;
  fa_counts : Frames.wf (phys_mem k);
  fa_screen : wf_console (cons k);
  fa_page : 0 ≤ p < TOTAL_PAGES;
  fa_entry : ptes k !! slot (pt_of t) p = Some e;
  fa_frame : e ≠ 0 → rw e = 0 →
    present e = 1 ∧ NUM_PAG_KERNEL ≤ pbase_addr e < TOTAL_PAGES ∧ znth (phys_mem k) (pbase_addr e) ≠ Some Frames.FREE_FRAME;
}.

(** There is no page to copy through, or no frame to copy to. *)
Definition exhausted `{Layout} (k : kernel) (t : Z) : Prop :=
  (∀ q, USER_LAST_PAGE ≤ q < TOTAL_PAGES → page_used k t q) ∨
  (∀ f v, Frames.allocatable f → znth (phys_mem k) f = Some v → v ≠ Frames.FREE_FRAME).

(** The page [p] of [t] has moved from the frame [f], with [refs] owners, to the
    free frame [new], which has the same bytes. *)
Record moved `{Layout} (k : kernel) (t p f refs new : Z) (k' : kernel) : Prop := {
  mv_new : Frames.allocatable new ∧ znth (phys_mem k) new = Some Frames.FREE_FRAME;
  mv_entry : ptes k' = <[slot (pt_of t) p := ss_entry new]> (ptes k);
  mv_counts : phys_mem k' = <[Z.to_nat f := u8 (refs - 1)]> (<[Z.to_nat new := 1]> (phys_mem k));
  mv_bytes : ∀ o, 0 ≤ o < 4096 → pread k' (new * 4096 + o) = pread k (f * 4096 + o);
  mv_memory : ∀ z, z / 4096 ≠ new → pread k' z = pread k z;
  mv_rest : k' = set_frames (frames k') (set_phys_mem (phys_mem k') (set_ptes (ptes k') k));
}.

Section fault.
Context `{LayoutOk}.
Implicit Types (k : kernel) (t p e : Z).

(** [set_cr3(get_DIR(current()))] while the process runs. *)
Lemma wp_flush {A} k t (f : unit → MK A) (Q : A → kernel → Prop) :
  current k = t → cr3 k = dir_of t → has_space k t → wp (f tt) Q k →
  wp (c ← gets current; d ← get_DIR c; set_cr3 d ≫= f) Q k.
Proof.
  intros Hc H3 Hs HQ. kstep. kstep. rewrite Hc. kstep. apply wp_get_DIR; [done|]. unfold set_cr3. kstep. kstep.
  by rewrite put_cr3_same.
Qed.

Lemma page_address p off : 0 ≤ p < TOTAL_PAGES → 0 ≤ off < 4096 → Z.shiftr (s32 (p * 4096 + off)) 12 = p.
Proof.
  unfold TOTAL_PAGES. intros Hp Ho. rewrite s32_small by wrap_lia. rewrite Z.shiftr_div_pow2 by lia. change (2 ^ 12) with 4096.
  Z.div_mod_to_equations; lia.
Qed.

Lemma page_start p : 0 ≤ p < TOTAL_PAGES → u32 (Z.shiftl p 12) = p * 4096.
Proof. unfold TOTAL_PAGES. intros Hp. rewrite Z.shiftl_mul_pow2 by lia. change (2 ^ 12) with 4096. wrap_lia. Qed.

(** The copy through the page [r], mapped to [new]. *)
Lemma wp_copy_faulty k t p e r new (Q : unit → kernel → Prop) :
  faulty k t p e → e ≠ 0 → rw e = 0 → 0 ≤ r < TOTAL_PAGES → r ≠ p → Frames.allocatable new → new ≠ pbase_addr e →
  let k1 := set_ptes (<[slot (pt_of t) r := ss_entry new]> (ptes k)) k in
  (∀ fr, (∀ o, 0 ≤ o < 4096 → pread (set_frames fr k1) (new * 4096 + o) = pread k (pbase_addr e * 4096 + o)) →
     (∀ z, z / 4096 ≠ new → pread (set_frames fr k1) z = pread k z) → Q tt (set_frames fr k1)) →
  wp (lift (copy_data (u32 (Z.shiftl p 12)) (u32 (Z.shiftl r 12)) PAGE_SIZE)) Q k1.
Proof.
  intros [Ht Hs [Hc3 Hc0] _ _ _ Hp He Hf] Hne Hrw Hr Hrp [Hn _] Hnew k1 HQ. destruct (Hf Hne Hrw) as (Hpre & Hfr & _).
  rewrite !page_start by done. unfold NUM_PAG_KERNEL, TOTAL_PAGES in *.
  destruct (ss_entry_fields new) as (Hb1 & Hb2 & _); [change (2 ^ 20) with 1048576; lia|].
  assert (Htr : ∀ q o, 0 ≤ q < 1024 → 0 ≤ o < 4096 → translate k1 (q * 4096 + o) =
    if q =? r then Some (new * 4096 + o) else translate k (q * 4096 + o)).
  { intros q o Hq Ho. unfold k1. rewrite (translate_insert k t) by (done || (change (2 ^ 22) with 4194304; lia)).
    assert ((q * 4096 + o) / 4096 = q ∧ (q * 4096 + o) mod 4096 = o) as [-> ->] by (Z.div_mod_to_equations; lia).
    by rewrite Hb1, Hb2. }
  apply (wp_copy _ _ _ (λ i, pbase_addr e * 4096 + i) (λ i, new * 4096 + i)); unfold PAGE_SIZE; try (wrap_lia || lia).
  - intros i Hi. rewrite Htr by lia. destruct (Z.eqb_spec p r); [lia|].
    rewrite (translate_space k t) by (done || (change (2 ^ 22) with 4194304; lia)).
    assert ((p * 4096 + i) / 4096 = p ∧ (p * 4096 + i) mod 4096 = i) as [-> ->] by (Z.div_mod_to_equations; lia).
    rewrite He. cbn [mbind option_bind]. by rewrite Hpre.
  - intros i Hi. rewrite Htr by lia. by rewrite Z.eqb_refl.
  - intros fr Hnw Hold. apply HQ; [done|]. intros z Hz. apply Hold. intros i Hi ->. apply Hz. Z.div_mod_to_equations; lia.
Qed.

(** From the free page and the free frame on: copy, release, remap. *)
Lemma wp_move k t p e r new refs (Q : bool → kernel → Prop) :
  faulty k t p e → e ≠ 0 → rw e = 0 → znth (phys_mem k) (pbase_addr e) = Some refs →
  USER_LAST_PAGE ≤ r < TOTAL_PAGES → ¬ page_used k t r → Frames.allocatable new → znth (phys_mem k) new = Some Frames.FREE_FRAME →
  (∀ k', moved k t p (pbase_addr e) refs new k' → Q true k') →
  wp (on_ptes (set_ss_pag (pt_of t) r new) ;;
      c ← gets current; d ← get_DIR c; set_cr3 d ;;
      lift (copy_data (u32 (Z.shiftl p 12)) (u32 (Z.shiftl r 12)) PAGE_SIZE) ;;
      f ← ask (λ k, PageTable.get_frame (pt_of t) p (ptes k));
      on_frames (lift (Frames.decr f)) ;;
      on_ptes (set_ss_pag (pt_of t) p new) ;;
      on_ptes (del_ss_pag (pt_of t) r) ;;
      c ← gets current; d ← get_DIR c; set_cr3 d ;;
      mret true) Q (set_phys_mem (<[Z.to_nat new := 1]> (phys_mem k)) k).
Proof.
  intros Hfa Hne Hrw Hrefs Hr Hfree Hal Hnew HQ. pose proof Hfa as [Ht Hs [Hc3 Hc0] Hcur Hwf _ Hp He Hf].
  destruct (Hf Hne Hrw) as (_ & Hfr & Hused). unfold NUM_PAG_KERNEL in Hfr. change USER_LAST_PAGE with 284 in Hr.
  assert (Hr' : 0 ≤ r < TOTAL_PAGES) by lia. pose proof (unused_page k t r Hs Hr' Hfree) as Hr0.
  assert (r ≠ p) as Hrp by (intros ->; congruence).
  assert (new ≠ pbase_addr e) as Hnf by (intros ->; congruence).
  assert (slot (pt_of t) r ≠ slot (pt_of t) p) as Hslot by (intros E; apply pt_slot_inj in E; naive_solver).
  set (kp := set_phys_mem (<[Z.to_nat new := 1]> (phys_mem k)) k).
  assert (Hal' := Hal). destruct Hal' as [Hnr _]. unfold NUM_PAG_KERNEL in Hnr.
  assert (Hrefs' : znth (phys_mem kp) (pbase_addr e) = Some refs).
  { unfold kp. kcbn. destruct Hwf as [Hl _]. rewrite znth_insert by lia. by destruct (Z.eqb_spec new (pbase_addr e)). }
  assert (Hfp : faulty kp t p e).
  { destruct Hfa. split; try assumption.
    - unfold kp. kcbn. apply Frames.wf_insert; [done|lia|wrap_lia].
    - intros _ _. rewrite Hrefs'. rewrite <- Hrefs. by apply Hf. }
  set (k1 := set_ptes (<[slot (pt_of t) r := ss_entry new]> (ptes kp)) kp).
  assert (Hs1 : has_space k1 t) by (by apply has_space_insert).
  kstep. eapply wp_on_ptes; [apply set_ss_pag_effect; by exists 0|]. fold k1.
  apply (wp_flush _ t); [done..|]. kstep. eapply (wp_copy_faulty kp t p e r new); [done..|]. intros fr Hbytes Hmem. fold k1 in Hbytes, Hmem |- *.
  kstep. eapply wp_ask.
  { unfold PageTable.get_frame, load_pte. unfold k1, kp. kcbn. rewrite lookup_insert_ne, He by done. reflexivity. }
  kstep. eapply wp_on_frames.
  { unfold lift, Frames.decr. change (phys_mem (set_frames fr k1)) with (phys_mem kp). rewrite Hrefs'. cbn [mbind option_bind]. rewrite zset_Some; [reflexivity|].
    by eapply znth_Some_range. }
  kstep. eapply wp_on_ptes; [apply set_ss_pag_effect; exists e; unfold load_pte, k1, kp; kcbn; by rewrite lookup_insert_ne|].
  kstep. eapply wp_on_ptes; [apply del_ss_pag_effect; unfold load_pte, k1, kp; kcbn; rewrite lookup_insert_ne, lookup_insert_eq by done; eauto|].
  unfold k1, kp. kcbn.
  apply (wp_flush _ t); [done|done| |].
  { exact (has_space_insert (set_ptes (<[slot (pt_of t) p := ss_entry new]> (ptes k1)) k1) t t r 0 Ht Ht Hr'
      (has_space_insert k1 t t p _ Ht Ht Hp Hs1)). }
  apply wp_ret, HQ. split; [done| |done|exact Hbytes|exact Hmem|].
  - kcbn. rewrite insert_insert_ne, insert_insert_eq by done. rewrite <- insert_insert_ne by done. rewrite (insert_id _ _ 0); [reflexivity|]. rewrite lookup_insert_ne; [exact Hr0|]. by apply not_eq_sym.
  - done.
Qed.

Lemma pgf_run k t p e off ip buff after :
  faulty k t p e → 0 ≤ off < 4096 → (9 ≤ length buff)%nat → (8 ≤ length after)%nat →
  wp (pgf_routine (p * 4096 + off) ip buff after) (λ ok k',
    if (e =? 0) || negb (rw e =? 0) then ok = false ∧ stopped k ip k'
    else ∃ refs, znth (phys_mem k) (pbase_addr e) = Some refs ∧
      if refs =? 1 then ok = true ∧ k' = set_ptes (<[slot (pt_of t) p := set_rw 1 e]> (ptes k)) k
      else (ok = false ∧ exhausted k t ∧ stopped k ip k') ∨
           (ok = true ∧ ∃ new, moved k t p (pbase_addr e) refs new k')) k.
Proof.
  intros Hfa Hoff Hb Ha. pose proof Hfa as [Ht Hs [Hc3 Hc0] Hcur Hwf Hscr Hp He Hf]. unfold pgf_routine. rewrite page_address by done.
  kstep. kstep. rewrite Hcur. kstep. apply wp_get_PT; [done..|]. kstep. eapply wp_ask; [unfold is_cow_page, load_pte; by rewrite He|].
  assert (Herr : ∀ Q : bool → kernel → Prop, (∀ k', stopped k ip k' → Q false k') →
    wp (pgf_error ip buff after ;; mret false) Q k).
  { intros Q HQ. apply wp_bind, wp_pgf_error; [done..|]. intros k' Hk'. by apply wp_ret, HQ. }
  destruct (Z.eqb_spec e 0) as [E0|Hne]; cbn [negb andb orb]; [by apply Herr|].
  destruct (Z.eqb_spec (rw e) 0) as [Hrw|Hrw]; cbn [negb andb orb]; [|by apply Herr].
  destruct (Hf Hne Hrw) as (Hpre & Hfr & Hused). destruct (Frames.wf_lookup (phys_mem k) (pbase_addr e) Hwf) as (refs & Hrefs & _).
  { unfold NUM_PAG_KERNEL in Hfr. lia. }
  kstep. eapply wp_ask; [unfold PageTable.get_frame, load_pte; by rewrite He|]. kstep. eapply wp_ask; [exact Hrefs|].
  destruct (refs =? 1) eqn:E1.
  - kstep. eapply wp_on_ptes; [by apply update_pte_run|]. apply (wp_flush _ t); [done|done|by apply has_space_insert|].
    apply wp_ret. exists refs. rewrite E1. done.
  - kstep. kstep. rewrite Hcur. kstep. apply wp_free_page; [done..|]. intros r [(Hr & Hfree & _)|[-> Hall]].
    2: { cbn [Z.ltb Z.compare]. apply Herr. intros k' Hk'. exists refs. rewrite E1. split; [done|]. left. split; [done|]. split; [by left|done]. }
    destruct (Z.ltb_spec r 0); [change USER_LAST_PAGE with 284 in Hr; lia|]. kstep. apply wp_zoom.
    apply Frames.wp_alloc_frame; [done| |].
    + intros new Hal Hnew _ _. destruct (Z.ltb_spec new 0); [destruct Hal as [Hnr _]; unfold NUM_PAG_KERNEL in Hnr; lia|].
      apply (wp_move k t p e r new refs); [done..|]. intros k' Hk'. exists refs. rewrite E1. split; [done|]. right. split; [done|]. by exists new.
    + intros Hall. cbn [Z.ltb Z.compare]. assert (set_phys_mem (phys_mem k) k = k) as -> by (by destruct k).
      apply Herr. intros k' Hk'. exists refs. rewrite E1. split; [done|]. left. split; [done|]. split; [by right|done].
Qed.

(** What the process sees after its page has moved. *)
Lemma moved_translate k t p e refs new k' va :
  faulty k t p e → moved k t p (pbase_addr e) refs new k' → 0 ≤ va < 2 ^ 22 →
  translate k' va = if va / 4096 =? p then Some (new * 4096 + va mod 4096) else translate k va.
Proof.
  intros [Ht Hs [Hc3 Hc0] _ _ _ Hp He _] [[[Hnr _] _] Hm _ _ _ Hk'] Hva. unfold NUM_PAG_KERNEL, TOTAL_PAGES in Hnr.
  assert (cr0 k' = cr0 k ∧ cr3 k' = cr3 k) as [E0 E3] by (by rewrite Hk').
  transitivity (translate (set_ptes (<[slot (pt_of t) p := ss_entry new]> (ptes k)) k) va).
  { unfold translate. by rewrite E0, E3, Hm. }
  rewrite (translate_insert k t) by done.
  destruct (ss_entry_fields new) as (-> & -> & _); [change (2 ^ 20) with 1048576; lia|]. done.
Qed.
End fault.

(** C18: page faults at an address below 4 MB, which the table of the process
    covers.  The routine takes every page that is mapped without the right to
    write for a copy-on-write page.  If the counter of its frame is 1 the page
    becomes writable where it is.  Otherwise the page moves to a free frame with
    the same bytes, which it can write; the counter of the old frame goes down,
    and no other page of any process and no other byte of memory changes.  Without
    a free page or a free frame, and for every other page of the table, the
    message with the address of the instruction is printed and the kernel spins. *)
Theorem page_fault_correct `{LayoutOk} k t p e off ip buff after :
  faulty k t p e → 0 ≤ off < 4096 → (9 ≤ length buff)%nat → (8 ≤ length after)%nat →
  wp (pgf_routine (p * 4096 + off) ip buff after) (λ ok k',
    if (e =? 0) || negb (rw e =? 0) then ok = false ∧ stopped k ip k'
    else ∃ refs, znth (phys_mem k) (pbase_addr e) = Some refs ∧
      if refs =? 1 then ok = true ∧ k' = set_ptes (<[slot (pt_of t) p := set_rw 1 e]> (ptes k)) k
      else (ok = false ∧ exhausted k t ∧ stopped k ip k') ∨
           (ok = true ∧ ∃ new, moved k t p (pbase_addr e) refs new k' ∧
              ∀ va, 0 ≤ va < 2 ^ 22 →
                translate k' va = if va / 4096 =? p then Some (new * 4096 + va mod 4096) else translate k va)) k.
Proof.
  intros Hfa Hoff Hb Ha. eapply wp_mono; [by apply (pgf_run k t p e)|]. intros ok k'. destruct (_ || _); [done|].
  intros (refs & Hrefs & Hk'). exists refs. split; [done|]. destruct (refs =? 1); [done|].
  destruct Hk' as [?|[Hok [new Hm]]]; [by left|]. right. split; [done|]. exists new. split; [done|].
  intros va Hva. by eapply moved_translate.
Qed.

(** The first process writes to the first of its code pages. *)
Lemma example_fault : ∃ k e, faulty (H := example_layout) k task1 PAG_LOG_INIT_CODE e ∧ e ≠ 0 ∧ rw e = 0 ∧
  znth (phys_mem k) (pbase_addr e) = Some 1.
Proof.
  destruct example_booted as [k' Hb]. pose proof (entered_process _ _ near_end Hb) as [Ht Hs Hr Hc].
  assert (ptes k' !! slot (pt_of (H := example_layout) task1) PAG_LOG_INIT_CODE = Some (user_entry PAG_LOG_INIT_CODE (boot_ufr PAG_LOG_INIT_CODE))) as He.
  { destruct (bo_tables _ _ Hb) as (m & _ & Hu & _). apply Hu; [by vm_compute|]. by apply boot_ufr_ok; vm_compute. }
  exists (entered near_end k'), (user_entry PAG_LOG_INIT_CODE (boot_ufr PAG_LOG_INIT_CODE)).
  assert (phys_mem (entered near_end k') = boot_phys) as Hph by exact (bo_phys _ _ Hb).
  split; [split|]; try assumption.
  - apply Hs.
  - rewrite Hph. by apply (bool_decide_unpack _); vm_compute.
  - exact near_end_wf.
  - by vm_compute.
  - intros _ _. rewrite Hph. split; [by vm_compute|]. split; [by vm_compute|]. intros E. vm_compute in E. discriminate E.
  - rewrite Hph. split; [by vm_compute|]. split; by vm_compute.
Qed.

Lemma page_fault_correct_witness : ∃ k e,
  wp (pgf_routine (PAG_LOG_INIT_CODE * 4096 + 12) 0x100010 (rubbish 16) (rubbish 8))
    (λ ok k', ok = true ∧ k' = set_ptes (<[slot (pt_of (H := example_layout) task1) PAG_LOG_INIT_CODE := set_rw 1 e]> (ptes k)) k) k.
Proof.
  destruct example_fault as (k & e & Hfa & Hne & Hrw & Hrefs). exists k, e.
  eapply wp_mono; [apply (page_fault_correct k task1 PAG_LOG_INIT_CODE e 12 0x100010 (rubbish 16) (rubbish 8) Hfa); [lia|cbn; lia|cbn; lia]|].
  intros ok k' Hk'. destruct (Z.eqb_spec e 0); [done|]. rewrite Hrw in Hk'. cbn [negb Z.eqb orb] in Hk'.
  destruct Hk' as (refs & Hr & Hk'). rewrite Hrefs in Hr. injection Hr as <-. exact Hk'.
Defined.
