(* ===== verification/Types.v ===== *)
(** * The values the kernel keeps are in the ranges of their types

    [typed] is the well-formedness of the state: integers within the width of
    their C type, reference counts in bytes, table entries in 32 bits, the ring
    buffer and the screen sane.  Every operation of the kernel preserves it,
    whatever its arguments: partial correctness, by the rules of [gives]
    (Prelude.v). *)

From S2P Require Import Prelude CInt ListHead Circular Memory Errno Console LibC Paging Hardware Descriptors Kernel Mm Space Words Sched Boot Interrupt System UserIO Process Shm.
Import PTE PageTable.

(** ** The types *)

Record typed_pcb (p : task_struct) : Prop := {
  tp_PID : is_s32 (PID p);
  tp_dir : is_u32 (dir_pages_baseAddr p);
  tp_parent : is_u32 (parent p);
  tp_esp0 : is_u32 (kernel_esp0 p);
  tp_ticks : is_u32 (nr_ticks p);
  tp_quantum : is_u32 (quantum p);
  tp_unblocks : is_s32 (pending_unblocks p);
}.

Record typed_shared (s : SharedPage) : Prop := {
  ts_frame : is_s32 (frame s);
  ts_refs : is_s32 (num_refs s);
  ts_clear : is_s32 (to_clear s);
}.

(** Table entries, by address. *)
Definition typed_entries (m : gmap Z Z) : Prop := ∀ a e, m !! a = Some e → is_u32 e.

Record typed (k : kernel) : Prop := {
  ty_pcbs : ∀ t p, tasks k !! t = Some p → typed_pcb p;
  ty_entries : typed_entries (ptes k);
  ty_counts : Frames.wf (phys_mem k);
  ty_shared : ∀ i s, znth (shared_pages k) i = Some s → typed_shared s;
  ty_idle : is_u32 (idle_task k);
  ty_pid : is_s32 (next_pid k);
  ty_turn : is_u32 (ticks_since_last_switch k);
  ty_clock : is_s32 (zeos_ticks k);
  ty_keys : Circ.wf (cbuff k);
  ty_screen : wf_console (cons k);
}.

(** ** The accesses *)

Section accesses.
Context `{Layout}.
Implicit Types (k : kernel) (m : gmap Z Z).

(** A state with the typed fields of [k]. *)
Ltac typed_fields := let Hk := fresh in intros ? Hk; destruct Hk; split; assumption.

Lemma gives_pcb t : gives typed (pcb t) typed_pcb.
Proof. apply gives_ask. intros k p Hk. apply Hk. Qed.

Lemma gives_set_pcb t f : (∀ p, typed_pcb p → typed_pcb (f p)) → gives typed (set_pcb t f) (λ _, True).
Proof.
  intros Hf. apply gives_lift; [done|]. intros k k' Hk E. destruct (tasks k !! t) as [p|] eqn:Ep; [|done].
  cbn in E. injection E as <-. destruct Hk. split; try assumption. intros u q. kcbn. rewrite lookup_insert. case_decide; [|by eauto].
  intros [= <-]. eauto.
Qed.

Lemma gives_on_lists f : gives typed (on_lists f) (λ _, True).
Proof.
  intros k [] k' E Hk. unfold on_lists, zoom, lift in E. destruct (f (lists k)) as [h|]; [|done]. cbn in E. injection E as <-.
  split; [|done]. destruct Hk. split; assumption.
Qed.

Lemma gives_on_ptes f :
  (∀ m m', typed_entries m → f m = Some m' → typed_entries m') → gives typed (on_ptes f) (λ _, True).
Proof.
  intros Hf k [] k' E Hk. unfold on_ptes, zoom, lift in E. destruct (f (ptes k)) as [m|] eqn:Em; [|done]. cbn in E. injection E as <-.
  split; [|done]. destruct Hk. split; try assumption. kcbn. eauto.
Qed.

Lemma gives_on_frames {A} (m : M (list Z) A) Q : gives Frames.wf m Q → gives typed (on_frames m) Q.
Proof.
  intros Hm k a k' E Hk. unfold on_frames, zoom in E. destruct (m (phys_mem k)) as [[b pm]|] eqn:Em; [|done]. injection E as <- <-.
  destruct (Hm _ _ _ Em (ty_counts _ Hk)) as [Hwf Hb]. split; [|exact Hb]. destruct Hk. split; try assumption.
Qed.

Lemma gives_shared i : gives typed (shared i) typed_shared.
Proof. apply gives_ask. intros k s Hk. apply Hk. Qed.

Lemma gives_set_shared i f : (∀ s, typed_shared s → typed_shared (f s)) → gives typed (set_shared i f) (λ _, True).
Proof.
  intros Hf. apply gives_lift; [done|]. intros k k' Hk E. destruct (znth (shared_pages k) i) as [s|] eqn:Es; [|done]. cbn in E.
  pose proof (znth_Some_range _ _ _ Es) as Hi. rewrite zset_Some in E by done. cbn in E. injection E as <-.
  destruct Hk. split; try assumption. intros j s'. kcbn. rewrite znth_insert by done. case_match; [intros [= <-]; eauto|eauto].
Qed.

(** The updates of fields without a type of their own. *)
Lemma gives_stacks f : gives typed (modify (λ k, set_stacks (f k) k)) (λ _, True).
Proof. apply gives_modify; [done|]. typed_fields. Qed.
Lemma gives_esp f : gives typed (modify (λ k, set_esp (f k) k)) (λ _, True).
Proof. apply gives_modify; [done|]. typed_fields. Qed.
Lemma gives_cr3 d : gives typed (write_cr3 d) (λ _, True).
Proof. apply gives_modify; [done|]. typed_fields. Qed.
Lemma gives_tss v : gives typed (modify (set_tss_esp0 v)) (λ _, True).
Proof. apply gives_modify; [done|]. typed_fields. Qed.
Lemma gives_msr a l h : gives typed (set_msr a l h) (λ _, True).
Proof. apply gives_modify; [done|]. typed_fields. Qed.
Lemma gives_resume f : gives typed (modify (λ k, set_resume (f k) k)) (λ _, True).
Proof. apply gives_modify; [done|]. typed_fields. Qed.
Lemma gives_store_stack a v : gives typed (store_stack a v) (λ _, True).
Proof. apply (gives_stacks (λ k, <[a := v]> (stacks k))). Qed.
Lemma gives_copy p q n : gives typed (lift (copy_data p q n)) (λ _, True).
Proof. apply gives_lift; [done|]. intros k k' Hk [fr ->]%copy_data_frames. destruct Hk. split; assumption. Qed.
Lemma gives_store32 a w : gives typed (lift (store32 a w)) (λ _, True).
Proof. apply gives_lift; [done|]. intros k k' Hk [fr ->]%store32_frames. destruct Hk. split; assumption. Qed.
Lemma gives_zero q n : gives typed (lift (zero_out q n)) (λ _, True).
Proof. apply gives_lift; [done|]. intros k k' Hk [fr ->]%zero_out_frames. destruct Hk. split; assumption. Qed.
Lemma gives_store8 a v : gives typed (lift (store8 a v)) (λ _, True).
Proof.
  apply gives_lift; [done|]. intros k k' Hk E. unfold store8 in E. destruct (resolve k a) as [p|]; [|done]. injection E as <-.
  destruct Hk. split; assumption.
Qed.
Lemma gives_zoom_cons {A} (m : M console A) : gives wf_console m (λ _, True) → gives typed (zoom cons set_cons m) (λ _, True).
Proof.
  intros Hm k a k' E Hk. unfold zoom in E. destruct (m (cons k)) as [[b c]|] eqn:Em; [|done]. injection E as <- <-.
  split; [|done]. destruct Hk. split; try assumption. kcbn. by eapply Hm.
Qed.
Lemma gives_zoom_keys {A} (m : M Circ.circular_buffer A) : gives Circ.wf m (λ _, True) → gives typed (zoom cbuff set_cbuff m) (λ _, True).
Proof.
  intros Hm k a k' E Hk. unfold zoom in E. destruct (m (cbuff k)) as [[b c]|] eqn:Em; [|done]. injection E as <- <-.
  split; [|done]. destruct Hk. split; try assumption. kcbn. by eapply Hm.
Qed.

(** The addresses of the code. *)
Lemma land_u32 a b : is_u32 b → is_u32 (Z.land a b).
Proof.
  intros [Hb1 Hb2]. split; [apply Z.land_nonneg; by right|].
  apply (Z.bounded_iff_bits_nonneg 32); [lia|apply Z.land_nonneg; by right|]. intros j Hj.
  rewrite Z.land_spec. apply andb_false_iff. right. by apply (proj1 (Z.bounded_iff_bits_nonneg 32 b ltac:(lia) Hb1) Hb2).
Qed.

Lemma lor_u32 a b : is_u32 a → is_u32 b → is_u32 (Z.lor a b).
Proof.
  intros [Ha1 Ha2] [Hb1 Hb2]. assert (0 ≤ Z.lor a b) by (apply Z.lor_nonneg; done). split; [done|].
  apply (Z.bounded_iff_bits_nonneg 32); [lia|done|]. intros j Hj. rewrite Z.lor_spec. apply orb_false_iff. split.
  - by apply (proj1 (Z.bounded_iff_bits_nonneg 32 a ltac:(lia) Ha1) Ha2).
  - by apply (proj1 (Z.bounded_iff_bits_nonneg 32 b ltac:(lia) Hb1) Hb2).
Qed.

Lemma gives_current : gives typed (gets current) is_u32.
Proof. apply gives_gets. intros k _. by apply land_u32. Qed.
Lemma gives_idle : gives typed (gets idle_task) is_u32.
Proof. apply gives_gets. by intros k []. Qed.
Lemma gives_next_pid : gives typed (gets next_pid) is_s32.
Proof. apply gives_gets. by intros k []. Qed.
Lemma gives_turn : gives typed (gets ticks_since_last_switch) is_u32.
Proof. apply gives_gets. by intros k []. Qed.
Lemma gives_set_pid : gives typed (modify (λ k, set_next_pid (s32 (next_pid k + 1)) k)) (λ _, True).
Proof. apply gives_modify; [done|]. intros k []. split; try assumption. apply s32_range. Qed.
Lemma gives_new_turn : gives typed (modify (set_ticks_since_last_switch 0)) (λ _, True).
Proof. apply gives_modify; [done|]. intros k []. split; try assumption. done. Qed.
Lemma gives_tick : gives typed (modify (λ k, set_zeos_ticks (s32 (zeos_ticks k + 1)) k)) (λ _, True).
Proof. apply gives_modify; [done|]. intros k []. split; try assumption. apply s32_range. Qed.
Lemma gives_turn_tick :
  gives typed (modify (λ k, set_ticks_since_last_switch (u32 (ticks_since_last_switch k + 1)) k)) (λ _, True).
Proof. apply gives_modify; [done|]. intros k []. split; try assumption. apply u32_range. Qed.
End accesses.

(** ** The parts of the state *)

Section parts.
Implicit Types (m : gmap Z Z) (pm : list Z) (c : console).

Lemma set_bit_u32 i v e : 0 ≤ i < 32 → is_u32 e → is_u32 (set_bit i v e).
Proof.
  intros Hi He. unfold set_bit. apply lor_u32.
  - rewrite Z.clearbit_spec'. destruct He as [He1 He2]. assert (0 ≤ Z.ldiff e (2 ^ i)) by (apply Z.ldiff_nonneg; by left).
    split; [done|]. apply (Z.bounded_iff_bits_nonneg 32); [lia|done|]. intros j Hj. rewrite Z.ldiff_spec.
    by rewrite (proj1 (Z.bounded_iff_bits_nonneg 32 e ltac:(lia) He1) He2).
  - assert (Z.land v 1 = 0 ∨ Z.land v 1 = 1) as [-> | ->].
    { pose proof (land_ones_mod v 1 ltac:(lia)) as E. change (Z.ones 1) with 1 in E. rewrite E. change (2 ^ 1) with 2. Z.div_mod_to_equations; lia. }
    + rewrite Z.shiftl_0_l. done.
    + rewrite Z.shiftl_mul_pow2, Z.mul_1_l by lia. split; [apply Z.pow_nonneg; lia|apply Z.pow_lt_mono_r; lia].
Qed.

Lemma set_pbase_u32 v e : is_u32 (set_pbase_addr v e).
Proof.
  unfold set_pbase_addr. apply lor_u32; [by apply land_u32|]. rewrite Z.shiftl_mul_pow2, (land_ones_mod _ 20) by lia.
  change (2 ^ 12) with 4096. change (2 ^ 20) with 1048576. wrap_lia.
Qed.

Lemma store_pte_typed PT i v m m' : is_u32 v → typed_entries m → store_pte PT i v m = Some m' → typed_entries m'.
Proof.
  intros Hv Hm E. unfold store_pte in E. destruct (m !! slot PT i); [|done]. cbn in E. injection E as <-.
  intros a e. rewrite lookup_insert. case_decide; [by intros [= <-]|apply Hm].
Qed.

Lemma update_pte_typed PT i f m m' :
  (∀ e, is_u32 e → is_u32 (f e)) → typed_entries m → update_pte PT i f m = Some m' → typed_entries m'.
Proof.
  intros Hf Hm E. unfold update_pte in E. destruct (load_pte PT i m) as [e|] eqn:Ee; [|done]. cbn in E.
  eapply store_pte_typed; [|exact Hm|exact E]. apply Hf. exact (Hm _ _ Ee).
Qed.

Lemma set_ss_pag_typed PT i f m m' : typed_entries m → set_ss_pag PT i f m = Some m' → typed_entries m'.
Proof.
  intros Hm E. unfold set_ss_pag in E. apply bind_Some in E as (m1 & E1 & E). apply bind_Some in E as (m2 & E2 & E).
  apply bind_Some in E as (m3 & E3 & E). apply bind_Some in E as (m4 & E4 & E).
  apply store_pte_typed in E1; [|done..]. apply update_pte_typed in E2; [|by intros; apply set_pbase_u32|done].
  apply update_pte_typed in E3; [|by intros; apply set_bit_u32|done]. apply update_pte_typed in E4; [|by intros; apply set_bit_u32|done].
  apply update_pte_typed in E; [done|by intros; apply set_bit_u32|done].
Qed.

Lemma copy_pte_typed a b i m m' : typed_entries m → copy_pte a b i m = Some m' → typed_entries m'.
Proof.
  intros Hm E. unfold copy_pte in E. destruct (load_pte b i m) as [e|] eqn:Ee; [|done]. cbn in E.
  eapply store_pte_typed; [exact (Hm _ _ Ee)|exact Hm|exact E].
Qed.

Lemma count_wf i v pm pm' : is_u8 v → Frames.wf pm → zset pm i v = Some pm' → Frames.wf pm'.
Proof.
  intros Hv Hwf E. apply zset_inv in E as (Hi & -> & _). destruct Hwf as [Hlen ?]. apply Frames.wf_insert; [done|lia|done].
Qed.

Lemma incr_wf i pm pm' : Frames.wf pm → Frames.incr i pm = Some pm' → Frames.wf pm'.
Proof. intros Hwf E. unfold Frames.incr in E. apply bind_Some in E as (v & _ & E). eapply count_wf; [|done|exact E]. apply u8_range. Qed.

Lemma decr_wf i pm pm' : Frames.wf pm → Frames.decr i pm = Some pm' → Frames.wf pm'.
Proof. intros Hwf E. unfold Frames.decr in E. apply bind_Some in E as (v & _ & E). eapply count_wf; [|done|exact E]. apply u8_range. Qed.

(** A frame number is an [int]. *)
Lemma gives_alloc : gives Frames.wf Frames.alloc_frame is_s32.
Proof.
  intros pm r pm' E Hwf. destruct (Frames.alloc_frame_spec pm Hwf) as [(f & E' & [Ha _] & _)|[E' _]]; rewrite E' in E; injection E as <- <-.
  - unfold NUM_PAG_KERNEL, TOTAL_PAGES in Ha. split; [|wrap_lia]. apply Frames.wf_insert; [done|unfold TOTAL_PAGES; lia|done].
  - split; [done|by vm_compute].
Qed.

Lemma gives_free f : gives Frames.wf (lift (Frames.free_frame f)) (λ _, True).
Proof.
  apply gives_lift; [done|]. intros pm pm' Hwf E. unfold Frames.free_frame in E. case_match; [by eapply decr_wf|by injection E as <-].
Qed.

Lemma gives_incr f : gives Frames.wf (lift (Frames.incr f)) (λ _, True).
Proof. apply gives_lift; [done|]. intros pm pm'. by apply incr_wf. Qed.

Lemma gives_decr f : gives Frames.wf (lift (Frames.decr f)) (λ _, True).
Proof. apply gives_lift; [done|]. intros pm pm'. by apply decr_wf. Qed.

(** The screen and the keyboard. *)
Lemma printk_wf s : ∀ c c', wf_console c → printk s c = Some c' → wf_console c'.
Proof.
  induction s as [|x s IH]; intros c c' Hc E; [done|]. cbn in E. destruct (x =? 0); [by injection E as <-|].
  eapply IH; [|exact E]. by apply printc_spec.
Qed.

Lemma write_loop_wf n : ∀ i b c c', wf_console c → write_loop n i b c = Some c' → wf_console c'.
Proof.
  induction n as [|n IH]; intros i b c c' Hc E; cbn in E; [by injection E as <-|].
  apply bind_Some in E as (x & _ & E). eapply IH; [|exact E]. by apply printc_spec.
Qed.

Lemma gives_printk s : gives wf_console (lift (printk s)) (λ _, True).
Proof. apply gives_lift; [done|]. intros c c' Hc E. by eapply printk_wf. Qed.

Lemma gives_write_console b n : gives wf_console (sys_write_console b n) (λ _, True).
Proof.
  intros c r c' E Hc. split; [|done]. unfold sys_write_console in E. destruct (write_loop (Z.to_nat n) 0 b c) as [c1|] eqn:E1; [|done].
  injection E as _ <-. by eapply write_loop_wf.
Qed.

Lemma gives_gotoxy x y : gives wf_console (Console.sys_gotoxy x y) (λ _, True).
Proof.
  intros c r c' E Hc. split; [|done]. unfold Console.sys_gotoxy in E. destruct (_ || _) eqn:Eb in E; injection E as _ <-; [done|].
  bool_to_prop. unfold SCREEN_COLUMNS, SCREEN_ROWS in *. rewrite !u8_small by wrap_lia. by apply set_cursor_wf.
Qed.

Lemma gives_set_color f b : gives wf_console (Console.sys_set_color f b) (λ _, True).
Proof.
  intros c r c' E Hc. split; [|done]. unfold Console.sys_set_color in E. destruct (_ || _) eqn:Eb in E; injection E as _ <-; [done|].
  bool_to_prop. unfold WHITE, BLACK in *. rewrite !u8_small by wrap_lia. by apply set_colors_wf.
Qed.

Lemma gives_put x : gives Circ.wf (Circ.put x) (λ _, True).
Proof.
  intros b r b' E Hb. split; [|done]. unfold Circ.put in E. destruct (Circ.is_full b); [by injection E as _ <-|].
  apply bind_Some in E as (ks & Ek & E). injection E as _ <-. apply zset_inv in Ek as (_ & -> & _). destruct Hb as [H1 H2 H3].
  split; cbn; [by rewrite length_insert| |done]. rewrite Circ.next_idx by done. unfold Circ.MAX_BUFF_SIZE in *. Z.div_mod_to_equations; lia.
Qed.

Lemma gives_get old : gives Circ.wf (Circ.get old) (λ _, True).
Proof.
  intros b r b' E Hb. split; [|done]. unfold Circ.get in E. destruct (Circ.is_empty b); [by injection E as _ <-|].
  apply bind_Some in E as (x & _ & E). injection E as _ <-. destruct Hb as [H1 H2 H3].
  split; cbn; [done|done|]. rewrite Circ.next_idx by done. unfold Circ.MAX_BUFF_SIZE in *. Z.div_mod_to_equations; lia.
Qed.
End parts.

(** ** The operations *)

Create HintDb gives discriminated.
#[export] Hint Constants Opaque : gives.
#[export] Hint Resolve gives_on_lists gives_cr3 gives_msr gives_store_stack gives_copy gives_store32 gives_zero gives_store8
  gives_free gives_incr gives_decr gives_printk gives_write_console gives_gotoxy gives_set_color gives_put gives_get : gives.

Section tables.
Context `{Layout}.
Lemma gives_store_pte PT i v : is_u32 v → gives typed (on_ptes (store_pte PT i v)) (λ _, True).
Proof. intros Hv. apply gives_on_ptes. intros m m'. by apply store_pte_typed. Qed.
Lemma gives_set_rw PT i v : gives typed (on_ptes (update_pte PT i (set_rw v))) (λ _, True).
Proof. apply gives_on_ptes. intros m m'. apply update_pte_typed. intros e. by apply set_bit_u32. Qed.
Lemma gives_set_ss PT i f : gives typed (on_ptes (set_ss_pag PT i f)) (λ _, True).
Proof. apply gives_on_ptes. intros m m'. apply set_ss_pag_typed. Qed.
Lemma gives_del_ss PT i : gives typed (on_ptes (del_ss_pag PT i)) (λ _, True).
Proof. by apply gives_store_pte. Qed.
Lemma gives_copy_pte a b i : gives typed (on_ptes (copy_pte a b i)) (λ _, True).
Proof. apply gives_on_ptes. intros m m'. apply copy_pte_typed. Qed.
End tables.
#[export] Hint Resolve gives_set_rw gives_set_ss gives_del_ss gives_copy_pte : gives.

(** A field gets a value of its type. *)
Ltac typed_side :=
  let p := fresh in intros p []; split; cbn; first [assumption | apply s32_range | apply u32_range | by vm_compute | wrap_lia].

(** The accesses whose results have a type; the results of the others are of no
    concern. *)
Ltac gives_value :=
  lazymatch goal with
  | |- gives _ (pcb _) _ => apply gives_pcb
  | |- gives _ (shared _) _ => apply gives_shared
  | |- gives _ (gets current) _ => apply gives_current
  | |- gives _ (gets idle_task) _ => apply gives_idle
  | |- gives _ (gets next_pid) _ => apply gives_next_pid
  | |- gives _ (on_frames Frames.alloc_frame) _ => apply gives_on_frames, gives_alloc
  | |- gives _ (gets ticks_since_last_switch) _ => apply gives_turn
  end.

Ltac gives_all :=
  cbv zeta;
  lazymatch goal with
  | |- gives _ (_ ≫= _) _ =>
      first [ eapply gives_bind; [gives_value|]; intros ? ?; gives_all
            | apply (gives_bind _ _ _ (λ _, True)); [gives_all|intros ? _; gives_all] ]
  | |- gives _ (mret _) _ => apply gives_ret; exact I
  | |- gives _ fault _ => apply gives_fault
  | |- gives _ (if _ then _ else _) _ => apply gives_if; gives_all
  | |- gives _ (match ?x with _ => _ end) _ => destruct x; gives_all
  | |- gives _ (for_up _ _ _) _ => apply gives_for_up; intros ?; gives_all
  | |- gives _ (set_pcb _ _) _ => apply gives_set_pcb; typed_side
  | |- gives _ (set_shared _ _) _ => apply gives_set_shared; typed_side
  | |- gives _ (on_ptes (store_pte _ _ 0)) _ => apply gives_store_pte; by vm_compute
  | |- gives _ (on_frames _) _ => apply gives_on_frames; gives_all
  | |- gives _ (zoom cons set_cons _) _ => apply gives_zoom_cons; gives_all
  | |- gives _ (zoom cbuff set_cbuff _) _ => apply gives_zoom_keys; gives_all
  | |- gives _ (modify (λ k, set_esp (@?v k) k)) _ => exact (gives_esp v)
  | |- gives _ (modify (λ k, set_stacks (@?v k) k)) _ => exact (gives_stacks v)
  | |- gives _ (modify (set_resume ?v)) _ => exact (gives_resume (λ _, v))
  | |- gives _ (modify (set_esp ?v)) _ => exact (gives_esp (λ _, v))
  | |- gives _ (modify (set_tss_esp0 ?v)) _ => exact (gives_tss v)
  | |- gives _ (modify (set_ticks_since_last_switch 0)) _ => exact gives_new_turn
  | |- gives _ (modify (λ k, set_zeos_ticks _ k)) _ => exact gives_tick
  | |- gives _ (modify (λ k, set_ticks_since_last_switch _ k)) _ => exact gives_turn_tick
  | |- gives _ (modify (λ k, set_next_pid _ k)) _ => exact gives_set_pid
  | |- gives _ (ask _) _ => apply gives_ask; intros; exact I
  | |- gives _ (gets _) _ => apply gives_gets; intros; exact I
  | |- gives _ _ _ => solve [eauto with gives]
  end.

Section operations.
Context `{Layout}.

Lemma gives_get_DIR t : gives typed (get_DIR t) (λ _, True).
Proof. unfold get_DIR. gives_all. Qed.
Lemma gives_get_PT t : gives typed (get_PT t) (λ _, True).
Proof. unfold get_PT. gives_all. Qed.
Lemma gives_allocate_DIR t : gives typed (allocate_DIR t) (λ _, True).
Proof. unfold allocate_DIR. gives_all. Qed.
#[local] Hint Resolve gives_get_DIR gives_get_PT gives_allocate_DIR : gives.
Lemma gives_free_user_pages t : gives typed (free_user_pages t) (λ _, True).
Proof. unfold free_user_pages. gives_all. Qed.
Lemma gives_free_page t : gives typed (get_user_free_page t) (λ _, True).
Proof. unfold get_user_free_page. gives_all. Qed.
Lemma gives_is_frame_shared f : gives typed (is_frame_shared f) (λ _, True).
Proof. unfold is_frame_shared. generalize (Z.to_nat NUM_SHARED_PAGES) 0. intros n. induction n; intros i; cbn [shared_loop]; gives_all. Qed.
Lemma gives_set_cr3 d : gives typed (set_cr3 d) (λ _, True).
Proof. apply gives_cr3. Qed.
#[local] Hint Resolve gives_free_user_pages gives_free_page gives_is_frame_shared gives_set_cr3 : gives.

Lemma gives_task_switch t : gives typed (task_switch t) (λ _, True).
Proof. unfold task_switch, inner_task_switch, switch_stacks, load_stack. gives_all. Qed.
#[local] Hint Resolve gives_task_switch : gives.
Lemma gives_update_state t d s : gives typed (update_process_state_rr t d s) (λ _, True).
Proof. unfold update_process_state_rr. gives_all. Qed.
#[local] Hint Resolve gives_update_state : gives.
Lemma gives_sched_next : gives typed sched_next_rr (λ _, True).
Proof. unfold sched_next_rr, list_empty_of, list_first_of. gives_all. Qed.
#[local] Hint Resolve gives_sched_next : gives.
Lemma gives_schedule : gives typed schedule (λ _, True).
Proof. unfold schedule, update_sched_data_rr, needs_sched_rr, list_empty_of, get_quantum. gives_all. Qed.
#[local] Hint Resolve gives_schedule : gives.

(** Interrupts. *)
Lemma gives_entry : gives typed kernel_entry_stack (λ _, True).
Proof. unfold kernel_entry_stack. gives_all. Qed.
Lemma gives_clk : gives typed clk_routine (λ _, True).
Proof. unfold clk_routine. gives_all. Qed.
Lemma gives_kbd key : gives typed (kbd_routine key) (λ _, True).
Proof. unfold kbd_routine. gives_all. Qed.
Lemma gives_pgf cr2 ip buff after : gives typed (pgf_routine cr2 ip buff after) (λ _, True).
Proof. unfold pgf_routine, pgf_error. gives_all. Qed.

(** System calls. *)
Lemma gives_check_loop n i : gives typed (check_loop n i) (λ _, True).
Proof. revert i. induction n; intros i; cbn [check_loop]; gives_all. Qed.
#[local] Hint Resolve gives_check_loop : gives.
Lemma gives_access_ok t a n : gives typed (access_ok t a n) (λ _, True).
Proof. unfold access_ok, check_allocated. gives_all. Qed.
Lemma gives_read_chars n a : gives typed (read_chars n a) (λ _, True).
Proof. revert a. induction n; intros a; cbn [read_chars]; gives_all. Qed.
Lemma gives_copy_to_user p q n : gives typed (copy_to_user p q n) (λ _, True).
Proof.
  intros k r k' E Hk. unfold copy_to_user in E. destruct (copy_data p q n k) as [k1|] eqn:E1; [|done]. injection E as _ <-.
  destruct (copy_data_frames _ _ _ _ _ E1) as [fr ->]. split; [|done]. destruct Hk. split; assumption.
Qed.
Lemma gives_copy_in p q n : gives typed (copy_in p q n) (λ _, True).
Proof. exact (gives_copy_to_user p q n). Qed.
#[local] Hint Resolve gives_access_ok gives_read_chars gives_copy_to_user gives_copy_in : gives.
Lemma gives_write_chunk b n : gives typed (write_chunk b n) (λ _, True).
Proof. unfold write_chunk. gives_all. Qed.
#[local] Hint Resolve gives_write_chunk : gives.
Lemma gives_write_while f b n : gives typed (write_while f b n) (λ _, True).
Proof. revert b n. induction f; intros b n; cbn [write_while]; gives_all. Qed.
Lemma gives_read_loop f b n c i r : gives typed (read_loop f b n c i r) (λ _, True).
Proof. revert c i r. induction f; intros c i r; cbn [read_loop]; gives_all. Qed.
#[local] Hint Resolve gives_write_while gives_read_loop : gives.
Lemma gives_sys_write fd b n : gives typed (sys_write fd b n) (λ _, True).
Proof. unfold sys_write. gives_all. Qed.
Lemma gives_sys_read b n : gives typed (sys_read b n) (λ _, True).
Proof. unfold sys_read. gives_all. Qed.

Lemma gives_copy_union a b : gives typed (copy_union a b) (λ _, True).
Proof.
  unfold copy_union. eapply gives_bind; [gives_value|]. intros p Hp. apply (gives_bind _ _ _ (λ _, True)).
  - by apply gives_set_pcb.
  - intros ? _. gives_all.
Qed.
Lemma gives_fork_cow a b : gives typed (fork_cow a b) (λ _, True).
Proof. unfold fork_cow. gives_all. Qed.
Lemma gives_fork_reserve n pag c a b : gives typed (fork_reserve n pag c a b) (λ _, True).
Proof. revert pag. induction n; intros pag; cbn [fork_reserve]; gives_all. Qed.
Lemma gives_fork_copy pag ps a : gives typed (fork_copy pag ps a) (λ _, True).
Proof. revert pag. induction ps; intros pag; cbn [fork_copy]; gives_all. Qed.
Lemma gives_fork_shared a b : gives typed (fork_shared a b) (λ _, True).
Proof. unfold fork_shared. gives_all. Qed.
Lemma gives_fork_finish c : gives typed (fork_finish c) (λ _, True).
Proof. unfold fork_finish. gives_all. Qed.
#[local] Hint Resolve gives_copy_union gives_fork_cow gives_fork_reserve gives_fork_copy gives_fork_shared gives_fork_finish : gives.
Lemma gives_sys_fork : gives typed sys_fork (λ _, True).
Proof. unfold sys_fork, fork_space, list_empty_of, list_first_of. gives_all. Qed.
Lemma gives_exit_turn i : gives typed (exit_turn i) (λ _, True).
Proof. unfold exit_turn. gives_all. Qed.
#[local] Hint Resolve gives_exit_turn : gives.
Lemma gives_exit_shared t : gives typed (exit_shared t) (λ _, True).
Proof. unfold exit_shared. gives_all. Qed.
#[local] Hint Resolve gives_exit_shared : gives.
Lemma gives_sys_exit : gives typed sys_exit (λ _, True).
Proof. unfold sys_exit, exit_children. gives_all. Qed.
Lemma gives_sys_block : gives typed sys_block (λ _, True).
Proof. unfold sys_block. gives_all. Qed.
Lemma gives_unblock_son s : gives typed (unblock_son s) (λ _, True).
Proof. unfold unblock_son. gives_all. Qed.
#[local] Hint Resolve gives_unblock_son : gives.
Lemma gives_unblock_loop f pid h a n : gives typed (unblock_loop f pid h a n) (λ _, True).
Proof. revert a n. induction f; intros a n; cbn [unblock_loop]; gives_all. Qed.
#[local] Hint Resolve gives_unblock_loop : gives.
Lemma gives_sys_unblock pid : gives typed (sys_unblock pid) (λ _, True).
Proof. unfold sys_unblock. gives_all. Qed.
Lemma gives_sys_shmat id a : gives typed (sys_shmat id a) (λ _, True).
Proof. unfold sys_shmat, shm_attach. gives_all. Qed.
Lemma gives_sys_shmdt a : gives typed (sys_shmdt a) (λ _, True).
Proof. unfold sys_shmdt. gives_all. Qed.
Lemma gives_sys_shmrm id : gives typed (sys_shmrm id) (λ _, True).
Proof. unfold sys_shmrm. gives_all. Qed.
End operations.

#[export] Hint Resolve gives_get_DIR gives_get_PT gives_allocate_DIR gives_set_cr3 gives_entry gives_clk gives_kbd gives_pgf
  gives_sys_write gives_sys_read gives_sys_fork gives_sys_exit gives_sys_block gives_sys_unblock gives_sys_shmat
  gives_sys_shmdt gives_sys_shmrm : gives.

(** ** The start of the system *)

Section start.
Context `{Layout}.

Lemma gives_update_pte PT i f : (∀ e, is_u32 e → is_u32 (f e)) → gives typed_entries (lift (update_pte PT i f)) (λ _, True).
Proof. intros Hf. apply gives_lift; [done|]. intros m m'. by apply update_pte_typed. Qed.
Lemma gives_store_zero PT i : gives typed_entries (lift (store_pte PT i 0)) (λ _, True).
Proof. apply gives_lift; [done|]. intros m m'. by apply store_pte_typed. Qed.
Lemma gives_pte_base PT i v : gives typed_entries (lift (update_pte PT i (set_pbase_addr v))) (λ _, True).
Proof. apply gives_update_pte. intros e _. apply set_pbase_u32. Qed.
Lemma gives_pte_user PT i v : gives typed_entries (lift (update_pte PT i (set_user v))) (λ _, True).
Proof. apply gives_update_pte. intros e. by apply set_bit_u32. Qed.
Lemma gives_pte_rw PT i v : gives typed_entries (lift (update_pte PT i (set_rw v))) (λ _, True).
Proof. apply gives_update_pte. intros e. by apply set_bit_u32. Qed.
Lemma gives_pte_present PT i v : gives typed_entries (lift (update_pte PT i (set_present v))) (λ _, True).
Proof. apply gives_update_pte. intros e. by apply set_bit_u32. Qed.
Lemma gives_zoom_ptes m : gives typed_entries m (λ _ : unit, True) → gives typed (zoom ptes set_ptes m) (λ _, True).
Proof.
  intros Hm k a k' E Hk. unfold zoom in E. destruct (m (ptes k)) as [[b c]|] eqn:Em; [|done]. injection E as <- <-.
  split; [|done]. destruct Hk. split; try assumption. kcbn. by eapply Hm.
Qed.
Lemma gives_on_update PT i f : gives typed_entries (lift (update_pte PT i f)) (λ _, True) → gives typed (on_ptes (update_pte PT i f)) (λ _, True).
Proof. apply (gives_zoom_ptes (lift (update_pte PT i f))). Qed.
Lemma gives_zoom_desc (m : M tables unit) : gives typed (zoom desc set_desc m) (λ _, True).
Proof.
  intros k a k' E Hk. unfold zoom in E. destruct (m (desc k)) as [[b c]|]; [|done]. injection E as <- <-.
  split; [|done]. destruct Hk. split; assumption.
Qed.
#[local] Hint Resolve gives_store_zero gives_pte_base gives_pte_user gives_pte_rw gives_pte_present gives_on_update gives_zoom_desc : gives.

Lemma gives_set_user_pages t : gives typed (set_user_pages t) (λ _, True).
Proof. unfold set_user_pages. gives_all. Qed.
Lemma gives_init_frames : gives Frames.wf Frames.init_frames (λ _, True).
Proof.
  unfold Frames.init_frames. apply (gives_bind _ _ _ (λ _, True)); [|intros ? _; gives_all].
  apply gives_for_up. intros i. apply gives_lift; [done|]. intros pm pm' Hwf. by apply count_wf.
Qed.
Lemma gives_init_tables a : gives typed (zoom ptes set_ptes (init_table_pages a)) (λ _, True).
Proof. apply gives_zoom_ptes. unfold init_table_pages. gives_all. Qed.
Lemma gives_init_dirs a b : gives typed (zoom ptes set_ptes (init_dir_pages a b)) (λ _, True).
Proof. apply gives_zoom_ptes. unfold init_dir_pages. gives_all. Qed.
Lemma gives_pe_flag : gives typed set_pe_flag (λ _, True).
Proof. apply gives_modify; [done|]. intros k []. split; assumption. Qed.
#[local] Hint Resolve gives_init_frames gives_init_tables gives_init_dirs gives_pe_flag : gives.
Lemma gives_init_mm : gives typed init_mm (λ _, True).
Proof. unfold init_mm, init_shared_pages. gives_all. Qed.
Lemma gives_init_sched : gives typed init_sched (λ _, True).
Proof. unfold init_sched. gives_all. Qed.
Lemma gives_new_idle l : gives typed (modify (set_idle_task (list_head_to_task_struct l))) (λ _, True).
Proof. apply gives_modify; [done|]. intros k []. split; try assumption. by apply land_u32. Qed.
Lemma gives_new_task1 t : gives typed (modify (set_task1_task t)) (λ _, True).
Proof. apply gives_modify; [done|]. intros k []. split; assumption. Qed.
Lemma gives_cbuff : gives typed initCircBuff (λ _, True).
Proof. apply gives_modify; [done|]. intros k []. split; try assumption. kcbn. by apply Circ.init_contents, Circ.wf_keys. Qed.
Lemma gives_print s : gives typed (print s) (λ _, True).
Proof. unfold print. gives_all. Qed.
#[local] Hint Resolve gives_set_user_pages gives_new_idle gives_new_task1 gives_cbuff gives_print gives_init_mm gives_init_sched : gives.
Lemma gives_start_sched : gives typed start_sched (λ _, True).
Proof. unfold start_sched, init_idle, init_task1, list_first_of. gives_all. Qed.
#[local] Hint Resolve gives_start_sched : gives.
Lemma gives_main a sh : gives typed (main a sh) (λ _, True).
Proof. unfold main, set_seg_regs, setIdt, set_sysenter_msrs, set_TSS, return_gate, on_hardware. gives_all. Qed.
End start.
