(* ===== verification/Entries.v ===== *)
(** * The entries of the kernel (entry.S, sys_call_table.S)

    After the start the kernel runs only when it is entered: by the clock, the
    keyboard, a page fault or a system call, which the number in [%eax] selects
    in the table of services.  Every entry, and so any sequence of them, keeps the
    state well typed. *)

From S2P Require Import Prelude CInt ListHead Circular Memory Errno Console LibC Paging Descriptors Kernel Mm Space Sched Boot Interrupt System UserIO Process Shm Fork Types.
Import PTE PageTable.

(** ** The entries *)

Section entries.
Context `{Layout}.

(** [ENTRY(sys_call_table)]: a service takes up to three words of arguments.
    [sys_exit] does not come back to its caller: the result is not used. *)
Definition sys_call_table : list (Z → Z → Z → MK Z) :=
  let ni : Z → Z → Z → MK Z := λ _ _ _, sys_ni_syscall in
  [ ni; (λ _ _ _, sys_exit ;; mret 0); (λ _ _ _, sys_fork); (λ b n _, sys_read b n); (λ fd b n, sys_write fd b n);
    ni; ni; ni; ni; ni;
    (λ _ _ _, sys_gettime); (λ x y _, sys_gotoxy x y); (λ fg bg _, sys_set_color fg bg); ni; ni;
    (λ id addr _, sys_shmat id addr); (λ addr _ _, sys_shmdt addr); (λ id _ _, sys_shmrm id);
    (λ _ _ _, sys_block); (λ pid _ _, sys_unblock pid); (λ _ _ _, sys_getpid); (λ _ _ _, sys_numsons); (λ _ _ _, sys_numbros) ].

Definition MAX_SYSCALL : Z := Z.of_nat (length sys_call_table).

(** The word behind the table, which [jg] lets through, is not known. *)
Definition sys_call (eax a b c : Z) : MK Z :=
  if eax <? 0 then mret (- ENOSYS)
  else if MAX_SYSCALL <? eax then mret (- ENOSYS)
  else match znth sys_call_table eax with Some service => service a b c | None => fault end.

(** [sysenter] loads the stack pointer from its register. *)
Definition sysenter : MK unit := m ← ask (λ k, msrs k !! 0x175); modify (set_esp m.1).

Inductive entry :=
  | Clock
  | Keyboard (key : Z)
  | PageFault (cr2 eip : Z) (buff after : list Z)
  | SysCall (eax a b c : Z).

Definition handle_entry (e : entry) : MK unit :=
  match e with
  | Clock => clock_interrupt
  | Keyboard key => kernel_entry_stack ;; kbd_routine key
  | PageFault cr2 eip buff after => kernel_entry_stack ;; ok ← pgf_routine cr2 eip buff after; if (ok : bool) then mret tt else fault
  | SysCall eax a b c => sysenter ;; _ ← sys_call eax a b c; mret tt
  end.

(** After a fatal page fault the kernel spins with interrupts off, and no entry
    follows: the run ends there. *)
Fixpoint handle_entries (es : list entry) : MK unit :=
  match es with
  | [] => mret tt
  | e :: es => handle_entry e ;; handle_entries es
  end.
End entries.

(** ** The types of the state *)

Section types.
Context `{Layout}.

Lemma gives_sys_call eax a b c : gives typed (sys_call eax a b c) (λ _, True).
Proof.
  unfold sys_call. apply gives_if; [gives_all|]. apply gives_if; [gives_all|].
  destruct (znth sys_call_table eax) as [f|] eqn:E; [|gives_all]. pose proof (znth_Some_range _ _ _ E) as Hr.
  unfold znth in E. destruct (eax <? 0); [done|]. apply list_elem_of_lookup_2 in E.
  unfold sys_call_table in E. repeat (apply elem_of_cons in E as [->|E]; [unfold sys_ni_syscall, sys_gettime, sys_gotoxy, sys_set_color, sys_getpid, sys_numsons, sys_numbros; gives_all|]).
  by apply elem_of_nil in E.
Qed.

Lemma gives_handle_entry e : gives typed (handle_entry e) (λ _, True).
Proof.
  pose proof gives_sys_call. destruct e; cbn [handle_entry]; unfold clock_interrupt, sysenter; gives_all.
Qed.

Lemma gives_handle_entries es : gives typed (handle_entries es) (λ _, True).
Proof. pose proof gives_handle_entry. induction es; cbn [handle_entries]; gives_all. Qed.
End types.

(** The image the boot sector loads. *)
Lemma fill_map_value {A} (n : nat) b (v : A) a x : fill_map b n v !! a = Some x → x = v.
Proof.
  revert b. induction n as [|n IH]; intros b; cbn [fill_map]; [by rewrite lookup_empty|].
  rewrite lookup_insert. case_decide; [by intros [= ->]|apply IH].
Qed.

(** Stated on the parts of the image. *)
Lemma image_pcbs `{Layout} t p : tasks boot_image !! t = Some p → typed_pcb p.
Proof. intros (u & [= -> ->] & _)%elem_of_list_to_map_2%list_elem_of_fmap. by split; vm_compute. Qed.

Lemma image_entries `{Layout} : typed_entries (fill_map dir_pages (Z.to_nat 10240) 0 ∪ fill_map pagusr_table (Z.to_nat 10240) 0).
Proof.
  intros a e. generalize (Z.to_nat 10240). intros n [He|[_ He]]%lookup_union_Some_raw; apply fill_map_value in He as ->; by vm_compute.
Qed.

Lemma image_counts : Frames.wf (replicate 1024 0).
Proof. split; [by rewrite length_replicate|]. apply Forall_replicate. by vm_compute. Qed.

Lemma image_shared i s : znth (replicate 10 (mk_SharedPage 0 0 0)) i = Some s → typed_shared s.
Proof.
  unfold znth. destruct (i <? 0); [done|]. intros [-> _]%lookup_replicate. by split; vm_compute.
Qed.

Lemma loaded_typed `{Layout} fr : typed (loaded_image fr).
Proof.
  split; [exact image_pcbs|exact image_entries|exact image_counts|exact image_shared| | | | | |].
  - by vm_compute.
  - by vm_compute.
  - by vm_compute.
  - by vm_compute.
  - by split; vm_compute.
  - by split; vm_compute.
Qed.
