(* ===== verification/Population.v ===== *)
(** * The processes of the system and what is theirs

    A [population] names the processes, their families and their memory.
    [alive] says that it describes a state: every process is running, ready or
    blocked, once, with its pages mapped to frames nobody else writes, and in
    the list of sons of its father.  [kept] is the part of it that scheduling
    does not touch, with the rules by which computations keep it. *)

From S2P Require Import Prelude CInt ListHead Circular Memory Errno Console LibC Paging Descriptors Kernel Mm Space Sched Boot Interrupt System UserIO Process Shm Fork Exit Types.
Import PTE PageTable.

(** ** The population *)

Record population := mk_population {
  members : list Z;  (** the user processes, by the address of their PCB *)
  unused : list Z;  (** the free PCBs, in the order of the free queue *)
  keeper : Z;  (** the idle process, which adopts orphans *)
  sons_of : Z → list Z;
  memory : Z → Z → Z;  (** the frame behind each user page of each process *)
}.

(** The processes with a list of sons. *)
Definition holders (P : population) : list Z := keeper P :: members P.
Definition families (P : population) : list (Z * list Z) := fams (holders P) (sons_of P).

Definition user_page (p : Z) : Prop := USER_FIRST_PAGE ≤ p < USER_LAST_PAGE.
Definition data_page (p : Z) : Prop := USER_FIRST_PAGE ≤ p < PAG_LOG_INIT_CODE.

(** Sons are members and not their own fathers; nobody uses the frames behind
    the data pages of another. *)
Record well_formed (P : population) : Prop := {
  wf_nodup : NoDup (holders P);
  wf_sons : ∀ u c, u ∈ holders P → c ∈ sons_of P u → c ∈ members P ∧ c ≠ u;
  wf_apart : ∀ t u p q, t ∈ members P → u ∈ members P → t ≠ u → data_page p → user_page q → memory P t p ≠ memory P u q;
}.

(** The first process has no father; another is in the list of sons of its parent
    and in no other. *)
Definition has_father (P : population) (t : Z) (p : task_struct) : Prop :=
  (∀ u, u ∈ holders P → t ∈ sons_of P u ↔ u = parent p) ∧
  if PID p =? 1 then parent p = NULL else parent p ∈ holders P.

(** ** What is theirs in a state *)

Record kept `{Layout} (P : population) (k : kernel) : Prop := {
  kp_paging : Z.testbit (cr0 k) 31 = true;
  kp_space : ∀ t, t ∈ members P → proc_space k t (memory P t);
  kp_tables : ∀ t, is_task t → ptes k !! slot (dir_of t) 0 = Some (dir_entry (pt_of t)) ∧
    ∀ i, 0 ≤ i < TOTAL_PAGES → is_Some (ptes k !! slot (pt_of t) i);
  kp_above : ∀ t i, is_task t → USER_LAST_PAGE ≤ i < TOTAL_PAGES →
    ptes k !! slot (pt_of t) i = Some 0 ∨
    ∃ id s, znth (shared_pages k) id = Some s ∧ ptes k !! slot (pt_of t) i = Some (ss_entry (frame s));
  kp_anchors : ∀ t a, is_task t → a ∈ own_anchors t → a ∈ dom (lists k);
  kp_shared : shm_ok k;
  kp_held : ∀ t p, t ∈ members P → user_page p → znth (phys_mem k) (memory P t p) = Some 1;
  kp_apart : ∀ id s, znth (shared_pages k) id = Some s → znth (phys_mem k) (frame s) ≠ Some Frames.FREE_FRAME ∧
    ∀ t p, t ∈ members P → user_page p → memory P t p ≠ frame s;
  kp_fathers : ∀ t, t ∈ members P → pcb_is k t (has_father P t);
  kp_keeper : pcb_is k (keeper P) (λ p, parent p = NULL);
}.

(** The running process is not in a queue; the idle one is not a member. *)
Definition user_of (P : population) (run : Z) : list Z := if bool_decide (run = keeper P) then [] else [run].

Record alive `{Layout} (P : population) (k : kernel) (run : Z) (rq bq : list Z) : Prop := {
  al_wf : well_formed P;
  al_idle : idle_task k = keeper P;
  al_inv : sched_inv k run (unused P) rq bq (families P);
  al_members : user_of P run ++ rq ++ bq ≡ₚ members P;
  al_kept : kept P k;
  al_typed : typed k;
}.

(** ** Rules *)

Section keeps.
Context `{LayoutOk} (P : population).
Implicit Types (k : kernel).

Lemma kept_same k k' :
  ptes k' = ptes k → tasks k' = tasks k → cr0 k' = cr0 k → lists k' = lists k → phys_mem k' = phys_mem k →
  shared_pages k' = shared_pages k → kept P k → kept P k'.
Proof.
  intros Hp Ht Hc Hl Hm Hs [H1 H2 H3 H4 H5 H6 H7 H8 H9 H10].
  split; rewrite ?Hc, ?Hp, ?Hl, ?Hm, ?Hs; unfold pcb_is; rewrite ?Ht; try done.
  - intros t Hin. by apply (proc_space_same k), H2.
  - by apply (shm_ok_same k).
Qed.

Lemma kept_links k h : dom h = dom (lists k) → kept P k → kept P (set_lists h k).
Proof.
  intros Hd [H1 H2 H3 H4 H5 H6 H7 H8 H9 H10]. split; try done.
  - intros t Hin. by apply (proc_space_same k), H2.
  - kcbn. by rewrite Hd.
  - by apply (shm_ok_same k).
Qed.

Lemma kept_pcb k t p f : tasks k !! t = Some p → dir_pages_baseAddr (f p) = dir_pages_baseAddr p → PID (f p) = PID p →
  parent (f p) = parent p → kept P k → kept P (set_tasks (<[t := f p]> (tasks k)) k).
Proof.
  intros Hp Hdir Hpid Hpar [H1 H2 H3 H4 H5 H6 H7 H8 H9 H10].
  assert (Hpcb : ∀ u (Q Q' : task_struct → Prop), (∀ q, Q q → Q' q) → (∀ q, q = p → Q q → Q' (f q)) → pcb_is k u Q →
    pcb_is (set_tasks (<[t := f p]> (tasks k)) k) u Q').
  { intros u Q Q' HQ HQf (q & Hq & Hqq). unfold pcb_is. kcbn. rewrite lookup_insert. case_decide as E; [|exists q; auto].
    subst u. exists (f p). split; [done|]. apply HQf; congruence. }
  split; try done.
  - intros u Hu. destruct (H2 u Hu) as [(Hd & Ha & Hb) ????]. split; [|done..]. split; [|done]. revert Hd.
    apply Hpcb; [done|]. intros q ->. congruence.
  - by apply (shm_ok_same k).
  - intros u Hu. generalize (H9 u Hu). apply Hpcb; [done|]. intros q ->. unfold has_father. by rewrite Hpid, Hpar.
  - revert H10. apply Hpcb; [done|]. intros q ->. congruence.
Qed.

Lemma keeps_modify f :
  (∀ k, ptes (f k) = ptes k ∧ tasks (f k) = tasks k ∧ cr0 (f k) = cr0 k ∧ lists (f k) = lists k ∧
        phys_mem (f k) = phys_mem k ∧ shared_pages (f k) = shared_pages k) →
  gives (kept P) (modify f) (λ _, True).
Proof. intros Hf. apply gives_modify; [done|]. intros k. destruct (Hf k) as (? & ? & ? & ? & ? & ?). by apply kept_same. Qed.

Lemma keeps_set_pcb t f : (∀ p, dir_pages_baseAddr (f p) = dir_pages_baseAddr p ∧ PID (f p) = PID p ∧ parent (f p) = parent p) →
  gives (kept P) (set_pcb t f) (λ _, True).
Proof.
  intros Hf. apply gives_lift; [done|]. intros k k' Hk E. destruct (tasks k !! t) as [p|] eqn:Ep; [|done].
  cbn in E. injection E as <-. destruct (Hf p) as (? & ? & ?). by apply kept_pcb.
Qed.

Lemma keeps_on_lists f : (∀ h h', f h = Some h' → dom h' = dom h) → gives (kept P) (on_lists f) (λ _, True).
Proof.
  intros Hf k a k' E Hk. unfold on_lists, zoom, lift in E. destruct (f (lists k)) as [h|] eqn:Eh; [|done]. cbn in E. injection E as <- <-.
  split; [|done]. apply kept_links; [by apply Hf|done].
Qed.

Lemma keeps_zoom {T A} (get : kernel → T) put (m : M T A) :
  (∀ v k, ptes (put v k) = ptes k ∧ tasks (put v k) = tasks k ∧ cr0 (put v k) = cr0 k ∧ lists (put v k) = lists k ∧
          phys_mem (put v k) = phys_mem k ∧ shared_pages (put v k) = shared_pages k) →
  gives (kept P) (zoom get put m) (λ _, True).
Proof.
  intros Hput k a k' E Hk. unfold zoom in E. destruct (m (get k)) as [[b x]|]; [|done]. injection E as <- <-.
  split; [|done]. destruct (Hput x k) as (? & ? & ? & ? & ? & ?). by eapply kept_same.
Qed.
End keeps.

Create HintDb keeps discriminated.
#[export] Hint Constants Opaque : keeps.
#[export] Hint Resolve list_del_dom list_add_tail_dom : keeps.

(** Walks through a computation whose results do not matter; [leaf] decides its
    operations. *)
Ltac gives_walk leaf :=
  cbv zeta;
  lazymatch goal with
  | |- gives _ (_ ≫= _) _ => apply (gives_bind _ _ _ (λ _, True)); [gives_walk leaf|intros ? _; gives_walk leaf]
  | |- gives _ (mret _) _ => apply gives_ret; exact I
  | |- gives _ fault _ => apply gives_fault
  | |- gives _ (if _ then _ else _) _ => apply gives_if; gives_walk leaf
  | |- gives _ (match ?x with _ => _ end) _ => destruct x; gives_walk leaf
  | |- gives _ (ask _) _ => apply gives_ask; intros; exact I
  | |- gives _ (gets _) _ => apply gives_gets; intros; exact I
  | |- gives _ _ _ => leaf tt
  end.

Ltac keeps_leaf _ :=
  lazymatch goal with
  | |- gives _ (set_pcb _ _) _ => apply keeps_set_pcb; intros ?; split_and!; reflexivity
  | |- gives _ (on_lists _) _ => apply keeps_on_lists; intros ? ?; solve [eauto with keeps]
  | |- gives _ (zoom _ _ _) _ => apply keeps_zoom; intros ? ?; split_and!; reflexivity
  | |- gives _ (modify _) _ => apply keeps_modify; intros ?; split_and!; reflexivity
  | |- gives _ _ _ => solve [eauto with keeps]
  end.

(** Decides a computation that does not touch what is kept. *)
Ltac keeps_all := gives_walk keeps_leaf.

Section operations.
Context `{LayoutOk} (P : population).

Lemma keeps_task_switch t : gives (kept P) (task_switch t) (λ _, True).
Proof.
  unfold task_switch, inner_task_switch, switch_stacks, get_DIR, pcb, load_stack, store_stack, set_msr, set_cr3, write_cr3. keeps_all.
Qed.
Lemma keeps_update_state t d s : gives (kept P) (update_process_state_rr t d s) (λ _, True).
Proof. unfold update_process_state_rr. keeps_all. Qed.
#[local] Hint Resolve keeps_task_switch keeps_update_state : keeps.
Lemma keeps_sched_next : gives (kept P) sched_next_rr (λ _, True).
Proof. unfold sched_next_rr, list_empty_of, list_first_of, pcb. keeps_all. Qed.
#[local] Hint Resolve keeps_sched_next : keeps.
Lemma keeps_schedule : gives (kept P) schedule (λ _, True).
Proof. unfold schedule, update_sched_data_rr, needs_sched_rr, list_empty_of, get_quantum, pcb. keeps_all. Qed.
#[local] Hint Resolve keeps_schedule : keeps.

Lemma keeps_entry : gives (kept P) kernel_entry_stack (λ _, True).
Proof. unfold kernel_entry_stack. keeps_all. Qed.
Lemma keeps_clock : gives (kept P) clock_interrupt (λ _, True).
Proof. pose proof keeps_entry. unfold clock_interrupt, clk_routine. keeps_all. Qed.
Lemma keeps_sys_block : gives (kept P) sys_block (λ _, True).
Proof. unfold sys_block, pcb. keeps_all. Qed.
Lemma keeps_unblock_loop fuel pid head pos n : gives (kept P) (unblock_loop fuel pid head pos n) (λ _, True).
Proof.
  revert pos n. induction fuel as [|fuel IH]; intros pos n; cbn [unblock_loop]; unfold unblock_son, pcb; keeps_all.
Qed.
Lemma keeps_sys_unblock pid : gives (kept P) (sys_unblock pid) (λ _, True).
Proof. pose proof keeps_unblock_loop. unfold sys_unblock. keeps_all. Qed.
End operations.
