(* ===== verification/Steps.v ===== *)
(** * What the entries of the kernel do to the processes

    The clock, the keyboard and the system calls that neither make nor end
    processes keep the population and leave every process alive.  Those that
    share pages change one entry of a table and one count. *)

From S2P Require Import Prelude CInt ListHead Circular Memory Errno Console LibC Paging Descriptors Kernel Mm Space Sched Boot Interrupt System UserIO Process Shm Fork Exit Types Entries Population.
Import PTE PageTable.

(** ** Steps that leave the population as it is *)

Definition still_alive `{Layout} (P : population) (k : kernel) : Prop := ∃ run rq bq, alive P k run rq bq.

(** The scan codes the kernel can take: the releases of keys and those of its
    table.  A release has no character. *)
Definition scan_code (key : Z) : Prop := is_u8 key ∧ (0x80 ≤ key ∨ key < 98).
Definition key_char (key : Z) : option Z := if 0x80 <=? key then None else znth char_map key.

(** What the scheduler promises about it. *)
Definition placed `{Layout} (P : population) (k : kernel) : Prop :=
  ∃ run rq bq, sched_inv k run (unused P) rq bq (families P) ∧ user_of P run ++ rq ++ bq ≡ₚ members P ∧ idle_task k = keeper P.

Section steps.
Context `{LayoutOk} (P : population).
Implicit Types (k : kernel) (run : Z) (rq bq : list Z).

Lemma wp_gives {A} (I : kernel → Prop) (m : MK A) (R : A → Prop) (Q : A → kernel → Prop) k :
  gives I m R → I k → wp m Q k → wp m (λ a k', I k' ∧ Q a k') k.
Proof.
  intros Hm HI (a & k' & E & HQ)%wp_run. apply wp_run. exists a, k'. destruct (Hm _ _ _ E HI). done.
Qed.

Lemma wp_alive {A} (m : MK A) k run rq bq :
  alive P k run rq bq → gives typed m (λ _, True) → gives (kept P) m (λ _, True) →
  wp m (λ _ k', placed P k') k → wp m (λ _ k', still_alive P k') k.
Proof.
  intros [Hwf Hid Hi Hm Hk Ht] Gt Gk Hw. eapply wp_mono; [exact (wp_gives _ _ _ _ k Gt Ht (wp_gives _ _ _ _ k Gk Hk Hw))|].
  intros a k' (Ht' & Hk' & run' & rq' & bq' & Hi' & Hm' & Hid'). exists run', rq', bq'. by split.
Qed.

(** A step that touches nothing the invariants read. *)
Lemma alive_same k k' run rq bq :
  tasks k' = tasks k → lists k' = lists k → stacks k' = stacks k → esp k' = esp k → idle_task k' = idle_task k →
  tss_esp0 k' = tss_esp0 k → msrs k' = msrs k → cr3 k' = cr3 k → cr0 k' = cr0 k → ptes k' = ptes k →
  phys_mem k' = phys_mem k → shared_pages k' = shared_pages k → typed k' →
  alive P k run rq bq → alive P k' run rq bq.
Proof.
  intros Ht Hl Hs He Hid Htss Hm Hc3 Hc0 Hp Hph Hsh Hty [Hwf Hidk Hi Hmem Hk _]. split; [done|congruence| |done| |done].
  - apply (sched_inv_frame k); [by apply frame_fields|done..].
  - by apply (kept_same P k).
Qed.

(** Physical memory does not count. *)
Lemma alive_stored k fr run rq bq : alive P k run rq bq → alive P (set_frames fr k) run rq bq.
Proof. intros Ha. apply (alive_same k); [reflexivity..|by destruct (al_typed _ _ _ _ _ Ha)|exact Ha]. Qed.

Lemma alive_run k run rq bq : alive P k run rq bq → run ≠ keeper P → run ∈ members P ∧ run :: rq ++ bq ≡ₚ members P.
Proof.
  intros Ha Hne. pose proof (al_members _ _ _ _ _ Ha) as Hm. unfold user_of in Hm. rewrite bool_decide_false in Hm by done.
  split; [|done]. rewrite <- Hm. by left.
Qed.

Lemma alive_pcb k run rq bq : alive P k run rq bq → ∃ pc, tasks k !! run = Some pc ∧ is_u32 (quantum pc).
Proof.
  intros Ha. destruct (run_pcb _ _ _ _ _ _ (proj1 (al_inv _ _ _ _ _ Ha))) as [pc Hpc]. exists pc. split; [done|].
  exact (tp_quantum _ (ty_pcbs _ (al_typed _ _ _ _ _ Ha) _ _ Hpc)).
Qed.

Lemma alive_task k run rq bq t : alive P k run rq bq → t ∈ holders P → is_task t.
Proof.
  intros Ha Ht. pose proof (proj1 (al_inv _ _ _ _ _ Ha)) as Hp. eapply pre_task; [exact Hp|]. rewrite (al_idle _ _ _ _ _ Ha).
  apply elem_of_cons in Ht as [->|Ht]; [by left|]. rewrite <- (al_members _ _ _ _ _ Ha) in Ht. unfold user_of in Ht.
  rewrite !elem_of_app in Ht. rewrite !elem_of_app. destruct Ht as [Ht|Ht]; [|tauto].
  case_bool_decide; [by apply elem_of_nil in Ht|]. apply list_elem_of_singleton in Ht as ->. tauto.
Qed.

(** A user process in the kernel. *)
Lemma alive_process k run rq bq : alive P k run rq bq → run ≠ keeper P → user_process k run (memory P run).
Proof.
  intros Ha Hne. destruct (alive_run _ _ _ _ Ha Hne) as [Hin _]. pose proof (al_kept _ _ _ _ _ Ha) as Hk.
  pose proof (al_inv _ _ _ _ _ Ha) as (Hp & _ & _ & _ & q & Hq & Hc3). pose proof (kp_space _ _ Hk run Hin) as Hsp. split; [|done| |].
  - eapply alive_task; [done|]. by right.
  - split; [|apply Hk]. destruct (ps_space _ _ _ Hsp) as ((p & Hpp & Hd) & _). congruence.
  - by eapply current_run.
Qed.

Lemma step_entry k run rq bq : alive P k run rq bq → wp kernel_entry_stack (λ _ k', alive P k' run rq bq ∧ cbuff k' = cbuff k ∧ ptes k' = ptes k) k.
Proof.
  intros [Hwf Hid Hi Hm Hk Ht].
  assert (gives (λ k', cbuff k' = cbuff k ∧ ptes k' = ptes k) kernel_entry_stack (λ _, True)) as Hcb.
  { unfold kernel_entry_stack. gives_walk ltac:(fun _ => apply gives_modify; by intros). }
  eapply wp_mono.
  { exact (wp_gives _ _ _ _ k Hcb (conj eq_refl eq_refl) (wp_gives _ _ _ _ k gives_entry Ht (wp_gives _ _ _ _ k (keeps_entry P) Hk (entry_inv _ _ _ _ _ _ Hi)))). }
  intros [] k' (Hcb' & Ht' & Hk' & Hi' & _ & _ & Hid' & _). split; [|done]. split; try done. congruence.
Qed.

Lemma step_sysenter k run rq bq : alive P k run rq bq →
  wp sysenter (λ _ k', alive P k' run rq bq ∧ ∃ e, k' = set_esp e k) k.
Proof.
  intros [Hwf Hid Hi Hm Hk Ht]. pose proof Hi as (Hp & Hout & H1 & H2 & H3). unfold sysenter. kstep. eapply wp_ask; [exact H2|]. ksteps.
  split; [|by eexists]. split; [done|done| |done|by apply (kept_same P k)|by destruct Ht].
  split; [|done]. destruct Hp. split; try done. kcbn. unfold on_stack, stack_top, stack_slot, KERNEL_STACK_SIZE. cbn [fst]. lia.
Qed.

Lemma ready_not_idle k run rq bq next : alive P k run rq bq → next ∈ rq → next ≠ keeper P.
Proof.
  intros Ha Hin ->. pose proof (proj1 (p_idle _ _ _ _ _ _ (proj1 (al_inv _ _ _ _ _ Ha)))) as Hn. apply Hn.
  rewrite (al_idle _ _ _ _ _ Ha), !elem_of_app. tauto.
Qed.

Lemma step_clock k run rq bq : alive P k run rq bq → wp clock_interrupt (λ _ k', still_alive P k') k.
Proof.
  intros Ha. destruct (alive_pcb _ _ _ _ Ha) as (pc & Hpc & Hq). apply (wp_alive _ _ _ _ _ Ha).
  - unfold clock_interrupt. pose proof gives_entry. pose proof gives_clk. gives_all.
  - apply keeps_clock.
  - pose proof Ha as [_ Hid Hi Hm _ _]. eapply wp_mono; [exact (clock_step _ _ _ _ _ _ _ Hi Hpc Hq)|]. intros [] k' [_ Hk'].
    unfold placed. unfold user_of in Hm. rewrite Hid in Hk'. destruct rq as [|next rest].
    + destruct Hk' as (Hi' & _ & Hid' & _). by exists run, [], bq.
    + pose proof (ready_not_idle _ _ _ _ next Ha ltac:(by left)) as Hnext.
      destruct (_ || _); destruct Hk' as (Hi' & _ & Hid'); [|destruct Hid' as [Hid' _]].
      * exists next, (rest ++ if bool_decide (run = keeper P) then [] else [run]), bq. split; [done|]. split; [|congruence].
        rewrite <- Hm. unfold user_of. rewrite (bool_decide_false _ Hnext).
        clear. destruct (bool_decide _); cbn; solve_Permutation.
      * by exists run, (next :: rest), bq.
Qed.

Lemma step_key k run rq bq key : alive P k run rq bq → scan_code key →
  wp (kbd_routine key) (λ _ k', alive P k' run rq bq ∧
    Circ.contents (cbuff k') = take 31 (Circ.contents (cbuff k) ++ option_list (key_char key))) k.
Proof.
  intros Ha [Hk Hr]. pose proof (ty_keys _ (al_typed _ _ _ _ _ Ha)) as Hwf. pose proof (kbd_routine_run key k Hk Hwf) as Hw.
  pose proof (Circ.contents_lt (cbuff k)) as Hlen. unfold key_char.
  assert (wp (kbd_routine key) (λ _ k', k' = set_cbuff (cbuff k') k ∧ Circ.contents (cbuff k') =
    take 31 (Circ.contents (cbuff k) ++ option_list (if 0x80 <=? key then None else znth char_map key))) k) as Hw'.
  { destruct (0x80 <=? key) eqn:E.
    { apply wp_run. exists tt, k. split; [done|]. split; [by destruct k|]. cbn [option_list]. rewrite app_nil_r, take_ge; [done|lia]. }
    apply Z.leb_gt in E. destruct (Z.ltb_spec key 98); [|lia]. eapply wp_mono; [exact Hw|]. intros [] k' (c & -> & _ & Hc & Hcont).
    split; [exact Hc|]. rewrite Hcont. cbn [option_list]. destruct (Nat.ltb_spec (length (Circ.contents (cbuff k))) 31).
    - rewrite take_ge; [done|]. rewrite length_app. cbn. lia.
    - rewrite take_app_le by lia. by rewrite take_ge by lia. }
  eapply wp_mono; [exact (wp_gives _ _ _ _ k (gives_kbd key) (al_typed _ _ _ _ _ Ha) Hw')|]. intros [] k' (Ht & E & Hcont).
  split; [|exact Hcont]. clear Hcont. revert Ht. rewrite E. intros Ht. by apply (alive_same k).
Qed.

(** [sys_block], except when the quantum has expired and no process is ready: then
    the blocked process goes on running. *)
Lemma step_block k run rq bq pc : alive P k run rq bq → run ≠ keeper P → tasks k !! run = Some pc →
  pending_unblocks pc ≠ 0 ∨ ticks_since_last_switch k ≤ quantum pc ∨ rq ≠ [] →
  wp sys_block (λ _ k', still_alive P k') k.
Proof.
  intros Ha Hne Hpc Hok. destruct (alive_pcb _ _ _ _ Ha) as (pc' & Hpc' & Hq). assert (pc' = pc) as -> by congruence.
  apply (wp_alive _ _ _ _ _ Ha); [apply gives_sys_block|apply keeps_sys_block|].
  destruct (alive_run _ _ _ _ Ha Hne) as [_ Hm]. pose proof Ha as [_ Hid Hi _ _ _]. rewrite <- Hid in Hne.
  eapply wp_mono; [exact (sys_block_run _ _ _ _ _ _ _ Hi Hne Hpc Hq)|]. intros r k' ((_ & Hk') & Hid'). unfold placed.
  rewrite Hid in Hid', Hne. destruct (Z.eqb_spec (pending_unblocks pc) 0) as [E0|Hn0]; cbn [negb] in Hk'.
  - assert ((quantum pc <? ticks_since_last_switch k) && bool_decide (rq = []) = false) as Hb.
    { destruct Hok as [?|[Hle|Hrq]]; [done| |].
      - destruct (Z.ltb_spec (quantum pc) (ticks_since_last_switch k)); [lia|done].
      - rewrite (bool_decide_false (rq = [])) by done. by rewrite andb_false_r. }
    rewrite Hb in Hk'. destruct Hk' as (Hi' & _). destruct rq as [|next rest]; cbn [List.hd tail] in Hi'.
    + exists (idle_task k), [], (bq ++ [run]). split; [done|]. split; [|done]. rewrite <- Hm. unfold user_of.
      rewrite bool_decide_true by done. solve_Permutation.
    + exists next, rest, (bq ++ [run]). split; [done|]. split; [|done]. rewrite <- Hm. unfold user_of.
      rewrite bool_decide_false by exact (ready_not_idle _ _ _ _ next Ha ltac:(by left)). solve_Permutation.
  - destruct Hk' as (Hi' & _). exists run, rq, bq. split; [done|]. split; [|done]. rewrite <- Hm. unfold user_of. by rewrite bool_decide_false.
Qed.

(** The list of sons of a process of the population. *)
Lemma family_in u : u ∈ holders P → (sons u, bros <$> sons_of P u) ∈ families P.
Proof. intros Hu. unfold families, fams. apply list_elem_of_fmap. by exists u. Qed.

Lemma step_unblock k run rq bq pid : alive P k run rq bq → run ≠ keeper P → wp (sys_unblock pid) (λ _ k', still_alive P k') k.
Proof.
  intros Ha Hne. destruct (alive_run _ _ _ _ Ha Hne) as [Hin Hm].
  apply (wp_alive _ _ _ _ _ Ha); [apply gives_sys_unblock|apply keeps_sys_unblock|]. pose proof Ha as [Hwf Hid Hi _ _ _].
  assert (children k run (unused P) rq bq (families P) (sons_of P run)) as Hc.
  { split; [by apply family_in; right|]. intros c Hc. destruct (wf_sons _ Hwf run c ltac:(by right) Hc) as [Hcm Hcr]. rewrite <- Hm in Hcm.
    apply elem_of_cons in Hcm as [?|?]; done. }
  eapply wp_mono; [exact (sys_unblock_run _ _ _ _ _ _ _ pid Hi Hc)|]. intros r k' [Hid' Hk']. rewrite Hid in Hid'.
  assert (Hu : ∀ rq' bq', rq' ++ bq' ≡ₚ rq ++ bq → user_of P run ++ rq' ++ bq' ≡ₚ members P).
  { intros rq' bq' E. unfold user_of. rewrite bool_decide_false, E by done. exact Hm. }
  destruct (find_pid (tasks k) pid (sons_of P run)) as [c|].
  - destruct Hk' as (_ & p & _ & _ & Hk'). destruct (bool_decide _).
    + destruct Hk' as (b1 & b2 & -> & Hi' & _). exists run, (rq ++ [c]), (b1 ++ b2). split; [done|]. split; [|done]. apply Hu. solve_Permutation.
    + destruct Hk' as (Hi' & _). exists run, rq, bq. split; [done|]. split; [|done]. by apply Hu.
  - destruct Hk' as [_ ->]. exists run, rq, bq. split; [done|]. split; [|done]. by apply Hu.
Qed.

(** The calls that use the screen, the keyboard and the memory of the process. *)
Lemma step_screen k run rq bq {A} (m : M console A) :
  alive P k run rq bq → (∀ c, is_Some (m c)) → gives typed (zoom cons set_cons m) (λ _, True) →
  wp (zoom cons set_cons m) (λ _ k', still_alive P k') k.
Proof.
  intros Ha Hm Hg. assert (wp (zoom cons set_cons m) (λ _ k', k' = set_cons (cons k') k) k) as Hw.
  { apply wp_zoom. unfold wp. by destruct (Hm (cons k)) as [[x c] ->]. }
  eapply wp_mono; [exact (wp_gives _ _ _ _ k Hg (al_typed _ _ _ _ _ Ha) Hw)|]. intros a k' (Ht & E).
  exists run, rq, bq. revert Ht. rewrite E. intros Ht. by apply (alive_same k).
Qed.

Lemma step_write k run rq bq fd b n : alive P k run rq bq → run ≠ keeper P →
  is_u32 b → is_s32 n → n < 0 ∨ b + n ≤ USER_LAST_PAGE * 4096 → wp (sys_write fd b n) (λ _ k', still_alive P k') k.
Proof.
  intros Ha Hne Hb Hn Hend. pose proof (alive_process _ _ _ _ Ha Hne) as Hup. pose proof (al_typed _ _ _ _ _ Ha) as Hty.
  pose proof (sys_write_run _ _ _ fd b n Hup (ty_screen _ Hty) Hb Hn Hend) as Hw.
  eapply wp_mono; [exact (wp_gives _ _ _ _ k (gives_sys_write fd b n) Hty Hw)|]. intros r k' (Ht & Hk'). exists run, rq, bq.
  destruct (negb _); [by destruct Hk' as [_ ->]|]. destruct (n <? 0); [by destruct Hk' as [_ ->]|].
  destruct (b <? _); [by destruct Hk' as [_ ->]|]. destruct Hk' as (_ & fr & c & E & _). rewrite E in *. by apply (alive_same k).
Qed.

Lemma step_read k run rq bq b n : alive P k run rq bq → run ≠ keeper P →
  is_u32 b → 0 ≤ n < 2 ^ 31 → b + n ≤ USER_LAST_PAGE * 4096 → wp (sys_read b n) (λ _ k', still_alive P k') k.
Proof.
  intros Ha Hne Hb Hn Hend. pose proof (alive_process _ _ _ _ Ha Hne) as Hup. pose proof (al_typed _ _ _ _ _ Ha) as Hty.
  pose proof (sys_read_run _ _ _ b n Hup (ty_keys _ Hty) Hb Hn Hend) as Hw.
  eapply wp_mono; [exact (wp_gives _ _ _ _ k (gives_sys_read b n) Hty Hw)|]. intros r k' (Ht & Hk'). exists run, rq, bq.
  destruct (b <? _); [by destruct Hk' as [_ ->]|]. destruct Hk' as (m & _ & _ & _ & _ & _ & _ & fr & E). revert Ht. rewrite E. intros Ht.
  by apply (alive_same k).
Qed.

(** The counts of a family. *)
Lemma step_numsons k run rq bq : alive P k run rq bq → run ≠ keeper P →
  wp sys_numsons (λ r k', r = Z.of_nat (length (sons_of P run)) - 1 ∧ k' = k) k.
Proof.
  intros Ha Hne. destruct (alive_run _ _ _ _ Ha Hne) as [Hin _]. pose proof (alive_process _ _ _ _ Ha Hne) as Hup.
  pose proof (al_inv _ _ _ _ _ Ha) as Hi. unfold sys_numsons. kstep. kstep. rewrite (up_current _ _ _ Hup). kstep. eapply wp_ask.
  { apply list_size_ring.
    - eapply rings_ring; [apply Hi|]. unfold queues. do 3 right. apply family_in. by right.
    - destruct (task_bounds run (up_task _ _ _ Hup)). unfold sons, NULL. lia. }
  apply wp_ret. by rewrite length_fmap.
Qed.

(** The father is not in the count of [sys_numbros], nor the process. *)
Lemma step_numbros k run rq bq father b1 b2 : alive P k run rq bq → run ≠ keeper P →
  father ∈ holders P → sons_of P father = b1 ++ run :: b2 →
  wp sys_numbros (λ r k', r = Z.of_nat (length (b1 ++ b2)) ∧ k' = k) k.
Proof.
  intros Ha Hne Hf Hb. pose proof (alive_process _ _ _ _ Ha Hne) as Hup.
  pose proof (al_inv _ _ _ _ _ Ha) as Hi. unfold sys_numbros. kstep. kstep. rewrite (up_current _ _ _ Hup). kstep. eapply wp_ask.
  { apply list_size_ring; [|destruct (task_bounds run (up_task _ _ _ Hup)); unfold bros, NULL; lia].
    apply (ring_rotate _ (sons father) (bros <$> b1) (bros run) (bros <$> b2)). change (bros run :: (bros <$> b2)) with (bros <$> (run :: b2)).
    rewrite <- fmap_app, <- Hb. eapply rings_ring; [apply Hi|]. unfold queues. do 3 right. by apply family_in. }
  apply wp_ret. rewrite length_app. cbn [length]. rewrite !length_fmap, length_app. split; [lia|done].
Qed.

(** The first process has no father: its anchor in the list of brothers is never
    initialised and the count reads the null pointer. *)
Lemma numbros_of_first_faults k t :
  current k = t → bros t ≠ NULL → lists k !! bros t = Some (mk_list_head NULL NULL) → lists k !! NULL = None →
  sys_numbros k = None.
Proof.
  intros Hc Hn Hb Hnull. unfold sys_numbros, mbind at 1, M_bind, gets. rewrite Hc. unfold mbind, M_bind, ask, list_size, list_empty.
  destruct (Z.eqb_spec (bros t) NULL); [done|]. unfold load_next. rewrite Hb. cbn [fmap option_fmap option_map lh_next mbind option_bind].
  destruct (Z.eqb_spec NULL (bros t)); [congruence|]. cbn [list_size_loop].
  destruct (Z.eqb_spec NULL (bros t)); [congruence|]. unfold load_next. by rewrite Hnull.
Qed.
End steps.

(** ** Shared pages *)

Section shared.
Context `{LayoutOk} (P : population).
Implicit Types (k : kernel) (run : Z) (rq bq : list Z).

(** The array of shared pages with other counts. *)
Definition same_frames (l l' : list SharedPage) : Prop := frame <$> l' = frame <$> l.

Lemma same_frames_znth l l' id s' : same_frames l l' → znth l' id = Some s' → ∃ s, znth l id = Some s ∧ frame s' = frame s.
Proof.
  unfold same_frames, znth. intros E Hs. destruct (id <? 0); [done|].
  assert ((frame <$> l') !! Z.to_nat id = Some (frame s')) as Hl by (by rewrite list_lookup_fmap, Hs).
  rewrite E, list_lookup_fmap in Hl. destruct (l !! Z.to_nat id) as [s|]; [|done]. injection Hl as Hl. by exists s.
Qed.

Lemma same_frames_insert l id s s' : znth l id = Some s → frame s' = frame s → same_frames l (<[Z.to_nat id := s']> l).
Proof.
  intros Hs E. unfold same_frames. rewrite list_fmap_insert, E. apply list_insert_id. rewrite list_lookup_fmap.
  unfold znth in Hs. destruct (id <? 0); [done|]. by rewrite Hs.
Qed.

(** The entry of a page above the user area of one process, and the counts. *)
Lemma kept_entry k t p e l : (∀ u, u ∈ members P → is_task u) → is_task t → USER_LAST_PAGE ≤ p < TOTAL_PAGES → same_frames (shared_pages k) l →
  e = 0 ∨ (∃ id s, znth (shared_pages k) id = Some s ∧ e = ss_entry (frame s)) →
  kept P k → kept P (set_shared_pages l (set_ptes (<[slot (pt_of t) p := e]> (ptes k)) k)).
Proof.
  intros Hall Ht Hp Hl He Hk. pose proof Hk as [H1 H2 H3 H4 H5 H6 H7 H8 H9]. set (k' := set_shared_pages _ _).
  change USER_LAST_PAGE with 284 in Hp. assert (Hp' : 0 ≤ p < TOTAL_PAGES) by lia.
  assert (Hdir : ∀ u, is_task u → ptes k' !! slot (dir_of u) 0 = ptes k !! slot (dir_of u) 0).
  { intros u Hu. unfold k'. kcbn. rewrite lookup_insert_ne; [done|]. intros E. by apply (dir_pt_slot u t p). }
  assert (Hslot : ∀ u i, is_task u → 0 ≤ i < TOTAL_PAGES → u ≠ t ∨ i ≠ p → ptes k' !! slot (pt_of u) i = ptes k !! slot (pt_of u) i).
  { intros u i Hu Hi Hne. unfold k'. kcbn. rewrite lookup_insert_ne; [done|]. intros [E1 E2]%pt_slot_inj; [|done..]. destruct Hne; congruence. }
  assert (Hsome : ∀ u i, is_task u → 0 ≤ i < TOTAL_PAGES → is_Some (ptes k' !! slot (pt_of u) i)).
  { intros u i Hu Hi. unfold k'. kcbn. rewrite lookup_insert. case_decide; [done|]. by apply H3. }
  assert (Hold : ∀ id s, znth (shared_pages k) id = Some s → ∃ s', znth l id = Some s' ∧ frame s' = frame s).
  { intros id s Hs. destruct (same_frames_znth l (shared_pages k) id s) as (s' & ? & ?); [by unfold same_frames; rewrite Hl|done|by exists s']. }
  split; try done.
  - intros u Hu. pose proof (Hall u Hu) as Hut.
    apply (proc_space_above k); [done|by apply Hdir| | |by apply H2].
    + change USER_LAST_PAGE with 284. intros i Hi. apply Hslot; [done|unfold TOTAL_PAGES; lia|lia].
    + change USER_LAST_PAGE with 284. intros i Hi. apply Hsome; [done|lia].
  - intros u Hu. split; [by rewrite Hdir; [apply H3|]|]. intros i Hi. by apply Hsome.
  - intros u i Hu Hi. change USER_LAST_PAGE with 284 in Hi.
    assert (Hsh : ptes k !! slot (pt_of u) i = Some 0 ∨ (∃ id s, znth (shared_pages k) id = Some s ∧ ptes k !! slot (pt_of u) i = Some (ss_entry (frame s))) →
      ptes k' !! slot (pt_of u) i = ptes k !! slot (pt_of u) i → ptes k' !! slot (pt_of u) i = Some 0 ∨
      ∃ id s, znth l id = Some s ∧ ptes k' !! slot (pt_of u) i = Some (ss_entry (frame s))).
    { intros [E|(id & s & Hs & E)] E'; rewrite E', E; [by left|]. right. destruct (Hold id s Hs) as (s' & Hs' & Es). exists id, s'. by rewrite Es. }
    destruct (decide (u = t ∧ i = p)) as [[-> ->]|Hne].
    + assert (ptes k' !! slot (pt_of t) p = Some e) as -> by apply lookup_insert_eq.
      destruct He as [->|(id & s & Hs & ->)]; [by left|]. right. destruct (Hold id s Hs) as (s' & Hs' & Es). exists id, s'. by rewrite Es.
    + apply Hsh; [apply H4; [done|change USER_LAST_PAGE with 284; lia]|]. apply Hslot; [done|lia|]. destruct (decide (u = t)); [right; tauto|by left].
  - destruct H6 as [S1 S2 S3]. assert (length l = length (shared_pages k)) as Hlen by (rewrite <- (length_fmap frame l), Hl; by rewrite length_fmap).
    split; [exact (eq_trans Hlen S1)| |].
    + intros id s (s0 & Hs0 & ->)%(same_frames_znth _ _ _ _ Hl). by eapply S2.
    + intros i j s s' (s0 & Hs0 & ->)%(same_frames_znth _ _ _ _ Hl) (s1 & Hs1 & ->)%(same_frames_znth _ _ _ _ Hl). by apply S3.
  - intros id s (s0 & Hs0 & ->)%(same_frames_znth _ _ _ _ Hl). by eapply H8.
Qed.
Lemma alive_entry k run rq bq t p e l : is_task t → USER_LAST_PAGE ≤ p < TOTAL_PAGES → same_frames (shared_pages k) l →
  e = 0 ∨ (∃ id s, znth (shared_pages k) id = Some s ∧ e = ss_entry (frame s)) →
  alive P k run rq bq → typed (set_shared_pages l (set_ptes (<[slot (pt_of t) p := e]> (ptes k)) k)) →
  alive P (set_shared_pages l (set_ptes (<[slot (pt_of t) p := e]> (ptes k)) k)) run rq bq.
Proof.
  intros Ht Hp Hl He Ha Hty. pose proof Ha as [Hwf Hid Hi Hm Hk _]. split; [done|exact Hid| |done| |done].
  - apply (sched_inv_frame k); [by apply frame_fields|reflexivity..|exact Hi].
  - apply kept_entry; try done. intros u Hu. eapply alive_task; [exact Ha|by right].
Qed.

(** The pages below the user area and its own are in use. *)
Lemma used_below k t ufr p : proc_space k t ufr → 1 ≤ p < USER_LAST_PAGE → page_used k t p.
Proof.
  intros Hs Hp. change USER_LAST_PAGE with 284 in Hp. destruct (Z.ltb_spec p 256) as [Hlt|Hge].
  - exists (kernel_table p). split; [apply Hs; unfold NUM_PAG_KERNEL; lia|]. intros E.
    destruct (kernel_table_lookup p) as [Hpr _]; [unfold TOTAL_PAGES; lia|]. rewrite E in Hpr. unfold NUM_PAG_KERNEL in Hpr.
    destruct (Z.leb_spec 1 p); [|lia]. destruct (Z.ltb_spec p 256); [done|lia].
  - assert (USER_FIRST_PAGE ≤ p < USER_LAST_PAGE) as Hu by (change USER_FIRST_PAGE with 256; change USER_LAST_PAGE with 284; lia).
    destruct (user_page_entry _ _ _ _ Hs Hu) as (e & He & _ & _ & _ & Hnz). by exists e.
Qed.

Lemma chosen_above k t ufr addr p : proc_space k t ufr → 0 ≤ addr < 2 ^ 22 → addr mod 4096 = 0 → chosen k t addr p → USER_LAST_PAGE ≤ p < TOTAL_PAGES.
Proof.
  intros Hs Ha Hal (Hp & Hfree & Hc). split; [|apply Hp].
  assert (first_free k t p → USER_LAST_PAGE ≤ p) as Hff by (intros [([? _] & _)|[-> _]]; [done|lia]).
  destruct (Z.eqb_spec addr 0) as [->|Hne]; [by apply Hff|]. cbn [orb] in Hc.
  destruct (negb _); [by apply Hff|]. destruct (decide (USER_LAST_PAGE ≤ p)) as [|Hlt]; [done|]. exfalso. apply Hfree, (used_below k t ufr); [done|].
  change USER_LAST_PAGE with 284 in *. Z.div_mod_to_equations; lia.
Qed.

Lemma alive_attached k run rq bq id addr p s : alive P k run rq bq → run ≠ keeper P → 0 ≤ addr < 2 ^ 22 → 0 ≤ id ≤ 9 → addr mod 4096 = 0 →
  chosen k run addr p → znth (shared_pages k) id = Some s → typed (attached k run id p s) → alive P (attached k run id p s) run rq bq.
Proof.
  intros Ha Hne Haddr Hid Hal Hch Hs Hty. pose proof (alive_process _ _ _ _ _ Ha Hne) as Hup. unfold attached in *.
  assert (put_cr3 (dir_of run) (set_ptes (<[slot (pt_of run) p := ss_entry (frame s)]> (ptes k)) k) =
    set_ptes (<[slot (pt_of run) p := ss_entry (frame s)]> (ptes k)) k) as E by (apply put_cr3_same; exact (proj1 (up_running _ _ _ Hup))).
  rewrite E in *. apply alive_entry; [apply Hup|by apply (chosen_above k run (memory P run) addr); [apply Hup|..]| |right; by exists id, s|done|done].
  by eapply same_frames_insert.
Qed.

Lemma step_shmat k run rq bq id addr : alive P k run rq bq → run ≠ keeper P → 0 ≤ addr < 2 ^ 22 →
  wp (sys_shmat id addr) (λ _ k', still_alive P k') k.
Proof.
  intros Ha Hne Haddr. pose proof (alive_process _ _ _ _ _ Ha Hne) as Hup. pose proof (al_typed _ _ _ _ _ Ha) as Hty.
  pose proof (kp_shared _ _ (al_kept _ _ _ _ _ Ha)) as Hok.
  assert (wp (sys_shmat id addr) (λ _ k', typed k' → still_alive P k') k) as Hw.
  { apply (sys_shmat_run k run (memory P run)); [done|done|done|by exists run, rq, bq..|].
    intros p s Hid Hal Hch Hs Hty'. exists run, rq, bq. by apply (alive_attached _ _ _ _ _ addr). }
  eapply wp_mono; [exact (wp_gives _ _ _ _ k (gives_sys_shmat id addr) Hty Hw)|]. intros r k' [Ht Hk']. by apply Hk'.
Qed.

Lemma alive_shared k run rq bq l : same_frames (shared_pages k) l → typed (set_shared_pages l k) →
  alive P k run rq bq → alive P (set_shared_pages l k) run rq bq.
Proof.
  intros Hl Hty Ha. pose proof Ha as [_ _ Hi _ Hk _].
  assert (is_task run) as Ht by (eapply pre_task; [exact (proj1 Hi)|]; by right; left).
  destruct (proj2 (kp_tables _ _ Hk run Ht) 284 ltac:(unfold TOTAL_PAGES; lia)) as [e He].
  assert (set_ptes (<[slot (pt_of run) 284 := e]> (ptes k)) k = k) as E by (rewrite insert_id by done; by destruct k).
  rewrite <- E in Hty |- * at 1. apply alive_entry; try done.
  destruct (kp_above _ _ Hk run 284 Ht) as [E'|(id & s & Hs & E')]; [unfold TOTAL_PAGES; change USER_LAST_PAGE with 284; lia| |].
  - left. congruence.
  - right. exists id, s. split; [done|congruence].
Qed.

Lemma step_shmrm k run rq bq id : alive P k run rq bq → wp (sys_shmrm id) (λ _ k', still_alive P k') k.
Proof.
  intros Ha. pose proof (kp_shared _ _ (al_kept _ _ _ _ _ Ha)) as Hok.
  assert (wp (sys_shmrm id) (λ _ k', typed k' → still_alive P k') k) as Hw.
  { unfold sys_shmrm. destruct ((id <? 0) || (9 <? id)) eqn:Hid; [apply wp_ret; by exists run, rq, bq|].
    apply orb_false_iff in Hid as [Hid1%Z.ltb_ge Hid2%Z.ltb_ge].
    destruct (znth_in_range (shared_pages k) id) as [s Hs]; [rewrite (so_pages _ Hok); lia|].
    apply wp_bind. eapply wp_set_shared; [exact Hs|]. apply wp_ret. intros Hty. exists run, rq, bq.
    apply alive_shared; [by eapply same_frames_insert|done|done]. }
  eapply wp_mono; [exact (wp_gives _ _ _ _ k (gives_sys_shmrm id) (al_typed _ _ _ _ _ Ha) Hw)|]. intros r k' [Ht Hk']. by apply Hk'.
Qed.

(** No shared page is at the frame. *)
Lemma wp_not_shared f (Q : Z → kernel → Prop) k :
  shm_ok k → (∀ id s, znth (shared_pages k) id = Some s → frame s ≠ f) → Q 0 k → wp (is_frame_shared f) Q k.
Proof.
  intros Hok Hno HQ. apply wp_is_frame_shared; [apply Hok|]. intros i [(s & Hs & E)|[-> _]]; [|exact HQ]. exfalso. apply (Hno i s Hs).
  pose proof (so_frames _ Hok _ _ Hs) as Hf. unfold NUM_PAG_KERNEL, TOTAL_PAGES in Hf. rewrite u32_small in E; [done|wrap_lia].
Qed.

(** The page of number [id] is. *)
Lemma wp_shared_frame id s (Q : Z → kernel → Prop) k :
  shm_ok k → znth (shared_pages k) id = Some s → Q id k → wp (is_frame_shared (frame s)) Q k.
Proof.
  intros Hok Hs HQ. apply wp_is_frame_shared; [apply Hok|]. intros i Hi.
  assert (Hsm : ∀ j s', znth (shared_pages k) j = Some s' → u32 (frame s') = frame s').
  { intros j s' Hj. pose proof (so_frames _ Hok _ _ Hj). apply u32_small. unfold NUM_PAG_KERNEL, TOTAL_PAGES in *. wrap_lia. }
  destruct Hi as [(s' & Hs' & E)|[_ Hno]]; [|by destruct (Hno id s Hs (Hsm _ _ Hs))].
  rewrite (Hsm _ _ Hs') in E. by rewrite (so_inj _ Hok i id s' s Hs' Hs E).
Qed.

(** What is behind a page of the process: one of the shared pages, or a frame that
    is not shared. *)
Lemma page_kinds k run rq bq p e : alive P k run rq bq → run ≠ keeper P → 1 ≤ p < TOTAL_PAGES →
  ptes k !! slot (pt_of run) p = Some e → e ≠ 0 →
  (USER_LAST_PAGE ≤ p ∧ ∃ id s, znth (shared_pages k) id = Some s ∧ e = ss_entry (frame s)) ∨
  ∀ id s, znth (shared_pages k) id = Some s → frame s ≠ pbase_addr e.
Proof.
  intros Ha Hne Hp He Hnz. pose proof (alive_process _ _ _ _ _ Ha Hne) as [Ht Hs _ _]. pose proof (al_kept _ _ _ _ _ Ha) as Hk.
  destruct (alive_run _ _ _ _ _ Ha Hne) as [Hin _]. destruct (Z.ltb_spec p USER_LAST_PAGE) as [Hlt|Hge].
  2: { left. split; [done|]. destruct (kp_above _ _ Hk run p Ht ltac:(lia)) as [E|(id & s & Hsh & E)]; [congruence|]. exists id, s. split; [done|congruence]. }
  right. intros id s Hsh E. change USER_LAST_PAGE with 284 in Hlt. destruct (Z.ltb_spec p USER_FIRST_PAGE) as [Hlow|Hup].
  - change USER_FIRST_PAGE with 256 in Hlow. pose proof (so_frames _ (kp_shared _ _ Hk) _ _ Hsh) as Hf.
    rewrite (ps_kernel _ _ _ Hs) in He by (unfold NUM_PAG_KERNEL; lia). injection He as <-.
    destruct (kernel_table_lookup p) as [_ Hb]; [unfold TOTAL_PAGES in *; lia|]. rewrite Hb in E by (unfold NUM_PAG_KERNEL; lia). unfold NUM_PAG_KERNEL in Hf. lia.
  - assert (user_page p) as Hu by (split; [done|change USER_LAST_PAGE with 284; lia]).
    destruct (user_page_entry _ _ _ _ Hs Hu) as (e' & He' & _ & Hb & _). assert (e' = e) as -> by congruence. rewrite Hb in E.
    destruct (kp_apart _ _ Hk id s Hsh) as [_ Hap]. by apply (Hap run p Hin Hu).
Qed.

(** Clearing the page, which is mapped, changes the frame behind it only. *)
Lemma wp_zero_page k t ufr p f (Q : unit → kernel → Prop) :
  user_process k t ufr → 0 ≤ p < TOTAL_PAGES → 0 ≤ f < 2 ^ 20 → ptes k !! slot (pt_of t) p = Some (ss_entry f) →
  (∀ fr, (∀ z, z / 4096 ≠ f → pread (set_frames fr k) z = pread k z) → Q tt (set_frames fr k)) →
  wp (lift (zero_out (p * 4096) PAGE_SIZE)) Q k.
Proof.
  intros Hup Hp Hf He HQ. unfold TOTAL_PAGES in Hp.
  assert (Htr : ∀ i, 0 ≤ i < 4096 → resolve k (u32 (p * 4096 + i)) = Some (f * 4096 + i)).
  { intros i Hi. rewrite u32_small by wrap_lia. cbn [resolve PagedMem].
    rewrite (translate_ss_page k t p f); [|apply Hup|apply (up_space _ _ _ Hup)|apply Hup|done|done|done|lia].
    f_equal. Z.div_mod_to_equations; lia. }
  destruct (zero_out_spec (p * 4096) PAGE_SIZE k) as (k' & Hz & _ & _ & Hout); [wrap_lia|done| |].
  { intros i Hi. unfold PAGE_SIZE in Hi. rewrite Htr by done. eauto. }
  destruct (zero_out_frames _ _ _ _ Hz) as [fr ->]. eapply wp_lift; [exact Hz|]. apply HQ. intros z Hz'. apply Hout.
  intros i Hi. unfold PAGE_SIZE in Hi. rewrite Htr by done. intros [= <-]. apply Hz'. Z.div_mod_to_equations; lia.
Qed.

(** The bytes that are in no shared page. *)
Definition unshared_same k k' : Prop :=
  ∀ z, (∀ id s, znth (shared_pages k) id = Some s → z / 4096 ≠ frame s) → pread k' z = pread k z.

Lemma step_shmdt k run rq bq addr : alive P k run rq bq → run ≠ keeper P → 0 ≤ addr < 2 ^ 22 →
  wp (sys_shmdt addr) (λ _ k', still_alive P k' ∧ unshared_same k k') k.
Proof.
  intros Ha Hne Haddr. pose proof (alive_process _ _ _ _ _ Ha Hne) as Hup. pose proof (al_typed _ _ _ _ _ Ha) as Hty.
  pose proof Hup as [Ht Hs Hr Hc]. pose proof (kp_shared _ _ (al_kept _ _ _ _ _ Ha)) as Hok. assert (Hsp := ps_space _ _ _ Hs).
  assert (typed k → still_alive P k ∧ unshared_same k k) as Hsame by (intros _; split; [by exists run, rq, bq|by intros z _]).
  assert (wp (sys_shmdt addr) (λ _ k', typed k' → still_alive P k' ∧ unshared_same k k') k) as Hw.
  2: { eapply wp_mono; [exact (wp_gives _ _ _ _ k (gives_sys_shmdt addr) Hty Hw)|]. intros r k' [Ht' Hk']. by apply Hk'. }
  unfold sys_shmdt. change NULL with 0. destruct (Z.eqb_spec addr 0) as [|Hn0]; [by apply wp_ret|].
  change PAGE_SIZE with 4096 at 1. destruct (Z.eqb_spec (addr mod 4096) 0) as [Hal|Hal]; cbn [negb]; [|by apply wp_ret].
  change (2 ^ 22) with 4194304 in Haddr.
  assert (∃ p, addr = p * 4096 ∧ 1 ≤ p < TOTAL_PAGES) as (p & -> & Hp).
  { exists (addr / 4096). unfold TOTAL_PAGES. Z.div_mod_to_equations; lia. }
  rewrite Z.shiftr_div_pow2 by lia. change (2 ^ 12) with 4096. rewrite Z.div_mul by lia. cbv zeta.
  destruct (proj2 (proj2 Hsp) p ltac:(unfold TOTAL_PAGES in *; lia)) as [e He].
  apply wp_bind, wp_gets. rewrite Hc. apply wp_bind, wp_get_PT; [done..|].
  apply wp_bind. eapply wp_ask; [unfold is_logic_page_free, load_pte; by rewrite He|]. destruct (Z.eqb_spec e 0) as [|Hnz]; [by apply wp_ret|].
  apply wp_bind. eapply wp_ask; [unfold get_frame, load_pte; by rewrite He|].
  destruct (page_kinds _ _ _ _ _ _ Ha Hne Hp He Hnz) as [(Hge & id & s & Hsh & ->)|Hno].
  2: { apply wp_bind, wp_not_shared; [done|exact Hno|]. by apply wp_ret. }
  pose proof (so_frames _ Hok _ _ Hsh) as Hf. unfold NUM_PAG_KERNEL, TOTAL_PAGES in Hf.
  assert (Hf20 : 0 ≤ frame s < 2 ^ 20) by (change (2 ^ 20) with 1048576; lia). destruct (ss_entry_fields (frame s) Hf20) as (-> & _).
  apply wp_bind. apply (wp_shared_frame id s); [done..|]. destruct (Z.eqb_spec id 0); cbn [negb]; [by apply wp_ret|].
  apply wp_bind. eapply wp_set_shared; [exact Hsh|]. cbv beta. set (s1 := with_num_refs (s32 (num_refs s - 1)) s). set (l := <[Z.to_nat id := s1]> (shared_pages k)).
  apply wp_bind. eapply wp_shared; [unfold l; kcbn; rewrite znth_insert by (by eapply znth_Some_range); by rewrite Z.eqb_refl|].
  assert (Hend : ∀ fr, (∀ z, z / 4096 ≠ frame s → pread (set_frames fr k) z = pread k z) →
      wp (on_ptes (del_ss_pag (pt_of run) p) ;; c ← gets current; d ← get_DIR c; set_cr3 d ;; mret 0)
        (λ _ k', typed k' → still_alive P k' ∧ unshared_same k k') (set_frames fr (set_shared_pages l k))).
  { intros fr Hfr. kstep. eapply wp_on_ptes; [apply del_ss_pag_effect; exact (mk_is_Some _ _ He)|].
    apply wp_bind, wp_gets. change (current _) with (current k) at 1. rewrite Hc. apply wp_bind, wp_get_DIR.
    { apply (has_space_insert (set_frames fr (set_shared_pages l k)) run run); [done|done|unfold TOTAL_PAGES in *; lia|exact Hsp]. }
    unfold set_cr3. ksteps. rewrite put_cr3_same by exact (proj1 Hr). intros Hty'.
    split; [|intros z Hz; apply Hfr, (Hz id s Hsh)]. exists run, rq, bq.
    apply (alive_same P (set_shared_pages l (set_ptes (<[slot (pt_of run) p := 0]> (ptes k)) k))); [reflexivity..|exact Hty'|].
    apply alive_entry; [done|lia|by eapply same_frames_insert|by left|done|]. destruct Hty'. by split. }
  apply wp_bind. destruct ((num_refs s1 =? 0) && (to_clear s1 =? 1)).
  - apply (wp_zero_page _ run (memory P run) p (frame s)); [|unfold TOTAL_PAGES in *; lia|done|exact He|exact Hend].
    destruct Hup. split; try done. by apply (proc_space_same k).
  - apply wp_ret. exact (Hend (frames k) (λ z _, eq_refl)).
Qed.
End shared.
