(* ===== verification/CodeWrites.v ===== *)
(** * Writes of a process to its code

    The code pages of a process are mapped without the right to write.  Its first
    write to one of them is a page fault, which [pgf_routine] takes for a page
    with one owner: it grants the write and every process stays alive. *)

From S2P Require Import Prelude CInt ListHead Circular Memory Errno Console LibC Paging Descriptors Kernel Mm Space Sched Boot Interrupt System UserIO Process Shm Fork Exit Fault Types Entries Population Steps.
Import PTE PageTable.

Definition code_page (p : Z) : Prop := PAG_LOG_INIT_CODE ≤ p < USER_LAST_PAGE.

(** The process [run] has written to the address [cr2] of its code, which is still
    read-only; [buff] and [after] are what the routine finds on its stack and
    behind its message. *)
Record code_write `{Layout} (k : kernel) (run cr2 : Z) (buff after : list Z) : Prop := {
  cw_page : code_page (cr2 / 4096);
  cw_entry : ∃ e, ptes k !! slot (pt_of run) (cr2 / 4096) = Some e ∧ rw e = 0;
  cw_stack : (9 ≤ length buff)%nat ∧ (8 ≤ length after)%nat;
}.

(** The table of the process with the right to write the page in the frame [f]. *)
Definition granted `{Layout} (run p f : Z) (k : kernel) : kernel := set_ptes (<[slot (pt_of run) p := ss_entry f]> (ptes k)) k.

Section writes.
Context `{LayoutOk} (P : population).
Implicit Types (k : kernel) (run t p e : Z) (rq bq : list Z).

Lemma code_user_page p : code_page p → user_page p ∧ 0 ≤ p < TOTAL_PAGES.
Proof.
  unfold code_page, user_page. change PAG_LOG_INIT_CODE with 276. change USER_FIRST_PAGE with 256. change USER_LAST_PAGE with 284.
  change TOTAL_PAGES with 1024. lia.
Qed.

Lemma code_write_same k k' run cr2 buff after : ptes k' = ptes k → code_write k run cr2 buff after → code_write k' run cr2 buff after.
Proof. intros E [H1 H2 H3]. split; [done| |done]. by rewrite E. Qed.

(** The address space with another entry of a user page for the same frame. *)
Lemma proc_space_remap k t u ufr p e : is_task t → is_task u → user_page p → (u = t → user_mapping p (ufr p) e) →
  proc_space k u ufr → proc_space (set_ptes (<[slot (pt_of t) p := e]> (ptes k)) k) u ufr.
Proof.
  intros Ht Hu Hp He [Hs Hker Hus Hfr Hinj]. unfold user_page in Hp. change USER_FIRST_PAGE with 256 in *. change USER_LAST_PAGE with 284 in *.
  split; [apply has_space_insert; done || (unfold TOTAL_PAGES; lia)| | |done|done]; kcbn.
  - intros i Hi. unfold NUM_PAG_KERNEL in *. rewrite lookup_insert_ne; [by apply Hker|].
    intros [_ E]%pt_slot_inj; [lia|done|done|unfold TOTAL_PAGES; lia|unfold TOTAL_PAGES; lia].
  - intros i Hi. destruct (decide (u = t ∧ i = p)) as [[-> ->]|Hne]; [exists e; split; [apply lookup_insert_eq|auto]|].
    rewrite lookup_insert_ne; [by apply Hus|]. change USER_FIRST_PAGE with 256 in Hi. change USER_LAST_PAGE with 284 in Hi.
    intros [-> ->]%pt_slot_inj; [tauto|done|done|unfold TOTAL_PAGES; lia|unfold TOTAL_PAGES; lia].
Qed.

Lemma kept_granted k t p : (∀ u, u ∈ members P → is_task u) → t ∈ members P → user_page p →
  kept P k → kept P (granted t p (memory P t p) k).
Proof.
  intros Hall Ht Hp [H1 H2 H3 H4 H5 H6 H7 H8 H9 H10]. pose proof (Hall t Ht) as Htt.
  assert (0 ≤ p < TOTAL_PAGES ∧ p < USER_LAST_PAGE) as [Hp' Hlast].
  { unfold user_page in Hp. change USER_FIRST_PAGE with 256 in Hp. change USER_LAST_PAGE with 284 in *. unfold TOTAL_PAGES. lia. }
  unfold granted. split; try done.
  - intros u Hu. apply proc_space_remap; [done|by apply Hall|done|intros ->; by right|by apply H2].
  - intros u Hu. kcbn. destruct (H3 u Hu) as [Hd Hs]. split.
    + rewrite lookup_insert_ne; [done|]. intros E. by apply (dir_pt_slot u t p).
    + intros i Hi. rewrite lookup_insert. case_decide; [done|by apply Hs].
  - intros u i Hu Hi. kcbn. change USER_LAST_PAGE with 284 in Hi, Hlast.
    rewrite lookup_insert_ne; [by apply H4|]. intros [_ E]%pt_slot_inj; [lia|done|done|done|lia].
  - by apply (shm_ok_same k).
Qed.

Lemma alive_granted k run rq bq t p : t ∈ members P → user_page p → typed (granted t p (memory P t p) k) →
  alive P k run rq bq → alive P (granted t p (memory P t p) k) run rq bq.
Proof.
  intros Ht Hp Hty Ha. pose proof Ha as [Hwf Hid Hi Hm Hk _]. split; [done|exact Hid| |done| |done].
  - apply (sched_inv_frame k); [by apply frame_fields|reflexivity..|exact Hi].
  - apply kept_granted; try done. intros u Hu. eapply alive_task; [exact Ha|by right].
Qed.

(** The fault of a write to the code: the page is in a frame with one owner. *)
Lemma code_write_faulty k run rq bq p e : alive P k run rq bq → run ≠ keeper P → code_page p →
  ptes k !! slot (pt_of run) p = Some e → rw e = 0 →
  faulty k run p e ∧ e = code_entry (memory P run p) ∧ e ≠ 0 ∧ znth (phys_mem k) (pbase_addr e) = Some 1.
Proof.
  intros Ha Hne Hp He Hrw. destruct (code_user_page p Hp) as [Hu Hp']. destruct (alive_run _ _ _ _ _ Ha Hne) as [Hrun _].
  pose proof (alive_process _ _ _ _ _ Ha Hne) as [Ht Hs Hr Hc]. pose proof (al_kept _ _ _ _ _ Ha) as Hk.
  destruct (user_page_entry _ _ _ _ Hs Hu) as (e' & He' & Hm & Hb & Hpr & Hnz). assert (e' = e) as -> by congruence.
  pose proof (ps_frames _ _ _ Hs p Hu) as Hf. pose proof (kp_held _ _ Hk run p Hrun Hu) as Hh. rewrite <- Hb in Hh, Hf.
  split_and!; [|destruct Hm as [->| ->]|done|done].
  - split; [done|apply Hs|done|done|apply (ty_counts _ (al_typed _ _ _ _ _ Ha))|apply (ty_screen _ (al_typed _ _ _ _ _ Ha))|done|done|].
    intros _ _. rewrite Hh. done.
  - unfold user_entry. destruct (Z.ltb_spec p PAG_LOG_INIT_CODE); [destruct Hp; lia|done].
  - rewrite Hb in Hf. unfold NUM_PAG_KERNEL, TOTAL_PAGES in Hf.
    destruct (ss_entry_fields (memory P run p)) as (_ & _ & E & _); [change (2 ^ 20) with 1048576; lia|]. rewrite E in Hrw. discriminate Hrw.
Qed.

Lemma step_code_write k run rq bq cr2 ip buff after : alive P k run rq bq → run ≠ keeper P → code_write k run cr2 buff after →
  wp (pgf_routine cr2 ip buff after) (λ ok k', ok = true ∧ alive P k' run rq bq ∧ k' = granted run (cr2 / 4096) (memory P run (cr2 / 4096)) k) k.
Proof.
  intros Ha Hne [Hp (e & He & Hrw) [Hb Haf]]. set (p := cr2 / 4096) in *.
  destruct (code_write_faulty _ _ _ _ _ _ Ha Hne Hp He Hrw) as (Hfa & Ee & Hnz & Hone).
  destruct (alive_run _ _ _ _ _ Ha Hne) as [Hrun _]. destruct (code_user_page p Hp) as [Hu _].
  assert (cr2 = p * 4096 + cr2 mod 4096 ∧ 0 ≤ cr2 mod 4096 < 4096) as [E Ho] by (subst p; Z.div_mod_to_equations; lia). rewrite E.
  pose proof (pgf_run k run p e (cr2 mod 4096) ip buff after Hfa Ho Hb Haf) as Hw.
  eapply wp_mono; [exact (wp_gives _ _ _ _ k (gives_pgf (p * 4096 + cr2 mod 4096) ip buff after) (al_typed _ _ _ _ _ Ha) Hw)|].
  intros ok k' [Hty Hk']. destruct (Z.eqb_spec e 0); [done|]. rewrite Hrw in Hk'. cbn [negb Z.eqb orb] in Hk'.
  destruct Hk' as (refs & Hrefs & Hk'). assert (refs = 1) as -> by congruence. destruct Hk' as [-> Hk']. split; [done|].
  rewrite Ee, code_entry_granted in Hk'. split; [|exact Hk']. rewrite Hk' in Hty |- *. by apply alive_granted.
Qed.
End writes.
