(* ===== verification/Births.v ===== *)
(** * Birth and death of processes

    [born] is the population after [sys_fork], [dead] the one after [sys_exit]:
    in both every process is alive again. *)

From stdpp Require Import functions.
From S2P Require Import Prelude CInt ListHead Memory Errno Console Paging Kernel Mm Space Sched System Process Shm Fork Exit Types Population Steps.
Import PTE PageTable.

Section facts.
Context `{LayoutOk} (P : population).
Implicit Types (k : kernel) (run child t u : Z) (fq rq bq : list Z) (F : list (Z * list Z)).

(** ** The invariant of the scheduler and the lists of sons *)

Lemma sched_inv_perm k run fq rq bq F F' : F ≡ₚ F' → sched_inv k run fq rq bq F → sched_inv k run fq rq bq F'.
Proof.
  intros E ([Hr Hn] & Hrest). split; [|done]. split; try done.
  - unfold queues in *. by rewrite <- E.
  - intros t Ht. rewrite <- E. by apply Hn.
Qed.

Lemma sched_inv_drop k run fq rq bq r F : sched_inv k run fq rq bq (r :: F) → sched_inv k run fq rq bq F.
Proof.
  intros ([Hr Hn] & Hrest). split; [|done]. split; try done.
  - unfold queues in *. eapply rings_tail. assert (r :: (freequeue, node <$> fq) :: (readyqueue, node <$> rq) :: (blocked, node <$> bq) :: F ≡ₚ
      (freequeue, node <$> fq) :: (readyqueue, node <$> rq) :: (blocked, node <$> bq) :: r :: F) as E by solve_Permutation.
    rewrite E. exact Hr.
  - intros t Ht. destruct (Hn t Ht) as [Hd Ho]. split; [done|]. destruct r as [hd xs]. rewrite anchors_cons, app_comm_cons, elem_of_app in Ho. tauto.
Qed.

(** ** The processes and the free PCBs *)

Lemma alive_unused k run rq bq t : alive P k run rq bq → t ∈ unused P → is_task t ∧ t ∉ holders P.
Proof.
  intros Ha Ht. pose proof (al_inv _ _ _ _ _ Ha) as (Hp & Hout & _). pose proof (rings_nodup _ _ _ _ _ (p_rings _ _ _ _ _ _ Hp)) as Hnd.
  split; [eapply pre_task; [exact Hp|]; rewrite elem_of_app; tauto|].
  pose proof (proj1 (p_idle _ _ _ _ _ _ Hp)) as Hi. rewrite (al_idle _ _ _ _ _ Ha), elem_of_app in Hi. unfold holders.
  apply NoDup_app in Hnd as (_ & Hd & _). specialize (Hd t Ht). rewrite elem_of_app in Hd, Hout.
  rewrite elem_of_cons, <- (al_members _ _ _ _ _ Ha), !elem_of_app. intros [->|[Hu|?]]; [tauto| |tauto].
  unfold user_of in Hu. case_bool_decide; [by apply elem_of_nil in Hu|]. apply list_elem_of_singleton in Hu as ->. tauto.
Qed.

Lemma member_ne k run rq bq t : alive P k run rq bq → t ∈ members P → t ≠ keeper P.
Proof. intros Ha Ht ->. pose proof (wf_nodup _ (al_wf _ _ _ _ _ Ha)) as Hnd. by apply NoDup_cons in Hnd as [? _]. Qed.

(** A son has its father for parent. *)
Lemma son_parent k run rq bq u t p : alive P k run rq bq → u ∈ holders P → tasks k !! t = Some p →
  t ∈ members P → t ∈ sons_of P u ↔ u = parent p.
Proof.
  intros Ha Hu Hp Ht. destruct (kp_fathers _ _ (al_kept _ _ _ _ _ Ha) t Ht) as (p' & Hp' & Hf & _).
  assert (p' = p) as -> by congruence. by apply Hf.
Qed.

(** A count above zero is in the array. *)
Lemma held_count k f : Frames.wf (phys_mem k) → 0 ≤ f < TOTAL_PAGES → znth (phys_mem k) f ≠ Some Frames.FREE_FRAME →
  ∃ v, znth (phys_mem k) f = Some v ∧ v ≠ Frames.FREE_FRAME.
Proof. intros Hwf Hf Hn. destruct (Frames.wf_lookup _ _ Hwf Hf) as (v & Hv & _). exists v. split; [done|]. congruence. Qed.
End facts.

(** ** Birth *)

(** The child is the last son of the process that runs. *)
Definition born (P : population) (run child : Z) (fq : list Z) (ufr : Z → Z) : population :=
  mk_population (child :: members P) fq (keeper P)
    (<[child := []]> (<[run := sons_of P run ++ [child]]> (sons_of P))) (<[child := ufr]> (memory P)).

(** What a child needs: twenty frames, and twenty pages to write to them. *)
Definition room `{Layout} (k : kernel) (run : Z) : Prop :=
  (∃ fs pm, Frames.alloc_n (Z.to_nat NUM_PAG_DATA) (phys_mem k) = Some (fs, pm) ∧ -1 ∉ fs) ∧
  (Z.to_nat NUM_PAG_DATA ≤ length (free_pages (pt_of run) (ptes k)))%nat.

Section birth.
Context `{LayoutOk} (P : population).
Implicit Types (k : kernel) (run child t u : Z) (fq rq bq ps : list Z) (F : list (Z * list Z)).

(** No list of sons uses the anchors of a free PCB. *)
Lemma anchors_apart k run rq bq child a : alive P k run rq bq → child ∈ unused P → a ∈ own_anchors child → a ∉ anchors (families P).
Proof.
  intros Ha Hc Hin (u & Hu & Hor)%anchors_fams. destruct (alive_unused _ _ _ _ _ _ Ha Hc) as [[_ Hcm] Hno].
  assert (∃ t, t ∈ holders P ∧ (a = sons t ∨ a = bros t)) as (t & Ht & E).
  { destruct Hor as [->|(t & Ht & ->)]; [by exists u; auto|]. exists t. split; [|auto]. right. by apply (wf_sons _ (al_wf _ _ _ _ _ Ha) u). }
  destruct (alive_task _ _ _ _ _ _ Ha Ht) as [_ Htm]. assert (child = t) as ->; [|done].
  unfold own_anchors, node, dead_sons, sons, bros in *. rewrite !elem_of_cons, elem_of_nil in Hin.
  destruct Hin as [->|[->|[->|[->|[]]]]]; destruct E; Z.div_mod_to_equations; lia.
Qed.

Lemma fork_ready_of k run rq bq child fq rest : alive P k run rq bq → run ≠ keeper P → unused P = child :: fq →
  families P ≡ₚ (sons run, bros <$> sons_of P run) :: fams rest (sons_of P) → room k run → 0 < next_pid k →
  fork_ready k run child fq rq bq (sons_of P run) (fams rest (sons_of P)) (memory P run).
Proof.
  intros Ha Hne Hun Hsp [Hfr Hpg] Hpid. destruct (alive_run _ _ _ _ _ Ha Hne) as [Hin _].
  pose proof (al_kept _ _ _ _ _ Ha) as Hk. pose proof (alive_process _ _ _ _ _ Ha Hne) as Hup.
  assert (Hc : child ∈ unused P) by (rewrite Hun; by left). destruct (alive_unused _ _ _ _ _ _ Ha Hc) as [Htc _].
  split; try done.
  - apply (sched_inv_perm k run _ rq bq (families P)); [done|]. rewrite <- Hun. apply (al_inv _ _ _ _ _ Ha).
  - apply (kp_anchors _ _ Hk).
  - intros a Hain. rewrite <- Hsp. by eapply anchors_apart.
  - by apply (kp_tables _ _ Hk).
  - by apply (kp_tables _ _ Hk).
  - apply (kp_shared _ _ Hk).
  - apply (ty_counts _ (al_typed _ _ _ _ _ Ha)).
  - intros p Hp. by rewrite (kp_held _ _ Hk).
Qed.

Lemma born_holders run child fq ufr : holders (born P run child fq ufr) ≡ₚ child :: holders P.
Proof. unfold holders. cbn. solve_Permutation. Qed.

(** The lists of sons of the others. *)
Lemma born_sons run child fq ufr u : u ≠ child →
  sons_of (born P run child fq ufr) u = if decide (u = run) then sons_of P run ++ [child] else sons_of P u.
Proof.
  intros Hu. cbn. rewrite fn_lookup_insert_ne by done. case_decide as E; [subst u; apply fn_lookup_insert|].
  by rewrite fn_lookup_insert_ne.
Qed.

Lemma born_families run child fq ufr rest : child ≠ run → child ∉ holders P → run ∉ rest → (∀ u, u ∈ rest → u ∈ holders P) →
  (∀ fam, fams (holders P) fam ≡ₚ (sons run, bros <$> fam run) :: fams rest fam) →
  families (born P run child fq ufr) ≡ₚ (sons child, []) :: (sons run, bros <$> (sons_of P run ++ [child])) :: fams rest (sons_of P).
Proof.
  intros Hcr Hc Hr Hsub Hsp. unfold families. etransitivity; [apply fams_perm, born_holders|]. rewrite fams_cons, Hsp.
  assert (∀ u, u ∈ rest → sons_of (born P run child fq ufr) u = sons_of P u) as E.
  { intros u Hu. rewrite born_sons, decide_False; [done|by intros ->|intros ->; by apply Hc, Hsub]. }
  rewrite (fams_ext rest _ _ E), (born_sons run child fq ufr run), decide_True by congruence. cbn [born sons_of]. by rewrite fn_lookup_insert.
Qed.

Section done.
Context (k k' : kernel) (run child : Z) (fq rq bq rest : list Z) (ufr' : Z → Z).
Context (Ha : alive P k run rq bq) (Hne : run ≠ keeper P) (Hun : unused P = child :: fq).
Context (Hd : fork_done k run child fq rq bq (sons_of P run) (fams rest (sons_of P)) (memory P run) k') (Hpid : 1 < next_pid k).
Context (Hs : proc_space k' child ufr') (Hcode : ∀ p, PAG_LOG_INIT_CODE ≤ p < USER_LAST_PAGE → ufr' p = memory P run p).
Context (Hdata : ∀ p, data_page p → znth (phys_mem k) (ufr' p) = Some Frames.FREE_FRAME ∧ znth (phys_mem k') (ufr' p) = Some 1).

Let P' := born P run child fq ufr'.
Let Hk := al_kept _ _ _ _ _ Ha.

Lemma born_child : is_task child ∧ child ∉ holders P ∧ child ∉ members P ∧ child ≠ run.
Proof.
  destruct (alive_unused P k run rq bq child Ha) as [Ht Hh]; [rewrite Hun; by left|]. destruct (alive_run _ _ _ _ _ Ha Hne) as [Hr _].
  unfold holders in Hh. rewrite not_elem_of_cons in Hh. split_and!; [done|unfold holders; by rewrite not_elem_of_cons|tauto|]. intros ->. tauto.
Qed.

(** The pages of the child: data pages in frames that were free, the code of its father. *)
Lemma born_page p : user_page p → data_page p ∨ (PAG_LOG_INIT_CODE ≤ p < USER_LAST_PAGE ∧ ufr' p = memory P run p).
Proof.
  intros [H1 H2]. destruct (Z.ltb_spec p PAG_LOG_INIT_CODE); [left; by split|right]. split; [lia|]. by apply Hcode.
Qed.

Lemma born_free p t q : data_page p → t ∈ members P → user_page q → ufr' p ≠ memory P t q.
Proof.
  intros Hp Ht Hq E. pose proof (kp_held _ _ Hk t q Ht Hq) as Hh. rewrite <- E, (proj1 (Hdata p Hp)) in Hh. discriminate Hh.
Qed.

Lemma born_well_formed : well_formed P'.
Proof.
  destruct born_child as (Htc & Hch & Hcm & Hcr). destruct (alive_run _ _ _ _ _ Ha Hne) as [Hrun _]. pose proof (al_wf _ _ _ _ _ Ha) as [W1 W2 W3].
  split.
  - unfold P'. rewrite born_holders. by apply NoDup_cons.
  - intros u c. unfold P'. rewrite born_holders, elem_of_cons. intros Hu Hc. cbn [born members]. rewrite elem_of_cons.
    destruct (decide (u = child)) as [->|Hn]; [cbn [born sons_of] in Hc; rewrite fn_lookup_insert in Hc; by apply elem_of_nil in Hc|].
    destruct Hu as [?|Hu]; [done|]. rewrite born_sons in Hc by done. case_decide as E; [|by destruct (W2 u c Hu Hc); auto].
    subst u. apply elem_of_app in Hc as [Hc| ->%list_elem_of_singleton]; [destruct (W2 run c Hu Hc)|]; auto.
  - intros t u p q. unfold P'. cbn [born members memory]. rewrite !elem_of_cons. intros Ht Hu Htu Hp Hq.
    assert (Hup : user_page p) by (destruct Hp as [? ?]; split; [done|change PAG_LOG_INIT_CODE with 276 in *; change USER_LAST_PAGE with 284; lia]).
    destruct (decide (t = child)) as [->|Htn].
    + destruct Hu as [?|Hu]; [congruence|]. rewrite fn_lookup_insert, fn_lookup_insert_ne by done. by apply born_free.
    + destruct Ht as [?|Ht]; [done|]. rewrite fn_lookup_insert_ne by done. destruct (decide (u = child)) as [->|Hun'].
      2: { destruct Hu as [?|Hu]; [done|]. rewrite fn_lookup_insert_ne by done. by apply W3. }
      rewrite fn_lookup_insert. destruct (born_page q Hq) as [Hqd|[Hqc ->]]; [by apply not_eq_sym, born_free|].
      destruct (decide (t = run)) as [->|Htr]; [|by apply W3]. intros E.
      apply (ps_inj _ _ _ (kp_space _ _ Hk run Hrun)) in E; [|done..]. destruct Hp as [? ?]. lia.
Qed.

Lemma born_pcbs t : is_task t → t ≠ child → tasks k' !! t = tasks k !! t.
Proof. intros _ Hn. destruct (fd_child _ _ _ _ _ _ _ _ _ _ Hd) as (pc & _ & ->). by apply lookup_insert_ne. Qed.

(** The others find their tables as they were. *)
Lemma born_space t : t ∈ members P → proc_space k' t (memory P t).
Proof.
  intros Ht. destruct born_child as (Htc & Hch & Hcm & Hcr). assert (Hn : t ≠ child) by (by intros ->).
  assert (Htt : is_task t) by (eapply alive_task; [exact Ha|by right]). destruct (fd_tables _ _ _ _ _ _ _ _ _ _ Hd) as [Hdir Htab].
  apply (proc_space_above k); [by apply born_pcbs|by apply Hdir| | |by apply (kp_space _ _ Hk)].
  - intros i Hi. change USER_LAST_PAGE with 284 in Hi. apply Htab; [done|unfold TOTAL_PAGES; lia|by left].
  - intros i Hi. change USER_LAST_PAGE with 284 in Hi. rewrite Htab; [|done|lia|by left]. apply (kp_tables _ _ Hk); [done|lia].
Qed.

Lemma born_tables t : is_task t → ptes k' !! slot (dir_of t) 0 = Some (dir_entry (pt_of t)) ∧
  ∀ i, 0 ≤ i < TOTAL_PAGES → is_Some (ptes k' !! slot (pt_of t) i).
Proof.
  intros Ht. destruct (fd_tables _ _ _ _ _ _ _ _ _ _ Hd) as [Hdir Htab]. split; [rewrite Hdir by done; by apply (kp_tables _ _ Hk)|].
  intros i Hi. destruct (decide (t = child)) as [->|Hn]; [by apply (ps_space _ _ _ Hs)|].
  rewrite Htab; [|done|done|by left]. by apply (kp_tables _ _ Hk).
Qed.

Lemma born_held f : 0 ≤ f < TOTAL_PAGES → znth (phys_mem k) f ≠ Some Frames.FREE_FRAME → znth (phys_mem k') f ≠ Some Frames.FREE_FRAME.
Proof.
  intros Hf Hn. destruct (held_count k f (ty_counts _ (al_typed _ _ _ _ _ Ha)) Hf Hn) as (v & Hv & Hv').
  rewrite (fd_counts _ _ _ _ _ _ _ _ _ _ Hd f v Hv Hv'). congruence.
Qed.

Lemma born_owned f : znth (phys_mem k) f = Some 1 → znth (phys_mem k') f = Some 1.
Proof. intros Hf. by apply (fd_counts _ _ _ _ _ _ _ _ _ _ Hd). Qed.

Lemma born_fathers t : t ∈ members P' → pcb_is k' t (has_father P' t).
Proof.
  destruct born_child as (Htc & Hch & Hcm & Hcr). destruct (alive_run _ _ _ _ _ Ha Hne) as [Hrun _].
  assert (Hsame : ∀ u, u ∈ holders P' ↔ u = child ∨ u ∈ holders P) by (intros u; unfold P'; rewrite born_holders; apply elem_of_cons).
  assert (NULL ≠ child) as Hnull by (destruct (task_bounds child Htc); unfold NULL; lia).
  unfold P' at 1. cbn [born members]. intros [->|Ht]%elem_of_cons.
  - unfold pcb_is. destruct (fd_child _ _ _ _ _ _ _ _ _ _ Hd) as (pc & _ & ->). eexists. split; [apply lookup_insert_eq|]. unfold has_father. cbn [child_pcb parent PID].
    split; [|destruct (Z.eqb_spec (next_pid k) 1); [lia|]; apply Hsame; right; by right].
    intros u Hu%Hsame. destruct (decide (u = child)) as [->|Hn]; [unfold P'; cbn [born sons_of]; rewrite fn_lookup_insert, elem_of_nil; naive_solver|].
    unfold P'. rewrite born_sons by done. case_decide as E; [rewrite elem_of_app, list_elem_of_singleton; tauto|].
    split; [|done]. intros Hin. destruct Hu as [?|Hu]; [done|]. by destruct (wf_sons _ (al_wf _ _ _ _ _ Ha) u child Hu Hin).
  - assert (Hn : t ≠ child) by (by intros ->). destruct (kp_fathers _ _ Hk t Ht) as (p & Hp & Hf & Hfirst).
    assert (is_task t) as Htt by (eapply alive_task; [exact Ha|by right]). exists p. split; [by rewrite born_pcbs|]. split.
    2: { destruct (PID p =? 1); [done|]. apply Hsame. by right. }
    intros u Hu%Hsame. destruct (decide (u = child)) as [->|Hnu].
    + unfold P'. cbn [born sons_of]. rewrite fn_lookup_insert, elem_of_nil. split; [done|]. intros E. destruct (PID p =? 1); congruence.
    + destruct Hu as [?|Hu]; [done|]. unfold P'. rewrite born_sons by done. rewrite <- Hf by done. case_decide as E; [|done]. subst u.
      rewrite elem_of_app, list_elem_of_singleton. tauto.
Qed.

Lemma born_kept : kept P' k'.
Proof.
  destruct born_child as (Htc & Hch & Hcm & Hcr). destruct (alive_run _ _ _ _ _ Ha Hne) as [Hrun _].
  destruct (fd_rest _ _ _ _ _ _ _ _ _ _ Hd) as (Hsh & Hwf & Hid & Hdom). destruct (fd_parent _ _ _ _ _ _ _ _ _ _ Hd) as ([_ _ [_ Hpg] _] & _).
  assert (Hmem : ∀ t, t ∈ members P' → (t = child ∧ memory P' t = ufr') ∨ (t ≠ child ∧ t ∈ members P ∧ memory P' t = memory P t)).
  { intros t. unfold P'. cbn [born members memory]. intros [->|Ht]%elem_of_cons; [left; by rewrite fn_lookup_insert|]. right.
    assert (t ≠ child) by (by intros ->). by rewrite fn_lookup_insert_ne. }
  assert (Hrange : ∀ t p, t ∈ members P → user_page p → 0 ≤ memory P t p < TOTAL_PAGES).
  { intros t p Ht Hp. pose proof (ps_frames _ _ _ (kp_space _ _ Hk t Ht) p Hp). unfold NUM_PAG_KERNEL in *. lia. }
  split.
  - exact Hpg.
  - intros t [[-> ->]|(Hn & Ht & ->)]%Hmem; [exact Hs|by apply born_space].
  - exact born_tables.
  - intros t i Ht Hi. destruct (fd_tables _ _ _ _ _ _ _ _ _ _ Hd) as [_ Htab]. rewrite Hsh.
    rewrite Htab; [by apply (kp_above _ _ Hk)|done|change USER_LAST_PAGE with 284 in Hi; lia|right; apply Hi].
  - rewrite Hdom. exact (kp_anchors _ _ Hk).
  - apply (shm_ok_same k); [done|exact (kp_shared _ _ Hk)].
  - intros t p [[-> ->]|(Hn & Ht & ->)]%Hmem Hp; [|apply born_owned; by apply (kp_held _ _ Hk)].
    destruct (born_page p Hp) as [Hpd|[_ ->]]; [by apply Hdata|]. apply born_owned; by apply (kp_held _ _ Hk).
  - rewrite Hsh. intros id s Hsp. destruct (kp_apart _ _ Hk id s Hsp) as [Hnf Hap]. split.
    + apply born_held; [|done]. pose proof (so_frames _ (kp_shared _ _ Hk) _ _ Hsp). unfold NUM_PAG_KERNEL in *. lia.
    + intros t p [[-> ->]|(Hn & Ht & ->)]%Hmem Hp; [|by apply Hap]. destruct (born_page p Hp) as [Hpd|[_ ->]]; [|by apply Hap].
      intros E. apply Hnf. rewrite <- E. by apply Hdata.
  - exact born_fathers.
  - destruct (kp_keeper _ _ Hk) as (p & Hp & Hpar). exists p. split; [|done]. change (keeper P') with (keeper P).
    rewrite born_pcbs; [done|eapply alive_task; [exact Ha|by left]|]. intros E. apply Hch. rewrite <- E. by left.
Qed.

Context (Hr : run ∉ rest) (Hsub : ∀ u, u ∈ rest → u ∈ holders P) (Hty : typed k').
Context (Hsp : ∀ fam, fams (holders P) fam ≡ₚ (sons run, bros <$> fam run) :: fams rest fam).

Lemma born_alive : alive P' k' run (rq ++ [child]) bq.
Proof.
  destruct born_child as (Htc & Hch & Hcm & Hcr). split.
  - exact born_well_formed.
  - destruct (fd_rest _ _ _ _ _ _ _ _ _ _ Hd) as (_ & _ & -> & _). exact (al_idle _ _ _ _ _ Ha).
  - eapply sched_inv_perm; [|exact (fd_inv _ _ _ _ _ _ _ _ _ _ Hd)]. symmetry. by apply born_families.
  - pose proof (al_members _ _ _ _ _ Ha) as Hm. unfold P', user_of in *. cbn [born members keeper]. rewrite <- Hm. solve_Permutation.
  - exact born_kept.
  - exact Hty.
Qed.
End done.

Lemma step_fork k run rq bq : alive P k run rq bq → run ≠ keeper P → (unused P ≠ [] → room k run ∧ 1 < next_pid k) →
  wp sys_fork (λ r k', (r = - ENOMEM ∧ unused P = [] ∧ k' = k) ∨
    ∃ child fq ufr, unused P = child :: fq ∧ r = next_pid k ∧ alive (born P run child fq ufr) k' run (rq ++ [child]) bq) k.
Proof.
  intros Ha Hne Hroom. destruct (unused P) as [|child fq] eqn:Hun.
  { pose proof (al_inv _ _ _ _ _ Ha) as Hi. rewrite Hun in Hi. eapply wp_mono; [exact (sys_fork_full _ _ _ _ _ Hi)|]. intros r k' [-> ->]. by left. }
  destruct (Hroom ltac:(done)) as [Hrm Hpid]. destruct (alive_run _ _ _ _ _ Ha Hne) as [Hrun _].
  destruct (fams_split (holders P) run (sons_of P)) as (rest & Hr & Hsp); [by right|apply (wf_nodup _ (al_wf _ _ _ _ _ Ha))|].
  assert (Hready : fork_ready k run child fq rq bq (sons_of P run) (fams rest (sons_of P)) (memory P run)).
  { apply fork_ready_of; [done|done|done|apply Hsp|done|lia]. }
  eapply wp_mono; [exact (wp_gives _ _ _ _ k gives_sys_fork (al_typed _ _ _ _ _ Ha) (sys_fork_run _ _ _ _ _ _ _ _ _ Hready))|].
  intros r k' (Hty & -> & Hd). right. destruct (fd_space _ _ _ _ _ _ _ _ _ _ Hd) as (ufr' & Hs & _ & _ & Hcode & Hdata).
  exists child, fq, ufr'. split; [done|]. split; [done|].
  apply (born_alive k k' run child fq rq bq rest ufr'); try done.
  intros u Hu. assert (sons u ∈ anchors (fams (holders P) (λ _, []))) as Hin.
  { rewrite (Hsp (λ _, [])), anchors_cons. cbn [app]. right. apply anchors_fams. exists u. auto. }
  apply anchors_fams in Hin as (v & Hv & [E|(t & Ht & _)]); [|by apply elem_of_nil in Ht]. unfold sons in E. by assert (u = v) as -> by lia.
Qed.
End birth.

(** ** Death *)

(** The idle process has the sons of the dead one, whose PCB is the last of the
    free ones. *)
Definition dead `{Layout} (P : population) (run : Z) : population :=
  mk_population (filter (λ t, t ≠ run) (members P)) (unused P ++ [run]) (keeper P)
    (exit_family (keeper P) run (sons_of P)) (memory P).

(** No process that has died was a son of [run]. *)
Definition no_dead_sons (P : population) (k : kernel) (run : Z) : Prop :=
  ∀ t, t ∈ unused P → pcb_is k t (λ p, parent p ≠ run).

Section death.
Context `{LayoutOk} (P : population).
Implicit Types (k : kernel) (run t u : Z) (rq bq : list Z).

Lemma sons_known_of k run rq bq : alive P k run rq bq → run ≠ keeper P → no_dead_sons P k run → sons_known k run (sons_of P).
Proof.
  intros Ha Hne Hno t. destruct (alive_run _ _ _ _ _ Ha Hne) as [Hrun _]. pose proof (al_kept _ _ _ _ _ Ha) as Hk.
  assert (Hrh : run ∈ holders P) by (by right). pose proof (alive_task _ _ _ _ _ _ Ha Hrh) as Htr. split.
  - intros Hin. destruct (wf_sons _ (al_wf _ _ _ _ _ Ha) run t Hrh Hin) as [Ht _].
    split; [eapply alive_task; [exact Ha|by right]|]. destruct (kp_fathers _ _ Hk t Ht) as (p & Hp & Hf & _).
    exists p. split; [done|]. symmetry. by apply Hf.
  - intros [Ht (p & Hp & Hpar)].
    assert (t ∈ members P → t ∈ sons_of P run) as Hmem by (intros Hm; by eapply son_parent).
    apply (p_cover _ _ _ _ _ _ (proj1 (al_inv _ _ _ _ _ Ha))) in Ht. rewrite (al_idle _ _ _ _ _ Ha), elem_of_app in Ht.
    destruct Ht as [->|[->|[Ht|Ht]]]; [|by apply Hmem| |].
    + destruct (kp_keeper _ _ Hk) as (q & Hq & Hnull). assert (q = p) as -> by congruence.
      destruct (task_bounds run Htr). unfold NULL in *. lia.
    + destruct (Hno t Ht) as (q & Hq & Hn). congruence.
    + apply Hmem. rewrite <- (al_members _ _ _ _ _ Ha), elem_of_app. by right.
Qed.

Lemma exit_ready_of k run rq bq : alive P k run rq bq → run ≠ keeper P → no_dead_sons P k run →
  exit_ready k run (unused P) rq bq (holders P) (sons_of P) (memory P run).
Proof.
  intros Ha Hne Hno. destruct (alive_run _ _ _ _ _ Ha Hne) as [Hrun _]. pose proof (al_kept _ _ _ _ _ Ha) as Hk.
  pose proof (al_wf _ _ _ _ _ Ha) as [W1 W2 W3]. split.
  - apply (al_inv _ _ _ _ _ Ha).
  - by rewrite (al_idle _ _ _ _ _ Ha).
  - by apply (kp_space _ _ Hk).
  - split; [done| | |].
    + rewrite (al_idle _ _ _ _ _ Ha). split; [by right|]. split; [by left|]. intros u Hu. by eapply alive_task.
    + intros Hin. by destruct (W2 run run ltac:(by right) Hin).
    + destruct (kp_fathers _ _ Hk run Hrun) as (p & Hp & Hf & Hfirst). exists p. split; [done|].
      destruct (PID p =? 1); [|exists (parent p); split; [done|by apply Hf]]. intros u Hu Hin%Hf; [|done].
      pose proof (alive_task _ _ _ _ _ _ Ha Hu) as Hut. destruct (task_bounds u Hut). unfold NULL in *. lia.
  - by eapply sons_known_of.
  - apply (kp_shared _ _ Hk).
  - apply (ty_counts _ (al_typed _ _ _ _ _ Ha)).
Qed.

Lemma dead_holders run u : run ≠ keeper P → u ∈ holders (dead P run) ↔ u ≠ run ∧ u ∈ holders P.
Proof. intros Hne. unfold holders. cbn. rewrite !elem_of_cons, list_elem_of_filter. naive_solver. Qed.

Lemma dead_sons_keeper run c : run ≠ keeper P → c ∈ sons_of (dead P run) (keeper P) ↔ (c ≠ run ∧ c ∈ sons_of P (keeper P)) ∨ (c ∈ sons_of P run ∧ is_task c).
Proof.
  intros Hne. cbn. unfold exit_family. destruct (Z.eqb_spec (keeper P) run); [congruence|]. rewrite Z.eqb_refl, elem_of_app, !list_elem_of_filter, task_list_spec. tauto.
Qed.

Lemma dead_sons_other run u c : u ≠ run → u ≠ keeper P → c ∈ sons_of (dead P run) u ↔ c ≠ run ∧ c ∈ sons_of P u.
Proof.
  intros H1 H2. cbn. unfold exit_family. destruct (Z.eqb_spec u run); [done|]. destruct (Z.eqb_spec u (keeper P)); [done|].
  by rewrite app_nil_r, list_elem_of_filter.
Qed.

Lemma dead_families run : NoDup (holders P) → run ∈ members P → run ≠ keeper P →
  fams (holders P) (exit_family (keeper P) run (sons_of P)) ≡ₚ (sons run, []) :: families (dead P run).
Proof.
  intros Hnd Hin Hne. assert (Hm : members P ≡ₚ run :: filter (λ t, t ≠ run) (members P)).
  { apply NoDup_cons in Hnd as [_ Hnd]. apply list_elem_of_split in Hin as (l1 & l2 & E). rewrite E in Hnd |- *.
    rewrite (filter_del _ _ _ Hnd). solve_Permutation. }
  assert (Hh : holders P ≡ₚ run :: holders (dead P run)).
  { unfold holders at 1. rewrite Hm. unfold holders. cbn [dead members keeper]. solve_Permutation. }
  rewrite (fams_perm _ _ _ Hh), fams_cons. cbn [dead sons_of].
  assert (exit_family (keeper P) run (sons_of P) run = []) as -> by (unfold exit_family; by rewrite Z.eqb_refl). done.
Qed.

Section done.
Context (k k' : kernel) (run : Z) (rq bq : list Z).
Context (Ha : alive P k run rq bq) (Hne : run ≠ keeper P) (Hty : typed k').
Context (Hd : exit_done k run (unused P) rq bq (holders P) (sons_of P) (memory P run) k').

Let P' := dead P run.
Let Hk := al_kept _ _ _ _ _ Ha.

Lemma dead_members t : t ∈ members P' ↔ t ≠ run ∧ t ∈ members P.
Proof. unfold P'. cbn [dead members]. by rewrite list_elem_of_filter. Qed.

Lemma dead_entries t i : is_task t → 0 ≤ i < TOTAL_PAGES → t ≠ run ∨ ¬ data_page i →
  ptes k' !! slot (pt_of t) i = ptes k !! slot (pt_of t) i.
Proof.
  intros Ht Hi Hor. destruct (xd_tables _ _ _ _ _ _ _ _ _ Hd) as [_ Hout]. apply Hout. intros j Hj E.
  change NUM_PAG_DATA with 20 in Hj. apply pt_slot_inj in E as [-> ->]; [|done| |done|].
  - destruct Hor as [?|Hor]; [done|]. apply Hor. unfold data_page. change USER_FIRST_PAGE with 256. change PAG_LOG_INIT_CODE with 276. lia.
  - eapply alive_task; [exact Ha|]. right. apply (alive_run _ _ _ _ _ Ha Hne).
  - change USER_FIRST_PAGE with 256. unfold TOTAL_PAGES. lia.
Qed.

Lemma dead_tables t : is_task t → ptes k' !! slot (dir_of t) 0 = Some (dir_entry (pt_of t)) ∧
  ∀ i, 0 ≤ i < TOTAL_PAGES → is_Some (ptes k' !! slot (pt_of t) i).
Proof.
  intros Ht. destruct (xd_tables _ _ _ _ _ _ _ _ _ Hd) as [Hin Hout]. destruct (kp_tables _ _ Hk t Ht) as [Hdir Htab]. split.
  - rewrite Hout; [done|]. intros j Hj E. change NUM_PAG_DATA with 20 in Hj. revert E. apply dir_pt_slot; [done| |change USER_FIRST_PAGE with 256; unfold TOTAL_PAGES; lia].
    eapply alive_task; [exact Ha|]. right. apply (alive_run _ _ _ _ _ Ha Hne).
  - intros i Hi. destruct (decide (t ≠ run ∨ ¬ data_page i)) as [Hor|Hno]; [rewrite dead_entries by done; by apply Htab|].
    assert (t = run ∧ data_page i) as [-> Hdp] by (split; [destruct (decide (t = run)); tauto|unfold data_page in *; lia]).
    destruct Hdp as [H1 H2]. change USER_FIRST_PAGE with 256 in *. change PAG_LOG_INIT_CODE with 276 in *. change NUM_PAG_DATA with 20 in *.
    specialize (Hin (i - 256) ltac:(lia)). replace (256 + (i - 256)) with i in Hin by lia. by rewrite Hin.
Qed.

(** The PCBs of the others: only the parents of the sons change. *)
Lemma dead_pcb t p : t ≠ run → tasks k !! t = Some p → ∃ p', tasks k' !! t = Some p' ∧ PID p' = PID p ∧
  dir_pages_baseAddr p' = dir_pages_baseAddr p ∧ parent p' = if bool_decide (t ∈ sons_of P run) then keeper P else parent p.
Proof.
  intros Hn Hp. destruct (xd_pcbs _ _ _ _ _ _ _ _ _ Hd t p Hp) as (p' & Hp' & Hex). exists p'. split; [done|].
  unfold exit_pcb in Hex. destruct (Z.eqb_spec t run); [done|]. by rewrite (al_idle _ _ _ _ _ Ha) in Hex.
Qed.

Lemma dead_space t : t ≠ run → t ∈ members P → proc_space k' t (memory P t).
Proof.
  intros Hn Ht. assert (Htt : is_task t) by (eapply alive_task; [exact Ha|by right]). pose proof (kp_space _ _ Hk t Ht) as [(Hdir & _ & _) Hker Hus Hfr Hinj].
  split; [| | |done|done].
  - destruct Hdir as (p & Hp & E). destruct (dead_pcb t p Hn Hp) as (p' & Hp' & _ & Ed & _). split; [exists p'; split; [done|congruence]|by apply dead_tables].
  - intros i Hi. rewrite dead_entries; [by apply Hker|done|unfold NUM_PAG_KERNEL, TOTAL_PAGES in *; lia|by left].
  - intros i Hi. rewrite dead_entries; [by apply Hus|done|change USER_FIRST_PAGE with 256 in Hi; change USER_LAST_PAGE with 284 in Hi; unfold TOTAL_PAGES; lia|by left].
Qed.

(** The frames that are not behind its data pages keep their counts. *)
Lemma dead_count f v : (∀ p, data_page p → memory P run p ≠ f) → znth (phys_mem k) f = Some v → znth (phys_mem k') f = Some v.
Proof.
  intros Hno Hv. rewrite (proj2 (xd_frames _ _ _ _ _ _ _ _ _ Hd) f v Hv), bool_decide_eq_false_2; [done|].
  intros (p & -> & Hp%elem_of_seqZ)%list_elem_of_fmap. apply (Hno p); [|done]. change NUM_PAG_DATA with 20 in Hp. change USER_FIRST_PAGE with 256 in Hp.
  unfold data_page. change USER_FIRST_PAGE with 256. change PAG_LOG_INIT_CODE with 276. lia.
Qed.

Lemma dead_held f : 0 ≤ f < TOTAL_PAGES → (∀ p, data_page p → memory P run p ≠ f) → znth (phys_mem k) f ≠ Some Frames.FREE_FRAME →
  znth (phys_mem k') f ≠ Some Frames.FREE_FRAME.
Proof.
  intros Hf Hno Hn. destruct (held_count k f (ty_counts _ (al_typed _ _ _ _ _ Ha)) Hf Hn) as (v & Hv & Hv').
  rewrite (dead_count f v Hno Hv). congruence.
Qed.

Lemma dead_well_formed : well_formed P'.
Proof.
  pose proof (al_wf _ _ _ _ _ Ha) as [W1 W2 W3]. split.
  - unfold holders in *. cbn [P' dead members keeper]. apply NoDup_cons in W1 as [Hn Hnd]. apply NoDup_cons.
    split; [rewrite list_elem_of_filter; tauto|by apply NoDup_filter].
  - intros u c [Hu Hin]%dead_holders Hc; [|done]. rewrite dead_members. destruct (decide (u = keeper P)) as [->|Hu'].
    + apply dead_sons_keeper in Hc as [[Hcr Hc]|[Hc _]]; [|destruct (W2 run c) as [? ?]; [right; by apply (alive_run _ _ _ _ _ Ha)|done|]|done]; [by destruct (W2 _ _ Hin Hc)|].
      split; [done|]. by eapply member_ne.
    + apply dead_sons_other in Hc as [Hcr Hc]; [|done..]. by destruct (W2 u c Hin Hc).
  - intros t u p q [_ Ht]%dead_members [_ Hu]%dead_members. by apply W3.
Qed.

Lemma dead_fathers t : t ∈ members P' → pcb_is k' t (has_father P' t).
Proof.
  intros [Hn Ht]%dead_members. pose proof (al_wf _ _ _ _ _ Ha) as [W1 W2 W3]. destruct (alive_run _ _ _ _ _ Ha Hne) as [Hrun _].
  destruct (kp_fathers _ _ Hk t Ht) as (p & Hp & Hf & Hfirst). destruct (dead_pcb t p Hn Hp) as (p' & Hp' & HPID & _ & Hpar).
  assert (Htt : is_task t) by (eapply alive_task; [exact Ha|by right]). exists p'. split; [done|]. unfold has_father. rewrite HPID, Hpar.
  assert (Hrp : t ∈ sons_of P run ↔ run = parent p) by (apply Hf; by right). case_bool_decide as Hin.
  - split.
    + intros u [Hu Huh]%dead_holders; [|done]. destruct (decide (u = keeper P)) as [->|Hu']; [unfold P'; rewrite dead_sons_keeper by done; tauto|].
      unfold P'. rewrite dead_sons_other by done. rewrite Hf by done. split; [|done]. intros [_ E]. apply Hrp in Hin. congruence.
    + destruct (PID p =? 1); [|apply dead_holders; [done|split; [congruence|by left]]]. apply Hrp in Hin.
      assert (is_task run) as Hrt by (eapply alive_task; [exact Ha|by right]). destruct (task_bounds run Hrt). unfold NULL in *. lia.
  - split.
    + intros u [Hu Huh]%dead_holders; [|done]. rewrite <- Hf by done.
      destruct (decide (u = keeper P)) as [->|Hu']; [unfold P'; rewrite dead_sons_keeper by done; tauto|]. unfold P'. rewrite dead_sons_other by done. tauto.
    + destruct (PID p =? 1); [done|]. apply dead_holders; [done|]. split; [|done]. intros E. by apply Hin, Hrp.
Qed.

Lemma dead_kept : kept P' k'.
Proof.
  pose proof (al_wf _ _ _ _ _ Ha) as [W1 W2 W3]. destruct (alive_run _ _ _ _ _ Ha Hne) as [Hrun _].
  assert (Hrange : ∀ t p, t ∈ members P → user_page p → 0 ≤ memory P t p < TOTAL_PAGES).
  { intros t p Ht Hp. pose proof (ps_frames _ _ _ (kp_space _ _ Hk t Ht) p Hp). unfold NUM_PAG_KERNEL in *. lia. }
  assert (Hup : ∀ p, data_page p → user_page p).
  { intros p [H1 H2]. split; [done|]. change PAG_LOG_INIT_CODE with 276 in *. change USER_LAST_PAGE with 284. lia. }
  destruct (xd_links _ _ _ _ _ _ _ _ _ Hd) as [Hdom _]. pose proof (xd_shared _ _ _ _ _ _ _ _ _ Hd) as Hsh.
  destruct (xd_rest _ _ _ _ _ _ _ _ _ Hd) as (_ & _ & _ & Hc0 & _). split.
  - rewrite Hc0. exact (kp_paging _ _ Hk).
  - intros t [Hn Ht]%dead_members. by apply dead_space.
  - exact dead_tables.
  - intros t i Ht Hi. rewrite Hsh, dead_entries; [by apply (kp_above _ _ Hk)|done|change USER_LAST_PAGE with 284 in Hi; lia|].
    right. intros [_ Hlt]. change USER_LAST_PAGE with 284 in Hi. change PAG_LOG_INIT_CODE with 276 in Hlt. lia.
  - rewrite Hdom. exact (kp_anchors _ _ Hk).
  - apply (shm_ok_same k); [done|exact (kp_shared _ _ Hk)].
  - intros t p [Hn Ht]%dead_members Hp. apply dead_count; [|by apply (kp_held _ _ Hk)].
    intros q Hq. apply W3; try done; congruence.
  - rewrite Hsh. intros id s Hsp. destruct (kp_apart _ _ Hk id s Hsp) as [Hnf Hap]. split.
    + apply dead_held; [|by intros p Hp; apply Hap, Hup|done]. pose proof (so_frames _ (kp_shared _ _ Hk) _ _ Hsp). unfold NUM_PAG_KERNEL in *. lia.
    + intros t p [_ Ht]%dead_members. by apply Hap.
  - exact dead_fathers.
  - destruct (kp_keeper _ _ Hk) as (p & Hp & Hpar). destruct (dead_pcb (keeper P) p) as (p' & Hp' & _ & _ & E); [congruence|done|].
    exists p'. split; [done|]. rewrite E, bool_decide_eq_false_2; [done|]. intros Hin.
    destruct (W2 run (keeper P)) as [Hm _]; [by right|done|]. by apply (member_ne P _ _ _ _ (keeper P) Ha Hm).
Qed.

Lemma dead_alive : ∃ next rq', alive P' k' next rq' bq.
Proof.
  destruct (alive_run _ _ _ _ _ Ha Hne) as [Hrun Hm]. pose proof (wf_nodup _ (al_wf _ _ _ _ _ Ha)) as Hnd.
  exists (next_of k rq), (tail rq). split.
  - exact dead_well_formed.
  - destruct (xd_rest _ _ _ _ _ _ _ _ _ Hd) as (-> & _). exact (al_idle _ _ _ _ _ Ha).
  - apply (sched_inv_drop _ _ _ _ _ (sons run, [])). eapply sched_inv_perm; [|exact (xd_inv _ _ _ _ _ _ _ _ _ Hd)].
    rewrite (al_idle _ _ _ _ _ Ha). by apply dead_families.
  - assert (members P' ≡ₚ rq ++ bq) as ->.
    { cbn [P' dead members]. rewrite <- Hm. rewrite filter_cons_False by tauto. rewrite filter_all_in; [done|].
      intros t Ht ->. apply NoDup_cons in Hnd as [_ Hnd]. rewrite <- Hm in Hnd. by apply NoDup_cons in Hnd as [? _]. }
    unfold user_of, next_of. cbn [P' dead keeper]. destruct rq as [|n rest]; cbn [List.hd tail].
    + by rewrite bool_decide_true by exact (al_idle _ _ _ _ _ Ha).
    + by rewrite bool_decide_false by exact (ready_not_idle _ _ _ _ _ n Ha ltac:(by left)).
  - exact dead_kept.
  - exact Hty.
Qed.
End done.

Lemma step_exit k run rq bq : alive P k run rq bq → run ≠ keeper P → no_dead_sons P k run →
  wp sys_exit (λ _ k', ∃ next rq', alive (dead P run) k' next rq' bq) k.
Proof.
  intros Ha Hne Hno. pose proof (sys_exit_run _ _ _ _ _ _ _ _ (exit_ready_of _ _ _ _ Ha Hne Hno)) as Hw.
  eapply wp_mono; [exact (wp_gives _ _ _ _ k gives_sys_exit (al_typed _ _ _ _ _ Ha) Hw)|].
  intros [] k' [Hty Hd]. by apply (dead_alive k k' run rq bq).
Qed.
End death.
