(* ===== verification/Life.v ===== *)
(** * The life of the processes

    Runs of the kernel from a state in which every process is [alive]: the clock,
    the keyboard, page faults and the system calls, in any order and number, under the
    conditions of [enabled].  A page fault is the write of a process to one of its code
    pages, which are read-only until then.  The population follows the run by [becomes]: only
    [sys_fork] makes a process and only [sys_exit] ends one. *)

From S2P Require Import Prelude CInt ListHead Circular Memory Errno Console LibC Paging Descriptors Kernel Mm Space Sched Boot Interrupt System UserIO Process Shm Fork Exit Types Entries Population Steps CodeWrites Births.
Import PTE PageTable.

(** ** Any sequence of entries *)

(** When the process [run] may make the call.  Nothing is asked of the other calls,
    but the number behind the table is not one. *)
Record call_enabled `{Layout} (P : population) (k : kernel) (run eax a b c : Z) : Prop := {
  ce_table : eax ≠ MAX_SYSCALL;
  ce_exit : eax = 1 → no_dead_sons P k run;
  ce_fork : eax = 2 → unused P ≠ [] → room k run ∧ 1 < next_pid k;
  ce_read : eax = 3 → is_u32 a ∧ 0 ≤ b < 2 ^ 31 ∧ a + b ≤ USER_LAST_PAGE * 4096;
  ce_write : eax = 4 → is_u32 b ∧ is_s32 c ∧ (c < 0 ∨ b + c ≤ USER_LAST_PAGE * 4096);
  ce_shmat : eax = 15 → 0 ≤ b < 2 ^ 22;
  ce_shmdt : eax = 16 → 0 ≤ a < 2 ^ 22;
  ce_block : eax = 18 → ∀ pc, tasks k !! run = Some pc →
    pending_unblocks pc ≠ 0 ∨ ticks_since_last_switch k ≤ quantum pc ∨ list_empty readyqueue (lists k) = Some false;
  ce_numbros : eax = 22 → pcb_is k run (λ p, PID p ≠ 1);
}.

Definition enabled `{Layout} (P : population) (e : entry) (k : kernel) : Prop :=
  match e with
  | Clock => True
  | Keyboard key => scan_code key
  | PageFault cr2 _ buff after => current k ≠ keeper P ∧ code_write k (current k) cr2 buff after
  | SysCall eax a b c => current k ≠ keeper P ∧ call_enabled P k (current k) eax a b c
  end.

(** The population after an entry, which is as it was after most of them. *)
Definition becomes `{Layout} (e : entry) (k : kernel) (P P' : population) : Prop :=
  match e with
  | SysCall eax _ _ _ =>
    if eax =? 1 then P' = dead P (current k)
    else if (eax =? 2) && negb (bool_decide (unused P = [])) then
      ∃ child fq ufr, unused P = child :: fq ∧ P' = born P (current k) child fq ufr
    else P' = P
  | _ => P' = P
  end.

(** Each entry is enabled when it comes. *)
Fixpoint admissible `{Layout} (P : population) (es : list entry) (k : kernel) : Prop :=
  match es with
  | [] => True
  | e :: es => enabled P e k ∧
      ∀ k' P', handle_entry e k = Some (tt, k') → becomes e k P P' → still_alive P' k' → admissible P' es k'
  end.

(** The populations of a run. *)
Inductive history `{Layout} : list entry → kernel → population → kernel → population → Prop :=
  | history_nil k P : history [] k P k P
  | history_cons e es k P k1 P1 k2 P2 :
      handle_entry e k = Some (tt, k1) → becomes e k P P1 → history es k1 P1 k2 P2 → history (e :: es) k P k2 P2.

Section sequences.
Context `{LayoutOk}.
Implicit Types (k : kernel) (P : population) (run : Z) (rq bq : list Z).

(** The father of a process that is not the first. *)
Lemma father_of P k run rq bq : alive P k run rq bq → run ≠ keeper P → pcb_is k run (λ p, PID p ≠ 1) →
  ∃ father, father ∈ holders P ∧ run ∈ sons_of P father.
Proof.
  intros Ha Hne (p & Hp & Hpid). destruct (alive_run _ _ _ _ _ Ha Hne) as [Hin _].
  destruct (kp_fathers _ _ (al_kept _ _ _ _ _ Ha) run Hin) as (p' & Hp' & Hf & Hfirst). assert (p' = p) as -> by congruence.
  destruct (Z.eqb_spec (PID p) 1); [done|]. exists (parent p). split; [done|]. by apply Hf.
Qed.

(** What a service may leave. *)
Definition after P run eax k' : Prop :=
  ∃ P', still_alive P' k' ∧
    if eax =? 1 then P' = dead P run
    else if (eax =? 2) && negb (bool_decide (unused P = [])) then ∃ child fq ufr, unused P = child :: fq ∧ P' = born P run child fq ufr
    else P' = P.

Lemma after_same P run eax k' : eax ≠ 1 → eax ≠ 2 → still_alive P k' → after P run eax k'.
Proof. intros H1 H2 Hk. exists P. split; [done|]. destruct (Z.eqb_spec eax 1), (Z.eqb_spec eax 2); done. Qed.

Lemma after_wp {A} (m : MK A) P run eax k : eax ≠ 1 → eax ≠ 2 →
  wp m (λ _ k', still_alive P k') k → wp m (λ _ k', after P run eax k') k.
Proof. intros H1 H2 Hm. eapply wp_mono; [exact Hm|]. intros a k' Hk'. by apply after_same. Qed.

Lemma step_service P k run rq bq eax a b c service :
  alive P k run rq bq → run ≠ keeper P → call_enabled P k run eax a b c → znth sys_call_table eax = Some service →
  wp (service a b c) (λ _ k', after P run eax k') k.
Proof.
  intros Ha Hne [_ Hexit Hfork Hread Hwrite Hshmat Hshmdt Hblock Hbros] Hs. assert (still_alive P k) as Hk by (by exists run, rq, bq).
  pose proof (znth_Some_range _ _ _ Hs) as Hr. unfold znth in Hs. destruct (Z.ltb_spec eax 0); [lia|].
  assert (∃ n, eax = Z.of_nat n ∧ (n < 23)%nat) as (n & -> & Hn) by (exists (Z.to_nat eax); cbn in Hr; lia). rewrite Nat2Z.id in Hs. clear Hr.
  unfold sys_call_table in Hs.
  repeat (apply lookup_cons_cases in Hs as [(-> & <-)|(m & -> & Hs)]; [|try clear n; rename m into n]).
  all: cbv beta zeta; lazymatch goal with
    | |- wp sys_ni_syscall _ _ => apply after_wp; [discriminate|discriminate|]; apply wp_ret; exact Hk
    | |- wp (sys_exit ≫= _) _ _ => idtac | |- wp sys_fork _ _ => idtac
    | |- wp _ _ _ => apply after_wp; [discriminate|discriminate|]
    | _ => idtac
    end.
  - apply wp_bind. eapply wp_mono; [exact (step_exit _ _ _ _ _ Ha Hne (Hexit eq_refl))|]. intros [] k' (next & rq' & Ha').
    apply wp_ret. exists (dead P run). split; [by exists next, rq', bq|done].
  - eapply wp_mono; [exact (step_fork _ _ _ _ _ Ha Hne (Hfork eq_refl))|]. intros r k' [(_ & Hun & ->)|(child & fq & ufr & Hun & _ & Ha')].
    + exists P. split; [done|]. rewrite Hun. by rewrite bool_decide_true.
    + exists (born P run child fq ufr). split; [by exists run, (rq ++ [child]), bq|]. rewrite Hun, bool_decide_false by done. by exists child, fq, ufr.
  - destruct (Hread eq_refl) as (? & ? & ?). by apply (step_read _ _ run rq bq).
  - destruct (Hwrite eq_refl) as (? & ? & ?). by apply (step_write _ _ run rq bq).
  - unfold sys_gettime. by apply wp_gets.
  - apply (step_screen P k run rq bq _ Ha); [intros c0; unfold Console.sys_gotoxy; by destruct (_ || _); eauto|apply gives_zoom_cons, gives_gotoxy].
  - apply (step_screen P k run rq bq _ Ha); [intros c0; unfold Console.sys_set_color; by destruct (_ || _); eauto|apply gives_zoom_cons, gives_set_color].
  - exact (step_shmat _ _ _ _ _ _ _ Ha Hne (Hshmat eq_refl)).
  - eapply wp_mono; [exact (step_shmdt _ _ _ _ _ _ Ha Hne (Hshmdt eq_refl))|]. by intros r k' [Hk' _].
  - exact (step_shmrm _ _ _ _ _ _ Ha).
  - destruct (alive_pcb _ _ _ _ _ Ha) as (pc & Hpc & _). apply (step_block _ _ _ _ _ _ Ha Hne Hpc).
    destruct (Hblock eq_refl pc Hpc) as [?|[?|E]]; [by left|right; by left|]. right. right. intros ->.
    rewrite (ready_empty _ _ _ _ _ _ (proj1 (al_inv _ _ _ _ _ Ha))) in E. discriminate E.
  - by apply (step_unblock _ _ run rq bq).
  - destruct (alive_pcb _ _ _ _ _ Ha) as (pc & Hpc & _). unfold sys_getpid. kstep. kstep.
    rewrite (up_current _ _ _ (alive_process _ _ _ _ _ Ha Hne)). kstep. by kstep.
  - eapply wp_mono; [by eapply (step_numsons P)|]. by intros r k' [_ ->].
  - destruct (father_of _ _ _ _ _ Ha Hne (Hbros eq_refl)) as (father & Hf & (b1 & b2 & Hb)%list_elem_of_split).
    eapply wp_mono; [by eapply (step_numbros P)|]. by intros r k' [_ ->].
  - by rewrite lookup_nil in Hs.
Qed.

Lemma step_entry_enabled P k run rq bq e : alive P k run rq bq → enabled P e k →
  wp (handle_entry e) (λ _ k', ∃ P', becomes e k P P' ∧ still_alive P' k') k.
Proof.
  intros Ha He. pose proof (current_run _ _ _ _ _ _ (proj1 (al_inv _ _ _ _ _ Ha))) as Hc.
  destruct e as [|key|cr2 ip buff aft|eax a b c]; cbn [handle_entry enabled becomes] in *.
  - eapply wp_mono; [by eapply (step_clock P)|]. intros [] k' Hk'. by exists P.
  - apply wp_bind. eapply wp_mono; [exact (step_entry P _ _ _ _ Ha)|]. intros [] k1 [Ha1 _].
    eapply wp_mono; [exact (step_key P _ run rq bq key Ha1 He)|]. intros [] k' [Hk' _]. exists P. split; [done|by exists run, rq, bq].
  - rewrite Hc in He. destruct He as [Hne Hw]. apply wp_bind. eapply wp_mono; [exact (step_entry P _ _ _ _ Ha)|]. intros [] k1 (Ha1 & _ & Hpt).
    apply wp_bind. eapply wp_mono; [exact (step_code_write P _ _ _ _ cr2 ip buff aft Ha1 Hne (code_write_same _ k1 _ _ _ _ Hpt Hw))|].
    intros ok k' (-> & Hk' & _). apply wp_ret. exists P. split; [done|by exists run, rq, bq].
  - rewrite Hc in *. destruct He as [Hne Hce]. apply wp_bind. eapply wp_mono; [exact (step_sysenter P _ _ _ _ Ha)|].
    intros [] k1 (Ha1 & v & ->). set (k1 := set_esp v k) in *.
    assert (Hce1 : call_enabled P k1 run eax a b c) by (destruct Hce; split; assumption).
    enough (wp (sys_call eax a b c) (λ _ k', after P run eax k') k1) as Hw.
    { apply wp_bind. eapply wp_mono; [exact Hw|]. intros r k' (P' & Hk' & E). apply wp_ret. by exists P'. }
    assert (still_alive P k1) as Hk1 by (by exists run, rq, bq).
    unfold sys_call. destruct (Z.ltb_spec eax 0); [apply after_wp; [lia|lia|by apply wp_ret]|].
    destruct (Z.ltb_spec MAX_SYSCALL eax) as [Hgt|Hle]; [change MAX_SYSCALL with 23 in Hgt; apply after_wp; [lia|lia|by apply wp_ret]|].
    destruct (znth_in_range sys_call_table eax) as [service Hs]; [pose proof (ce_table _ _ _ _ _ _ _ Hce); unfold MAX_SYSCALL in *; lia|]. rewrite Hs.
    by apply (step_service P k1 run rq bq eax a b c service).
Qed.

Lemma entries_alive es P k run rq bq : alive P k run rq bq → admissible P es k →
  wp (handle_entries es) (λ _ k', ∃ P', history es k P k' P' ∧ still_alive P' k') k.
Proof.
  revert P k run rq bq. induction es as [|e es IH]; intros P k run rq bq Ha Had; cbn [handle_entries].
  - apply wp_ret. exists P. split; [apply history_nil|by exists run, rq, bq].
  - destruct Had as [He Had].
    destruct (proj1 (wp_run _ _ _) (step_entry_enabled _ _ _ _ _ _ Ha He)) as ([] & k1 & E & P1 & Hb & Ha1).
    apply wp_bind, wp_run. exists tt, k1. split; [done|]. pose proof (Had _ _ E Hb Ha1) as Had1. destruct Ha1 as (run1 & rq1 & bq1 & Ha1).
    eapply wp_mono; [exact (IH _ _ _ _ _ Ha1 Had1)|]. intros [] k' (P' & Hh & Hk'). exists P'. split; [by eapply history_cons|done].
Qed.
End sequences.

(** ** After the start *)

(** One process, eight free PCBs and the idle process. *)
Definition first_population `{Layout} : population := mk_population [task1] free0 idle0 (λ _, []) (λ _, boot_ufr).

Section first.
Context `{LayoutOk} (k k' : kernel).
Context (Hb : booted k k') (Hlk : dom (lists k) = dom (lists boot_image)).
Context (Hpar : ∀ t, is_task t → parent <$> tasks k !! t = Some NULL).

Lemma first_well_formed : well_formed first_population.
Proof.
  destruct start_tasks as (_ & _ & Hne). split.
  - unfold holders. cbn. apply NoDup_cons. split; [by rewrite list_elem_of_singleton|apply NoDup_singleton].
  - intros u c _ ?%elem_of_nil. done.
  - intros t u p q ->%list_elem_of_singleton ->%list_elem_of_singleton. done.
Qed.

Lemma first_parent t p : is_task t → tasks k' !! t = Some p → parent p = NULL.
Proof. intros Ht Hp. pose proof (bo_parents _ _ Hb t Ht) as E. rewrite Hpar, Hp in E by done. by injection E. Qed.

Lemma first_shared id s : znth (shared_pages k') id = Some s →
  znth boot_phys (frame s) ≠ Some Frames.FREE_FRAME ∧ ∀ p, user_page p → boot_ufr p ≠ frame s.
Proof.
  rewrite (bo_shared _ _ Hb). intros Hs. assert (s ∈ fresh_page <$> shared_frames) as (f & -> & Hf)%list_elem_of_fmap.
  { unfold znth in Hs. destruct (id <? 0); [done|]. by eapply list_elem_of_lookup_2. }
  assert (Forall (λ f, znth boot_phys f ≠ Some Frames.FREE_FRAME ∧ Forall (λ p, boot_ufr p ≠ f) user_pages) shared_frames) as Hall
    by (apply (bool_decide_unpack _); by vm_compute).
  destruct (proj1 (Forall_forall _ _) Hall f Hf) as [H1 H2]. cbn [fresh_page frame]. split; [exact H1|].
  intros p Hp%user_pages_in. exact (proj1 (Forall_forall _ _) H2 p Hp).
Qed.

Lemma first_slots t i : is_task t → 0 ≤ i < TOTAL_PAGES → is_Some (ptes k' !! slot (pt_of t) i) ∧
  (USER_LAST_PAGE ≤ i → ptes k' !! slot (pt_of t) i = Some 0).
Proof.
  intros Ht Hi. destruct (bo_tables _ _ Hb) as (m & Hm & Hu & Hout). destruct start_tasks as (_ & H1 & _).
  destruct (decide (t = task1 ∧ user_page i)) as [[-> Hp]|Hno].
  - split; [rewrite (Hu i (boot_ufr i)); [done|done|by apply boot_ufr_ok]|]. destruct Hp. lia.
  - rewrite Hout, (proj2 (Hm t Ht) i Hi).
    + split; [done|]. intros Hge. unfold kernel_table. change USER_LAST_PAGE with 284 in Hge. destruct (Z.ltb_spec i NUM_PAG_KERNEL) as [Hlt|_]; [unfold NUM_PAG_KERNEL in Hlt; lia|].
      by rewrite andb_false_r.
    + intros j Hj E. change USER_FIRST_PAGE with 256 in Hj. change USER_LAST_PAGE with 284 in Hj.
      apply pt_slot_inj in E as [-> ->]; [|done|done|done|unfold TOTAL_PAGES; lia]. apply Hno. split; [done|].
      split; [change USER_FIRST_PAGE with 256; lia|change USER_LAST_PAGE with 284; lia].
Qed.

Lemma first_kept : kept first_population k'.
Proof.
  destruct start_tasks as (Hi & H1 & Hne). destruct (bo_tables _ _ Hb) as (m & Hm & Hu & Hout). split.
  - apply (bo_running _ _ Hb).
  - intros t ->%list_elem_of_singleton. apply (bo_space _ _ Hb).
  - intros t Ht. split; [|intros i Hi'; by apply first_slots]. rewrite Hout; [by apply Hm|].
    intros j Hj. apply dir_pt_slot; [done|done|]. change USER_FIRST_PAGE with 256 in Hj. change USER_LAST_PAGE with 284 in Hj. unfold TOTAL_PAGES. lia.
  - intros t i Ht Hi'. left. apply first_slots; [done|change USER_LAST_PAGE with 284 in Hi'; lia|lia].
  - intros t a Ht%task_list_spec Ha. rewrite (bo_links _ _ Hb), Hlk. apply image_links. apply elem_of_app. right. apply list_elem_of_bind. by exists t.
  - exact (booted_shm _ _ Hb).
  - intros t p _ Hp. rewrite (bo_phys _ _ Hb). by apply boot_held.
  - intros id s Hs. rewrite (bo_phys _ _ Hb). destruct (first_shared id s Hs) as [? Hap]. split; [done|]. intros t p _. apply Hap.
  - intros t ->%list_elem_of_singleton. destruct (bo_task1 _ _ Hb) as (p & Hp & HP & _). exists p. split; [done|].
    pose proof (first_parent task1 p H1 Hp) as E. split; [|by rewrite HP].
    intros u Hu'. rewrite elem_of_nil, E. split; [done|]. intros ->. unfold holders in Hu'. cbn [first_population keeper members] in Hu'.
    apply elem_of_cons in Hu' as [Hu'| Hu'%list_elem_of_singleton];
      [destruct (task_bounds idle0 Hi)|destruct (task_bounds task1 H1)]; unfold NULL in *; lia.
  - destruct (bo_inv _ _ Hb) as [Hpre _]. destruct (p_idle _ _ _ _ _ _ Hpre) as [_ (p & Hp & _)]. change (idle_task (set_esp _ k')) with (idle_task k') in Hp.
    rewrite (bo_idle _ _ Hb) in Hp. exists p. split; [exact Hp|]. exact (first_parent idle0 p Hi Hp).
Qed.

(** The first process at its first entry into the kernel. *)
Lemma first_alive : typed k' → alive first_population (set_esp (tss_esp0 k') k') task1 [] [].
Proof.
  intros Hty. destruct start_tasks as (_ & _ & Hne). split.
  - exact first_well_formed.
  - exact (bo_idle _ _ Hb).
  - apply (sched_inv_perm _ _ _ _ _ boot_family); [|exact (bo_inv _ _ Hb)]. unfold families, holders, boot_family. cbn. apply Permutation_swap.
  - unfold user_of. rewrite bool_decide_false; [done|]. cbn [first_population keeper]. congruence.
  - by apply (kept_same _ k'); [..|exact first_kept].
  - by destruct Hty.
Qed.
End first.

Lemma start_alive `{LayoutOk} fr idt_addr sh : fills_gates sh → image_fits (loaded_image fr) →
  wp (main idt_addr sh) (λ _ k, alive first_population (set_esp (tss_esp0 k) k) task1 [] []) (loaded_image fr).
Proof.
  intros Hg Hfit. pose proof (boot_run (loaded_image fr) idt_addr sh (loaded_image_ok fr) Hg Hfit) as Hw.
  eapply wp_mono; [exact (wp_gives _ _ _ _ _ (gives_main idt_addr sh) (loaded_typed fr) Hw)|].
  intros [] k' [Hty Hb]. apply (first_alive (loaded_image fr)); [exact Hb|reflexivity| |exact Hty].
  intros t Ht. change (parent <$> tasks boot_image !! t = Some NULL). by rewrite boot_image_pcb.
Qed.

(** C4: no process is lost.  After the start the population is the first process,
    alive.  From a state in which every process is alive - running, ready or
    blocked, in one place only, with its data pages mapped to frames that no
    user page of another process is mapped to and its code pages to frames that
    its sons may share, none of them free, and in the list of sons of its parent -
    any sequence of clock interrupts, keys, writes of a process to its read-only code
    (page faults that are granted) and system calls, each enabled when it
    comes, runs without a fault and leaves every process alive, with every value
    in the range of its type.  The population changes with [sys_fork], which adds
    one process and takes one free PCB, and with [sys_exit], which removes the
    running process, gives its PCB back and its sons to the idle process; no
    other entry changes it. *)
Theorem no_process_is_lost `{LayoutOk} :
  (∀ fr idt_addr sh, fills_gates sh → image_fits (loaded_image fr) →
     wp (main idt_addr sh) (λ _ k, alive first_population (set_esp (tss_esp0 k) k) task1 [] []) (loaded_image fr)) ∧
  (∀ P es k run rq bq, alive P k run rq bq → admissible P es k →
     wp (handle_entries es) (λ _ k', ∃ P', history es k P k' P' ∧ still_alive P' k') k).
Proof. split; [apply start_alive|intros P es k run rq bq; apply entries_alive]. Qed.

(** The first process makes another one, then interrupts come. *)
Definition example_entries : list entry := [SysCall 2 0 0 0; Clock; Keyboard 0x1E; Clock].

Lemma interrupts_admissible `{Layout} P k : admissible P [Clock; Keyboard 0x1E; Clock] k.
Proof.
  split; [exact I|]. intros k2 P2 _ _ _. split; [split; [by vm_compute|right; by vm_compute]|]. intros k3 P3 _ _ _. split; [exact I|]. intros. exact I.
Qed.

Lemma fork_enabled `{Layout} P k run : room k run → 1 < next_pid k → call_enabled P k run 2 0 0 0.
Proof. intros Hr Hp. split; done. Qed.

Lemma example_alive : ∃ k', main (H := example_layout) 0x5000 (mret tt) (loaded_image example_frames) = Some (tt, k') ∧
  booted (H := example_layout) (loaded_image example_frames) k' ∧
  alive (H := example_layout) (first_population (H := example_layout)) (set_esp (tss_esp0 k') k') (task1 (H := example_layout)) [] [].
Proof.
  destruct example_main as (k' & Hm & Hb). exists k'. split; [exact Hm|]. split; [exact Hb|].
  apply (first_alive (loaded_image example_frames)); [exact Hb|reflexivity| |exact (proj1 (gives_main 0x5000 (mret tt) _ _ _ Hm (loaded_typed example_frames)))].
  intros t Ht. change (parent <$> tasks (boot_image (H := example_layout)) !! t = Some NULL). by rewrite boot_image_pcb.
Qed.

(** The first process may write to its code. *)
Definition example_write : entry := PageFault (PAG_LOG_INIT_CODE * 4096 + 12) 0x100010 (rubbish 16) (rubbish 8).

Lemma example_code_write : ∃ k, alive (H := example_layout) (first_population (H := example_layout)) k (task1 (H := example_layout)) [] [] ∧
  admissible (H := example_layout) (first_population (H := example_layout)) [example_write] k.
Proof.
  destruct example_alive as (k' & _ & Hb & Ha). exists (set_esp (tss_esp0 k') k'). split; [exact Ha|]. split; [|intros; exact I].
  cbn [enabled example_write]. rewrite (current_run _ _ _ _ _ _ (proj1 (al_inv _ _ _ _ _ Ha))). split; [by vm_compute|].
  destruct (bo_tables _ _ Hb) as (m & _ & Hu & _). split; [split; by vm_compute| |split; cbn; lia].
  change ((PAG_LOG_INIT_CODE * 4096 + 12) / 4096) with PAG_LOG_INIT_CODE.
  exists (user_entry PAG_LOG_INIT_CODE (boot_ufr PAG_LOG_INIT_CODE)). split; [|by vm_compute].
  apply Hu; [by vm_compute|]. by apply boot_ufr_ok; vm_compute.
Qed.

Lemma example_start : ∃ k', main (H := example_layout) 0x5000 (mret tt) (loaded_image example_frames) = Some (tt, k') ∧
  let k := set_esp (tss_esp0 k') k' in
  alive (H := example_layout) (first_population (H := example_layout)) k (task1 (H := example_layout)) [] [] ∧
  admissible (H := example_layout) (first_population (H := example_layout)) example_entries k ∧ Circ.contents (cbuff k) = [].
Proof.
  destruct example_alive as (k' & Hm & Hb & Ha). exists k'. split; [exact Hm|]. cbv zeta. split; [exact Ha|]. pose proof (current_run _ _ _ _ _ _ (proj1 (al_inv _ _ _ _ _ Ha))) as Hc.
  assert (Hpid : next_pid k' = 2) by (rewrite (bo_pid _ _ Hb); reflexivity).
  pose proof (booted_fork (H := example_layout) _ _ near_end Hb ltac:(reflexivity) ltac:(reflexivity)) as Hr.
  split; [|exact (proj2 (bo_keys _ _ Hb))]. split; [|intros k1 P1 _ _ _; apply interrupts_admissible].
  cbn [enabled]. rewrite Hc. split; [by vm_compute|]. apply fork_enabled.
  - split; [exact (fr_frames _ _ _ _ _ _ _ _ _ Hr)|exact (fr_pages _ _ _ _ _ _ _ _ _ Hr)].
  - change (1 < next_pid k'). rewrite Hpid. exact eq_refl.
Qed.

Lemma no_process_is_lost_witness : ∃ k,
  wp (handle_entries (H := example_layout) example_entries) (λ _ k', ∃ P', history (H := example_layout) example_entries k first_population k' P' ∧ still_alive P' k') k ∧
  ∃ k1, wp (handle_entries (H := example_layout) [example_write]) (λ _ k', ∃ P', history (H := example_layout) [example_write] k1 first_population k' P' ∧ still_alive P' k') k1.
Proof.
  destruct example_start as (k' & _ & Ha & Had & _). destruct example_code_write as (k1 & Ha1 & Had1). exists (set_esp (tss_esp0 k') k').
  split; [exact (proj2 no_process_is_lost _ _ _ _ _ _ Ha Had)|]. exists k1. exact (proj2 no_process_is_lost _ _ _ _ _ _ Ha1 Had1).
Defined.

(** ** Any run of the machine *)

(** The machine, from the first instruction of [main] on: the start and the entries
    that follow. *)
Definition machine `{Layout} (idt_addr : Z) (set_handlers : M tables unit) (es : list entry) : MK unit :=
  main idt_addr set_handlers ;; handle_entries es.

(** C9: the state stays well typed.  From the image the boot sector loads, after
    [main] and any sequence of interrupts, page faults and system calls, with
    any numbers and arguments, whatever each of them answers: the fields of
    every PCB and of every shared page and the counters of the kernel are in
    the range of their C types, each table entry has 32 bits and each reference
    count 8, the indices of the ring buffer are in its array and the cursor is
    on the screen. *)
Theorem kernel_stays_typed `{Layout} fr idt_addr sh es k :
  machine idt_addr sh es (loaded_image fr) = Some (tt, k) → typed k.
Proof.
  assert (gives typed (machine idt_addr sh es) (λ _, True)) as Hg.
  { unfold machine. apply (gives_bind typed _ _ (λ _, True)); [apply gives_main|]. intros [] _. apply gives_handle_entries. }
  intros E. exact (proj1 (Hg _ _ _ E (loaded_typed fr))).
Qed.

(** [sysenter] does not use the stack pointer it finds. *)
Lemma call_from_user `{Layout} eax a b c es v k :
  handle_entries (SysCall eax a b c :: es) (set_esp v k) = handle_entries (SysCall eax a b c :: es) k.
Proof.
  assert (sysenter (set_esp v k) = sysenter k) as Hs.
  { unfold sysenter, mbind, M_bind, ask. change (msrs (set_esp v k)) with (msrs k). by destruct (msrs k !! 0x175). }
  cbn [handle_entries handle_entry]. unfold mbind, M_bind. by rewrite Hs.
Qed.

(** The start and the entries of the example. *)
Lemma example_life : ∃ k, machine (H := example_layout) 0x5000 (mret tt) example_entries (loaded_image example_frames) = Some (tt, k).
Proof.
  destruct example_start as (k' & Hm & Ha & Had & _). pose proof (entries_alive _ _ _ _ _ _ Ha Had) as Hw.
  apply wp_run in Hw as ([] & k & E & _). exists k. unfold machine, mbind at 1, M_bind at 1. rewrite Hm.
  unfold example_entries in *. by rewrite call_from_user in E.
Qed.

Lemma kernel_stays_typed_witness : ∃ k,
  machine (H := example_layout) 0x5000 (mret tt) example_entries (loaded_image example_frames) = Some (tt, k) ∧ typed k.
Proof.
  destruct example_life as [k E]. exists k. split; [exact E|]. exact (kernel_stays_typed ∅ 0x5000 (mret tt) example_entries k E).
Defined.
