(* ===== verification/Bootsect.v ===== *)
(** * The boot sector (bootsect.S)

    From the floppy disk to the first instruction of [main]: the sector moves
    itself out of the way, reads the image track by track with the BIOS, sets up
    the interrupt controllers and opens the address line 20.  Registers and
    words have 16 bits; the BIOS, the disk and the line are parameters.  The last
    part composes the image builder, the boot sector and [main]. *)

From S2P Require Import Build.
From S2P Require Import Prelude CInt Memory Errno Console Paging Hardware Descriptors Kernel Mm Space Words Sched Boot Interrupt System UserIO Types Entries Population Life.

#[local] Notation length := Datatypes.length.

(** ** Memory *)

Definition BOOTSEG : Z := 0x07C0.
Definition INITSEG : Z := 0x9000.
Definition SYSSEG : Z := 0x1000.
Definition SETUPSECS : Z := 0.
(** [sectors], a 1.44 MB disk *)
Definition SEC_PISTA : Z := 18.

(** A segment and an offset. *)
Definition linear (seg off : Z) : Z := seg * 16 + off.

(** A 16-bit load and store. *)
Definition load16 (m : flat) (a : Z) : Z := pread m a + 2 ^ 8 * pread m (a + 1).
Definition store16 (a w : Z) (m : flat) : flat := pwrite (a + 1) (Z.shiftr w 8) (pwrite a w m).

(** [rep movsw] with [cx] words to go, from [BOOTSEG:si] to [INITSEG:di]. *)
Fixpoint rep_movsw (cx : nat) (si di : Z) (m : flat) : flat :=
  match cx with
  | O => m
  | S cx => rep_movsw cx (u16 (si + 2)) (u16 (di + 2)) (store16 (linear INITSEG di) (load16 m (linear BOOTSEG si)) m)
  end.

Definition move_sector (m : flat) : flat := rep_movsw 256 0 0 m.

(** Two fields of the sector after the move; build.c writes the second. *)
Definition setup_sects (m : flat) : Z := pread m (linear INITSEG 497).
Definition syssize (m : flat) : Z := load16 m (linear INITSEG 500).

(** ** The loader *)

(** [int 0x13]: what the BIOS makes of the memory, called with %ax, %bx, %cx, %dx and
    %es. *)
Class Bios := int13 : Z → Z → Z → Z → Z → flat → flat.

(** The registers and words that the loader keeps from a track to the next. *)
Record loader := mk_loader { es : Z; bx : Z; sread : Z; head : Z; track : Z; mem : flat }.

Definition set_es (v : Z) (l : loader) : loader := mk_loader v (bx l) (sread l) (head l) (track l) (mem l).
Definition set_bx (v : Z) (l : loader) : loader := mk_loader (es l) v (sread l) (head l) (track l) (mem l).
Definition set_sread (v : Z) (l : loader) : loader := mk_loader (es l) (bx l) v (head l) (track l) (mem l).
Definition set_head (v : Z) (l : loader) : loader := mk_loader (es l) (bx l) (sread l) v (track l) (mem l).
Definition set_track (v : Z) (l : loader) : loader := mk_loader (es l) (bx l) (sread l) (head l) v (mem l).
Definition set_mem (v : flat) (l : loader) : loader := mk_loader (es l) (bx l) (sread l) (head l) (track l) v.

Abbreviation ML := (M loader).

Section loader.
Context `{Bios}.

(** [mov ch,dl] and [mov dh,dl] replace the high byte; the carry flag, which says
    that the read has failed, is not tested. *)
Definition read_track (ax : Z) : ML unit :=
  l ← gets (λ l, l);
  let cx := u16 (sread l + 1) in
  let cx := u8 cx + Z.shiftl (u8 (track l)) 8 in
  let dx := u8 (head l) + Z.shiftl (u8 (head l)) 8 in
  let dx := Z.land dx 0x0100 in
  let ax := u8 ax + Z.shiftl 2 8 in
  modify (λ l, set_mem (int13 ax (bx l) cx dx (es l) (mem l)) l).

(** From [ok1_read]: how many sectors are left of the track, or of the segment. *)
Definition sectors_to_read (l : loader) : Z :=
  let ax := u16 (SEC_PISTA - sread l) in
  let cx := u16 (Z.shiftl ax 9) + bx l in
  if (cx <? 2 ^ 16) || (u16 cx =? 0) then ax else Z.shiftr (u16 (0 - bx l)) 9.

(** From [ok2_read] to [ok3_read]: the next sector, side and track. *)
Definition next_sector (ax : Z) : ML unit :=
  l ← gets (λ l, l);
  let ax := u16 (ax + sread l) in
  if negb (ax =? SEC_PISTA) then modify (set_sread ax)
  else
    let ax := u16 (1 - head l) in
    (if negb (ax =? 0) then mret tt else modify (λ l, set_track (u16 (track l + 1)) l)) ;;
    modify (set_head ax) ;;
    modify (set_sread 0).

(** From [ok3_read] on: the next place in memory; [add ah,#0x10]. *)
Definition next_place (ax : Z) : ML unit :=
  l ← gets (λ l, l);
  let s := bx l + u16 (Z.shiftl ax 9) in
  if s <? 2 ^ 16 then modify (set_bx s)
  else
    modify (λ l, set_es (u8 (es l) + Z.shiftl (u8 (Z.shiftr (es l) 8 + 0x10)) 8) l) ;;
    modify (set_bx 0).

(** From [ok1_read] to the jump back. *)
Definition read_pass : ML unit :=
  ax ← gets sectors_to_read;
  read_track ax ;;
  next_sector ax ;;
  next_place ax.

Fixpoint rp_read (fuel : nat) : ML unit :=
  match fuel with
  | O => fault
  | S fuel =>
      l ← gets (λ l, l);
      if syssize (mem l) <? u16 (es l - SYSSEG) then mret tt
      else read_pass ;; rp_read fuel
  end.

(** [sread] is 0 in the sector: [mov sread,al] sets its low byte.  [die] is an
    endless loop. *)
Definition read_it (fuel : nat) : ML unit :=
  modify (λ l, set_sread (Z.land (sread l) 0xff00 + u8 (setup_sects (mem l) + 1)) l) ;;
  l ← gets (λ l, l);
  if negb (Z.land (es l) 0x0fff =? 0) then fault
  else modify (set_bx 0) ;; rp_read fuel.

(** The sector up to the call of [kill_motor]. *)
Definition load_system (fuel : nat) : ML unit :=
  modify (λ l, set_mem (move_sector (mem l)) l) ;;
  modify (set_es SYSSEG) ;;
  read_it fuel.
End loader.

(** What the BIOS starts: the sector at [BOOTSEG], its words 0. *)
Definition power_on (m : flat) : loader := mk_loader 0 0 0 0 0 m.

(** What the BIOS documents of function 2: [n] sectors of one track of the disk of
    18 sectors, 2 sides and 80 tracks, to a place that does not cross a
    boundary of 64 KB. *)
Class BiosOk `{Bios} (disk : Z → Z) : Prop := int13_reads : ∀ n b s c h seg m x,
  1 ≤ n → 1 ≤ s → s + n ≤ 19 → 0 ≤ c < 80 → 0 ≤ h < 2 →
  0 ≤ seg < 2 ^ 16 → seg mod 2 ^ 12 = 0 → 0 ≤ b → b + 512 * n ≤ 2 ^ 16 →
  pread (int13 (n + 2 * 2 ^ 8) b (s + c * 2 ^ 8) (h * 2 ^ 8) seg m) x =
  if bool_decide (linear seg b ≤ x < linear seg b + 512 * n) then u8 (disk (((c * 2 + h) * 18 + (s - 1)) * 512 + (x - linear seg b)))
  else pread m x.

(** ** The loader is right *)

(** The move of the sector. *)
Lemma load16_bytes (m : flat) a : u8 (load16 m a) = pread m a ∧ u8 (Z.shiftr (load16 m a) 8) = pread m (a + 1).
Proof.
  pose proof (pread_is_u8 m a). pose proof (pread_is_u8 m (a + 1)). unfold load16. rewrite Z.shiftr_div_pow2 by lia. split; wrap_lia.
Qed.

Lemma movsw_run (n : nat) (m : flat) i : 0 ≤ i → i + 2 * Z.of_nat n ≤ 512 → ∀ x,
  pread (rep_movsw n i i m) x = if bool_decide (linear INITSEG i ≤ x < linear INITSEG (i + 2 * Z.of_nat n)) then pread m (x - linear INITSEG 0 + linear BOOTSEG 0) else pread m x.
Proof.
  revert m i. induction n as [|n IH]; intros m i Hi Hn x; [by rewrite bool_decide_false by (unfold linear; lia)|].
  cbn [rep_movsw]. assert (u16 (i + 2) = i + 2) as -> by wrap_lia. rewrite IH by lia.
  assert (Hst : ∀ y, pread (store16 (linear INITSEG i) (load16 m (linear BOOTSEG i)) m) y =
    if bool_decide (linear INITSEG i ≤ y < linear INITSEG (i + 2)) then pread m (y - linear INITSEG 0 + linear BOOTSEG 0) else pread m y).
  { intros y. unfold store16. rewrite !pread_pwrite. destruct (load16_bytes m (linear BOOTSEG i)) as [Hb0 Hb1].
    destruct (decide (linear INITSEG i + 1 = y)) as [<-|H1].
    - rewrite bool_decide_true by (unfold linear; lia). rewrite Hb1. f_equal. unfold linear. lia.
    - destruct (decide (linear INITSEG i = y)) as [<-|H2].
      + rewrite bool_decide_true by (unfold linear; lia). rewrite Hb0. f_equal. unfold linear. lia.
      + rewrite bool_decide_false by (unfold linear in *; lia). done. }
  rewrite !Hst. unfold linear, INITSEG, BOOTSEG in *. repeat case_bool_decide; done || lia.
Qed.

Lemma shiftl9 n : 0 ≤ n ≤ 127 → u16 (Z.shiftl n 9) = 512 * n.
Proof. intros Hn. rewrite Z.shiftl_mul_pow2 by lia. change (2 ^ 9) with 512. wrap_lia. Qed.

Lemma next_segment e : 0 ≤ e ≤ 8 → u8 ((e + 1) * 2 ^ 12) + Z.shiftl (u8 (Z.shiftr ((e + 1) * 2 ^ 12) 8 + 0x10)) 8 = (e + 2) * 2 ^ 12.
Proof.
  intros He. assert (e = 0 ∨ e = 1 ∨ e = 2 ∨ e = 3 ∨ e = 4 ∨ e = 5 ∨ e = 6 ∨ e = 7 ∨ e = 8) as Hc by lia.
  repeat (destruct Hc as [->|Hc]; [reflexivity|]). by subst.
Qed.

Section loading.
Context `{BiosOk}.
Implicit Types (l : loader) (m : flat) (p n : Z).

(** [p] bytes of the image have been loaded over the memory [m]: [512 * k] of them
    in the segment [e]. *)
Record loaded m e k l : Prop := {
  lo_segment : 0 ≤ e ≤ 8 ∧ 0 ≤ k < 128;
  lo_place : es l = (e + 1) * 2 ^ 12 ∧ bx l = 512 * k;
  lo_next : (track l * 2 + head l) * 18 + sread l = 1 + 128 * e + k;
  lo_ranges : 0 ≤ sread l < 18 ∧ 0 ≤ head l < 2;
  lo_mem : ∀ x, pread (mem l) x = if bool_decide (2 ^ 16 ≤ x < 2 ^ 16 + (2 ^ 16 * e + 512 * k)) then u8 (disk (512 + (x - 2 ^ 16))) else pread m x;
}.

Lemma sectors_spec m e k l : loaded m e k l → sectors_to_read l = Z.min (18 - sread l) (128 - k).
Proof.
  intros [[_ Hk] [_ Hb] _ [Hs _] _]. unfold sectors_to_read, SEC_PISTA. rewrite Hb.
  assert (u16 (18 - sread l) = 18 - sread l) as -> by wrap_lia. rewrite shiftl9 by lia.
  destruct (Z.ltb_spec (512 * (18 - sread l) + 512 * k) (2 ^ 16)) as [Hlt|Hge]; cbn [orb]; [lia|].
  destruct (Z.eqb_spec (u16 (512 * (18 - sread l) + 512 * k)) 0) as [Hz|Hz].
  { assert (512 * (18 - sread l) + 512 * k = 2 ^ 16) by wrap_lia. lia. }
  assert (512 * (18 - sread l) + 512 * k ≠ 2 ^ 16) by (intros E; by rewrite E in Hz).
  rewrite Z.shiftr_div_pow2 by lia. change (2 ^ 9) with 512. wrap_lia.
Qed.

(** A call of the BIOS stays in the track and in the segment, and brings the next
    sectors. *)
Lemma read_track_run m e k l (Q : unit → loader → Prop) : loaded m e k l →
  let n := Z.min (18 - sread l) (128 - k) in
  (∀ m', (∀ x, pread m' x = if bool_decide (2 ^ 16 ≤ x < 2 ^ 16 + (2 ^ 16 * e + 512 * (k + n))) then u8 (disk (512 + (x - 2 ^ 16))) else pread m x) →
     Q tt (set_mem m' l)) → wp (read_track n) Q l.
Proof.
  intros [[He Hk] [Hes Hb] Hn [Hs Hh] Hm] n HQ. unfold read_track. apply wp_bind, wp_gets, wp_modify, HQ. intros x. cbv zeta.
  assert (Ht : 0 ≤ track l < 80) by lia.
  assert (u8 (u16 (sread l + 1)) = sread l + 1) as -> by wrap_lia.
  assert (u8 (track l) = track l) as -> by wrap_lia. assert (u8 (head l) = head l) as -> by wrap_lia.
  assert (u8 n = n) as -> by wrap_lia. rewrite !Z.shiftl_mul_pow2 by lia.
  assert (Z.land (head l + head l * 2 ^ 8) 0x0100 = head l * 2 ^ 8) as ->.
  { assert (head l = 0 ∨ head l = 1) as [->| ->] by lia; reflexivity. }
  rewrite int13_reads by (rewrite ?Hes; try rewrite Hb; try apply Z_mod_mult; lia). rewrite Hm. unfold linear. rewrite Hes, Hb.
  repeat case_bool_decide; try lia; try reflexivity.
  - do 2 f_equal. lia.
Qed.

Lemma next_sector_run n q l (Q : unit → loader → Prop) : (track l * 2 + head l) * 18 + sread l = 1 + q → 0 ≤ q ≤ 1024 →
  0 ≤ sread l < 18 → 0 ≤ head l < 2 → 0 < n ≤ 18 - sread l →
  (∀ l', es l' = es l → bx l' = bx l → mem l' = mem l → (track l' * 2 + head l') * 18 + sread l' = 1 + q + n →
     0 ≤ sread l' < 18 → 0 ≤ head l' < 2 → Q tt l') → wp (next_sector n) Q l.
Proof.
  intros Hn Hq Hs Hh Hn0 HQ. unfold next_sector, SEC_PISTA. apply wp_bind, wp_gets.
  assert (u16 (n + sread l) = n + sread l) as -> by wrap_lia. assert (Ht : 0 ≤ track l < 80) by lia.
  destruct (Z.eqb_spec (n + sread l) 18) as [E|E]; cbn [negb].
  2: { apply wp_modify, HQ; cbn; try done; lia. }
  apply wp_bind. assert (head l = 0 ∨ head l = 1) as [E0|E0] by lia; rewrite E0 in *;
    [change (u16 (1 - 0)) with 1|change (u16 (1 - 1)) with 0]; cbn [Z.eqb negb].
  - apply wp_ret, wp_bind, wp_modify, wp_modify, HQ; cbn; try done; lia.
  - apply wp_modify, wp_bind, wp_modify, wp_modify, HQ; cbn; try done.
    assert (u16 (track l + 1) = track l + 1) as -> by wrap_lia. lia.
Qed.

(** A pass of the loop brings at least a sector, and ends in the segment or at the
    start of the next one. *)
Lemma pass_run m e k l (Q : unit → loader → Prop) : loaded m e k l → e < 8 →
  (∀ l' e' k', loaded m e' k' l' → 128 * e + k < 128 * e' + k' ≤ 128 * (e + 1) → Q tt l') →
  wp read_pass Q l.
Proof.
  intros Hl He8 HQ. unfold read_pass. apply wp_bind, wp_gets. rewrite (sectors_spec _ _ _ _ Hl). set (n := Z.min _ _).
  pose proof Hl as [[He Hk] [Hes Hb] Hn [Hs Hh] Hm]. assert (Hn0 : 0 < n ∧ n ≤ 18 - sread l ∧ k + n ≤ 128) by (subst n; lia).
  apply wp_bind, (read_track_run m e k); [done|]. intros m' Hm'. fold n in Hm'. clearbody n.
  apply wp_bind, (next_sector_run n (128 * e + k)); [cbn; lia..|]. cbn. intros l' Hes' Hb' Hmem Hn' Hs' Hh'.
  unfold next_place. apply wp_bind, wp_gets. rewrite shiftl9, Hb', Hb by lia.
  destruct (Z.ltb_spec (512 * k + 512 * n) (2 ^ 16)) as [Hlt|Hge].
  - apply wp_modify. apply (HQ _ e (k + n)); [|lia..]. split; cbn [es bx sread head track mem set_bx]; try lia. by rewrite Hmem.
  - apply wp_bind, wp_modify, wp_modify. apply (HQ _ (e + 1) 0); [|lia..]. split; cbn [es bx sread head track mem set_es set_bx]; try lia.
    + split; [|done]. rewrite Hes', Hes, next_segment by lia. lia.
    + intros x. rewrite Hmem, Hm'. replace (512 * (k + n)) with (2 ^ 16) by lia.
      replace (2 ^ 16 * e + 2 ^ 16) with (2 ^ 16 * (e + 1) + 512 * 0) by lia. done.
Qed.

(** The loader does not overwrite the sector. *)
Lemma syssize_kept m e k l : loaded m e k l → 128 * e + k ≤ 128 * 8 → syssize (mem l) = syssize m.
Proof.
  intros [[He Hk] _ _ _ Hm] Hle. unfold syssize, load16, linear, INITSEG. rewrite !Hm. rewrite !bool_decide_false by lia. done.
Qed.

(** The loop ends when a segment begins past the end of the image. *)
Lemma rp_read_run m B fuel e k l : loaded m e k l → 0 ≤ syssize m < 2 ^ 15 → B = syssize m / 2 ^ 12 + 1 → 128 * e + k ≤ 128 * B →
  128 * B - (128 * e + k) < Z.of_nat fuel → wp (rp_read fuel) (λ _ l', loaded m B 0 l') l.
Proof.
  intros Hl Hsz HB. assert (HB8 : B ≤ 8) by (subst B; change (2 ^ 12) with 4096; Z.div_mod_to_equations; lia).
  revert e k l Hl. induction fuel as [|fuel IH]; intros e k l Hl Hle Hf; [lia|].
  pose proof Hl as [[He Hk] [Hes _] _ _ _]. cbn [rp_read]. apply wp_bind, wp_gets. rewrite (syssize_kept _ _ _ _ Hl), Hes by lia.
  assert (u16 ((e + 1) * 2 ^ 12 - SYSSEG) = 4096 * e) as -> by (unfold SYSSEG; change (2 ^ 12) with 4096; wrap_lia).
  change (2 ^ 12) with 4096 in HB. destruct (Z.ltb_spec (syssize m) (4096 * e)) as [Hlt|Hge].
  - apply wp_ret. assert (e = B ∧ k = 0) as [-> ->] by (Z.div_mod_to_equations; lia). done.
  - assert (e < B) by (Z.div_mod_to_equations; lia).
    apply wp_bind, (pass_run m e k); [done|lia|]. intros l' e' k' Hl' Hk'. apply (IH e' k'); [done|lia..].
Qed.

(** From the start of the sector to the call of [kill_motor]: whole segments of
    64 KB, one after the other, until all of the image is there. *)
Lemma load_system_run m (fuel : nat) : (∀ i, 0 ≤ i < 512 → pread m (linear BOOTSEG i) = u8 (disk i)) → u8 (disk 497) = SETUPSECS →
  let size := u8 (disk 500) + 2 ^ 8 * u8 (disk 501) in size < 2 ^ 15 → (1024 < fuel)%nat →
  wp (load_system fuel) (λ _ l', ∀ x, 2 ^ 16 ≤ x < 2 ^ 16 * (size / 2 ^ 12 + 2) → pread (mem l') x = u8 (disk (512 + (x - 2 ^ 16)))) (power_on m).
Proof.
  intros Hsec Hset size Hsz Hf. set (m1 := move_sector m).
  assert (Hm1 : ∀ i, 0 ≤ i < 512 → pread m1 (linear INITSEG i) = u8 (disk i)).
  { intros i Hi. unfold m1, move_sector. rewrite (movsw_run 256 m 0) by lia. rewrite bool_decide_true by (unfold linear; lia).
    rewrite <- Hsec by done. f_equal. unfold linear. lia. }
  assert (Es : syssize m1 = size).
  { unfold syssize, load16. rewrite (Hm1 500) by lia. replace (linear INITSEG 500 + 1) with (linear INITSEG 501) by (unfold linear; lia). by rewrite (Hm1 501) by lia. }
  unfold load_system. apply wp_bind, wp_modify, wp_bind, wp_modify. unfold read_it. apply wp_bind, wp_modify. cbn [mem set_es set_mem power_on].
  fold m1. clearbody m1. unfold setup_sects. rewrite (Hm1 497), Hset by lia. apply wp_bind, wp_gets. apply wp_bind, wp_modify.
  assert (0 ≤ size) by (subst size; pose proof (u8_range (disk 500)); pose proof (u8_range (disk 501)); wrap_lia).
  eapply wp_mono; [apply (rp_read_run m1 (size / 2 ^ 12 + 1) fuel 0 0)|].
  - split; cbn [es bx sread head track mem set_bx set_sread set_es set_mem power_on].
    + lia.
    + split; reflexivity.
    + reflexivity.
    + vm_compute. split; split; (reflexivity || discriminate).
    + intros x. by rewrite bool_decide_false by lia.
  - by rewrite Es.
  - by rewrite Es.
  - change (2 ^ 12) with 4096. Z.div_mod_to_equations; lia.
  - change (2 ^ 12) with 4096. change (2 ^ 15) with 32768 in *. Z.div_mod_to_equations; lia.
  - intros [] l' [_ _ _ _ Hm] x Hx. rewrite Hm, bool_decide_true by lia. done.
Qed.
End loading.

(** ** The address line 20 *)

Definition TEST_ADDR : Z := 0x7c.

(** A physical address as the memory sees it: while the line is closed bit 20 is 0. *)
Definition wired (open : bool) (a : Z) : Z := if open then a else Z.clearbit a 20.

Section a20.
(** Whether the line is open at the [t]-th comparison: the keyboard controller takes
    its time. *)
Context (gate : nat → bool).

(** [ds] is 0 and [gs] 0xffff; the result is the number of the last comparison, too. *)
Fixpoint a20_wait (fuel t : nat) (ax : Z) (m : flat) : option (nat * flat) :=
  match fuel with
  | O => None
  | S fuel =>
      let ax := u16 (ax + 1) in
      let m := store16 (linear 0 TEST_ADDR) ax m in
      if ax =? load16 m (wired (gate t) (linear 0xffff (TEST_ADDR + 0x10))) then a20_wait fuel (S t) ax m else Some (t, m)
  end.

(** The word at [TEST_ADDR] is restored. *)
Definition wait_a20 (fuel : nat) (m : flat) : option (nat * flat) :=
  let bx := load16 m (linear 0 TEST_ADDR) in
  '(t, m) ← a20_wait fuel 0 0xffff m;
  Some (t, store16 (linear 0 TEST_ADDR) bx m).

Lemma pread_store16 (m : flat) a w x :
  pread (store16 a w m) x = if decide (a + 1 = x) then u8 (Z.shiftr w 8) else if decide (a = x) then u8 w else pread m x.
Proof. unfold store16. by rewrite !pread_pwrite. Qed.

Lemma load_store16 (m : flat) a w : 0 ≤ w < 2 ^ 16 → load16 (store16 a w m) a = w.
Proof.
  intros Hw. unfold load16. rewrite !pread_store16, (decide_True _ _ (eq_refl (a + 1))), decide_False, (decide_True _ _ (eq_refl a)) by lia.
  rewrite Z.shiftr_div_pow2 by lia. change (2 ^ 16) with 65536 in Hw. wrap_lia.
Qed.

(** [m'] differs from [m] at most in the word at [TEST_ADDR]. *)
Definition same_but_test (m m' : flat) : Prop := ∀ x, x ≠ linear 0 TEST_ADDR → x ≠ linear 0 TEST_ADDR + 1 → pread m' x = pread m x.

Lemma store_test m w : same_but_test m (store16 (linear 0 TEST_ADDR) w m).
Proof. intros x H0 H1. by rewrite pread_store16, !decide_False by congruence. Qed.

Lemma same_test_trans m1 m2 m3 : same_but_test m1 m2 → same_but_test m2 m3 → same_but_test m1 m3.
Proof. intros H1 H2 x Hx Hx'. by rewrite H2, H1. Qed.

(** Behind the open line is another word: two comparisons with different words end
    the loop. *)
Lemma a20_open_ends fuel t ax m : (∀ i, (t ≤ i)%nat → gate i = true) → (2 ≤ fuel)%nat → ∃ t' m', a20_wait fuel t ax m = Some (t', m') ∧ gate t' = true ∧ same_but_test m m'.
Proof.
  intros Hg Hf. destruct fuel as [|[|fuel]]; [lia|lia|]. cbn [a20_wait]. rewrite !Hg by lia. set (w := u16 (ax + 1)).
  set (a := wired true _). set (m1 := store16 (linear 0 TEST_ADDR) w m).
  destruct (Z.eqb_spec w (load16 m1 a)) as [Ew|Ew]; [|exists t, m1; split; [done|]; split; [by apply Hg|apply store_test]].
  set (m2 := store16 _ _ m1). assert (E2 : load16 m2 a = load16 m1 a).
  { unfold load16, m2. rewrite !(store_test m1) by (unfold a, wired, linear, TEST_ADDR; lia). done. }
  destruct (Z.eqb_spec (u16 (w + 1)) (load16 m2 a)) as [E3|_].
  { exfalso. rewrite E2, <- Ew in E3. assert (0 ≤ w < 2 ^ 16) by (subst w; wrap_lia). clear -E3 H. wrap_lia. }
  exists (S t), m2. split; [done|]. split; [apply Hg; lia|]. exact (same_test_trans _ _ _ (store_test m w) (store_test m1 _)).
Qed.

(** While the line is closed the two words are one. *)
Lemma a20_closed fuel t ax m : gate t = false → a20_wait (S fuel) t ax m = a20_wait fuel (S t) (u16 (ax + 1)) (store16 (linear 0 TEST_ADDR) (u16 (ax + 1)) m).
Proof.
  intros Hg. cbn [a20_wait]. rewrite Hg. change (wired false _) with (linear 0 TEST_ADDR). rewrite load_store16 by (change (2 ^ 16) with 65536; wrap_lia).
  by rewrite Z.eqb_refl.
Qed.

(** When the line opens, the wait ends with the line open and memory as it was. *)
Lemma wait_a20_ends T m : (∀ t, gate t = (T <=? t)%nat) → ∃ t m', wait_a20 (T + 2) m = Some (t, m') ∧ gate t = true ∧ ∀ x, pread m' x = pread m x.
Proof.
  intros Hg. assert (Hw : ∀ n t ax m, (t + n = T)%nat → ∃ t' m', a20_wait (n + 2) t ax m = Some (t', m') ∧ gate t' = true ∧ same_but_test m m').
  { clear m. induction n as [|n IH]; intros t ax m Ht.
    - apply a20_open_ends; [|lia]. intros i Hi. rewrite Hg. apply Nat.leb_le. lia.
    - cbn [Nat.add]. rewrite a20_closed by (rewrite Hg; apply Nat.leb_gt; lia). destruct (IH (S t) (u16 (ax + 1)) (store16 (linear 0 TEST_ADDR) (u16 (ax + 1)) m)) as (t' & m' & E & Ht' & Hs); [lia|].
      exists t', m'. split; [done|]. split; [done|]. exact (same_test_trans _ _ _ (store_test m _) Hs). }
  destruct (Hw T 0%nat 0xffff m) as (t & m' & E & Ht & Hs); [lia|]. unfold wait_a20. rewrite E. cbn [mbind option_bind].
  exists t, (store16 (linear 0 TEST_ADDR) (load16 m (linear 0 TEST_ADDR)) m'). split; [done|]. split; [done|]. intros x. rewrite pread_store16.
  destruct (load16_bytes m (linear 0 TEST_ADDR)) as [-> ->]. case_decide as H1; [by rewrite H1|]. case_decide as H2; [by rewrite H2|]. by apply Hs.
Qed.
End a20.

(** ** The interrupt controllers *)

(** An 8259: the command words it still expects, the vector of its line 0, its
    cascade word and its mask. *)
Record pic := mk_pic { pic_expects : nat; pic_base : Z; pic_cascade : Z; pic_lines : Z }.

(** A write to the even port: with bit 4 it starts the initialisation, and clears the
    mask.  A write to the odd port is the next word expected, or the mask. *)
Definition pic_command (v : Z) (p : pic) : pic :=
  if Z.testbit v 4 then mk_pic 3 (pic_base p) (pic_cascade p) 0 else p.
Definition pic_data (v : Z) (p : pic) : pic :=
  match pic_expects p with
  | 3%nat => mk_pic 2 v (pic_cascade p) (pic_lines p)
  | 2%nat => mk_pic 1 (pic_base p) v (pic_lines p)
  | 1%nat => mk_pic 0 (pic_base p) (pic_cascade p) (pic_lines p)
  | _ => mk_pic (pic_expects p) (pic_base p) (pic_cascade p) v
  end.

(** [out port,al] *)
Definition outb (port al : Z) : M (pic * pic) unit := modify (λ '(p1, p2),
  if port =? 0x20 then (pic_command al p1, p2) else if port =? 0x21 then (pic_data al p1, p2)
  else if port =? 0xA0 then (p1, pic_command al p2) else if port =? 0xA1 then (p1, pic_data al p2) else (p1, p2)).

Definition reprogram : M (pic * pic) unit :=
  outb 0x20 0x11 ;; outb 0xA0 0x11 ;;
  outb 0x21 0x20 ;; outb 0xA1 0x28 ;;
  outb 0x21 0x04 ;; outb 0xA1 0x02 ;;
  outb 0x21 0x01 ;; outb 0xA1 0x01 ;;
  outb 0xA1 0xFF ;; outb 0x21 0xFB.

(** Line [n] of the first controller gets vector 32 + [n]: the clock the gate 32, the
    keyboard the gate 33.  Only the line of the second controller is open: the mask
    with which the image starts. *)
Lemma reprogram_run ps : wp reprogram (λ _ ps', ps' = (mk_pic 0 32 4 (pic_mask image_processor), mk_pic 0 40 2 0xFF)) ps.
Proof. destruct ps as [p1 p2]. unfold reprogram, outb. repeat (apply wp_bind, wp_modify). apply wp_modify. reflexivity. Qed.

(** ** The segments *)

(** The table is where mm.c takes it to be. *)
Lemma gdt_place : linear INITSEG 435 = GDT_START.
Proof. reflexivity. Qed.

(** [idt_48] and [gdt_48]. *)
Definition cli : M processor unit := modify (λ p, set_flags_reg (Z.clearbit (flags_reg p) 9) p).
Definition load_tables : M processor unit :=
  set_idt_reg (mk_Register 0 0) ;;
  set_gdt_reg (mk_Register 0x8000 (435 + Z.shiftl 0x9 16)).

(** Until [main] opens them no interrupt arrives; the table registers are those of the
    state in which it starts, in which the mode and the selector are set, too. *)
Lemma load_tables_run p : wp (cli ;; load_tables) (λ _ p', (∀ n, takes_interrupt p' n = false) ∧
  idtr p' = idtr image_processor ∧ gdtr p' = gdtr image_processor ∧ reg_base (gdtr p') = GDT_START) p.
Proof.
  unfold cli, load_tables, set_idt_reg, set_gdt_reg. apply wp_bind, wp_modify, wp_bind, wp_modify, wp_modify. split; [|done].
  intros n. unfold takes_interrupt. cbn [flags_reg set_flags_reg]. by rewrite Z.clearbit_eq.
Qed.

(** The limit in bytes, the privilege, and whether it is code. *)
Definition desc_limit (e : Descriptor) : Z :=
  let l := limit e + 2 ^ 16 * Z.land (flags2 e) 0xF in if Z.testbit (flags2 e) 7 then (l + 1) * 4096 else l + 1.
Definition desc_dpl (e : Descriptor) : Z := Z.land (Z.shiftr (flags1 e) 5) 3.
Definition desc_code (e : Descriptor) : bool := Z.testbit (flags1 e) 3.

(** The selectors of segment.h choose segments of 4 GB from address 0, the code and the
    data of the kernel at level 0 and of the user at level 3. *)
Lemma segments_flat sel code dpl : (sel, code, dpl) ∈ [(KERNEL_CS, true, 0); (KERNEL_DS, false, 0); (USER_CS, true, 3); (USER_DS, false, 3)] →
  ∃ e, znth (gdt image_tables) (Z.shiftr sel 3) = Some e ∧ desc_base e = 0 ∧ desc_limit e = 2 ^ 32 ∧ desc_dpl e = dpl ∧ desc_code e = code ∧ Z.land sel 3 = dpl.
Proof.
  intros Hin. repeat (apply elem_of_cons in Hin as [[= -> -> ->]|Hin]; [eexists; split; [reflexivity|by vm_compute]|]). by apply not_elem_of_nil in Hin.
Qed.

(** ** From the files to user mode *)

(** The disk begins with the image. *)
Definition starts_with (disk : Z → Z) (img : list Z) : Prop :=
  ∀ (i : nat) b, img !! i = Some b → disk (Z.of_nat i) = b.

Lemma disk_at disk img (i : nat) : starts_with disk img → Forall is_u8 img → (i < length img)%nat → u8 (disk (Z.of_nat i)) = buf_at img i.
Proof.
  intros Hd Hu Hi. destruct (lookup_lt_is_Some_2 img i Hi) as [b Hb]. unfold buf_at. rewrite Hb, (Hd i b Hb). apply u8_small.
  by apply (Forall_lookup_1 _ _ _ _ Hu Hb).
Qed.

(** The words build.c writes, in memory. *)
Lemma loaded_word disk img (m : flat) (a : Z) (p : nat) v : starts_with disk img → Forall is_u8 img → (p + 4 ≤ length img)%nat → 0 ≤ a → a + 4 < 2 ^ 32 →
  (∀ i, 0 ≤ i < 4 → pread m (a + i) = u8 (disk (Z.of_nat p + i))) → number 4 p img = v → load32 m a = Some v.
Proof.
  intros Hd Hu Hl Ha Ha4 Hm <-. cbn [number].
  change (load32 m a) with (Some (pread m a + pread m (u32 (a + 1)) * 2 ^ 8 + pread m (u32 (a + 2)) * 2 ^ 16 + pread m (u32 (a + 3)) * 2 ^ 24)).
  assert (Hb : ∀ j : nat, (j < 4)%nat → pread m (a + Z.of_nat j) = buf_at img (j + p)).
  { intros j Hj. rewrite Hm by lia. replace (Z.of_nat p + Z.of_nat j) with (Z.of_nat (j + p)) by lia. by apply disk_at; [..|lia]. }
  rewrite !u32_small by wrap_lia. pose proof (Hb 0%nat ltac:(lia)) as H0. rewrite Z.add_0_r in H0.
  pose proof (Hb 1%nat ltac:(lia)) as H1. pose proof (Hb 2%nat ltac:(lia)) as H2. pose proof (Hb 3%nat ltac:(lia)) as H3.
  change (Z.of_nat 1) with 1 in H1. change (Z.of_nat 2) with 2 in H2. change (Z.of_nat 3) with 3 in H3. rewrite H0, H1, H2, H3. f_equal. cbn [Nat.add]. lia.
Qed.

(** The loader brings the kernel and the user program, and their sizes. *)
Record in_memory (sys usr : list Z) (m : flat) : Prop := {
  mm_sys_size : load32 m p_sys_size = Some (Z.of_nat (length sys));
  mm_usr_size : load32 m p_usr_size = Some (Z.of_nat (length usr));
  mm_sys : ∀ (i : nat) b, (12 ≤ i)%nat → sys !! i = Some b → pread m (KERNEL_START + Z.of_nat i) = b;
  mm_usr : ∀ (i : nat) b, usr !! i = Some b → pread m (KERNEL_START + Z.of_nat (length sys) + Z.of_nat i) = b;
}.

(** The files: a kernel with its header of twelve bytes and a user program for the 28
    user pages, of less than half a megabyte together. *)
Record files_fit (boot sys usr : list Z) : Prop := {
  ff_bytes : Forall is_u8 boot ∧ Forall is_u8 sys ∧ Forall is_u8 usr;
  ff_boot : Z.of_nat (length boot) < 2 ^ 32;
  ff_setup : boot !! (MINIX_HEADER_LEN + 497)%nat = Some SETUPSECS;
  ff_header : 12 ≤ Z.of_nat (length sys);
  ff_pages : Z.of_nat (length usr) ≤ 28 * 4096;
  ff_room : Z.of_nat (length sys) + Z.of_nat (length usr) + 15 < 2 ^ 19;
}.

Lemma image_loaded `{BiosOk disk} boot sys usr img m (fuel : nat) :
  image_of boot sys usr img → starts_with disk img → Forall is_u8 img → files_fit boot sys usr →
  (∀ i, 0 ≤ i < 512 → pread m (linear BOOTSEG i) = u8 (disk i)) → (1024 < fuel)%nat →
  wp (load_system fuel) (λ _ l, in_memory sys usr (mem l)) (power_on m).
Proof.
  intros [Hlen Hsec _ Hpar (Hs1 & Hs2 & _) Hprog] Hd Hu [_ _ Hset H12 _ Hroom] Hm Hf.
  assert (Hdisk : ∀ i : nat, (i < length img)%nat → u8 (disk (Z.of_nat i)) = buf_at img i) by (intros i Hi; by apply disk_at).
  assert (Hsize : u8 (disk 500) + 2 ^ 8 * u8 (disk 501) = (Z.of_nat (length sys) + Z.of_nat (length usr) + 15) / 16).
  { pose proof (Hdisk 500%nat ltac:(lia)) as H5. pose proof (Hdisk 501%nat ltac:(lia)) as H6.
    change (Z.of_nat 500) with 500 in H5. change (Z.of_nat 501) with 501 in H6. rewrite H5, H6. cbn [number] in Hpar.
    rewrite u32_small in Hpar by wrap_lia. change (2 ^ 16) with 65536 in Hpar. change (2 ^ 19) with 524288 in Hroom.
    rewrite Z.mod_small in Hpar by (Z.div_mod_to_equations; lia). lia. }
  assert (El : length img = (512 + length sys + length usr)%nat) by lia.
  eapply wp_mono; [apply (load_system_run m fuel Hm)|].
  - pose proof (Hdisk 497%nat ltac:(lia)) as H4. change (Z.of_nat 497) with 497 in H4. rewrite H4. unfold buf_at. by rewrite Hsec, Hset by lia.
  - rewrite Hsize. change (2 ^ 15) with 32768. change (2 ^ 19) with 524288 in Hroom. Z.div_mod_to_equations; lia.
  - exact Hf.
  - intros [] l' Hl. rewrite Hsize in Hl. change (2 ^ 16) with 65536 in Hl. change (2 ^ 12) with 4096 in Hl.
    assert (Hl' : ∀ i, 0 ≤ i < Z.of_nat (length sys) + Z.of_nat (length usr) → pread (mem l') (KERNEL_START + i) = u8 (disk (512 + i))).
    { intros i Hi. rewrite Hl by (unfold KERNEL_START; Z.div_mod_to_equations; lia). do 2 f_equal. unfold KERNEL_START. lia. }
    assert (Hat : ∀ (i : nat) b, (12 ≤ i)%nat → (sys ++ usr) !! i = Some b → pread (mem l') (KERNEL_START + Z.of_nat i) = b).
    { intros i b Hi Hb. pose proof (lookup_lt_Some _ _ _ Hb) as Hil. rewrite length_app in Hil. rewrite Hl' by lia.
      replace (512 + Z.of_nat i) with (Z.of_nat (512 + i)) by lia. rewrite Hdisk by lia. unfold buf_at. by rewrite Hprog, Hb. }
    assert (Hword : ∀ p v, (p = 0 ∨ p = 4)%nat → number 4 (512 + p) img = v → load32 (mem l') (KERNEL_START + Z.of_nat p) = Some v).
    { intros p v Hp Hv. apply (loaded_word disk img _ _ (512 + p)); [done|done|lia|unfold KERNEL_START; lia|unfold KERNEL_START; lia| |done].
      intros i Hi. rewrite <- Z.add_assoc, Hl' by lia. do 2 f_equal. lia. }
    rewrite Z.mod_small in Hs1, Hs2 by lia. split.
    + unfold p_sys_size. rewrite <- (Z.add_0_r KERNEL_START). apply (Hword 0%nat); [tauto|exact Hs1].
    + apply (Hword 4%nat); [tauto|exact Hs2].
    + intros i b Hi Hb. apply Hat; [done|]. by apply lookup_app_l_Some.
    + intros i b Hb. rewrite <- Z.add_assoc, <- Nat2Z.inj_add. apply Hat; [lia|]. by rewrite lookup_app_r, Nat.add_sub_swap, Nat.sub_diag by lia.
Qed.

(** The sector from its start to the jump to [main]: the image is loaded, then the line
    20 is opened. *)
Definition boot_sector_code `{Bios} (gate : nat → bool) (fuel wait : nat) : ML unit :=
  load_system fuel ;;
  lift (λ l, '(_, m) ← wait_a20 gate wait (mem l); Some (set_mem m l)).

Lemma in_memory_same sys usr (m m' : flat) : (∀ x, pread m' x = pread m x) → in_memory sys usr m → in_memory sys usr m'.
Proof.
  intros E [Hs Hu H1 H2].
  assert (Hw : ∀ a, load32 m' a = load32 m a).
  { intros a. change (load32 m' a) with (Some (pread m' a + pread m' (u32 (a + 1)) * 2 ^ 8 + pread m' (u32 (a + 2)) * 2 ^ 16 + pread m' (u32 (a + 3)) * 2 ^ 24)).
    by rewrite !E. }
  split; [by rewrite Hw|by rewrite Hw|intros i b; rewrite E; apply H1|intros i b; rewrite E; apply H2].
Qed.

(** The sizes that [main] reads. *)
Lemma loaded_sizes `{Layout} sys usr m : in_memory sys usr m →
  sys_size (loaded_image m) = Z.of_nat (length sys) ∧ usr_size (loaded_image m) = Z.of_nat (length usr).
Proof.
  intros [Hs Hu _ _].
  assert (Hw : ∀ a v, load32 m a = Some v → u32 (a + 1) = a + 1 → u32 (a + 2) = a + 2 → u32 (a + 3) = a + 3 → memory_word (loaded_image m) a = v).
  { intros a v E E1 E2 E3. change (Some (pread m a + pread m (u32 (a + 1)) * 2 ^ 8 + pread m (u32 (a + 2)) * 2 ^ 16 + pread m (u32 (a + 3)) * 2 ^ 24) = Some v) in E.
    rewrite E1, E2, E3 in E. by injection E. }
  split; apply Hw; done.
Qed.

(** What [main] leaves of it. *)
Lemma main_after_load `{LayoutOk} sys usr m idt_addr sh : in_memory sys usr m → image_fits (loaded_image m) → fills_gates sh →
  wp (main idt_addr sh) (λ _ k, alive first_population (set_esp (tss_esp0 k) k) task1 [] [] ∧
    resume k = usr_main ∧ esp k = USER_ESP ∧ user_mode (proc (desc k)) ∧
    ∀ (i : nat) b, usr !! i = Some b → ¬ (USER_ESP + 12 ≤ L_USER_START + Z.of_nat i < USER_ESP + 16) →
      load8 k (L_USER_START + Z.of_nat i) = Some b) (loaded_image m).
Proof.
  intros Hm Hfit Hg. destruct (loaded_sizes sys usr m Hm) as [Esys Eusr]. eapply wp_mono; [exact (wp_and _ _ _ _ (start_alive m idt_addr sh Hg Hfit) (boot_run (loaded_image m) idt_addr sh (loaded_image_ok m) Hg Hfit))|].
  intros [] k [Ha Hb]. split; [exact Ha|]. split; [exact (bo_resume _ _ Hb)|]. destruct (bo_user_mode _ _ Hb) as [He Hu]. split; [exact He|]. split; [exact Hu|].
  intros i b Hi Hni. pose proof (lookup_lt_Some _ _ _ Hi). rewrite (bo_image _ _ Hb) by (rewrite ?Eusr; done || lia). rewrite Esys. f_equal. exact (mm_usr _ _ _ Hm i b Hi).
Qed.

(** C3: from the files to user mode.  The image builder is given a boot sector, a
    kernel and a user program and makes an image; a disk begins with it, and the BIOS
    has put its first sector in memory.  The boot sector ends its loop and leaves
    the kernel where it is linked, the user program behind it and their sizes in
    the first words, every call of the BIOS being within a track and within a
    segment; its wait ends when the address line has opened.  [main] then runs to
    the jump to user mode: the first process is alive and runs, at the first
    instruction of the user program, and its pages hold the bytes of the file but
    for the word at the top of the stack. *)
Theorem files_reach_user_mode `{LayoutOk, BiosOk disk} boot sys usr img m gate opens (fuel : nat) idt_addr sh :
  build [Some boot; Some sys; Some usr] = inr img → starts_with disk img → files_fit boot sys usr →
  (∀ i, 0 ≤ i < 512 → pread m (linear BOOTSEG i) = u8 (disk i)) → (∀ t, gate t = (opens <=? t)%nat) →
  (1024 < fuel)%nat → fills_gates sh →
  wp (boot_sector_code gate fuel (opens + 2)) (λ _ l, in_memory sys usr (mem l) ∧
    wp (main idt_addr sh) (λ _ k, alive first_population (set_esp (tss_esp0 k) k) task1 [] [] ∧
      resume k = usr_main ∧ esp k = USER_ESP ∧ user_mode (proc (desc k)) ∧
      ∀ (i : nat) b, usr !! i = Some b → ¬ (USER_ESP + 12 ≤ L_USER_START + Z.of_nat i < USER_ESP + 16) →
        load8 k (L_USER_START + Z.of_nat i) = Some b) (loaded_image (mem l))) (power_on m).
Proof.
  intros Hb Hd Hff Hm Hg Hf Hsh. pose proof (build_run [Some boot; Some sys; Some usr]) as Hbr. rewrite Hb in Hbr.
  destruct Hbr as (boot' & sys' & usr' & [= <- <- <-] & Hbt & ->).
  { destruct Hff. intros [|[|[|i]]] f Hi; cbn in Hi; try discriminate; injection Hi as <-; lia. }
  apply wp_bind. eapply wp_mono; [apply (image_loaded boot sys usr _ m fuel (written_image_of _ _ _ Hbt) Hd); [|done..]|].
  { destruct (ff_bytes _ _ _ Hff) as (? & ? & ?). by apply written_bytes. }
  intros [] l Hl. destruct (wait_a20_ends gate opens (mem l) Hg) as (t & m' & E & _ & Hsame).
  eapply wp_lift; [by rewrite E|]. pose proof (in_memory_same _ _ _ m' Hsame Hl) as Hl'. split; [exact Hl'|].
  destruct (loaded_sizes sys usr m' Hl') as [Esys Eusr]. pose proof (ff_pages _ _ _ Hff). pose proof (ff_room _ _ _ Hff) as Hroom. change (2 ^ 19) with 524288 in Hroom.
  apply (main_after_load sys usr m'); [exact Hl'| |exact Hsh]. unfold image_fits. rewrite Esys, Eusr. unfold KERNEL_START, L_USER_START. lia.
Qed.

(** ** An example *)

(** [f] written from the address [a] on. *)
Fixpoint place (n : nat) (a : Z) (f : Z → Z) (m : flat) : flat :=
  match n with O => m | S n => pwrite (a + Z.of_nat n) (f (Z.of_nat n)) (place n a f m) end.

Lemma place_spec n a f m x : pread (place n a f m) x = if bool_decide (a ≤ x < a + Z.of_nat n) then u8 (f (x - a)) else pread m x.
Proof.
  induction n as [|n IH]; [by rewrite bool_decide_false by lia|]. cbn [place]. rewrite pread_pwrite. destruct (decide (a + Z.of_nat n = x)) as [<-|E].
  - rewrite bool_decide_true by lia. do 2 f_equal. lia.
  - rewrite IH. repeat case_bool_decide; done || lia.
Qed.

(** A BIOS that reads every sector. *)
Definition example_bios (disk : Z → Z) : Bios := λ ax bx cx dx es m,
  place (Z.to_nat (512 * (ax mod 2 ^ 8))) (linear es bx) (λ i, disk (((cx / 2 ^ 8 * 2 + dx / 2 ^ 8) * 18 + (cx mod 2 ^ 8 - 1)) * 512 + i)) m.

Lemma example_bios_ok disk : BiosOk (H := example_bios disk) disk.
Proof.
  intros n b s c h seg m x Hn Hs Hsn Hc Hh _ _ _ _. unfold int13, example_bios. rewrite place_spec.
  change (2 ^ 8) with 256. assert ((n + 2 * 256) mod 256 = n) as -> by (Z.div_mod_to_equations; lia).
  assert ((s + c * 256) / 256 = c) as -> by (Z.div_mod_to_equations; lia). assert ((s + c * 256) mod 256 = s) as -> by (Z.div_mod_to_equations; lia).
  rewrite Z.div_mul, Z2Nat.id by lia. done.
Qed.

Definition example_sector : list Z := hdr ++ replicate 24 0 ++ replicate 497 0x90 ++ [0] ++ replicate 12 0x90 ++ [0x55; 0xaa].

(** A kernel and a user program of zeros, and a line that opens at the third look. *)
Lemma files_reach_user_mode_witness : ∃ disk m,
  wp (boot_sector_code (H := example_bios disk) (Nat.leb 2) 1025 (2 + 2)) (λ _ l, load32 (mem l) p_sys_size = Some 0x2E000 ∧
    wp (main (H := example_layout) 0x5000 (mret tt)) (λ _ k, resume k = usr_main) (loaded_image (H := example_layout) (mem l))) (power_on m).
Proof.
  pose (sys := replicate (Z.to_nat 0x2E000) 0). pose (usr := replicate (Z.to_nat 0x3000) 0).
  assert (Hls : Z.of_nat (length sys) = 0x2E000) by (unfold sys; rewrite length_replicate; by apply Z2Nat.id).
  assert (Hlu : Z.of_nat (length usr) = 0x3000) by (unfold usr; rewrite length_replicate; by apply Z2Nat.id).
  assert (Forall is_u8 sys ∧ Forall is_u8 usr) as [Hus Huu] by (split; apply Forall_replicate; by split).
  clearbody sys usr. assert (Hbt : bootable example_sector) by (split; repeat split; reflexivity).
  pose proof (build_run [Some example_sector; Some sys; Some usr]) as Hbr. destruct (build [Some example_sector; Some sys; Some usr]) as [e|img] eqn:Eb.
  { exfalso. apply Hbr; [|by exists example_sector, sys, usr]. intros [|[|[|i]]] f Hi; cbn in Hi; try discriminate; injection Hi as <-; [done|lia|lia]. }
  pose (disk := λ i, buf_at img (Z.to_nat i)). exists disk, (place 512 (linear BOOTSEG 0) disk ∅).
  eapply wp_mono; [apply (files_reach_user_mode (H1 := example_bios disk) (disk := disk) (H2 := example_bios_ok disk) example_sector sys usr img _ (Nat.leb 2) 2 1025 0x5000 (mret tt) Eb)|].
  - intros i b Hi. unfold disk, buf_at. by rewrite Nat2Z.id, Hi.
  - split; [split; [by apply (bool_decide_unpack _); vm_compute|by split]|by vm_compute|reflexivity|rewrite Hls; lia|rewrite Hlu; lia|rewrite Hls, Hlu; by vm_compute].
  - intros i Hi. rewrite place_spec, bool_decide_true by (unfold linear; lia). do 2 f_equal. unfold linear. lia.
  - reflexivity.
  - apply Nat.lt_succ_diag_r.
  - intros d Hd'. exists (idt d). split; [by destruct d|exact Hd'].
  - intros [] l [Hin Hmain]. split; [pose proof (mm_sys_size _ _ _ Hin) as Hw; rewrite Hls in Hw; exact Hw|]. eapply wp_mono; [exact Hmain|]. intros [] k (_ & Hr & _). exact Hr.
Defined.
