(* ===== verification/Isolation.v ===== *)
(** * The memory of the processes is their own

    What an entry of the kernel does to the bytes behind the user pages: nothing,
    but in the buffer of [sys_read] of the process that makes the call. *)

From stdpp Require Import functions.
From S2P Require Import Prelude CInt ListHead Circular Memory Errno Console LibC Paging Descriptors Kernel Mm Space Sched Boot Interrupt System UserIO Process Shm Fork Exit Types Entries Population Steps CodeWrites Births Life.
Import PTE PageTable.

(** ** The computations that leave physical memory alone *)

Section bytes.
Context `{Layout} (fr : gmap Z Z).

Definition memory_is (k : kernel) : Prop := frames k = fr.

Lemma bytes_modify f : (∀ k, frames (f k) = frames k) → gives memory_is (modify f) (λ _, True).
Proof. intros Hf. apply gives_modify; [done|]. intros k Hk. unfold memory_is. by rewrite Hf. Qed.

Lemma bytes_set_pcb t f : gives memory_is (set_pcb t f) (λ _, True).
Proof. apply gives_lift; [done|]. intros k k' Hk E. destruct (tasks k !! t); [|done]. by injection E as <-. Qed.

Lemma bytes_set_shared i f : gives memory_is (set_shared i f) (λ _, True).
Proof.
  apply gives_lift; [done|]. intros k k' Hk E. destruct (znth (shared_pages k) i); [|done]. cbn [mbind option_bind] in E.
  destruct (zset _ _ _); [|done]. by injection E as <-.
Qed.

Lemma bytes_zoom {T A} (get : kernel → T) put (m : M T A) : (∀ v k, frames (put v k) = frames k) → gives memory_is (zoom get put m) (λ _, True).
Proof.
  intros Hput k a k' E Hk. unfold zoom in E. destruct (m (get k)) as [[b x]|]; [|done]. injection E as <- <-.
  split; [|done]. unfold memory_is. by rewrite Hput.
Qed.
End bytes.

Create HintDb bytes discriminated.
#[export] Hint Constants Opaque : bytes.

Ltac bytes_leaf _ :=
  lazymatch goal with
  | |- gives _ (set_pcb _ _) _ => apply bytes_set_pcb
  | |- gives _ (set_shared _ _) _ => apply bytes_set_shared
  | |- gives _ (on_lists _) _ => apply bytes_zoom; reflexivity
  | |- gives _ (on_ptes _) _ => apply bytes_zoom; reflexivity
  | |- gives _ (zoom _ _ _) _ => apply bytes_zoom; reflexivity
  | |- gives _ (modify _) _ => apply bytes_modify; reflexivity
  | |- gives _ _ _ => solve [eauto with bytes]
  end.

(** Decides a computation that does not write memory. *)
Ltac bytes_all := gives_walk bytes_leaf.

Section operations.
Context `{Layout} (fr : gmap Z Z).

Lemma bytes_task_switch t : gives (memory_is fr) (task_switch t) (λ _, True).
Proof.
  unfold task_switch, inner_task_switch, switch_stacks, get_DIR, pcb, load_stack, store_stack, set_msr, set_cr3, write_cr3. bytes_all.
Qed.
Lemma bytes_update_state t d s : gives (memory_is fr) (update_process_state_rr t d s) (λ _, True).
Proof. unfold update_process_state_rr. bytes_all. Qed.
#[local] Hint Resolve bytes_task_switch bytes_update_state : bytes.
Lemma bytes_sched_next : gives (memory_is fr) sched_next_rr (λ _, True).
Proof. unfold sched_next_rr, list_empty_of, list_first_of, pcb. bytes_all. Qed.
#[local] Hint Resolve bytes_sched_next : bytes.
Lemma bytes_schedule : gives (memory_is fr) schedule (λ _, True).
Proof. unfold schedule, update_sched_data_rr, needs_sched_rr, list_empty_of, get_quantum, pcb. bytes_all. Qed.
#[local] Hint Resolve bytes_schedule : bytes.

Lemma bytes_entry : gives (memory_is fr) kernel_entry_stack (λ _, True).
Proof. unfold kernel_entry_stack. bytes_all. Qed.
Lemma bytes_clock : gives (memory_is fr) clock_interrupt (λ _, True).
Proof. pose proof bytes_entry. unfold clock_interrupt, clk_routine. bytes_all. Qed.
Lemma bytes_kbd key : gives (memory_is fr) (kbd_routine key) (λ _, True).
Proof. unfold kbd_routine. bytes_all. Qed.
Lemma bytes_sys_block : gives (memory_is fr) sys_block (λ _, True).
Proof. unfold sys_block, pcb. bytes_all. Qed.
Lemma bytes_unblock_loop fuel pid head pos n : gives (memory_is fr) (unblock_loop fuel pid head pos n) (λ _, True).
Proof. revert pos n. induction fuel as [|fuel IH]; intros pos n; cbn [unblock_loop]; unfold unblock_son, pcb; bytes_all. Qed.
Lemma bytes_sys_unblock pid : gives (memory_is fr) (sys_unblock pid) (λ _, True).
Proof. pose proof bytes_unblock_loop. unfold sys_unblock. bytes_all. Qed.
Lemma bytes_shmat id a : gives (memory_is fr) (sys_shmat id a) (λ _, True).
Proof. unfold sys_shmat, shm_attach, get_user_free_page, get_PT, get_DIR, shared, pcb, set_cr3, write_cr3. bytes_all. Qed.
Lemma bytes_shmrm id : gives (memory_is fr) (sys_shmrm id) (λ _, True).
Proof. unfold sys_shmrm. bytes_all. Qed.
End operations.

(** ** What an entry writes *)

(** [z] is behind a user page of a process. *)
Definition behind (P : population) (z : Z) : Prop := ∃ t p, t ∈ members P ∧ user_page p ∧ z / 4096 = memory P t p.

(** The buffer the entry may fill: the one of [sys_read]. *)
Definition buffer_of (e : entry) (a : Z) : Prop :=
  match e with SysCall eax b n _ => eax = 3 ∧ b ≤ a < b + n | _ => False end.

(** The bytes of the processes but those of the buffer, which is one of [run]. *)
Definition untouched (P : population) (run : Z) (e : entry) (k k' : kernel) : Prop :=
  ∀ z, behind P z → (∀ a, buffer_of e a → z ≠ user_byte (memory P run) a) → pread k' z = pread k z.

Section isolation.
Context `{LayoutOk} (P : population).
Implicit Types (k : kernel) (run : Z) (rq bq : list Z).

Lemma untouched_frames run e k k' : frames k' = frames k → untouched P run e k k'.
Proof. intros E z _ _. cbn [pread PagedMem]. by rewrite E. Qed.

Lemma wp_untouched {A} (m : MK A) (Q : A → kernel → Prop) run e k :
  gives (memory_is (frames k)) m (λ _, True) → wp m Q k → wp m (λ _ k', untouched P run e k k') k.
Proof.
  intros Hg Hw. eapply wp_mono; [exact (wp_gives (memory_is (frames k)) _ _ _ k Hg eq_refl Hw)|]. intros a k' [E _]. by apply untouched_frames.
Qed.

(** What is behind a user page is above the kernel, in use, and in no shared page. *)
Lemma behind_facts k run rq bq z : alive P k run rq bq → behind P z →
  L_USER_START ≤ z ∧ znth (phys_mem k) (z / 4096) ≠ Some Frames.FREE_FRAME ∧
  ∀ id s, znth (shared_pages k) id = Some s → z / 4096 ≠ frame s.
Proof.
  intros Ha (t & p & Ht & Hp & E). pose proof (al_kept _ _ _ _ _ Ha) as Hk. rewrite E. split_and!.
  - pose proof (ps_frames _ _ _ (kp_space _ _ Hk t Ht) p Hp) as Hf. rewrite <- E in Hf. unfold NUM_PAG_KERNEL, L_USER_START in *. Z.div_mod_to_equations; lia.
  - by rewrite (kp_held _ _ Hk).
  - intros id s Hs. by apply (kp_apart _ _ Hk id s Hs).
Qed.

Lemma fork_untouched k run rq bq e : alive P k run rq bq → run ≠ keeper P → (unused P ≠ [] → room k run ∧ 1 < next_pid k) →
  wp sys_fork (λ _ k', untouched P run e k k') k.
Proof.
  intros Ha Hne Hroom. destruct (unused P) as [|child fq] eqn:Hun.
  { pose proof (al_inv _ _ _ _ _ Ha) as Hi. rewrite Hun in Hi. eapply wp_mono; [exact (sys_fork_full _ _ _ _ _ Hi)|]. intros r k' [_ ->]. by apply untouched_frames. }
  destruct (Hroom ltac:(done)) as [Hrm Hpid]. destruct (alive_run _ _ _ _ _ Ha Hne) as [Hrun _].
  destruct (fams_split (holders P) run (sons_of P)) as (rest & Hr & Hsp); [by right|apply (wf_nodup _ (al_wf _ _ _ _ _ Ha))|].
  assert (Hready : fork_ready k run child fq rq bq (sons_of P run) (fams rest (sons_of P)) (memory P run)).
  { apply fork_ready_of; [done|done|done|apply Hsp|done|lia]. }
  eapply wp_mono; [exact (sys_fork_run _ _ _ _ _ _ _ _ _ Hready)|]. intros r k' [_ Hd] z Hz _.
  apply (fd_bytes _ _ _ _ _ _ _ _ _ _ Hd). by apply (behind_facts k run rq bq).
Qed.

Lemma exit_untouched k run rq bq e : alive P k run rq bq → run ≠ keeper P → no_dead_sons P k run →
  wp sys_exit (λ _ k', untouched P run e k k') k.
Proof.
  intros Ha Hne Hno. eapply wp_mono; [exact (sys_exit_run _ _ _ _ _ _ _ _ (exit_ready_of _ _ _ _ _ Ha Hne Hno))|].
  intros [] k' Hd. apply untouched_frames. by destruct (xd_rest _ _ _ _ _ _ _ _ _ Hd) as (_ & _ & _ & _ & ->).
Qed.

Lemma read_untouched k run rq bq b n c : alive P k run rq bq → run ≠ keeper P →
  is_u32 b → 0 ≤ n < 2 ^ 31 → b + n ≤ USER_LAST_PAGE * 4096 →
  wp (sys_read b n) (λ _ k', untouched P run (SysCall 3 b n c) k k') k.
Proof.
  intros Ha Hne Hb Hn Hend. pose proof (alive_process _ _ _ _ _ Ha Hne) as Hup.
  eapply wp_mono; [exact (sys_read_run _ _ _ b n Hup (ty_keys _ (al_typed _ _ _ _ _ Ha)) Hb Hn Hend)|]. intros r k' Hk'.
  destruct (b <? L_USER_START); [destruct Hk' as [_ ->]; by apply untouched_frames|].
  destruct Hk' as (m & Hm & _ & _ & Hout & _). intros z Hz Hbuf. apply Hout; [apply user_outside; by eapply behind_facts|].
  intros j Hj. apply Hbuf. cbn. split; [done|lia].
Qed.

Lemma write_untouched k run rq bq e fd b n : alive P k run rq bq → run ≠ keeper P →
  is_u32 b → is_s32 n → n < 0 ∨ b + n ≤ USER_LAST_PAGE * 4096 → wp (sys_write fd b n) (λ _ k', untouched P run e k k') k.
Proof.
  intros Ha Hne Hb Hn Hend. pose proof (alive_process _ _ _ _ _ Ha Hne) as Hup.
  eapply wp_mono; [exact (sys_write_run _ _ _ fd b n Hup (ty_screen _ (al_typed _ _ _ _ _ Ha)) Hb Hn Hend)|]. intros r k' Hk'.
  destruct (negb _); [destruct Hk' as [_ ->]; by apply untouched_frames|]. destruct (n <? 0); [destruct Hk' as [_ ->]; by apply untouched_frames|].
  destruct (b <? _); [destruct Hk' as [_ ->]; by apply untouched_frames|]. destruct Hk' as (_ & fr & c & _ & Hsame & _).
  intros z Hz _. apply Hsame, user_outside. by eapply behind_facts.
Qed.

Lemma shmdt_untouched k run rq bq e addr : alive P k run rq bq → run ≠ keeper P → 0 ≤ addr < 2 ^ 22 →
  wp (sys_shmdt addr) (λ _ k', untouched P run e k k') k.
Proof.
  intros Ha Hne Haddr. eapply wp_mono; [exact (step_shmdt _ _ _ _ _ _ Ha Hne Haddr)|]. intros r k' [_ Hsame] z Hz _.
  apply Hsame. by eapply behind_facts.
Qed.

Lemma service_untouched k run rq bq eax a b c service :
  alive P k run rq bq → run ≠ keeper P → call_enabled P k run eax a b c → znth sys_call_table eax = Some service →
  wp (service a b c) (λ _ k', untouched P run (SysCall eax a b c) k k') k.
Proof.
  intros Ha Hne Hce Hs. pose proof (step_service _ _ _ _ _ _ _ _ _ _ Ha Hne Hce Hs) as Htot.
  destruct Hce as [_ Hexit Hfork Hread Hwrite _ Hshmdt _ _].
  pose proof (znth_Some_range _ _ _ Hs) as Hr. unfold znth in Hs. destruct (Z.ltb_spec eax 0); [lia|].
  assert (∃ n, eax = Z.of_nat n ∧ (n < 23)%nat) as (n & -> & Hn) by (exists (Z.to_nat eax); cbn in Hr; lia). rewrite Nat2Z.id in Hs. clear Hr.
  unfold sys_call_table in Hs.
  repeat (apply lookup_cons_cases in Hs as [(-> & <-)|(m & -> & Hs)]; [|try clear n; rename m into n]).
  all: lazymatch goal with
    | |- wp sys_ni_syscall _ _ => apply wp_ret; by apply untouched_frames
    | _ => idtac
    end.
  - apply wp_bind. eapply wp_mono; [exact (exit_untouched _ _ _ _ (SysCall 1 a b c) Ha Hne (Hexit eq_refl))|]. intros [] k' Hk'. by apply wp_ret.
  - exact (fork_untouched _ _ _ _ _ Ha Hne (Hfork eq_refl)).
  - destruct (Hread eq_refl) as (? & ? & ?). by eapply read_untouched.
  - destruct (Hwrite eq_refl) as (? & ? & ?). by eapply write_untouched.
  - eapply wp_untouched; [|exact Htot]. unfold sys_gettime. bytes_all.
  - eapply wp_untouched; [|exact Htot]. unfold sys_gotoxy. bytes_all.
  - eapply wp_untouched; [|exact Htot]. unfold sys_set_color. bytes_all.
  - eapply wp_untouched; [|exact Htot]. apply bytes_shmat.
  - exact (shmdt_untouched _ _ _ _ _ _ Ha Hne (Hshmdt eq_refl)).
  - eapply wp_untouched; [|exact Htot]. apply bytes_shmrm.
  - eapply wp_untouched; [|exact Htot]. apply bytes_sys_block.
  - eapply wp_untouched; [|exact Htot]. apply bytes_sys_unblock.
  - eapply wp_untouched; [|exact Htot]. unfold sys_getpid, pcb. bytes_all.
  - eapply wp_untouched; [|exact Htot]. unfold sys_numsons. bytes_all.
  - eapply wp_untouched; [|exact Htot]. unfold sys_numbros. bytes_all.
  - by rewrite lookup_nil in Hs.
Qed.

Lemma entry_untouched k run rq bq e : alive P k run rq bq → enabled P e k →
  wp (handle_entry e) (λ _ k', untouched P run e k k') k.
Proof.
  intros Ha He. pose proof (step_entry_enabled _ _ _ _ _ _ Ha He) as Htot.
  pose proof (current_run _ _ _ _ _ _ (proj1 (al_inv _ _ _ _ _ Ha))) as Hc.
  destruct e as [|key|cr2 ip buff aft|eax a b c]; cbn [handle_entry enabled] in *.
  - eapply wp_untouched; [apply bytes_clock|exact Htot].
  - eapply wp_untouched; [|exact Htot]. pose proof bytes_entry. pose proof bytes_kbd. bytes_all.
  - rewrite Hc in He. destruct He as [Hne Hw]. apply wp_bind.
    eapply wp_mono; [exact (wp_gives _ _ _ _ k (bytes_entry (frames k)) eq_refl (step_entry P _ _ _ _ Ha))|].
    intros [] k1 (Efr & Ha1 & _ & Hpt). apply wp_bind.
    eapply wp_mono; [exact (step_code_write P _ _ _ _ cr2 ip buff aft Ha1 Hne (code_write_same _ k1 _ _ _ _ Hpt Hw))|].
    intros ok k' (-> & _ & ->). apply wp_ret. apply untouched_frames. exact Efr.
  - rewrite Hc in He. destruct He as [Hne Hce]. apply wp_bind. eapply wp_mono; [exact (step_sysenter P _ _ _ _ Ha)|].
    intros [] k1 (Ha1 & v & ->). set (k1 := set_esp v k) in *.
    assert (Hce1 : call_enabled P k1 run eax a b c) by (destruct Hce; split; assumption).
    apply wp_bind. apply wp_mono with (Q := λ _ k', untouched P run (SysCall eax a b c) k1 k').
    2: { intros r k' Hk'. by apply wp_ret. }
    unfold sys_call. destruct (Z.ltb_spec eax 0); [apply wp_ret; by apply untouched_frames|].
    destruct (Z.ltb_spec MAX_SYSCALL eax) as [Hgt|Hle]; [apply wp_ret; by apply untouched_frames|].
    destruct (znth_in_range sys_call_table eax) as [service Hs]; [pose proof (ce_table _ _ _ _ _ _ _ Hce); unfold MAX_SYSCALL in *; lia|]. rewrite Hs.
    by apply (service_untouched k1 run rq bq eax a b c service).
Qed.
End isolation.

(** ** What a process sees *)

(** The byte [a] of the process [t], for the process itself and for the others. *)
Definition same_byte (P : population) (k k' : kernel) (t a : Z) : Prop :=
  pread k' (user_byte (memory P t) a) = pread k (user_byte (memory P t) a).

Section view.
Context `{LayoutOk} (P : population).
Implicit Types (k : kernel) (run t a : Z) (rq bq : list Z).

Lemma user_area_page a : user_area a 1 → user_page (a / 4096).
Proof.
  intros [H1 H2]. change (USER_FIRST_PAGE * 4096) with 1048576 in H1. change (USER_LAST_PAGE * 4096) with 1163264 in H2.
  split; [change USER_FIRST_PAGE with 256|change USER_LAST_PAGE with 284]; Z.div_mod_to_equations; lia.
Qed.

Lemma user_byte_page (ufr : Z → Z) a : user_byte ufr a / 4096 = ufr (a / 4096).
Proof. unfold user_byte. Z.div_mod_to_equations; lia. Qed.

Lemma data_user_page p : data_page p → user_page p.
Proof. intros [H1 H2]. split; [done|]. change PAG_LOG_INIT_CODE with 276 in *. change USER_LAST_PAGE with 284. lia. Qed.

(** Two user bytes are in the same place only if one process has them at one
    address, when one of them is in a data page of [run]. *)
Lemma own_byte k run rq bq t a b : alive P k run rq bq → run ∈ members P → t ∈ members P → data_page (b / 4096) → user_area a 1 →
  user_byte (memory P t) a = user_byte (memory P run) b → t = run ∧ a = b.
Proof.
  intros Ha Hrun Ht Hb Hua E. assert (Hpg : memory P run (b / 4096) = memory P t (a / 4096)) by (rewrite <- !user_byte_page; congruence).
  destruct (decide (t = run)) as [->|Hn].
  - split; [done|]. pose proof (data_user_page _ Hb) as [Hb1 Hb2]. apply (user_byte_inj k run (memory P run)) in E; [done| | |].
    + apply (kp_space _ _ (al_kept _ _ _ _ _ Ha) run Hrun).
    + destruct Hua. lia.
    + change USER_FIRST_PAGE with 256 in *. change USER_LAST_PAGE with 284 in *. Z.div_mod_to_equations; lia.
  - exfalso. apply (wf_apart _ (al_wf _ _ _ _ _ Ha) run t (b / 4096) (a / 4096)); try done. by apply user_area_page.
Qed.

Lemma becomes_memory k run rq bq e P' t : alive P k run rq bq → becomes e k P P' → t ∈ members P → memory P' t = memory P t.
Proof.
  intros Ha Hb Ht. destruct e as [| | |eax ? ? ?]; cbn [becomes] in Hb; try by subst P'.
  destruct (eax =? 1); [by subst P'|]. destruct (_ && _); [|by subst P'].
  destruct Hb as (child & fq & ufr & Hun & ->). cbn. apply fn_lookup_insert_ne. intros ->.
  destruct (alive_unused P k run rq bq t Ha) as [_ Hh]; [rewrite Hun; by left|]. apply Hh. by right.
Qed.

Lemma entry_isolated k run rq bq e : alive P k run rq bq → enabled P e k → (∀ a, buffer_of e a → data_page (a / 4096)) →
  wp (handle_entry e) (λ _ k', ∃ P', becomes e k P P' ∧ still_alive P' k' ∧
    ∀ t a, t ∈ members P → user_area a 1 → (t = run → ¬ buffer_of e a) → memory P' t = memory P t ∧ same_byte P k k' t a) k.
Proof.
  intros Ha He Hbuf. assert (Hrun : ∀ a, buffer_of e a → run ∈ members P).
  { intros a Hin. destruct e as [| | |eax x y z]; try done. destruct He as [Hne _].
    rewrite (current_run _ _ _ _ _ _ (proj1 (al_inv _ _ _ _ _ Ha))) in Hne. by apply (alive_run P k run rq bq). }
  eapply wp_mono; [exact (wp_and _ _ _ _ (step_entry_enabled _ _ _ _ _ _ Ha He) (entry_untouched P _ _ _ _ _ Ha He))|].
  intros [] k' [(P' & Hb & Hk') Hun]. exists P'. split; [done|]. split; [done|]. intros t a Ht Hua Hno. split; [by eapply becomes_memory|].
  apply Hun; [exists t, (a / 4096); split; [done|]; split; [by apply user_area_page|apply user_byte_page]|].
  intros b Hb' E. destruct (own_byte k run rq bq t a b Ha (Hrun b Hb') Ht (Hbuf b Hb') Hua E) as [-> ->]. by apply Hno.
Qed.

Lemma store_isolated k run rq bq b v : alive P k run rq bq → run ≠ keeper P → data_page (b / 4096) →
  ∃ k', store8 b v k = Some k' ∧ alive P k' run rq bq ∧ load8 k' b = Some (u8 v) ∧
    ∀ t a, t ∈ members P → user_area a 1 → (t = run → a ≠ b) → same_byte P k k' t a.
Proof.
  intros Ha Hne Hb. destruct (alive_run _ _ _ _ _ Ha Hne) as [Hrun _]. pose proof (alive_process _ _ _ _ _ Ha Hne) as Hup.
  assert (Hua : user_area b 1).
  { pose proof (data_user_page _ Hb) as [H1 H2]. split; change USER_FIRST_PAGE with 256 in *; change USER_LAST_PAGE with 284 in *; Z.div_mod_to_equations; lia. }
  destruct (user_load k run _ b Hup Hua) as [Htr _]. set (z := user_byte (memory P run) b) in *.
  exists (set_frames (<[z := v]> (frames k)) k). split; [|split; [|split]].
  - unfold store8. cbn [resolve PagedMem]. by rewrite Htr.
  - apply (alive_same P k); [reflexivity..|by destruct (al_typed _ _ _ _ _ Ha)|exact Ha].
  - unfold load8. cbn [resolve PagedMem]. change (translate (set_frames _ k) b) with (translate k b). rewrite Htr. cbn. by rewrite lookup_insert_eq.
  - intros t a Ht Hua' Hno. unfold same_byte. cbn [pread PagedMem frames set_frames]. rewrite lookup_insert_ne; [done|].
    intros E. destruct (own_byte k run rq bq t a b Ha Hrun Ht Hb Hua' (eq_sym E)) as [-> ->]. by apply Hno.
Qed.
End view.

(** C8: the memory of a process is its own.  In a state in which every process is
    alive, an enabled entry of the kernel leaves every byte of the user area of
    every process in the same place and as it was, but for the buffer that the
    caller of [sys_read] has given, if the buffer is in its data pages
    ([sys_read] also takes the code pages, which the sons share).  A
    byte that the running process stores in its data pages is read back by
    it, changes no other byte of any process and leaves every process alive. *)
Theorem processes_are_isolated `{LayoutOk} P k run rq bq :
  alive P k run rq bq →
  (∀ e, enabled P e k → (∀ a, buffer_of e a → data_page (a / 4096)) →
     wp (handle_entry e) (λ _ k', ∃ P', becomes e k P P' ∧ still_alive P' k' ∧
       ∀ t a, t ∈ members P → user_area a 1 → (t = run → ¬ buffer_of e a) → memory P' t = memory P t ∧ same_byte P k k' t a) k) ∧
  (∀ b v, run ≠ keeper P → data_page (b / 4096) →
     ∃ k', store8 b v k = Some k' ∧ alive P k' run rq bq ∧ load8 k' b = Some (u8 v) ∧
       ∀ t a, t ∈ members P → user_area a 1 → (t = run → a ≠ b) → same_byte P k k' t a).
Proof.
  intros Ha. exact (conj (λ e, entry_isolated P k run rq bq e Ha) (λ b v, store_isolated P k run rq bq b v Ha)).
Qed.

Lemma fork_has_no_buffer a : buffer_of (SysCall 2 0 0 0) a → data_page (a / 4096).
Proof. intros [E _]. discriminate E. Qed.

Lemma processes_are_isolated_witness : ∃ k P,
  wp (handle_entry (H := example_layout) (SysCall 2 0 0 0)) (λ _ k', ∃ P', still_alive (H := example_layout) P' k' ∧ becomes (SysCall 2 0 0 0) k P P') k ∧
  ∃ k', store8 0x100004 65 k = Some k' ∧ load8 k' 0x100004 = Some 65.
Proof.
  destruct example_start as (k' & _ & Ha & [He _] & _). exists (set_esp (tss_esp0 k') k'), first_population. split.
  - eapply wp_mono; [exact (proj1 (processes_are_isolated _ _ _ _ _ Ha) (SysCall 2 0 0 0) He fork_has_no_buffer)|].
    intros [] k1 (P' & Hb & Hk & _). exists P'. exact (conj Hk Hb).
  - destruct (proj2 (processes_are_isolated _ _ _ _ _ Ha) 0x100004 65) as (k2 & Hst & _ & Hld & _).
    + by vm_compute.
    + split; by vm_compute.
    + exists k2. exact (conj Hst Hld).
Defined.
