(* ===== verification/Keyboard.v ===== *)
(** * From the keyboard to the process

    The keys pressed while a process runs go through the interrupt, the ring
    buffer and [sys_read] to the memory of the process. *)

From S2P Require Import Prelude CInt Circular Memory Errno Console Paging Kernel Mm Space Sched Interrupt System UserIO Process Types Entries Population Steps Births Life.

(** The characters that wait after the keys [ks]: the ring buffer holds 31, and
    those that find it full are lost. *)
Definition waiting (k : kernel) (ks : list Z) : list Z := take 31 (Circ.contents (cbuff k) ++ omap key_char ks).

Section keyboard.
Context `{LayoutOk} (P : population).
Implicit Types (k : kernel) (run b n : Z) (rq bq ks : list Z).

Lemma take_full {A} m (l l' : list A) : take m (take m l ++ l') = take m (l ++ l').
Proof.
  destruct (decide (length l ≤ m)%nat); [by rewrite (take_ge l) by done|].
  rewrite !take_app, length_take, take_take, Nat.min_id. replace (m - m `min` length l)%nat with 0%nat by lia.
  by replace (m - length l)%nat with 0%nat by lia.
Qed.

Lemma keys_run k run rq bq ks : alive P k run rq bq → Forall scan_code ks →
  wp (handle_entries (Keyboard <$> ks)) (λ _ k', alive P k' run rq bq ∧ Circ.contents (cbuff k') = waiting k ks) k.
Proof.
  unfold waiting. intros Ha Hks. revert k Ha. induction Hks as [|key ks Hkey Hks IH]; intros k Ha; cbn [fmap list_fmap handle_entries omap list_omap].
  - apply wp_ret. split; [done|]. rewrite app_nil_r, take_ge; [done|]. pose proof (Circ.contents_lt (cbuff k)). lia.
  - cbn [handle_entry]. apply wp_bind, wp_bind. eapply wp_mono; [exact (step_entry P _ _ _ _ Ha)|]. intros [] k1 (Ha1 & E1 & _).
    eapply wp_mono; [exact (step_key P _ run rq bq key Ha1 Hkey)|]. intros [] k2 [Ha2 E2].
    eapply wp_mono; [exact (IH k2 Ha2)|]. intros [] k' [Ha' E']. split; [done|]. rewrite E', E2, E1, take_full, <- app_assoc.
    by destruct (key_char key).
Qed.

Lemma keys_then_read k run rq bq ks b n c : alive P k run rq bq → run ≠ keeper P → Forall scan_code ks →
  L_USER_START ≤ b → 0 ≤ n < 2 ^ 31 → b + n ≤ USER_LAST_PAGE * 4096 →
  wp (handle_entries (Keyboard <$> ks) ;; sysenter ;; sys_call 3 b n c) (λ r k',
    ∃ m, r = Z.of_nat m ∧ m = Nat.min (Z.to_nat n) (length (waiting k ks)) ∧
      (∀ j x, (j < m)%nat → waiting k ks !! j = Some x → load8 k' (b + Z.of_nat j) = Some (u8 x)) ∧
      Circ.contents (cbuff k') = drop m (waiting k ks) ∧ still_alive P k') k.
Proof.
  intros Ha Hne Hks Hlo Hn Hend. apply wp_bind. eapply wp_mono; [exact (keys_run _ _ _ _ _ Ha Hks)|]. intros [] k1 [Ha1 E1].
  apply wp_bind. eapply wp_mono; [exact (step_sysenter P _ _ _ _ Ha1)|]. intros [] k2 (Ha2 & e & ->). set (k2 := set_esp e k1) in *.
  assert (E2 : Circ.contents (cbuff k2) = waiting k ks) by exact E1. clearbody k2. change (sys_call 3 b n c) with (sys_read b n).
  assert (Hb : is_u32 b) by (unfold L_USER_START in *; change (USER_LAST_PAGE * 4096) with 1163264 in *; wrap_lia).
  pose proof (alive_process _ _ _ _ _ Ha2 Hne) as Hup.
  eapply wp_mono; [exact (wp_and _ _ _ _ (step_read P _ _ _ _ b n Ha2 Hne Hb Hn Hend) (sys_read_run _ _ _ b n Hup (ty_keys _ (al_typed _ _ _ _ _ Ha2)) Hb Hn Hend))|].
  intros r k' [Hk' Hr]. destruct (Z.ltb_spec b L_USER_START); [lia|]. rewrite E2 in Hr.
  destruct Hr as (m & Hm & Hr & Hload & _ & _ & Hrest & _). by exists m.
Qed.
End keyboard.
