(* ===== verification/Input.v ===== *)
(** * From the keyboard to the game (input_processing of user.c)

    The process that forwards the keyboard: it attaches the shared page, reads one
    character at a time and stores it in the first byte of the page, where the
    process that plays reads it. *)

From S2P Require Import Prelude CInt ListHead Circular Memory Errno Console Paging Kernel Mm Space Words Sched Boot Interrupt System UserIO Process Shm Types Entries Population Steps CodeWrites Births Life Isolation Keyboard.
Import PTE PageTable.

(** ** The program *)

(** The address at which both processes attach the page. *)
Definition game_page : Z := 0x16C000.

Section input.
Context `{Layout}.

(** The wrappers, as entries of the kernel; the register that [read] and [shmat] do
    not load is arbitrary. *)
Definition read_call (b n other : Z) : MK Z := sysenter ;; sys_call 3 b n other.
Definition shmat_call (id addr other : Z) : MK Z := sysenter ;; sys_call 15 id addr other.

(** The body of the loop; [x] is the address of the array of two characters: the
    third is the byte that follows it on the stack. *)
Definition input_step (x addr other : Z) : MK unit :=
  nc ← read_call x 1 other;
  lift (store8 (x + 2) 0) ;;
  if nc =? 0 then mret tt
  else c ← ask (λ k, load8 k x); lift (store8 addr c).

(** The loop has no end: [n] iterations of it. *)
Fixpoint input_loop (n : nat) (x addr other : Z) : MK unit :=
  match n with O => mret tt | S n => input_step x addr other ;; input_loop n x addr other end.

Definition input_processing (n : nat) (x other : Z) : MK unit :=
  addr ← shmat_call 0 game_page other;
  input_loop n x (u32 addr) other.
End input.

(** ** The page both processes see *)

(** The frame of the shared page [id]. *)
Definition page_frame (k : kernel) (id : Z) : option Z := frame <$> znth (shared_pages k) id.

(** [t] has attached the shared page [id] at the page [p]. *)
Definition attached_at `{Layout} (k : kernel) (t p id : Z) : Prop :=
  USER_LAST_PAGE ≤ p < TOTAL_PAGES ∧ ∃ f, page_frame k id = Some f ∧ ptes k !! slot (pt_of t) p = Some (ss_entry f).

(** What [t] reads at [a] when it has the processor. *)
Definition view `{Layout} (k : kernel) (t a : Z) : option Z := load8 (put_cr3 (dir_of t) k) a.

(** The state that says which pages are attached. *)
Definition same_pages (k k' : kernel) : Prop := ptes k' = ptes k ∧ shared_pages k' = shared_pages k.

Section view.
Context `{LayoutOk} (P : population).
Implicit Types (k : kernel) (t p id run : Z) (rq bq : list Z).

Lemma same_pages_trans k1 k2 k3 : same_pages k1 k2 → same_pages k2 k3 → same_pages k1 k3.
Proof. intros [] []. split; congruence. Qed.

Lemma attached_same k k' t p id : same_pages k k' → attached_at k t p id → attached_at k' t p id.
Proof. intros [E1 E2] [Hp Hs]. split; [done|]. unfold page_frame. by rewrite E1, E2. Qed.

(** The byte behind the first address of the page. *)
Lemma attached_byte k run rq bq t p id : alive P k run rq bq → t ∈ members P → attached_at k t p id →
  ∃ f, page_frame k id = Some f ∧ NUM_PAG_KERNEL ≤ f < TOTAL_PAGES ∧
    translate (put_cr3 (dir_of t) k) (p * 4096) = Some (f * 4096) ∧ view k t (p * 4096) = Some (pread k (f * 4096)).
Proof.
  intros Ha Ht [Hp (f & Hs & He)]. exists f. split; [done|]. pose proof (al_kept _ _ _ _ _ Ha) as Hk.
  apply fmap_Some in Hs as (s & Hs & ->). pose proof (so_frames _ (kp_shared _ _ Hk) _ _ Hs) as Hf. split; [done|].
  assert (translate (put_cr3 (dir_of t) k) (p * 4096) = Some (frame s * 4096)) as E.
  { rewrite <- (Z.add_0_r (frame s * 4096)), <- (Z.mod_mul p 4096) by lia.
    apply (translate_ss_page _ t p (frame s)); [eapply alive_task; [exact Ha|by right]|exact (ps_space _ _ _ (kp_space _ _ Hk t Ht))|split; [done|apply Hk]| | |done|lia].
    - change USER_LAST_PAGE with 284 in Hp. lia.
    - unfold NUM_PAG_KERNEL, TOTAL_PAGES in Hf. change (2 ^ 20) with 1048576. lia. }
  split; [done|]. unfold view, load8. cbn [resolve PagedMem]. by rewrite E.
Qed.

(** The view of the page is the byte of its frame. *)
Lemma view_kept k k' run rq bq run' rq' bq' t p id : alive P k run rq bq → alive P k' run' rq' bq' → t ∈ members P →
  attached_at k t p id → attached_at k' t p id → page_frame k' id = page_frame k id →
  (∀ f, page_frame k id = Some f → NUM_PAG_KERNEL ≤ f → pread k' (f * 4096) = pread k (f * 4096)) →
  view k' t (p * 4096) = view k t (p * 4096).
Proof.
  intros Ha Ha' Ht Hat Hat' Hs Hp. destruct (attached_byte k run rq bq t p id Ha Ht Hat) as (f & E & Hf & _ & ->).
  destruct (attached_byte k' run' rq' bq' t p id Ha' Ht Hat') as (f' & E' & _ & _ & ->).
  assert (f' = f) as -> by congruence. f_equal. apply Hp; [done|lia].
Qed.

(** No user page of a process is in the frame of a shared page. *)
Lemma shared_apart k run rq bq t id f a : alive P k run rq bq → t ∈ members P → page_frame k id = Some f → user_area a 1 →
  f * 4096 ≠ user_byte (memory P t) a.
Proof.
  intros Ha Ht (s & Hs & ->)%fmap_Some Hua E. pose proof (al_kept _ _ _ _ _ Ha) as Hk.
  apply (proj2 (kp_apart _ _ Hk _ _ Hs) t (a / 4096) Ht (user_area_page a Hua)).
  rewrite <- user_byte_page, <- E. by apply Z.div_mul.
Qed.

(** The running process reads through its own tables. *)
Lemma view_running k run rq bq a : alive P k run rq bq → run ≠ keeper P → translate (put_cr3 (dir_of run) k) a = translate k a.
Proof.
  intros Ha Hne. destruct (alive_process _ _ _ _ _ Ha Hne) as [_ _ [Hc _] _]. rewrite <- Hc. by destruct k.
Qed.
End view.

(** ** One iteration *)

Section step.
Context `{LayoutOk} (P : population).
Implicit Types (k : kernel) (t p id run x : Z) (rq bq ks : list Z).

(** The characters that wait for the process. *)
Definition queued k : list Z := Circ.contents (cbuff k).

Lemma read_one k run rq bq x : alive P k run rq bq → run ≠ keeper P → data_area x 3 →
  wp (sys_read x 1) (λ r k', alive P k' run rq bq ∧ same_pages k k' ∧ queued k' = drop 1 (queued k) ∧
    (∀ z, L_USER_START ≤ z → z ≠ user_byte (memory P run) x → pread k' z = pread k z) ∧
    match queued k with [] => r = 0 | c :: _ => r = 1 ∧ load8 k' x = Some (u8 c) end) k.
Proof.
  intros Ha Hne Hx. pose proof (alive_process _ _ _ _ _ Ha Hne) as Hup. pose proof (al_typed _ _ _ _ _ Ha) as Hty.
  destruct (data_area_range x 3 0 Hx ltac:(lia)) as [[Hlo _] _]. rewrite Z.add_0_r in Hlo. pose proof (data_area_user _ _ Hx) as [_ Hhi].
  change (256 * 4096 ≤ x) in Hlo. change (x + 3 ≤ 284 * 4096) in Hhi.
  pose proof (sys_read_run _ _ _ x 1 Hup (ty_keys _ Hty) ltac:(wrap_lia) ltac:(lia) ltac:(change (x + 1 ≤ 284 * 4096); lia)) as Hw.
  eapply wp_mono; [exact (wp_gives _ _ _ _ k (gives_sys_read x 1) Hty Hw)|]. intros r k' (Hty' & Hk').
  destruct (Z.ltb_spec x L_USER_START) as [Hlt|_]; [unfold L_USER_START in Hlt; lia|]. destruct Hk' as (n & -> & -> & Hld & Hmem & _ & Hq & fr & Ek).
  change (pending k) with (queued k) in *. split; [rewrite Ek; apply (alive_same P k); [reflexivity..|by rewrite <- Ek|done]|].
  split; [rewrite Ek; unfold same_pages; split_and!; reflexivity|]. split; [change (queued k') with (pending k'); rewrite Hq; destruct (queued k) as [|c q]; [done|by destruct q]|].
  split.
  - intros z Hz Hnz. apply Hmem; [by apply user_outside|]. intros j Hj. assert (j = 0) as -> by lia. by rewrite Z.add_0_r.
  - destruct (queued k) as [|c q]; [done|]. change (Z.to_nat 1) with 1%nat in *. cbn [length Nat.min] in *. split; [done|].
    specialize (Hld 0%nat c ltac:(lia) eq_refl). by rewrite Z.add_0_r in Hld.
Qed.
(** One iteration takes one character, if there is one, and shows it to every
    process that has attached the page. *)
Lemma input_step_run k run rq bq x p id other : alive P k run rq bq → run ≠ keeper P → data_area x 3 → attached_at k run p id →
  wp (input_step x (p * 4096) other) (λ _ k', alive P k' run rq bq ∧ same_pages k k' ∧ queued k' = drop 1 (queued k) ∧
    ∀ t p', t ∈ members P → attached_at k t p' id → view k' t (p' * 4096) = match queued k with [] => view k t (p' * 4096) | c :: _ => Some (u8 c) end) k.
Proof.
  intros Ha Hne Hx Hat. destruct (alive_run _ _ _ _ _ Ha Hne) as [Hrun _]. unfold input_step, read_call. apply wp_bind, wp_bind.
  eapply wp_mono; [exact (step_sysenter P _ _ _ _ Ha)|]. intros [] k1 (Ha1 & e & Ek1).
  assert (same_pages k k1 ∧ queued k1 = queued k ∧ frames k1 = frames k) as (Hs1 & Hq1 & Hf1) by (rewrite Ek1; by split). clear Ek1.
  eapply wp_mono; [exact (read_one k1 run rq bq x Ha1 Hne Hx)|]. intros r k2 (Ha2 & Hs2 & Hq2 & Hm2 & Hr). rewrite Hq1 in Hq2, Hr.
  pose proof (process_runs _ _ _ (alive_process _ _ _ _ _ Ha2 Hne)) as Hru2.
  destruct (data_area_range x 3 0 Hx ltac:(lia)) as [Hx0 _], (data_area_range x 3 2 Hx ltac:(lia)) as [Hx2 _]. rewrite Z.add_0_r in Hx0.
  destruct (store_byte k2 run (memory P run) (x + 2) 0 Hru2 Hx2) as [E3 L3]. set (k3 := set_frames _ k2) in *.
  apply wp_bind. eapply wp_lift; [exact E3|]. pose proof (alive_stored P k2 (<[user_byte (memory P run) (x + 2) := 0]> (frames k2)) run rq bq Ha2) as Ha3. fold k3 in Ha3.
  assert (same_pages k k3) as Hs3 by (by apply (same_pages_trans k k1), (same_pages_trans k1 k2)).
  destruct (queued k) as [|c q] eqn:Eq.
  - subst r. apply wp_ret. split; [done|]. split; [done|]. split; [exact Hq2|]. intros t p' Ht Hat'.
    apply (view_kept P k k3 run rq bq run rq bq t p' id); try done; [by apply (attached_same k)|unfold page_frame; by rewrite (proj2 Hs3)|].
    intros f Hf Hnk. assert (∀ a, user_area a 1 → f * 4096 ≠ user_byte (memory P run) a) as Hap by (intros a Hua; by apply (shared_apart P k run rq bq run id)).
    cbn [pread PagedMem frames set_frames k3]. rewrite lookup_insert_ne by (apply not_eq_sym; by apply Hap).
    pose proof (Hm2 (f * 4096)) as Hm. cbn [pread PagedMem] in Hm. rewrite Hm, Hf1; [done|unfold NUM_PAG_KERNEL, L_USER_START in *; lia|by apply Hap].
  - destruct Hr as [-> Hld]. cbn [Z.eqb]. apply wp_bind. eapply wp_ask; [rewrite L3 by done; rewrite decide_False by lia; exact Hld|].
    destruct (attached_byte P k3 run rq bq run p id Ha3 Hrun (attached_same _ _ _ _ _ Hs3 Hat)) as (f & Hs & Hf & Htr & _).
    rewrite (view_running P k3 run rq bq) in Htr by done. eapply wp_lift; [unfold store8; cbn [resolve PagedMem]; rewrite Htr; reflexivity|].
    pose proof (alive_stored P k3 (<[f * 4096 := u8 c]> (frames k3)) run rq bq Ha3) as Ha4. set (k4 := set_frames _ k3) in Ha4. change (pwrite _ _ k3) with k4.
    split; [exact Ha4|]. split; [exact Hs3|]. split; [exact Hq2|]. intros t p' Ht Hat'.
    destruct (attached_byte P k4 run rq bq t p' id Ha4 Ht (attached_same _ _ _ _ _ Hs3 Hat')) as (f' & Hs' & _ & _ & ->).
    assert (f' = f) as -> by (change (page_frame k4 id) with (page_frame k3 id) in Hs'; congruence).
    cbn [pread PagedMem frames set_frames k4]. rewrite lookup_insert_eq. cbn [default]. f_equal. apply u8_small. auto with zeos.
Qed.

(** ** The loop *)

(** What the page shows after the characters [cs], when it has shown [old]. *)
Definition shown (cs : list Z) (old : option Z) : option Z := match last cs with Some c => Some (u8 c) | None => old end.

Lemma shown_cons c cs old : shown (c :: cs) old = shown cs (Some (u8 c)).
Proof. unfold shown. rewrite last_cons. by destruct (last cs). Qed.

Lemma input_loop_run k run rq bq n x p id other : alive P k run rq bq → run ≠ keeper P → data_area x 3 → attached_at k run p id →
  wp (input_loop n x (p * 4096) other) (λ _ k', alive P k' run rq bq ∧ same_pages k k' ∧ queued k' = drop n (queued k) ∧
    ∀ t p', t ∈ members P → attached_at k t p' id → view k' t (p' * 4096) = shown (take n (queued k)) (view k t (p' * 4096))) k.
Proof.
  intros Ha Hne Hx Hat. revert k Ha Hat. induction n as [|n IH]; intros k Ha Hat; cbn [input_loop].
  - apply wp_ret. by split; [|split; [|split; [by rewrite drop_0|]]].
  - apply wp_bind. eapply wp_mono; [exact (input_step_run k run rq bq x p id other Ha Hne Hx Hat)|]. intros [] k1 (Ha1 & Hs1 & Hq1 & Hv1).
    eapply wp_mono; [exact (IH k1 Ha1 (attached_same _ _ _ _ _ Hs1 Hat))|]. intros [] k' (Ha' & Hs' & Hq' & Hv').
    split; [done|]. split; [by apply (same_pages_trans k k1)|]. split; [rewrite Hq', Hq1, drop_drop; f_equal; lia|].
    intros t p' Ht Hat'. rewrite (Hv' t p' Ht (attached_same _ _ _ _ _ Hs1 Hat')), (Hv1 t p' Ht Hat'), Hq1.
    destruct (queued k) as [|c q]; [by destruct n|]. cbn [take drop]. by rewrite shown_cons, drop_0.
Qed.

(** ** The keys before it *)

Lemma keys_keep_zoom {A} k0 (m : M Circ.circular_buffer A) : gives (λ k, same_pages k0 k ∧ frames k = frames k0) (zoom cbuff set_cbuff m) (λ _, True).
Proof. intros k a k' E Hk. unfold zoom in E. destruct (m (cbuff k)) as [[b c]|]; [|done]. by injection E as <- <-. Qed.

Lemma keys_keep k0 ks : gives (λ k, same_pages k0 k ∧ frames k = frames k0) (handle_entries (Keyboard <$> ks)) (λ _, True).
Proof.
  induction ks as [|key ks IH]; cbn [fmap list_fmap handle_entries]; [by apply gives_ret|].
  apply (gives_bind _ _ _ (λ _, True)); [|intros ? _; exact IH]. cbn [handle_entry]. unfold kernel_entry_stack, kbd_routine.
  gives_walk ltac:(fun _ => lazymatch goal with
    | |- gives _ (modify _) _ => apply gives_modify; [done|]; by intros k [[] ]
    | |- gives _ (zoom _ _ _) _ => apply keys_keep_zoom
    end).
Qed.

(** [shmat] gives the page that is asked for when it is free. *)
Lemma shmat_game k run rq bq other : alive P k run rq bq → run ≠ keeper P → ptes k !! slot (pt_of run) (game_page / 4096) = Some 0 →
  wp (shmat_call 0 game_page other) (λ r k', r = game_page ∧ alive P k' run rq bq ∧ attached_at k' run (game_page / 4096) 0 ∧
    queued k' = queued k ∧ frames k' = frames k ∧ page_frame k' 0 = page_frame k 0 ∧
    ∀ t p', t ∈ members P → attached_at k t p' 0 → attached_at k' t p' 0) k.
Proof.
  intros Ha Hne Hfree. unfold shmat_call. apply wp_bind. eapply wp_mono; [exact (step_sysenter P _ _ _ _ Ha)|]. intros [] k1 (Ha1 & e & Ek1).
  pose proof (alive_process _ _ _ _ _ Ha1 Hne) as Hup. pose proof (al_typed _ _ _ _ _ Ha1) as Hty. pose proof (kp_shared _ _ (al_kept _ _ _ _ _ Ha1)) as Hok.
  assert (Hfree1 : ptes k1 !! slot (pt_of run) 364 = Some 0) by (rewrite Ek1; exact Hfree). assert (E1 : same_pages k k1) by (by rewrite Ek1).
  assert (E2 : queued k1 = queued k ∧ frames k1 = frames k) by (by rewrite Ek1). clear Ek1. destruct E2 as [<- <-].
  change (sys_call 15 0 game_page other) with (sys_shmat 0 game_page).
  assert (wp (sys_shmat 0 game_page) (λ r k', ∃ p s, chosen k1 run game_page p ∧ znth (shared_pages k1) 0 = Some s ∧ r = p * 4096 ∧ k' = attached k1 run 0 p s) k1) as Hw.
  { apply (sys_shmat_run k1 run (memory P run)); [exact Hup|exact Hok|split; [discriminate|reflexivity]|intros E; discriminate E|intros _ E; by destruct E| |].
    - intros _ _ Hfull. exfalso. destruct (Hfull 364) as (e' & He & Hn); [split; [discriminate|reflexivity]|congruence].
    - intros p s _ _ Hch Hs. by exists p, s. }
  eapply wp_mono; [exact (wp_gives _ _ _ _ k1 (gives_sys_shmat 0 game_page) Hty Hw)|].
  intros r k' (Hty' & p & s & Hch & Hs & -> & ->). pose proof Hch as (_ & Hun & Hcase). change (game_page / 4096) with 364 in *.
  change (game_page =? 0) with false in Hcase. rewrite bool_decide_true in Hcase by done. cbn [orb negb] in Hcase. subst p.
  split; [done|]. split; [by apply (alive_attached P k1 run rq bq 0 game_page)|].
  assert (Hpf : page_frame (attached k1 run 0 364 s) 0 = page_frame k1 0).
  { unfold page_frame. rewrite Hs. cbn [attached shared_pages set_shared_pages]. change 0 with (Z.of_nat 0). rewrite znth_of_nat. change (Z.to_nat 0) with 0%nat.
    rewrite list_lookup_insert_eq; [done|]. pose proof (znth_Some_range _ _ _ Hs). lia. }
  assert (Ht : is_task run) by apply Hup. split; [|split; [done|split; [done|split]]].
  - split; [by vm_compute|]. exists (frame s). split; [rewrite Hpf; unfold page_frame; by rewrite Hs|]. apply lookup_insert_eq.
  - rewrite Hpf. unfold page_frame. by rewrite (proj2 E1).
  - intros t p' Ht' Hat. apply (attached_same _ _ _ _ _ E1) in Hat as [Hp (f & Hf & He)]. split; [done|]. exists f. split; [by rewrite Hpf|].
    cbn [attached ptes set_shared_pages put_cr3 set_ptes]. rewrite lookup_insert_ne; [done|]. intros E. apply pt_slot_inj in E as [-> <-].
    + rewrite Hfree1 in He. injection He as He. destruct (ss_entry_fields f) as (_ & _ & _ & _ & Hnz); [|done].
      apply fmap_Some in Hf as (s' & Hs' & ->). pose proof (so_frames _ Hok _ _ Hs') as Hr. unfold TOTAL_PAGES, NUM_PAG_KERNEL in Hr. change (2 ^ 20) with 1048576. lia.
    + done.
    + eapply alive_task; [exact Ha|by right].
    + by vm_compute.
    + change USER_LAST_PAGE with 284 in Hp. lia.
Qed.

(** The same bytes in memory, the same view. *)
Lemma view_frames k k' run rq bq run' rq' bq' t p id : alive P k run rq bq → alive P k' run' rq' bq' → t ∈ members P →
  attached_at k t p id → attached_at k' t p id → page_frame k' id = page_frame k id → frames k' = frames k → view k' t (p * 4096) = view k t (p * 4096).
Proof.
  intros Ha Ha' Ht Hat Hat' Hp Hf. apply (view_kept P k k' run rq bq run' rq' bq' t p id); try done. intros f _ _. cbn [pread PagedMem]. by rewrite Hf.
Qed.

Lemma keys_then_forwarded k run rq bq ks n x other : alive P k run rq bq → run ≠ keeper P → Forall scan_code ks → data_area x 3 →
  ptes k !! slot (pt_of run) (game_page / 4096) = Some 0 →
  wp (handle_entries (Keyboard <$> ks) ;; input_processing n x other) (λ _ k', alive P k' run rq bq ∧ queued k' = drop n (waiting k ks) ∧
    attached_at k' run (game_page / 4096) 0 ∧ ∀ t p, t ∈ members P → attached_at k t p 0 →
      view k' t (p * 4096) = shown (take n (waiting k ks)) (view k t (p * 4096))) k.
Proof.
  intros Ha Hne Hks Hx Hfree. apply wp_bind.
  eapply wp_mono; [exact (wp_gives _ _ _ _ k (keys_keep k ks) (conj (conj eq_refl eq_refl) eq_refl) (keys_run P k run rq bq ks Ha Hks))|].
  intros [] k1 ((Hs1 & Hf1) & Ha1 & Hq1). change (Circ.contents (cbuff k1)) with (queued k1) in Hq1. unfold input_processing. apply wp_bind.
  assert (Hfree1 : ptes k1 !! slot (pt_of run) (game_page / 4096) = Some 0) by (by rewrite (proj1 Hs1)).
  eapply wp_mono; [exact (shmat_game k1 run rq bq other Ha1 Hne Hfree1)|]. intros r k2 (-> & Ha2 & Hat2 & Hq2 & Hf2 & Hp2 & Hkeep).
  change (u32 game_page) with (game_page / 4096 * 4096).
  eapply wp_mono; [exact (input_loop_run k2 run rq bq n x (game_page / 4096) 0 other Ha2 Hne Hx Hat2)|]. intros [] k' (Ha' & Hs' & Hq' & Hv').
  split; [done|]. split; [by rewrite Hq', Hq2, Hq1|]. split; [by apply (attached_same k2)|]. intros t p Ht Hat.
  pose proof (attached_same _ _ _ _ _ Hs1 Hat) as Hat1. rewrite (Hv' t p Ht (Hkeep t p Ht Hat1)), Hq2, Hq1. f_equal.
  rewrite (view_frames k1 k2 run rq bq run rq bq t p 0) by (done || by apply Hkeep).
  apply (view_frames k k1 run rq bq run rq bq t p 0); try done. unfold page_frame. by rewrite (proj2 Hs1).
Qed.
End step.

(** C36: the keys reach the game.  While the process that forwards the keyboard
    runs, keys are pressed and released; then it attaches the shared page, which
    it finds free at the address it asks for, and goes round its loop [n] times.
    It takes the first [n] of the characters that waited and of the keys pressed, in order
    (of more than 31 the last are lost); the others go on waiting.  Every process
    that has attached the page, at any address, finds in its first byte the last
    character taken, or what it found before if none was; no process is lost. *)
Theorem keys_reach_the_game `{LayoutOk} P k run rq bq ks n x other :
  alive P k run rq bq → run ≠ keeper P → Forall scan_code ks → data_area x 3 →
  ptes k !! slot (pt_of run) (game_page / 4096) = Some 0 →
  wp (handle_entries (Keyboard <$> ks) ;; input_processing n x other) (λ _ k', alive P k' run rq bq ∧ queued k' = drop n (waiting k ks) ∧
    attached_at k' run (game_page / 4096) 0 ∧ ∀ t p, t ∈ members P → attached_at k t p 0 →
      view k' t (p * 4096) = shown (take n (waiting k ks)) (view k t (p * 4096))) k.
Proof. apply keys_then_forwarded. Qed.

(** The first process forwards the keys a and b. *)
Lemma keys_reach_the_game_witness : ∃ k,
  wp (handle_entries (H := example_layout) (Keyboard <$> [0x1E; 0x9E; 0x30; 0xB0]) ;; input_processing (H := example_layout) 3 0x113F00 0)
    (λ _ k', queued k' = [] ∧ attached_at (H := example_layout) k' task1 364 0) k.
Proof.
  destruct example_alive as (k' & _ & Hb & Ha). pose proof (proj2 (bo_keys _ _ Hb)) as Hempty. destruct (bo_tables _ _ Hb) as (m & Hm & _ & Hu).
  assert (Ht : is_task (H := example_layout) (task1 (H := example_layout))) by (eapply alive_task; [exact Ha|by right; left]). exists (set_esp (tss_esp0 k') k').
  eapply wp_mono; [apply (keys_reach_the_game _ _ _ _ _ [0x1E; 0x9E; 0x30; 0xB0] 3 0x113F00 0 Ha)|].
  - by vm_compute.
  - apply (bool_decide_unpack _). by vm_compute.
  - split; by vm_compute.
  - change (ptes (set_esp _ _)) with (ptes k'). rewrite Hu.
    + rewrite (proj2 (Hm _ Ht)) by (split; by vm_compute). by vm_compute.
    + intros i [Hi1 Hi2] E. apply pt_slot_inj in E as [_ <-]; [|exact Ht|exact Ht|split; by vm_compute|].
      * by apply (Z.lt_irrefl 364), (Z.lt_trans _ _ _ Hi2).
      * split; [by apply (Z.le_trans _ USER_FIRST_PAGE)|by apply (Z.lt_trans _ USER_LAST_PAGE)].
  - unfold waiting. change (cbuff (set_esp _ k')) with (cbuff k'). rewrite Hempty. change (take 31 ([] ++ omap key_char [0x1E; 0x9E; 0x30; 0xB0])) with [97; 98].
    intros [] k1 (_ & Hq & Hat & _). split; [exact Hq|exact Hat].
Defined.
