(* ===== verification/Gate.v ===== *)
(** * The way into the kernel and back (entry.S)

    The handlers of the interrupts and of [sysenter]: they save the registers of
    the process on its kernel stack, call the routine, and return to the process
    that has the processor then, with the registers its own stack holds.  The
    stack pointer of the state is the one of the entry: the words a handler
    pushes lie below it. *)

From S2P Require Import Prelude CInt Memory Errno Console Paging Descriptors Kernel Sched Interrupt UserIO Process Entries.

(** ** The processor in user mode *)

(** What [SAVE_ALL] pushes. *)
Record registers := mk_registers {
  eax : Z; ebx : Z; ecx : Z; edx : Z; esi : Z; edi : Z; ebp : Z;
  seg_ds : Z; seg_es : Z; seg_fs : Z; seg_gs : Z;
}.

(** What the processor pushes, and [iret] pops. *)
Record hardware := mk_hardware { eip : Z; seg_cs : Z; eflags : Z; user_esp : Z; seg_ss : Z }.

Record cpu := mk_cpu { regs : registers; hw : hardware }.

#[export] Instance registers_eq_dec : EqDecision registers.
Proof. solve_decision. Defined.
#[export] Instance hardware_eq_dec : EqDecision hardware.
Proof. solve_decision. Defined.
#[export] Instance cpu_eq_dec : EqDecision cpu.
Proof. solve_decision. Defined.

(** The order of the pushes of [SAVE_ALL]. *)
Definition save_all (r : registers) : list Z :=
  [seg_gs r; seg_fs r; seg_es r; seg_ds r; eax r; ebp r; edi r; esi r; ebx r; ecx r; edx r].

(** The context the processor pushes: the stack of the process only when the
    interrupt comes from user mode. *)
Definition interrupt_context (user : bool) (h : hardware) : list Z :=
  (if user then [seg_ss h; user_esp h] else []) ++ [eflags h; seg_cs h; eip h].

(** ** The stack *)

Fixpoint push_words (e : Z) (ws : list Z) (st : gmap Z Z) : gmap Z Z :=
  match ws with [] => st | w :: ws => push_words (e - 4) ws (<[e - 4 := w]> st) end.

Definition push_all (ws : list Z) : MK unit := modify (λ k, set_stacks (push_words (esp k) ws (stacks k)) k).

(** [RESTORE_ALL], with the stack pointer at [b]. *)
Definition restore_all (b : Z) : MK registers :=
  dx ← load_stack b; cx ← load_stack (b + 4); bx ← load_stack (b + 8); si ← load_stack (b + 12);
  di ← load_stack (b + 16); bp ← load_stack (b + 20); ax ← load_stack (b + 24); ds ← load_stack (b + 28);
  es ← load_stack (b + 32); fs ← load_stack (b + 36); gs ← load_stack (b + 40);
  mret (mk_registers ax bx cx dx si di bp ds es fs gs).

Definition iret (b : Z) : MK hardware :=
  ip ← load_stack b; cs ← load_stack (b + 4); fl ← load_stack (b + 8); sp ← load_stack (b + 12); ss ← load_stack (b + 16);
  mret (mk_hardware ip cs fl sp ss).

(** The code addresses the handlers push for their calls, and the flags of the
    processor when a system call ends, which nobody restores. *)
Class Code := {
  clk_end : Z;
  kbd_end : Z;
  pgf_end : Z;
  sysenter_end : Z;
  kernel_flags : Z;
}.

Class CodeOk `{Code} : Prop := { ends_apart : sysenter_end ≠ clk_end ∧ sysenter_end ≠ kbd_end }.

Section handlers.
Context `{Layout, Code}.

(** ** The way back *)

(** The end of an interrupt handler: the registers are at [b], the context at [h]. *)
Definition interrupt_return (b h : Z) : MK cpu := r ← restore_all b; h ← iret h; mret (mk_cpu r h).

(** From [sysenter_end] on, with the stack pointer at [b]: the answer takes the
    place of [%eax]; [sysexit] finds the user code at [%edx] and the user stack
    at [%ecx], and its segments behind the one of the kernel. *)
Definition sysenter_return (b answer : Z) : MK cpu :=
  store_stack (b + 0x18) (u32 answer) ;;
  r ← restore_all b;
  dx ← load_stack (b + 44);
  cx ← load_stack (b + 44 + 0xc);
  cs ← ask (λ k, msrs k !! 0x174);
  mret (mk_cpu (mk_registers (eax r) (ebx r) cx dx (esi r) (edi r) (ebp r) (seg_ds r) (seg_es r) (seg_fs r) (seg_gs r))
               (mk_hardware dx (Z.lor (cs.1 + 16) 3) (Z.setbit kernel_flags 9) cx (Z.lor (cs.1 + 24) 3))).

(** The routine has returned, with [answer] in [%eax], and [c] had the processor
    when it was called.  A process that gave the processor up in a routine resumes
    there: the clock routine has no result, [sys_block], the only service that
    gives it up and comes back, answers 0, as [ret_from_fork] does, which a new
    process starts at.  The idle process goes on with its loop in the kernel. *)
Definition leave (c answer : Z) : MK (option cpu) :=
  t ← gets current;
  i ← gets idle_task;
  if t =? i then mret None
  else
    e ← gets esp;
    b ← (if e =? stack_top t then mret (e - 68) else store_stack (e - 4) 0 ;; mret e);
    ret ← load_stack b;
    if ret =? sysenter_end then r ← sysenter_return (b + 4) (if t =? c then answer else 0); mret (Some r)
    else if (ret =? clk_end) || (ret =? kbd_end) then r ← interrupt_return (b + 4) (b + 48); mret (Some r)
    else fault.

(** ** The handlers *)

(** [kbd_handler] and [clk_handler]. *)
Definition interrupt_handler (ret : Z) (routine : MK unit) (r : cpu) : MK (option cpu) :=
  kernel_entry_stack ;;
  c ← gets current;
  i ← gets idle_task;
  push_all (interrupt_context (negb (c =? i)) (hw r) ++ save_all (regs r) ++ [ret]) ;;
  routine ;;
  leave c 0.

(** [__wrap_page_fault_handler]: the processor pushes an error code, the handler
    the address of the instruction as the parameter of the routine. *)
Definition page_fault_handler (cr2 error : Z) (buff after : list Z) (r : cpu) : MK (option cpu) :=
  kernel_entry_stack ;;
  push_all (interrupt_context true (hw r) ++ [error] ++ save_all (regs r) ++ [eip (hw r); pgf_end]) ;;
  e ← gets esp;
  ip ← load_stack (e - 68 - 4);
  ok ← pgf_routine cr2 ip buff after;
  if (ok : bool) then r ← interrupt_return (e - 68) (e - 20); mret (Some r) else fault.

(** The arguments of a service, from the words in [%edx], [%ecx] and [%ebx]: the
    parameters that are not pointers are signed. *)
Definition arguments (n dx cx bx : Z) : Z * Z * Z :=
  let word (pointer : bool) w := if pointer then w else s32 w in
  (word ((n =? 3) || (n =? 16)) dx, word ((n =? 4) || (n =? 15)) cx, word false bx).

(** What [sys_call_handler_sysenter] pushes: the user stack pointer is the frame
    pointer of the wrapper, with the return address one word above it. *)
Definition call_context (r : cpu) (ret : Z) : list Z :=
  [USER_DS; ebp (regs r); Z.clearbit (eflags (hw r)) 9; USER_CS; ret] ++ save_all (regs r) ++ [sysenter_end].

Definition sysenter_handler (r : cpu) : MK (option cpu) :=
  sysenter ;;
  ret ← ask (λ k, load32 k (u32 (ebp (regs r) + 4)));
  push_all (call_context r ret) ;;
  c ← gets current;
  let n := s32 (eax (regs r)) in
  let '(x, y, z) := arguments n (edx (regs r)) (ecx (regs r)) (ebx (regs r)) in
  answer ← sys_call n x y z;
  leave c answer.

Inductive event :=
  | ClockTick
  | KeyCode (key : Z)
  | Fault (cr2 error : Z) (buff after : list Z)
  | Sysenter.

Definition handle (ev : event) (r : cpu) : MK (option cpu) :=
  match ev with
  | ClockTick => interrupt_handler clk_end clk_routine r
  | KeyCode key => interrupt_handler kbd_end (kbd_routine key) r
  | Fault cr2 error buff after => page_fault_handler cr2 error buff after r
  | Sysenter => sysenter_handler r
  end.

(** The entry of the kernel that the event is. *)
Definition entry_of (ev : event) (r : cpu) : entry :=
  match ev with
  | ClockTick => Clock
  | KeyCode key => Keyboard key
  | Fault cr2 _ buff after => PageFault cr2 (eip (hw r)) buff after
  | Sysenter =>
    let n := s32 (eax (regs r)) in
    let '(x, y, z) := arguments n (edx (regs r)) (ecx (regs r)) (ebx (regs r)) in SysCall n x y z
  end.
End handlers.

(** ** The words of a context *)

(** What a process has left on its stack when it gave the processor up. *)
Inductive context :=
  | Interrupted (r : cpu)
  | InCall (r : cpu) (ret : Z).

Definition context_words `{Code} (c : context) : list Z :=
  match c with
  | Interrupted r => interrupt_context true (hw r) ++ save_all (regs r) ++ [clk_end]
  | InCall r ret => call_context r ret
  end.

(** What it gets back: everything after an interrupt; after a system call the
    answer, and in the registers [sysexit] uses the return address and the stack. *)
Definition after_call `{Code} (r : cpu) (ret answer : Z) : cpu :=
  let s := regs r in
  mk_cpu (mk_registers (u32 answer) (ebx s) (ebp s) ret (esi s) (edi s) (ebp s) (seg_ds s) (seg_es s) (seg_fs s) (seg_gs s))
         (mk_hardware ret USER_CS (Z.setbit kernel_flags 9) (ebp s) USER_DS).

Definition resumed `{Code} (c : context) (answer : Z) : cpu :=
  match c with Interrupted r => r | InCall r ret => after_call r ret answer end.

(** The words [ws] are on the stack whose top is [e]. *)
Definition words_at (st : gmap Z Z) (e : Z) (ws : list Z) : Prop :=
  ∀ i w, ws !! i = Some w → st !! (e - 4 - 4 * Z.of_nat i) = Some w.

Section words.
Implicit Types (st : gmap Z Z) (ws : list Z) (e a : Z).

Lemma push_words_outside ws e st a :
  a < e - 4 * Z.of_nat (length ws) ∨ e ≤ a → push_words e ws st !! a = st !! a.
Proof.
  revert e st. induction ws as [|w ws IH]; intros e st Ha; cbn [push_words length] in *; [done|].
  rewrite IH by lia. apply lookup_insert_ne. lia.
Qed.

Lemma push_words_at ws e st : words_at (push_words e ws st) e ws.
Proof.
  revert e st. induction ws as [|w ws IH]; intros e st i x Hi; [done|]. cbn [push_words]. destruct i as [|i].
  - injection Hi as ->. rewrite push_words_outside by lia. replace (e - 4 - 4 * Z.of_nat 0) with (e - 4) by lia. apply lookup_insert_eq.
  - rewrite <- (IH (e - 4) (<[e - 4 := w]> st) i x Hi). f_equal. lia.
Qed.

(** The word [a] bytes below the top. *)
Lemma word_below st e ws i w a : words_at st e ws → ws !! i = Some w → a = e - 4 - 4 * Z.of_nat i → st !! a = Some w.
Proof. intros Hw Hi ->. by apply Hw. Qed.

Lemma words_at_same st st' e ws :
  (∀ a, e - 4 * Z.of_nat (length ws) ≤ a < e → st' !! a = st !! a) → words_at st e ws → words_at st' e ws.
Proof. intros Hs Hw i w Hi. pose proof (lookup_lt_Some _ _ _ Hi). rewrite Hs by lia. by apply Hw. Qed.
End words.

Lemma context_length `{Code} c : length (context_words c) = 17%nat.
Proof. by destruct c. Qed.
