(* ===== verification/Stacks.v ===== *)
(** * What the routines do to the kernel stacks

    A routine that keeps the processor writes no stack and saves no stack pointer;
    one that gives the processor up writes one word on its own stack, below the
    registers that entry.S has saved, and saves its own stack pointer.  Creating
    a process is the exception and is in Fork.v. *)

From S2P Require Import Prelude CInt ListHead Circular Memory Errno Console LibC Paging Descriptors Kernel Mm Space Sched Interrupt UserIO Process Shm Types Entries Population.
Import PTE PageTable.

(** ** Computations that lead from one condition to another *)

(** From a state with [P], a run that does not fault ends in a state with [Q]. *)
Definition leads {S A} (P : S → Prop) (m : M S A) (Q : S → Prop) : Prop := ∀ s a s', m s = Some (a, s') → P s → Q s'.

Section leads.
Context {S : Type}.
Implicit Types (P Q : S → Prop).

Lemma leads_gives {A} P (m : M S A) : gives P m (λ _, True) → leads P m P.
Proof. intros Hm s a s' E HP. by destruct (Hm _ _ _ E HP). Qed.

Lemma leads_bind {A B} P Q R (m : M S A) (f : A → M S B) : leads P m Q → (∀ a, leads Q (f a) R) → leads P (m ≫= f) R.
Proof.
  intros Hm Hf s b s2. unfold mbind, M_bind. destruct (m s) as [[a s1]|] eqn:E; [|done].
  intros E' HP. exact (Hf a _ _ _ E' (Hm _ _ _ E HP)).
Qed.

Lemma leads_if {A} (b : bool) P Q (m m' : M S A) : leads P m Q → leads P m' Q → leads P (if b then m else m') Q.
Proof. by destruct b. Qed.

Lemma leads_ret {A} (a : A) P Q : (∀ s, P s → Q s) → leads P (mret a : M S A) Q.
Proof. intros HPQ s b s' E HP. injection E as _ <-. auto. Qed.
End leads.

(** ** The two conditions *)

(** The stacks, the stack pointer, the stack pointers saved in the PCBs and the
    code segment of the kernel. *)
Record stacked `{Layout} (st : gmap Z Z) (e : Z) (saved_esp : Z → option Z) (cs : option (Z * Z)) (k : kernel) : Prop := {
  sd_stacks : stacks k = st;
  sd_esp : esp k = e;
  sd_saved : ∀ t, kernel_esp0 <$> tasks k !! t = saved_esp t;
  sd_cs : msrs k !! 0x174 = cs;
}.

(** [cur] has given the processor to the process [new], which resumes with the
    saved stack pointer [sp] at the address [r]. *)
Record handed `{Layout} (st : gmap Z Z) (e : Z) (saved_esp : Z → option Z) (cs : option (Z * Z)) (cur new sp r : Z) (k : kernel) : Prop := {
  hd_stacks : stacks k = <[e - call_depth - 28 := task_switch_ret]> st;
  hd_new : saved_esp new = Some sp;
  hd_resume : stacks k !! (sp + 4) = Some r;
  hd_esp : esp k = resumed_esp sp r;
  hd_tss : tss_esp0 k = stack_top new;
  hd_saved : ∀ t, kernel_esp0 <$> tasks k !! t = if decide (t = cur) then Some (e - call_depth - 32) else saved_esp t;
  hd_cs : msrs k !! 0x174 = cs;
}.

(** The processor has been kept, or given up. *)
Definition turned `{Layout} st e saved_esp cs cur k : Prop :=
  stacked st e saved_esp cs k ∨ ∃ new sp r, handed st e saved_esp cs cur new sp r k.

Lemma store8_frames a v k k' : store8 a v k = Some k' → ∃ fr, k' = set_frames fr k.
Proof. unfold store8. cbn [resolve PagedMem]. destruct (translate k a); [|done]. intros [= <-]. eexists. reflexivity. Qed.

Section rules.
Context `{Layout} (st : gmap Z Z) (e : Z) (f : Z → option Z) (cs : option (Z * Z)).

Lemma stacked_modify g : (∀ k, stacks (g k) = stacks k ∧ esp (g k) = esp k ∧ tasks (g k) = tasks k ∧ msrs (g k) = msrs k) →
  gives (stacked st e f cs) (modify g) (λ _, True).
Proof. intros Hg. apply gives_modify; [done|]. intros k []. destruct (Hg k) as (? & ? & E1 & E2). split; rewrite ?E1, ?E2; congruence || done. Qed.

Lemma stacked_lift g : (∀ k k', g k = Some k' → ∃ fr, k' = set_frames fr k) → gives (stacked st e f cs) (lift g) (λ _, True).
Proof. intros Hg. apply gives_lift; [done|]. intros k k' [] E. destruct (Hg _ _ E) as [fr ->]. by split. Qed.

Lemma stacked_set_pcb t g : (∀ p, kernel_esp0 (g p) = kernel_esp0 p) → gives (stacked st e f cs) (set_pcb t g) (λ _, True).
Proof.
  intros Hg. apply gives_lift; [done|]. intros k k' [H1 H2 H3 H4] E. destruct (tasks k !! t) as [p|] eqn:Ep; [|done].
  cbn in E. injection E as <-. split; [done|done| |done]. intros u. kcbn. rewrite <- H3, lookup_insert. case_decide as Eu; [|done].
  subst u. rewrite Ep. cbn. by rewrite Hg.
Qed.

Lemma stacked_set_shared i g : gives (stacked st e f cs) (set_shared i g) (λ _, True).
Proof.
  apply gives_lift; [done|]. intros k k' [] E. destruct (znth (shared_pages k) i); [|done]. cbn [mbind option_bind] in E.
  destruct (zset _ _ _); [|done]. injection E as <-. by split.
Qed.

Lemma stacked_zoom {T A} (get : kernel → T) put (m : M T A) :
  (∀ v k, stacks (put v k) = stacks k ∧ esp (put v k) = esp k ∧ tasks (put v k) = tasks k ∧ msrs (put v k) = msrs k) →
  gives (stacked st e f cs) (zoom get put m) (λ _, True).
Proof.
  intros Hput k a k' E []. unfold zoom in E. destruct (m (get k)) as [[b x]|]; [|done]. injection E as <- <-.
  split; [|done]. destruct (Hput x k) as (? & ? & E1 & E2). split; rewrite ?E1, ?E2; congruence || done.
Qed.

Lemma stacked_copy_to_user p q n : gives (stacked st e f cs) (copy_to_user p q n) (λ _, True).
Proof.
  intros k r k' E []. unfold copy_to_user in E. destruct (copy_data p q n k) as [k1|] eqn:E1; [|done]. injection E as _ <-.
  destruct (copy_data_frames _ _ _ _ _ E1) as [fr ->]. split; [|done]. by split.
Qed.
End rules.

Create HintDb stacked discriminated.
#[export] Hint Constants Opaque : stacked.
#[export] Hint Resolve stacked_set_shared stacked_copy_to_user : stacked.

Ltac stacked_leaf _ :=
  lazymatch goal with
  | |- gives _ (set_pcb _ _) _ => apply stacked_set_pcb; intros ?; reflexivity
  | |- gives _ (on_lists _) _ => apply stacked_zoom; intros ? ?; split_and!; reflexivity
  | |- gives _ (on_ptes _) _ => apply stacked_zoom; intros ? ?; split_and!; reflexivity
  | |- gives _ (on_frames _) _ => apply stacked_zoom; intros ? ?; split_and!; reflexivity
  | |- gives _ (zoom _ _ _) _ => apply stacked_zoom; intros ? ?; split_and!; reflexivity
  | |- gives _ (modify _) _ => apply stacked_modify; intros ?; split_and!; reflexivity
  | |- gives _ (lift (copy_data _ _ _)) _ => apply stacked_lift; intros ? ?; apply copy_data_frames
  | |- gives _ (lift (store8 _ _)) _ => apply stacked_lift; intros ? ?; apply store8_frames
  | |- gives _ (lift (zero_out _ _)) _ => apply stacked_lift; intros ? ?; apply zero_out_frames
  | |- gives _ (for_up _ _ _) _ => apply gives_for_up; intros ?; gives_walk stacked_leaf
  | |- gives _ _ _ => solve [eauto with stacked]
  end.

(** Decides a routine that keeps the processor. *)
Ltac stacked_all := gives_walk stacked_leaf.

(** ** One run, step by step *)

Definition wlp {S A} (m : M S A) (Q : A → S → Prop) (s : S) : Prop := ∀ a s', m s = Some (a, s') → Q a s'.

Section wlp.
Context {S : Type}.

Lemma wlp_bind {A B} (m : M S A) (f : A → M S B) Q s : wlp m (λ a, wlp (f a) Q) s → wlp (m ≫= f) Q s.
Proof. intros Hw b s'. unfold mbind, M_bind. destruct (m s) as [[a s1]|] eqn:E; [|done]. exact (Hw _ _ E b s'). Qed.

Lemma wlp_ret {A} (a : A) (Q : A → S → Prop) s : Q a s → wlp (mret a) Q s.
Proof. intros HQ b s' E. by injection E as <- <-. Qed.

Lemma wlp_gets {A} (f : S → A) (Q : A → S → Prop) s : Q (f s) s → wlp (gets f) Q s.
Proof. intros HQ b s' E. by injection E as <- <-. Qed.

Lemma wlp_modify (f : S → S) (Q : unit → S → Prop) s : Q tt (f s) → wlp (modify f) Q s.
Proof. intros HQ b s' E. by injection E as <- <-. Qed.

Lemma wlp_ask {A} (f : S → option A) (Q : A → S → Prop) s : (∀ a, f s = Some a → Q a s) → wlp (ask f) Q s.
Proof. intros HQ b s' E. unfold ask in E. destruct (f s) as [a|] eqn:Ef; [|done]. injection E as <- <-. by apply HQ. Qed.
End wlp.

Lemma wlp_set_pcb t g (Q : unit → kernel → Prop) k :
  (∀ p, tasks k !! t = Some p → Q tt (set_tasks (<[t := g p]> (tasks k)) k)) → wlp (set_pcb t g) Q k.
Proof.
  intros HQ a k' E. unfold set_pcb, lift in E. destruct (tasks k !! t) as [p|] eqn:Ep; [|done]. injection E as <- <-. by apply HQ.
Qed.

Ltac wlp_step :=
  lazymatch goal with
  | |- wlp (_ ≫= _) _ _ => apply wlp_bind
  | |- wlp (mret _) _ _ => apply wlp_ret
  | |- wlp (gets _) _ _ => apply wlp_gets
  | |- wlp (modify _) _ _ => apply wlp_modify
  | |- wlp (ask _) _ _ => apply wlp_ask; intros ? ?
  | |- wlp (set_pcb _ _) _ _ => apply wlp_set_pcb; intros ? ?
  end; cbn beta; kcbn.

Section operations.
Context `{LayoutOk} (st : gmap Z Z) (e : Z) (f : Z → option Z) (cs : option (Z * Z)) (cur : Z).
Hypothesis (Hcur : is_task cur) (Hon : on_stack cur e).

Lemma leads_task_switch t : leads (stacked st e f cs) (task_switch t) (turned st e f cs cur).
Proof.
  intros k a k' E [H1 H2 H3 H4]. revert a k' E. pose proof call_depth_range as [? ?].
  change (wlp (task_switch t) (λ _, turned st e f cs cur) k).
  unfold task_switch, inner_task_switch, switch_stacks, get_DIR, pcb, load_stack, store_stack, set_msr, set_cr3, write_cr3.
  repeat wlp_step. rewrite (current_at _ cur) by (done || unfold on_stack in *; kcbn; lia).
  repeat wlp_step.
  match goal with |- wlp (if (?r =? _) then _ else _) _ _ => rename r into r' end.
  match goal with Hn : tasks k !! t = Some ?p, Hr : _ !! (kernel_esp0 ?p + 4) = Some _ |- _ => rename p into pn, Hn into Hpn, Hr into Hload end.
  assert (E : esp k - call_depth - 24 - 4 = esp k - call_depth - 28) by lia. rewrite E in *.
  destruct (r' =? task_switch_ret) eqn:Er; repeat wlp_step; right; exists t, (kernel_esp0 pn), r'; subst st e cs; split; kcbn.
  all: first [reflexivity | exact Hload | by rewrite <- H3, Hpn | unfold resumed_esp; rewrite Er; lia | by rewrite lookup_insert_ne | idtac].
  all: intros u; rewrite lookup_insert; case_decide as Eu; destruct (decide (u = cur)) as [Eu'|]; try congruence; try apply H3.
  all: cbn; f_equal; rewrite <- (saved_sp_small cur (esp k)) by done; f_equal; lia.
Qed.

Lemma leads_kept {A} (m : MK A) : gives (stacked st e f cs) m (λ _, True) → leads (stacked st e f cs) m (turned st e f cs cur).
Proof. intros Hm k a k' E Hk. left. exact (proj1 (Hm _ _ _ E Hk)). Qed.

Lemma stacked_update_state t d s : gives (stacked st e f cs) (update_process_state_rr t d s) (λ _, True).
Proof. unfold update_process_state_rr. stacked_all. Qed.
#[local] Hint Resolve stacked_update_state : stacked.

Ltac leads_all :=
  lazymatch goal with
  | |- leads _ (mret _) _ => apply leads_ret; by left
  | |- leads _ (task_switch _) _ => apply leads_task_switch
  | |- leads _ (if _ then _ else _) _ => apply leads_if; leads_all
  | |- leads _ (_ ≫= _) _ => eapply leads_bind; [apply leads_gives; stacked_all|intros ?; leads_all]
  | |- leads _ _ _ => first [assumption | apply leads_kept; stacked_all]
  end.

Lemma leads_sched_next : leads (stacked st e f cs) sched_next_rr (turned st e f cs cur).
Proof. unfold sched_next_rr, list_empty_of, list_first_of, pcb. leads_all. Qed.

Lemma leads_schedule : leads (stacked st e f cs) schedule (turned st e f cs cur).
Proof. pose proof leads_sched_next. unfold schedule, update_sched_data_rr, needs_sched_rr, list_empty_of, get_quantum, pcb. leads_all. Qed.

Lemma leads_clock : leads (stacked st e f cs) clk_routine (turned st e f cs cur).
Proof. pose proof leads_schedule. unfold clk_routine. leads_all. Qed.

Lemma leads_sys_block : leads (stacked st e f cs) sys_block (turned st e f cs cur).
Proof.
  pose proof leads_schedule. unfold sys_block, pcb. do 2 (eapply leads_bind; [apply leads_gives; stacked_all|intros ?]).
  apply (leads_bind _ (turned st e f cs cur)); [leads_all|intros ?; by apply leads_ret].
Qed.

(** The services that keep the processor. *)
Lemma stacked_get_DIR t : gives (stacked st e f cs) (get_DIR t) (λ _, True).
Proof. unfold get_DIR, pcb. stacked_all. Qed.
Lemma stacked_get_PT t : gives (stacked st e f cs) (get_PT t) (λ _, True).
Proof. unfold get_PT, get_DIR, pcb. stacked_all. Qed.
Lemma stacked_set_cr3 d : gives (stacked st e f cs) (set_cr3 d) (λ _, True).
Proof. unfold set_cr3, write_cr3. stacked_all. Qed.
#[local] Hint Resolve stacked_get_DIR stacked_get_PT stacked_set_cr3 : stacked.
Lemma stacked_free_user_pages t : gives (stacked st e f cs) (free_user_pages t) (λ _, True).
Proof. unfold free_user_pages. stacked_all. Qed.
Lemma stacked_free_page t : gives (stacked st e f cs) (get_user_free_page t) (λ _, True).
Proof. unfold get_user_free_page. stacked_all. Qed.
Lemma stacked_is_frame_shared a : gives (stacked st e f cs) (is_frame_shared a) (λ _, True).
Proof. unfold is_frame_shared. generalize (Z.to_nat NUM_SHARED_PAGES) 0. intros n. induction n; intros i; cbn [shared_loop]; unfold shared; stacked_all. Qed.
Lemma stacked_check_loop n i : gives (stacked st e f cs) (check_loop n i) (λ _, True).
Proof. revert i. induction n; intros i; cbn [check_loop]; stacked_all. Qed.
#[local] Hint Resolve stacked_free_user_pages stacked_free_page stacked_is_frame_shared stacked_check_loop : stacked.
Lemma stacked_access_ok t a n : gives (stacked st e f cs) (access_ok t a n) (λ _, True).
Proof. unfold access_ok, check_allocated. stacked_all. Qed.
Lemma stacked_read_chars n a : gives (stacked st e f cs) (read_chars n a) (λ _, True).
Proof. revert a. induction n; intros a; cbn [read_chars]; stacked_all. Qed.
Lemma stacked_copy_in p q n : gives (stacked st e f cs) (copy_in p q n) (λ _, True).
Proof. apply stacked_copy_to_user. Qed.
#[local] Hint Resolve stacked_access_ok stacked_read_chars stacked_copy_in : stacked.
Lemma stacked_write_chunk b n : gives (stacked st e f cs) (write_chunk b n) (λ _, True).
Proof. unfold write_chunk. stacked_all. Qed.
#[local] Hint Resolve stacked_write_chunk : stacked.
Lemma stacked_write_while n b m : gives (stacked st e f cs) (write_while n b m) (λ _, True).
Proof. revert b m. induction n; intros b m; cbn [write_while]; stacked_all. Qed.
Lemma stacked_read_loop n b m c i r : gives (stacked st e f cs) (read_loop n b m c i r) (λ _, True).
Proof. revert c i r. induction n; intros c i r; cbn [read_loop]; stacked_all. Qed.
#[local] Hint Resolve stacked_write_while stacked_read_loop : stacked.
Lemma stacked_sys_write fd b n : gives (stacked st e f cs) (sys_write fd b n) (λ _, True).
Proof. unfold sys_write. stacked_all. Qed.
Lemma stacked_sys_read b n : gives (stacked st e f cs) (sys_read b n) (λ _, True).
Proof. unfold sys_read. stacked_all. Qed.
Lemma stacked_unblock_son s : gives (stacked st e f cs) (unblock_son s) (λ _, True).
Proof. unfold unblock_son, pcb. stacked_all. Qed.
#[local] Hint Resolve stacked_unblock_son : stacked.
Lemma stacked_unblock_loop n pid h a m : gives (stacked st e f cs) (unblock_loop n pid h a m) (λ _, True).
Proof. revert a m. induction n; intros a m; cbn [unblock_loop]; unfold pcb; stacked_all. Qed.
#[local] Hint Resolve stacked_unblock_loop : stacked.
Lemma stacked_sys_unblock pid : gives (stacked st e f cs) (sys_unblock pid) (λ _, True).
Proof. unfold sys_unblock. stacked_all. Qed.
Lemma stacked_sys_shmat id a : gives (stacked st e f cs) (sys_shmat id a) (λ _, True).
Proof. unfold sys_shmat, shm_attach, shared. stacked_all. Qed.
Lemma stacked_sys_shmdt a : gives (stacked st e f cs) (sys_shmdt a) (λ _, True).
Proof. unfold sys_shmdt, shared. stacked_all. Qed.
Lemma stacked_sys_shmrm id : gives (stacked st e f cs) (sys_shmrm id) (λ _, True).
Proof. unfold sys_shmrm. stacked_all. Qed.
Lemma stacked_kbd key : gives (stacked st e f cs) (kbd_routine key) (λ _, True).
Proof. unfold kbd_routine. stacked_all. Qed.
Lemma stacked_exit_turn i : gives (stacked st e f cs) (exit_turn i) (λ _, True).
Proof. unfold exit_turn, pcb. stacked_all. Qed.
#[local] Hint Resolve stacked_exit_turn : stacked.
Lemma stacked_exit_shared t : gives (stacked st e f cs) (exit_shared t) (λ _, True).
Proof. unfold exit_shared, shared. stacked_all. Qed.
#[local] Hint Resolve stacked_exit_shared : stacked.
#[local] Hint Resolve stacked_sys_write stacked_sys_read stacked_sys_unblock stacked_sys_shmat stacked_sys_shmdt stacked_sys_shmrm : stacked.

Lemma leads_sys_exit : leads (stacked st e f cs) sys_exit (turned st e f cs cur).
Proof. pose proof leads_sched_next. unfold sys_exit, exit_children, pcb. leads_all. Qed.

(** The services that keep the processor: all but [sys_exit], [sys_fork] and
    [sys_block]. *)
Lemma stacked_service service a b c i : i ∉ [1%nat; 2%nat; 18%nat] → sys_call_table !! i = Some service →
  gives (stacked st e f cs) (service a b c) (λ _, True).
Proof.
  intros Hi Hs. unfold sys_call_table in Hs.
  repeat (apply lookup_cons_cases in Hs as [(-> & <-)|(m & -> & Hs)]; [|try clear i; rename m into i]); [..|by rewrite lookup_nil in Hs].
  all: cbv beta; unfold sys_gettime, sys_ni_syscall, sys_gotoxy, sys_set_color, sys_getpid, sys_numsons, sys_numbros, pcb.
  all: lazymatch goal with
    | |- gives _ (sys_exit ≫= _) _ => idtac | |- gives _ sys_fork _ => idtac | |- gives _ sys_block _ => idtac
    | |- _ => stacked_all
    end.
  all: exfalso; apply Hi, (bool_decide_unpack _); by vm_compute.
Qed.
End operations.
