(* ===== verification/Turns.v ===== *)
(** * Who has the processor after a routine

    The state between the pushes of a handler and its return: what waits on the
    stacks of the other processes, whether the routine has kept the processor or
    given it to another process, and the stack of a new process. *)

From S2P Require Import Prelude CInt ListHead Circular Memory Errno Console LibC Paging Descriptors Kernel Mm Space Sched Boot Interrupt System UserIO Process Shm Fork Exit Types Entries Population Steps CodeWrites Births Life Gate Stacks.
Import PTE PageTable.

(** ** What a process that waits has on its stack *)

(** The words of its context, and below them the frame it resumes from: the one of
    [task_switch], or, for a process that has not run yet, of [ret_from_fork]. *)
Record suspended `{Layout, Code} (k : kernel) (t : Z) (c : context) : Prop := {
  su_words : words_at (stacks k) (stack_top t) (context_words c);
  su_resume : ∃ p r, tasks k !! t = Some p ∧ stacks k !! (kernel_esp0 p + 4) = Some r ∧
    (r = task_switch_ret ∧ kernel_esp0 p = stack_top t - call_depth - 32 ∨
     r = ret_from_fork ∧ kernel_esp0 p = stack_top t - 76 ∧ ∃ u ret, c = InCall u ret);
}.

Record resting `{Layout, Code} (P : population) (k : kernel) (run : Z) (ctx : Z → context) : Prop := {
  re_members : ∀ t, t ∈ members P → t ≠ run → suspended k t (ctx t);
  re_segments : msrs k !! 0x174 = Some (KERNEL_CS, 0);
}.

(** The context of the process that enters the kernel. *)
Definition context_of (ev : event) (r : cpu) (ret : Z) : context :=
  match ev with Sysenter => InCall r ret | _ => Interrupted r end.

(** The state after the pushes of a handler: the kernel runs on the stack of the
    process, at [e], and the words [ws] are on it. *)
Definition entered_with (e : Z) (ws : list Z) (k : kernel) : kernel := set_stacks (push_words e ws (stacks k)) (set_esp e k).

(** The stack pointer of an entry. *)
Definition entry_esp `{Layout} (P : population) (run : Z) (k : kernel) : Z := if run =? keeper P then esp k else stack_top run.

Section frames.
Context `{LayoutOk, CodeOk}.
Implicit Types (k : kernel) (t run e a : Z) (c : context) (st : gmap Z Z).

(** What is on the page of the process is all that counts. *)
Lemma suspended_same k k' t c : is_task t →
  (∀ a, t ≤ a < t + 4096 → stacks k' !! a = stacks k !! a) → kernel_esp0 <$> tasks k' !! t = kernel_esp0 <$> tasks k !! t →
  suspended k t c → suspended k' t c.
Proof.
  intros Ht Hst Hsp [Hw (p & r & Hp & Hr & Hc)]. pose proof call_depth_range. split.
  - eapply words_at_same; [|exact Hw]. intros a Ha. apply Hst. rewrite context_length in Ha. unfold stack_top, stack_slot, KERNEL_STACK_SIZE in Ha. lia.
  - rewrite Hp in Hsp. destruct (tasks k' !! t) as [p'|]; [|done]. injection Hsp as Hsp. exists p', r. split; [done|]. rewrite Hsp. split; [|done].
    rewrite Hst; [done|]. unfold stack_top, stack_slot, KERNEL_STACK_SIZE in Hc. lia.
Qed.

Lemma task_pages_apart t u a : is_task t → is_task u → t ≠ u → t ≤ a < t + 4096 → ¬ (u ≤ a < u + 4096).
Proof. intros Ht Hu Hne Ha Ha'. by apply Hne, (same_page t u a). Qed.

(** Stores on the stack of the running process. *)
Lemma alive_stacks P k run rq bq st : (∀ t a, is_task t → t ≠ run → t ≤ a < t + 4096 → st !! a = stacks k !! a) →
  alive P k run rq bq → alive P (set_stacks st k) run rq bq.
Proof.
  intros Hst [Hwf Hid Hi Hm Hk Hty]. split; [done|exact Hid| |done|by apply (kept_same P k)|by destruct Hty].
  destruct Hi as ([H1' H2' H3' H4' H5' H6' H7' H8' H9' H10'] & Hout & Hcpu). split; [|done]. split; try done.
  intros t Ht Hne. apply (saved_ext k); [done| |by apply H9']. intros a Ha. apply (Hst t); [|done|done].
  apply H3'. rewrite !elem_of_app in *. tauto.
Qed.

Lemma alive_entered P k run rq bq ws : alive P k run rq bq → (length ws ≤ 19)%nat →
  alive P (entered_with (entry_esp P run k) ws k) run rq bq ∧ current (entered_with (entry_esp P run k) ws k) = run.
Proof.
  intros Ha Hl. pose proof (al_inv _ _ _ _ _ Ha) as Hi. pose proof (proj1 Hi) as Hp. set (e := entry_esp P run k).
  assert (Htr : is_task run) by (eapply pre_task; [exact Hp|]; by right; left).
  assert (He : on_stack run e).
  { unfold e, entry_esp. destruct (run =? keeper P); [exact (p_stack _ _ _ _ _ _ Hp)|].
    unfold on_stack, stack_top, stack_slot, KERNEL_STACK_SIZE. lia. }
  assert (Ha1 : alive P (set_esp e k) run rq bq).
  { destruct Ha as [Hwf Hid _ Hm Hk Hty]. split; [done|done| |done|by apply (kept_same P k)|by destruct Hty].
    destruct Hi as ([] & Hout & Hcpu). split; [|done]. split; done. }
  assert (Ha2 : alive P (entered_with e ws k) run rq bq).
  { apply (alive_stacks P (set_esp e k) run rq bq); [|done]. intros t a Ht Hne Hin. apply push_words_outside.
    pose proof (task_pages_apart t run a Ht Htr Hne Hin). unfold on_stack in He. lia. }
  split; [exact Ha2|]. exact (current_run _ _ _ _ _ _ (proj1 (al_inv _ _ _ _ _ Ha2))).
Qed.
End frames.

Lemma alive_on `{LayoutOk} P k run rq bq : alive P k run rq bq → is_task run ∧ on_stack run (esp k) ∧ current k = run.
Proof.
  intros Ha. pose proof (proj1 (al_inv _ _ _ _ _ Ha)) as Hp. split_and!; [eapply pre_task; [exact Hp|]; by right; left|exact (p_stack _ _ _ _ _ _ Hp)|by eapply current_run].
Qed.

(** ** The routines, on the stack with the words *)

(** The processor has been kept, or another process has it. *)
Definition turn `{Layout} (k k' : kernel) (run : Z) : Prop :=
  let sp t := kernel_esp0 <$> tasks k !! t in
  stacked (stacks k) (esp k) sp (msrs k !! 0x174) k' ∨
  current k' ≠ run ∧ ∃ new s r, handed (stacks k) (esp k) sp (msrs k !! 0x174) run new s r k'.

Section routines.
Context `{LayoutOk, CodeOk} (P : population).
Implicit Types (k : kernel) (t run : Z) (rq bq : list Z).

Lemma stacked_self k : stacked (stacks k) (esp k) (λ t, kernel_esp0 <$> tasks k !! t) (msrs k !! 0x174) k.
Proof. by split. Qed.

Lemma stacked_turn {A} (m : MK A) (Q : A → kernel → Prop) k run :
  (∀ st e f cs, gives (stacked st e f cs) m (λ _, True)) → wp m Q k → wp m (λ a k', turn k k' run ∧ Q a k') k.
Proof.
  intros Hg Hw. eapply wp_mono; [exact (wp_gives _ _ _ _ k (Hg _ _ _ _) (stacked_self k) Hw)|]. intros a k' [Hk' HQ].
  split; [by left|done].
Qed.

Lemma wp_leads {A} (m : MK A) (I J : kernel → Prop) (Q : A → kernel → Prop) k :
  leads I m J → I k → wp m Q k → wp m (λ a k', J k' ∧ Q a k') k.
Proof. intros Hm HI (a & k' & E & HQ)%wp_run. apply wp_run. exists a, k'. split; [done|]. split; [by eapply Hm|done]. Qed.

(** A routine that gives the processor up only to another process. *)
Lemma leads_turn {A} (m : MK A) (Q : A → kernel → Prop) k run : is_task run → on_stack run (esp k) →
  (∀ st e f cs, on_stack run e → leads (stacked st e f cs) m (turned st e f cs run)) →
  wp m Q k → wp m (λ a k', (turn k k' run ∨ current k' = run) ∧ Q a k') k.
Proof.
  intros Ht Hon Hl Hw. eapply wp_mono; [exact (wp_leads _ _ _ _ k (Hl _ _ _ _ Hon) (stacked_self k) Hw)|]. intros a k' [Hk' HQ].
  split; [|done]. destruct Hk' as [Hk'|Hk']; [left; by left|]. destruct (decide (current k' = run)); [by right|left; by right].
Qed.

(** The state of a process between its entry and its routine. *)
Definition at_entry k run : Prop := run ≠ keeper P → esp k = stack_top run.

Lemma entry_again k run rq bq : alive P k run rq bq → at_entry k run → kernel_entry_stack k = Some (tt, k).
Proof.
  intros Ha He. destruct (alive_on _ _ _ _ _ Ha) as (_ & _ & Hc). unfold kernel_entry_stack, mbind, M_bind, gets.
  rewrite Hc, (al_idle _ _ _ _ _ Ha). destruct (Z.eqb_spec run (keeper P)); [done|]. unfold modify. do 2 f_equal.
  destruct (al_inv _ _ _ _ _ Ha) as (_ & _ & Htss & _). rewrite Htss, <- He by done. by destruct k.
Qed.

Lemma sysenter_again k run rq bq : alive P k run rq bq → run ≠ keeper P → at_entry k run → sysenter k = Some (tt, k).
Proof.
  intros Ha Hne He. destruct (al_inv _ _ _ _ _ Ha) as (_ & _ & _ & Hm & _). unfold sysenter, mbind, M_bind, ask. rewrite Hm. cbn [mbind option_bind].
  unfold modify. do 2 f_equal. cbn [fst]. rewrite <- He by done. by destruct k.
Qed.

Lemma turn_after_clock k run rq bq : alive P k run rq bq → at_entry k run → wp clk_routine (λ _ k', turn k k' run ∧ still_alive P k') k.
Proof.
  intros Ha He. destruct (alive_on _ _ _ _ _ Ha) as (Ht & Hon & _). destruct (alive_pcb _ _ _ _ _ Ha) as (pc & Hpc & Hq).
  pose proof (step_clock P _ _ _ _ Ha) as Hw. unfold clock_interrupt, wp, mbind, M_bind in Hw. rewrite (entry_again _ _ _ _ Ha He) in Hw.
  change (wp clk_routine (λ _ k', still_alive P k') k) in Hw.
  pose proof (leads_turn clk_routine _ k run Ht Hon (λ st e f cs Ho, leads_clock st e f cs run Ht Ho) Hw) as Hw1.
  assert (wp clk_routine (λ _ k', turn k k' run ∨ current k' ≠ run) k) as Hw2.
  { unfold clk_routine. do 4 kstep. set (k2 := set_ticks_since_last_switch _ _).
    assert (sched_inv k2 run (unused P) rq bq (families P)) as Hi2 by (apply (sched_inv_frame k); [by apply frame_fields|reflexivity..|apply (al_inv _ _ _ _ _ Ha)]).
    eapply wp_mono; [exact (schedule_stable k2 run _ rq bq _ pc Hi2 Hpc Hq)|]. intros [] k' Hk'. cbv zeta in Hk'.
    assert (k' = set_tasks (<[run := with_nr_ticks (ticks_since_last_switch k2) pc]> (tasks k2)) k2 → turn k k' run) as Hs.
    { clear Hk'. intros ->. left. split; [reflexivity|reflexivity| |reflexivity]. intros t. change (tasks k2) with (tasks k). kcbn.
      rewrite lookup_insert. case_decide as E; [|reflexivity]. subst t. by rewrite Hpc. }
    destruct rq as [|next rest]; [left; by apply Hs|]. destruct (_ || _); [|left; by apply Hs]. right. destruct Hk' as (Hi' & _).
    rewrite (current_run _ _ _ _ _ _ (proj1 Hi')). intros ->. apply (proj1 (p_run _ _ _ _ _ _ (proj1 (al_inv _ _ _ _ _ Ha)))). by left. }
  eapply wp_mono; [exact (wp_and _ _ _ _ Hw1 Hw2)|]. intros [] k' [[H1' Hk'] H2']. split; [|done]. tauto.
Qed.

Lemma block_turn k run rq bq : alive P k run rq bq → run ≠ keeper P →
  (∀ pc, tasks k !! run = Some pc → pending_unblocks pc ≠ 0 ∨ ticks_since_last_switch k ≤ quantum pc ∨ rq ≠ []) →
  wp sys_block (λ _ k', still_alive P k') k → wp sys_block (λ r k', (turn k k' run ∧ still_alive P k')) k.
Proof.
  intros Ha Hne Hok Hw. destruct (alive_on _ _ _ _ _ Ha) as (Ht & Hon & Hc). destruct (alive_pcb _ _ _ _ _ Ha) as (pc & Hpc & Hq).
  pose proof (leads_turn sys_block _ k run Ht Hon (λ st e f cs Ho, leads_sys_block st e f cs run Ht Ho) Hw) as Hw1.
  destruct (Z.eqb_spec (pending_unblocks pc) 0) as [E0|Hn0].
  - pose proof (al_inv _ _ _ _ _ Ha) as Hi. assert (run ≠ idle_task k) as Hne' by (by rewrite (al_idle _ _ _ _ _ Ha)).
    eapply wp_mono; [exact (wp_and _ _ _ _ Hw1 (sys_block_run _ _ _ _ _ _ _ Hi Hne' Hpc Hq))|].
    intros r k' [[H1' Hk'] [[_ H2'] _]]. split; [|done]. destruct H1' as [H1'|Hcur]; [done|].
    rewrite E0 in H2'. cbn [negb Z.eqb] in H2'.
    assert (run ∉ rq) as Hrq by (by apply (p_run _ _ _ _ _ _ (proj1 Hi))).
    exfalso. destruct (Hok pc Hpc) as [?|Hcase]; [done|].
    assert ((quantum pc <? ticks_since_last_switch k) && bool_decide (rq = []) = false) as Hb.
    { destruct Hcase as [Hle|Hr]; [destruct (Z.ltb_spec (quantum pc) (ticks_since_last_switch k)); [lia|done]|].
      rewrite (bool_decide_false (rq = [])) by done. by rewrite andb_false_r. }
    rewrite Hb in H2'. destruct H2' as [Hi' _]. pose proof (current_run _ _ _ _ _ _ (proj1 Hi')) as Hn. rewrite Hcur in Hn.
    destruct rq as [|next rest]; cbn [List.hd] in Hn; [by apply Hne'|]. apply Hrq. rewrite Hn. by left.
  - apply (wp_and _ (λ _ k', turn k k' run) (λ _ k', still_alive P k')); [|exact Hw].
    unfold sys_block. kstep. kstep. rewrite Hc. kstep. kstep. kstep. destruct (Z.eqb_spec (pending_unblocks pc) 0); [done|].
    ksteps. left. split; [reflexivity|reflexivity| |reflexivity]. intros t. kcbn.
    rewrite lookup_insert. case_decide as E; [|reflexivity]. subst t. by rewrite Hpc.
Qed.

(** The new state of a system call, with what [after] says of the population. *)
Lemma service_turn k run rq bq eax a b c service :
  alive P k run rq bq → run ≠ keeper P → at_entry k run → call_enabled P k run eax a b c → znth sys_call_table eax = Some service →
  eax ≠ 2 ∨ unused P = [] →
  wp (service a b c) (λ _ k', turn k k' run ∧ after P run eax k') k.
Proof.
  intros Ha Hne He Hce Hs Hf. pose proof (step_service _ _ _ _ _ _ _ _ _ _ Ha Hne Hce Hs) as Hw.
  destruct (alive_on _ _ _ _ _ Ha) as (Ht & Hon & Hc).
  assert (∃ i : nat, eax = Z.of_nat i ∧ sys_call_table !! i = Some service) as (i & -> & Hi).
  { pose proof (znth_Some_range _ _ _ Hs) as Hr. exists (Z.to_nat eax). split; [lia|]. unfold znth in Hs. by destruct (Z.ltb_spec eax 0); [lia|]. }
  clear Hs. destruct (decide (i = 2%nat)) as [->|Hi2].
  { destruct Hf as [?|Hun]; [done|]. injection Hi as <-. pose proof (al_inv _ _ _ _ _ Ha) as Hinv. rewrite Hun in Hinv.
    eapply wp_mono; [exact (wp_and _ _ _ _ Hw (sys_fork_full _ _ _ _ _ Hinv))|]. intros r k' [Hk' [_ ->]]. split; [left; apply stacked_self|done]. }
  destruct (decide (i ∈ [1%nat; 2%nat; 18%nat])) as [Hin|Hout]; [|apply stacked_turn; [intros st e f cs; exact (stacked_service st e f cs service a b c i Hout Hi)|exact Hw]].
  assert (i = 1%nat ∨ i = 18%nat) as [-> | ->] by (set_solver).
  - injection Hi as <-. assert (Hl : ∀ st e f cs, on_stack run e → leads (stacked st e f cs) (sys_exit ;; mret 0) (turned st e f cs run)).
    { intros st e f cs Ho. eapply leads_bind; [by apply leads_sys_exit|]. intros ?. by apply leads_ret. }
    eapply wp_mono; [exact (leads_turn _ _ k run Ht Hon Hl Hw)|]. intros r k' [[H1'|Hcur] Hk']; [done|]. exfalso.
    destruct Hk' as (P' & (run' & rq' & bq' & Ha') & E). assert (P' = dead P run) as -> by exact E. destruct (alive_on _ _ _ _ _ Ha') as (_ & _ & Hc').
    assert (run' = run) as -> by congruence. assert (run ≠ keeper (dead P run)) as Hn by exact Hne.
    destruct (alive_run _ _ _ _ _ Ha' Hn) as [[Hnr _]%dead_members _]. done.
  - injection Hi as <-. assert (wp sys_block (λ _ k', still_alive P k') k) as Hal.
    { eapply wp_mono; [exact Hw|]. intros r k' (P' & Hk' & E). assert (P' = P) as -> by exact E. exact Hk'. }
    eapply wp_mono; [apply (block_turn k run rq bq Ha Hne); [|exact Hal]|].
    + intros pc Hpc. destruct (ce_block _ _ _ _ _ _ _ Hce eq_refl pc Hpc) as [?|[?|E]]; [by left|right; by left|]. right. right. intros ->.
      rewrite (ready_empty _ _ _ _ _ _ (proj1 (al_inv _ _ _ _ _ Ha))) in E. discriminate E.
    + intros r k' [Hk' Hs']. split; [done|]. by apply after_same.
Qed.

(** A process that [sys_fork] has made: it waits with the words of its father. *)
Record spawned k k' run child : Prop := {
  sp_cpu : esp k' = esp k ∧ msrs k' = msrs k;
  sp_stacks : ∀ t a, is_task t → t ≠ child → t ≤ a < t + 4096 → stacks k' !! a = stacks k !! a;
  sp_saved : ∀ t, t ≠ child → tasks k' !! t = tasks k !! t;
  sp_child : is_task child ∧ child ≠ run ∧ child ∉ members P;
  sp_frame : (∃ p, tasks k' !! child = Some p ∧ kernel_esp0 p = stack_top child - 76) ∧ stacks k' !! (stack_top child - 72) = Some ret_from_fork ∧
    ∀ i, 1 ≤ i ≤ 17 → stacks k' !! (stack_top child - 4 * i) = stacks k !! (stack_top run - 4 * i);
}.

Lemma alive_fork_ready k run rq bq child fq : alive P k run rq bq → run ≠ keeper P → unused P = child :: fq → room k run ∧ 1 < next_pid k →
  ∃ F, fork_ready k run child fq rq bq (sons_of P run) F (memory P run).
Proof.
  intros Ha Hne Hun [Hrm Hpid]. destruct (alive_run _ _ _ _ _ Ha Hne) as [Hrun _].
  destruct (fams_split (holders P) run (sons_of P)) as (rest & Hr & Hsp); [by right|apply (wf_nodup _ (al_wf _ _ _ _ _ Ha))|].
  exists (fams rest (sons_of P)). apply fork_ready_of; [done|done|done|apply Hsp|done|lia].
Qed.

Lemma fork_spawns k run rq bq child fq : alive P k run rq bq → run ≠ keeper P → unused P = child :: fq → room k run ∧ 1 < next_pid k →
  wp sys_fork (λ _ k', (∃ ufr, alive (born P run child fq ufr) k' run (rq ++ [child]) bq) ∧ spawned k k' run child) k.
Proof.
  intros Ha Hne Hun Hroom. pose proof (step_fork P _ _ _ _ Ha Hne (λ _, Hroom)) as Hw.
  destruct (alive_fork_ready k run rq bq child fq Ha Hne Hun Hroom) as [F Hready]. destruct (alive_run _ _ _ _ _ Ha Hne) as [Hrun _].
  destruct (alive_unused P k run rq bq child Ha) as [Htc Hh]; [rewrite Hun; by left|].
  assert (child ∉ members P) as Hcm by (intros Hin; apply Hh; by right). assert (child ≠ run) as Hcr by congruence.
  eapply wp_mono; [exact (wp_and _ _ _ _ Hw (sys_fork_run _ _ _ _ _ _ _ _ _ Hready))|].
  intros r k' [[(_ & E & _)|(child' & fq' & ufr & E & _ & Ha')] [_ Hd]]; [congruence|]. rewrite Hun in E. injection E as <- <-.
  split; [by exists ufr|]. destruct (fd_cpu _ _ _ _ _ _ _ _ _ _ Hd) as (E1 & E2 & E3). destruct (fd_child _ _ _ _ _ _ _ _ _ _ Hd) as (pc & _ & Htk).
  destruct (fd_stack _ _ _ _ _ _ _ _ _ _ Hd) as [Hret Hwords]. split; [done|done| |done|].
  - intros t Hn. rewrite Htk. by apply lookup_insert_ne.
  - unfold stack_top, stack_slot, KERNEL_STACK_SIZE in *. split; [|split].
    + rewrite Htk. eexists. split; [apply lookup_insert_eq|]. cbn. unfold stack_slot, KERNEL_STACK_SIZE. lia.
    + rewrite <- Hret. f_equal. lia.
    + intros i Hi. replace (child + 4 * 1024 - 4 * i) with (child + 4 * (1024 - i)) by lia.
      replace (run + 4 * 1024 - 4 * i) with (run + 4 * (1024 - i)) by lia. apply Hwords; lia.
Qed.
End routines.
