(* ===== verification/Registers.v ===== *)
(** * The registers of the processes

    Every process that waits has on its kernel stack the registers it had when it
    entered the kernel.  The entries of the kernel keep it so, and give a process
    back its own registers: all of them after an interrupt, and after a system
    call all but those that carry the answer. *)

From stdpp Require Import functions.
From S2P Require Import Prelude CInt ListHead Circular Memory Errno Console LibC Paging Descriptors Kernel Mm Space Words Sched Boot Interrupt System UserIO Process Shm Fork Exit Types Entries Population Steps CodeWrites Births Life Gate Stacks Turns.
Import PTE PageTable.

(** ** The way back *)

Lemma words_at_insert st e ws (i : nat) v : words_at st e ws → words_at (<[e - 4 - 4 * Z.of_nat i := v]> st) e (<[i := v]> ws).
Proof.
  intros Hw j x Hj. destruct (decide (j = i)) as [->|Hne].
  - pose proof (lookup_lt_Some _ _ _ Hj) as Hl. rewrite length_insert in Hl. rewrite list_lookup_insert_eq in Hj by done. injection Hj as ->. apply lookup_insert_eq.
  - rewrite list_lookup_insert_ne in Hj by done. rewrite lookup_insert_ne by lia. by apply Hw.
Qed.

Lemma words_at_app st e ws ws' : words_at st e (ws ++ ws') → words_at st (e - 4 * Z.of_nat (length ws)) ws'.
Proof.
  intros Hw i w Hi. rewrite <- (Hw (length ws + i)%nat w); [f_equal; lia|]. rewrite lookup_app_r by lia. rewrite <- Hi. f_equal. lia.
Qed.

(** Loads the word of the stack that is at the given place of the context. *)
Ltac load_word H i := apply wp_bind; eapply wp_load_stack; [eapply (word_below _ _ _ i _ _ H); [reflexivity|lia]|].

Section leave.
Context `{LayoutOk, CodeOk}.
Implicit Types (k : kernel) (e b : Z) (u : cpu).

Lemma wp_restore_all e b k hws rs ws (Q : registers → kernel → Prop) :
  words_at (stacks k) e (hws ++ save_all rs ++ ws) → b = e - 4 * Z.of_nat (length hws) - 44 → Q rs k → wp (restore_all b) Q k.
Proof.
  intros Hw%words_at_app -> HQ. set (e' := e - 4 * Z.of_nat (length hws)) in *. cbn [app save_all] in Hw. unfold restore_all.
  load_word Hw 10%nat. load_word Hw 9%nat. load_word Hw 8%nat. load_word Hw 7%nat. load_word Hw 6%nat. load_word Hw 5%nat.
  load_word Hw 4%nat. load_word Hw 3%nat. load_word Hw 2%nat. load_word Hw 1%nat. load_word Hw 0%nat. apply wp_ret. by destruct rs.
Qed.

Lemma wp_iret e b k h ws (Q : hardware → kernel → Prop) :
  words_at (stacks k) e (interrupt_context true h ++ ws) → b = e - 20 → Q h k → wp (iret b) Q k.
Proof.
  intros Hw -> HQ. cbn [interrupt_context app] in Hw. unfold iret.
  load_word Hw 4%nat. load_word Hw 3%nat. load_word Hw 2%nat. load_word Hw 1%nat. load_word Hw 0%nat. apply wp_ret. by destruct h.
Qed.

Lemma wp_interrupt_return e k u w (Q : cpu → kernel → Prop) :
  words_at (stacks k) e (interrupt_context true (hw u) ++ save_all (regs u) ++ [w]) → Q u k →
  wp (interrupt_return (e - 68 + 4) (e - 68 + 48)) Q k.
Proof.
  intros Hw HQ. unfold interrupt_return. apply wp_bind. eapply wp_restore_all; [exact Hw|cbn; lia|].
  apply wp_bind. eapply wp_iret; [exact Hw|lia|]. apply wp_ret. by destruct u.
Qed.

Lemma wp_sysenter_return e k u ret a (Q : cpu → kernel → Prop) :
  words_at (stacks k) e (call_context u ret) → msrs k !! 0x174 = Some (KERNEL_CS, 0) →
  Q (after_call u ret a) (set_stacks (<[e - 40 := u32 a]> (stacks k)) k) → wp (sysenter_return (e - 68 + 4) a) Q k.
Proof.
  intros Hw Hcs HQ. unfold sysenter_return, store_stack. apply wp_bind, wp_modify.
  replace (e - 68 + 4 + 0x18) with (e - 40) by lia. set (k1 := set_stacks _ k) in *.
  assert (Hw1 : words_at (stacks k1) e (call_context (mk_cpu (mk_registers (u32 a) (ebx (regs u)) (ecx (regs u)) (edx (regs u)) (esi (regs u)) (edi (regs u)) (ebp (regs u))
      (seg_ds (regs u)) (seg_es (regs u)) (seg_fs (regs u)) (seg_gs (regs u))) (hw u)) ret)).
  { pose proof (words_at_insert _ _ _ 9 (u32 a) Hw) as Hi. replace (e - 4 - 4 * Z.of_nat 9) with (e - 40) in Hi by lia. exact Hi. }
  apply wp_bind. unfold call_context in Hw1. eapply wp_restore_all; [exact Hw1|cbn; lia|]. cbn [call_context app save_all regs hw] in Hw1.
  load_word Hw1 4%nat. load_word Hw1 1%nat. apply wp_bind. eapply wp_ask; [exact Hcs|]. apply wp_ret. exact HQ.
Qed.

(** The stack pointers of [leave]: the one of the entry, and the one below the
    frame of [ret_from_fork]. *)
Definition leaves_at (k : kernel) (t : Z) : Prop := esp k = stack_top t ∨ esp k = stack_top t - 68.

(** The words of a context whose handler has called its routine from before [w]. *)
Definition words_with (x : context) (w : Z) : list Z :=
  match x with
  | Interrupted u => interrupt_context true (hw u) ++ save_all (regs u) ++ [w]
  | InCall u ret => call_context u ret
  end.

Lemma words_with_length x w : length (words_with x w) = 17%nat.
Proof. by destruct x. Qed.

Lemma wp_leave P k run rq bq c a x (Q : option cpu → kernel → Prop) :
  alive P k run rq bq → run ≠ keeper P → leaves_at k run → msrs k !! 0x174 = Some (KERNEL_CS, 0) →
  (∃ w, words_at (stacks k) (stack_top run) (words_with x w) ∧ (w = clk_end ∨ w = kbd_end)) →
  (∀ st, (∀ a, a < stack_top run - 4096 ∨ stack_top run ≤ a → st !! a = stacks k !! a) →
     Q (Some (resumed x (if run =? c then a else 0))) (set_stacks st k)) →
  wp (leave c a) Q k.
Proof.
  intros Ha Hne Hat Hcs (w & Hw & Hends) HQ. destruct (alive_on _ _ _ _ _ Ha) as (_ & _ & Hc). pose proof (al_idle _ _ _ _ _ Ha) as Hid.
  destruct ends_apart as [Hcall1 Hcall2].
  unfold leave. apply wp_bind, wp_gets, wp_bind, wp_gets. rewrite Hc, Hid. destruct (Z.eqb_spec run (keeper P)); [done|].
  apply wp_bind, wp_gets, wp_bind.
  assert (∃ st, (∀ a, a < stack_top run - 4096 ∨ stack_top run ≤ a ∨ stack_top run - 68 ≤ a < stack_top run → st !! a = stacks k !! a) ∧
    ∀ R, R (stack_top run - 68) (set_stacks st k) → wp (if esp k =? stack_top run then mret (esp k - 68) else store_stack (esp k - 4) 0 ;; mret (esp k)) R k) as (st & Hst & Hfirst).
  { destruct (Z.eqb_spec (esp k) (stack_top run)) as [E|E].
    - exists (stacks k). split; [done|]. intros R HR. apply wp_ret. rewrite E. by destruct k.
    - destruct Hat as [?|E']; [done|]. exists (<[esp k - 4 := 0]> (stacks k)). split.
      + intros z Hz. apply lookup_insert_ne. lia.
      + intros R HR. apply wp_bind, wp_modify, wp_ret. rewrite <- E' in HR. exact HR. }
  apply Hfirst. clear Hfirst. set (k1 := set_stacks st k).
  destruct x as [u|u ret]; cbn [resumed words_with] in HQ, Hw.
  - assert (Hw1 : words_at (stacks k1) (stack_top run) (interrupt_context true (hw u) ++ save_all (regs u) ++ [w])).
    { eapply words_at_same; [|exact Hw]. intros z Hz. cbn in Hz. apply Hst. lia. }
    apply wp_bind. eapply wp_load_stack; [eapply (word_below _ _ _ 16 _ _ Hw1); [reflexivity|lia]|].
    destruct (Z.eqb_spec w sysenter_end); [destruct Hends; congruence|].
    assert ((w =? clk_end) || (w =? kbd_end) = true) as -> by (destruct Hends as [-> | ->]; rewrite Z.eqb_refl; [done|apply orb_true_r]).
    apply wp_bind. eapply wp_interrupt_return; [exact Hw1|]. apply wp_ret. apply HQ. intros z Hz. apply Hst. tauto.
  - assert (Hw1 : words_at (stacks k1) (stack_top run) (call_context u ret)).
    { eapply words_at_same; [|exact Hw]. intros z Hz. cbn in Hz. apply Hst. lia. }
    apply wp_bind. eapply wp_load_stack; [eapply (word_below _ _ _ 16 _ _ Hw1); [reflexivity|lia]|]. rewrite Z.eqb_refl.
    apply wp_bind. eapply wp_sysenter_return; [exact Hw1|exact Hcs|]. apply wp_ret.
    apply (HQ (<[stack_top run - 40 := u32 _]> st)). intros z Hz. rewrite lookup_insert_ne by lia. apply Hst. tauto.
Qed.
End leave.

(** ** After the routine *)

Section after.
Context `{LayoutOk, CodeOk} (P : population).
Implicit Types (k : kernel) (t run : Z) (rq bq : list Z) (ctx : Z → context) (x : context).

(** A process that does not run keeps its context while the routine runs. *)
Lemma turn_suspended k k' run t c : is_task run → is_task t → t ≠ run → on_stack run (esp k) → turn k k' run →
  suspended k t c → suspended k' t c.
Proof.
  intros Hr Ht Hne Hon Htu. pose proof call_depth_range. apply suspended_same; [done| |].
  - intros a Ha. destruct Htu as [[-> _ _ _]|(_ & new & s & r & [-> _ _ _ _ _ _])]; [done|]. apply lookup_insert_ne. intros <-.
    apply (task_pages_apart t run _ Ht Hr Hne Ha). unfold on_stack in Hon. lia.
  - destruct Htu as [[_ _ -> _]|(_ & new & s & r & [_ _ _ _ _ -> _])]; [done|]. by destruct (decide (t = run)).
Qed.

(** The process that gives the processor up leaves its context. *)
Lemma handed_suspended k k' run new s r x sp cs : is_task run → esp k = stack_top run → is_Some (tasks k' !! run) →
  handed (stacks k) (esp k) sp cs run new s r k' → words_at (stacks k) (stack_top run) (context_words x) → suspended k' run x.
Proof.
  intros Hr He [p Hp] [Hst _ _ _ _ Hsv _] Hw. pose proof call_depth_range. split.
  - eapply words_at_same; [|exact Hw]. intros a Ha. rewrite context_length in Ha. rewrite Hst. apply lookup_insert_ne. lia.
  - specialize (Hsv run). rewrite Hp, decide_True in Hsv by done. injection Hsv as Hsv. exists p, task_switch_ret. split; [done|]. split; [|left; split; [done|lia]].
    rewrite Hst, Hsv. replace (esp k - call_depth - 32 + 4) with (esp k - call_depth - 28) by lia. apply lookup_insert_eq.
Qed.

(** Where the process that gets the processor finds its context. *)
Lemma handed_leaves k k' run new s r c : is_task run → is_task new → new ≠ run → on_stack run (esp k) →
  handed (stacks k) (esp k) (λ t, kernel_esp0 <$> tasks k !! t) (msrs k !! 0x174) run new s r k' → suspended k new c →
  leaves_at k' new.
Proof.
  intros Hr Hn Hne Hon [Hst Hnew Hre He _ _ _] [_ (p & r' & Hp & Hr' & Hc)]. pose proof call_depth_range. destruct code_apart as (_ & Hcode & _).
  rewrite Hp in Hnew. injection Hnew as <-. unfold leaves_at. rewrite He. unfold resumed_esp.
  assert (r = r') as ->.
  { rewrite Hst, lookup_insert_ne in Hre; [congruence|]. intros E. apply (task_pages_apart new run (kernel_esp0 p + 4) Hn Hr Hne).
    - unfold stack_top, stack_slot, KERNEL_STACK_SIZE in Hc. lia.
    - rewrite <- E. unfold on_stack in Hon. lia. }
  destruct Hc as [[-> Hc]|(-> & Hc & _)]; [rewrite Z.eqb_refl; left; lia|]. destruct (Z.eqb_spec ret_from_fork task_switch_ret); [congruence|]. right. lia.
Qed.

(** What the next process gets: its own context; the process that has entered
    the kernel, what it saved. *)
Definition goes_on (P' : population) run run' x ctx ctx' (a : Z) (o : option cpu) : Prop :=
  (∀ t, t ∈ members P' → ctx' t = if bool_decide (t ∈ members P ∧ t ≠ run) then ctx t else x) ∧
  o = if run' =? keeper P' then None else Some (if run' =? run then resumed x a else resumed (ctx run') 0).

Lemma page_of_top t : stack_top t - 4096 = t ∧ stack_top t = t + 4096.
Proof. unfold stack_top, stack_slot, KERNEL_STACK_SIZE. lia. Qed.

(** Stores on the stack of the process that runs. *)
Lemma resting_stacks Q k run rq bq st ctx : (∀ a, a < stack_top run - 4096 ∨ stack_top run ≤ a → st !! a = stacks k !! a) →
  alive Q k run rq bq → resting Q k run ctx → alive Q (set_stacks st k) run rq bq ∧ resting Q (set_stacks st k) run ctx.
Proof.
  intros Hst Ha [Hm Hcs]. destruct (alive_on _ _ _ _ _ Ha) as (Htr & _). destruct (page_of_top run) as [E1 E2]. rewrite E1, E2 in Hst.
  assert (Hout : ∀ t a, is_task t → t ≠ run → t ≤ a < t + 4096 → st !! a = stacks k !! a).
  { intros t a Ht Hne Hin. apply Hst. pose proof (task_pages_apart t run a Ht Htr Hne Hin). lia. }
  split; [by apply alive_stacks|]. split; [|done]. intros t Ht Hne. apply (suspended_same k); [eapply alive_task; [exact Ha|by right]| |done|by apply Hm].
  intros a Hin. apply (Hout t); [eapply alive_task; [exact Ha|by right]|done|done].
Qed.

Lemma turn_segments k k' run : turn k k' run → msrs k' !! 0x174 = msrs k !! 0x174.
Proof. intros [[_ _ _ E]|(_ & new & s & r & [_ _ _ _ _ _ E])]; exact E. Qed.

(** The contexts after the routine. *)
Lemma resting_after P' k1 k2 run rq bq run2 rq2 bq2 x w ctx :
  alive P k1 run rq bq → at_entry P k1 run → (run ≠ keeper P → words_at (stacks k1) (stack_top run) (words_with x w)) →
  w = clk_end ∨ current k2 = run → resting P k1 run ctx → turn k1 k2 run → alive P' k2 run2 rq2 bq2 → (∀ t, t ∈ members P' → t ∈ members P) →
  resting P' k2 run2 (λ t, if bool_decide (t ∈ members P ∧ t ≠ run) then ctx t else x).
Proof.
  intros Ha1 He Hw Hend [Hm Hcs] Htu Ha2 Hsub. destruct (alive_on _ _ _ _ _ Ha1) as (Htr & Hon & _). destruct (alive_on _ _ _ _ _ Ha2) as (_ & _ & Hc2).
  split; [|by rewrite (turn_segments _ _ _ Htu)]. intros t Ht Hne. pose proof (Hsub t Ht) as Htm.
  assert (is_task t) as Htt by (eapply alive_task; [exact Ha1|by right]). case_bool_decide as E.
  { apply (turn_suspended k1 k2 run); [done|done|tauto|done|done|]. apply Hm; tauto. }
  assert (t = run) as -> by (destruct (decide (t = run)); tauto). destruct Hend as [->|Hcur]; [|congruence].
  assert (Hnk : run ≠ keeper P).
  { intros ->. apply (NoDup_cons_1_1 (keeper P) (members P)); [exact (wf_nodup _ (al_wf _ _ _ _ _ Ha1))|done]. }
  destruct Htu as [Hs|(_ & new & s & r & Hh)].
  { exfalso. apply Hne. rewrite <- Hc2. unfold current. rewrite (sd_esp _ _ _ _ _ Hs). by rewrite <- (proj2 (proj2 (alive_on _ _ _ _ _ Ha1))). }
  eapply (handed_suspended k1 k2); [done|by apply He| |exact Hh|].
  - destruct (kp_fathers _ _ (al_kept _ _ _ _ _ Ha2) run Ht) as (p & Hp & _). by exists p.
  - specialize (Hw Hnk). by destruct x.
Qed.

(** The return to the process that has the processor now. *)
Lemma wp_finish P' k1 k2 run rq bq run2 rq2 bq2 x w ctx a (Q : option cpu → kernel → Prop) :
  alive P k1 run rq bq → at_entry P k1 run → (run ≠ keeper P → words_at (stacks k1) (stack_top run) (words_with x w)) →
  w = clk_end ∨ w = kbd_end ∧ current k2 = run → resting P k1 run ctx → turn k1 k2 run → alive P' k2 run2 rq2 bq2 →
  (∀ t, t ∈ members P' → t ∈ members P) → keeper P' = keeper P →
  (∀ st o ctx', let k3 := set_stacks st k2 in alive P' k3 run2 rq2 bq2 → resting P' k3 run2 ctx' → goes_on P' run run2 x ctx ctx' a o → Q o k3) →
  wp (leave run a) Q k2.
Proof.
  intros Ha1 He Hw Hend Hre Htu Ha2 Hsub Hkp HQ. destruct (alive_on _ _ _ _ _ Ha1) as (Htr & Hon & Hc1). destruct (alive_on _ _ _ _ _ Ha2) as (Htr2 & _ & Hc2).
  assert (Hre2 : resting P' k2 run2 (λ t, if bool_decide (t ∈ members P ∧ t ≠ run) then ctx t else x)).
  { apply (resting_after P' k1 k2 run rq bq run2 rq2 bq2 x w ctx); try done. destruct Hend as [|[_ ?]]; auto. }
  set (ctx' := λ t, if bool_decide (t ∈ members P ∧ t ≠ run) then ctx t else x) in *.
  destruct (decide (run2 = keeper P')) as [E|Hne2].
  { unfold leave. apply wp_bind, wp_gets, wp_bind, wp_gets. rewrite Hc2, (al_idle _ _ _ _ _ Ha2), E, Z.eqb_refl. apply wp_ret.
    pose proof (HQ (stacks k2) None ctx') as HQ'. replace (set_stacks (stacks k2) k2) with k2 in HQ' by (by destruct k2).
    apply HQ'; [done|done|]. split; [done|]. by rewrite E, Z.eqb_refl. }
  destruct (alive_run _ _ _ _ _ Ha2 Hne2) as [Hin2 _].
  assert (Hgo : goes_on P' run run2 x ctx ctx' a (Some (resumed (if bool_decide (run2 = run) then x else ctx run2) (if run2 =? run then a else 0)))).
  { split; [done|]. destruct (Z.eqb_spec run2 (keeper P')); [done|]. destruct (Z.eqb_spec run2 run) as [->|Hn].
    - by rewrite bool_decide_true.
    - by rewrite bool_decide_false. }
  apply (wp_leave P' k2 run2 rq2 bq2 run a (if bool_decide (run2 = run) then x else ctx run2)); [done|done| |rewrite (turn_segments _ _ _ Htu); apply Hre| |].
  3: { intros st Hst. destruct (resting_stacks P' k2 run2 rq2 bq2 st ctx' Hst Ha2 Hre2) as [Ha3 Hre3]. by apply (HQ _ _ ctx'). }
  all: case_bool_decide as Eb.
  - assert (Hcr : current k2 = run) by congruence. clear Hc2. subst run2. left. destruct Htu as [Hs|[Hn _]]; [|done]. rewrite (sd_esp _ _ _ _ _ Hs). apply He. congruence.
  - destruct Htu as [Hs|(Hn & new & s & r & Hh)].
    { exfalso. apply Eb. rewrite <- Hc2. unfold current. rewrite (sd_esp _ _ _ _ _ Hs). exact Hc1. }
    assert (new = run2) as ->.
    { pose proof (hd_tss _ _ _ _ _ _ _ _ _ Hh) as E1. destruct (al_inv _ _ _ _ _ Ha2) as (_ & _ & E2 & _). rewrite E2 in E1.
      destruct (page_of_top new), (page_of_top run2). lia. }
    apply (handed_leaves k1 k2 run run2 s r (ctx run2)); try done. apply Hre; [by apply Hsub|done].
  - assert (Hcr : current k2 = run) by congruence. clear Hc2. subst run2. exists w. split; [|destruct Hend as [|[? _]]; auto]. destruct Htu as [Hs|[Hn _]]; [|done]. rewrite (sd_stacks _ _ _ _ _ Hs).
    apply Hw. congruence.
  - exists clk_end. split; [|by left].
    assert (suspended k2 run2 (ctx run2)) as [Hww _].
    { apply (turn_suspended k1 k2 run); try done. apply Hre; [by apply Hsub|done]. }
    by destruct (ctx run2).
Qed.
End after.

(** ** The handlers *)

(** The answer of the service the process has called, and its state but for the stacks. *)
Definition answered `{Layout, Code} (ev : event) (r : cpu) (ret : Z) (k k' : kernel) (run a : Z) : Prop :=
  match ev with
  | Sysenter =>
    let n := s32 (eax (regs r)) in
    let '(x, y, z) := arguments n (edx (regs r)) (ecx (regs r)) (ebx (regs r)) in
    ∃ k2 st, sys_call n x y z (entered_with (stack_top run) (call_context r ret) k) = Some (a, k2) ∧ k' = set_stacks st k2
  | _ => True
  end.

Definition outcome `{Layout, Code} P k run (ctx : Z → context) ev r ret (o : option cpu) (k' : kernel) : Prop :=
  ∃ P' run' rq' bq' ctx' a, becomes (entry_of ev r) k P P' ∧ alive P' k' run' rq' bq' ∧ resting P' k' run' ctx' ∧
    goes_on P P' run run' (context_of ev r ret) ctx ctx' a o ∧ answered ev r ret k k' run a.

Section handlers.
Context `{LayoutOk, CodeOk} (P : population).
Implicit Types (k : kernel) (t run : Z) (rq bq : list Z) (ctx : Z → context) (r : cpu).

Lemma entry_at k run ws : at_entry P (entered_with (entry_esp P run k) ws k) run.
Proof. intros Hne. cbn [entered_with esp set_stacks set_esp]. unfold entry_esp. by destruct (Z.eqb_spec run (keeper P)). Qed.

Lemma entry_top k run ws : run ≠ keeper P → entered_with (entry_esp P run k) ws k = entered_with (stack_top run) ws k.
Proof. intros Hne. unfold entry_esp. by destruct (Z.eqb_spec run (keeper P)). Qed.

Lemma entry_words k run ws : run ≠ keeper P → words_at (stacks (entered_with (entry_esp P run k) ws k)) (stack_top run) ws.
Proof.
  intros Hne. cbn [entered_with stacks set_stacks set_esp]. unfold entry_esp. destruct (Z.eqb_spec run (keeper P)); [done|]. apply push_words_at.
Qed.

Lemma resting_entered k run rq bq ctx ws : alive P k run rq bq → (length ws ≤ 19)%nat → resting P k run ctx →
  resting P (entered_with (entry_esp P run k) ws k) run ctx.
Proof.
  intros Ha Hl [Hm Hcs]. destruct (alive_on _ _ _ _ _ Ha) as (Htr & Hon & _). split; [|done]. intros t Ht Hne.
  assert (is_task t) as Htt by (eapply alive_task; [exact Ha|by right]). apply (suspended_same k); [done| |done|by apply Hm].
  intros a Hin. cbn [entered_with stacks set_stacks set_esp]. apply push_words_outside. pose proof (task_pages_apart t run a Htt Htr Hne Hin) as Hap.
  unfold entry_esp, on_stack in *. destruct (page_of_top run). destruct (run =? keeper P); lia.
Qed.

Lemma wp_entry k run rq bq (Q : unit → kernel → Prop) : alive P k run rq bq → Q tt (set_esp (entry_esp P run k) k) → wp kernel_entry_stack Q k.
Proof.
  intros Ha HQ. destruct (alive_on _ _ _ _ _ Ha) as (_ & _ & Hc). destruct (al_inv _ _ _ _ _ Ha) as (_ & _ & Htss & _).
  unfold kernel_entry_stack. apply wp_bind, wp_gets, wp_bind, wp_gets. rewrite Hc, (al_idle _ _ _ _ _ Ha). unfold entry_esp in HQ.
  destruct (run =? keeper P); [apply wp_ret; by destruct k|]. apply wp_modify. by rewrite Htss.
Qed.

(** The clock and the keyboard: [routine] keeps the population. *)
Lemma wp_interrupt k run rq bq ctx r w routine (Q : option cpu → kernel → Prop) :
  alive P k run rq bq → resting P k run ctx →
  (∀ k1, alive P k1 run rq bq → at_entry P k1 run →
     wp routine (λ _ k2, turn k1 k2 run ∧ still_alive P k2 ∧ (w = clk_end ∨ w = kbd_end ∧ current k2 = run)) k1) →
  (∀ k3 o run2 rq2 bq2 ctx', alive P k3 run2 rq2 bq2 → resting P k3 run2 ctx' → goes_on P P run run2 (Interrupted r) ctx ctx' 0 o → Q o k3) →
  wp (interrupt_handler w routine r) Q k.
Proof.
  intros Ha Hre Hroutine HQ. unfold interrupt_handler. apply wp_bind, (wp_entry k run rq bq); [done|]. set (k0 := set_esp _ k).
  assert (Hc0 : current k0 = run).
  { destruct (alive_entered P k run rq bq [] Ha) as [_ Hc]; [cbn; lia|]. exact Hc. }
  apply wp_bind, wp_gets, wp_bind, wp_gets. rewrite Hc0. change (idle_task k0) with (idle_task k). rewrite (al_idle _ _ _ _ _ Ha).
  set (ws := _ ++ _). assert (length ws ≤ 19)%nat as Hl by (unfold ws; destruct (negb _); cbn; lia).
  apply wp_bind, wp_modify. change (set_stacks _ k0) with (entered_with (entry_esp P run k) ws k). set (k1 := entered_with _ ws k).
  destruct (alive_entered P k run rq bq ws Ha Hl) as [Ha1 _]. pose proof (entry_at k run ws) as He1. fold k1 in Ha1, He1.
  apply wp_bind. eapply wp_mono; [exact (Hroutine k1 Ha1 He1)|]. intros [] k2 (Htu & (run2 & rq2 & bq2 & Ha2) & Hend).
  apply (wp_finish P P k1 k2 run rq bq run2 rq2 bq2 (Interrupted r) w ctx 0); try done.
  - intros Hne. unfold k1, ws. destruct (Z.eqb_spec run (keeper P)); [done|]. by apply (entry_words k run).
  - by apply (resting_entered _ _ rq bq).
  - intros st o ctx' k3 Ha3 Hre3 Hgo. by apply (HQ k3 o run2 rq2 bq2 ctx').
Qed.

Lemma handle_clock k run rq bq ctx r ret : alive P k run rq bq → resting P k run ctx →
  wp (handle ClockTick r) (outcome P k run ctx ClockTick r ret) k.
Proof.
  intros Ha Hre. apply (wp_interrupt k run rq bq ctx); [done|done| |].
  - intros k1 Ha1 He1. eapply wp_mono; [exact (turn_after_clock P _ _ _ _ Ha1 He1)|]. intros [] k2 [? ?]. split_and!; [done|done|by left].
  - intros k3 o run2 rq2 bq2 ctx' Ha3 Hre3 Hgo. exists P, run2, rq2, bq2, ctx', 0. split_and!; done.
Qed.

Lemma handle_key k run rq bq ctx r ret key : alive P k run rq bq → resting P k run ctx → scan_code key →
  wp (handle (KeyCode key) r) (outcome P k run ctx (KeyCode key) r ret) k.
Proof.
  intros Ha Hre Hkey. apply (wp_interrupt k run rq bq ctx); [done|done| |].
  - intros k1 Ha1 He1. eapply wp_mono; [exact (stacked_turn _ _ k1 run (λ st e f cs, stacked_kbd st e f cs key) (step_key P _ _ _ _ key Ha1 Hkey))|].
    intros [] k2 [? [Ha2 _]]. split_and!; [done|by exists run, rq, bq|]. right. split; [done|]. exact (proj2 (proj2 (alive_on _ _ _ _ _ Ha2))).
  - intros k3 o run2 rq2 bq2 ctx' Ha3 Hre3 Hgo. exists P, run2, rq2, bq2, ctx', 0. split_and!; done.
Qed.

Lemma handle_fault k run rq bq ctx r ret cr2 error buff aft : alive P k run rq bq → resting P k run ctx →
  run ≠ keeper P → code_write k run cr2 buff aft →
  wp (handle (Fault cr2 error buff aft) r) (outcome P k run ctx (Fault cr2 error buff aft) r ret) k.
Proof.
  intros Ha Hre Hne Hcw. cbn [handle]. unfold page_fault_handler. apply wp_bind, (wp_entry k run rq bq); [done|]. set (k0 := set_esp _ k).
  set (ws := interrupt_context true (hw r) ++ _). assert (length ws ≤ 19)%nat as Hl by (cbn; lia).
  apply wp_bind, wp_modify. change (set_stacks _ k0) with (entered_with (entry_esp P run k) ws k).
  destruct (alive_entered P k run rq bq ws Ha Hl) as [Ha1 _]. pose proof (entry_at k run ws Hne) as He1.
  pose proof (entry_words k run ws Hne) as Hw. pose proof (resting_entered k run rq bq ctx ws Ha Hl Hre) as Hre1.
  assert (Hcw1 : code_write (entered_with (entry_esp P run k) ws k) run cr2 buff aft) by (by apply (code_write_same k)).
  set (k1 := entered_with _ ws k) in *. clearbody k1. apply wp_bind, wp_gets. rewrite He1.
  apply wp_bind. eapply wp_load_stack; [eapply (word_below _ _ _ 17 _ _ Hw); [reflexivity|lia]|].
  apply wp_bind. eapply wp_mono; [exact (step_code_write P _ _ _ _ cr2 _ buff aft Ha1 Hne Hcw1)|]. intros ok k2 (-> & Ha2 & Ek).
  assert (Hw2 : words_at (stacks k2) (stack_top run) ((interrupt_context true (hw r) ++ [error]) ++ save_all (regs r) ++ [eip (hw r); pgf_end])).
  { rewrite Ek. rewrite <- app_assoc. exact Hw. }
  apply wp_bind. unfold interrupt_return. apply wp_bind. eapply wp_restore_all; [exact Hw2|cbn; lia|].
  apply wp_bind. rewrite <- app_assoc in Hw2. eapply wp_iret; [exact Hw2|lia|]. apply wp_ret, wp_ret.
  exists P, run, rq, bq, (λ t, if bool_decide (t ∈ members P ∧ t ≠ run) then ctx t else Interrupted r), 0. split_and!; [done|done| | |done].
  - destruct Hre1 as [Hm Hcs]. split; [|by rewrite Ek]. intros t Ht Hn. rewrite bool_decide_true by done.
    apply (suspended_same k1); [eapply alive_task; [exact Ha1|by right]|by rewrite Ek|by rewrite Ek|by apply Hm].
  - split; [done|]. destruct (Z.eqb_spec run (keeper P)); [done|]. rewrite Z.eqb_refl. by destruct r.
Qed.

(** The calls that make no process. *)
Lemma sys_call_turn k run rq bq n x y z : alive P k run rq bq → run ≠ keeper P → at_entry P k run → call_enabled P k run n x y z →
  n ≠ 2 ∨ unused P = [] → wp (sys_call n x y z) (λ _ k', turn k k' run ∧ after P run n k') k.
Proof.
  intros Ha Hne He Hce Hf. assert (still_alive P k) as Hk by (by exists run, rq, bq).
  assert (turn k k run) as Htu by (left; apply stacked_self).
  unfold sys_call. destruct (Z.ltb_spec n 0); [apply wp_ret; split; [done|apply after_same; [lia|lia|done]]|].
  destruct (Z.ltb_spec MAX_SYSCALL n) as [Hgt|Hle]; [change MAX_SYSCALL with 23 in Hgt; apply wp_ret; split; [done|apply after_same; [lia|lia|done]]|].
  destruct (znth_in_range sys_call_table n) as [service Hs]; [pose proof (ce_table _ _ _ _ _ _ _ Hce); unfold MAX_SYSCALL in *; lia|]. rewrite Hs.
  by apply (service_turn P k run rq bq n x y z service).
Qed.

Lemma call_enabled_entered k run ws n x y z :
  call_enabled P k run n x y z → call_enabled P (entered_with (entry_esp P run k) ws k) run n x y z.
Proof. intros []. split; assumption. Qed.

(** The state in which a service is called. *)
Lemma sysenter_state k run rq bq ctx r ret : alive P k run rq bq → run ≠ keeper P → resting P k run ctx →
  let k1 := entered_with (entry_esp P run k) (call_context r ret) k in
  alive P k1 run rq bq ∧ at_entry P k1 run ∧ words_at (stacks k1) (stack_top run) (call_context r ret) ∧ resting P k1 run ctx ∧
  k1 = set_stacks (stacks k1) (set_esp (stack_top run) k).
Proof.
  intros Ha Hne Hre k1. assert (length (call_context r ret) ≤ 19)%nat as Hl by (cbn; lia).
  destruct (alive_entered P k run rq bq _ Ha Hl) as [Ha1 _]. split_and!; [done|apply entry_at|by apply entry_words|by apply (resting_entered _ _ rq bq)|].
  unfold k1, entered_with, entry_esp. by destruct (Z.eqb_spec run (keeper P)).
Qed.

Lemma wp_sysenter k run rq bq ctx r ret (Q : option cpu → kernel → Prop) : alive P k run rq bq → run ≠ keeper P → resting P k run ctx →
  load32 k (u32 (ebp (regs r) + 4)) = Some ret →
  (let k1 := entered_with (entry_esp P run k) (call_context r ret) k in
   let n := s32 (eax (regs r)) in
   let '(x, y, z) := arguments n (edx (regs r)) (ecx (regs r)) (ebx (regs r)) in
   wp (sys_call n x y z) (λ a, wp (leave run a) Q) k1) →
  wp (handle Sysenter r) Q k.
Proof.
  intros Ha Hne Hre Hld HQ. cbn [handle]. unfold sysenter_handler, sysenter. destruct (al_inv _ _ _ _ _ Ha) as (_ & _ & _ & Hm & _).
  apply wp_bind, wp_bind. eapply wp_ask; [exact Hm|]. apply wp_modify. cbn [fst].
  assert (entry_esp P run k = stack_top run) as He by (unfold entry_esp; by destruct (Z.eqb_spec run (keeper P))).
  rewrite <- He. set (k0 := set_esp _ k). apply wp_bind. eapply wp_ask; [exact Hld|]. apply wp_bind, wp_modify.
  change (set_stacks _ k0) with (entered_with (entry_esp P run k) (call_context r ret) k).
  destruct (sysenter_state k run rq bq ctx r ret Ha Hne Hre) as (Ha1 & _). set (k1 := entered_with _ _ k) in *.
  apply wp_bind, wp_gets. rewrite (proj2 (proj2 (alive_on _ _ _ _ _ Ha1))). cbv zeta in HQ.
  destruct (arguments _ _ _ _) as [[x y] z]. apply wp_bind. exact HQ.
Qed.

Lemma handle_call k run rq bq ctx r ret n x y z : alive P k run rq bq → resting P k run ctx → run ≠ keeper P →
  entry_of Sysenter r = SysCall n x y z → call_enabled P k run n x y z → n ≠ 2 ∨ unused P = [] →
  load32 k (u32 (ebp (regs r) + 4)) = Some ret →
  wp (handle Sysenter r) (outcome P k run ctx Sysenter r ret) k.
Proof.
  intros Ha Hre Hne He Hce Hf Hld. destruct (alive_on _ _ _ _ _ Ha) as (_ & _ & Hc). apply (wp_sysenter k run rq bq ctx r ret); try done.
  destruct (sysenter_state k run rq bq ctx r ret Ha Hne Hre) as (Ha1 & He1 & Hw & Hre1 & Ek). pose proof (call_enabled_entered _ _ (call_context r ret) _ _ _ _ Hce) as Hce1.
  set (k1 := entered_with _ _ k) in *. cbv zeta. unfold outcome, answered. cbn [entry_of] in *. destruct (arguments _ _ _ _) as [[x' y'] z'].
  injection He as -> -> -> ->. destruct (proj1 (wp_run _ _ _) (sys_call_turn k1 run rq bq n x y z Ha1 Hne He1 Hce1 Hf)) as (a & k2 & E & Htu & P' & (run2 & rq2 & bq2 & Ha2) & EP).
  apply wp_run. exists a, k2. split; [exact E|].
  assert (HP : (∀ t, t ∈ members P' → t ∈ members P) ∧ keeper P' = keeper P).
  { destruct (n =? 1); [subst P'; split; [intros t Ht; by apply dead_members in Ht as [_ ?]|done]|].
    destruct ((n =? 2) && _) eqn:Eb; [|by subst P']. apply andb_prop in Eb as [E1 E2]. apply Z.eqb_eq in E1. apply negb_true_iff, bool_decide_eq_false in E2. tauto. }
  apply (wp_finish P P' k1 k2 run rq bq run2 rq2 bq2 (InCall r ret) clk_end ctx a); [done|done|intros _; exact Hw|by left|done|done|done|apply HP|apply HP|].
  intros st o ctx' k3 Ha3 Hre3 Hgo. exists P', run2, rq2, bq2, ctx', a. split_and!; [|done|done|exact Hgo|].
  - cbn [becomes]. by rewrite Hc.
  - exists k2, st. by rewrite <- (entry_top k run _ Hne).
Qed.

(** The child waits with the context of its father. *)
Lemma spawned_resting k k' run rq bq rq' bq' child fq ufr ctx r ret : alive P k run rq bq → words_at (stacks k) (stack_top run) (call_context r ret) →
  resting P k run ctx → spawned P k k' run child → alive (born P run child fq ufr) k' run rq' bq' →
  resting (born P run child fq ufr) k' run (λ t, if bool_decide (t ∈ members P ∧ t ≠ run) then ctx t else InCall r ret).
Proof.
  intros Ha Hw [Hm Hcs] [[_ Hms] Hst Hsv (Htc & Hcr & Hcm) ((p & Hp & Hsp) & Hret & Hwords)] Ha'. split; [|by rewrite Hms].
  intros t Ht Hne. cbn [born members] in Ht. apply elem_of_cons in Ht as [->|Ht].
  - rewrite bool_decide_false by tauto. split.
    + intros i w Hi. pose proof (lookup_lt_Some _ _ _ Hi) as Hl. rewrite context_length in Hl. cbn [context_words] in Hi.
      rewrite <- (Hw i w Hi). replace (stack_top child - 4 - 4 * Z.of_nat i) with (stack_top child - 4 * (1 + Z.of_nat i)) by lia.
      replace (stack_top run - 4 - 4 * Z.of_nat i) with (stack_top run - 4 * (1 + Z.of_nat i)) by lia. apply Hwords. lia.
    + exists p, ret_from_fork. split; [done|]. split; [rewrite Hsp; rewrite <- Hret; f_equal; lia|]. right. split; [done|]. split; [done|by exists r, ret].
  - assert (t ≠ child) as Hn by (by intros ->). rewrite bool_decide_true by done.
    assert (is_task t) as Htt by (eapply alive_task; [exact Ha|by right]).
    apply (suspended_same k); [done|intros a Hin; by apply (Hst t)|by rewrite Hsv|by apply Hm].
Qed.

Lemma handle_fork k run rq bq ctx r ret x y z child fq : alive P k run rq bq → resting P k run ctx → run ≠ keeper P →
  entry_of Sysenter r = SysCall 2 x y z → unused P = child :: fq → room k run ∧ 1 < next_pid k →
  load32 k (u32 (ebp (regs r) + 4)) = Some ret →
  wp (handle Sysenter r) (outcome P k run ctx Sysenter r ret) k.
Proof.
  intros Ha Hre Hne He Hun Hroom Hld. destruct (alive_on _ _ _ _ _ Ha) as (Htr & _ & Hc). apply (wp_sysenter k run rq bq ctx r ret); try done.
  destruct (sysenter_state k run rq bq ctx r ret Ha Hne Hre) as (Ha1 & He1 & Hw & Hre1 & Ek).
  assert (Hroom1 : room (entered_with (entry_esp P run k) (call_context r ret) k) run ∧ 1 < next_pid (entered_with (entry_esp P run k) (call_context r ret) k)) by exact Hroom.
  set (k1 := entered_with _ _ k) in *. cbv zeta. unfold outcome, answered. cbn [entry_of] in *. destruct (arguments _ _ _ _) as [[x' y'] z'].
  injection He as -> -> -> ->.
  assert (wp (sys_call 2 x y z) (λ _ k', (∃ ufr, alive (born P run child fq ufr) k' run (rq ++ [child]) bq) ∧ spawned P k1 k' run child) k1) as Hwp
    by exact (fork_spawns P k1 run rq bq child fq Ha1 Hne Hun Hroom1).
  destruct (proj1 (wp_run _ _ _) Hwp) as (a & k2 & E & (ufr & Ha2) & Hsp). apply wp_run. exists a, k2. split; [exact E|].
  pose proof (spawned_resting k1 k2 run rq bq _ _ child fq ufr ctx r ret Ha1 Hw Hre1 Hsp Ha2) as Hre2. set (P' := born P run child fq ufr) in *.
  set (ctx' := λ t, if bool_decide (t ∈ members P ∧ t ≠ run) then ctx t else InCall r ret) in *. destruct Hsp as [[Hesp Hms] Hst _ (Htc & Hcr & _) _].
  apply (wp_leave P' k2 run (rq ++ [child]) bq run a (InCall r ret)); [exact Ha2|exact Hne|left; rewrite Hesp; by apply He1|by apply Hre2| |].
  - exists clk_end. split; [|by left]. eapply words_at_same; [|exact Hw]. intros b Hb. cbn in Hb. destruct (page_of_top run).
    apply (Hst run); [done|congruence|lia].
  - intros st Hs. destruct (resting_stacks P' k2 run _ _ st ctx' Hs Ha2 Hre2) as [Ha3 Hre3].
    exists P', run, (rq ++ [child]), bq, ctx', a. split_and!; [|done|done| |].
    + cbn [becomes]. rewrite Hc, bool_decide_false by (rewrite Hun; done). by exists child, fq, ufr.
    + split; [done|]. destruct (Z.eqb_spec run (keeper P')); [done|]. by rewrite Z.eqb_refl.
    + exists k2, st. by rewrite <- (entry_top k run _ Hne).
Qed.

Lemma handle_outcome k run rq bq ctx ev r ret : alive P k run rq bq → resting P k run ctx → enabled P (entry_of ev r) k →
  (ev = Sysenter → load32 k (u32 (ebp (regs r) + 4)) = Some ret) → wp (handle ev r) (outcome P k run ctx ev r ret) k.
Proof.
  intros Ha Hre Hen Hld. destruct (alive_on _ _ _ _ _ Ha) as (_ & _ & Hc). destruct ev as [|key|cr2 error buff aft|].
  - by eapply handle_clock.
  - by eapply handle_key.
  - cbn [entry_of enabled] in Hen. rewrite Hc in Hen. destruct Hen. by eapply handle_fault.
  - destruct (entry_of Sysenter r) as [| | |n x y z] eqn:E; [discriminate E..|].
    cbn [enabled] in Hen. rewrite Hc in Hen. destruct Hen as [Hne Hce]. specialize (Hld eq_refl).
    destruct (unused P) as [|child fq] eqn:Hun; [by apply (handle_call k run rq bq ctx r ret n x y z); auto|].
    destruct (decide (n = 2)) as [->|Hn]; [|by apply (handle_call k run rq bq ctx r ret n x y z); auto].
    apply (handle_fork k run rq bq ctx r ret x y z child fq); try done. apply Hce; [done|by rewrite Hun].
Qed.
End handlers.

(** ** The start *)

(** The register [sysexit] takes the segments from. *)
Definition segments_are (cs : Z) (k : kernel) : Prop := msrs k !! 0x174 = Some (cs, 0).

Section segments.
Context `{Layout} (cs : Z).

Lemma segments_modify f : (∀ k, msrs (f k) = msrs k) → gives (segments_are cs) (modify f) (λ _, True).
Proof. intros Hf. apply gives_modify; [done|]. intros k Hk. unfold segments_are. by rewrite Hf. Qed.

Lemma segments_msr a l h : a ≠ 0x174 → gives (segments_are cs) (set_msr a l h) (λ _, True).
Proof. intros Ha. apply gives_modify; [done|]. intros k Hk. unfold segments_are. kcbn. by rewrite lookup_insert_ne. Qed.

Lemma segments_lift f : (∀ k k', f k = Some k' → msrs k' = msrs k) → gives (segments_are cs) (lift f) (λ _, True).
Proof. intros Hf. apply gives_lift; [done|]. intros k k' Hk E. unfold segments_are. by rewrite (Hf _ _ E). Qed.

Lemma segments_zoom {T A} (get : kernel → T) put (m : M T A) : (∀ v k, msrs (put v k) = msrs k) → gives (segments_are cs) (zoom get put m) (λ _, True).
Proof.
  intros Hput k a k' E Hk. unfold zoom in E. destruct (m (get k)) as [[b x]|]; [|done]. injection E as <- <-.
  split; [|done]. unfold segments_are. by rewrite Hput.
Qed.
End segments.

Create HintDb segments discriminated.
#[export] Hint Constants Opaque : segments.

Ltac segments_leaf _ :=
  lazymatch goal with
  | |- gives _ (set_msr _ _ _) _ => apply segments_msr; discriminate
  | |- gives _ (set_pcb _ _) _ => apply segments_lift; intros k0 ? E; destruct (tasks k0 !! _); [injection E as <-; reflexivity|discriminate E]
  | |- gives _ (set_shared _ _) _ => apply segments_lift; intros k0 ? E; destruct (znth (shared_pages k0) _); [cbn in E; destruct (zset _ _ _); [injection E as <-; reflexivity|discriminate E]|discriminate E]
  | |- gives _ (lift (copy_data _ _ _)) _ => apply segments_lift; intros ? ? [? ->]%copy_data_frames; reflexivity
  | |- gives _ (lift (store32 _ _)) _ => apply segments_lift; intros ? ? [? ->]%store32_frames; reflexivity
  | |- gives _ (on_lists _) _ => apply segments_zoom; reflexivity
  | |- gives _ (on_ptes _) _ => apply segments_zoom; reflexivity
  | |- gives _ (on_frames _) _ => apply segments_zoom; reflexivity
  | |- gives _ (zoom _ _ _) _ => apply segments_zoom; reflexivity
  | |- gives _ (modify _) _ => apply segments_modify; reflexivity
  | |- gives _ (for_up _ _ _) _ => apply gives_for_up; intros ?; gives_walk segments_leaf
  | |- gives _ _ _ => solve [eauto with segments]
  end.

Ltac segments_all := gives_walk segments_leaf.

Section start.
Context `{Layout}.

Lemma segments_init_mm : gives (segments_are KERNEL_CS) init_mm (λ _, True).
Proof.
  unfold init_mm, init_shared_pages, allocate_DIR, get_DIR, get_PT, pcb, set_pe_flag, set_cr3, write_cr3. segments_all.
Qed.
Lemma segments_set_user_pages t : gives (segments_are KERNEL_CS) (set_user_pages t) (λ _, True).
Proof. unfold set_user_pages, get_PT, get_DIR, pcb. segments_all. Qed.
#[local] Hint Resolve segments_init_mm segments_set_user_pages : segments.
Lemma segments_start_sched : gives (segments_are KERNEL_CS) start_sched (λ _, True).
Proof.
  unfold start_sched, init_sched, init_idle, init_task1, list_first_of, allocate_DIR, get_DIR, pcb, store_stack, set_cr3, write_cr3. segments_all.
Qed.
#[local] Hint Resolve segments_start_sched : segments.

Lemma leads_any {A} (m : MK A) P : leads P m (λ _, True).
Proof. done. Qed.

Lemma leads_set_sysenter_msrs : leads (λ _, True) set_sysenter_msrs (segments_are KERNEL_CS).
Proof.
  unfold set_sysenter_msrs. apply (leads_bind _ (segments_are KERNEL_CS)).
  - intros k1 ? k2 [= _ <-] _. unfold segments_are. kcbn. apply lookup_insert_eq.
  - intros ?. apply leads_gives. segments_all.
Qed.

Lemma main_segments a sh k k' : main a sh k = Some (tt, k') → segments_are KERNEL_CS k'.
Proof.
  intros E. assert (Hm : leads (λ _, True) (main a sh) (segments_are KERNEL_CS)); [|by apply (Hm _ _ _ E)].
  unfold main, setIdt. do 4 (apply (leads_bind _ (λ _, True)); [apply leads_any|intros _]).
  apply (leads_bind _ (segments_are KERNEL_CS)).
  - apply (leads_bind _ (λ _, True)); [apply leads_any|intros _].
    apply (leads_bind _ (segments_are KERNEL_CS)); [apply leads_set_sysenter_msrs|intros _]. apply leads_gives. segments_all.
  - intros _. apply leads_gives. unfold set_TSS, initCircBuff, print, on_hardware, return_gate, on_hardware. segments_all.
Qed.
End start.

(** The first process is the only one: nobody waits. *)
Lemma first_resting `{Layout, Code} a sh k0 k ctx : main a sh k0 = Some (tt, k) →
  resting first_population (set_esp (tss_esp0 k) k) task1 ctx.
Proof. intros E. split; [|exact (main_segments a sh k0 k E)]. intros t Ht%list_elem_of_singleton Hne. by destruct Hne. Qed.

Lemma start_resting `{LayoutOk, Code} fr idt_addr sh ctx : fills_gates sh → image_fits (loaded_image fr) →
  wp (main idt_addr sh) (λ _ k, resting first_population (set_esp (tss_esp0 k) k) task1 ctx) (loaded_image fr).
Proof.
  intros Hg Hf. pose proof (start_alive fr idt_addr sh Hg Hf) as Hw. apply wp_run in Hw as ([] & k & E & _).
  apply wp_run. exists tt, k. split; [exact E|]. exact (first_resting idt_addr sh _ k ctx E).
Qed.

(** C5: every process gets its own registers back.  After the start nobody waits.
    Whenever every process that waits has the registers of its entry on its
    kernel stack, an entry of the kernel - the clock, a key, a write to code, a
    system call, enabled when it comes, in user mode or, for the interrupts, in
    the idle process - saves the registers of the process, runs the routine and
    returns; it is still so, now also for the process that has entered, if it
    waits, and for the process it may have made.  The processor goes on with the
    registers of the process that runs then: all of them and the address it was
    at, after an interrupt; after a call the answer of the service in %eax (0 in
    the process that fork has made), the return address the wrapper has pushed in
    %edx and in the program counter, its own %ebp in %ecx and in the stack
    pointer, the other seven as they were, interrupts enabled, in user mode. *)
Theorem registers_survive `{LayoutOk, CodeOk} :
  (∀ fr idt_addr sh ctx, fills_gates sh → image_fits (loaded_image fr) →
     wp (main idt_addr sh) (λ _ k, resting first_population (set_esp (tss_esp0 k) k) task1 ctx) (loaded_image fr)) ∧
  (∀ P k run rq bq ctx ev r ret, alive P k run rq bq → resting P k run ctx → enabled P (entry_of ev r) k →
     (ev = Sysenter → load32 k (u32 (ebp (regs r) + 4)) = Some ret) →
     wp (handle ev r) (outcome P k run ctx ev r ret) k).
Proof. split; [apply start_resting|apply handle_outcome]. Qed.

(** The first process is interrupted by the clock; it asks for its identifier. *)
#[export] Instance example_code : Code := {|
  clk_end := 0x10A80; kbd_end := 0x10B80; pgf_end := 0x10D00; sysenter_end := 0x10C80; kernel_flags := 0x2;
|}.

Definition example_cpu (eax : Z) : cpu :=
  mk_cpu (mk_registers eax 2 3 4 5 6 0x113F00 USER_DS USER_DS 0 0) (mk_hardware 0x114020 USER_CS 0x202 0x113F00 USER_DS).

Lemma registers_survive_witness : ∃ k ret,
  wp (handle (H := example_layout) ClockTick (example_cpu 1)) (outcome first_population k task1 (λ _, Interrupted (example_cpu 1)) ClockTick (example_cpu 1) 0) k ∧
  wp (handle (H := example_layout) Sysenter (example_cpu 20)) (outcome first_population k task1 (λ _, Interrupted (example_cpu 1)) Sysenter (example_cpu 20) ret) k.
Proof.
  assert (HC : CodeOk (H := example_code)) by (split; split; discriminate).
  destruct example_alive as (k' & Hm & Hb & Ha). pose (k := set_esp (tss_esp0 k') k').
  assert (Hre : resting (H := example_layout) first_population k task1 (λ _, Interrupted (example_cpu 1))).
  { by apply (first_resting 0x5000 (mret tt) (loaded_image example_frames)). }
  fold k in Ha. clearbody k. pose proof (alive_process _ _ _ _ _ Ha ltac:(by vm_compute)) as Hup.
  destruct (user_word (H := example_layout) k _ _ 0x113F04 (process_runs _ _ _ Hup) ltac:(split; by vm_compute)) as [ret Hret]. exists k, ret. split.
  - apply (proj2 registers_survive _ _ _ _ _ _ ClockTick (example_cpu 1) 0 Ha Hre); [exact I|discriminate].
  - apply (proj2 registers_survive _ _ _ _ _ _ Sysenter (example_cpu 20) ret Ha Hre); [|intros _; exact Hret].
    assert (current k = task1 (H := example_layout)) as Hc by exact (proj2 (proj2 (alive_on _ _ _ _ _ Ha))).
    change (entry_of Sysenter (example_cpu 20)) with (SysCall 20 4 3 2). split; rewrite Hc; [by vm_compute|by split].
Defined.
