(* ===== verification/Calls.v ===== *)
(** * The system calls seen from user mode (user_misc.S)

    The wrappers of the library: they save registers on the stack of the process,
    put the number and the arguments in registers, leave a frame in which
    [sysenter] finds the way back, and turn a negative answer into -1 and
    [errno]. *)

From S2P Require Import Prelude CInt Memory Errno Console Paging Descriptors Kernel Mm Space Words Sched Boot Interrupt System UserIO Process Fork Types Entries Population Steps CodeWrites Births Life Isolation Gate Stacks Turns Registers.

(** ** The wrappers *)

(** The number of the service, and how many parameters the wrapper loads. *)
Record wrapper := mk_wrapper { number : Z; parameters : Z }.

Definition write := mk_wrapper 4 3.
Definition gettime := mk_wrapper 10 0.
Definition getpid := mk_wrapper 20 0.
Definition fork := mk_wrapper 0x02 0.
Definition exit := mk_wrapper 0x01 0.
Definition block := mk_wrapper 0x12 0.
Definition unblock := mk_wrapper 0x13 1.
Definition numsons := mk_wrapper 0x15 0.
Definition numbros := mk_wrapper 0x16 0.
Definition read := mk_wrapper 0x03 2.
Definition gotoxy := mk_wrapper 0x0B 2.
Definition set_color := mk_wrapper 0x0C 2.
Definition shmat := mk_wrapper 0x0F 2.
Definition shmdt := mk_wrapper 0x10 1.
Definition shmrm := mk_wrapper 0x11 1.

(** The address of [errno] and of the instruction after [sysenter]. *)
Class UserCode := { errno : Z; sysenter_back : Z }.

Section wrappers.
Context `{Layout, Code, UserCode}.

(** [push] and [pop] of a process, with the stack pointer at [e]. *)
Definition push (w e : Z) : MK Z := lift (store32 (u32 (e - 4)) w) ;; mret (u32 (e - 4)).
Definition pop (e : Z) : MK (Z * Z) := w ← ask (λ k, load32 k e); mret (w, u32 (e + 4)).

(** The parameter at the given distance from the frame pointer, for the wrappers
    that have it; the others leave the register as it is. *)
Definition parameter (present : bool) (bp d old : Z) : MK Z :=
  if present then ask (λ k, load32 k (u32 (bp + d))) else mret old.

(** Up to [sysenter]. *)
Definition enter (w : wrapper) (u : cpu) : MK cpu :=
  let s := regs u in
  bp ← push (ebp s) (user_esp (hw u));
  e ← push (ebx s) bp;
  e ← push (esi s) e;
  e ← push (edi s) e;
  dx ← parameter (1 <=? parameters w) bp 0x8 (edx s);
  cx ← parameter (2 <=? parameters w) bp 0xc (ecx s);
  bx ← parameter (3 <=? parameters w) bp 0x10 (ebx s);
  e ← push cx e;
  e ← push dx e;
  e ← push sysenter_back e;
  e ← push bp e;
  mret (mk_cpu (mk_registers (number w) bx cx dx (esi s) (edi s) e (seg_ds s) (seg_es s) (seg_fs s) (seg_gs s))
               (mk_hardware (eip (hw u)) (seg_cs (hw u)) (eflags (hw u)) e (seg_ss (hw u)))).

(** The label [fin]: [popl %ebp] and [ret], with the other registers restored. *)
Definition fin (s : registers) (u : cpu) (e : Z) : MK cpu :=
  '(bp, e) ← pop e;
  '(ip, e) ← pop e;
  mret (mk_cpu (mk_registers (eax s) (ebx s) (ecx s) (edx s) (esi s) (edi s) bp (seg_ds s) (seg_es s) (seg_fs s) (seg_gs s))
               (mk_hardware ip (seg_cs (hw u)) (eflags (hw u)) e (seg_ss (hw u)))).

(** From the return of [sysexit] on. *)
Definition return_to_caller (u : cpu) : MK cpu :=
  let s := regs u in
  '(bp, e) ← pop (user_esp (hw u));
  '(dx, e) ← pop e;
  '(dx, e) ← pop e;
  '(cx, e) ← pop e;
  '(di, e) ← pop e;
  '(si, e) ← pop e;
  '(bx, e) ← pop e;
  ax ← (if s32 (eax s) <? 0 then lift (store32 errno (u32 (- eax s))) ;; mret (u32 (-1)) else mret (eax s));
  fin (mk_registers ax bx cx dx si di bp (seg_ds s) (seg_es s) (seg_fs s) (seg_gs s)) u e.

(** The process executes the rest of the wrapper only if the kernel has returned it to
    [sysenter_return]; the model stops at any other address. *)
Definition after_sysexit (u : cpu) : MK cpu :=
  if eip (hw u) =? u32 sysenter_back then return_to_caller u else fault.

(** A call of the wrapper: what the process executes then, if it still has the
    processor when the kernel returns; another process goes on with its own program. *)
Definition system_call (w : wrapper) (u : cpu) : MK (option cpu) :=
  r ← enter w u;
  c ← gets current;
  o ← handle Sysenter r;
  t ← gets current;
  match o with
  | Some r => if t =? c then r ← after_sysexit r; mret (Some r) else mret (Some r)
  | None => mret None
  end.
End wrappers.

(** ** The frame of a wrapper *)

(** The words [ws] are in the memory of the process, below the address [e]. *)
Definition stack_words (k : kernel) (e : Z) (ws : list Z) : Prop :=
  ∀ i w, ws !! i = Some w → load32 k (e - 4 - 4 * Z.of_nat i) = Some (u32 w).

(** [k] is [k0] but for the words that the process has pushed below [e]. *)
Record pushed `{Layout} (k0 : kernel) (t : Z) (ufr : Z → Z) (e : Z) (ws : list Z) (k : kernel) : Prop := {
  pu_frames : k = set_frames (frames k) k0;
  pu_process : user_process k t ufr;
  pu_words : stack_words k e ws;
  pu_above : ∀ b, user_area b 1 → b < e - 4 * Z.of_nat (length ws) ∨ e ≤ b → load8 k b = load8 k0 b;
}.

(** The words the process calls with. *)
Definition argument (k : kernel) (u : cpu) (present : bool) (d old : Z) : Z :=
  if present then default 0 (load32 k (user_esp (hw u) + d)) else old.

Section frame.
Context `{LayoutOk} (k0 : kernel) (t : Z) (ufr : Z → Z) (e : Z).
Implicit Types (k : kernel) (ws : list Z).

Lemma pushed_nil : user_process k0 t ufr → pushed k0 t ufr e [] k0.
Proof. intros Hp. split; [by destruct k0|done|by intros i w Hi|done]. Qed.

Lemma wp_push w ws (Q : Z → kernel → Prop) k e1 : data_area (e - 32) 48 → (length ws < 8)%nat → e1 = e - 4 * Z.of_nat (length ws) →
  pushed k0 t ufr e ws k → (∀ k', pushed k0 t ufr e (ws ++ [w]) k' → Q (e1 - 4) k') → wp (push w e1) Q k.
Proof.
  intros Ha Hl -> [Hf Hp Hw Hout] HQ. set (e1 := e - 4 * Z.of_nat (length ws)) in *.
  assert (Hd : data_area (e1 - 4) 4) by (eapply data_area_part; [exact Ha|unfold e1; lia..]).
  assert (Hu : u32 (e1 - 4) = e1 - 4) by (rewrite <- (Z.add_0_r (e1 - 4)); by apply (data_area_range _ 4 0 Hd); lia).
  destruct (store_process_word k t ufr (e1 - 4) w Hp Hd) as (k' & E & Hf' & Hp' & Hld & Hother).
  unfold push. rewrite Hu. apply wp_bind. eapply wp_lift; [exact E|]. apply wp_ret, HQ. split; [by rewrite Hf', Hf|done| |].
  - intros i x Hi. apply lookup_app_Some in Hi as [Hi|[Hge Hi]].
    + pose proof (lookup_lt_Some _ _ _ Hi) as Hlt. rewrite <- (Hw i x Hi).
      assert (Hdi : data_area (e - 4 - 4 * Z.of_nat i) 4) by (eapply data_area_part; [exact Ha|lia..]).
      apply load_word; [done|]. intros j Hj. apply Hother; [by apply (data_area_range _ 4)|unfold e1; lia].
    + assert (i = length ws) as ->.
      { apply lookup_lt_Some in Hi. cbn in Hi. lia. }
      rewrite Nat.sub_diag in Hi. injection Hi as ->. rewrite <- Hld. f_equal. unfold e1. lia.
  - intros b Hb Hbo. rewrite length_app in Hbo. cbn in Hbo. rewrite Hother, Hout; [done|done| |done|]; unfold e1; lia.
Qed.

(** A word above the frame. *)
Lemma pushed_load ws k a : data_area a 4 → e ≤ a → pushed k0 t ufr e ws k → load32 k a = load32 k0 a.
Proof.
  intros Ha He [_ _ _ Hout]. apply load_word; [done|]. intros i Hi. apply Hout; [by apply (data_area_range _ 4)|lia].
Qed.

Lemma wp_parameter present d old (Q : Z → kernel → Prop) k u ws : data_area (e - 32) 48 → e = user_esp (hw u) → 8 ≤ d ≤ 16 →
  pushed k0 t ufr e ws k → Q (argument k0 u present (d - 4) old) k → wp (parameter present (e - 4) d old) Q k.
Proof.
  intros Ha He Hd Hp HQ. unfold parameter, argument in *. destruct present; [|by apply wp_ret]. rewrite <- He in HQ.
  assert (Hda : data_area (e + (d - 4)) 4) by (eapply data_area_part; [exact Ha|lia..]).
  assert (Hu : u32 (e - 4 + d) = e + (d - 4)) by (replace (e - 4 + d) with (e + (d - 4) + 0) by lia; rewrite (proj2 (data_area_range _ 4 0 Hda ltac:(lia))); lia).
  rewrite <- (pushed_load ws k _ Hda ltac:(lia) Hp) in HQ.
  destruct (user_word k t ufr _ (process_runs _ _ _ (pu_process _ _ _ _ _ _ Hp)) (data_area_user _ _ Hda)) as [v Hv]. rewrite Hv in HQ.
  eapply wp_ask; [rewrite Hu; exact Hv|exact HQ].
Qed.
End frame.

(** ** Into the kernel and out of it *)

(** What the process has in its registers when it executes [sysenter], and the
    words its wrapper has left on the stack. *)
Definition called (k : kernel) (w : wrapper) (u : cpu) : cpu :=
  let s := regs u in
  let e := user_esp (hw u) - 32 in
  mk_cpu (mk_registers (number w) (argument k u (3 <=? parameters w) 12 (ebx s)) (argument k u (2 <=? parameters w) 8 (ecx s))
            (argument k u (1 <=? parameters w) 4 (edx s)) (esi s) (edi s) e (seg_ds s) (seg_es s) (seg_fs s) (seg_gs s))
         (mk_hardware (eip (hw u)) (seg_cs (hw u)) (eflags (hw u)) e (seg_ss (hw u))).

Definition frame `{UserCode} (k : kernel) (w : wrapper) (u : cpu) : list Z :=
  let s := regs u in
  [ebp s; ebx s; esi s; edi s; ecx (regs (called k w u)); edx (regs (called k w u)); sysenter_back; user_esp (hw u) - 4].

(** The stack has room for the frame; the parameters are above it. *)
Definition stack_room (u : cpu) : Prop := data_area (user_esp (hw u) - 32) 48.

(** The registers have 32 bits. *)
Record cpu_ok (u : cpu) : Prop := { ck_ebx : is_u32 (ebx (regs u)); ck_esi : is_u32 (esi (regs u)); ck_edi : is_u32 (edi (regs u)); ck_ebp : is_u32 (ebp (regs u)) }.

(** [errno] is in the data of the program, and not in the frame. *)
Definition errno_apart `{UserCode} (u : cpu) : Prop :=
  data_area errno 4 ∧ (errno + 4 ≤ user_esp (hw u) - 32 ∨ user_esp (hw u) + 4 ≤ errno).

(** What the caller of the wrapper finds: its own registers and stack, the code
    it called from, and the answer, which in case of an error is in [errno]. *)
Record returned `{UserCode} (k : kernel) (u : cpu) (a : Z) (r : cpu) (k' : kernel) : Prop := {
  rt_answer : eax (regs r) = if s32 a <? 0 then u32 (-1) else u32 a;
  rt_errno : s32 a < 0 → load32 k' errno = Some (u32 (- a));
  rt_saved : ebx (regs r) = ebx (regs u) ∧ esi (regs r) = esi (regs u) ∧ edi (regs r) = edi (regs u) ∧ ebp (regs r) = ebp (regs u);
  rt_back : load32 k (user_esp (hw u)) = Some (eip (hw r)) ∧ user_esp (hw r) = user_esp (hw u) + 4 ∧ seg_cs (hw r) = USER_CS ∧ seg_ss (hw r) = USER_DS;
}.

Ltac push_word Ha Hp k' Hp' :=
  apply wp_bind; eapply wp_push; [exact Ha| | |exact Hp|]; [cbn [length app]; lia|cbn [length app]; lia|]; intros k' Hp'.

Section calls.
Context `{LayoutOk, CodeOk, UserCode} (w : wrapper) (u : cpu).
Implicit Types (k : kernel) (t : Z) (ufr : Z → Z).

#[local] Abbreviation e := (user_esp (hw u)).

Lemma wp_enter k t ufr (Q : cpu → kernel → Prop) : stack_room u → user_process k t ufr →
  (∀ k', pushed k t ufr e (frame k w u) k' → Q (called k w u) k') → wp (enter w u) Q k.
Proof.
  intros Ha Hp HQ. unfold enter. pose proof (pushed_nil k t ufr e Hp) as Hp0.
  push_word Ha Hp0 k1 Hp1. push_word Ha Hp1 k2 Hp2. push_word Ha Hp2 k3 Hp3. push_word Ha Hp3 k4 Hp4.
  do 3 (apply wp_bind; eapply (wp_parameter k t ufr e); [exact Ha|reflexivity|lia|exact Hp4|]).
  push_word Ha Hp4 k5 Hp5. push_word Ha Hp5 k6 Hp6. push_word Ha Hp6 k7 Hp7. push_word Ha Hp7 k8 Hp8.
  apply wp_ret. replace (e - 4 - 4 - 4 - 4 - 4 - 4 - 4 - 4) with (e - 32) by lia. exact (HQ k8 Hp8).
Qed.

(** [pop] finds a word of the frame. *)
Lemma wp_pop_word k ws i v (Q : Z * Z → kernel → Prop) e1 : stack_room u → stack_words k e ws → ws !! i = Some v → (i < 8)%nat →
  e1 = e - 4 - 4 * Z.of_nat i → Q (u32 v, e1 + 4) k → wp (pop e1) Q k.
Proof.
  intros Ha Hw Hi Hl -> HQ. unfold pop. apply wp_bind. eapply wp_ask; [exact (Hw i v Hi)|]. apply wp_ret.
  assert (Hd : data_area (e - 4 - 4 * Z.of_nat i + 4) 4) by (eapply data_area_part; [exact Ha|lia..]).
  rewrite (data_area_u32 _ 4 Hd) by lia. exact HQ.
Qed.

(** The word [i] of the frame is popped. *)
Ltac pop_word Ha Hw i :=
  apply wp_bind; eapply (wp_pop_word _ _ i); [exact Ha|exact Hw|reflexivity|lia|cbn [after_call called hw user_esp regs ebp]; lia|].

Lemma wp_fin k t ufr s r (Q : cpu → kernel → Prop) : user_process k t ufr → stack_room u → load32 k (e - 4) = Some (ebp (regs u)) →
  (∀ v, load32 k e = Some v →
     Q (mk_cpu (mk_registers (eax s) (ebx s) (ecx s) (edx s) (esi s) (edi s) (ebp (regs u)) (seg_ds s) (seg_es s) (seg_fs s) (seg_gs s))
               (mk_hardware v (seg_cs (hw r)) (eflags (hw r)) (e + 4) (seg_ss (hw r)))) k) →
  wp (fin s r (e - 4)) Q k.
Proof.
  intros Hp Ha Hbp HQ. unfold stack_room in Ha.
  assert (Hd : data_area e 4) by (eapply data_area_part; [exact Ha|lia..]). assert (Hd' : data_area (e + 4) 4) by (eapply data_area_part; [exact Ha|lia..]).
  destruct (user_word k t ufr e (process_runs _ _ _ Hp) (data_area_user _ _ Hd)) as [v Hv]. unfold fin, pop.
  apply wp_bind, wp_bind. eapply wp_ask; [exact Hbp|]. apply wp_ret.
  replace (e - 4 + 4) with e by lia. rewrite (data_area_u32 e 4) by (done || lia).
  apply wp_bind, wp_bind. eapply wp_ask; [exact Hv|]. apply wp_ret. rewrite (data_area_u32 (e + 4) 4) by (done || lia).
  apply wp_ret. by apply HQ.
Qed.

(** A process that comes back from the kernel with the words of its wrapper on
    its stack returns to the caller. *)
Lemma wp_return k k0 t ufr a (ret := u32 sysenter_back) (Q : cpu → kernel → Prop) : user_process k t ufr → stack_room u → cpu_ok u → errno_apart u →
  stack_words k e (frame k0 w u) → load32 k e = load32 k0 e →
  (∀ r k', k' = set_frames (frames k') k → (0 ≤ s32 a → k' = k) →
     (∀ b, user_area b 1 → b < errno ∨ errno + 4 ≤ b → load8 k' b = load8 k b) → returned k0 u a r k' → Q r k') →
  wp (after_sysexit (after_call (called k0 w u) ret a)) Q k.
Proof.
  intros Hp Ha [Hbx Hsi Hdi Hbp] [Her Hap] Hw Hip HQ. unfold after_sysexit. change (eip (hw (after_call (called k0 w u) ret a))) with (u32 sysenter_back).
  rewrite Z.eqb_refl. unfold return_to_caller.
  pop_word Ha Hw 7%nat. pop_word Ha Hw 6%nat. pop_word Ha Hw 5%nat. pop_word Ha Hw 4%nat. pop_word Ha Hw 3%nat. pop_word Ha Hw 2%nat. pop_word Ha Hw 1%nat.
  cbn [after_call regs eax]. rewrite s32_u32.
  assert (user_esp (hw (after_call (called k0 w u) ret a)) + 4 + 4 + 4 + 4 + 4 + 4 + 4 = e - 4) as Ee by (cbn [after_call called hw user_esp regs ebp]; lia).
  pose proof (Hw 0%nat _ eq_refl) as Hw0. rewrite (u32_small (ebp (regs u))) in Hw0 by done.
  replace (e - 4 - 4 * Z.of_nat 0) with (e - 4) in Hw0 by lia.
  assert (Hd : data_area e 4) by (eapply data_area_part; [exact Ha|lia..]). assert (Hd' : data_area (e - 4) 4) by (eapply data_area_part; [exact Ha|lia..]).
  destruct (Z.ltb_spec (s32 a) 0) as [Hneg|Hpos].
  - destruct (store_process_word k t ufr errno (u32 (- u32 a)) Hp Her) as (k' & E & Hf & Hp' & Hld & Hother).
    apply wp_bind, wp_bind. eapply wp_lift; [exact E|]. apply wp_ret.
    rewrite Ee.
    apply (wp_fin k' t ufr); [exact Hp'|exact Ha| |].
    + rewrite <- Hw0. apply load_word; [done|]. intros i Hi. apply Hother; [by apply (data_area_range _ 4)|lia].
    + intros v Hv. apply HQ; [exact Hf|lia|exact Hother|].
      assert (load32 k' e = load32 k e) as Ek by (apply load_word; [done|]; intros i Hi; apply Hother; [by apply (data_area_range _ 4)|lia]).
      split; [by rewrite (proj2 (Z.ltb_lt _ _) Hneg)| | |].
      * intros _. rewrite Hld. f_equal. rewrite u32_u32. apply u32_opp.
      * split_and!; [by apply u32_small..|done].
      * split_and!; [|done|done|done]. by rewrite <- Hip, <- Ek.
  - apply wp_bind, wp_ret. rewrite Ee.
    apply (wp_fin k t ufr); [exact Hp|exact Ha|exact Hw0|]. intros v Hv. apply HQ; [by destruct k|done|done|].
    split; [by rewrite (proj2 (Z.ltb_ge _ _) Hpos)|lia| |].
    + split_and!; [by apply u32_small..|done].
    + split_and!; [|done|done|done]. by rewrite <- Hip.
Qed.
End calls.

(** ** A call from beginning to end *)

(** The bytes of the process that the call may change. *)
Definition written_by `{UserCode} (e : entry) (u : cpu) (b : Z) : Prop :=
  buffer_of e b ∨ user_esp (hw u) - 32 ≤ b < user_esp (hw u) ∨ errno ≤ b < errno + 4.

(** The buffer of the call is in the data of the process, outside the frame. *)
Definition buffer_apart (e : entry) (u : cpu) : Prop :=
  ∀ b, buffer_of e b → data_page (b / 4096) ∧ (b < user_esp (hw u) - 32 ∨ user_esp (hw u) + 4 ≤ b).

(** The service, called with the words of the wrapper on the stack of the process and
    its context on the kernel stack, answers [a]; [k'] is the state it leaves but for
    the stacks and for what the rest of the wrapper writes to memory. *)
Definition served `{Layout, Code, UserCode} (k : kernel) (w : wrapper) (u : cpu) (run : Z) (ufr : Z → Z) (a : Z) (k' : kernel) : Prop :=
  ∃ k1 k2, pushed k run ufr (user_esp (hw u)) (frame k w u) k1 ∧
    answered Sysenter (called k w u) (u32 sysenter_back) k1 k2 run a ∧ k' = set_frames (frames k') k2.

Section run.
Context `{LayoutOk, CodeOk, UserCode} (P : population).
Implicit Types (k : kernel) (run : Z) (rq bq : list Z) (ctx : Z → context).

(** The service leaves the memory of its caller as it was, but for its buffer. *)
Lemma memory_after k k' run rq bq rq' bq' P' r ret a : alive P k run rq bq → run ≠ keeper P → enabled P (entry_of Sysenter r) k →
  (∀ b, buffer_of (entry_of Sysenter r) b → data_page (b / 4096)) → answered Sysenter r ret k k' run a →
  becomes (entry_of Sysenter r) k P P' → alive P' k' run rq' bq' → run ∈ members P' →
  ∀ b, user_area b 1 → ¬ buffer_of (entry_of Sysenter r) b → load8 k' b = load8 k b.
Proof.
  intros Ha Hne Hen Hbuf Han Hbe Ha' Hin b Hb Hnb. unfold answered in Han. cbn [entry_of] in *. destruct (arguments _ _ _ _) as [[x y] z].
  set (n := s32 (eax (regs r))) in *. destruct Han as (k2 & st & E & ->).
  assert (length (call_context r ret) ≤ 19)%nat as Hl by (cbn; lia).
  destruct (alive_entered P k run rq bq _ Ha Hl) as [Ha1 Hc1]. pose proof (entry_at P k run (call_context r ret)) as He1.
  rewrite (entry_top P k run _ Hne) in Ha1, Hc1, He1. set (k1 := entered_with _ _ k) in *.
  assert (Hen1 : enabled P (SysCall n x y z) k1).
  { destruct Hen as [_ Hce]. split; [by rewrite Hc1|]. rewrite (proj2 (proj2 (alive_on _ _ _ _ _ Ha))) in Hce. rewrite Hc1.
    destruct Hce. split; assumption. }
  pose proof (entry_isolated P k1 run rq bq _ Ha1 Hen1 Hbuf) as Hw. apply wp_run in Hw as ([] & k3 & E3 & P3 & _ & _ & Hmem).
  cbn [handle_entry] in E3. unfold mbind, M_bind in E3. rewrite (sysenter_again P k1 run rq bq Ha1 Hne He1), E in E3. injection E3 as <-.
  destruct (alive_run _ _ _ _ _ Ha Hne) as [Hrun _]. destruct (Hmem run b Hrun Hb ltac:(tauto)) as [_ Hsame].
  assert (Hne' : run ≠ keeper P').
  { intros Ek. apply (NoDup_cons_1_1 (keeper P') (members P')); [exact (wf_nodup _ (al_wf _ _ _ _ _ Ha'))|by rewrite <- Ek]. }
  rewrite (proj2 (user_load _ _ _ b (alive_process _ _ _ _ _ Ha' Hne') Hb)), (proj2 (user_load _ _ _ b (alive_process _ _ _ _ _ Ha Hne) Hb)).
  rewrite (becomes_memory P k run rq bq _ P' run Ha Hbe Hrun). f_equal. exact Hsame.
Qed.

(** The processes do not notice what one of them pushes. *)
Lemma pushed_alive k k' run rq bq ufr e ws : alive P k run rq bq → pushed k run ufr e ws k' → alive P k' run rq bq.
Proof. intros Ha [-> _ _ _]. by apply alive_stored. Qed.

Lemma resting_stored Q k fr run ctx : resting Q k run ctx → resting Q (set_frames fr k) run ctx.
Proof. intros [Hm Hcs]. split; [|exact Hcs]. intros t Ht Hne. destruct (Hm t Ht Hne) as [Hw Hr]. split; [exact Hw|exact Hr]. Qed.

Lemma pushed_resting k k' run ufr e ws ctx : resting P k run ctx → pushed k run ufr e ws k' → resting P k' run ctx.
Proof. intros Hre [-> _ _ _]. by apply resting_stored. Qed.

Lemma pushed_enabled k k' run ufr e ws n x y z : enabled P (SysCall n x y z) k → pushed k run ufr e ws k' → enabled P (SysCall n x y z) k'.
Proof. intros [Hne Hce] [-> _ _ _]. split; [exact Hne|]. change (current (set_frames (frames k') k)) with (current k). destruct Hce. split; assumption. Qed.

Lemma becomes_keeper k e P' : becomes e k P P' → keeper P' = keeper P.
Proof.
  destruct e as [| | |n x y z]; cbn [becomes]; [by intros ->..|]. destruct (n =? 1); [by intros ->|]. destruct (_ && _); [|by intros ->].
  by intros (child & fq & ufr & _ & ->).
Qed.

(** The frame and the return address after the service. *)
Lemma frame_after k k1 k2 u ufr run ws (out : Z → Prop) : stack_room u → (length ws ≤ 8)%nat → pushed k run ufr (user_esp (hw u)) ws k1 →
  (∀ b, user_area b 1 → ¬ out b → load8 k2 b = load8 k1 b) → (∀ b, out b → b < user_esp (hw u) - 32 ∨ user_esp (hw u) + 4 ≤ b) →
  stack_words k2 (user_esp (hw u)) ws ∧ load32 k2 (user_esp (hw u)) = load32 k (user_esp (hw u)).
Proof.
  intros Hroom Hl8 Hp1 Hmem Hout. pose proof Hroom as Hr'. unfold stack_room in Hr'.
  assert (Hword : ∀ b, user_esp (hw u) - 32 ≤ b → b + 4 ≤ user_esp (hw u) + 4 → load32 k2 b = load32 k1 b).
  { intros b Hb1 Hb2. apply load_word; [eapply data_area_part; [exact Hroom|lia..]|]. intros i Hi. apply Hmem.
    - assert (Hd : data_area b 4) by (eapply data_area_part; [exact Hroom|lia..]). by apply (data_area_range b 4).
    - intros Hin. apply Hout in Hin. lia. }
  split.
  - intros i v Hi. pose proof (lookup_lt_Some _ _ _ Hi) as Hl. rewrite Hword by lia. by apply (pu_words _ _ _ _ _ _ Hp1).
  - rewrite Hword by lia. apply (pushed_load k run ufr (user_esp (hw u)) ws); [eapply data_area_part; [exact Hroom|lia..]|lia|exact Hp1].
Qed.

(** The wrapper after the kernel has returned to its process. *)
Lemma call_back k k1 k2 run rq bq P' rq' bq' w u a (e := entry_of Sysenter (called k w u)) (Q : option cpu → kernel → Prop) :
  alive P k1 run rq bq → run ≠ keeper P → stack_room u → cpu_ok u → errno_apart u → buffer_apart e u →
  pushed k run (memory P run) (user_esp (hw u)) (frame k w u) k1 → alive P' k2 run rq' bq' → run ∈ members P' →
  (∀ b, user_area b 1 → ¬ buffer_of e b → load8 k2 b = load8 k1 b) →
  (∀ k3 r, k3 = set_frames (frames k3) k2 → (0 ≤ s32 a → k3 = k2) → returned k u a r k3 → (∀ b, user_area b 1 → ¬ written_by e u b → load8 k3 b = load8 k b) → Q (Some r) k3) →
  wp (r ← after_sysexit (after_call (called k w u) (u32 sysenter_back) a); mret (Some r)) Q k2.
Proof.
  intros Ha1 Hne Hroom Hok Her Hbuf Hp1 Ha2 Hin2 Hmem HQ.
  assert (Hne' : run ≠ keeper P').
  { intros Ek. apply (NoDup_cons_1_1 (keeper P') (members P')); [exact (wf_nodup _ (al_wf _ _ _ _ _ Ha2))|by rewrite <- Ek]. }
  destruct (frame_after k k1 k2 u (memory P run) run (frame k w u) (buffer_of e) Hroom (le_n 8) Hp1 Hmem) as [Hw Hip].
  { intros b Hb. by apply Hbuf. }
  apply wp_bind. apply (wp_return w u k2 k run (memory P' run)); [by apply (alive_process P' k2 run rq' bq')|done|done|done|done|done|].
  intros r k3 Hf Hpos Hout Hret. apply wp_ret, HQ; [done|done|done|]. intros b Hb Hnw. unfold written_by in Hnw.
  rewrite Hout, Hmem by (done || tauto || lia). apply (pu_above _ _ _ _ _ _ Hp1); [done|]. cbn. lia.
Qed.

(** Only exit and block give the processor up. *)
Lemma keeps_processor k k' run rq bq n x y z a : alive P k run rq bq → run ≠ keeper P → call_enabled P k run n x y z → n ≠ 1 → n ≠ 18 →
  sys_call n x y z k = Some (a, k') → current k' = run.
Proof.
  intros Ha Hne Hce H1' H18 E. destruct (alive_on _ _ _ _ _ Ha) as (_ & _ & Hc). rewrite <- Hc. unfold current. do 3 f_equal.
  unfold sys_call in E. destruct (Z.ltb_spec n 0); [by injection E as _ <-|]. destruct (Z.ltb_spec MAX_SYSCALL n) as [?|Hle]; [by injection E as _ <-|].
  destruct (znth_in_range sys_call_table n) as [service Hs]; [pose proof (ce_table _ _ _ _ _ _ _ Hce); unfold MAX_SYSCALL in *; lia|].
  rewrite Hs in E. assert (∃ i : nat, n = Z.of_nat i) as (i & ->) by (exists (Z.to_nat n); lia). rewrite znth_of_nat in Hs. rename Hs into Hi. destruct (decide (i = 2%nat)) as [->|Hi2].
  - injection Hi as <-. destruct (unused P) as [|child fq] eqn:Hun.
    + pose proof (al_inv _ _ _ _ _ Ha) as Hinv. rewrite Hun in Hinv. destruct (proj1 (wp_run _ _ _) (sys_fork_full _ _ _ _ _ Hinv)) as (a' & k1 & E' & _ & ->).
      rewrite E' in E. by injection E as _ <-.
    + pose proof (fork_spawns P k run rq bq child fq Ha Hne Hun (ce_fork _ _ _ _ _ _ _ Hce eq_refl ltac:(by rewrite Hun))) as Hw.
      apply wp_run in Hw as (a' & k1 & E' & _ & [[Hesp _] _ _ _ _]). rewrite E' in E. by injection E as _ <-.
  - assert (Hni : i ∉ [1%nat; 2%nat; 18%nat]) by (rewrite !not_elem_of_cons; split_and!; [lia|done|lia|apply not_elem_of_nil]).
    pose proof (stacked_service _ _ _ _ service x y z i Hni Hi _ _ _ E (stacked_self k)) as [[_ Hesp _ _] _]. exact Hesp.
Qed.

Lemma answered_stays k k' run rq bq r ret a (n := s32 (eax (regs r))) : alive P k run rq bq → enabled P (entry_of Sysenter r) k →
  answered Sysenter r ret k k' run a → n ≠ 1 → n ≠ 18 → current k' = run.
Proof.
  intros Ha Hen Han. subst n. unfold answered in Han. cbn [entry_of] in Hen. destruct (arguments _ _ _ _) as [[x y] z]. destruct Han as (k2 & st & E & ->).
  destruct Hen as [Hne Hce]. rewrite (proj2 (proj2 (alive_on _ _ _ _ _ Ha))) in Hne, Hce. set (n := s32 (eax (regs r))) in *.
  assert (length (call_context r ret) ≤ 19)%nat as Hl by (cbn; lia). destruct (alive_entered P k run rq bq _ Ha Hl) as [Ha1 _].
  rewrite (entry_top P k run _ Hne) in Ha1. intros H1' H18. change (current k2 = run).
  refine (keeps_processor _ k2 run rq bq n x y z a Ha1 Hne _ H1' H18 E). destruct Hce. split; assumption.
Qed.

(** What happens in a call: [k1] is the state at [sysenter], [k2] the one at the
    return of the kernel. *)
Record traced k run ctx w u (o : option cpu) k' k1 k2 P' run' rq' bq' (ctx' : Z → context) a : Prop := {
  tr_pushed : pushed k run (memory P run) (user_esp (hw u)) (frame k w u) k1;
  tr_becomes : becomes (entry_of Sysenter (called k w u)) k P P';
  tr_answered : answered Sysenter (called k w u) (u32 sysenter_back) k1 k2 run a;
  tr_alive : alive P' k2 run' rq' bq';
  tr_resting : resting P' k2 run' ctx';
  tr_contexts : ∀ t, t ∈ members P' → ctx' t = if bool_decide (t ∈ members P ∧ t ≠ run) then ctx t else InCall (called k w u) (u32 sysenter_back);
  tr_frames : k' = set_frames (frames k') k2;
  tr_back : run' = run → (0 ≤ s32 a → k' = k2) ∧ ∃ r, o = Some r ∧ returned k u a r k' ∧
    ∀ b, user_area b 1 → ¬ written_by (entry_of Sysenter (called k w u)) u b → load8 k' b = load8 k b;
}.

Lemma call_trace k run rq bq ctx w u (e := entry_of Sysenter (called k w u)) : alive P k run rq bq → resting P k run ctx → run ≠ keeper P →
  stack_room u → cpu_ok u → errno_apart u → enabled P e k → buffer_apart e u →
  wp (system_call w u) (λ o k', ∃ k1 k2 P' run' rq' bq' ctx' a, traced k run ctx w u o k' k1 k2 P' run' rq' bq' ctx' a) k.
Proof.
  intros Ha Hre Hne Hroom Hok Her Hen Hbuf. pose proof (alive_process _ _ _ _ _ Ha Hne) as Hup.
  unfold system_call. apply wp_bind. apply (wp_enter w u k run (memory P run)); [done|done|]. intros k1 Hp1.
  pose proof (pushed_alive _ _ _ _ _ _ _ _ Ha Hp1) as Ha1. pose proof (pushed_resting _ _ _ _ _ _ _ Hre Hp1) as Hre1.
  assert (Hen1 : enabled P e k1) by (eapply pushed_enabled; [exact Hen|exact Hp1]).
  apply wp_bind, wp_gets. rewrite (proj2 (proj2 (alive_on _ _ _ _ _ Ha1))). apply wp_bind.
  assert (Hld : load32 k1 (u32 (ebp (regs (called k w u)) + 4)) = Some (u32 sysenter_back)).
  { unfold stack_room in Hroom. rewrite <- (pu_words _ _ _ _ _ _ Hp1 6%nat sysenter_back eq_refl). f_equal. cbn [called regs ebp].
    assert (Hd : data_area (user_esp (hw u) - 32 + 4) 4) by (eapply data_area_part; [exact Hroom|lia..]).
    rewrite (data_area_u32 _ 4 Hd) by lia. lia. }
  eapply wp_mono; [exact (handle_outcome P k1 run rq bq ctx Sysenter (called k w u) _ Ha1 Hre1 Hen1 (λ _, Hld))|].
  intros o k2 (P' & run' & rq' & bq' & ctx' & a & Hbe & Ha2 & Hre2 & [Hctx Hgo] & Han). fold e in Hbe.
  assert (Hbe0 : becomes e k P P') by (rewrite (pu_frames _ _ _ _ _ _ Hp1) in Hbe; exact Hbe).
  apply wp_bind, wp_gets. rewrite (proj2 (proj2 (alive_on _ _ _ _ _ Ha2))). destruct (Z.eqb_spec run' run) as [->|Hrn].
  - assert (Hne' : run ≠ keeper P') by (by rewrite (becomes_keeper _ _ _ Hbe)).
    destruct (Z.eqb_spec run (keeper P')); [done|]. subst o. destruct (alive_run _ _ _ _ _ Ha2 Hne') as [Hin2 _].
    apply (call_back k k1 k2 run rq bq P' rq' bq' w u a); try done.
    { apply (memory_after k1 k2 run rq bq rq' bq' P' _ (u32 sysenter_back) a); try done. intros b Hb. by apply Hbuf. }
    intros k3 r Hf Hpos Hret Hmem. exists k1, k2, P', run, rq', bq', ctx', a. split; try done. intros _. split; [done|]. by exists r.
  - assert (k2 = set_frames (frames k2) k2) as Ef by (by destruct k2).
    destruct o as [r|]; apply wp_ret; exists k1, k2, P', run', rq', bq', ctx', a; split; done.
Qed.

Lemma call_run k run rq bq ctx w u (e := entry_of Sysenter (called k w u)) : alive P k run rq bq → resting P k run ctx → run ≠ keeper P →
  stack_room u → cpu_ok u → errno_apart u → enabled P e k → buffer_apart e u →
  wp (system_call w u) (λ o k', ∃ P' run' rq' bq' ctx', becomes e k P P' ∧ alive P' k' run' rq' bq' ∧ resting P' k' run' ctx' ∧
    (s32 (number w) ≠ 1 → s32 (number w) ≠ 18 → run' = run) ∧
    (run' = run → ∃ r a, o = Some r ∧ served k w u run (memory P run) a k' ∧ returned k u a r k' ∧
       ∀ b, user_area b 1 → ¬ written_by e u b → load8 k' b = load8 k b)) k.
Proof.
  intros Ha Hre Hne Hroom Hok Her Hen Hbuf. eapply wp_mono; [by apply (call_trace k run rq bq ctx w u)|].
  intros o k' (k1 & k2 & P' & run' & rq' & bq' & ctx' & a & [Hp1 Hbe Han Ha2 Hre2 _ Hf Hback]).
  pose proof (pushed_alive _ _ _ _ _ _ _ _ Ha Hp1) as Ha1. assert (Hen1 : enabled P e k1) by (eapply pushed_enabled; [exact Hen|exact Hp1]).
  exists P', run', rq', bq', ctx'. split; [done|]. rewrite Hf. split; [by apply alive_stored|]. split; [by apply resting_stored|]. rewrite <- Hf.
  split.
  - intros H1' H18. rewrite <- (proj2 (proj2 (alive_on _ _ _ _ _ Ha2))). exact (answered_stays k1 k2 run rq bq _ _ a Ha1 Hen1 Han H1' H18).
  - intros E. destruct (Hback E) as (_ & r & -> & Hret & Hmem). exists r, a. split; [done|]. split; [|done].
    by exists k1, k2.
Qed.
End run.

(** C6: a system call, seen by the program.  A process calls a wrapper of the
    library with room on its stack; the service can be called ([enabled]), and the buffer of a
    [read] is in the data of the process, outside the frame of the wrapper.
    Then no process is lost and every process that waits has its registers on its kernel
    stack.  Every call but exit and block comes back at once; exit and
    block may give the processor to another process.  When the call comes back
    the process goes on at its return address with the stack as
    before the call and %ebx, %esi, %edi and %ebp as they were: the kernel has
    returned it to the address that the wrapper pushed, the rest of the wrapper.
    %eax is the answer of the service, run on the state at the call with the words
    of the wrapper on the stack of the process, or -1, with [errno] the negated
    answer, if the answer is negative.  Of the memory of the process only the buffer, the frame
    below its stack pointer and [errno] may have changed. *)
Theorem call_returns `{LayoutOk, CodeOk, UserCode} P k run rq bq ctx w u :
  alive P k run rq bq → resting P k run ctx → run ≠ keeper P →
  stack_room u → cpu_ok u → errno_apart u → let e := entry_of Sysenter (called k w u) in
  enabled P e k → buffer_apart e u →
  wp (system_call w u) (λ o k', ∃ P' run' rq' bq' ctx', becomes e k P P' ∧ alive P' k' run' rq' bq' ∧ resting P' k' run' ctx' ∧
    (s32 (number w) ≠ 1 → s32 (number w) ≠ 18 → run' = run) ∧
    (run' = run → ∃ r a, o = Some r ∧ served k w u run (memory P run) a k' ∧ returned k u a r k' ∧
       ∀ b, user_area b 1 → ¬ written_by e u b → load8 k' b = load8 k b)) k.
Proof. apply call_run. Qed.

(** The first process asks for its identifier. *)
#[export] Instance example_user_code : UserCode := {| errno := 0x100000; sysenter_back := 0x114300 |}.

Lemma call_returns_witness : ∃ k,
  wp (system_call (H := example_layout) getpid (example_cpu 77)) (λ o _, ∃ r, o = Some r ∧ eax (regs r) = 1 ∧ ebx (regs r) = 2) k.
Proof.
  assert (HC : CodeOk (H := example_code)) by (split; split; discriminate).
  destruct example_alive as (k' & Hm & Hb & Ha). pose (k := set_esp (tss_esp0 k') k').
  assert (Hre : resting (H := example_layout) first_population k task1 (λ _, Interrupted (example_cpu 1))).
  { by apply (first_resting 0x5000 (mret tt) (loaded_image example_frames)). }
  destruct (bo_task1 _ _ Hb) as (p & Hp & Hpid & _). change (tasks k !! task1 (H := example_layout) = Some p) in Hp.
  fold k in Ha. clearbody k. destruct (alive_on _ _ _ _ _ Ha) as (_ & _ & Hc). exists k.
  eapply wp_mono; [apply (call_returns _ _ _ _ _ _ getpid (example_cpu 77) Ha Hre)|].
  - by vm_compute.
  - split; by vm_compute.
  - split; split; by vm_compute.
  - split; [split; by vm_compute|]. left. by vm_compute.
  - split; rewrite Hc; [by vm_compute|by split].
  - intros b [E _]. discriminate E.
  - intros o k1 (P1 & run1 & rq1 & bq1 & ctx1 & _ & _ & _ & Hstay & Hback). destruct (Hback (Hstay ltac:(by vm_compute) ltac:(by vm_compute))) as (r & a & -> & Han & [Hans _ [Hbx _] _] & _).
    exists r. split; [done|]. split; [|exact Hbx]. destruct Han as (k2 & k3 & Hpu & (k4 & st & E & _) & _). rewrite Hans. clear Hans Hback Hstay.
    rewrite (pu_frames _ _ _ _ _ _ Hpu) in E. set (ws := call_context _ _) in E. clearbody ws.
    change (sys_getpid (set_stacks (push_words (stack_top (task1 (H := example_layout))) ws (stacks k)) (set_esp (stack_top (task1 (H := example_layout))) (set_frames (frames k2) k))) = Some (a, k4)) in E.
    unfold sys_getpid, pcb, ask, gets, mbind, M_bind in E. change (current _) with (task1 (H := example_layout)) in E.
    change (tasks (set_stacks _ _)) with (tasks k) in E. rewrite Hp in E. injection E as <- _. by rewrite Hpid.
Defined.
