(* ===== verification/Twice.v ===== *)
(** * A fork returns twice

    The process that calls [fork] and the new process: both come back from the
    same call, with the same registers and the same memory, and tell each other
    apart by the answer; [main] of user.c is the branch on it. *)

From stdpp Require Import functions.
From S2P Require Import Prelude CInt Memory Errno Console Paging Descriptors Kernel Mm Space Words Sched Boot Interrupt System UserIO Process Fork Types Entries Population Steps CodeWrites Births Life Isolation Keyboard Input Gate Stacks Turns Registers Calls.
Import PTE PageTable.



Section twice.
Context `{LayoutOk, CodeOk, UserCode} (P : population).
Implicit Types (k : kernel) (run child b : Z) (rq bq fq : list Z) (ufr : Z → Z).





End twice.


